(* ===== verification/_CoqProject ===== *)
-Q . S2P
Prelude.v
Bitmap.v
Mem.v
CycleList.v
CString.v
RingBuffer.v
DoublebitMap.v
Swar.v
Paging.v
SmallBlocks.v
Process.v
Scheduler.v
Ipc.v
Machine.v
KernelMain.v
Syscalls.v
Packets.v
NetIf.v
Tcp.v
Net.v
Handshake.v
FsState.v
Inode.v
Dir.v
File.v
FileSystem.v
FsTypes.v
DirSpec.v
FileSpec.v
FormatSpec.v
FsDefects.v
Keyboard.v
Ports.v
Ata.v
DiskDriver.v
Ne2k.v
DriverMain.v
Users.v
Accounts.v
Terminal.v
TermSpec.v
FsServer.v
LibrarySpec.v
Delivery.v
AccessSpec.v
Sync.v
Image.v
Cpu.v
WriteBounds.v
Builtin.v
Waiters.v
Reception.v
DnsName.v
MkFile.v
FileLife.v
Fresh.v
