(* ===== verification/Prelude.v ===== *)
(** * Shmily: a verification library for the micro kernel operating system

    Shmily is a small 32-bit operating system.  The kernel (src/kernel) starts
    the processes, schedules them, and passes messages; everything else runs in
    processes of its own that answer messages: the memory manager (src/mm), the
    drivers (src/dr), the file system (src/fs), the network (src/net) and the
    terminal (src/terminal).  Data structures that several of them use are in
    src/lib.  User code calls src/lib/all_syscall.cc, which turns a call into a
    message and takes the result from the reply.

    ** Modelling

    Integers are [Z] with the wrap-around of their C type written out ([u8],
    [u16], [u32], [s32] ...).  An access the language gives no meaning (outside
    an array, through a null pointer) is [None], and a theorem that a function
    returns [Some] includes that it makes no such access.  Functions that change
    state take it and give it back; recursion follows the loops of the code, with
    a bound where a loop has none.  Pointers into shared memory are addresses:
    lists that are linked through their elements ([Mem.v], [CycleList.v]) and
    memory blocks ([Paging.v], [SmallBlocks.v]) live in a byte memory, processes
    and messages in maps by address.  Printing is left out, except where it is
    the point of a function.

    ** Files

    - Prelude.v: integers, arrays, tactics, reachability, bit facts.  Mem.v: byte
      memory.
    - Bitmap.v (lib/bitmap.cc), CycleList.v (lib/cycle_list.cc), CString.v
      (lib/string.cc, stdio.cc, net_utilies.cc), RingBuffer.v (lib/ring_buffer.cc,
      indirect_ring_buffer.cc): the data structures.  [bitmap_scan] is first fit;
      the cyclic list implements operations on a sequence; a printed number reads
      back; the rings are first-in first-out queues.
    - DoublebitMap.v (mm/doublebit_map.cc), Swar.v (mm/swar.cc), Paging.v
      (mm/memory.cc, pages), SmallBlocks.v (mm/memory.cc, blocks below a page,
      mm/small_mem_header.cc, mm/main.cc): the memory manager.  The slot map
      refines a set of disjoint allocations; pages are mapped to frames of their
      own and unmapped when freed; a small block is taken from, and returned to,
      the free queue of its page.
    - Process.v (kernel/process.cc, timer.cc, sync.cc, tss.cc) defines processes
      and the scheduler, Scheduler.v proves them: the invariant [kinv] relates the
      ready queues in memory to the status of the processes; [schedule] serves the
      right queue and keeps it; boot establishes it and [start_process] extends it.
    - Ipc.v (kernel/ipc.cc, syscall_init.cc, lib/syscall.cc): messages.  When the
      receiver waits it gets the message and becomes ready, otherwise the sender
      is queued and blocks; the defects of [receive] and of interrupt messages
      are theorems about the states in which they show.
    - Machine.v (kernel/interrupt.cc, tss.cc, page.cc, cmos.cc, lib/time.cc): the
      interrupt table, the identity mapping of low memory and the place of the
      page tables, the coding of times.  KernelMain.v (kernel/main.cc): the
      system reaches a state that satisfies [kinv] with every process in its
      queue.  Syscalls.v (lib/all_syscall.cc): the calls over the class [Ipc] of
      message exchanges; the memory manager is an instance, and a request for the
      time is followed through the kernel to the caller.
    - Packets.v (net/ethernet.cc, ip.cc, icmp.cc, arp.cc, udp.cc, dns.cc,
      byte_order.cc), NetIf.v (net/arp.cc, route_table.cc, network_interface.cc,
      network_manager.cc), Tcp.v (net/tcp.cc), Net.v (net/protocol_stack.cc,
      main.cc), Handshake.v: the network.  Headers and segments verify and carry
      their fields; the ARP cache finds what was appended; two machines that
      exchange the frames of [connect] end with an established connection.
    - FsState.v (fs/fs.h, super_block.h, inode.h, dir.h, file.h), Inode.v
      (fs/inode.cc), Dir.v (fs/dir.cc, protect.cc), File.v (fs/file.cc), FileSystem.v
      (fs/fs.cc, main.cc, exec.cc): the file system, as computations [fsm] on a
      state with the sectors of the disk.  FsTypes.v: whatever is asked of it, its
      data keep their types.  DirSpec.v: a path leads along its names, a directory
      is a map from names to inodes.  FileSpec.v: a write of less than a sector is
      read back.  FormatSpec.v: formatting and mounting give an empty file system,
      whose regions divide the partition ([laid_out]).  FsDefects.v: runs that show
      where the code fails its intention; a removal uses its buffer after it was
      freed, so that there is no theorem that it works.

    - Keyboard.v (dr/keyboard.cc): keys pressed and released give the characters
      typed.  Ports.v (include/io.h): port input and output as a class.  Ata.v,
      DiskDriver.v (dr/disk.cc): on drives that follow the ATA protocol the driver
      reads the sectors asked for, and writes them when the drive is ready at the
      one look the driver takes.  Ne2k.v (dr/ne2k.cc): the network
      card; a packet sent is on the wire.  DriverMain.v (dr/main.cc): the requests.
    - Users.v (terminal/hahash.cc, user.cc, commands of builtin_cmd.cc), Accounts.v:
      the accounts in /etc/passwd; a login finds the first account with this name
      and the hash of this password.  Terminal.v (terminal/terminal.cc,
      builtin_cmd.cc, main.cc), TermSpec.v: the terminal; a line is cut into its
      words, a path is made absolute, and runs that show defects.
    - FsServer.v (fs/main.cc, lib/syscall.cc), LibrarySpec.v: the file system as
      the server of the calls of lib/all_syscall.cc on shared memory; a line that
      is written through them is read back.  Delivery.v: the two ends of
      an established connection implement a queue, in which each acknowledgement
      that is answered is an empty message.  AccessSpec.v: every answer of
      [open_file] and [cd].  Sync.v, Waiters.v (kernel/sync.cc): a lock excludes,
      its steps interleaved with those of other processes; the processes that wait
      for a semaphore are a stack.  Cpu.v (kernel/machine.cc,
      interrupt.cc): the interrupt flag and table, and what halt and power off do
      to the processor.  Image.v (tools/build_img.cc): the table of the image
      gives the place of each program in it.
    - WriteBounds.v (fs/file.cc): when a write that covers a file stays within its
      objects.  Builtin.v (terminal/builtin_cmd.cc): the commands as messages;
      those to the file system are the computations Terminal.v runs them with.
      Reception.v (dr/ne2k.cc, net/main.cc): the frames in the ring of the network
      card are buffered in their order; an interrupt sends one message, for which
      the network process takes one frame.  DnsName.v (net/dns.cc): a name
      in a query reads back as its labels.
    - MkFile.v (fs/file.cc, dir.cc, inode.cc): [sys_mkfile] adds one path to the tree
      of directories ([tree_ok]) and changes no other.  FileLife.v: a file that is created, opened by its path and
      written is read back.  Fresh.v: a partition that has been formatted and
      mounted takes files.

    ** Components and their interfaces

    [Mem.v] and [CycleList.v] carry the memory manager and the scheduler; the
    scheduler's lemmas ([schedule_spec], [self_block_spec], [unblock_proc_spec])
    are what Ipc.v uses, and Ipc.v's [send_delivers_spec] is what Syscalls.v
    uses.  The class [Syscalls.Ipc] is the interface between user code and the
    processes that answer it.  The memory manager is one instance ([mm_ipc]), the
    file system another ([fs_ipc]).  The file system has the disk driver, the memory
    manager and the kernel's clock behind [read_disk], [write_disk], [malloc],
    [free] and the field [clock]; its theorems use [keeps] (what a computation
    preserves) and [runs] (it returns, and what then holds).  The disk driver
    implements [read_disk], and [write_disk] on drives that are ready when it looks
    ([driver_implements_disk]); the file system is modelled on such drives.  Drivers
    are written over the class [Ports] of port operations, with the laws
    [PortLaws]; [Ata] and [Ne2000] say what the devices do, and the instances
    [channel] and [lan] are such devices.  The terminal uses the computations of
    the file system as the answers to its requests.

    ** Bounds and fuel

    [schedule] takes a bound on the length of a ready queue ([short_queues]), for
    which the number of processes is enough ([short_enough]); the
    walk of [receive] along the chain of senders takes a bound because the chain
    can be cyclic, which is a theorem; [readline] and [strcpy_mem] take a bound on
    the length of a line or string; [itoa] has 32 digits at most; [walk] (fs/dir.cc)
    has one turn per character of the path, which [path_resolves] shows to be
    enough.  The disk driver polls 29 times, as its code does, and follows at most
    five extended boot records; the loops that read a file of accounts or of
    logins line by line take a bound on the lines; the loops that wait for a
    device or look for frames take a bound on their turns.  All other recursions are structural or run a fixed number of times.

    ** Assumptions

    Functions of the kernel run with interrupts disabled, but for the locks of
    kernel/sync.cc, whose steps are interleaved (Sync.v); a switch of stacks is
    the assignment of [cur_proc].  The contents of freshly allocated or
    uninitialised memory are parameters.  Code in assembly (entry points,
    [switch_to]'s instructions), the processor's tables and devices enter as
    addresses or parameters.  The memory manager has a block for every request of
    the file system; a block that is used or freed after it was freed has no
    meaning ([alive]).  [vaddr2pte] (mm/memory.cc) has no [return]: what its
    compiled code gives is the class [Compiler], and the theorems on pages assume
    that it leaves the value it has computed.  The address 0, where the null
    pointers of a client's receive ring lead (net/tcp.cc), is memory of the network
    process.  The ready queues lie where kernel/link.ld puts the kernel.

    Ports without a device read as 0xff; the disk answers as the ATA protocol
    says, busy for as long as it likes, the network card as the data sheet of the
    DP8390, with its received frames in the ring from page 0x46 to page 0x60 that
    [init_ne2k] sets up.  The message of a driver to another process is accepted
    at once.  Requests are answered.

    ** Not modelled

    The assembly files, which switch modes, stacks and segments and load the
    programs.  The functions that only print
    ([traverse], [show_info], [out_mac_addr], [print_all]) have no state that
    the rest depends on.  The cursor and the clearing of the screen, and
    [sleep_seconds_demo], which nothing calls, are left out. *)
From Stdlib Require Export ZArith Lia.
From stdpp Require Export base tactics list gmap option numbers.
Export list_relations.list list_basics.list.

#[global] Open Scope Z_scope.

(** ** Machine integers

    A value of an unsigned C type of width [w] is a [Z] in [0, 2^w); the
    conversions below are the ones the language performs when a value is stored
    in, or cast to, a narrower type. *)

Definition u8 (z : Z) : Z := z mod 256.
Definition u16 (z : Z) : Z := z mod 65536.
Definition u32 (z : Z) : Z := z mod 4294967296.
Definition u64 (z : Z) : Z := z mod 18446744073709551616.
(** Conversion to [int] (two's complement). *)
Definition s32 (z : Z) : Z := (z + 2147483648) mod 4294967296 - 2147483648.

(** Value of a [char] (signed on this target) stored as the byte [z]. *)
Definition s8 (z : Z) : Z := (z + 128) mod 256 - 128.

Definition is_u8 (z : Z) : Prop := 0 <= z < 256.
Definition is_u16 (z : Z) : Prop := 0 <= z < 65536.
Definition is_u32 (z : Z) : Prop := 0 <= z < 4294967296.

(** C truth value of an integer. *)
Definition truth (z : Z) : bool := negb (z =? 0).

(** ** Arrays

    An array (or the object a pointer points into) is a list; indices are [Z].
    An access outside the object has no defined result: it is [None], and so is
    every computation that performs one. *)

Definition zlen {A} (l : list A) : Z := Z.of_nat (length l).

Definition zget {A} (l : list A) (i : Z) : option A :=
  if 0 <=? i then l !! Z.to_nat i else None.

Definition zset {A} (l : list A) (i : Z) (x : A) : option (list A) :=
  if (0 <=? i) && (i <? zlen l) then Some (<[Z.to_nat i := x]> l) else None.

Declare Scope shmily_scope.
Delimit Scope shmily_scope with shmily.
Notation "l .[ i ]" := (zget l i)
  (at level 1, i at level 200, left associativity, format "l .[ i ]") : shmily_scope.
Notation "l .[ i <- x ]" := (zset l i x)
  (at level 1, i at level 200, x at level 200, left associativity,
   format "l .[ i  <-  x ]") : shmily_scope.
#[global] Open Scope shmily_scope.

Create HintDb shmily.
Create Rewrite HintDb shmily.

Ltac unwrap := unfold u8, u16, u32, u64, s32, s8, is_u8, is_u16, is_u32, truth in *.

(** Case analysis on the boolean comparisons and options of a goal. *)
Ltac zbool :=
  repeat match goal with
  | H : _ && _ = true |- _ => apply andb_true_iff in H; let H1 := fresh "Eb" in let H2 := fresh "Eb" in destruct H as [H1 H2]
  | H : _ && _ = false |- _ => apply andb_false_iff in H; destruct H as [H|H]
  | H : _ || _ = true |- _ => apply orb_true_iff in H; destruct H as [H|H]
  | H : _ || _ = false |- _ => apply orb_false_iff in H; let H1 := fresh "Eb" in let H2 := fresh "Eb" in destruct H as [H1 H2]
  | H : negb _ = true |- _ => apply negb_true_iff in H
  | H : negb _ = false |- _ => apply negb_false_iff in H
  | H : (_ =? _) = true |- _ => apply Z.eqb_eq in H
  | H : (_ =? _) = false |- _ => apply Z.eqb_neq in H
  | H : (_ <? _) = true |- _ => apply Z.ltb_lt in H
  | H : (_ <? _) = false |- _ => apply Z.ltb_ge in H
  | H : (_ <=? _) = true |- _ => apply Z.leb_le in H
  | H : (_ <=? _) = false |- _ => apply Z.leb_gt in H
  end.

(** Destruct the scrutinee of the first [if] or [match] of the goal. *)
Ltac case_if :=
  match goal with
  | |- context [if ?b then _ else _] => let E := fresh "E" in destruct b eqn:E
  end; zbool.

(** Reduce the binds of the option monad, and nothing else. *)
Ltac sbind := cbn [mbind option_bind].

Ltac bind_Some H :=
  match type of H with
  | (mbind _ ?e) = Some _ => let x := fresh "x" in let E := fresh "E" in
      destruct e as [x|] eqn:E; cbn [mbind option_bind] in H; [|discriminate H]
  end.

Lemma u8_range z : 0 <= u8 z < 256. Proof. apply Z.mod_pos_bound. lia. Qed.
Lemma u16_range z : 0 <= u16 z < 65536. Proof. apply Z.mod_pos_bound. lia. Qed.
Lemma u32_range z : 0 <= u32 z < 4294967296. Proof. apply Z.mod_pos_bound. lia. Qed.
Lemma u8_id z : 0 <= z < 256 -> u8 z = z. Proof. apply Z.mod_small. Qed.
Lemma u16_id z : 0 <= z < 65536 -> u16 z = z. Proof. apply Z.mod_small. Qed.
Lemma u32_id z : 0 <= z < 4294967296 -> u32 z = z. Proof. apply Z.mod_small. Qed.
Lemma s32_id z : -2147483648 <= z < 2147483648 -> s32 z = z.
Proof. intros. unfold s32. rewrite Z.mod_small; lia. Qed.
Lemma s8_id z : 0 <= z < 128 -> s8 z = z.
Proof. intros. unfold s8. rewrite Z.mod_small; lia. Qed.
#[export] Hint Resolve u8_range u16_range u32_range : shmily.
#[export] Hint Rewrite u8_id u16_id u32_id s32_id s8_id using lia : shmily.

Lemma zlen_nonneg {A} (l : list A) : 0 <= zlen l.
Proof. unfold zlen. lia. Qed.
#[export] Hint Resolve zlen_nonneg : shmily.

Lemma zlen_cons {A} (x : A) l : zlen (x :: l) = 1 + zlen l.
Proof. unfold zlen. simpl. lia. Qed.
Lemma zlen_app {A} (l k : list A) : zlen (l ++ k) = zlen l + zlen k.
Proof. unfold zlen. rewrite length_app. lia. Qed.

Lemma zget_Some {A} (l : list A) i x :
  l.[i] = Some x <-> 0 <= i /\ l !! Z.to_nat i = Some x.
Proof.
  unfold zget. destruct (0 <=? i) eqn:E; zbool; split; intros H; auto; try tauto.
  - discriminate H.
  - lia.
Qed.

Lemma zget_lt {A} (l : list A) i x : l.[i] = Some x -> 0 <= i < zlen l.
Proof.
  intros [? H]%zget_Some. apply lookup_lt_Some in H. unfold zlen. lia.
Qed.

Lemma zget_is_Some {A} (l : list A) i : is_Some (l.[i]) <-> 0 <= i < zlen l.
Proof.
  split.
  - intros [x H]. eauto using zget_lt.
  - intros H. unfold zget. destruct (0 <=? i) eqn:E; zbool; [|lia].
    apply lookup_lt_is_Some. unfold zlen in H. lia.
Qed.

Lemma zget_in {A} (l : list A) i : 0 <= i < zlen l -> exists x, l.[i] = Some x.
Proof. intros H. apply zget_is_Some in H as [x ?]. eauto. Qed.

Lemma zget_None {A} (l : list A) i : l.[i] = None <-> i < 0 \/ zlen l <= i.
Proof.
  split.
  - intros H. destruct (decide (0 <= i < zlen l)) as [D|D]; [|lia].
    apply zget_is_Some in D as [x D]. congruence.
  - intros H. destruct (l.[i]) eqn:E; [|done]. apply zget_lt in E. lia.
Qed.

Lemma zset_Some {A} (l : list A) i x l' :
  l.[i <- x] = Some l' <-> 0 <= i < zlen l /\ l' = <[Z.to_nat i := x]> l.
Proof.
  unfold zset. destruct ((0 <=? i) && (i <? zlen l)) eqn:E; zbool; split; intros H.
  all: try (discriminate H); try lia.
  - inversion H. auto.
  - destruct H as [_ ->]. done.
Qed.

Lemma zset_in {A} (l : list A) i x :
  0 <= i < zlen l -> l.[i <- x] = Some (<[Z.to_nat i := x]> l).
Proof. intros. apply zset_Some. auto. Qed.

Lemma zset_None {A} (l : list A) i x :
  l.[i <- x] = None <-> i < 0 \/ zlen l <= i.
Proof.
  unfold zset. destruct ((0 <=? i) && (i <? zlen l)) eqn:E; zbool;
    split; intros Hx; try done; try lia.
Qed.

Lemma zset_zlen {A} (l : list A) i x l' : l.[i <- x] = Some l' -> zlen l' = zlen l.
Proof. intros [_ ->]%zset_Some. unfold zlen. by rewrite length_insert. Qed.

Lemma zget_zset {A} (l : list A) i x l' :
  l.[i <- x] = Some l' -> l'.[i] = Some x.
Proof.
  intros [? ->]%zset_Some. apply zget_Some. split; [lia|].
  apply list_lookup_insert_eq. unfold zlen in *. lia.
Qed.

Lemma zget_zset_ne {A} (l : list A) i j x l' :
  l.[i <- x] = Some l' -> i <> j -> l'.[j] = l.[j].
Proof.
  intros [? ->]%zset_Some ?. unfold zget. destruct (0 <=? j) eqn:E; zbool; [|done].
  apply list_lookup_insert_ne. lia.
Qed.

Lemma Forall_zget {A} (P : A -> Prop) l i x : l.[i] = Some x -> Forall P l -> P x.
Proof. intros [_ H]%zget_Some Hl. eapply Forall_lookup_1; eauto. Qed.

Lemma zset_mid {A} (pre : list A) a r v : (pre ++ a :: r).[zlen pre <- v] = Some (pre ++ v :: r).
Proof.
  rewrite zset_in by (rewrite zlen_app, zlen_cons; pose proof (zlen_nonneg pre); pose proof (zlen_nonneg r); lia).
  f_equal. unfold zlen. rewrite Nat2Z.id, insert_app_r_alt by lia. rewrite Nat.sub_diag. done.
Qed.

Lemma zget_insert {A} (l : list A) i j x :
  0 <= i < zlen l -> 0 <= j ->
  (<[Z.to_nat i := x]> l).[j] = if i =? j then Some x else l.[j].
Proof.
  intros Hi Hj. pose proof (zset_in l i x Hi) as Hs.
  destruct (i =? j) eqn:E; zbool.
  - subst. eapply zget_zset; eauto.
  - eapply zget_zset_ne; eauto.
Qed.

Lemma zlen_insert {A} (l : list A) n x : zlen (<[n := x]> l) = zlen l.
Proof. unfold zlen. by rewrite length_insert. Qed.
#[export] Hint Rewrite @zlen_insert @zlen_app @zlen_cons : shmily.

Lemma zget_ext {A} (l k : list A) :
  zlen l = zlen k -> (forall i, 0 <= i < zlen l -> l.[i] = k.[i]) -> l = k.
Proof.
  intros Hlen H. apply list_eq. intros n.
  destruct (decide (n < length l)%nat) as [D|D].
  - specialize (H (Z.of_nat n)). unfold zget, zlen in *.
    destruct (0 <=? Z.of_nat n) eqn:E; zbool; [|lia].
    rewrite Nat2Z.id in H. apply H. lia.
  - unfold zlen in *. rewrite !lookup_ge_None_2 by lia. done.
Qed.

Lemma zget_app_l {A} (l k : list A) i : i < zlen l -> (l ++ k).[i] = l.[i].
Proof.
  intros H. unfold zget. destruct (0 <=? i) eqn:E; zbool; [|done].
  apply lookup_app_l. unfold zlen in H. lia.
Qed.

Lemma zget_app_r {A} (l k : list A) i :
  zlen l <= i -> (l ++ k).[i] = k.[i - zlen l].
Proof.
  intros H. pose proof (zlen_nonneg l). unfold zget, zlen in *.
  destruct (0 <=? i) eqn:E; destruct (0 <=? i - Z.of_nat (length l)) eqn:E'; zbool; try lia.
  rewrite lookup_app_r by lia. f_equal. lia.
Qed.

(** ** Reachability *)

Section star.
Context {A : Type} (R : A -> A -> Prop).
  (** Zero or more steps. *)
Inductive star : A -> A -> Prop :=
| star_refl a : star a a
| star_step a b c : R a b -> star b c -> star a c.

Lemma star_inv_preserved (I : A -> Prop) :
    (forall a b, I a -> R a b -> I b) -> forall a b, star a b -> I a -> I b.
Proof. intros HI a b H. induction H; eauto. Qed.

Lemma star_trans a b c : star a b -> star b c -> star a c.
Proof. intros H. induction H; [done|]. intros ?. eapply star_step; eauto. Qed.
End star.

(** ** Bits of a byte *)

Lemma truth_false z : truth z = false <-> z = 0.
Proof. unfold truth. split; intros H; zbool; subst; auto. Qed.

Lemma truth_land_bit b k : 0 <= k -> truth (Z.land b (Z.shiftl 1 k)) = Z.testbit b k.
Proof.
  intros Hk. rewrite Z.shiftl_1_l. destruct (Z.testbit b k) eqn:E.
  - destruct (truth _) eqn:F; [done|]. apply truth_false in F.
    assert (Z.testbit (Z.land b (2 ^ k)) k = true) as G.
    { rewrite Z.land_spec, Z.pow2_bits_true, E by lia. done. }
    rewrite F, Z.bits_0 in G. discriminate G.
  - apply truth_false. apply Z.bits_inj_0. intros n.
    rewrite Z.land_spec. destruct (decide (n = k)) as [->|D].
    + by rewrite E.
    + rewrite Z.pow2_bits_false by lia. apply andb_false_r.
Qed.

Lemma testbit_u8 x j : 0 <= j -> Z.testbit (u8 x) j = (j <? 8) && Z.testbit x j.
Proof.
  intros Hj. unfold u8. change 256 with (2 ^ 8).
  destruct (j <? 8) eqn:E; zbool.
  - apply Z.mod_pow2_bits_low. lia.
  - apply Z.mod_pow2_bits_high. lia.
Qed.

Lemma testbit_small b w j : 0 <= b < 2 ^ w -> 0 <= w <= j -> Z.testbit b j = false.
Proof.
  intros Hb Hj. destruct (decide (b = 0)) as [->|D]; [apply Z.bits_0|].
  apply Z.bits_above_log2; [lia|]. apply Z.log2_lt_pow2; [lia|].
  apply Z.lt_le_trans with (2 ^ w); [lia|]. apply Z.pow_le_mono_r; lia.
Qed.

Lemma testbit_shl1 k j : 0 <= k -> 0 <= j -> Z.testbit (Z.shiftl 1 k) j = (k =? j).
Proof.
  intros Hk Hj. rewrite Z.shiftl_1_l. destruct (k =? j) eqn:E; zbool.
  - subst. by apply Z.pow2_bits_true.
  - apply Z.pow2_bits_false. lia.
Qed.

Lemma testbit_setbit8 b k j : is_u8 b -> 0 <= k < 8 -> 0 <= j ->
  Z.testbit (u8 (Z.lor b (Z.shiftl 1 k))) j = (k =? j) || Z.testbit b j.
Proof.
  intros Hb Hk Hj. rewrite testbit_u8, Z.lor_spec, testbit_shl1 by lia.
  destruct (j <? 8) eqn:E; zbool; simpl.
  - apply orb_comm.
  - rewrite (testbit_small b 8) by (unfold is_u8 in Hb; lia).
    destruct (k =? j) eqn:F; zbool; [lia|done].
Qed.

Lemma testbit_clrbit8 b k j : is_u8 b -> 0 <= k < 8 -> 0 <= j ->
  Z.testbit (u8 (Z.land b (Z.lnot (Z.shiftl 1 k)))) j = negb (k =? j) && Z.testbit b j.
Proof.
  intros Hb Hk Hj. rewrite testbit_u8, Z.land_spec, Z.lnot_spec, testbit_shl1 by lia.
  destruct (j <? 8) eqn:E; zbool; simpl.
  - apply andb_comm.
  - rewrite (testbit_small b 8) by (unfold is_u8 in Hb; lia). by rewrite andb_false_r.
Qed.

(** Two bytes with the same eight bits are equal. *)
Lemma byte_ext a b : is_u8 a -> is_u8 b ->
  (forall j, 0 <= j < 8 -> Z.testbit a j = Z.testbit b j) -> a = b.
Proof.
  intros Ha Hb H. apply Z.bits_inj'. intros j Hj.
  destruct (decide (j < 8)) as [D|D]; [apply H; lia|].
  rewrite !(testbit_small _ 8) by (unfold is_u8 in *; lia). done.
Qed.

(** Exhaustive checking of a boolean property of a byte, or of a small
    number. *)
Definition below (n : nat) (P : Z -> bool) : bool := forallb (fun k => P (Z.of_nat k)) (seq 0 n).

Lemma below_spec n P : below n P = true -> forall z, 0 <= z < Z.of_nat n -> P z = true.
Proof.
  unfold below. rewrite forallb_forall. intros H z Hz.
  rewrite <- (Z2Nat.id z) by lia. apply H, in_seq. lia.
Qed.

(** Extracting a bit field with a mask. *)
Lemma land_field v s k : 0 <= s -> 0 <= k ->
  Z.land v (Z.ones k * 2 ^ s) = (v / 2 ^ s) mod 2 ^ k * 2 ^ s.
Proof.
  intros Hs Hk. apply Z.bits_inj'. intros j Hj.
  rewrite Z.land_spec, <- !Z.shiftl_mul_pow2, !Z.shiftl_spec by lia.
  destruct (decide (j < s)).
  { by rewrite !(Z.testbit_neg_r _ (j - s)), andb_false_r by lia. }
  destruct (decide (j - s < k)).
  - rewrite Z.mod_pow2_bits_low, Z.div_pow2_bits, Z.ones_spec_low by lia.
    rewrite andb_true_r. f_equal. lia.
  - rewrite Z.mod_pow2_bits_high, Z.ones_spec_high by lia. apply andb_false_r.
Qed.

(** Or-ing flags into the clear low bits of an aligned value. *)
Lemma lor_low p q k : 0 <= k -> 0 <= q < 2 ^ k -> Z.lor (p * 2 ^ k) q = p * 2 ^ k + q.
Proof.
  intros Hk Hq. rewrite <- Z.lxor_lor, <- Z.add_nocarry_lxor.
  - done.
  - apply Z.bits_inj'. intros j Hj. rewrite Z.land_spec, Z.bits_0, <- Z.shiftl_mul_pow2 by lia.
    rewrite Z.shiftl_spec by lia. destruct (decide (j < k)).
    + by rewrite Z.testbit_neg_r by lia.
    + rewrite (testbit_small q k) by lia. apply andb_false_r.
  - apply Z.bits_inj'. intros j Hj. rewrite Z.land_spec, Z.bits_0, <- Z.shiftl_mul_pow2 by lia.
    rewrite Z.shiftl_spec by lia. destruct (decide (j < k)).
    + by rewrite Z.testbit_neg_r by lia.
    + rewrite (testbit_small q k) by lia. apply andb_false_r.
Qed.
