(* ===== verification/Bitmap.v ===== *)
(** * Bitmaps (lib/bitmap.cc)

    [struct bitmap]: one bit per physical page, inode or disk block.  [base] is
    the memory from the pointer [base] on, of which the first [bytes_len] bytes
    are the bitmap; reading or writing past the last byte of [base] is an access
    outside the object, hence [None]. *)
From S2P Require Import Prelude.

Record bitmap := mk_bitmap { bytes_len : Z; base : list Z }.

Definition bitmap_verify_bit (bmap : bitmap) (idx : Z) : option bool :=
  let byte_idx := idx / 8 in
  let bit_idx := idx mod 8 in
  b ← bmap.(base).[byte_idx];
  Some (truth (Z.land b (Z.shiftl 1 bit_idx))).

Definition bitmap_set_bit (bmap : bitmap) (idx val : Z) : option bitmap :=
  let byte_idx := idx / 8 in
  let bit_idx := idx mod 8 in
  b ← bmap.(base).[byte_idx];
  base' ← (if truth val
           then bmap.(base).[byte_idx <- u8 (Z.lor b (Z.shiftl 1 bit_idx))]
           else bmap.(base).[byte_idx <- u8 (Z.land b (Z.lnot (Z.shiftl 1 bit_idx)))]);
  Some (mk_bitmap bmap.(bytes_len) base').

(** [memset(base, 0, bytes_len)]. *)
Definition init_bitmap (bmap : bitmap) : option bitmap :=
  if bmap.(bytes_len) <=? zlen bmap.(base)
  then Some (mk_bitmap bmap.(bytes_len)
               (replicate (Z.to_nat bmap.(bytes_len)) 0
                ++ drop (Z.to_nat bmap.(bytes_len)) bmap.(base)))
  else None.

(** The first loop of [bitmap_scan]: [l] is the memory from [base + byte_idx]
    on.  The byte is read before the index is compared with [bytes_len]. *)
Fixpoint skip_full_bytes (l : list Z) (bytes_len byte_idx : Z) : option Z :=
  match l with
  | [] => None
  | b :: l' =>
      if (0xff =? b) && (byte_idx <? bytes_len)
      then skip_full_bytes l' bytes_len (byte_idx + 1)
      else Some byte_idx
  end.

(** The second loop: at [bit_idx = 8] the byte [1 << bit_idx] is 0, so the
    loop makes at most nine tests. *)
Fixpoint first_zero_bit (fuel : nat) (b bit_idx : Z) : Z :=
  match fuel with
  | O => bit_idx
  | S fuel' =>
      if truth (Z.land (u8 (Z.shiftl 1 bit_idx)) b)
      then first_zero_bit fuel' b (bit_idx + 1)
      else bit_idx
  end.

(** The third loop, [left_bits] iterations at most. *)
Fixpoint scan_run (left_bits : nat) (bmap : bitmap) (cnt next_bit count : Z) : option Z :=
  match left_bits with
  | O => Some (-1)
  | S left_bits' =>
      used ← bitmap_verify_bit bmap next_bit;
      let count' := if negb used then u32 (count + 1) else 0 in
      if cnt =? count' then Some (s32 (next_bit - cnt + 1))
      else scan_run left_bits' bmap cnt (u32 (next_bit + 1)) count'
  end.

Definition bitmap_scan (bmap : bitmap) (cnt : Z) : option Z :=
  byte_idx ← skip_full_bytes bmap.(base) bmap.(bytes_len) 0;
  if byte_idx =? bmap.(bytes_len) then Some (-1)
  else
    b ← bmap.(base).[byte_idx];
    let bit_idx := first_zero_bit 9 b 0 in
    let ret := s32 (byte_idx * 8 + bit_idx) in
    if 1 =? cnt then Some ret
    else
      let left_bits := u32 (bmap.(bytes_len) * 8 - ret) in
      scan_run (Z.to_nat left_bits) bmap cnt (u32 (ret + 1)) 1.

(** ** Specification: the bitmap as a function from indices to bits *)

Definition bit_at (bmap : bitmap) (i : Z) : bool :=
  match bmap.(base).[i / 8] with
  | Some b => Z.testbit b (i mod 8)
  | None => false
  end.

(** The object holds at least [bytes_len] bytes, and bit numbers fit an [int]. *)
Record bitmap_wf (bmap : bitmap) : Prop := {
  wf_bytes : Forall is_u8 bmap.(base);
  wf_len : 0 <= bmap.(bytes_len) <= zlen bmap.(base);
  wf_int : bmap.(bytes_len) * 8 < 2147483648 - 8;
}.

Lemma bitmap_verify_bit_bit_at bmap idx :
  0 <= idx < 8 * zlen bmap.(base) ->
  bitmap_verify_bit bmap idx = Some (bit_at bmap idx).
Proof.
  intros H. unfold bitmap_verify_bit, bit_at.
  destruct (zget_in bmap.(base) (idx / 8)) as [b Hb].
  { pose proof (Z.div_mod idx 8). pose proof (Z.mod_pos_bound idx 8). lia. }
  rewrite Hb. simpl. f_equal. apply truth_land_bit, Z.mod_pos_bound. lia.
Qed.

Lemma byte_of (bmap : bitmap) i b :
  Forall is_u8 bmap.(base) -> bmap.(base).[i] = Some b -> is_u8 b.
Proof. intros H [? Hb]%zget_Some. eapply Forall_lookup_1; eauto. Qed.

Lemma bit_at_byte bmap k j b :
  bmap.(base).[k] = Some b -> 0 <= j < 8 -> bit_at bmap (k * 8 + j) = Z.testbit b j.
Proof.
  intros Hb Hj. unfold bit_at.
  replace ((k * 8 + j) / 8) with k by (rewrite Z.div_add_l, Z.div_small; lia).
  rewrite Hb. f_equal. rewrite Z.add_comm, Z_mod_plus_full, Z.mod_small; lia.
Qed.

Lemma bit_split i : exists k j, i = k * 8 + j /\ 0 <= j < 8.
Proof.
  exists (i / 8), (i mod 8). pose proof (Z.div_mod i 8). pose proof (Z.mod_pos_bound i 8). lia.
Qed.

Lemma zlen_base_set bmap i val bmap' :
  bitmap_set_bit bmap i val = Some bmap' ->
  zlen bmap'.(base) = zlen bmap.(base) /\ bmap'.(bytes_len) = bmap.(bytes_len).
Proof.
  unfold bitmap_set_bit. intros H. bind_Some H. bind_Some H. injection H as <-. simpl.
  split; [|done]. destruct (truth val); eapply zset_zlen; eauto.
Qed.

(** [bitmap_set_bit] sets or clears exactly one bit. *)
Lemma bitmap_set_bit_bits bmap idx val :
  bitmap_wf bmap -> 0 <= idx < 8 * zlen bmap.(base) ->
  exists bmap', bitmap_set_bit bmap idx val = Some bmap' /\ bitmap_wf bmap' /\
    bmap'.(bytes_len) = bmap.(bytes_len) /\ zlen bmap'.(base) = zlen bmap.(base) /\
    forall i, 0 <= i < 8 * zlen bmap.(base) ->
      bit_at bmap' i = if i =? idx then truth val else bit_at bmap i.
Proof.
  intros [Hb Hl Hi] Hidx. destruct (bit_split idx) as (k & j & -> & Hj).
  assert (0 <= k < zlen bmap.(base)) as Hk by lia.
  destruct (zget_in _ _ Hk) as [b Hkb]. pose proof (byte_of _ _ _ Hb Hkb) as Hb8.
  unfold bitmap_set_bit.
  replace ((k * 8 + j) / 8) with k by (rewrite Z.div_add_l, Z.div_small; lia).
  replace ((k * 8 + j) mod 8) with j by (rewrite Z.add_comm, Z_mod_plus_full, Z.mod_small; lia).
  rewrite Hkb. simpl.
  set (nb := if truth val then u8 (Z.lor b (Z.shiftl 1 j))
             else u8 (Z.land b (Z.lnot (Z.shiftl 1 j)))).
  assert (Hnb : forall m, 0 <= m < 8 ->
    Z.testbit nb m = if j =? m then truth val else Z.testbit b m).
  { intros m Hm. unfold nb. destruct (truth val);
      rewrite ?testbit_setbit8, ?testbit_clrbit8 by (auto; lia); by destruct (j =? m). }
  assert (is_u8 nb) as Hnb8 by (unfold nb, is_u8; destruct (truth val); apply u8_range).
  replace (if truth val then _ else _) with (bmap.(base).[k <- nb])
    by (unfold nb; by destruct (truth val)).
  rewrite (zset_in _ _ _ Hk). simpl. eexists. split; [done|].
  split; [|split; [done|split; [apply zlen_insert|]]].
  - constructor; simpl; rewrite ?zlen_insert; auto. by apply Forall_insert.
  - intros i Hi'. destruct (bit_split i) as (k' & j' & -> & Hj').
    destruct (zget_in bmap.(base) k') as [b' Hkb']; [lia|].
    rewrite (bit_at_byte bmap k' j' b') by auto.
    pose proof (zget_insert bmap.(base) k k' nb Hk ltac:(lia)) as Hg.
    destruct (k =? k') eqn:E; zbool.
    + subst k'. assert (b' = b) as -> by congruence.
      erewrite bit_at_byte by eauto. rewrite Hnb by done.
      destruct (j =? j') eqn:F; destruct (k * 8 + j' =? k * 8 + j) eqn:G; zbool; lia || done.
    + erewrite bit_at_byte; [|exact (eq_trans Hg Hkb')|done].
      destruct (k' * 8 + j' =? k * 8 + j) eqn:G; zbool; lia || done.
Qed.

Lemma skip_full_bytes_spec l n i :
  i <= n ->
  match skip_full_bytes l n i with
  | Some r => i <= r <= n /\ (forall k, i <= k < r -> l.[k - i] = Some 0xff) /\
      exists b, l.[r - i] = Some b /\ (r < n -> b <> 0xff)
  | None => i + zlen l <= n /\ (forall k, 0 <= k < zlen l -> l.[k] = Some 0xff)
  end.
Proof.
  revert i. induction l as [|b l IH]; intros i Hi; cbn [skip_full_bytes].
  { unfold zlen; simpl. split; [lia|intros; lia]. }
  destruct ((255 =? b) && (i <? n)) eqn:E; zbool.
  - subst b. specialize (IH (i + 1)). assert (i + 1 <= n) as Hi1 by lia.
    specialize (IH Hi1).
    assert (Hsh : forall j, 0 < j -> (255 :: l).[j] = l.[j - 1]).
    { intros j Hj. change (255 :: l) with ([255] ++ l). rewrite zget_app_r; [done|].
      change (zlen [255]) with 1. lia. }
    destruct (skip_full_bytes l n (i + 1)) as [r|]; cbv beta iota in *.
    + destruct IH as (Hr & Hff & b & Hb & Hne). split; [lia|]. split.
      * intros k Hk. destruct (decide (k = i)) as [->|D].
        { by rewrite Z.sub_diag. }
        rewrite Hsh by lia. rewrite <- (Hff k) by lia. f_equal. lia.
      * exists b. split; [|done]. rewrite Hsh by lia. rewrite <- Hb. f_equal. lia.
    + destruct IH as (Hn & Hff). rewrite zlen_cons. split; [lia|].
      intros k Hk. destruct (decide (k = 0)) as [->|D]; [done|].
      rewrite Hsh by lia. apply Hff. lia.
  - split; [lia|]. split; [intros; lia|]. exists b. rewrite Z.sub_diag. split; [done|lia].
  - split; [lia|]. split; [intros; lia|]. exists b. rewrite Z.sub_diag. split; [done|lia].
Qed.

Lemma first_zero_bit_spec fuel b i :
  0 <= i <= 8 -> 8 < i + Z.of_nat fuel -> is_u8 b ->
  let r := first_zero_bit fuel b i in
  i <= r <= 8 /\ (forall j, i <= j < r -> Z.testbit b j = true) /\
  (r < 8 -> Z.testbit b r = false).
Proof.
  revert i. induction fuel as [|fuel IH]; intros i Hi Hf Hb; [lia|].
  simpl. destruct (decide (i = 8)) as [->|D].
  { change (u8 (Z.shiftl 1 8)) with 0. rewrite Z.land_0_l. simpl. repeat split; lia. }
  rewrite u8_id by (rewrite Z.shiftl_1_l; split; [apply Z.pow_nonneg; lia|];
                    change 256 with (2 ^ 8); apply Z.pow_lt_mono_r; lia).
  rewrite Z.land_comm, truth_land_bit by lia.
  destruct (Z.testbit b i) eqn:E.
  - destruct (IH (i + 1)) as (Hr & Hones & Hz); try lia; auto.
    split; [lia|]. split; [|done]. intros j Hj.
    destruct (decide (j = i)) as [->|]; [done|]. apply Hones. lia.
  - repeat split; auto; lia.
Qed.

Lemma full_byte b : is_u8 b -> (forall j, 0 <= j < 8 -> Z.testbit b j = true) -> b = 0xff.
Proof.
  intros Hb H. apply byte_ext; auto; [unfold is_u8; lia|]. intros j Hj. rewrite H by done.
  symmetry. assert (j = 0 \/ j = 1 \/ j = 2 \/ j = 3 \/ j = 4 \/ j = 5 \/ j = 6 \/ j = 7)
    as C by lia. by repeat destruct C as [->|C]; try rewrite C.
Qed.

Definition free_run (bmap : bitmap) (start cnt : Z) : Prop :=
  forall i, start <= i < start + cnt -> bit_at bmap i = false.

Lemma bit_at_full bmap k i :
  (forall j, 0 <= j < k -> bmap.(base).[j] = Some 0xff) -> 0 <= i < k * 8 ->
  bit_at bmap i = true.
Proof.
  intros H Hi. destruct (bit_split i) as (k' & j & -> & Hj).
  rewrite (bit_at_byte _ _ _ 0xff) by (try apply H; lia).
  assert (j = 0 \/ j = 1 \/ j = 2 \/ j = 3 \/ j = 4 \/ j = 5 \/ j = 6 \/ j = 7)
    as C by lia. by repeat destruct C as [->|C]; try rewrite C.
Qed.

(** What the first two loops establish: the first clear bit, in byte
    [byte_idx]. *)
Lemma bitmap_scan_first bmap cnt :
  bitmap_wf bmap ->
  match skip_full_bytes bmap.(base) bmap.(bytes_len) 0 with
  | None => bmap.(bytes_len) = zlen bmap.(base) /\ bitmap_scan bmap cnt = None /\
      (forall i, 0 <= i < 8 * bmap.(bytes_len) -> bit_at bmap i = true)
  | Some byte_idx =>
      (byte_idx = bmap.(bytes_len) /\ bitmap_scan bmap cnt = Some (-1) /\
       (forall i, 0 <= i < 8 * bmap.(bytes_len) -> bit_at bmap i = true)) \/
      exists r, 0 <= r < 8 * bmap.(bytes_len) /\ bit_at bmap r = false /\
        (forall i, 0 <= i < r -> bit_at bmap i = true) /\
        bitmap_scan bmap cnt =
          if 1 =? cnt then Some r
          else scan_run (Z.to_nat (bmap.(bytes_len) * 8 - r)) bmap cnt (r + 1) 1
  end.
Proof.
  intros [Hb Hl Hi]. unfold bitmap_scan.
  pose proof (skip_full_bytes_spec bmap.(base) bmap.(bytes_len) 0 ltac:(lia)) as H.
  destruct (skip_full_bytes _ _ _) as [k|]; sbind.
  - destruct H as (Hk & Hff & b & Hkb & Hne). rewrite Z.sub_0_r in Hkb.
    assert (Hff' : forall j, 0 <= j < k -> bmap.(base).[j] = Some 0xff).
    { intros j Hj. rewrite <- (Hff j Hj). f_equal. lia. }
    destruct (k =? bmap.(bytes_len)) eqn:E; zbool.
    + left. subst k. repeat split; auto. intros i ?. eapply bit_at_full; eauto. lia.
    + right. rewrite Hkb. sbind. pose proof (byte_of _ _ _ Hb Hkb) as Hb8.
      destruct (first_zero_bit_spec 9 b 0 ltac:(lia) ltac:(lia) Hb8) as (Hr & Hones & Hz).
      set (j := first_zero_bit 9 b 0) in *.
      assert (j < 8).
      { destruct (decide (j = 8)) as [->|]; [|lia]. exfalso. apply Hne; [lia|].
        apply full_byte; auto. }
      exists (k * 8 + j). split; [lia|]. split; [erewrite bit_at_byte; eauto; lia|].
      split.
      { intros i Hi'. destruct (decide (i < k * 8)) as [D|D].
        - eapply bit_at_full; eauto; lia.
        - replace i with (k * 8 + (i - k * 8)) by lia.
          erewrite bit_at_byte by (eauto; lia). apply Hones. lia. }
      rewrite s32_id, !u32_id by lia. done.
  - destruct H as (Hn & Hff). split; [lia|]. split; [done|].
    intros i Hi'. eapply (bit_at_full _ (zlen bmap.(base))); eauto. lia.
Qed.

(** First fit for one bit: the allocation primitive of the memory manager and
    of the file system. *)
Lemma bitmap_scan_one bmap :
  bitmap_wf bmap ->
  match bitmap_scan bmap 1 with
  | None => bmap.(bytes_len) = zlen bmap.(base) /\
      forall i, 0 <= i < 8 * bmap.(bytes_len) -> bit_at bmap i = true
  | Some r =>
      (r = -1 /\ forall i, 0 <= i < 8 * bmap.(bytes_len) -> bit_at bmap i = true) \/
      (0 <= r < 8 * bmap.(bytes_len) /\ bit_at bmap r = false /\
       forall i, 0 <= i < r -> bit_at bmap i = true)
  end.
Proof.
  intros Hwf. pose proof (bitmap_scan_first bmap 1 Hwf) as H.
  destruct (skip_full_bytes _ _ _).
  - destruct H as [(_ & -> & H)|(r & Hr & Hf & Hu & ->)]; [left|right]; auto.
  - destruct H as (Hl & -> & H). auto.
Qed.

Lemma scan_run_spec n bmap cnt nb count :
  bitmap_wf bmap -> 2 <= cnt < 2147483648 -> 0 <= count < cnt -> count <= nb ->
  nb + Z.of_nat n <= 8 * zlen bmap.(base) -> nb + Z.of_nat n < 2147483648 ->
  free_run bmap (nb - count) count ->
  (count = nb \/ bit_at bmap (nb - count - 1) = true) ->
  (forall q, 0 <= q -> q + cnt <= nb -> ~ free_run bmap q cnt) ->
  exists r, scan_run n bmap cnt nb count = Some r /\
    ((r = -1 /\ forall q, 0 <= q -> q + cnt <= nb + Z.of_nat n -> ~ free_run bmap q cnt) \/
     (0 <= r /\ r + cnt <= nb + Z.of_nat n /\ free_run bmap r cnt /\
      forall q, 0 <= q < r -> ~ free_run bmap q cnt)).
Proof.
  revert nb count. induction n as [|n IH]; intros nb count Hwf Hcnt Hc Hnb Hlen Hint Hrun Hmax Hno.
  { simpl. eexists. split; [done|]. left. split; [done|]. intros q ??. apply Hno; lia. }
  cbn [scan_run]. rewrite bitmap_verify_bit_bit_at by lia. simpl.
  destruct (bit_at bmap nb) eqn:Eb; simpl.
  - destruct (cnt =? 0) eqn:E0; zbool; [lia|].
    rewrite u32_id by lia. destruct (IH (nb + 1) 0) as (r & -> & Hr); auto; try lia.
    + intros i ?. lia.
    + right. rewrite <- Eb. f_equal. lia.
    + intros q Hq Hq2 HF. destruct (decide (q + cnt <= nb)); [by apply (Hno q)|].
      specialize (HF nb). rewrite Eb in HF. discriminate HF. lia.
    + exists r. split; [done|]. replace (nb + Z.of_nat (S n)) with (nb + 1 + Z.of_nat n) by lia.
      done.
  - rewrite (u32_id (count + 1)) by lia.
    assert (Hrun' : free_run bmap (nb - count) (count + 1)).
    { intros i Hi. destruct (decide (i = nb)) as [->|]; [done|]. apply Hrun. lia. }
    assert (Hlow : forall q, 0 <= q -> q < nb - count -> q + cnt <= nb + 1 + Z.of_nat n ->
                    nb - count < q + cnt -> ~ free_run bmap q cnt).
    { intros q ???? HF. destruct Hmax as [?|Hused]; [lia|].
      rewrite HF in Hused by lia. discriminate Hused. }
    destruct (cnt =? count + 1) eqn:E; zbool.
    + rewrite s32_id by lia. eexists. split; [done|]. right.
      replace (nb - cnt + 1) with (nb - count) by lia.
      split; [lia|]. split; [lia|]. split; [by rewrite E|].
      intros q Hq. apply Hno; lia.
    + rewrite u32_id by lia.
      destruct (IH (nb + 1) (count + 1)) as (r & -> & Hr); auto; try lia.
      * by replace (nb + 1 - (count + 1)) with (nb - count) by lia.
      * destruct Hmax as [->|Hused]; [by left|right]. rewrite <- Hused. f_equal. lia.
      * intros q Hq Hq2. destruct (decide (q + cnt <= nb)); [by apply Hno|].
        apply Hlow; lia.
      * exists r. split; [done|].
        replace (nb + Z.of_nat (S n)) with (nb + 1 + Z.of_nat n) by lia. done.
Qed.

Lemma all_set_no_run bmap n cnt :
  1 <= cnt -> (forall i, 0 <= i < n -> bit_at bmap i = true) ->
  forall q, 0 <= q < n -> ~ free_run bmap q cnt.
Proof. intros Hc H q Hq HF. specialize (HF q). rewrite H in HF; [|lia]. discriminate HF. lia. Qed.

(** A search that has found a run finds the same one with more iterations. *)
Lemma scan_run_more n k bmap cnt : forall nb count r,
  scan_run n bmap cnt nb count = Some r -> r <> -1 -> scan_run (n + k) bmap cnt nb count = Some r.
Proof.
  induction n as [|n IH]; intros nb count r H Hr; cbn [scan_run Nat.add] in *; [congruence|].
  destruct (bitmap_verify_bit bmap nb) as [used|]; [|done]. cbn [mbind option_bind] in *.
  destruct (cnt =? _); [done|]. by apply IH.
Qed.

(** C38.  [bitmap_scan] is a first fit search: when the bitmap has a run of [cnt]
    clear bits, the search returns the lowest index at which one starts, and the
    run lies inside of the bitmap.  The bytes of the bitmap may be all there are,
    as for the bitmaps of the file system.  (Without such a run the search can
    run over the end, see [bitmap_scan_overruns].) *)
Theorem bitmap_scan_first_fit (bmap : bitmap) (cnt q : Z) :
  bitmap_wf bmap -> 1 <= cnt < 2147483648 ->
  0 <= q -> q + cnt <= 8 * bmap.(bytes_len) -> free_run bmap q cnt ->
  exists r, bitmap_scan bmap cnt = Some r /\
    0 <= r /\ r + cnt <= 8 * bmap.(bytes_len) /\ free_run bmap r cnt /\
    forall q', 0 <= q' < r -> ~ free_run bmap q' cnt.
Proof.
  intros Hwf Hcnt Hq Hql HF. pose proof (bitmap_scan_first bmap cnt Hwf) as H.
  assert (Hsome : ~ forall i, 0 <= i < 8 * bmap.(bytes_len) -> bit_at bmap i = true).
  { intros Hall. apply (all_set_no_run bmap (8 * bmap.(bytes_len)) cnt ltac:(lia) Hall q); [lia|done]. }
  destruct (skip_full_bytes _ _ _) as [k|]; [|by destruct Hsome; apply H].
  destruct H as [(_ & _ & H)|(r & Hr & Hf & Hu & ->)]; [by destruct Hsome|].
  rewrite Z.eqb_sym. destruct (cnt =? 1) eqn:E; zbool.
  { exists r. split; [done|]. split; [lia|]. split; [lia|]. subst cnt. split.
    - intros i Hi. by replace i with r by lia.
    - apply all_set_no_run; auto; lia. }
  pose proof (wf_int _ Hwf). pose proof (wf_len _ Hwf).
  assert (r <= q) by (apply Z.nlt_ge; intros Hlt; apply (all_set_no_run bmap r cnt ltac:(lia) Hu q); [lia|done]).
  destruct (scan_run_spec (Z.to_nat (bmap.(bytes_len) * 8 - r - 1)) bmap cnt (r + 1) 1)
    as (r' & Hscan & Hr'); auto; try lia.
  - intros i Hi. by replace i with r by lia.
  - destruct (decide (r = 0)); [left; lia|right]. replace (r + 1 - 1 - 1) with (r - 1) by lia.
    apply Hu. lia.
  - intros q' Hq' Hq2. eapply all_set_no_run; eauto; lia.
  - destruct Hr' as [[_ Hno]|(Hr0 & Hl & Hrun & Hmin)]; [by destruct (Hno q); [lia|lia|]|].
    exists r'. split; [|by repeat (split; [done || lia|])].
    replace (Z.to_nat (bmap.(bytes_len) * 8 - r)) with (Z.to_nat (bmap.(bytes_len) * 8 - r - 1) + 1)%nat by lia.
    apply scan_run_more; [done|lia].
Qed.

Lemma sample_wf : bitmap_wf (mk_bitmap 3 [0xff; 0x9f; 0x00]).
Proof. constructor; simpl; repeat constructor; unfold zlen, is_u8; simpl; lia. Qed.

Lemma bitmap_scan_first_fit_witness :
  exists r, bitmap_scan (mk_bitmap 3 [0xff; 0x9f; 0x00]) 3 = Some r /\ 0 <= r /\ r + 3 <= 24 /\
    free_run (mk_bitmap 3 [0xff; 0x9f; 0x00]) r 3.
Proof.
  destruct (bitmap_scan_first_fit (mk_bitmap 3 [0xff; 0x9f; 0x00]) 3 21 sample_wf)
    as (r & H1 & H2 & H3 & H4 & _); [lia|lia|cbn; lia| |by exists r].
  intros i Hi. assert (i = 21 \/ i = 22 \/ i = 23) as [->|[->| ->]] by lia; reflexivity.
Defined.

(** A search for several bits can return a run that does not fit: its last
    bit lies one past the end of the bitmap (and is read from the byte after
    it); and a search in a full bitmap that fills its object reads past the
    object before it compares the index with [bytes_len]. *)
Theorem bitmap_scan_overruns :
  (exists bmap r, bitmap_wf bmap /\ bitmap_scan bmap 2 = Some r /\
     8 * bmap.(bytes_len) < r + 2) /\
  (exists bmap, bitmap_wf bmap /\ bmap.(bytes_len) = zlen bmap.(base) /\
     bitmap_scan bmap 1 = None).
Proof.
  split.
  - exists (mk_bitmap 1 [0x7f; 0x00]), 7. split; [|split; reflexivity].
    constructor; simpl; repeat constructor; unfold zlen, is_u8; simpl; lia.
  - exists (mk_bitmap 1 [0xff]). split; [|split; reflexivity].
    constructor; simpl; repeat constructor; unfold zlen, is_u8; simpl; lia.
Qed.
