(* ===== verification/Mem.v ===== *)
(** * Byte-addressed memory

    The memory seen by a process: a finite map from addresses to bytes, with 0
    where nothing has been stored.  32-bit fields are little endian.  [memcpy],
    [memset] and the loads and stores of the C++ code are the operations below;
    a null pointer is never dereferenced ([deref]). *)
From S2P Require Import Prelude.

Abbreviation mem := (gmap Z Z).

Definition NULL : Z := 0.

Definition load8 (m : mem) (a : Z) : Z := default 0 (m !! a).
Definition store8 (m : mem) (a v : Z) : mem := <[a := u8 v]> m.

Definition load32 (m : mem) (a : Z) : Z :=
  load8 m a + 256 * load8 m (a + 1) + 65536 * load8 m (a + 2) + 16777216 * load8 m (a + 3).

Definition store32 (m : mem) (a v : Z) : mem :=
  store8 (store8 (store8 (store8 m a v) (a + 1) (v / 256)) (a + 2) (v / 65536))
         (a + 3) (v / 16777216).

(** Access through a pointer. *)
Definition deref (p : Z) : option unit := if p =? NULL then None else Some tt.

(** [memset] of lib/string.cc, [while (cnt-- > 0) *dst++ = val]. *)
Fixpoint memset_mem (m : mem) (dst val : Z) (cnt : nat) : mem :=
  match cnt with
  | O => m
  | S cnt' => memset_mem (store8 m dst val) (dst + 1) val cnt'
  end.

Lemma load8_store8 m a b v : load8 (store8 m a v) b = if b =? a then u8 v else load8 m b.
Proof.
  unfold load8, store8. destruct (b =? a) eqn:E; zbool.
  - subst. by rewrite lookup_insert_eq.
  - by rewrite lookup_insert_ne.
Qed.

Ltac mem_cases := repeat match goal with
  | |- context [?x =? ?y] => let E := fresh "E" in destruct (x =? y) eqn:E; zbool; try lia
  end.

Lemma load8_store32_ne m a b v : b < a \/ a + 4 <= b -> load8 (store32 m a v) b = load8 m b.
Proof. intros H. unfold store32. rewrite !load8_store8. mem_cases. Qed.

Lemma bytes_of_u32 v :
  u8 v + 256 * u8 (v / 256) + 65536 * u8 (v / 65536) + 16777216 * u8 (v / 16777216) = u32 v.
Proof.
  unfold u8, u32.
  change 65536 with (256 * 256). change 16777216 with (256 * 256 * 256).
  change 4294967296 with (256 * 256 * 256 * 256).
  rewrite <- !Z.div_div by lia.
  pose proof (Z.div_mod v 256). pose proof (Z.div_mod (v / 256) 256).
  pose proof (Z.div_mod (v / 256 / 256) 256).
  pose proof (Z.div_mod (v / 256 / 256 / 256) 256).
  pose proof (Z.mod_pos_bound v 256). pose proof (Z.mod_pos_bound (v / 256) 256).
  pose proof (Z.mod_pos_bound (v / 256 / 256) 256).
  pose proof (Z.mod_pos_bound (v / 256 / 256 / 256) 256).
  apply Zmod_unique with (v / 256 / 256 / 256 / 256); lia.
Qed.

Lemma load32_store32_eq m a v : load32 (store32 m a v) a = u32 v.
Proof.
  rewrite <- bytes_of_u32. unfold load32, store32. rewrite !load8_store8. mem_cases.
Qed.

Lemma load32_store32_ne m a b v :
  b + 4 <= a \/ a + 4 <= b -> load32 (store32 m a v) b = load32 m b.
Proof. intros H. unfold load32. rewrite !load8_store32_ne by lia. done. Qed.

Lemma load8_memset m dst val cnt b :
  load8 (memset_mem m dst val cnt) b =
    if (dst <=? b) && (b <? dst + Z.of_nat cnt) then u8 val else load8 m b.
Proof.
  revert m dst. induction cnt as [|cnt IH]; intros m dst; cbn [memset_mem].
  - destruct ((dst <=? b) && _) eqn:E; zbool; try lia; done.
  - rewrite IH, load8_store8.
    destruct ((dst + 1 <=? b) && _) eqn:E; destruct ((dst <=? b) && _) eqn:F; zbool; mem_cases; try done; lia.
Qed.

Lemma load32_memset_out m dst val cnt b :
  b + 4 <= dst \/ dst + Z.of_nat cnt <= b ->
  load32 (memset_mem m dst val cnt) b = load32 m b.
Proof.
  intros H. unfold load32. rewrite !load8_memset.
  repeat match goal with
  | |- context [(?x <=? ?y) && (?z <? ?w)] =>
      let E := fresh "E" in destruct ((x <=? y) && (z <? w)) eqn:E; zbool; try lia
  end.
Qed.

Lemma load32_memset_in m dst cnt b :
  dst <= b -> b + 4 <= dst + Z.of_nat cnt -> load32 (memset_mem m dst 0 cnt) b = 0.
Proof.
  intros H1 H2. unfold load32. rewrite !load8_memset.
  repeat match goal with
  | |- context [(?x <=? ?y) && (?z <? ?w)] =>
      let E := fresh "E" in destruct ((x <=? y) && (z <? w)) eqn:E; zbool; try lia
  end. reflexivity.
Qed.
