(* ===== verification/CycleList.v ===== *)
(** * Intrusive doubly linked lists (lib/cycle_list.cc)

    A [CycleList] object at address [this] holds two sentinels, [head] at [this]
    and [tail] at [this + 8]; an element is a pair of pointers ([prev] at offset
    0, [next] at offset 4) at the start of a larger object.  The operations run
    on the byte memory of Mem.v, store by store; the abstract value of a list is
    the sequence of the addresses of its elements. *)
From S2P Require Import Prelude Mem.

Module CycleList.

Definition head (this : Z) : Z := this.
Definition tail (this : Z) : Z := this + 8.

Definition get_prev (m : mem) (p : Z) : option Z := deref p;; Some (load32 m p).
Definition get_next (m : mem) (p : Z) : option Z := deref p;; Some (load32 m (p + 4)).
Definition set_prev (m : mem) (p v : Z) : option mem := deref p;; Some (store32 m p v).
Definition set_next (m : mem) (p v : Z) : option mem := deref p;; Some (store32 m (p + 4) v).

Definition initialize (m : mem) (this : Z) : option mem :=
  m ← set_prev m (head this) NULL;
  m ← set_next m (tail this) NULL;
  m ← set_next m (head this) (tail this);
  set_prev m (tail this) (head this).

Definition append (m : mem) (this elem : Z) : option mem :=
  tail_prev ← get_prev m (tail this);
  m ← set_prev m elem tail_prev;
  m ← set_next m elem (tail this);
  tail_prev ← get_prev m (tail this);
  m ← set_next m tail_prev elem;
  set_prev m (tail this) elem.

Definition push (m : mem) (this elem : Z) : option mem :=
  m ← set_prev m elem (head this);
  head_next ← get_next m (head this);
  m ← set_next m elem head_next;
  head_next ← get_next m (head this);
  m ← set_prev m head_next elem;
  set_next m (head this) elem.

Definition remove (m : mem) (elem : Z) : option mem :=
  next ← get_next m elem;
  prev ← get_prev m elem;
  m ← set_prev m next prev;
  prev ← get_prev m elem;
  next ← get_next m elem;
  set_next m prev next.

Definition pop (m : mem) (this : Z) : option (Z * mem) :=
  ret ← get_next m (head this);
  m ← remove m ret;
  Some (ret, m).

Definition is_empty (m : mem) (this : Z) : option bool :=
  head_next ← get_next m (head this);
  Some (head_next =? tail this).

(** The [for] loop of [get_length], with a bound on the number of elements. *)
Fixpoint length_loop (fuel : nat) (m : mem) (this elem i : Z) : option Z :=
  if elem =? tail this then Some i
  else match fuel with
       | O => None
       | S fuel' =>
           next ← get_next m elem;
           length_loop fuel' m this next (i + 1)
       end.

Definition get_length (fuel : nat) (m : mem) (this : Z) : option Z :=
  elem ← get_next m (head this);
  length_loop fuel m this elem 0.

(** The loop [for (int i=0; i<idx; i++) ;] has an empty body. *)
Definition get_elem (fuel : nat) (m : mem) (this idx : Z) : option Z :=
  len ← get_length fuel m this;
  if len - 1 <? idx then Some NULL
  else get_next m (head this).

Definition next_elem (m : mem) (this cur_elem : Z) : option Z :=
  next ← get_next m cur_elem;
  if next =? tail this then get_next m (head this)
  else get_next m cur_elem.

(** ** Representation

    [linked m a l]: starting at [a], the [next] pointers visit [l] in order, and
    the [prev] pointers lead back. *)
Fixpoint linked (m : mem) (a : Z) (l : list Z) : Prop :=
  match l with
  | [] => True
  | b :: l' => load32 m (a + 4) = b /\ load32 m b = a /\ linked m b l'
  end.

(** Two elements (8 bytes each) that do not overlap. *)
Definition apart (a b : Z) : Prop := a + 8 <= b \/ b + 8 <= a.

(** Addresses of elements: representable and not null. *)
Definition elem_addr (a : Z) : Prop := 0 < a /\ a + 8 < 4294967296.

Fixpoint all_apart (l : list Z) : Prop :=
  match l with
  | [] => True
  | a :: l' => Forall (apart a) l' /\ all_apart l'
  end.

Record rep (m : mem) (this : Z) (xs : list Z) : Prop := {
  rep_linked : linked m (head this) (xs ++ [tail this]);
  rep_apart : all_apart (xs ++ [head this; tail this]);
  rep_addr : Forall elem_addr (xs ++ [head this; tail this]);
}.

Lemma apart_sym a b : apart a b -> apart b a.
Proof. unfold apart. lia. Qed.

Lemma apart_irrefl a : ~ apart a a.
Proof. unfold apart. lia. Qed.

Lemma all_apart_app l k :
  all_apart (l ++ k) <-> all_apart l /\ all_apart k /\ Forall (fun a => Forall (apart a) k) l.
Proof.
  induction l as [|a l IH]; simpl.
  - rewrite Forall_nil. tauto.
  - rewrite IH, Forall_app, Forall_cons. tauto.
Qed.

Lemma all_apart_perm l k : l ≡ₚ k -> all_apart l -> all_apart k.
Proof.
  induction 1 as [|x l k H IH|x y l|l k j H1 IH1 H2 IH2]; simpl; auto.
  - intros [HF H']. split; [by rewrite <- H|auto].
  - rewrite !Forall_cons. intros ((? & ?) & ? & ?). repeat split; auto using apart_sym.
Qed.

(** The last node of a chain that starts at [a]. *)
Fixpoint lastz (l : list Z) (a : Z) : Z :=
  match l with
  | [] => a
  | b :: l' => lastz l' b
  end.

(** Appending one node at the end of a chain. *)
Lemma linked_snoc m a l b :
  linked m a (l ++ [b]) <->
  linked m a l /\ load32 m (lastz l a + 4) = b /\ load32 m b = lastz l a.
Proof.
  revert a. induction l as [|c l IH]; intros a; simpl; [tauto|].
  rewrite IH. tauto.
Qed.

Lemma linked_app m a l k :
  linked m a (l ++ k) <-> linked m a l /\ linked m (lastz l a) k.
Proof.
  revert a. induction l as [|c l IH]; intros a; simpl; [tauto|].
  rewrite IH. tauto.
Qed.

Lemma lastz_in l a : lastz l a ∈ a :: l.
Proof. revert a. induction l as [|b l IH]; intros a; simpl; [set_solver|]. right. apply IH. Qed.

(** The fields a chain depends on. *)
Lemma linked_frame m m' a l :
  (forall b, b ∈ a :: l -> b <> lastz l a -> load32 m' (b + 4) = load32 m (b + 4)) ->
  (forall b, b ∈ l -> load32 m' b = load32 m b) ->
  NoDup (a :: l) -> linked m a l -> linked m' a l.
Proof.
  revert a. induction l as [|c l IH]; intros a Hn Hp Hd; simpl; [auto|].
  intros (H1 & H2 & H3). apply NoDup_cons in Hd as [Ha Hd].
  split; [|split].
  - rewrite Hn; [done|set_solver|]. intros Heq. apply Ha. rewrite Heq. exact (lastz_in l c).
  - rewrite Hp by set_solver. done.
  - apply IH; auto.
    + intros b Hb. apply Hn. set_solver.
    + intros b Hb. apply Hp. set_solver.
Qed.

(** ** Elements of a represented list *)

Lemma apart_in x y l : all_apart l -> x ∈ l -> y ∈ l -> x <> y -> apart x y.
Proof.
  induction l as [|a l IH]; [set_solver|]. simpl. rewrite Forall_forall.
  intros [Ha Hl] [->|Hx]%elem_of_cons [->|Hy]%elem_of_cons Hne; auto using apart_sym. done.
Qed.

Lemma all_apart_NoDup l : all_apart l -> NoDup l.
Proof.
  induction l as [|a l IH]; simpl; [constructor|]. rewrite Forall_forall. intros [Ha Hl].
  constructor; auto. intros Hin. destruct (apart_irrefl a). auto.
Qed.

Lemma deref_addr p : elem_addr p -> deref p = Some tt.
Proof. unfold deref, elem_addr, NULL. destruct (p =? 0) eqn:E; zbool; [lia|done]. Qed.

Lemma deref_addr8 p : elem_addr p -> p <> 0.
Proof. unfold elem_addr. lia. Qed.

Section fields.
Context (p : Z) (Hp : elem_addr p).
Lemma get_prev_addr m : get_prev m p = Some (load32 m p).
Proof. unfold get_prev. by rewrite deref_addr. Qed.
Lemma get_next_addr m : get_next m p = Some (load32 m (p + 4)).
Proof. unfold get_next. by rewrite deref_addr. Qed.
Lemma set_prev_addr m v : set_prev m p v = Some (store32 m p v).
Proof. unfold set_prev. by rewrite deref_addr. Qed.
Lemma set_next_addr m v : set_next m p v = Some (store32 m (p + 4) v).
Proof. unfold set_next. by rewrite deref_addr. Qed.
End fields.

Lemma u32_addr p : elem_addr p -> u32 p = p.
Proof. unfold elem_addr. intros. apply u32_id. lia. Qed.

Lemma lastz_snoc l a b : lastz (l ++ [b]) a = b.
Proof. revert a. induction l; simpl; auto. Qed.

Lemma lastz_app l k a : lastz (l ++ k) a = lastz k (lastz l a).
Proof. revert a. induction l; simpl; auto. Qed.

(** Two memories that agree outside the elements [ns]. *)
Definition same_outside (m m' : mem) (ns : list Z) : Prop :=
  forall b, (forall n, n ∈ ns -> b < n \/ n + 8 <= b) -> load8 m' b = load8 m b.

Lemma same_outside_refl m ns : same_outside m m ns.
Proof. intros b _. done. Qed.

Lemma same_outside_store m m' ns n k v :
  n ∈ ns -> (k = 0 \/ k = 4) -> same_outside m m' ns ->
  same_outside m (store32 m' (n + k) v) ns.
Proof.
  intros Hn Hk H b Hb. specialize (Hb n Hn) as Hbn.
  rewrite load8_store32_ne by lia. auto.
Qed.

Lemma same_outside_store_prev m m' ns n v :
  n ∈ ns -> same_outside m m' ns -> same_outside m (store32 m' n v) ns.
Proof. intros. rewrite <- (Z.add_0_r n). apply same_outside_store; auto. Qed.

Lemma same_outside_mono m m' ns ns' :
  (forall n, n ∈ ns -> n ∈ ns') -> same_outside m m' ns -> same_outside m m' ns'.
Proof. intros Hs H b Hb. apply H. auto. Qed.

Lemma same_outside_trans m1 m2 m3 ns :
  same_outside m1 m2 ns -> same_outside m2 m3 ns -> same_outside m1 m3 ns.
Proof. intros H1 H2 b Hb. rewrite H2, H1; auto. Qed.

Lemma same_outside_load32 m m' ns b :
  same_outside m m' ns -> (forall n, n ∈ ns -> b + 4 <= n \/ n + 8 <= b) ->
  load32 m' b = load32 m b.
Proof.
  intros H Hb. unfold load32. rewrite !H; auto; intros n Hn; specialize (Hb n Hn); lia.
Qed.

(** A list is unaffected by changes away from its elements and sentinels. *)
Lemma rep_same_outside m m' this xs ns :
  rep m this xs -> same_outside m m' ns ->
  (forall a n, a ∈ xs ++ [head this; tail this] -> n ∈ ns -> apart a n) ->
  rep m' this xs.
Proof.
  intros [HL HA Had] Hs Hap. split; auto.
  assert (Hin : forall b, b ∈ head this :: xs ++ [tail this] ->
                b ∈ xs ++ [head this; tail this]).
  { intros b. rewrite elem_of_cons, !elem_of_app, !elem_of_cons. tauto. }
  apply (linked_frame m m'); [| | |done].
  - intros b Hb _. apply (same_outside_load32 m m' ns); auto.
    intros n Hn. pose proof (Hap b n (Hin b Hb) Hn). unfold apart in *. lia.
  - intros b Hb. apply (same_outside_load32 m m' ns); auto.
    intros n Hn. assert (b ∈ head this :: xs ++ [tail this]) as Hb' by set_solver.
    pose proof (Hap b n (Hin b Hb') Hn). unfold apart in *. lia.
  - apply all_apart_NoDup. eapply all_apart_perm; [|exact HA].
    symmetry. apply Permutation_middle.
Qed.

(** Solve a load after a sequence of stores, from [apart] facts in context. *)
Ltac mem_simp :=
  repeat first
    [ rewrite load32_store32_eq
    | rewrite load32_store32_ne by (unfold apart, head, tail in *; lia) ].

(** Run pointer accesses whose pointer is known to be an element address. *)
Ltac ptr_run := repeat (first
  [ rewrite get_prev_addr by done | rewrite get_next_addr by done
  | rewrite set_prev_addr by done | rewrite set_next_addr by done ]; sbind).

Lemma initialize_rep m this :
  elem_addr this -> elem_addr (tail this) ->
  exists m', initialize m this = Some m' /\ rep m' this [] /\
    same_outside m m' [head this; tail this].
Proof.
  intros H1 H2. unfold initialize, head, NULL.
  ptr_run. eexists. split; [done|]. split; [split|].
  - simpl. mem_simp. unfold head. rewrite !u32_addr by done. tauto.
  - simpl. split; [|split; [constructor|done]].
    constructor; [unfold apart, head, tail; lia|constructor].
  - constructor; [done|constructor; [done|constructor]].
  - repeat first [ apply same_outside_store_prev; [set_solver|]
                 | apply same_outside_store; [set_solver|lia|] ].
    apply same_outside_refl.
Qed.

Lemma rep_head m this xs : rep m this xs -> elem_addr (head this).
Proof. intros [_ _ H]. rewrite Forall_forall in H. apply H. set_solver. Qed.

Lemma rep_tail m this xs : rep m this xs -> elem_addr (tail this).
Proof. intros [_ _ H]. rewrite Forall_forall in H. apply H. set_solver. Qed.

Lemma rep_elem m this xs a : rep m this xs -> a ∈ xs -> elem_addr a.
Proof. intros [_ _ H] ?. rewrite Forall_forall in H. apply H. set_solver. Qed.

Lemma rep_NoDup m this xs : rep m this xs -> NoDup (head this :: xs ++ [tail this]).
Proof.
  intros [_ HA _]. apply all_apart_NoDup. eapply all_apart_perm; [|exact HA].
  symmetry. apply Permutation_middle.
Qed.

(** The nodes of a list: its elements and sentinels. *)
Definition nodes (this : Z) (xs : list Z) : list Z := xs ++ [head this; tail this].

Lemma rep_nodes_apart m this xs a b :
  rep m this xs -> a ∈ nodes this xs -> b ∈ nodes this xs -> a <> b -> apart a b.
Proof. intros [_ HA _]. by apply apart_in. Qed.

Lemma rep_nodes_addr m this xs a : rep m this xs -> a ∈ nodes this xs -> elem_addr a.
Proof. intros [_ _ H]. rewrite Forall_forall in H. auto. Qed.

Lemma rep_ne_tail m this xs b : rep m this xs -> b ∈ head this :: xs -> b <> tail this.
Proof.
  intros HR Hb ->. apply rep_NoDup in HR. rewrite app_comm_cons in HR.
  apply NoDup_app in HR as (_ & HN & _). apply (HN (tail this)); set_solver.
Qed.

Lemma rep_ne_head m this xs b : rep m this xs -> b ∈ xs ++ [tail this] -> b <> head this.
Proof. intros HR Hb ->. apply rep_NoDup, NoDup_cons in HR as [HN _]. done. Qed.

Lemma in_nodes this xs b : b ∈ nodes this xs <-> b ∈ xs \/ b = head this \/ b = tail this.
Proof. unfold nodes. set_solver. Qed.

Ltac in_footprint :=
  first [done | rewrite elem_of_cons; auto | rewrite ?elem_of_cons, in_nodes; tauto].

Ltac solve_outside :=
  repeat first [ apply same_outside_store_prev; [solve [in_footprint]|]
               | apply same_outside_store; [solve [in_footprint]|lia|] ];
  apply same_outside_refl.

(** Two nodes, one or both of them known to be distinct, are the same or apart. *)
Lemma rep_same_or_apart m this xs a b :
  rep m this xs -> a ∈ nodes this xs -> b ∈ nodes this xs -> a = b \/ apart a b.
Proof. intros. destruct (decide (a = b)); eauto using rep_nodes_apart. Qed.

(** The successor chain of a list of nodes is kept by stores into the [next]
    field of its last node and into fields of other nodes. *)
Lemma append_rep m this xs e :
  rep m this xs -> elem_addr e -> Forall (apart e) (nodes this xs) ->
  exists m', append m this e = Some m' /\ rep m' this (xs ++ [e]) /\
    same_outside m m' (e :: nodes this xs).
Proof.
  intros HR He HF. pose proof (rep_tail _ _ _ HR) as Ht. rewrite Forall_forall in HF.
  pose proof (rep_linked _ _ _ HR) as HL. apply linked_snoc in HL as (HL & Hpn & Htp).
  set (p := lastz xs (head this)) in *.
  assert (Hp : p ∈ head this :: xs) by apply lastz_in.
  assert (Hp' : p ∈ nodes this xs) by (rewrite in_nodes; set_solver).
  assert (Ht' : tail this ∈ nodes this xs) by (rewrite in_nodes; tauto).
  pose proof (rep_nodes_addr _ _ _ _ HR Hp') as Hpa.
  assert (apart e p) by auto. assert (apart e (tail this)) by auto.
  assert (apart p (tail this)) by (eauto using rep_nodes_apart, rep_ne_tail).
  unfold append. ptr_run. mem_simp. rewrite Htp. ptr_run. eexists.
  split; [done|]. split; [split|].
  - apply linked_snoc. rewrite lastz_snoc. split; [apply linked_snoc; split|]; fold p;
      [|mem_simp; rewrite !u32_addr by done; auto..].
    apply (linked_frame m); [intros b Hb Hbp|intros b Hb| |exact HL];
      [| |apply rep_NoDup in HR; rewrite app_comm_cons in HR; by apply NoDup_app in HR as (HN & _)];
      assert (b ∈ nodes this xs) as Hb' by (rewrite in_nodes; set_solver);
      assert (apart e b) by auto;
      assert (apart b (tail this)) by (eapply rep_nodes_apart; eauto; eapply rep_ne_tail; eauto; set_solver);
      destruct (rep_same_or_apart m this xs b p) as [->|?]; auto; try done; by mem_simp.
  - rewrite <- app_assoc. eapply (all_apart_perm (e :: _)); [apply Permutation_middle|].
    split; [by apply Forall_forall|apply HR].
  - rewrite <- app_assoc. destruct HR as [_ _ Had]. rewrite Forall_app in Had.
    apply Forall_app. split; [apply Had|]. by constructor; [|apply Had].
  - solve_outside.
Qed.

Lemma push_rep m this xs e :
  rep m this xs -> elem_addr e -> Forall (apart e) (nodes this xs) ->
  exists m', push m this e = Some m' /\ rep m' this (e :: xs) /\
    same_outside m m' (e :: nodes this xs).
Proof.
  intros HR He HF. pose proof (rep_head _ _ _ HR) as Hh. rewrite Forall_forall in HF.
  pose proof (rep_linked _ _ _ HR) as HL.
  destruct (xs ++ [tail this]) as [|n r] eqn:En; [by destruct xs|].
  assert (Hn : n ∈ xs ++ [tail this]) by (rewrite En; set_solver).
  assert (Hn' : n ∈ nodes this xs) by (rewrite in_nodes; set_solver).
  assert (Hh' : head this ∈ nodes this xs) by (rewrite in_nodes; tauto).
  destruct HL as (Hhn & Hnh & HL). pose proof (rep_nodes_addr _ _ _ _ HR Hn') as Hna.
  assert (apart e n) by auto. assert (apart e (head this)) by auto.
  assert (apart n (head this)) by (eauto using rep_nodes_apart, rep_ne_head).
  unfold push. ptr_run. mem_simp. rewrite Hhn. ptr_run.
  eexists. split; [done|]. split; [split|].
  - rewrite <- app_comm_cons, En. cbn [linked]. mem_simp. rewrite !u32_addr by done.
    repeat (split; [done|]).
    apply (linked_frame m); [intros b Hb Hbp|intros b Hb| |exact HL];
      [| |apply rep_NoDup in HR; rewrite En in HR; by apply NoDup_cons in HR as [_ HN]];
      assert (Hb0 : b ∈ xs ++ [tail this]) by (rewrite En; set_solver);
      assert (b ∈ nodes this xs) as Hb' by (rewrite in_nodes; set_solver);
      assert (apart e b) by auto;
      assert (apart b (head this)) by (eapply rep_nodes_apart; eauto; eapply rep_ne_head; eauto);
      destruct (rep_same_or_apart m this xs b n) as [->|?]; auto; try by mem_simp.
    apply rep_NoDup in HR. rewrite En in HR. apply NoDup_cons in HR as [_ HR].
    by apply NoDup_cons in HR as [? _].
  - split; [by apply Forall_forall|apply HR].
  - constructor; [done|apply HR].
  - solve_outside.
Qed.

Lemma NoDup_middle_ne (l1 l2 : list Z) e b :
  NoDup (l1 ++ e :: l2) -> b ∈ l1 ++ l2 -> b <> e.
Proof.
  intros HN Hb ->. rewrite <- Permutation_middle in HN. apply NoDup_cons in HN as [HN _]. done.
Qed.

(** The chain around an element [e]: what is before, [e], and what is after. *)
Lemma rep_around m this l1 e l2 :
  rep m this (l1 ++ e :: l2) ->
  exists n r, l2 ++ [tail this] = n :: r /\
    linked m (head this) l1 /\ linked m n r /\
    load32 m (lastz l1 (head this) + 4) = e /\ load32 m e = lastz l1 (head this) /\
    load32 m (e + 4) = n /\ load32 m n = e /\
    NoDup (head this :: l1) /\ NoDup (n :: r) /\
    (forall b c, b ∈ head this :: l1 -> c ∈ n :: r -> apart b c) /\
    (forall b, b ∈ head this :: l1 -> apart e b) /\ (forall c, c ∈ n :: r -> apart e c) /\
    (forall b, b ∈ head this :: l1 -> b ∈ nodes this (l1 ++ l2)) /\
    (forall c, c ∈ n :: r -> c ∈ nodes this (l1 ++ l2)).
Proof.
  intros HR. pose proof (rep_linked _ _ _ HR) as HL. pose proof (rep_NoDup _ _ _ HR) as HN.
  rewrite <- app_assoc, <- app_comm_cons in HL, HN.
  assert (Hs1 : forall b, b ∈ head this :: l1 -> b ∈ nodes this (l1 ++ l2)).
  { intros b. rewrite in_nodes. set_solver. }
  assert (Hs2 : forall b, b ∈ l2 ++ [tail this] -> b ∈ nodes this (l1 ++ l2)).
  { intros b. rewrite in_nodes. set_solver. }
  assert (Hs : forall b, b ∈ nodes this (l1 ++ l2) -> b ∈ nodes this (l1 ++ e :: l2)).
  { intros b. rewrite !in_nodes. set_solver. }
  assert (He : e ∈ nodes this (l1 ++ e :: l2)) by (rewrite in_nodes; set_solver).
  destruct (l2 ++ [tail this]) as [|n r] eqn:En; [by destruct l2|].
  apply linked_app in HL as (HL1 & Hpe & Hep & Hen & Hne & HL2).
  rewrite app_comm_cons in HN. apply NoDup_app in HN as (HN1 & Hd & [Hen' HN2]%NoDup_cons).
  exists n, r. repeat (split; [done|]). repeat split; auto.
  - intros b c Hb Hc. eapply rep_nodes_apart; eauto. intros ->. apply (Hd c Hb). by right.
  - intros b Hb. eapply rep_nodes_apart; eauto. intros <-. apply (Hd e Hb). by left.
  - intros b Hb. eapply rep_nodes_apart; eauto. by intros <-.
Qed.

Lemma remove_rep m this l1 e l2 :
  rep m this (l1 ++ e :: l2) ->
  exists m', remove m e = Some m' /\ rep m' this (l1 ++ l2) /\
    same_outside m m' (nodes this (l1 ++ l2)).
Proof.
  intros HR. destruct (rep_around _ _ _ _ _ HR) as
    (n & r & En & HL1 & HL2 & Hpe & Hep & Hen & Hne & HN1 & HN2 & Hap & Hae1 & Hae2 & Hs1 & Hs2).
  set (p := lastz l1 (head this)) in *.
  assert (Hp : p ∈ head this :: l1) by apply lastz_in.
  assert (Hn : n ∈ n :: r) by by left.
  destruct HR as [_ HA Had]. rewrite <- app_assoc, <- app_comm_cons in HA, Had.
  eapply all_apart_perm in HA; [|symmetry; apply Permutation_middle].
  rewrite <- Permutation_middle in Had. apply Forall_cons in Had as [Hea Had].
  assert (HA' : all_apart (nodes this (l1 ++ l2))).
  { unfold nodes. rewrite <- app_assoc. apply HA. }
  assert (Had' : Forall elem_addr (nodes this (l1 ++ l2))).
  { unfold nodes. by rewrite <- app_assoc. }
  clear HA Had. rename HA' into HA. rename Had' into Had.
  rewrite Forall_forall in Had.
  assert (elem_addr n) by auto. assert (elem_addr p) by auto.
  assert (apart e n) by auto. assert (apart e p) by auto. assert (apart p n) by auto.
  unfold remove. ptr_run. rewrite Hen, Hep. ptr_run. mem_simp. rewrite Hen, Hep. ptr_run.
  eexists. split; [done|]. split; [split|].
  - rewrite <- app_assoc, En. apply linked_app. fold p. cbn [linked].
    split; [|split; [mem_simp; by rewrite u32_addr|split; [mem_simp; by rewrite u32_addr|]]].
    + apply (linked_frame m); [intros b Hb Hbp|intros b Hb|done|done].
      * assert (apart b n) by auto. fold p in Hbp.
        assert (apart b p) by (eapply apart_in; eauto). by mem_simp.
      * assert (apart b n) by (apply Hap; [by right|done]).
        destruct (decide (b = p)) as [->|]; [by mem_simp|].
        assert (apart b p) by (eapply apart_in; eauto; apply Hs1; by right). by mem_simp.
    + assert (Hnr : n ∉ r) by by apply NoDup_cons in HN2 as [? _].
      apply (linked_frame m); [intros b Hb Hbp|intros b Hb|done|done].
      * assert (apart p b) by auto.
        destruct (decide (b = n)) as [->|]; [by mem_simp|].
        assert (apart b n) by (eapply apart_in; eauto). by mem_simp.
      * assert (apart p b) by (apply Hap; [done|by right]).
        assert (apart b n) by (eapply apart_in; eauto; [apply Hs2; by right|by intros ->]).
        by mem_simp.
  - exact HA.
  - by apply Forall_forall.
  - assert (n ∈ nodes this (l1 ++ l2)) by auto. assert (p ∈ nodes this (l1 ++ l2)) by auto.
    solve_outside.
Qed.

Lemma pop_rep m this x xs :
  rep m this (x :: xs) ->
  exists m', pop m this = Some (x, m') /\ rep m' this xs /\
    same_outside m m' (nodes this xs).
Proof.
  intros HR. destruct (remove_rep m this [] x xs HR) as (m' & Hr & HR' & Hs).
  pose proof (rep_head _ _ _ HR) as Hh. destruct HR as [(Hx & _) _ _].
  exists m'. unfold pop. ptr_run. rewrite Hx, Hr. done.
Qed.

Lemma head_next m this xs :
  rep m this xs ->
  get_next m (head this) = Some (match xs with [] => tail this | x :: _ => x end).
Proof.
  intros HR. pose proof (rep_head _ _ _ HR) as Hh. ptr_run.
  destruct HR as [HL _ _]. destruct xs; destruct HL as (-> & _); done.
Qed.

Lemma is_empty_rep m this xs :
  rep m this xs -> is_empty m this = Some (match xs with [] => true | _ => false end).
Proof.
  intros HR. unfold is_empty. rewrite (head_next _ _ _ HR). sbind.
  destruct xs as [|x xs]; [by rewrite Z.eqb_refl|].
  destruct (x =? tail this) eqn:E; zbool; [|done].
  exfalso. eapply rep_ne_tail; eauto. set_solver.
Qed.

Lemma linked_next m a l1 b c l2 :
  linked m a (l1 ++ b :: c :: l2) -> load32 m (b + 4) = c.
Proof. intros H. apply linked_app in H as (_ & _ & _ & H & _). done. Qed.

Lemma elem_next m this l1 b l2 :
  rep m this (l1 ++ b :: l2) ->
  get_next m b = Some (match l2 with [] => tail this | c :: _ => c end).
Proof.
  intros HR. assert (elem_addr b) by (eapply rep_elem; eauto; set_solver). ptr_run.
  apply rep_linked in HR. rewrite <- app_assoc, <- app_comm_cons in HR.
  destruct l2; simpl in HR; apply linked_next in HR; by rewrite HR.
Qed.

Lemma length_loop_rep fuel m this l1 l2 i :
  rep m this (l1 ++ l2) -> (length l2 <= fuel)%nat ->
  length_loop fuel m this (match l2 with [] => tail this | c :: _ => c end) i
    = Some (i + zlen l2).
Proof.
  revert l1 l2 i. induction fuel as [|fuel IH]; intros l1 l2 i HR Hf; simpl.
  - destruct l2; [|simpl in Hf; lia]. rewrite Z.eqb_refl. f_equal. unfold zlen. simpl. lia.
  - destruct l2 as [|b l2].
    + rewrite Z.eqb_refl. f_equal. unfold zlen. simpl. lia.
    + destruct (b =? tail this) eqn:E; zbool.
      { exfalso. eapply rep_ne_tail; eauto. set_solver. }
      rewrite (elem_next _ _ _ _ _ HR). sbind. rewrite cons_middle, app_assoc in HR.
      rewrite (IH (l1 ++ [b]) l2); [|done|simpl in Hf; lia]. f_equal. rewrite zlen_cons. lia.
Qed.

(** [get_length] terminates and counts the elements. *)
Lemma get_length_rep fuel m this xs :
  rep m this xs -> (length xs <= fuel)%nat -> get_length fuel m this = Some (zlen xs).
Proof.
  intros HR Hf. unfold get_length. rewrite (head_next _ _ _ HR). sbind.
  rewrite (length_loop_rep fuel m this [] xs); done.
Qed.

(** [get_elem] returns the first element whatever the index. *)
Lemma get_elem_rep fuel m this xs idx :
  rep m this xs -> (length xs <= fuel)%nat ->
  get_elem fuel m this idx =
    Some (if zlen xs - 1 <? idx then NULL else
          match xs with [] => tail this | x :: _ => x end).
Proof.
  intros HR Hf. unfold get_elem. rewrite (get_length_rep _ _ _ _ HR Hf). sbind.
  case_if; [done|]. by rewrite (head_next _ _ _ HR).
Qed.

Lemma next_elem_rep m this l1 b l2 :
  rep m this (l1 ++ b :: l2) ->
  next_elem m this b = Some (match l2 with
                             | c :: _ => c
                             | [] => match l1 with [] => b | x :: _ => x end
                             end).
Proof.
  intros HR. unfold next_elem. rewrite (elem_next _ _ _ _ _ HR). sbind.
  destruct l2 as [|c l2].
  - rewrite Z.eqb_refl, (head_next _ _ _ HR). by destruct l1.
  - destruct (c =? tail this) eqn:E; zbool; [|done].
    exfalso. eapply rep_ne_tail; eauto. set_solver.
Qed.

(** ** The operations on the abstract sequence *)

(** A list without elements has no element to pop: the link behind its end is
    null, and [remove] writes through it. *)
Lemma pop_empty m this : rep m this [] -> load32 m (tail this + 4) = 0 -> pop m this = None.
Proof.
  intros HR Hz. unfold pop. rewrite (head_next _ _ _ HR). sbind. unfold remove.
  rewrite get_prev_addr, get_next_addr by (by eapply rep_tail). sbind. by rewrite Hz.
Qed.

(** C30.  The pointer manipulations of the list implement the operations on the
    sequence [xs] of its elements, for every list, the empty one included, and
    every element [e] that overlaps none of its nodes: [append] and [push] add at
    the two ends, [remove] takes out any element, [pop] the first one; each of
    them succeeds, leads to a well-formed list again and touches no memory but the
    list's own nodes and the element.  [is_empty] and [get_length] observe the
    sequence, the element 0 is the first one or null, and [next_elem] is the
    successor in circular order. *)
Theorem cycle_list_refines (m : mem) (this e : Z) (xs : list Z) :
  rep m this xs -> elem_addr e -> Forall (apart e) (nodes this xs) ->
  (exists m', append m this e = Some m' /\ rep m' this (xs ++ [e]) /\ same_outside m m' (e :: nodes this xs)) /\
  (exists m', push m this e = Some m' /\ rep m' this (e :: xs) /\ same_outside m m' (e :: nodes this xs)) /\
  is_empty m this = Some (match xs with [] => true | _ => false end) /\
  get_length (length xs) m this = Some (zlen xs) /\
  get_elem (length xs) m this 0 = Some (match xs with [] => NULL | x :: _ => x end) /\
  (forall x xs', xs = x :: xs' ->
     exists m', pop m this = Some (x, m') /\ rep m' this xs' /\ same_outside m m' (nodes this xs')) /\
  (forall l1 x l2, xs = l1 ++ x :: l2 ->
     (exists m', remove m x = Some m' /\ rep m' this (l1 ++ l2) /\ same_outside m m' (nodes this (l1 ++ l2))) /\
     next_elem m this x = Some (match l2 ++ l1 with y :: _ => y | [] => x end)).
Proof.
  intros HR He HF. split; [by apply append_rep|]. split; [by apply push_rep|].
  split; [by rewrite (is_empty_rep _ _ _ HR); destruct xs|]. split; [by apply get_length_rep|].
  split. { rewrite (get_elem_rep _ _ _ _ _ HR) by lia. destruct xs as [|x xs]; [done|].
    rewrite zlen_cons. pose proof (zlen_nonneg xs). case_if; [lia|done]. }
  split; [intros x xs' ->; exact (pop_rep _ _ _ _ HR)|].
  intros l1 x l2 ->. split; [by apply remove_rep|]. rewrite (next_elem_rep _ _ _ _ _ HR). by destruct l2, l1.
Qed.

(** A concrete list: sentinels at 0x1000, elements at 0x2000 and 0x3000. *)
Definition sample : option mem :=
  m ← initialize ∅ 0x1000;
  m ← append m 0x1000 0x2000;
  append m 0x1000 0x3000.

Lemma sample_rep : exists m, sample = Some m /\ rep m 0x1000 [0x2000; 0x3000].
Proof.
  eexists. split; [reflexivity|]. split.
  - simpl. repeat split; vm_compute; reflexivity.
  - simpl. unfold apart, head, tail. repeat split; repeat constructor; lia.
  - simpl. unfold head, tail.
    repeat (apply Forall_cons; split; [unfold elem_addr; lia|]). by apply Forall_nil.
Qed.

Lemma cycle_list_refines_witness :
  exists m, sample = Some m /\
    next_elem m 0x1000 0x3000 = Some 0x2000 /\ is_empty m 0x1000 = Some false /\
    get_length 2 m 0x1000 = Some 2.
Proof.
  destruct sample_rep as (m & Hm & HR). exists m. split; [exact Hm|].
  assert (HF : Forall (apart 0x4000) (nodes 0x1000 [0x2000; 0x3000])).
  { unfold nodes, head, tail. repeat (apply Forall_cons; split; [unfold apart; lia|]).
    by apply Forall_nil. }
  destruct (cycle_list_refines m 0x1000 0x4000 [0x2000; 0x3000] HR
              ltac:(unfold elem_addr; lia) HF) as (_ & _ & H1 & H2 & _ & _ & H).
  destruct (H [0x2000] 0x3000 [] eq_refl) as [_ H3].
  split; [exact H3|]. split; [exact H1|exact H2].
Defined.

(** [get_elem] returns the first element of the list for every index in
    range: the loop that should advance to position [idx] has an empty body. *)
Theorem get_elem_ignores_index (fuel : nat) (m : mem) (this x : Z) (xs : list Z) (idx : Z) :
  rep m this (x :: xs) -> (length (x :: xs) <= fuel)%nat -> idx < zlen (x :: xs) ->
  get_elem fuel m this idx = Some x.
Proof. intros HR Hf Hi. rewrite (get_elem_rep _ _ _ _ _ HR Hf). case_if; [lia|done]. Qed.

Lemma get_elem_ignores_index_witness :
  exists m, sample = Some m /\ get_elem 2 m 0x1000 1 = Some 0x2000.
Proof.
  destruct sample_rep as (m & Hm & HR). exists m. split; [exact Hm|].
  apply (get_elem_ignores_index 2 m 0x1000 0x2000 [0x3000] 1 HR); [simpl; lia|].
  unfold zlen. simpl. lia.
Defined.

End CycleList.
