(* ===== verification/CString.v ===== *)
(** * Strings and formatted output (lib/string.cc, lib/stdio.cc, lib/net_utilies.cc)

    A buffer is a list of bytes and a pointer into it an offset.  Reading or
    writing outside the buffer is [None].  A C string is the bytes up to the
    first 0 ([cstr]). *)
From S2P Require Import Prelude.

(** [while (cnt-- > 0) *dst++ = *src++;] *)
Fixpoint memcpy (dst : list Z) (d : Z) (src : list Z) (s : Z) (cnt : nat) : option (list Z) :=
  match cnt with
  | O => Some dst
  | S cnt' =>
      c ← src.[s];
      dst' ← dst.[d <- c];
      memcpy dst' (d + 1) src (s + 1) cnt'
  end.

(** [while (cnt-- > 0) *dst++ = val;] *)
Fixpoint memset (dst : list Z) (d val : Z) (cnt : nat) : option (list Z) :=
  match cnt with
  | O => Some dst
  | S cnt' =>
      dst' ← dst.[d <- u8 val];
      memset dst' (d + 1) val cnt'
  end.

(** [while ( *src ) *dst++ = *src++;]: the terminating 0 is not copied.  [src] is
    the memory from the source pointer on. *)
Fixpoint strcpy (dst : list Z) (d : Z) (src : list Z) : option (list Z) :=
  match src with
  | [] => None
  | c :: src' =>
      if truth c then
        dst' ← dst.[d <- c];
        strcpy dst' (d + 1) src'
      else Some dst
  end.

Fixpoint strlen (str : list Z) : option Z :=
  match str with
  | [] => None
  | c :: str' => if truth c then l ← strlen str'; Some (u32 (l + 1)) else Some 0
  end.

(** [true] when the strings are equal. *)
Fixpoint strcmp (str1 str2 : list Z) : option bool :=
  match str1, str2 with
  | c1 :: str1', c2 :: str2' =>
      if truth c1 && truth c2 && (c1 =? c2) then strcmp str1' str2'
      else Some (negb (truth c1) && negb (truth c2))
  | _, _ => None
  end.

(** The loop of [string2int]: [i] counts down, [t] is the power of ten; the
    products and sums are those of [int]. *)
Fixpoint string2int_loop (n : nat) (buf : list Z) (ret t : Z) : option Z :=
  match n with
  | O => Some ret
  | S i =>
      c ← buf.[Z.of_nat i];
      string2int_loop i buf (s32 (ret + s32 ((s8 c - 48) * t))) (s32 (t * 10))
  end.

Definition string2int (buf : list Z) : option Z :=
  l ← strlen buf;
  if -1 =? s32 l then Some (-1)
  else string2int_loop (Z.to_nat (s32 l)) buf 0 1.

(** lib/net_utilies.cc: the same loop with an unsigned result and an [int]
    factor. *)
Fixpoint string2uint_loop (n : nat) (str : list Z) (res factor : Z) : option Z :=
  match n with
  | O => Some res
  | S i =>
      c ← str.[Z.of_nat i];
      string2uint_loop i str (u32 (res + u32 (s32 (factor * (s8 c - 48))))) (s32 (factor * 10))
  end.

Definition string2uint (str : list Z) : option Z :=
  l ← strlen str;
  string2uint_loop (Z.to_nat l) str 0 1.

(** The loop of [ipstring2ipuint] over positions [i .. len-1]; [str] is the whole
    (mutated) string, [start] the offset of the current component. *)
Fixpoint ipstring2ipuint_loop (n : nat) (i len : Z) (str : list Z) (start times res : Z)
  : option (Z * list Z) :=
  match n with
  | O => Some (res, str)
  | S n' =>
      c ← str.[i];
      if c =? 46 then
        str' ← str.[i <- 0];
        v ← string2uint (drop (Z.to_nat start) str');
        let res' := Z.lor res (u32 (Z.shiftl v (8 * times))) in
        if times - 1 <? 0 then Some (res', str')
        else ipstring2ipuint_loop n' (i + 1) len str' (i + 1) (times - 1) res'
      else if i =? len - 1 then
        v ← string2uint (drop (Z.to_nat start) str);
        let res' := Z.lor res (u32 (Z.shiftl v (8 * times))) in
        if times - 1 <? 0 then Some (res', str)
        else ipstring2ipuint_loop n' (i + 1) len str start (times - 1) res'
      else ipstring2ipuint_loop n' (i + 1) len str start times res
  end.

Definition ipstring2ipuint (str : list Z) : option (Z * list Z) :=
  len ← strlen str;
  ipstring2ipuint_loop (Z.to_nat len) 0 len str 0 3 0.

(** [itoa]: most significant digit first; the digits are appended to [buf].
    A 32-bit value has at most 32 digits in a base of at least two. *)
Fixpoint itoa_fuel (fuel : nat) (val : Z) (buf : list Z) (base : Z) : list Z :=
  match fuel with
  | O => buf
  | S fuel' =>
      let remainder := val mod base in
      let multiples := val / base in
      let buf' := if truth multiples then itoa_fuel fuel' multiples buf base else buf in
      buf' ++ [if remainder <? 10 then u8 (remainder + 48) else u8 (remainder - 10 + 65)]
  end.

Definition itoa (val : Z) (buf : list Z) (base : Z) : list Z := itoa_fuel 32 val buf base.

(** The variable arguments of [printf]: one 4-byte stack slot each. *)
Inductive arg :=
| AInt (z : Z)
| AStr (s : list Z).

(** [vsprintf]: [src] is the format from the current character on; the result is
    what has been written to [dst].  After a conversion character other than
    [s], [c], [d] or [x] the loop goes on with that character, without reading
    an argument. *)
Fixpoint vsprintf_loop (fuel : nat) (dst src : list Z) (args : list arg) : option (list Z) :=
  match fuel with
  | O => None
  | S fuel' =>
      match src with
      | [] => None
      | cur :: src' =>
          if negb (truth cur) then Some dst
          else if negb (cur =? 37) then vsprintf_loop fuel' (dst ++ [cur]) src' args
          else match src' with
               | [] => None
               | conv :: src'' =>
                   if conv =? 115 then
                     match args with
                     | AStr s :: args' =>
                         l ← strlen s;
                         vsprintf_loop fuel' (dst ++ take (Z.to_nat l) s) src'' args'
                     | _ => None
                     end
                   else if conv =? 99 then
                     match args with
                     | AInt c :: args' => vsprintf_loop fuel' (dst ++ [u8 c]) src'' args'
                     | _ => None
                     end
                   else if conv =? 100 then
                     match args with
                     | AInt n :: args' =>
                         let n := s32 n in
                         if n <? 0
                         then vsprintf_loop fuel' (itoa (u32 (0 - n)) (dst ++ [45]) 10) src'' args'
                         else vsprintf_loop fuel' (itoa (u32 n) dst 10) src'' args'
                     | _ => None
                     end
                   else if conv =? 120 then
                     match args with
                     | AInt n :: args' => vsprintf_loop fuel' (itoa (u32 n) dst 16) src'' args'
                     | _ => None
                     end
                   else vsprintf_loop fuel' dst src' args
               end
      end
  end.

Definition vsprintf (src : list Z) (args : list arg) : option (list Z) :=
  vsprintf_loop (S (length src)) [] src args.

(** ** C strings *)

(** The characters of a string, without the terminator. *)
Definition is_str (s : list Z) : Prop := Forall (fun c => is_u8 c /\ c <> 0) s.

Definition cstr (s rest : list Z) : list Z := s ++ 0 :: rest.

Lemma truth_true c : c <> 0 -> truth c = true.
Proof. intros. unfold truth. by rewrite (proj2 (Z.eqb_neq c 0)). Qed.

Lemma strlen_cstr s rest :
  is_str s -> zlen s < 4294967296 -> strlen (cstr s rest) = Some (zlen s).
Proof.
  unfold cstr. induction s as [|c s IH]; intros Hs Hl; [done|].
  apply Forall_cons in Hs as [[Hc Hc0] Hs]. rewrite zlen_cons in Hl.
  cbn [strlen app]. rewrite truth_true, IH by (done || lia). sbind.
  rewrite zlen_cons. pose proof (zlen_nonneg s). rewrite u32_id by lia. f_equal. lia.
Qed.

Lemma strcmp_cstr s1 r1 s2 r2 :
  is_str s1 -> is_str s2 ->
  strcmp (cstr s1 r1) (cstr s2 r2) = Some (bool_decide (s1 = s2)).
Proof.
  unfold cstr. revert s2. induction s1 as [|c1 s1 IH]; intros s2 H1 H2.
  - destruct s2 as [|c2 s2]; simpl; [done|]. apply Forall_cons in H2 as [[_ H2] _].
    by rewrite truth_true.
  - apply Forall_cons in H1 as [[_ Hc1] H1]. destruct s2 as [|c2 s2]; simpl.
    { by rewrite truth_true. }
    apply Forall_cons in H2 as [[_ Hc2] H2]. rewrite !truth_true by done. simpl.
    destruct (c1 =? c2) eqn:E; zbool.
    + subst c2. rewrite IH by done. f_equal. apply bool_decide_ext. split; congruence.
    + f_equal. symmetry. apply bool_decide_eq_false. congruence.
Qed.

(** [memset] and [strcpy] stay in a buffer that is large enough. *)
Lemma memset_ok dst d v n :
  0 <= d -> d + Z.of_nat n <= zlen dst ->
  exists dst', memset dst d v n = Some dst' /\ zlen dst' = zlen dst.
Proof.
  revert dst d. induction n as [|n IH]; intros dst d Hd Hl; cbn [memset]; [eauto|].
  rewrite zset_in by lia. sbind.
  destruct (IH (<[Z.to_nat d := u8 v]> dst) (d + 1)) as (dst' & -> & Hz); rewrite ?zlen_insert in *; try lia.
  eauto.
Qed.

Lemma strcpy_prefix s rest old : is_str s -> (length s <= length old)%nat ->
  forall p, strcpy (p ++ old) (zlen p) (cstr s rest) = Some (p ++ s ++ drop (length s) old).
Proof.
  unfold cstr. revert old. induction s as [|c s IH]; intros old Hs Hl p; [done|].
  apply Forall_cons in Hs as [[_ Hc] Hs]. destruct old as [|y old]; [cbn in Hl; lia|].
  cbn [strcpy app]. rewrite truth_true by done. rewrite zset_mid. sbind.
  specialize (IH old Hs ltac:(cbn in Hl; lia) (p ++ [c])). rewrite zlen_app, <- !(assoc_L (++)) in IH. exact IH.
Qed.

Lemma strcpy_ok dst d s rest :
  is_str s -> 0 <= d -> d + zlen s <= zlen dst ->
  exists dst', strcpy dst d (cstr s rest) = Some dst' /\ zlen dst' = zlen dst.
Proof.
  unfold cstr. revert dst d. induction s as [|c s IH]; intros dst d Hs Hd Hl; [cbn; eauto|].
  apply Forall_cons in Hs as [[Hc Hc0] Hs]. rewrite zlen_cons in Hl. pose proof (zlen_nonneg s).
  cbn [strcpy app]. rewrite truth_true, zset_in by (done || lia). sbind.
  destruct (IH (<[Z.to_nat d := c]> dst) (d + 1)) as (dst' & -> & Hz); rewrite ?zlen_insert in *; auto; try lia.
  eauto.
Qed.

(** ** Decimal conversion *)

Definition digit (d : Z) : Z := d + 48.

(** The value of a decimal numeral, most significant digit first. *)
Definition dec_value (ds : list Z) : Z := foldl (fun acc d => acc * 10 + d) 0 ds.

Lemma dec_value_snoc ds d : dec_value (ds ++ [d]) = dec_value ds * 10 + d.
Proof. unfold dec_value. by rewrite foldl_app. Qed.

(** The digits written by [itoa] in base ten. *)
Lemma itoa_fuel_digits fuel val buf :
  0 <= val < 10 ^ Z.of_nat fuel -> (0 < fuel)%nat ->
  exists ds, itoa_fuel fuel val buf 10 = buf ++ map digit ds /\
    Forall (fun d => 0 <= d < 10) ds /\ dec_value ds = val /\
    ds <> [] /\ (1 < zlen ds -> 10 ^ (zlen ds - 1) <= val) /\ zlen ds <= Z.of_nat fuel.
Proof.
  revert val buf. induction fuel as [|fuel IH]; intros val buf Hv Hf; [lia|].
  cbn [itoa_fuel]. rewrite Nat2Z.inj_succ, Z.pow_succ_r in Hv by lia.
  pose proof (Z.div_mod val 10). pose proof (Z.mod_pos_bound val 10).
  assert (Hd : (if val mod 10 <? 10 then u8 (val mod 10 + 48) else u8 (val mod 10 - 10 + 65))
               = digit (val mod 10)).
  { unfold digit. case_if; [|lia]. apply u8_id. lia. }
  rewrite Hd. destruct (truth (val / 10)) eqn:E.
  - destruct fuel as [|fuel']. { simpl in Hv. unfold truth in E. zbool. lia. }
    assert (Hq : 0 <= val / 10 < 10 ^ Z.of_nat (S fuel')) by lia.
    destruct (IH (val / 10) buf Hq ltac:(lia)) as (ds & -> & HF & Hval & Hne & Hlow & Hlen).
    exists (ds ++ [val mod 10]). rewrite map_app, app_assoc. split; [done|].
    split. { apply Forall_app. split; [done|]. constructor; [lia|constructor]. }
    split. { rewrite dec_value_snoc, Hval. lia. }
    split. { by destruct ds. }
    rewrite zlen_app. change (zlen [val mod 10]) with 1. split; [|lia].
    intros _. replace (zlen ds + 1 - 1) with (zlen ds) by lia.
    pose proof (zlen_nonneg ds). unfold truth in E. zbool.
    destruct (decide (1 < zlen ds)) as [D|D].
    + specialize (Hlow D). replace (zlen ds) with (Z.succ (zlen ds - 1)) by lia.
      rewrite Z.pow_succ_r by lia. lia.
    + assert (zlen ds = 1) as ->. { destruct ds; [done|]. rewrite zlen_cons in *. pose proof (zlen_nonneg ds). lia. }
      lia.
  - apply truth_false in E. exists [val mod 10]. split; [done|].
    split; [constructor; [lia|constructor]|]. split; [unfold dec_value; simpl; lia|].
    split; [done|]. change (zlen [val mod 10]) with 1. split; lia.
Qed.

Lemma digit_byte d : 0 <= d < 10 -> is_u8 (digit d) /\ digit d <> 0.
Proof. unfold digit, is_u8. lia. Qed.

Lemma digits_is_str ds : Forall (fun d => 0 <= d < 10) ds -> is_str (map digit ds).
Proof.
  intros H. induction H as [|d ds Hd H IH]; [constructor|].
  constructor; [by apply digit_byte|exact IH].
Qed.

Lemma zlen_map {A B} (f : A -> B) l : zlen (map f l) = zlen l.
Proof. unfold zlen. by rewrite length_map. Qed.

Lemma zget_mid {A} (l : list A) x r : (l ++ x :: r).[zlen l] = Some x.
Proof. rewrite zget_app_r by lia. by rewrite Z.sub_diag. Qed.

Lemma dec_value_nonneg ds : Forall (fun d => 0 <= d < 10) ds -> 0 <= dec_value ds.
Proof.
  induction ds as [|d ds IH] using rev_ind; [done|]. rewrite dec_value_snoc, Forall_app.
  intros [H1 [H2 _]%Forall_cons]. specialize (IH H1). lia.
Qed.

Lemma string2int_loop_digits ds rest ret t :
  Forall (fun d => 0 <= d < 10) ds -> 0 <= ret -> 0 <= t ->
  ret + t * dec_value ds < 2147483648 -> t * 10 ^ (zlen ds - 1) < 2147483648 ->
  string2int_loop (length ds) (map digit ds ++ rest) ret t = Some (ret + t * dec_value ds).
Proof.
  revert rest ret t. induction ds as [|d ds IH] using rev_ind; intros rest ret t Hds Hret Ht Hv Hp.
  { cbn [length string2int_loop]. f_equal. unfold dec_value. simpl. lia. }
  apply Forall_app in Hds as [Hds [Hd _]%Forall_cons].
  rewrite dec_value_snoc in *. pose proof (dec_value_nonneg _ Hds).
  rewrite length_app, Nat.add_1_r. cbn [string2int_loop].
  rewrite map_app, <- app_assoc. change (Z.of_nat (length ds)) with (zlen ds).
  rewrite <- (zlen_map digit ds). cbn [map app]. rewrite zget_mid. sbind.
  rewrite (s8_id (digit d)) by (unfold digit; lia).
  replace (digit d - 48) with d by (unfold digit; lia).
  rewrite zlen_app in Hp. change (zlen [d]) with 1 in Hp.
  replace (zlen ds + 1 - 1) with (zlen ds) in Hp by lia.
  rewrite (s32_id (d * t)) by nia. rewrite (s32_id (ret + d * t)) by nia.
  destruct ds as [|d' ds'].
  { cbn [length string2int_loop]. f_equal. unfold dec_value. simpl. lia. }
  set (ds := d' :: ds') in *.
  assert (Hpow : 10 ^ zlen ds = 10 * 10 ^ (zlen ds - 1)).
  { replace (zlen ds) with (Z.succ (zlen ds - 1)) at 1 by lia. apply Z.pow_succ_r.
    unfold ds. rewrite zlen_cons. pose proof (zlen_nonneg ds'). lia. }
  assert (0 < 10 ^ (zlen ds - 1)).
  { apply Z.pow_pos_nonneg; [lia|]. unfold ds. rewrite zlen_cons. pose proof (zlen_nonneg ds'). lia. }
  rewrite (s32_id (t * 10)) by nia.
  rewrite IH; [f_equal; nia|done|nia|nia|nia|nia].
Qed.

(** What [itoa] prints in base ten is a C string that starts no other way than
    with its digits. *)
Lemma itoa_digits val buf :
  0 <= val < 4294967296 ->
  exists ds, itoa val buf 10 = buf ++ map digit ds /\
    Forall (fun d => 0 <= d < 10) ds /\ dec_value ds = val /\ ds <> [] /\
    (1 < zlen ds -> 10 ^ (zlen ds - 1) <= val) /\ zlen ds <= 32.
Proof.
  intros H. apply itoa_fuel_digits; [|lia]. split; [lia|].
  apply Z.lt_le_trans with 4294967296; [lia|]. by vm_compute.
Qed.

Lemma string2int_digits (n : Z) (rest : list Z) :
  0 <= n < 2147483648 -> string2int (itoa n [] 10 ++ 0 :: rest) = Some n.
Proof.
  intros Hn. destruct (itoa_digits n [] ltac:(lia)) as (ds & -> & HF & Hv & Hne & Hlow & Hlen).
  cbn [app]. unfold string2int. fold (cstr (map digit ds) rest).
  rewrite strlen_cstr by (rewrite ?zlen_map; auto using digits_is_str; lia). sbind.
  rewrite zlen_map. pose proof (zlen_nonneg ds). rewrite s32_id by lia.
  destruct (-1 =? zlen ds) eqn:E; zbool; [lia|]. unfold zlen at 1. rewrite Nat2Z.id.
  unfold cstr. rewrite string2int_loop_digits; [f_equal; lia|done|lia|lia|lia|].
  rewrite Z.mul_1_l. destruct (decide (1 < zlen ds)); [lia|].
  assert (zlen ds - 1 <= 0) as Hle by lia. apply Z.pow_le_mono_r with (a := 10) in Hle; [|lia].
  simpl in Hle. lia.
Qed.

(** Decimal printing and parsing are inverse: reading back with
    [string2int] what [itoa] wrote in base ten gives the number, for every
    non-negative [int] and whatever follows the string terminator. *)
Theorem string2int_itoa (n : Z) (rest : list Z) :
  0 <= n < 2147483648 -> string2int (itoa n [] 10 ++ 0 :: rest) = Some n.
Proof. apply string2int_digits. Qed.

Lemma string2int_itoa_witness :
  0 <= 1024 < 2147483648 /\ string2int (itoa 1024 [] 10 ++ 0 :: [10]) = Some 1024.
Proof. split; [lia|]. apply (string2int_itoa 1024 [10]). lia. Defined.
