(* ===== verification/RingBuffer.v ===== *)
(** * Ring buffers (lib/ring_buffer.cc, lib/indirect_ring_buffer.cc)

    [ring_buffer] is the 64-byte keyboard buffer; [IndirectRingBuffer] hands out
    ten preallocated packet buffers, first to the producer, then in the same
    order to the consumer.  Both keep one position unused to tell full from
    empty; the section [ring] holds what they share. *)
From S2P Require Import Prelude.

Record ring_buffer := mk_ring_buffer { buffer : list Z; head : Z; tail : Z }.

Definition init_ringbuffer (rb : ring_buffer) : ring_buffer :=
  mk_ring_buffer (replicate 64 0) 0 0.

Definition ringbuffer_is_full (rb : ring_buffer) : bool :=
  rb.(tail) =? (rb.(head) + 1) mod 64.

Definition ringbuffer_is_empty (rb : ring_buffer) : bool := rb.(tail) =? rb.(head).

Definition ringbuffer_put (rb : ring_buffer) (ch : Z) : option ring_buffer :=
  if ringbuffer_is_full rb then Some rb
  else
    buffer' ← rb.(buffer).[rb.(head) <- u8 ch];
    Some (mk_ring_buffer buffer' (u8 ((rb.(head) + 1) mod 64)) rb.(tail)).

Definition ringbuffer_get (rb : ring_buffer) : option (Z * ring_buffer) :=
  if ringbuffer_is_empty rb then Some (0, rb)
  else
    ret ← rb.(buffer).[rb.(tail)];
    Some (ret, mk_ring_buffer rb.(buffer) rb.(head) (u8 ((rb.(tail) + 1) mod 64))).

Module IndirectRingBuffer.

Definition LEN : Z := 10.

(** [buf] holds addresses; 0 is the null pointer. *)
Record t := mk { buf : list Z; head : Z; tail : Z }.

Definition default_object : t := mk (replicate 10 0) 0 0.

(** The loop of [initialize]: [buf_] is the memory from the argument on. *)
Fixpoint copy_pointers (n : nat) (dst buf_ : list Z) (i : Z) : option (list Z) :=
  match n with
  | O => Some dst
  | S n' =>
      p ← buf_.[i];
      dst' ← dst.[i <- p];
      copy_pointers n' dst' buf_ (i + 1)
  end.

Definition initialize (this : t) (buf_ : list Z) : option t :=
  buf' ← copy_pointers (Z.to_nat LEN) this.(buf) buf_ 0;
  Some (mk buf' 0 0).

Definition is_full (this : t) : bool := this.(tail) =? (this.(head) + 1) mod LEN.
Definition is_empty (this : t) : bool := this.(tail) =? this.(head).

Definition get_first_free_buffer (this : t) : option (Z * t) :=
  if is_full this then Some (0, this)
  else
    ret ← this.(buf).[this.(head)];
    Some (ret, mk this.(buf) (u8 ((this.(head) + 1) mod LEN)) this.(tail)).

Definition get_first_used_buffer (this : t) : option (Z * t) :=
  if is_empty this then Some (0, this)
  else
    ret ← this.(buf).[this.(tail)];
    Some (ret, mk this.(buf) this.(head) (u8 ((this.(tail) + 1) mod LEN))).

End IndirectRingBuffer.

(** ** What a ring holds *)

Section ring.
Context {A : Type} (N : Z).

(** The ring [buf], with head [hd] and tail [tl], holds the queue [xs]. *)
Record holds (buf : list A) (hd tl : Z) (xs : list A) : Prop := {
  holds_len : zlen buf = N;
  holds_tail : 0 <= tl < N;
  holds_room : zlen xs < N;
  holds_head : hd = (tl + zlen xs) mod N;
  holds_elem : forall k, 0 <= k < zlen xs -> buf.[(tl + k) mod N] = xs.[k];
}.

Lemma wrap t k : 0 <= t < N -> 0 <= k <= N ->
  (t + k) mod N = if t + k <? N then t + k else t + k - N.
Proof.
  intros Ht Hk. destruct (t + k <? N) eqn:E; zbool; [apply Z.mod_small; lia|].
  symmetry. apply Z.mod_unique with 1; lia.
Qed.

Lemma holds_bounds buf hd tl xs : holds buf hd tl xs -> 0 <= hd < N.
Proof. intros [? ? ? -> ?]. apply Z.mod_pos_bound. lia. Qed.

Lemma holds_is_empty buf hd tl xs :
  holds buf hd tl xs -> (tl =? hd) = bool_decide (xs = []).
Proof.
  intros [? ? ? -> ?]. pose proof (zlen_nonneg xs). rewrite wrap by lia.
  destruct xs as [|x xs].
  - change (zlen []) with 0. rewrite Z.add_0_r. destruct (tl <? N) eqn:E; zbool; [|lia].
    rewrite Z.eqb_refl. done.
  - rewrite zlen_cons in *. pose proof (zlen_nonneg xs). rewrite bool_decide_eq_false_2 by done.
    apply Z.eqb_neq. case_if; lia.
Qed.

Lemma holds_is_full buf hd tl xs :
  holds buf hd tl xs -> (tl =? (hd + 1) mod N) = (zlen xs =? N - 1).
Proof.
  intros H. pose proof (holds_bounds _ _ _ _ H) as Hb. destruct H as [? ? ? -> ?].
  pose proof (zlen_nonneg xs). rewrite (wrap _ 1) by lia. rewrite wrap by lia.
  destruct (zlen xs =? N - 1) eqn:E; zbool; [apply Z.eqb_eq|apply Z.eqb_neq];
    repeat case_if; lia.
Qed.

(** Adding at the head, having stored the element or (if [buf] already holds
    it) not. *)
Lemma holds_advance buf hd tl xs x :
  holds buf hd tl xs -> zlen xs < N - 1 -> buf.[hd] = Some x ->
  holds buf ((hd + 1) mod N) tl (xs ++ [x]).
Proof.
  intros [Hl Ht Hr -> He] Hroom Hx. pose proof (zlen_nonneg xs).
  constructor; auto; rewrite ?zlen_app; change (zlen [x]) with 1; try lia.
  - rewrite Zplus_mod_idemp_l. f_equal. lia.
  - intros k Hk. destruct (decide (k < zlen xs)).
    + rewrite zget_app_l by lia. apply He. lia.
    + assert (k = zlen xs) as -> by lia. rewrite Hx, zget_app_r, Z.sub_diag by lia. done.
Qed.

Lemma holds_store buf hd tl xs x :
  holds buf hd tl xs ->
  exists buf', buf.[hd <- x] = Some buf' /\ holds buf' hd tl xs /\ buf'.[hd] = Some x.
Proof.
  intros H. pose proof (holds_bounds _ _ _ _ H) as Hb. destruct H as [Hl Ht Hr Hh He].
  pose proof (zlen_nonneg xs). rewrite zset_in by lia. eexists. split; [done|].
  rewrite zget_insert, Z.eqb_refl by lia. split; [|done].
  constructor; auto; [by rewrite zlen_insert|]. intros k Hk.
  pose proof (Z.mod_pos_bound (tl + k) N). rewrite zget_insert by lia.
  destruct (hd =? (tl + k) mod N) eqn:E; zbool; [|by apply He].
  exfalso. rewrite Hh, !wrap in E by lia.
  destruct (tl + zlen xs <? N) eqn:E1; destruct (tl + k <? N) eqn:E2; zbool; lia.
Qed.

Lemma holds_take buf hd tl x xs :
  holds buf hd tl (x :: xs) ->
  buf.[tl] = Some x /\ holds buf hd ((tl + 1) mod N) xs.
Proof.
  intros [Hl Ht Hr -> He]. rewrite zlen_cons in *. pose proof (zlen_nonneg xs). split.
  - specialize (He 0). rewrite Z.add_0_r, Z.mod_small in He by lia. apply He. lia.
  - constructor; auto; try lia.
    + apply Z.mod_pos_bound. lia.
    + rewrite Zplus_mod_idemp_l. f_equal. lia.
    + intros k Hk. rewrite Zplus_mod_idemp_l. replace (tl + 1 + k) with (tl + (1 + k)) by lia.
      rewrite He by lia. change (x :: xs) with ([x] ++ xs). rewrite zget_app_r by (change (zlen [x]) with 1; lia).
      f_equal. change (zlen [x]) with 1. lia.
Qed.

(** The place that is filled next is none of those in use. *)
Lemma holds_fresh buf hd tl xs x :
  holds buf hd tl xs -> zlen xs < N - 1 -> NoDup buf -> buf.[hd] = Some x -> x ∉ xs.
Proof.
  intros H Hroom Hnd Hx Hin. destruct H as [Hl Ht Hr -> He].
  apply list_elem_of_lookup in Hin as [k Hk]. pose proof (lookup_lt_Some _ _ _ Hk) as Hk'.
  assert (0 <= Z.of_nat k < zlen xs) as Hkr by (unfold zlen; lia).
  assert (buf.[(tl + Z.of_nat k) mod N] = Some x) as Hx'.
  { rewrite He by done. apply zget_Some. split; [lia|]. by rewrite Nat2Z.id. }
  apply zget_Some in Hx as [H1 Hx]. apply zget_Some in Hx' as [H2 Hx'].
  pose proof (NoDup_lookup _ _ _ _ Hnd Hx Hx') as E. rewrite !wrap in E by lia.
  destruct (tl + zlen xs <? N) eqn:E1; destruct (tl + Z.of_nat k <? N) eqn:E2; zbool; lia.
Qed.
End ring.

(** ** The keyboard buffer is a bounded queue *)

Inductive op := OpPut (ch : Z) | OpGet.

Fixpoint run (ops : list op) (rb : ring_buffer) : option (list Z * ring_buffer) :=
  match ops with
  | [] => Some ([], rb)
  | OpPut ch :: ops' => rb ← ringbuffer_put rb ch; run ops' rb
  | OpGet :: ops' =>
      '(ret, rb) ← ringbuffer_get rb;
      '(outs, rb) ← run ops' rb;
      Some (ret :: outs, rb)
  end.

(** The values a queue of at most [cap] elements returns. *)
Fixpoint queue_run (cap : Z) (ops : list op) (q : list Z) : list Z :=
  match ops with
  | [] => []
  | OpPut ch :: ops' => queue_run cap ops' (if zlen q <? cap then q ++ [u8 ch] else q)
  | OpGet :: ops' =>
      match q with
      | [] => 0 :: queue_run cap ops' []
      | x :: q' => x :: queue_run cap ops' q'
      end
  end.

Definition rb_holds (rb : ring_buffer) (q : list Z) : Prop :=
  holds 64 rb.(buffer) rb.(head) rb.(tail) q.

Lemma mod64_u8 x : u8 (x mod 64) = x mod 64.
Proof. apply u8_id. pose proof (Z.mod_pos_bound x 64). lia. Qed.

Lemma put_holds rb q ch :
  rb_holds rb q ->
  exists rb', ringbuffer_put rb ch = Some rb' /\
    rb_holds rb' (if zlen q <? 63 then q ++ [u8 ch] else q).
Proof.
  unfold rb_holds, ringbuffer_put, ringbuffer_is_full. intros H.
  rewrite (holds_is_full _ _ _ _ _ H). pose proof (holds_room _ _ _ _ _ H).
  change (64 - 1) with 63. destruct (zlen q =? 63) eqn:E; zbool.
  - exists rb. split; [done|]. rewrite E. done.
  - destruct (holds_store _ _ _ _ _ (u8 ch) H) as (b' & -> & Hb & Hx). sbind.
    eexists. split; [done|]. cbn [buffer head tail]. rewrite mod64_u8.
    destruct (zlen q <? 63) eqn:E'; zbool; [|lia]. by apply holds_advance.
Qed.

Lemma get_holds rb q :
  rb_holds rb q ->
  exists rb', ringbuffer_get rb = Some (match q with [] => 0 | x :: _ => x end, rb') /\
    rb_holds rb' (match q with [] => [] | _ :: q' => q' end).
Proof.
  unfold rb_holds, ringbuffer_get, ringbuffer_is_empty. intros H.
  rewrite (holds_is_empty _ _ _ _ _ H). destruct q as [|x q]; cbn [bool_decide].
  - rewrite bool_decide_eq_true_2 by done. eauto.
  - rewrite bool_decide_eq_false_2 by done.
    destruct (holds_take _ _ _ _ _ _ H) as [-> Ht]. sbind. eexists. split; [done|].
    cbn [buffer head tail]. by rewrite mod64_u8.
Qed.

Lemma run_holds ops rb q :
  rb_holds rb q -> exists rb', run ops rb = Some (queue_run 63 ops q, rb').
Proof.
  revert rb q. induction ops as [|[ch|] ops IH]; intros rb q H; cbn [run queue_run].
  - eauto.
  - destruct (put_holds _ _ ch H) as (rb' & -> & H'). sbind. by apply IH.
  - destruct (get_holds _ _ H) as (rb' & -> & H'). sbind.
    destruct (IH _ _ H') as (rb2 & ->). sbind. exists rb2. by destruct q.
Qed.

(** C37.  After [init_ringbuffer], and for any sequence of [ringbuffer_put] and
    [ringbuffer_get] calls, no access leaves the buffer and the values returned
    are those of a first-in first-out queue of 63 characters, where a put on a
    full queue is dropped and a get on an empty one returns 0. *)
Theorem ring_buffer_is_queue (ops : list op) (rb : ring_buffer) :
  exists rb', run ops (init_ringbuffer rb) = Some (queue_run 63 ops [], rb').
Proof.
  apply run_holds. constructor; cbn [buffer head tail init_ringbuffer]; try done.
  intros k Hk. change (zlen []) with 0 in Hk. lia.
Qed.

(** ** The packet buffers *)

Module indirect.
Import IndirectRingBuffer.

Definition ind_holds (this : t) (q : list Z) : Prop := holds LEN this.(buf) this.(head) this.(tail) q.

Lemma mod10_u8 x : u8 (x mod LEN) = x mod LEN.
Proof. apply u8_id. pose proof (Z.mod_pos_bound x 10). unfold LEN. lia. Qed.

Lemma free_holds this q :
  ind_holds this q ->
  if zlen q <? 9 then
    exists p this', this.(buf).[this.(head)] = Some p /\
      get_first_free_buffer this = Some (p, this') /\
      this' = mk this.(buf) ((this.(head) + 1) mod LEN) this.(tail) /\
      ind_holds this' (q ++ [p])
  else get_first_free_buffer this = Some (0, this).
Proof.
  unfold ind_holds, get_first_free_buffer, is_full. intros H.
  rewrite (holds_is_full _ _ _ _ _ H). pose proof (holds_room _ _ _ _ _ H) as Hr.
  unfold LEN in Hr. change (LEN - 1) with 9.
  destruct (zlen q <? 9) eqn:E; destruct (zlen q =? 9) eqn:E'; zbool; try lia; [|done].
  pose proof (holds_bounds _ _ _ _ _ H). pose proof (holds_len _ _ _ _ _ H).
  destruct (zget_in this.(buf) this.(head)) as [p Hp]; [lia|]. rewrite Hp. sbind.
  rewrite mod10_u8. exists p. eexists. split; [done|]. split; [done|]. split; [done|].
  apply holds_advance; auto.
Qed.

Lemma used_holds this q :
  ind_holds this q ->
  match q with
  | [] => get_first_used_buffer this = Some (0, this)
  | p :: q' =>
      this.(buf).[this.(tail)] = Some p /\
      get_first_used_buffer this = Some (p, mk this.(buf) this.(head) ((this.(tail) + 1) mod LEN)) /\
      ind_holds (mk this.(buf) this.(head) ((this.(tail) + 1) mod LEN)) q'
  end.
Proof.
  unfold ind_holds, get_first_used_buffer, is_empty. intros H.
  rewrite (holds_is_empty _ _ _ _ _ H). destruct q as [|p q]; cbn [bool_decide].
  - by rewrite bool_decide_eq_true_2.
  - rewrite bool_decide_eq_false_2 by done.
    destruct (holds_take _ _ _ _ _ _ H) as [-> Ht]. sbind. by rewrite mod10_u8.
Qed.

(** The producer takes [n] buffers, one after the other. *)
Fixpoint take_free (n : nat) (this : t) : option (list Z * t) :=
  match n with
  | O => Some ([], this)
  | S n' =>
      '(p, this) ← get_first_free_buffer this;
      '(ps, this) ← take_free n' this;
      Some (p :: ps, this)
  end.

(** The consumer takes [n] buffers. *)
Fixpoint take_used (n : nat) (this : t) : option (list Z * t) :=
  match n with
  | O => Some ([], this)
  | S n' =>
      '(p, this) ← get_first_used_buffer this;
      '(ps, this) ← take_used n' this;
      Some (p :: ps, this)
  end.

Lemma take_used_holds this q :
  ind_holds this q -> exists this', take_used (length q) this = Some (q, this') /\ ind_holds this' [].
Proof.
  revert this. induction q as [|p q IH]; intros this H; cbn [length take_used]; [eauto|].
  destruct (used_holds _ _ H) as (_ & -> & H'). sbind.
  destruct (IH _ H') as (this' & -> & H''). sbind. eauto.
Qed.

Lemma take_free_holds n this q :
  ind_holds this q -> zlen q + Z.of_nat n <= 9 ->
  exists ps this', take_free n this = Some (ps, this') /\ length ps = n /\ ind_holds this' (q ++ ps) /\
    (forall p, p ∈ ps -> p ∈ this.(buf)).
Proof.
  revert this q. induction n as [|n IH]; intros this q H Hn; cbn [take_free].
  { exists [], this. rewrite app_nil_r. split_and!; auto. intros p Hp. by apply elem_of_nil in Hp. }
  pose proof (free_holds _ _ H) as Hf. destruct (zlen q <? 9) eqn:E; zbool; [|lia].
  destruct Hf as (p & this1 & Hp & -> & -> & H1). sbind.
  destruct (IH _ _ H1) as (ps & this2 & -> & Hl & H2 & Hin).
  { rewrite zlen_app. change (zlen [p]) with 1. lia. }
  sbind. exists (p :: ps), this2. rewrite <- app_assoc in H2. split_and!; auto; [cbn; lia|].
  intros p' [->|Hp']%elem_of_cons; [|by apply Hin].
  apply zget_Some in Hp as [_ Hp]. eapply list_elem_of_lookup_2; eauto.
Qed.

Lemma copy_pointers_all n dst src i :
  0 <= i -> i + Z.of_nat n <= zlen dst -> i + Z.of_nat n <= zlen src ->
  exists dst', copy_pointers n dst src i = Some dst' /\ zlen dst' = zlen dst /\
    forall k, 0 <= k -> dst'.[k] = if (i <=? k) && (k <? i + Z.of_nat n) then src.[k] else dst.[k].
Proof.
  revert dst i. induction n as [|n IH]; intros dst i Hi Hd Hs; cbn [copy_pointers].
  { exists dst. repeat split. intros k Hk. case_if; [lia|done|done]. }
  destruct (zget_in src i) as [p Hp]; [lia|]. rewrite Hp. sbind.
  rewrite zset_in by lia. sbind.
  destruct (IH (<[Z.to_nat i := p]> dst) (i + 1)) as (d' & -> & Hl & Hk);
    rewrite ?zlen_insert in *; try lia.
  exists d'. repeat split; [done|]. intros k Hk0. rewrite Hk, zget_insert by lia.
  destruct (i =? k) eqn:E; zbool; [subst k; rewrite Hp|];
    repeat match goal with |- context [if ?b then _ else _] => let E := fresh in destruct b eqn:E end;
    zbool; try done; lia.
Qed.

Lemma initialize_holds this bufs :
  zlen this.(buf) = LEN -> zlen bufs = LEN ->
  initialize this bufs = Some (mk bufs 0 0) /\ ind_holds (mk bufs 0 0) [].
Proof.
  intros H1 H2. unfold initialize, LEN in *.
  destruct (copy_pointers_all (Z.to_nat 10) this.(buf) bufs 0) as (d & -> & Hl & Hk); try lia.
  sbind. assert (d = bufs) as ->.
  { apply zget_ext; [lia|]. intros i Hi. rewrite Hk by lia. case_if; [done|lia|lia]. }
  split; [done|]. constructor; cbn [buf head tail]; unfold LEN; try done.
  intros k Hk'. change (zlen []) with 0 in Hk'. lia.
Qed.

(** The consumer receives the buffers in the order in which the producer
    took them: after [initialize] with ten buffers, the [n] buffers (nine at
    most) handed to the producer come out of [get_first_used_buffer] in the same
    order, and then the ring is empty again. *)
Theorem packets_in_order (this : t) (bufs : list Z) (n : nat) :
  zlen this.(buf) = LEN -> zlen bufs = LEN -> (n <= 9)%nat ->
  exists this0 ps this1 this2,
    initialize this bufs = Some this0 /\
    take_free n this0 = Some (ps, this1) /\ length ps = n /\ (forall p, p ∈ ps -> p ∈ bufs) /\
    take_used n this1 = Some (ps, this2) /\ get_first_used_buffer this2 = Some (0, this2).
Proof.
  intros H1 H2 Hn. destruct (initialize_holds this bufs H1 H2) as [-> H0].
  destruct (take_free_holds n _ _ H0) as (ps & this1 & Ht & Hl & H3 & Hin);
    [change (zlen []) with 0; lia|].
  destruct (take_used_holds _ _ H3) as (this2 & Hu & H4). cbn [app] in Hu. rewrite Hl in Hu.
  exists (mk bufs 0 0), ps, this1, this2. split_and!; auto. exact (used_holds _ _ H4).
Qed.

Lemma take_free_avoids n this q i p ps this' :
  ind_holds this q -> NoDup this.(buf) -> 0 ∉ this.(buf) ->
  (i + 1) mod LEN = this.(tail) -> 0 <= i < LEN -> this.(buf).[i] = Some p ->
  take_free n this = Some (ps, this') -> p ∉ ps.
Proof.
  intros H Hd H0 Hi Hr Hp. revert this q H Hd H0 Hi Hp ps this'.
  induction n as [|n IH]; intros this q H Hd H0 Hi Hp ps this'; cbn [take_free].
  { intros [= <- <-]. set_solver. }
  pose proof (free_holds _ _ H) as Hf. destruct (zlen q <? 9) eqn:E; zbool.
  - destruct Hf as (p1 & this1 & Hp1 & -> & -> & H1). sbind. intros Hn.
    destruct (take_free n _) as [[ps1 this2]|] eqn:Et; cbn [mbind option_bind] in Hn; [|done].
    injection Hn as <- <-. apply not_elem_of_cons. split.
    + intros <-. pose proof (holds_bounds _ _ _ _ _ H) as Hb.
      apply zget_Some in Hp as [_ Hp]. apply zget_Some in Hp1 as [_ Hp1].
      pose proof (NoDup_lookup _ _ _ _ Hd Hp Hp1) as He.
      assert (i = this.(head)) as Hih by lia.
      pose proof (holds_is_full _ _ _ _ _ H) as Hfull.
      rewrite <- Hih, Hi, Z.eqb_refl in Hfull. symmetry in Hfull. zbool. unfold LEN in Hfull. lia.
    + eapply (IH _ _ H1); eauto.
  - rewrite Hf. sbind. intros Hn.
    destruct (take_free n this) as [[ps1 this2]|] eqn:Et; cbn [mbind option_bind] in Hn; [|done].
    injection Hn as <- <-. apply not_elem_of_cons. split; [|eapply (IH _ _ H); eauto].
    intros ->. apply H0. apply zget_Some in Hp as [_ Hp]. eapply list_elem_of_lookup_2; eauto.
Qed.

(** The position kept unused protects the consumer: the buffer it has just
    received is not handed to the producer, however many buffers the producer
    asks for, before the consumer asks for its next one. *)
Theorem consumed_buffer_not_reused (this this1 this2 : t) (q ps : list Z) (p : Z) (n : nat) :
  ind_holds this q -> NoDup this.(buf) -> 0 ∉ this.(buf) ->
  get_first_used_buffer this = Some (p, this1) ->
  take_free n this1 = Some (ps, this2) ->
  p <> 0 -> p ∉ ps.
Proof.
  intros H Hd H0 Hu Ht Hp. pose proof (used_holds _ _ H) as Hq. destruct q as [|p' q].
  { congruence. }
  destruct Hq as (Hb & Hu' & H'). rewrite Hu' in Hu. injection Hu as -> <-.
  pose proof (holds_tail _ _ _ _ _ H).
  eapply take_free_avoids; eauto.
Qed.

Definition ten : list Z := [101; 102; 103; 104; 105; 106; 107; 108; 109; 110].

Lemma packets_in_order_witness :
  exists this0 ps this1 this2,
    initialize default_object ten = Some this0 /\
    take_free 3 this0 = Some (ps, this1) /\ length ps = 3%nat /\ (forall p, p ∈ ps -> p ∈ ten) /\
    take_used 3 this1 = Some (ps, this2) /\ get_first_used_buffer this2 = Some (0, this2).
Proof. apply (packets_in_order default_object ten 3); [reflexivity|reflexivity|lia]. Defined.

Lemma consumed_buffer_not_reused_witness :
  exists ps this2,
  take_free 12 (mk ten 1 1) = Some (ps, this2) /\ 101 ∉ ps.
Proof.
  eexists _, _. split; [vm_compute; reflexivity|].
  eapply (consumed_buffer_not_reused (mk ten 1 0) (mk ten 1 1) _ [101] _ 101 12).
  - constructor; try (vm_compute; intuition congruence).
    intros k Hk. change (zlen [101]) with 1 in Hk. by assert (k = 0) as -> by lia.
  - cbn [buf]. unfold ten. repeat (constructor; [set_solver|]). constructor.
  - unfold ten. cbn [buf]. set_solver.
  - reflexivity.
  - vm_compute. reflexivity.
  - discriminate.
Defined.
End indirect.
