(* ===== verification/DoublebitMap.v ===== *)
(** * Slot maps (mm/doublebit_map.cc)

    Two bits per page of the virtual address space: free, used alone, start or
    end of a sequence of pages allocated together.  Every page inside a sequence
    carries the mark of a page used alone.  [base] is the memory from the pointer
    [base] on. *)
From S2P Require Import Prelude.

Record DoublebitMap := mk_DoublebitMap { bytes_len : Z; base : list Z }.

Definition SLOT_FREE : Z := 0.
Definition SLOT_USED_SINGLE : Z := 1.
Definition SLOT_SEQ_START : Z := 2.
Definition SLOT_SEQ_END : Z := 3.

(** [memset(base, bytes_len, 0)]: the value and the count are swapped, so zero
    bytes are written. *)
Definition initialize (bytes_len_ : Z) (base_ : list Z) : DoublebitMap :=
  let val := u8 bytes_len_ in
  let cnt := 0%nat in
  mk_DoublebitMap bytes_len_ (replicate cnt val ++ drop cnt base_).

Definition get_slot_status (d : DoublebitMap) (idx : Z) : option Z :=
  let idx := u32 (idx * 2) in
  let byte_idx := idx / 8 in
  let bit_idx := idx mod 8 in
  b ← d.(base).[byte_idx];
  Some (u8 (Z.shiftr (Z.land b (Z.shiftl 3 bit_idx)) bit_idx)).

Definition set_slot_value (d : DoublebitMap) (idx val : Z) : option DoublebitMap :=
  let idx := u32 (idx * 2) in
  let byte_idx := idx / 8 in
  let bit_idx := idx mod 8 in
  b ← d.(base).[byte_idx];
  base1 ← d.(base).[byte_idx <- u8 (Z.land b (Z.lnot (Z.shiftl 3 bit_idx)))];
  b1 ← base1.[byte_idx];
  base2 ← base1.[byte_idx <- u8 (Z.lor b1 (Z.shiftl val bit_idx))];
  Some (mk_DoublebitMap d.(bytes_len) base2).

(** The loop [for (int i=1; i<cnt-1; i++)] of [sync], [n] iterations left. *)
Fixpoint sync_loop (n : nat) (d : DoublebitMap) (start i : Z) : option DoublebitMap :=
  match n with
  | O => Some d
  | S n' =>
      d ← set_slot_value d (u32 (start + i)) SLOT_USED_SINGLE;
      sync_loop n' d start (i + 1)
  end.

Definition sync (d : DoublebitMap) (start cnt : Z) : option DoublebitMap :=
  if 1 =? cnt then set_slot_value d start SLOT_USED_SINGLE
  else
    d ← set_slot_value d start SLOT_SEQ_START;
    d ← sync_loop (Z.to_nat (u32 (cnt - 1) - 1)) d start 1;
    set_slot_value d (u32 (start + cnt - 1)) SLOT_SEQ_END.

(** The loop of [get_free_slots] from slot [idx] on, [n] iterations left. *)
Fixpoint get_free_slots_loop (n : nat) (d : DoublebitMap) (cnt idx found_cnt : Z)
  : option (Z * DoublebitMap) :=
  match n with
  | O => Some (-1, d)
  | S n' =>
      st ← get_slot_status d idx;
      if (SLOT_FREE =? st) && (1 =? cnt) then
        d' ← sync d idx cnt; Some (idx, d')
      else if SLOT_FREE =? st then
        let found_cnt' := u32 (found_cnt + 1) in
        if found_cnt' =? cnt then
          d' ← sync d (u32 (idx - cnt + 1)) cnt; Some (s32 (idx - cnt + 1), d')
        else get_free_slots_loop n' d cnt (idx + 1) found_cnt'
      else get_free_slots_loop n' d cnt (idx + 1) 0
  end.

Definition get_free_slots (d : DoublebitMap) (cnt : Z) : option (Z * DoublebitMap) :=
  get_free_slots_loop (Z.to_nat (u32 (d.(bytes_len) * 8))) d cnt 0 0.

(** The [while] loop of [free_slots]: the slot after the last one of the object
    cannot be read, so four times the size of the object bounds the loop. *)
Fixpoint free_slots_loop (fuel : nat) (d : DoublebitMap) (idx cnt : Z)
  : option (Z * Z * DoublebitMap) :=
  match fuel with
  | O => None
  | S fuel' =>
      st ← get_slot_status d idx;
      if SLOT_SEQ_END =? st then Some (idx, cnt, d)
      else
        d ← set_slot_value d idx SLOT_FREE;
        free_slots_loop fuel' d (u32 (idx + 1)) (u32 (cnt + 1))
  end.

Definition free_slots (d : DoublebitMap) (idx : Z) : option (Z * DoublebitMap) :=
  st ← get_slot_status d idx;
  if SLOT_USED_SINGLE =? st then
    d ← set_slot_value d idx SLOT_FREE; Some (1, d)
  else if negb (SLOT_SEQ_START =? st) then Some (0, d)
  else
    '(idx, cnt, d) ← free_slots_loop (S (4 * length d.(base))) d idx 0;
    d ← set_slot_value d idx SLOT_FREE;
    Some (u32 (cnt + 1), d).

#[local] Ltac Zify.zify_post_hook ::= Z.to_euclidean_division_equations.

(** ** The slots as a function *)

Definition slot_of (b k : Z) : Z := b / 4 ^ k mod 4.

Definition slot_at (d : DoublebitMap) (i : Z) : Z :=
  match d.(base).[i / 4] with
  | Some b => slot_of b (i mod 4)
  | None => 0
  end.

(** The number of slots [get_free_slots] looks at, and the memory it needs. *)
Definition limit (d : DoublebitMap) : Z := 8 * d.(bytes_len).

Record map_wf (d : DoublebitMap) : Prop := {
  wf_bytes : Forall is_u8 d.(base);
  wf_len : 0 <= 2 * d.(bytes_len) <= zlen d.(base);
  wf_int : limit d < 2147483648;
}.

Lemma slot_byte_get b k : is_u8 b -> 0 <= k < 4 ->
  u8 (Z.shiftr (Z.land b (Z.shiftl 3 (2 * k))) (2 * k)) = slot_of b k.
Proof.
  intros Hb Hk. apply Z.eqb_eq.
  apply (below_spec 256 (fun b => below 4 (fun k =>
    u8 (Z.shiftr (Z.land b (Z.shiftl 3 (2 * k))) (2 * k)) =? slot_of b k))) in Hb;
    [|vm_compute; reflexivity].
  exact (below_spec _ _ Hb k Hk).
Qed.

Definition set_byte (b k v : Z) : Z :=
  u8 (Z.lor (u8 (Z.land b (Z.lnot (Z.shiftl 3 (2 * k))))) (Z.shiftl v (2 * k))).

Lemma slot_byte_set b k v k' : is_u8 b -> 0 <= k < 4 -> 0 <= v < 4 -> 0 <= k' < 4 ->
  slot_of (set_byte b k v) k' = if k' =? k then v else slot_of b k'.
Proof.
  intros Hb Hk Hv Hk'. apply Z.eqb_eq.
  apply (below_spec 256 (fun b => below 4 (fun k => below 4 (fun v => below 4 (fun k' =>
    slot_of (set_byte b k v) k' =? if k' =? k then v else slot_of b k'))))) in Hb;
    [|vm_compute; reflexivity].
  apply (below_spec _ _) with (z := k) in Hb; [|exact Hk].
  apply (below_spec _ _) with (z := v) in Hb; [|exact Hv].
  exact (below_spec _ _ Hb k' Hk').
Qed.

Lemma slot_of_range b k : 0 <= slot_of b k < 4.
Proof. apply Z.mod_pos_bound. lia. Qed.

(** Position of slot [i]: byte and offset of its two bits. *)
Lemma slot_pos i : 0 <= i < 2147483648 ->
  u32 (i * 2) / 8 = i / 4 /\ u32 (i * 2) mod 8 = 2 * (i mod 4) /\ 0 <= i mod 4 < 4.
Proof. intros H. rewrite u32_id by lia. lia. Qed.

Lemma get_slot_status_at d i :
  Forall is_u8 d.(base) -> 0 <= i < 4 * zlen d.(base) -> i < 2147483648 ->
  get_slot_status d i = Some (slot_at d i).
Proof.
  intros HF Hi Hi'. unfold get_slot_status, slot_at.
  destruct (slot_pos i) as (-> & -> & Hk); [lia|].
  destruct (zget_in d.(base) (i / 4)) as [b Hb]; [lia|]. rewrite Hb. sbind. f_equal.
  apply slot_byte_get; [|done]. apply zget_Some in Hb as [_ Hb]. eapply Forall_lookup_1; eauto.
Qed.

(** [set_slot_value] changes exactly one slot. *)
Lemma set_slot_value_at d i v :
  map_wf d -> 0 <= i < limit d -> 0 <= v < 4 ->
  exists d', set_slot_value d i v = Some d' /\ map_wf d' /\ limit d' = limit d /\
    zlen d'.(base) = zlen d.(base) /\
    forall j, 0 <= j -> slot_at d' j = if j =? i then v else slot_at d j.
Proof.
  intros [HF Hl Hint] Hi Hv. unfold limit in *. unfold set_slot_value, slot_at.
  destruct (slot_pos i) as (-> & -> & Hk); [lia|].
  assert (Hz : 0 <= i / 4 < zlen d.(base)) by lia.
  destruct (zget_in _ _ Hz) as [b Hb].
  assert (Hb8 : is_u8 b). { apply zget_Some in Hb as [_ Hb]. eapply Forall_lookup_1; eauto. }
  rewrite Hb. sbind. rewrite zset_in by done. sbind.
  rewrite zget_insert by lia. rewrite Z.eqb_refl. sbind.
  rewrite zset_in by (by rewrite zlen_insert). sbind. fold (set_byte b (i mod 4) v).
  rewrite list_insert_insert_eq. eexists. split; [done|]. cbn [base bytes_len].
  rewrite zlen_insert. split.
  { constructor; unfold limit; cbn [base bytes_len]; rewrite ?zlen_insert; auto.
    apply Forall_insert; [done|]. apply u8_range. }
  split; [done|]. split; [done|]. intros j Hj. rewrite zget_insert by lia.
  destruct (i / 4 =? j / 4) eqn:E; zbool.
  - rewrite <- E, Hb, slot_byte_set by (done || lia).
    destruct (j mod 4 =? i mod 4) eqn:F; destruct (j =? i) eqn:G; zbool; try done; lia.
  - destruct (j =? i) eqn:G; zbool; [|done]. subst. done.
Qed.

(** What an operation that only rewrites slots guarantees: the bitmap stays
    well formed and its slots become [f]. *)
Definition becomes (d d' : DoublebitMap) (f : Z -> Z) : Prop :=
  map_wf d' /\ limit d' = limit d /\ zlen d'.(base) = zlen d.(base) /\
  forall j, 0 <= j -> slot_at d' j = f j.

Lemma becomes_trans d d1 d2 f g :
  becomes d d1 f -> becomes d1 d2 g -> becomes d d2 g.
Proof.
  intros (? & H1 & H2 & ?) (? & H3 & H4 & ?).
  split; [done|]. rewrite <- H1, <- H2. done.
Qed.

Lemma becomes_ext d d' f g :
  (forall j, 0 <= j -> f j = g j) -> becomes d d' f -> becomes d d' g.
Proof.
  intros Hfg (? & ? & ? & H). repeat (split; [done|]). intros j Hj. rewrite H by done. auto.
Qed.

Lemma becomes_set d i v :
  map_wf d -> 0 <= i < limit d -> 0 <= v < 4 ->
  exists d', set_slot_value d i v = Some d' /\
    becomes d d' (fun j => if j =? i then v else slot_at d j).
Proof. intros. unfold becomes. by apply set_slot_value_at. Qed.

Definition inside (lo hi j : Z) : bool := (lo <=? j) && (j <? hi).

Ltac slot_cases := unfold inside in *; repeat match goal with
  | |- context [if ?b then _ else _] => let E := fresh "E" in destruct b eqn:E; zbool; try lia
  end; try done; try lia.

Lemma sync_loop_at n d start i :
  map_wf d -> 0 <= start -> 0 <= i -> start + i + Z.of_nat n <= limit d ->
  exists d', sync_loop n d start i = Some d' /\
    becomes d d' (fun j => if inside (start + i) (start + i + Z.of_nat n) j
                           then SLOT_USED_SINGLE else slot_at d j).
Proof.
  revert d i. induction n as [|n IH]; intros d i Hwf Hs Hi Hl.
  { exists d. split; [done|]. split; [done|]. repeat split. intros j Hj. slot_cases. }
  cbn [sync_loop]. pose proof (wf_int _ Hwf). rewrite u32_id by lia.
  destruct (becomes_set d (start + i) SLOT_USED_SINGLE) as (d1 & -> & H1);
    [done|lia|unfold SLOT_USED_SINGLE; lia|]. sbind.
  pose proof H1 as (Hwf1 & Hl1 & _ & Hs1).
  destruct (IH d1 (i + 1)) as (d2 & -> & H2); [done|lia|lia|lia|].
  exists d2. split; [done|]. eapply becomes_ext; [|exact (becomes_trans _ _ _ _ _ H1 H2)].
  intros j Hj. cbv beta. rewrite Hs1 by done. slot_cases.
Qed.

(** The mark of the [k]-th slot of an allocation of [cnt] pages. *)
Definition mark (cnt k : Z) : Z :=
  if cnt =? 1 then SLOT_USED_SINGLE
  else if k =? 0 then SLOT_SEQ_START
  else if k =? cnt - 1 then SLOT_SEQ_END
  else SLOT_USED_SINGLE.

Lemma sync_at d start cnt :
  map_wf d -> 0 <= start -> 1 <= cnt -> start + cnt <= limit d ->
  exists d', sync d start cnt = Some d' /\
    becomes d d' (fun j => if inside start (start + cnt) j
                           then mark cnt (j - start) else slot_at d j).
Proof.
  intros Hwf Hs Hc Hl. pose proof (wf_int _ Hwf). unfold sync.
  destruct (1 =? cnt) eqn:E; zbool.
  - subst cnt. destruct (becomes_set d start SLOT_USED_SINGLE) as (d1 & -> & H1);
      [done|lia|unfold SLOT_USED_SINGLE; lia|].
    exists d1. split; [done|]. eapply becomes_ext; [|exact H1].
    intros j Hj. cbv beta. unfold mark. slot_cases.
  - destruct (becomes_set d start SLOT_SEQ_START) as (d1 & -> & H1);
      [done|lia|unfold SLOT_SEQ_START; lia|]. sbind.
    pose proof H1 as (Hwf1 & Hl1 & _ & Hs1). rewrite (u32_id (cnt - 1)) by lia.
    destruct (sync_loop_at (Z.to_nat (cnt - 1 - 1)) d1 start 1) as (d2 & -> & H2);
      [done|lia|lia|lia|]. sbind.
    pose proof H2 as (Hwf2 & Hl2 & _ & Hs2). rewrite (u32_id (start + cnt - 1)) by lia.
    destruct (becomes_set d2 (start + cnt - 1) SLOT_SEQ_END) as (d3 & -> & H3);
      [done|lia|unfold SLOT_SEQ_END; lia|].
    exists d3. split; [done|].
    eapply becomes_ext; [|exact (becomes_trans _ _ _ _ _ H1 (becomes_trans _ _ _ _ _ H2 H3))].
    intros j Hj. cbv beta. rewrite Hs2, Hs1 by done. unfold mark. slot_cases.
Qed.

(** ** The map as a set of allocations

    [B] maps the first slot of each allocation to its length. *)
Definition covers (B : gmap Z Z) (i : Z) : Prop :=
  exists s c, B !! s = Some c /\ s <= i < s + c.

Record rep (d : DoublebitMap) (B : gmap Z Z) : Prop := {
  rep_wf : map_wf d;
  rep_block : forall s c, B !! s = Some c -> 0 <= s /\ 1 <= c /\ s + c <= limit d /\
    forall k, 0 <= k < c -> slot_at d (s + k) = mark c k;
  rep_apart : forall s c s' c', B !! s = Some c -> B !! s' = Some c' -> s < s' -> s + c <= s';
  rep_free : forall i, 0 <= i < limit d -> ~ covers B i -> slot_at d i = SLOT_FREE;
}.

Lemma mark_not_free c k : mark c k <> SLOT_FREE.
Proof. unfold mark, SLOT_USED_SINGLE, SLOT_SEQ_START, SLOT_SEQ_END, SLOT_FREE. slot_cases. Qed.

Lemma rep_free_iff d B i :
  rep d B -> 0 <= i < limit d -> slot_at d i = SLOT_FREE <-> ~ covers B i.
Proof.
  intros Hr Hi. split; [|by apply rep_free]. intros Hf (s & c & Hsc & Hin).
  destruct (rep_block _ _ Hr _ _ Hsc) as (? & ? & ? & Hm).
  specialize (Hm (i - s) ltac:(lia)). replace (s + (i - s)) with i in Hm by lia.
  rewrite Hf in Hm. symmetry in Hm. by apply mark_not_free in Hm.
Qed.

Definition all_free (d : DoublebitMap) (start cnt : Z) : Prop :=
  forall i, start <= i < start + cnt -> slot_at d i = SLOT_FREE.

(** The search loop, on the slots alone. *)
Lemma get_free_slots_loop_spec n d cnt idx found :
  map_wf d -> 1 <= cnt < 2147483648 -> 0 <= found < cnt -> found <= idx ->
  idx + Z.of_nat n = limit d ->
  all_free d (idx - found) found ->
  (found = idx \/ slot_at d (idx - found - 1) <> SLOT_FREE) ->
  (forall q, 0 <= q -> q + cnt <= idx -> ~ all_free d q cnt) ->
  (get_free_slots_loop n d cnt idx found = Some (-1, d) /\
   forall q, 0 <= q -> q + cnt <= limit d -> ~ all_free d q cnt) \/
  (exists r d', get_free_slots_loop n d cnt idx found = Some (r, d') /\
   sync d r cnt = Some d' /\ 0 <= r /\ r + cnt <= limit d /\ all_free d r cnt /\
   forall q, 0 <= q < r -> ~ all_free d q cnt).
Proof.
  revert idx found. induction n as [|n IH]; intros idx found Hwf Hc Hf Hfi Hn Hrun Hmax Hno.
  { left. split; [done|]. intros q ??. apply Hno; lia. }
  pose proof Hwf as [HF Hl Hint]. unfold limit in *.
  cbn [get_free_slots_loop]. rewrite get_slot_status_at by (done || lia). sbind.
  destruct (SLOT_FREE =? slot_at d idx) eqn:Ef; zbool; cbn [andb].
  - assert (Hrun' : all_free d (idx - found) (found + 1)).
    { intros i Hi. destruct (decide (i = idx)) as [->|]; [done|]. apply Hrun. lia. }
    assert (Hlow : forall q, 0 <= q < idx - found -> idx < q + cnt -> ~ all_free d q cnt).
    { intros q Hq1 Hq2 HA. destruct Hmax as [?|Hu]; [lia|]. apply Hu, HA. lia. }
    assert (Hfound : cnt = found + 1 -> forall q, 0 <= q < idx - found -> ~ all_free d q cnt).
    { intros -> q Hq. destruct (decide (q + (found + 1) <= idx)); [apply Hno; lia|apply Hlow; lia]. }
    destruct (1 =? cnt) eqn:E1; zbool.
    + right. subst cnt. assert (found = 0) as -> by lia. rewrite Z.sub_0_r in *.
      destruct (sync_at d idx 1) as (d' & Hs & _); [done|lia|lia|unfold limit; lia|].
      rewrite Hs. sbind. exists idx, d'. repeat split; auto; lia.
    + rewrite u32_id by lia. destruct (found + 1 =? cnt) eqn:E2; zbool.
      * right. rewrite s32_id, u32_id by lia.
        destruct (sync_at d (idx - cnt + 1) cnt) as (d' & Hs & _); [done|lia|lia|unfold limit; lia|].
        rewrite Hs. sbind. exists (idx - cnt + 1), d'.
        replace (idx - cnt + 1) with (idx - found) in * by lia.
        split; [done|]. split; [done|]. split; [lia|]. split; [lia|].
        split; [by rewrite <- E2|]. apply Hfound. lia.
      * apply IH; auto; try lia.
        -- by replace (idx + 1 - (found + 1)) with (idx - found) by lia.
        -- destruct Hmax as [->|Hu]; [by left|right].
           by replace (idx + 1 - (found + 1) - 1) with (idx - found - 1) by lia.
        -- intros q Hq1 Hq2. destruct (decide (q + cnt <= idx)); [apply Hno; lia|apply Hlow; lia].
  - apply IH; auto; try lia.
    + intros i Hi. lia.
    + right. replace (idx + 1 - 0 - 1) with idx by lia. by apply not_eq_sym.
    + intros q Hq1 Hq2 HA. destruct (decide (q + cnt <= idx)); [by apply (Hno q)|].
      apply Ef. symmetry. apply HA. lia.
Qed.

(** No slot of the range belongs to an allocation. *)
Definition unused (B : gmap Z Z) (start cnt : Z) : Prop :=
  forall i, start <= i < start + cnt -> ~ covers B i.

Lemma unused_all_free d B q cnt :
  rep d B -> 0 <= q -> q + cnt <= limit d -> unused B q cnt <-> all_free d q cnt.
Proof.
  intros Hr Hq Hl. split; intros H i Hi.
  - apply (rep_free_iff d B i Hr); [lia|]. by apply H.
  - apply (rep_free_iff d B i Hr); [lia|]. by apply H.
Qed.

Lemma unused_apart B r cnt s c :
  unused B r cnt -> 1 <= cnt -> 1 <= c -> B !! s = Some c -> s + c <= r \/ r + cnt <= s.
Proof.
  intros Hu Hcnt Hc Hs. destruct (decide (s + c <= r)); [by left|].
  destruct (decide (r + cnt <= s)); [by right|]. exfalso.
  destruct (decide (r <= s)).
  - apply (Hu s); [lia|]. exists s, c. split; [done|lia].
  - apply (Hu r); [lia|]. exists s, c. split; [done|lia].
Qed.

(** Marking an unused range adds an allocation. *)
Lemma rep_insert d d' B r cnt :
  rep d B -> 0 <= r -> 1 <= cnt -> r + cnt <= limit d -> unused B r cnt ->
  becomes d d' (fun j => if inside r (r + cnt) j then mark cnt (j - r) else slot_at d j) ->
  rep d' (<[r := cnt]> B).
Proof.
  intros Hr H0 Hc Hl Hu (Hwf & Hlim & _ & Hs).
  assert (Hap : forall s c, B !! s = Some c -> 1 <= c /\ (s + c <= r \/ r + cnt <= s)).
  { intros s c Hsc. destruct (rep_block _ _ Hr _ _ Hsc) as (? & ? & _). split; [done|].
    eapply unused_apart; eauto. }
  constructor; auto.
  - intros s c [(-> & ->)|(Hne & Hsc)]%lookup_insert_Some.
    + rewrite Hlim. repeat split; try lia. intros k Hk. rewrite Hs by lia. slot_cases.
      f_equal. lia.
    + destruct (rep_block _ _ Hr _ _ Hsc) as (? & ? & ? & Hm). specialize (Hap _ _ Hsc).
      rewrite Hlim. repeat split; auto. intros k Hk. rewrite Hs by lia.
      rewrite <- Hm by done. slot_cases.
  - intros s c s' c' [(-> & ->)|(Hne & Hsc)]%lookup_insert_Some
      [(-> & ->)|(Hne' & Hsc')]%lookup_insert_Some Hlt; try lia.
    + specialize (Hap _ _ Hsc'). lia.
    + specialize (Hap _ _ Hsc). lia.
    + eapply (rep_apart _ _ Hr); eauto.
  - intros i Hi Hnc. rewrite Hs by lia. destruct (inside r (r + cnt) i) eqn:E.
    + exfalso. apply Hnc. exists r, cnt. rewrite lookup_insert_eq. split; [done|].
      unfold inside in E. zbool. lia.
    + apply (rep_free _ _ Hr); [by rewrite <- Hlim|]. intros (s & c & Hsc & Hin). apply Hnc.
      exists s, c. split; [|done]. rewrite lookup_insert_ne; [done|].
      intros <-. specialize (Hap _ _ Hsc). lia.
Qed.

(** Clearing the slots of an allocation removes it. *)
Lemma rep_delete d d' B s c :
  rep d B -> B !! s = Some c ->
  becomes d d' (fun j => if inside s (s + c) j then SLOT_FREE else slot_at d j) ->
  rep d' (delete s B).
Proof.
  intros Hr Hsc (Hwf & Hlim & _ & Hs).
  assert (Hap : forall s' c', B !! s' = Some c' -> s' <> s -> s' + c' <= s \/ s + c <= s').
  { intros s' c' Hsc' Hne. pose proof (rep_apart _ _ Hr _ _ _ _ Hsc Hsc').
    pose proof (rep_apart _ _ Hr _ _ _ _ Hsc' Hsc). lia. }
  constructor; auto.
  - intros s' c' [Hne Hsc']%lookup_delete_Some.
    destruct (rep_block _ _ Hr _ _ Hsc') as (? & ? & ? & Hm).
    specialize (Hap _ _ Hsc' ltac:(auto)). rewrite Hlim. repeat split; auto.
    intros k Hk. rewrite Hs by lia. rewrite <- Hm by done. slot_cases.
  - intros s1 c1 s2 c2 [_ H1]%lookup_delete_Some [_ H2]%lookup_delete_Some.
    eapply (rep_apart _ _ Hr); eauto.
  - intros i Hi Hnc. rewrite Hs by lia. destruct (inside s (s + c) i) eqn:E; [done|].
    apply (rep_free _ _ Hr); [by rewrite <- Hlim|]. intros (s' & c' & Hsc' & Hin).
    destruct (decide (s' = s)) as [->|D].
    + assert (c' = c) as -> by congruence. unfold inside in E. zbool; lia.
    + apply Hnc. exists s', c'. split; [|done]. by apply lookup_delete_Some.
Qed.

(** The [while] loop frees up to the end mark. *)
Lemma free_slots_loop_at n fuel d idx cnt :
  map_wf d -> 0 <= idx -> 0 <= cnt -> idx + Z.of_nat n < limit d -> cnt + Z.of_nat n < 4294967296 ->
  (n < fuel)%nat -> (forall k, 0 <= k < Z.of_nat n -> slot_at d (idx + k) <> SLOT_SEQ_END) ->
  slot_at d (idx + Z.of_nat n) = SLOT_SEQ_END ->
  exists d', free_slots_loop fuel d idx cnt = Some (idx + Z.of_nat n, cnt + Z.of_nat n, d') /\
    becomes d d' (fun j => if inside idx (idx + Z.of_nat n) j then SLOT_FREE else slot_at d j).
Proof.
  revert fuel d idx cnt. induction n as [|n IH];
    intros fuel d idx cnt Hwf Hi Hc Hl Hc' Hf Hne He; (destruct fuel as [|fuel]; [lia|]);
    pose proof Hwf as [HF Hlen Hint]; unfold limit in *; cbn [free_slots_loop].
  - rewrite Z.add_0_r in *. rewrite get_slot_status_at by (done || lia). sbind.
    rewrite He. cbn [Z.eqb]. rewrite Z.eqb_refl, !Z.add_0_r. exists d. split; [done|].
    split; [done|]. repeat split. intros j Hj. slot_cases.
  - rewrite get_slot_status_at by (done || lia). sbind.
    pose proof (Hne 0 ltac:(lia)) as H0. rewrite Z.add_0_r in H0.
    destruct (SLOT_SEQ_END =? slot_at d idx) eqn:E; zbool; [by rewrite <- E in H0|].
    destruct (becomes_set d idx SLOT_FREE) as (d1 & -> & H1);
      [done|unfold limit; lia|unfold SLOT_FREE; lia|]. sbind.
    pose proof H1 as (Hwf1 & Hl1 & _ & Hs1). unfold limit in *.
    rewrite !u32_id by lia.
    destruct (IH fuel d1 (idx + 1) (cnt + 1)) as (d2 & -> & H2); auto; try lia.
    + intros k Hk. rewrite Hs1 by lia. slot_cases.
      replace (idx + 1 + k) with (idx + (k + 1)) by lia. apply Hne. lia.
    + rewrite Hs1 by lia. slot_cases. rewrite <- He. f_equal. lia.
    + exists d2. split; [do 3 f_equal; lia|].
      eapply becomes_ext; [|exact (becomes_trans _ _ _ _ _ H1 H2)].
      intros j Hj. cbv beta. rewrite Hs1 by done. slot_cases.
Qed.

Lemma free_slots_at d B s c :
  rep d B -> B !! s = Some c ->
  exists d', free_slots d s = Some (c, d') /\
    becomes d d' (fun j => if inside s (s + c) j then SLOT_FREE else slot_at d j).
Proof.
  intros Hr Hsc. destruct (rep_block _ _ Hr _ _ Hsc) as (Hs & Hc & Hl & Hm).
  pose proof (rep_wf _ _ Hr) as Hwf. pose proof Hwf as [HF Hlen Hint].
  unfold free_slots. unfold limit in *. rewrite get_slot_status_at by (done || lia). sbind.
  assert (H0 : slot_at d s = mark c 0) by (rewrite <- Hm by lia; f_equal; lia).
  rewrite H0. unfold mark at 1 2. destruct (c =? 1) eqn:E; zbool; cbn [Z.eqb].
  - subst c. rewrite Z.eqb_refl.
    destruct (becomes_set d s SLOT_FREE) as (d1 & -> & H1);
      [done|unfold limit; lia|unfold SLOT_FREE; lia|]. sbind. exists d1. split; [done|].
    eapply becomes_ext; [|exact H1]. intros j Hj. cbv beta. slot_cases.
  - rewrite Z.eqb_refl. cbn [SLOT_USED_SINGLE SLOT_SEQ_START Z.eqb Pos.eqb negb].
    destruct (free_slots_loop_at (Z.to_nat (c - 1)) (S (4 * length d.(base))) d s 0)
      as (d1 & -> & H1); auto; try (unfold limit, zlen in *; lia).
    + intros k Hk. rewrite Hm by lia. unfold mark, SLOT_SEQ_START, SLOT_SEQ_END, SLOT_USED_SINGLE.
      slot_cases.
    + rewrite Z2Nat.id by lia. rewrite Hm by lia. unfold mark. slot_cases.
    + sbind. rewrite Z2Nat.id in * by lia. pose proof H1 as (Hwf1 & Hl1 & _ & Hs1).
      destruct (becomes_set d1 (s + (c - 1)) SLOT_FREE) as (d2 & -> & H2);
        [done|unfold limit in *; lia|unfold SLOT_FREE; lia|]. sbind.
      exists d2. rewrite u32_id by lia. split; [do 2 f_equal; lia|].
      eapply becomes_ext; [|exact (becomes_trans _ _ _ _ _ H1 H2)].
      intros j Hj. cbv beta. rewrite Hs1 by done. slot_cases.
Qed.

Lemma get_free_slots_rep (d : DoublebitMap) (B : gmap Z Z) (cnt : Z) :
  rep d B -> 1 <= cnt < 2147483648 ->
  (get_free_slots d cnt = Some (-1, d) /\
   forall q, 0 <= q -> q + cnt <= limit d -> ~ unused B q cnt) \/
  (exists r d', get_free_slots d cnt = Some (r, d') /\ rep d' (<[r := cnt]> B) /\
     limit d' = limit d /\ 0 <= r /\ r + cnt <= limit d /\ unused B r cnt /\
     forall q, 0 <= q < r -> ~ unused B q cnt).
Proof.
  intros Hr Hc. pose proof (rep_wf _ _ Hr) as Hwf. pose proof Hwf as [_ Hl Hint].
  unfold get_free_slots. unfold limit in Hint. rewrite u32_id by lia.
  destruct (get_free_slots_loop_spec (Z.to_nat (d.(bytes_len) * 8)) d cnt 0 0)
    as [[-> Hno]|(r & d' & -> & Hs & H0 & Hlim & Ha & Hmin)]; auto; try lia.
  - unfold limit. lia.
  - intros i ?. lia.
  - left. split; [done|]. intros q ??. rewrite unused_all_free by (done || lia). auto.
  - right. exists r, d'. split; [done|].
    assert (unused B r cnt) by (by rewrite unused_all_free by (done || lia)).
    destruct (sync_at d r cnt) as (d1 & Hs1 & Hb); [done|lia|lia|lia|].
    assert (d1 = d') as -> by congruence.
    split; [eapply rep_insert; eauto; lia|]. destruct Hb as (_ & Hlim' & _). repeat split; auto.
    intros q Hq. rewrite unused_all_free by (done || lia). auto.
Qed.

(** C28.  [get_free_slots] allocates: on a map that represents the allocations
    [B], it either finds that no range of [cnt] slots is unused, returns -1 and
    changes nothing; or returns the first slot [r] of the lowest unused range of
    [cnt] slots, and the map then represents [B] with the allocation [r, cnt]
    added.  (The map covers [8 * bytes_len] slots, which take twice [bytes_len]
    bytes.) *)
Theorem get_free_slots_refines (d : DoublebitMap) (B : gmap Z Z) (cnt : Z) :
  rep d B -> 1 <= cnt < 2147483648 ->
  (get_free_slots d cnt = Some (-1, d) /\
   forall q, 0 <= q -> q + cnt <= limit d -> ~ unused B q cnt) \/
  (exists r d', get_free_slots d cnt = Some (r, d') /\ rep d' (<[r := cnt]> B) /\
     limit d' = limit d /\ 0 <= r /\ r + cnt <= limit d /\ unused B r cnt /\
     forall q, 0 <= q < r -> ~ unused B q cnt).
Proof. apply get_free_slots_rep. Qed.

(** C22.  [free_slots] undoes an allocation: applied to the first slot [s] of an
    allocation of [c] slots it returns [c], and the map then represents the
    other allocations, all of them unchanged. *)
Theorem free_slots_refines (d : DoublebitMap) (B : gmap Z Z) (s c : Z) :
  rep d B -> B !! s = Some c ->
  exists d', free_slots d s = Some (c, d') /\ rep d' (delete s B).
Proof.
  intros Hr Hs. destruct (free_slots_at d B s c Hr Hs) as (d' & -> & Hb).
  exists d'. split; [done|]. eapply rep_delete; eauto.
Qed.

(** [initialize] does not clear the map: whatever the memory of the map
    holds is what the slots say afterwards. *)
Theorem initialize_keeps_memory (n : Z) (mem : list Z) :
  (initialize n mem).(base) = mem /\ (initialize n mem).(bytes_len) = n.
Proof. split; [|done]. reflexivity. Qed.

Lemma small_rep (b : Z) (B : gmap Z Z) :
  (forall s c, B !! s = Some c -> b = 216 /\ s = 1 /\ c = 3) ->
  (b = 0 \/ b = 216 /\ B !! 1 = Some 3) -> rep (mk_DoublebitMap 1 [b; 0]) B.
Proof.
  intros HB Hb. constructor.
  - constructor; cbn [base bytes_len]; unfold limit; cbn [bytes_len]; try lia.
    + repeat constructor; unfold is_u8; lia.
    + change (zlen [b; 0]) with 2. lia.
  - intros s c (-> & -> & ->)%HB. unfold limit. cbn [bytes_len]. repeat split; try lia.
    intros k Hk. assert (k = 0 \/ k = 1 \/ k = 2) as [->|[->| ->]] by lia; reflexivity.
  - intros s c s' c' (_ & -> & ->)%HB (_ & -> & ->)%HB. lia.
  - unfold limit. cbn [bytes_len]. intros i Hi Hc.
    assert (Hi' : i = 0 \/ i = 1 \/ i = 2 \/ i = 3 \/ i = 4 \/ i = 5 \/ i = 6 \/ i = 7) by lia.
    destruct Hb as [->|[-> Hb]].
    + by repeat destruct Hi' as [->|Hi']; try rewrite Hi'.
    + assert (~ 1 <= i < 4) by (intros ?; apply Hc; exists 1, 3; auto).
      repeat destruct Hi' as [->|Hi']; try rewrite Hi'; try reflexivity; lia.
Qed.

Lemma get_free_slots_refines_witness :
  get_free_slots (mk_DoublebitMap 1 [216; 0]) 2 = Some (4, mk_DoublebitMap 1 [216; 14]) /\
  ((get_free_slots (mk_DoublebitMap 1 [216; 0]) 2 = Some (-1, mk_DoublebitMap 1 [216; 0]) /\
    forall q, 0 <= q -> q + 2 <= limit (mk_DoublebitMap 1 [216; 0]) ->
      ~ unused {[1 := 3]} q 2) \/
  (exists r d', get_free_slots (mk_DoublebitMap 1 [216; 0]) 2 = Some (r, d') /\
     rep d' (<[r := 2]> {[1 := 3]}) /\
     limit d' = limit (mk_DoublebitMap 1 [216; 0]) /\ 0 <= r /\ r + 2 <= limit (mk_DoublebitMap 1 [216; 0]) /\ unused {[1 := 3]} r 2 /\
     forall q, 0 <= q < r -> ~ unused {[1 := 3]} q 2)).
Proof.
  split; [reflexivity|]. apply get_free_slots_refines; [|lia].
  apply small_rep; [|right; auto]. intros s c [<- <-]%lookup_singleton_Some. done.
Defined.

Lemma free_slots_refines_witness :
  free_slots (mk_DoublebitMap 1 [216; 0]) 1 = Some (3, mk_DoublebitMap 1 [0; 0]) /\
  exists d', free_slots (mk_DoublebitMap 1 [216; 0]) 1 = Some (3, d') /\
    rep d' (delete 1 {[1 := 3]}).
Proof.
  split; [reflexivity|]. apply free_slots_refines.
  - apply small_rep; [|right; auto]. intros s c [<- <-]%lookup_singleton_Some. done.
  - reflexivity.
Defined.
