(* ===== verification/Swar.v ===== *)
(** * Population count (mm/swar.cc) and memory accounting

    [swar] counts the set bits of a 32-bit word; [print_mem_info] adds it up over
    the words of the physical page bitmap. *)
From S2P Require Import Prelude.

Definition swar (n : Z) : Z :=
  let n := u32 (Z.land n 0x55555555 + Z.land (Z.shiftr n 1) 0x55555555) in
  let n := u32 (Z.land n 0x33333333 + Z.land (Z.shiftr n 2) 0x33333333) in
  let n := u32 (Z.land n 0x0f0f0f0f + Z.land (Z.shiftr n 4) 0x0f0f0f0f) in
  Z.shiftr (u32 (n * 0x01010101)) 24.

(** The number of set bits among the first [w]. *)
Fixpoint popcount (w : nat) (n : Z) : Z :=
  match w with
  | O => 0
  | S w' => Z.b2z (Z.testbit n (Z.of_nat w')) + popcount w' n
  end.

(** One mask-and-add step on a word with byte mask [m]. *)
Definition fold_step (k m n : Z) : Z := Z.land n m + Z.land (Z.shiftr n k) m.

Lemma testbit_cat a x j : is_u8 a -> 0 <= j ->
  Z.testbit (a + 256 * x) j = if j <? 8 then Z.testbit a j else Z.testbit x (j - 8).
Proof.
  intros Ha Hj. unfold is_u8 in Ha. destruct (j <? 8) eqn:E; zbool.
  - rewrite <- (Z.mod_pow2_bits_low (a + 256 * x) 8 j) by lia. change (2 ^ 8) with 256.
    rewrite (Z.mul_comm 256), Z_mod_plus_full, Z.mod_small by lia. done.
  - replace j with (j - 8 + 8) at 1 by lia. rewrite <- Z.div_pow2_bits by lia.
    change (2 ^ 8) with 256. rewrite (Z.mul_comm 256), Z.div_add, Z.div_small by lia. done.
Qed.

Lemma land_u8 a c : is_u8 a -> is_u8 c -> is_u8 (Z.land a c).
Proof.
  intros _ Hc. unfold is_u8 in *.
  replace (Z.land a c) with (Z.land a c mod 256); [apply Z.mod_pos_bound; lia|].
  change 256 with (2 ^ 8). rewrite <- Z.land_ones, <- Z.land_assoc by lia.
  rewrite (Z.land_ones c) by lia. change (2 ^ 8) with 256. by rewrite Z.mod_small.
Qed.

Lemma land_cat a x c y : is_u8 a -> is_u8 c ->
  Z.land (a + 256 * x) (c + 256 * y) = Z.land a c + 256 * Z.land x y.
Proof.
  intros Ha Hc. apply Z.bits_inj'. intros j Hj.
  rewrite Z.land_spec, !testbit_cat by (auto using land_u8).
  destruct (j <? 8); by rewrite Z.land_spec.
Qed.

Lemma shiftr_u8 a k : is_u8 a -> 0 <= k -> is_u8 (Z.shiftr a k).
Proof.
  unfold is_u8. intros Ha Hk. rewrite Z.shiftr_div_pow2 by lia.
  pose proof (Z.pow_pos_nonneg 2 k). split; [apply Z.div_pos; lia|].
  apply Z.le_lt_trans with a; [|lia]. apply Z.div_le_upper_bound; nia.
Qed.

Lemma land_shiftr_cat k a x c y : is_u8 a -> 0 <= k <= 8 -> 0 <= c < 2 ^ (8 - k) ->
  Z.land (Z.shiftr (a + 256 * x) k) (c + 256 * y) =
  Z.land (Z.shiftr a k) c + 256 * Z.land (Z.shiftr x k) y.
Proof.
  intros Ha Hk Hc. assert (is_u8 c) as Hc8.
  { unfold is_u8. assert (2 ^ (8 - k) <= 2 ^ 8) by (apply Z.pow_le_mono_r; lia).
    change (2 ^ 8) with 256 in *. lia. }
  apply Z.bits_inj'. intros j Hj.
  rewrite Z.land_spec, Z.shiftr_spec by lia.
  rewrite !testbit_cat by (auto using land_u8, shiftr_u8 with lia).
  destruct (j <? 8) eqn:E; destruct (j + k <? 8) eqn:F; zbool; try lia.
  - by rewrite Z.land_spec, Z.shiftr_spec by lia.
  - rewrite (testbit_small c (8 - k)) by lia.
    rewrite Z.land_spec, (testbit_small c (8 - k)) by lia. by rewrite !andb_false_r.
  - rewrite Z.land_spec, Z.shiftr_spec by lia. do 2 f_equal. lia.
Qed.

Lemma fold_step_cat k a x c y : is_u8 a -> 0 <= k <= 8 -> 0 <= c < 2 ^ (8 - k) ->
  fold_step k (c + 256 * y) (a + 256 * x) = fold_step k c a + 256 * fold_step k y x.
Proof.
  intros Ha Hk Hc. unfold fold_step. rewrite land_shiftr_cat by done.
  rewrite land_cat; [lia|done|]. unfold is_u8.
  assert (2 ^ (8 - k) <= 2 ^ 8) by (apply Z.pow_le_mono_r; lia).
  change (2 ^ 8) with 256 in *. lia.
Qed.

(** A 32-bit word from its bytes. *)
Definition word (a b c d : Z) : Z := a + 256 * (b + 256 * (c + 256 * d)).

Lemma fold_step_word k m a b c d :
  0 <= k <= 8 -> 0 <= m < 2 ^ (8 - k) -> is_u8 a -> is_u8 b -> is_u8 c -> is_u8 d ->
  fold_step k (word m m m m) (word a b c d) =
  word (fold_step k m a) (fold_step k m b) (fold_step k m c) (fold_step k m d).
Proof. intros. unfold word. by rewrite !fold_step_cat. Qed.

Lemma popcount_cat w a x : is_u8 a ->
  popcount (8 + w) (a + 256 * x) = popcount 8 a + popcount w x.
Proof.
  intros Ha. induction w as [|w IH].
  - rewrite Nat.add_0_r. cbn [popcount]. rewrite !testbit_cat by (done || lia).
    cbn [Z.of_nat Z.ltb]. simpl. lia.
  - rewrite Nat.add_succ_r. change (popcount (S (8 + w)) ?n) with
      (Z.b2z (Z.testbit n (Z.of_nat (8 + w))) + popcount (8 + w) n).
    rewrite IH, testbit_cat by (done || lia).
    destruct (Z.of_nat (8 + w) <? 8) eqn:E; zbool; [lia|].
    cbn [popcount]. replace (Z.of_nat (8 + w) - 8) with (Z.of_nat w) by lia. lia.
Qed.

(** The three steps on one byte. *)
Lemma byte_steps b : is_u8 b ->
  is_u8 (fold_step 1 0x55 b) /\ is_u8 (fold_step 2 0x33 (fold_step 1 0x55 b)) /\
  fold_step 4 0x0f (fold_step 2 0x33 (fold_step 1 0x55 b)) = popcount 8 b /\
  0 <= popcount 8 b <= 8.
Proof.
  intros Hb. unfold is_u8.
  apply (below_spec 256 (fun b =>
    (0 <=? fold_step 1 0x55 b) && (fold_step 1 0x55 b <? 256) &&
    (0 <=? fold_step 2 0x33 (fold_step 1 0x55 b)) &&
    (fold_step 2 0x33 (fold_step 1 0x55 b) <? 256) &&
    (fold_step 4 0x0f (fold_step 2 0x33 (fold_step 1 0x55 b)) =? popcount 8 b) &&
    (0 <=? popcount 8 b) && (popcount 8 b <=? 8))) in Hb; [|vm_compute; reflexivity].
  zbool. lia.
Qed.

Lemma split_word n : is_u32 n ->
  exists a b c d, n = word a b c d /\ is_u8 a /\ is_u8 b /\ is_u8 c /\ is_u8 d.
Proof.
  unfold is_u32, is_u8, word. intros Hn.
  exists (n mod 256), (n / 256 mod 256), (n / 256 / 256 mod 256), (n / 256 / 256 / 256).
  pose proof (Z.div_mod n 256). pose proof (Z.mod_pos_bound n 256).
  pose proof (Z.div_mod (n / 256) 256). pose proof (Z.mod_pos_bound (n / 256) 256).
  pose proof (Z.div_mod (n / 256 / 256) 256). pose proof (Z.mod_pos_bound (n / 256 / 256) 256).
  lia.
Qed.

Lemma word_range a b c d : is_u8 a -> is_u8 b -> is_u8 c -> is_u8 d ->
  0 <= word a b c d < 4294967296.
Proof. unfold word, is_u8. lia. Qed.

Lemma swar_popcount n : is_u32 n -> swar n = popcount 32 n.
Proof.
  intros Hn. destruct (split_word n Hn) as (a & b & c & d & -> & Ha & Hb & Hc & Hd).
  destruct (byte_steps a Ha) as (Ha1 & Ha2 & Ha3 & Ha4).
  destruct (byte_steps b Hb) as (Hb1 & Hb2 & Hb3 & Hb4).
  destruct (byte_steps c Hc) as (Hc1 & Hc2 & Hc3 & Hc4).
  destruct (byte_steps d Hd) as (Hd1 & Hd2 & Hd3 & Hd4).
  unfold swar.
  change 0x55555555 with (word 0x55 0x55 0x55 0x55).
  change 0x33333333 with (word 0x33 0x33 0x33 0x33).
  change 0x0f0f0f0f with (word 0x0f 0x0f 0x0f 0x0f).
  fold (fold_step 1 (word 0x55 0x55 0x55 0x55) (word a b c d)).
  rewrite fold_step_word by (done || lia). rewrite (u32_id (word _ _ _ _)) by (by apply word_range).
  fold (fold_step 2 (word 0x33 0x33 0x33 0x33)
    (word (fold_step 1 0x55 a) (fold_step 1 0x55 b) (fold_step 1 0x55 c) (fold_step 1 0x55 d))).
  rewrite fold_step_word by (done || lia). rewrite (u32_id (word _ _ _ _)) by (by apply word_range).
  match goal with |- context [Z.land (word ?a ?b ?c ?d) ?m + _] =>
    fold (fold_step 4 m (word a b c d)) end.
  rewrite fold_step_word by (done || lia). rewrite Ha3, Hb3, Hc3, Hd3.
  rewrite (u32_id (word _ _ _ _)) by (apply word_range; unfold is_u8; lia).
  unfold word at 2. change 32%nat with (8 + (8 + (8 + 8)))%nat.
  rewrite !popcount_cat by done. unfold word.
  rewrite Z.shiftr_div_pow2 by lia. change (2 ^ 24) with 16777216. unfold u32.
  generalize dependent (popcount 8 a). generalize dependent (popcount 8 b).
  generalize dependent (popcount 8 c). generalize dependent (popcount 8 d).
  intros pd _ Hpd pc _ Hpc pb _ Hpb pa _ Hpa.
  symmetry. apply Z.div_unique with (pa + 256 * (pa + pb) + 65536 * (pa + pb + pc)); [lia|].
  symmetry. apply Z.mod_unique with (pb + pc + pd + 256 * (pc + pd) + 65536 * pd); lia.
Qed.

(** [swar] counts the set bits of a 32-bit word. *)
Theorem swar_counts_bits (n : Z) : is_u32 n -> swar n = popcount 32 n.
Proof. apply swar_popcount. Qed.

Lemma swar_counts_bits_witness : swar 0xdeadbeef = 24 /\ swar 0xdeadbeef = popcount 32 0xdeadbeef.
Proof. split; [reflexivity|]. apply (swar_counts_bits 0xdeadbeef). unfold is_u32. lia. Defined.
