(* ===== verification/Paging.v ===== *)
(** * Pages (mm/memory.cc, page level)

    The memory manager's view of pages: the slot map of virtual pages, the
    bitmap of physical pages, and the page tables, which it reads and writes as
    words of its own address space ([m]) through the recursive mapping of the
    page directory.  The translation of addresses by the processor is not
    modelled: [m] is the address space as the memory manager sees it. *)
From S2P Require Import Prelude Mem.
From S2P Require Bitmap DoublebitMap CycleList.

Definition page_size : Z := 4096.
Definition US_U : Z := 4.
Definition RW_W : Z := 2.
Definition P : Z := 1.

Record MemoryManager := mk_mm {
  vaddr_bmap : DoublebitMap.DoublebitMap;
  vaddr_start : Z;
  phyaddr_bmap : Bitmap.bitmap;
  phyaddr_start : Z;
  pool_size : Z;
  mem_desc_base : Z;          (* address of the array mem_desc *)
  m : mem;
}.

Definition set_vaddr_bmap (mm : MemoryManager) d :=
  mk_mm d mm.(vaddr_start) mm.(phyaddr_bmap) mm.(phyaddr_start) mm.(pool_size) mm.(mem_desc_base) mm.(m).
Definition set_phyaddr_bmap (mm : MemoryManager) b :=
  mk_mm mm.(vaddr_bmap) mm.(vaddr_start) b mm.(phyaddr_start) mm.(pool_size) mm.(mem_desc_base) mm.(m).
Definition set_m (mm : MemoryManager) m' :=
  mk_mm mm.(vaddr_bmap) mm.(vaddr_start) mm.(phyaddr_bmap) mm.(phyaddr_start) mm.(pool_size)
        mm.(mem_desc_base) m'.

Definition mem_desc (base idx : Z) : Z := base + 16 * idx.

Definition get_mem_capacity (m : mem) : Z := load32 m 0x548.

(** The constructors of the seven lists of [mem_desc]. *)
Fixpoint init_mem_desc (n : nat) (m : mem) (base idx : Z) : option mem :=
  match n with
  | O => Some m
  | S n' =>
      m ← CycleList.CycleList.initialize m (mem_desc base idx);
      init_mem_desc n' m base (idx + 1)
  end.

(** The constructor.  [this] is the address of the lists, [bytes] the memory from
    0x9000 on, where both maps are placed. *)
Definition MemoryManager_init (m : mem) (this : Z) (bytes : list Z) : option MemoryManager :=
  m ← init_mem_desc 7 m this 0;
  let mem_capacity := get_mem_capacity m in
  let stationary_mem := 0x200000 in
  let free_mem := u32 (mem_capacity - stationary_mem) in
  let free_pages := free_mem / page_size in
  let bmap_length := free_pages / 8 in
  let phy_start := 0x200000 in
  phyaddr_bmap ← Bitmap.init_bitmap (Bitmap.mk_bitmap bmap_length bytes);
  Some (mk_mm (DoublebitMap.initialize bmap_length
                 (drop (Z.to_nat bmap_length) phyaddr_bmap.(Bitmap.base)))
              0x200000 phyaddr_bmap phy_start free_mem this m).

Definition get_vir_page (mm : MemoryManager) (cnt : Z) : option (Z * MemoryManager) :=
  '(idx_start, d) ← DoublebitMap.get_free_slots mm.(vaddr_bmap) cnt;
  let mm := set_vaddr_bmap mm d in
  if -1 =? idx_start then Some (NULL, mm)
  else Some (u32 (mm.(vaddr_start) + idx_start * page_size), mm).

Definition get_phy_page (mm : MemoryManager) : option (Z * MemoryManager) :=
  idx_free ← Bitmap.bitmap_scan mm.(phyaddr_bmap) 1;
  if -1 =? idx_free then Some (NULL, mm)
  else
    b ← Bitmap.bitmap_set_bit mm.(phyaddr_bmap) idx_free 1;
    Some (u32 (mm.(phyaddr_start) + idx_free * page_size), set_phyaddr_bmap mm b).

Definition vaddr2pde (vaddr : Z) : Z :=
  u32 (0xfffff000 + 4 * Z.shiftr (Z.land vaddr 0xffc00000) 22).

(** A function with a result that ends without [return]: what its caller gets is
    left open by the language and decided by the compiler.  [falls_off v] is what
    the caller gets when [v] is the last value the function has computed.  The
    makefiles ask for no optimisation; then a compiler leaves the last value in
    the register of the result ([leaves_last_value]). *)
Class Compiler := { falls_off : Z -> Z }.

Definition leaves_last_value (C : Compiler) : Prop := forall v, falls_off v = v.

(** Where the entry of a page is in the recursive mapping. *)
Definition pte_slot (vaddr : Z) : Z :=
  u32 (0xffc00000 + Z.shiftr (Z.land vaddr 0xffc00000) 10
       + 4 * Z.shiftr (Z.land vaddr 0x003ff000) 12).

Section code.
Context {C : Compiler}.

(** The source computes [pte] and has no [return]. *)
Definition vaddr2pte (vaddr : Z) : Z := falls_off (pte_slot vaddr).

Definition vaddr2phy (m : mem) (vaddr : Z) : Z :=
  u32 (Z.land (load32 m (vaddr2pte vaddr)) 0xfffff000 + Z.land vaddr 0x00000fff).

Definition flags (phyaddr : Z) : Z := Z.lor (Z.lor (Z.lor phyaddr US_U) RW_W) P.

Definition map_vir_phy (mm : MemoryManager) (viraddr phyaddr : Z) : option MemoryManager :=
  let pde_vaddr := vaddr2pde viraddr in
  let pte_vaddr := vaddr2pte viraddr in
  let is_present := 1 in
  if truth (Z.land (load32 mm.(m) pde_vaddr) is_present) then
    if truth (Z.land (load32 mm.(m) pte_vaddr) is_present) then Some mm
    else Some (set_m mm (store32 mm.(m) pte_vaddr (flags phyaddr)))
  else
    '(pg_table, mm) ← get_phy_page mm;
    let m := store32 mm.(m) pde_vaddr (flags pg_table) in
    let m := memset_mem m (Z.land pte_vaddr 0xfffff000) 0 (Z.to_nat page_size) in
    Some (set_m mm (store32 m pte_vaddr (flags phyaddr))).

Fixpoint malloc_page_loop (cnt : nat) (mm : MemoryManager) (vaddr : Z) : option MemoryManager :=
  match cnt with
  | O => Some mm
  | S cnt' =>
      '(phyaddr_start, mm) ← get_phy_page mm;
      mm ← map_vir_phy mm vaddr phyaddr_start;
      malloc_page_loop cnt' mm (u32 (vaddr + page_size))
  end.

Definition malloc_page (mm : MemoryManager) (cnt : Z) : option (Z * MemoryManager) :=
  '(vaddr_start, mm) ← get_vir_page mm cnt;
  mm ← malloc_page_loop (Z.to_nat cnt) mm vaddr_start;
  Some (vaddr_start, mm).

Definition free_phy_page (mm : MemoryManager) (phyaddr : Z) : option MemoryManager :=
  let idx := u32 (phyaddr - mm.(phyaddr_start)) / page_size in
  b ← Bitmap.bitmap_set_bit mm.(phyaddr_bmap) idx 0;
  Some (set_phyaddr_bmap mm b).

Definition free_vir_page (mm : MemoryManager) (viraddr : Z) : option (Z * MemoryManager) :=
  let idx := u32 (viraddr - mm.(vaddr_start)) / page_size in
  '(cnt, d) ← DoublebitMap.free_slots mm.(vaddr_bmap) idx;
  Some (cnt, set_vaddr_bmap mm d).

Definition remove_map_addr (mm : MemoryManager) (viraddr : Z) : MemoryManager :=
  let pte := vaddr2pte viraddr in
  set_m mm (store32 mm.(m) pte (Z.land (load32 mm.(m) pte) (u32 (Z.lnot P)))).

Fixpoint free_page_loop (cnt : nat) (mm : MemoryManager) (vaddr : Z) : option MemoryManager :=
  match cnt with
  | O => Some mm
  | S cnt' =>
      let paddr := vaddr2phy mm.(m) vaddr in
      mm ← free_phy_page mm paddr;
      let mm := remove_map_addr mm vaddr in
      free_page_loop cnt' mm (u32 (vaddr + page_size))
  end.

Definition free_page (mm : MemoryManager) (viraddr : Z) : option MemoryManager :=
  '(cnt, mm) ← free_vir_page mm viraddr;
  free_page_loop (Z.to_nat cnt) mm viraddr.

End code.

(** ** Addresses and entries *)

#[local] Opaque memset_mem.

#[local] Ltac Zify.zify_post_hook ::= Z.to_euclidean_division_equations.

Lemma land_dir v : 0 <= v < 4294967296 -> Z.land v 0xffc00000 = v / 4194304 * 4194304.
Proof.
  intros Hv. change 0xffc00000 with (Z.ones 10 * 2 ^ 22). rewrite land_field by lia.
  change (2 ^ 22) with 4194304. change (2 ^ 10) with 1024. rewrite Z.mod_small by lia. done.
Qed.

Lemma land_frame v : 0 <= v < 4294967296 -> Z.land v 0xfffff000 = v / 4096 * 4096.
Proof.
  intros Hv. change 0xfffff000 with (Z.ones 20 * 2 ^ 12). rewrite land_field by lia.
  change (2 ^ 12) with 4096. change (2 ^ 20) with 1048576. rewrite Z.mod_small by lia. done.
Qed.

Lemma land_offset v : Z.land v 0xfff = v mod 4096.
Proof. change 0xfff with (Z.ones 12). by rewrite Z.land_ones by lia. Qed.

Lemma vaddr2pde_eq v : 0 <= v < 4294967296 -> vaddr2pde v = 0xfffff000 + 4 * (v / 4194304).
Proof.
  intros Hv. unfold vaddr2pde. rewrite land_dir, Z.shiftr_div_pow2 by lia.
  change (2 ^ 22) with 4194304. rewrite Z.div_mul by lia. rewrite u32_id; lia.
Qed.

Lemma pte_slot_eq v : 0 <= v < 4294967296 -> pte_slot v = 0xffc00000 + 4 * (v / 4096).
Proof.
  intros Hv. unfold pte_slot. rewrite land_dir by lia.
  change 0x003ff000 with (Z.ones 10 * 2 ^ 12). rewrite land_field by lia.
  rewrite !Z.shiftr_div_pow2 by lia. change (2 ^ 12) with 4096. change (2 ^ 10) with 1024.
  rewrite Z.div_mul by lia. rewrite u32_id; lia.
Qed.

(** A table entry for the page frame at [p]. *)
Lemma flags_eq p : p mod 4096 = 0 -> flags p = p + 7.
Proof.
  intros Hp. unfold flags, US_U, RW_W, P. rewrite <- !Z.lor_assoc.
  change (Z.lor 4 (Z.lor 2 1)) with 7. replace p with (p / 4096 * 2 ^ 12) by (change (2 ^ 12) with 4096; lia).
  rewrite lor_low; lia.
Qed.

Definition present (e : Z) : bool := truth (Z.land e 1).

Lemma present_odd e : present e = Z.odd e.
Proof. unfold present. change 1 with (Z.shiftl 1 0). rewrite truth_land_bit by lia. apply Z.bit0_odd. Qed.

Lemma present_flags p : p mod 4096 = 0 -> present (p + 7) = true.
Proof.
  intros Hp. rewrite present_odd. replace (p + 7) with (1 + 2 * (p / 2 + 3)) by lia.
  by rewrite Z.odd_add_mul_2.
Qed.

Lemma present_0 : present 0 = false.
Proof. reflexivity. Qed.

Lemma clear_present e : 0 <= e < 4294967296 ->
  present (Z.land e (u32 (Z.lnot P))) = false.
Proof.
  intros He. change (u32 (Z.lnot P)) with (Z.ones 31 * 2 ^ 1). rewrite land_field by lia.
  rewrite present_odd, Z.odd_mul. change (Z.odd (2 ^ 1)) with false. apply andb_false_r.
Qed.

(** ** Page table invariant *)

Definition slots (mm : MemoryManager) : Z := DoublebitMap.limit mm.(vaddr_bmap).
Definition nframes (mm : MemoryManager) : Z := 8 * mm.(phyaddr_bmap).(Bitmap.bytes_len).
Definition page (mm : MemoryManager) (i : Z) : Z := mm.(vaddr_start) + 4096 * i.
Definition frame (mm : MemoryManager) (j : Z) : Z := mm.(phyaddr_start) + 4096 * j.
Definition pde (mm : MemoryManager) (i : Z) : Z := load32 mm.(m) (vaddr2pde (page mm i)).
Definition pte (mm : MemoryManager) (i : Z) : Z := load32 mm.(m) (pte_slot (page mm i)).
Definition used (mm : MemoryManager) (j : Z) : bool := Bitmap.bit_at mm.(phyaddr_bmap) j.

(** The number of clear bits below [n]. *)
Fixpoint count_free (f : Z -> bool) (n : nat) : Z :=
  match n with
  | O => 0
  | S n' => (if f (Z.of_nat n') then 0 else 1) + count_free f n'
  end.

Definition free_frames (mm : MemoryManager) : Z := count_free (used mm) (Z.to_nat (nframes mm)).

(** What never changes: the virtual range lies below the page tables, the frames
    are addressable, and at least one byte follows the frame bitmap. *)
Record layout (mm : MemoryManager) : Prop := {
  lay_valign : mm.(vaddr_start) mod 4096 = 0;
  lay_vrange : 0 <= mm.(vaddr_start) /\ mm.(vaddr_start) + 4096 * slots mm <= 0xffc00000;
  lay_palign : mm.(phyaddr_start) mod 4096 = 0;
  lay_prange : 0 <= mm.(phyaddr_start) /\ mm.(phyaddr_start) + 4096 * nframes mm <= 4294967296;
  lay_bitmap : Bitmap.bitmap_wf mm.(phyaddr_bmap);
  lay_len : mm.(phyaddr_bmap).(Bitmap.bytes_len) < zlen mm.(phyaddr_bmap).(Bitmap.base);
}.

(** [C] is the set of slots that are mapped. *)
Record pt_inv (mm : MemoryManager) (C : Z -> Prop) : Prop := {
  pt_layout : layout mm;
  pt_map : forall i, 0 <= i < slots mm -> C i -> present (pde mm i) = true /\
    exists j, 0 <= j < nframes mm /\ used mm j = true /\ pte mm i = frame mm j + 7;
  pt_inj : forall i i', 0 <= i < slots mm -> 0 <= i' < slots mm -> C i -> C i' ->
    pte mm i = pte mm i' -> i = i';
  pt_free : forall i, 0 <= i < slots mm -> ~ C i -> present (pde mm i) = true ->
    present (pte mm i) = false;
  pt_table : forall i j, 0 <= i < slots mm -> present (pde mm i) = true -> 0 <= j < nframes mm ->
    pde mm i / 4096 = frame mm j / 4096 ->
    used mm j = true /\ forall i', 0 <= i' < slots mm -> C i' -> pte mm i' <> frame mm j + 7;
}.

(** A frame that is taken but used by no page and no page table yet. *)
Record fresh (mm : MemoryManager) (C : Z -> Prop) (j : Z) : Prop := {
  fr_range : 0 <= j < nframes mm;
  fr_used : used mm j = true;
  fr_pte : forall i, 0 <= i < slots mm -> C i -> pte mm i <> frame mm j + 7;
  fr_pde : forall i, 0 <= i < slots mm -> present (pde mm i) = true ->
    pde mm i / 4096 <> frame mm j / 4096;
}.

Lemma count_free_ext f g n :
  (forall k, 0 <= k < Z.of_nat n -> f k = g k) -> count_free f n = count_free g n.
Proof.
  induction n as [|n IH]; intros H; [done|]. cbn [count_free].
  rewrite H, IH by (intros; try apply H; lia). done.
Qed.

Lemma count_free_update f g n j :
  0 <= j < Z.of_nat n -> (forall k, 0 <= k < Z.of_nat n -> k <> j -> f k = g k) ->
  f j = false -> g j = true -> count_free f n = 1 + count_free g n.
Proof.
  induction n as [|n IH]; intros Hj H Hf Hg; [lia|]. cbn [count_free].
  destruct (decide (j = Z.of_nat n)) as [->|D].
  - rewrite Hf, Hg, (count_free_ext f g); [lia|]. intros k Hk. apply H; lia.
  - rewrite (H (Z.of_nat n)), IH by (intros; try apply H; (done || lia)). lia.
Qed.

Lemma count_free_pos f n : 0 < count_free f n -> exists j, 0 <= j < Z.of_nat n /\ f j = false.
Proof.
  induction n as [|n IH]; cbn [count_free]; [lia|]. intros H.
  destruct (f (Z.of_nat n)) eqn:E.
  - destruct IH as (j & ? & ?); [lia|]. exists j. split; [lia|done].
  - exists (Z.of_nat n). split; [lia|done].
Qed.

(** Taking a frame: [get_phy_page] returns the lowest clear one. *)
Lemma take_frame mm C :
  pt_inv mm C -> 0 < free_frames mm ->
  exists j b, get_phy_page mm = Some (frame mm j, set_phyaddr_bmap mm b) /\
    pt_inv (set_phyaddr_bmap mm b) C /\ fresh (set_phyaddr_bmap mm b) C j /\
    used mm j = false /\ nframes (set_phyaddr_bmap mm b) = nframes mm /\
    (forall k, 0 <= k < nframes mm -> used (set_phyaddr_bmap mm b) k = (k =? j) || used mm k) /\
    free_frames (set_phyaddr_bmap mm b) = free_frames mm - 1.
Proof.
  intros Hinv Hfree. pose proof (pt_layout _ _ Hinv) as [Hva Hv Hpa Hp Hb Hl].
  unfold get_phy_page. pose proof (Bitmap.bitmap_scan_one _ Hb) as Hs.
  assert (Hclear : exists j, 0 <= j < nframes mm /\ used mm j = false).
  { apply count_free_pos in Hfree as (j & Hj & Hu). exists j. split; [lia|done]. }
  unfold nframes, used in *. destruct Hclear as (j0 & Hj0 & Hu0).
  destruct (Bitmap.bitmap_scan _ 1) as [j|].
  2: { destruct Hs as [_ Hs]. by rewrite Hs in Hu0. }
  destruct Hs as [[_ Hs]|(Hj & Hu & Hmin)]; [by rewrite Hs in Hu0|].
  sbind. destruct (-1 =? j) eqn:E; zbool; [lia|].
  destruct (Bitmap.bitmap_set_bit_bits mm.(phyaddr_bmap) j 1 Hb ltac:(lia))
    as (b & -> & Hwf & Hlen & Hz & Hbits). sbind.
  unfold page_size. rewrite u32_id by lia. exists j, b.
  assert (Hbits' : forall k, 0 <= k < 8 * mm.(phyaddr_bmap).(Bitmap.bytes_len) ->
    Bitmap.bit_at b k = (k =? j) || Bitmap.bit_at mm.(phyaddr_bmap) k).
  { intros k Hk. rewrite Hbits by lia. destruct (k =? j); done. }
  split. { do 2 f_equal. unfold frame. lia. }
  split.
  { destruct Hinv as [_ Hm Hi Hf Ht].
    constructor; cbn; unfold nframes, used in *; cbn; rewrite ?Hlen; auto.
    - constructor; unfold nframes; cbn; rewrite ?Hlen; auto. lia.
    - intros i Hi' HC. destruct (Hm i Hi' HC) as (? & k & Hk & Huk & Hpk). split; [done|].
      exists k. rewrite Hbits', Huk by done. rewrite orb_true_r. done.
    - intros i k Hi' Hpr Hk Hpd. destruct (Ht i k Hi' Hpr Hk Hpd) as [Huk Hne].
      rewrite Hbits', Huk by done. rewrite orb_true_r. done. }
  split.
  { constructor; unfold nframes, used; cbn; rewrite ?Hlen; auto.
    - by rewrite Hbits', Z.eqb_refl.
    - intros i Hi HC Heq. destruct (pt_map _ _ Hinv i Hi HC) as (_ & k & Hk & Huk & Hpk).
      change (pte (set_phyaddr_bmap mm b) i) with (pte mm i) in Heq.
      change (frame (set_phyaddr_bmap mm b) j) with (frame mm j) in Heq.
      assert (k = j) as -> by (unfold frame in *; lia). unfold used in Huk. congruence.
    - intros i Hi Hpr Heq. destruct (pt_table _ _ Hinv i j Hi Hpr Hj Heq) as [Huk _].
      unfold used in Huk. congruence. }
  split; [done|]. unfold nframes, free_frames, used, nframes; cbn. rewrite Hlen.
  split; [done|]. split; [done|].
  assert (Hc : forall n, 0 <= j < Z.of_nat n -> n = Z.to_nat (8 * mm.(phyaddr_bmap).(Bitmap.bytes_len)) ->
    count_free (Bitmap.bit_at mm.(phyaddr_bmap)) n = 1 + count_free (Bitmap.bit_at b) n).
  { intros n Hjn ->. apply count_free_update with j; auto.
    - intros k Hk Hne. rewrite Hbits' by lia. destruct (k =? j) eqn:F; zbool; [lia|done].
    - by rewrite Hbits', Z.eqb_refl by lia. }
  specialize (Hc (Z.to_nat (8 * mm.(phyaddr_bmap).(Bitmap.bytes_len))) ltac:(lia) eq_refl).
  change (fun k => Bitmap.bit_at b k) with (Bitmap.bit_at b).
  change (fun k => Bitmap.bit_at mm.(phyaddr_bmap) k) with (Bitmap.bit_at mm.(phyaddr_bmap)). lia.
Qed.

Lemma page_range mm k : layout mm -> 0 <= k < slots mm -> 0 <= page mm k < 0xffc00000.
Proof. intros [_ Hv _ _ _ _] Hk. unfold page. lia. Qed.

Lemma pte_addr mm k : layout mm -> 0 <= k < slots mm ->
  pte_slot (page mm k) = 0xffc00000 + 4 * (mm.(vaddr_start) / 4096 + k) /\
  0 <= mm.(vaddr_start) / 4096 + k < 0xffc00.
Proof.
  intros Hl Hk. pose proof (page_range mm k Hl Hk). rewrite pte_slot_eq by lia.
  pose proof (lay_valign _ Hl). unfold page in *. lia.
Qed.

Lemma pde_addr mm k : layout mm -> 0 <= k < slots mm ->
  vaddr2pde (page mm k) = 0xfffff000 + 4 * (page mm k / 4194304).
Proof. intros Hl Hk. pose proof (page_range mm k Hl Hk). apply vaddr2pde_eq. lia. Qed.

Lemma frame_range mm j : layout mm -> 0 <= j < nframes mm ->
  0 <= frame mm j /\ frame mm j + 4096 <= 4294967296 /\ frame mm j mod 4096 = 0.
Proof. intros [_ _ Hpa Hp _ _] Hj. unfold frame. lia. Qed.

(** The entries of the slots in [C] are the same in both states. *)
Definition keeps (mm mm' : MemoryManager) (C : Z -> Prop) : Prop :=
  forall k, 0 <= k < slots mm -> C k -> pte mm' k = pte mm k.

Lemma keeps_trans a b c C : slots b = slots a -> keeps a b C -> keeps b c C -> keeps a c C.
Proof. intros Hs H1 H2 k Hk HC. rewrite H2, H1 by (done || lia). done. Qed.

Lemma keeps_mono a b (C C' : Z -> Prop) : (forall k, C' k -> C k) -> keeps a b C -> keeps a b C'.
Proof. intros HC H k Hk HC'. auto. Qed.

Lemma entry_frame mm j j' : layout mm -> (frame mm j + 7) / 4096 = frame mm j' / 4096 -> j = j'.
Proof. intros [_ _ Hpa _ _ _]. unfold frame. lia. Qed.

Lemma store_pte_inv mm C i j :
  pt_inv mm C -> 0 <= i < slots mm -> ~ C i -> present (pde mm i) = true -> fresh mm C j ->
  let mm' := set_m mm (store32 mm.(m) (pte_slot (page mm i)) (frame mm j + 7)) in
  pt_inv mm' (fun k => C k \/ k = i) /\ keeps mm mm' C.
Proof.
  intros Hinv Hi HC Hpr [Hj Hju Hjpte Hjpde] mm'. pose proof (pt_layout _ _ Hinv) as Hl.
  destruct (frame_range mm j Hl Hj) as (Hf0 & Hf1 & Hf2).
  assert (Hpte : forall k, 0 <= k < slots mm ->
    pte mm' k = if k =? i then frame mm j + 7 else pte mm k).
  { intros k Hk. unfold pte, mm'; cbn. change (page (set_m mm _) k) with (page mm k).
    destruct (pte_addr mm k Hl Hk) as [-> ?]. destruct (pte_addr mm i Hl Hi) as [-> ?].
    destruct (k =? i) eqn:E; zbool.
    - subst k. rewrite load32_store32_eq, u32_id; lia.
    - rewrite load32_store32_ne; lia || done. }
  assert (Hpde : forall k, 0 <= k < slots mm -> pde mm' k = pde mm k).
  { intros k Hk. unfold pde, mm'; cbn. change (page (set_m mm _) k) with (page mm k).
    rewrite pde_addr by done. destruct (pte_addr mm i Hl Hi) as [-> ?].
    pose proof (page_range mm k Hl Hk). rewrite load32_store32_ne; lia || done. }
  destruct Hinv as [_ Hm Hinj Hfree Htab]. split.
  2: { intros k Hk HCk. rewrite Hpte by done. destruct (k =? i) eqn:E; zbool; congruence. }
  constructor; change (slots mm') with (slots mm); change (nframes mm') with (nframes mm).
  - destruct Hl. constructor; done.
  - intros k Hk HCk. rewrite Hpde, Hpte by done. destruct (k =? i) eqn:E; zbool.
    + subst k. split; [done|]. exists j. done.
    + destruct HCk as [HCk|?]; [|done]. by apply Hm.
  - intros k k' Hk Hk' HCk HCk' Heq. rewrite !Hpte in Heq by done.
    destruct (k =? i) eqn:E; destruct (k' =? i) eqn:E'; zbool; try lia.
    + destruct HCk' as [HCk'|?]; [|lia]. exfalso. by apply (Hjpte k').
    + destruct HCk as [HCk|?]; [|lia]. exfalso. by apply (Hjpte k).
    + destruct HCk; [|lia]. destruct HCk'; [|lia]. by apply Hinj.
  - intros k Hk HCk Hp. rewrite Hpde in Hp by done. rewrite Hpte by done.
    destruct (k =? i) eqn:E; zbool; [tauto|]. apply Hfree; tauto.
  - intros k j' Hk Hp Hj' Heq. rewrite Hpde in Hp, Heq by done.
    change (frame mm' j') with (frame mm j') in *.
    destruct (Htab k j' Hk Hp Hj' Heq) as [Hu Hne]. split; [done|].
    intros k' Hk' HCk' Hpt. rewrite Hpte in Hpt by done. destruct (k' =? i) eqn:E; zbool.
    + apply (Hjpde k Hk Hp). rewrite Heq. f_equal. lia.
    + destruct HCk' as [HCk'|?]; [|lia]. by apply (Hne k').
Qed.

(** Installing an empty page table for slot [i] in frame [j]. *)
Lemma new_table_inv mm C i j :
  pt_inv mm C -> 0 <= i < slots mm -> present (pde mm i) = false -> fresh mm C j ->
  let m1 := store32 mm.(m) (vaddr2pde (page mm i)) (frame mm j + 7) in
  let mm' := set_m mm (memset_mem m1 (Z.land (pte_slot (page mm i)) 0xfffff000) 0 (Z.to_nat page_size)) in
  pt_inv mm' C /\ present (pde mm' i) = true /\ keeps mm mm' C /\
  forall j', fresh mm C j' -> j' <> j -> fresh mm' C j'.
Proof.
  intros Hinv Hi Hpr [Hj Hju Hjpte Hjpde] m1 mm'. pose proof (pt_layout _ _ Hinv) as Hl.
  destruct (frame_range mm j Hl Hj) as (Hf0 & Hf1 & Hf2).
  set (same := fun k => page mm k / 4194304 =? page mm i / 4194304).
  pose proof (page_range mm i Hl Hi) as Hpi. pose proof (lay_valign _ Hl) as Hva.
  destruct (pte_addr mm i Hl Hi) as [Hpi' ?].
  assert (Hbase : Z.land (pte_slot (page mm i)) 0xfffff000 = 0xffc00000 + 4096 * (page mm i / 4194304)).
  { rewrite Hpi', land_frame by lia. unfold page. lia. }
  assert (Hpte : forall k, 0 <= k < slots mm -> pte mm' k = if same k then 0 else pte mm k).
  { intros k Hk. unfold pte, mm'; cbn [m set_m]. change (page (set_m mm _) k) with (page mm k).
    rewrite Hbase. destruct (pte_addr mm k Hl Hk) as [-> ?].
    unfold same. destruct (_ =? _) eqn:E; zbool.
    - apply load32_memset_in; unfold page, page_size in *; lia.
    - rewrite load32_memset_out by (unfold page, page_size in *; lia). unfold m1.
      rewrite pde_addr, load32_store32_ne by (done || lia). done. }
  assert (Hpde : forall k, 0 <= k < slots mm ->
    pde mm' k = if same k then frame mm j + 7 else pde mm k).
  { intros k Hk. pose proof (page_range mm k Hl Hk).
    unfold pde, mm'; cbn [m set_m]. change (page (set_m mm _) k) with (page mm k).
    rewrite Hbase, load32_memset_out by (rewrite pde_addr by done; unfold page_size; lia). unfold m1.
    rewrite !pde_addr by done. unfold same. destruct (_ =? _) eqn:E; zbool.
    - rewrite E, load32_store32_eq, u32_id; lia.
    - rewrite load32_store32_ne; lia || done. }
  assert (Hsame : forall k, 0 <= k < slots mm -> C k -> same k = false).
  { intros k Hk HCk. destruct (same k) eqn:E; [|done]. exfalso.
    destruct (pt_map _ _ Hinv k Hk HCk) as [Hp _]. unfold same in E. zbool.
    unfold pde in Hp, Hpr. rewrite pde_addr in Hp, Hpr by done. rewrite E in Hp. congruence. }
  destruct Hinv as [_ Hm Hinj Hfree Htab].
  split; [constructor; change (slots mm') with (slots mm); change (nframes mm') with (nframes mm)|].
  - destruct Hl. constructor; done.
  - intros k Hk HCk. rewrite Hpde, Hpte, Hsame by done. by apply Hm.
  - intros k k' Hk Hk' HCk HCk' Heq. rewrite !Hpte, !Hsame in Heq by done. by apply Hinj.
  - intros k Hk HCk Hp. rewrite Hpde in Hp by done. rewrite Hpte by done.
    destruct (same k); [done|]. by apply Hfree.
  - intros k j' Hk Hp Hj' Heq. rewrite Hpde in Hp, Heq by done.
    change (frame mm' j') with (frame mm j') in *. destruct (same k) eqn:E.
    + assert (j = j') as <- by (by eapply entry_frame). split; [done|].
      intros k' Hk' HCk'. rewrite Hpte, Hsame by done. by apply Hjpte.
    + destruct (Htab k j' Hk Hp Hj' Heq) as [Hu Hne]. split; [done|].
      intros k' Hk' HCk'. rewrite Hpte, Hsame by done. by apply Hne.
  - split.
    { rewrite Hpde by done. unfold same. rewrite Z.eqb_refl. by apply present_flags. }
    split. { intros k Hk HCk. by rewrite Hpte, Hsame. }
    intros j' [Hj' Hju' Hjpte' Hjpde'] Hne.
    constructor; [exact Hj'|exact Hju'| |]; change (slots mm') with (slots mm);
      change (frame mm' j') with (frame mm j').
    + intros k Hk HCk. rewrite Hpte, Hsame by done. by apply Hjpte'.
    + intros k Hk Hp. rewrite Hpde in * by done. destruct (same k); [|by apply Hjpde'].
      intros Heq. apply Hne. symmetry. by eapply entry_frame.
Qed.

(** What the page operations leave alone. *)
Definition same_static (mm mm' : MemoryManager) : Prop :=
  mm'.(vaddr_bmap) = mm.(vaddr_bmap) /\ mm'.(vaddr_start) = mm.(vaddr_start) /\
  mm'.(phyaddr_start) = mm.(phyaddr_start) /\ nframes mm' = nframes mm.

Lemma same_static_trans a b c : same_static a b -> same_static b c -> same_static a c.
Proof. unfold same_static. intuition congruence. Qed.

Lemma static_slots mm mm' : same_static mm mm' -> slots mm' = slots mm.
Proof. intros (H & _). unfold slots. by rewrite H. Qed.
Lemma static_page mm mm' i : same_static mm mm' -> page mm' i = page mm i.
Proof. intros (_ & H & _). unfold page. by rewrite H. Qed.
Lemma static_frame mm mm' i : same_static mm mm' -> frame mm' i = frame mm i.
Proof. intros (_ & _ & H & _). unfold frame. by rewrite H. Qed.

Lemma pt_inv_ext mm C C' :
  (forall k, 0 <= k < slots mm -> C k <-> C' k) -> pt_inv mm C -> pt_inv mm C'.
Proof.
  intros H [Hl Hm Hi Hf Ht]. constructor; auto.
  - intros i Hi' HC. apply Hm; [done|]. by apply H.
  - intros i i' ?? HC HC'. apply Hi; auto; by apply H.
  - intros i Hi' HC. apply Hf; [done|]. by rewrite H.
  - intros i j ????. destruct (Ht i j) as [Hu Hne]; auto. split; [done|].
    intros i' Hi' HC. apply Hne; [done|]. by apply H.
Qed.

Lemma set_m_set_m mm a b : set_m (set_m mm a) b = set_m mm b.
Proof. reflexivity. Qed.

Lemma page_set_m mm a i : page (set_m mm a) i = page mm i.
Proof. reflexivity. Qed.
Lemma frame_set_m mm a i : frame (set_m mm a) i = frame mm i.
Proof. reflexivity. Qed.
Lemma free_frames_set_m mm a : free_frames (set_m mm a) = free_frames mm.
Proof. reflexivity. Qed.

Section last_value.
Context {compiler : Compiler} (last_value : leaves_last_value compiler).

Lemma vaddr2pte_last v : vaddr2pte v = pte_slot v.
Proof. apply last_value. Qed.

Lemma map_page mm C i j :
  pt_inv mm C -> 0 <= i < slots mm -> ~ C i -> fresh mm C j -> 0 < free_frames mm ->
  exists mm', map_vir_phy mm (page mm i) (frame mm j) = Some mm' /\
    pt_inv mm' (fun k => C k \/ k = i) /\ same_static mm mm' /\ keeps mm mm' C /\
    free_frames mm - 1 <= free_frames mm'.
Proof.
  intros Hinv Hi HC Hj Hfree. pose proof (pt_layout _ _ Hinv) as Hl.
  destruct (frame_range mm j Hl (fr_range _ _ _ Hj)) as (Hf0 & Hf1 & Hf2).
  unfold map_vir_phy. rewrite vaddr2pte_last. fold (pde mm i). fold (pte mm i). fold (present (pde mm i)).
  fold (present (pte mm i)). rewrite flags_eq by done. destruct (present (pde mm i)) eqn:Hp.
  - rewrite (pt_free _ _ Hinv i Hi HC Hp). eexists. split; [done|].
    destruct (store_pte_inv mm C i j Hinv Hi HC Hp Hj) as [H1 H2].
    split; [exact H1|]. split; [done|]. split; [exact H2|]. rewrite free_frames_set_m. lia.
  - destruct (take_frame mm C Hinv Hfree) as (j2 & b & -> & Hinv2 & Hj2 & Hu2 & Hn2 & Hused2 & Hff2).
    sbind. set (mm2 := set_phyaddr_bmap mm b) in *.
    destruct (frame_range mm j2 Hl) as (Hg0 & Hg1 & Hg2).
    { rewrite <- Hn2. apply (fr_range _ _ _ Hj2). }
    rewrite flags_eq by done.
    assert (Hne : j <> j2) by (intros ->; pose proof (fr_used _ _ _ Hj); congruence).
    assert (Hj' : fresh mm2 C j).
    { destruct Hj as [Hj Hju Hjp Hjd]. constructor; auto.
      - by rewrite Hn2.
      - rewrite Hused2, Hju by done. apply orb_true_r. }
    change (m mm) with (m mm2). change (frame mm j2) with (frame mm2 j2).
    change (frame mm j) with (frame mm2 j). change (page mm i) with (page mm2 i).
    destruct (new_table_inv mm2 C i j2 Hinv2 Hi Hp Hj2) as (Hinv3 & Hp3 & Hk3 & Hfr3).
    specialize (Hfr3 j Hj' Hne).
    match type of Hinv3 with pt_inv ?x _ => set (mm3 := x) in * end.
    pose proof (store_pte_inv mm3 C i j Hinv3 Hi HC Hp3 Hfr3) as [H4 H5].
    assert (H6 : keeps mm mm3 C) by exact Hk3.
    pose proof (keeps_trans mm mm3 _ C eq_refl H6 H5) as H7.
    clear H5 H6. unfold mm3 in H4, H7. rewrite page_set_m, frame_set_m, set_m_set_m in H4, H7.
    cbn [m set_m] in H4, H7.
    eexists. split; [reflexivity|]. split; [exact H4|].
    split; [repeat split; exact Hn2|]. split; [exact H7|].
    rewrite free_frames_set_m. lia.
Qed.

Lemma malloc_page_loop_maps n mm C i :
  pt_inv mm C -> 0 <= i -> i + Z.of_nat n <= slots mm ->
  (forall k, i <= k < i + Z.of_nat n -> ~ C k) -> 2 * Z.of_nat n <= free_frames mm ->
  exists mm', malloc_page_loop n mm (page mm i) = Some mm' /\
    pt_inv mm' (fun k => C k \/ i <= k < i + Z.of_nat n) /\ same_static mm mm' /\ keeps mm mm' C.
Proof.
  revert mm C i. induction n as [|n IH]; intros mm C i Hinv Hi Hl HC Hfree; cbn [malloc_page_loop].
  { exists mm. split; [done|]. split; [|by split]. eapply pt_inv_ext; [|exact Hinv]. intros k Hk.
    split; [auto|]. intros [?|?]; [done|lia]. }
  destruct (take_frame mm C Hinv) as (j & b & -> & Hinv1 & Hj1 & _ & Hn1 & _ & Hff1); [lia|].
  sbind. set (mm1 := set_phyaddr_bmap mm b) in *.
  assert (Hst1 : same_static mm mm1) by (repeat split; exact Hn1).
  change (page mm i) with (page mm1 i). change (frame mm j) with (frame mm1 j).
  destruct (map_page mm1 C i j Hinv1) as (mm2 & -> & Hinv2 & Hst2 & Hk2 & Hff2); auto.
  { rewrite (static_slots _ _ Hst1). lia. }
  { apply HC. lia. }
  { lia. }
  sbind. pose proof (same_static_trans _ _ _ Hst1 Hst2) as Hst.
  replace (u32 (page mm1 i + page_size)) with (page mm2 (i + 1)).
  2: { rewrite (static_page _ _ _ Hst).
       pose proof (pt_layout _ _ Hinv) as [_ Hv _ _ _ _]. unfold page, page_size, mm1; cbn.
       rewrite u32_id; lia. }
  destruct (IH mm2 (fun k => C k \/ k = i) (i + 1)) as (mm3 & -> & Hinv3 & Hst3 & Hk3); auto; try lia.
  { rewrite (static_slots _ _ Hst). lia. }
  { intros k Hk [HCk|?]; [|lia]. apply (HC k); [lia|done]. }
  exists mm3. split; [done|].
  split; [|split; [by eapply same_static_trans|]].
  2: { apply keeps_trans with mm2; [by apply static_slots|exact Hk2|].
       eapply keeps_mono; [|exact Hk3]. cbv beta. tauto. }
  eapply pt_inv_ext; [|exact Hinv3]. intros k Hk. split; intros; [|]; intuition lia.
Qed.

(** Both levels together: [B] is the set of allocations. *)
Record mm_inv (mm : MemoryManager) (B : gmap Z Z) : Prop := {
  mm_slots : DoublebitMap.rep mm.(vaddr_bmap) B;
  mm_pages : pt_inv mm (DoublebitMap.covers B);
}.

Lemma set_vaddr_bmap_pt mm d C :
  DoublebitMap.limit d = slots mm -> pt_inv mm C -> pt_inv (set_vaddr_bmap mm d) C.
Proof.
  intros Hd [[? Hv ? ? ? ?] Hm Hi Hf Ht]. unfold slots in *.
  constructor; unfold slots; cbn; rewrite ?Hd; auto.
  constructor; unfold slots; cbn; rewrite ?Hd; auto.
Qed.

(** ** Freeing *)

(** One iteration of [free_page]: the frame of a mapped page is released and its
    entry is no longer present. *)
Lemma unmap_page mm C i :
  pt_inv mm C -> 0 <= i < slots mm -> C i ->
  exists b, free_phy_page mm (vaddr2phy mm.(m) (page mm i)) = Some (set_phyaddr_bmap mm b) /\
    let mm' := remove_map_addr (set_phyaddr_bmap mm b) (page mm i) in
    pt_inv mm' (fun k => C k /\ k <> i) /\ same_static mm mm' /\ keeps mm mm' (fun k => k <> i) /\
    free_frames mm' = free_frames mm + 1.
Proof.
  intros Hinv Hi HC. pose proof (pt_layout _ _ Hinv) as Hl. pose proof Hl as [Hva Hv Hpa Hp Hb Hlen].
  unfold remove_map_addr. rewrite vaddr2pte_last.
  destruct (pt_map _ _ Hinv i Hi HC) as (Hpr & j & Hj & Hju & Hpte).
  destruct (frame_range mm j Hl Hj) as (Hf0 & Hf1 & Hf2). pose proof (page_range mm i Hl Hi).
  assert (Hphy : vaddr2phy mm.(m) (page mm i) = frame mm j).
  { unfold vaddr2phy. rewrite vaddr2pte_last. fold (pte mm i). rewrite Hpte, land_frame, land_offset by lia.
    rewrite u32_id; unfold page in *; lia. }
  unfold free_phy_page. rewrite Hphy. unfold page_size.
  replace (u32 (frame mm j - mm.(phyaddr_start)) / 4096) with j
    by (unfold frame in *; rewrite u32_id; lia).
  unfold nframes in Hj.
  destruct (Bitmap.bitmap_set_bit_bits mm.(phyaddr_bmap) j 0 Hb ltac:(lia))
    as (b & -> & Hwf & Hbl & Hz & Hbits). sbind. exists b. split; [done|].
  assert (Hbits' : forall k, 0 <= k < nframes mm ->
    Bitmap.bit_at b k = if k =? j then false else used mm k).
  { intros k Hk. unfold nframes in Hk. rewrite Hbits by lia. done. }
  set (mm' := set_m _ _).
  assert (Hst : same_static mm mm'). { repeat split. unfold nframes, mm'; cbn. by rewrite Hbl. }
  assert (Hpte' : forall k, 0 <= k < slots mm -> k <> i -> pte mm' k = pte mm k).
  { intros k Hk Hne. unfold pte, mm'; cbn. change (page (set_m _ _) k) with (page mm k).
    destruct (pte_addr mm k Hl Hk) as [-> ?]. destruct (pte_addr mm i Hl Hi) as [-> ?].
    rewrite load32_store32_ne; lia || done. }
  assert (Hpi : present (pte mm' i) = false).
  { unfold pte, mm'; cbn [m set_m set_phyaddr_bmap].
    change (page (set_m _ _) i) with (page mm i). fold (pte mm i).
    rewrite load32_store32_eq, u32_id.
    - apply clear_present. lia.
    - change (u32 (Z.lnot P)) with (Z.ones 31 * 2 ^ 1). rewrite land_field by lia.
      change (2 ^ 1) with 2. change (2 ^ 31) with 2147483648. lia. }
  assert (Hpde : forall k, 0 <= k < slots mm -> pde mm' k = pde mm k).
  { intros k Hk. unfold pde, mm'; cbn. change (page (set_m _ _) k) with (page mm k).
    rewrite pde_addr by done. destruct (pte_addr mm i Hl Hi) as [-> ?].
    pose proof (page_range mm k Hl Hk). rewrite load32_store32_ne; lia || done. }
  assert (Hused : forall k, 0 <= k < nframes mm -> used mm' k = if k =? j then false else used mm k).
  { exact Hbits'. }
  destruct Hst as (? & ? & ? & Hn). split; [|split; [done|split; [exact Hpte'|]]].
  - destruct Hinv as [_ Hm Hinj Hfree Htab].
    constructor; change (slots mm') with (slots mm); rewrite ?Hn.
    + constructor; change (slots mm') with (slots mm); rewrite ?Hn; auto.
      unfold mm'; cbn. rewrite Hbl, Hz. done.
    + intros k Hk [HCk Hne]. rewrite Hpde, Hpte' by done.
      destruct (Hm k Hk HCk) as (? & j' & Hj' & Hju' & Hpk). split; [done|].
      exists j'. split; [done|]. split; [|done]. rewrite Hused by done.
      destruct (j' =? j) eqn:E; zbool; [|done]. subst j'. exfalso. apply Hne, Hinj; auto. congruence.
    + intros k k' Hk Hk' [HCk Hne] [HCk' Hne']. rewrite !Hpte' by done. by apply Hinj.
    + intros k Hk HCk. rewrite Hpde by done. destruct (decide (k = i)) as [->|D]; [done|].
      rewrite Hpte' by done. apply Hfree; [done|]. tauto.
    + intros k j' Hk Hpk Hj' Heq. rewrite Hpde in Hpk, Heq by done.
      change (frame mm' j') with (frame mm j') in *.
      destruct (Htab k j' Hk Hpk Hj' Heq) as [Hu Hne]. split.
      * rewrite Hused by done. destruct (j' =? j) eqn:E; zbool; [|done]. subst j'.
        exfalso. by apply (Hne i Hi HC).
      * intros k' Hk' [HCk' Hne']. rewrite Hpte' by done. by apply Hne.
  - unfold free_frames. rewrite Hn.
    rewrite (count_free_update (used mm') (used mm) _ j).
    + lia.
    + unfold nframes. lia.
    + intros k Hk Hne. rewrite Hused by (unfold nframes in *; lia). destruct (k =? j) eqn:E; zbool; [lia|done].
    + rewrite Hused by (unfold nframes; lia). by rewrite Z.eqb_refl.
    + done.
Qed.

Lemma free_page_loop_unmaps n mm C i :
  pt_inv mm C -> 0 <= i -> i + Z.of_nat n <= slots mm ->
  (forall k, i <= k < i + Z.of_nat n -> C k) ->
  exists mm', free_page_loop n mm (page mm i) = Some mm' /\
    pt_inv mm' (fun k => C k /\ ~ i <= k < i + Z.of_nat n) /\ same_static mm mm' /\
    keeps mm mm' (fun k => ~ i <= k < i + Z.of_nat n) /\
    free_frames mm' = free_frames mm + Z.of_nat n.
Proof.
  revert mm C i. induction n as [|n IH]; intros mm C i Hinv Hi Hl HC; cbn [free_page_loop].
  { exists mm. split; [done|]. split; [|split; [done|split; [done|lia]]]. eapply pt_inv_ext; [|exact Hinv].
    intros k Hk. split; [|tauto]. intros; split; [done|lia]. }
  destruct (unmap_page mm C i Hinv) as (b & -> & Hinv1 & Hst & Hk1 & Hff); [lia|apply HC; lia|].
  sbind. set (mm1 := remove_map_addr (set_phyaddr_bmap mm b) (page mm i)) in *.
  replace (u32 (page mm i + page_size)) with (page mm1 (i + 1)).
  2: { pose proof (pt_layout _ _ Hinv) as [_ Hv _ _ _ _]. rewrite (static_page _ _ _ Hst).
       unfold page, page_size. rewrite u32_id; lia. }
  destruct (IH mm1 (fun k => C k /\ k <> i) (i + 1)) as (mm2 & -> & Hinv2 & Hst2 & Hk2 & Hff2); auto; try lia.
  { rewrite (static_slots _ _ Hst). lia. }
  { intros k Hk. split; [apply HC; lia|lia]. }
  exists mm2. split; [done|]. split; [|split; [by eapply same_static_trans|split; [|lia]]].
  - eapply pt_inv_ext; [|exact Hinv2]. intros k Hk. intuition lia.
  - apply keeps_trans with mm1; [by apply static_slots| |].
    + eapply keeps_mono; [|exact Hk1]. cbv beta. lia.
    + eapply keeps_mono; [|exact Hk2]. cbv beta. lia.
Qed.

(** ** Allocation and release *)

Lemma slots_set_vaddr_bmap mm d :
  DoublebitMap.limit d = slots mm -> slots (set_vaddr_bmap mm d) = slots mm.
Proof. done. Qed.

Lemma get_vir_page_rep mm B cnt :
  mm_inv mm B -> 1 <= cnt < 2147483648 ->
  (exists q, 0 <= q /\ q + cnt <= slots mm /\ DoublebitMap.unused B q cnt) ->
  exists r d, get_vir_page mm cnt = Some (page mm r, set_vaddr_bmap mm d) /\
    0 <= r /\ r + cnt <= slots mm /\ DoublebitMap.unused B r cnt /\
    DoublebitMap.rep d (<[r := cnt]> B) /\ DoublebitMap.limit d = slots mm.
Proof.
  intros [Hr Hp] Hc (q & Hq & Hql & Hu). unfold get_vir_page.
  destruct (DoublebitMap.get_free_slots_rep mm.(vaddr_bmap) B cnt Hr Hc)
    as [[_ Hno]|(r & d & -> & Hr' & Hd & H0 & Hl & Hur & _)].
  { by destruct (Hno q Hq Hql). }
  sbind. destruct (-1 =? r) eqn:E; zbool; [lia|].
  pose proof (pt_layout _ _ Hp) as [_ Hv _ _ _ _]. exists r, d.
  change (vaddr_start (set_vaddr_bmap mm d)) with (vaddr_start mm).
  rewrite u32_id; [|unfold page_size, slots in *; lia].
  split; [do 2 f_equal; unfold page, page_size; lia|]. auto.
Qed.

Lemma covers_insert B r cnt k :
  DoublebitMap.unused B r cnt -> 1 <= cnt ->
  (forall s c, B !! s = Some c -> 1 <= c) ->
  DoublebitMap.covers (<[r := cnt]> B) k <-> DoublebitMap.covers B k \/ r <= k < r + cnt.
Proof.
  intros Hu Hc Hpos. unfold DoublebitMap.covers. split.
  - intros (s & c & [(<- & <-)|(Hne & Hs)]%lookup_insert_Some & Hk); eauto 6.
  - intros [(s & c & Hs & Hk)|Hk].
    + exists s, c. split; [|done]. rewrite lookup_insert_ne; [done|]. intros ->.
      apply (Hu s); [lia|]. exists s, c. split; [done|]. specialize (Hpos s c Hs). lia.
    + exists r, cnt. by rewrite lookup_insert_eq.
Qed.

Lemma covers_delete d B s c k :
  DoublebitMap.rep d B -> B !! s = Some c ->
  DoublebitMap.covers (delete s B) k <-> DoublebitMap.covers B k /\ ~ s <= k < s + c.
Proof.
  intros Hr Hs. unfold DoublebitMap.covers. split.
  - intros (s' & c' & [Hne Hs']%lookup_delete_Some & Hk). split; [eauto|].
    pose proof (DoublebitMap.rep_apart _ _ Hr _ _ _ _ Hs Hs').
    pose proof (DoublebitMap.rep_apart _ _ Hr _ _ _ _ Hs' Hs). lia.
  - intros [(s' & c' & Hs' & Hk) Hno]. exists s', c'. split; [|done].
    apply lookup_delete_Some. split; [|done]. intros <-. assert (c' = c) by congruence. lia.
Qed.

Lemma malloc_page_inv mm B cnt :
  mm_inv mm B -> 1 <= cnt < 2147483648 -> 2 * cnt <= free_frames mm ->
  (exists q, 0 <= q /\ q + cnt <= slots mm /\ DoublebitMap.unused B q cnt) ->
  exists r mm', malloc_page mm cnt = Some (page mm r, mm') /\
    0 <= r /\ r + cnt <= slots mm /\ DoublebitMap.unused B r cnt /\
    mm_inv mm' (<[r := cnt]> B) /\ keeps mm mm' (DoublebitMap.covers B).
Proof.
  intros Hinv Hc Hf Hq. unfold malloc_page.
  destruct (get_vir_page_rep mm B cnt Hinv Hc Hq) as (r & d & -> & H0 & Hl & Hu & Hr & Hd). sbind.
  set (mm1 := set_vaddr_bmap mm d). change (malloc_page_loop ?n mm1 (page mm r))
    with (malloc_page_loop n mm1 (page mm1 r)).
  assert (Hinv1 : pt_inv mm1 (DoublebitMap.covers B)) by (apply set_vaddr_bmap_pt, mm_pages; done).
  assert (Hs1 : slots mm1 = slots mm) by (by apply slots_set_vaddr_bmap).
  destruct (malloc_page_loop_maps (Z.to_nat cnt) mm1 (DoublebitMap.covers B) r Hinv1)
    as (mm2 & -> & Hinv2 & Hst & Hk2); auto; try lia.
  { intros k Hk. apply Hu. lia. }
  { change (free_frames mm1) with (free_frames mm). lia. }
  sbind. exists r, mm2. do 4 (split; [done|]). split.
  2: { intros k Hk. apply Hk2. by rewrite Hs1. }
  constructor.
  - destruct Hst as (-> & _). done.
  - eapply pt_inv_ext; [|exact Hinv2]. intros k Hk. rewrite covers_insert; [|done|lia|].
    + intuition lia.
    + intros s c Hs. destruct (DoublebitMap.rep_block _ _ (mm_slots _ _ Hinv) _ _ Hs). lia.
Qed.

End last_value.

(** C15.  Page allocation is correct, provided that the compiled [vaddr2pte], which
    has no [return], leaves the last value it computed: when the virtual range has an unused
    range of [cnt] pages and enough frames are free (at most one page table per
    page), [malloc_page] returns the address of [cnt] unused pages, and
    afterwards every page of every allocation, the new one included, is mapped
    (present, user, writable) to a taken frame of its own, shared with no other
    page and with no page table.  Pages mapped before keep their frames. *)
Theorem malloc_page_maps `{compiler : Compiler} (mm : MemoryManager) (B : gmap Z Z) (cnt : Z) :
  leaves_last_value compiler ->
  mm_inv mm B -> 1 <= cnt < 2147483648 -> 2 * cnt <= free_frames mm ->
  (exists q, 0 <= q /\ q + cnt <= slots mm /\ DoublebitMap.unused B q cnt) ->
  exists r mm', malloc_page mm cnt = Some (page mm r, mm') /\
    0 <= r /\ r + cnt <= slots mm /\ DoublebitMap.unused B r cnt /\
    mm_inv mm' (<[r := cnt]> B) /\ keeps mm mm' (DoublebitMap.covers B).
Proof. intros Hlast. by apply malloc_page_inv. Qed.

(** C16.  [free_page] applied to the first page of an allocation of [c] pages
    unmaps exactly these pages and releases their [c] frames; the pages of all
    other allocations stay mapped as they were.  As for [malloc_page], the
    compiled [vaddr2pte] has to leave the last value it computed. *)
Theorem free_page_unmaps `{compiler : Compiler} (mm : MemoryManager) (B : gmap Z Z) (s c : Z) :
  leaves_last_value compiler ->
  mm_inv mm B -> B !! s = Some c ->
  exists mm', free_page mm (page mm s) = Some mm' /\ mm_inv mm' (delete s B) /\
    free_frames mm' = free_frames mm + c /\ keeps mm mm' (DoublebitMap.covers (delete s B)).
Proof.
  intros Hlast [Hr Hp] Hs. destruct (DoublebitMap.rep_block _ _ Hr _ _ Hs) as (H0 & Hc & Hl & _).
  pose proof (pt_layout _ _ Hp) as [Hva Hv _ _ _ _]. unfold free_page, free_vir_page.
  replace (u32 (page mm s - mm.(vaddr_start)) / page_size) with s
    by (unfold page, page_size, slots in *; rewrite u32_id; lia).
  destruct (DoublebitMap.free_slots_at _ _ _ _ Hr Hs) as (d & -> & Hb). sbind.
  pose proof Hb as (_ & Hd & _). set (mm1 := set_vaddr_bmap mm d).
  change (page mm s) with (page mm1 s).
  assert (Hp1 : pt_inv mm1 (DoublebitMap.covers B)) by (apply set_vaddr_bmap_pt; done).
  destruct (free_page_loop_unmaps Hlast (Z.to_nat c) mm1 _ s Hp1) as (mm2 & -> & Hp2 & Hst & Hk & Hff); auto.
  { unfold slots; cbn. rewrite Hd. lia. }
  { intros k Hk. exists s, c. split; [done|lia]. }
  rewrite Z2Nat.id in * by lia. exists mm2. split; [done|]. split; [constructor|split].
  - destruct Hst as (-> & _). eapply DoublebitMap.rep_delete; eauto.
  - eapply pt_inv_ext; [|exact Hp2]. intros k _. by rewrite (covers_delete _ _ _ _ _ Hr Hs).
  - exact Hff.
  - intros k Hk' HC. apply Hk; [unfold mm1; by rewrite slots_set_vaddr_bmap|]. apply (covers_delete _ _ _ _ _ Hr Hs) in HC as [_ HC].
    exact HC.
Qed.

(** A small manager: eight virtual pages, sixteen frames. *)
Definition small_mm : MemoryManager :=
  mk_mm (DoublebitMap.mk_DoublebitMap 1 [0; 0]) 0x200000 (Bitmap.mk_bitmap 2 [0; 0; 0])
        0x200000 65536 0x1000 ∅.

Lemma small_mm_inv : mm_inv small_mm ∅.
Proof.
  constructor.
  - apply DoublebitMap.small_rep; [|by left]. intros s c H. by rewrite lookup_empty in H.
  - assert (He : forall k, ~ DoublebitMap.covers ∅ k).
    { intros k (s & c & H & _). by rewrite lookup_empty in H. }
    assert (Hpde : forall i, present (pde small_mm i) = false).
    { intros i. unfold pde, load32, load8, small_mm; cbn [m]. by rewrite !lookup_empty. }
    constructor.
    + constructor; cbn; unfold slots, nframes, DoublebitMap.limit; cbn; try lia; [|done].
      constructor; cbn; [repeat constructor; unfold is_u8; lia|done|lia].
    + intros i _ []%He.
    + intros i i' _ _ []%He.
    + intros i _ _ Hp. by rewrite Hpde in Hp.
    + intros i j _ Hp. by rewrite Hpde in Hp.
Qed.

Lemma small_unused q c : DoublebitMap.unused ∅ q c.
Proof. intros k _ (s & c' & H & _). by rewrite lookup_empty in H. Qed.

(** With another compiler the entry is written wherever the register points. *)
Lemma map_vir_phy_wanders (wild : Z) : wild mod 4096 = 0 -> 0 <= wild < 0xffc00000 ->
  @map_vir_phy {| falls_off _ := wild |} small_mm 0x200000 0x200000 =
    Some (set_m (set_phyaddr_bmap small_mm (Bitmap.mk_bitmap 2 [1; 0; 0]))
      (store32 (memset_mem (store32 ∅ (vaddr2pde 0x200000) (flags 0x200000)) wild 0 4096) wild (flags 0x200000))).
Proof.
  intros Hw Hr. unfold map_vir_phy, vaddr2pte. cbn [falls_off].
  change (truth (Z.land (load32 small_mm.(m) (vaddr2pde 0x200000)) 1)) with false. cbv iota.
  change (get_phy_page small_mm) with (Some (0x200000, set_phyaddr_bmap small_mm (Bitmap.mk_bitmap 2 [1; 0; 0]))).
  sbind. rewrite land_frame by lia. replace (wild / 4096 * 4096) with wild by lia. done.
Qed.

(** A compiler that leaves the last value. *)
Definition unoptimised : Compiler := {| falls_off v := v |}.
#[local] Existing Instance unoptimised.

Lemma unoptimised_last : leaves_last_value unoptimised.
Proof. intros v. reflexivity. Qed.

Lemma malloc_page_maps_witness :
  exists r mm', malloc_page small_mm 3 = Some (page small_mm r, mm') /\
    0 <= r /\ r + 3 <= slots small_mm /\ DoublebitMap.unused ∅ r 3 /\
    mm_inv mm' (<[r := 3]> ∅) /\ keeps small_mm mm' (DoublebitMap.covers ∅).
Proof.
  apply (malloc_page_maps small_mm ∅ 3); [exact unoptimised_last|exact small_mm_inv|lia|vm_compute; discriminate|].
  exists 0. split; [lia|]. split; [vm_compute; discriminate|apply small_unused].
Defined.

Lemma free_page_unmaps_witness :
  exists r mm1 mm2, malloc_page small_mm 3 = Some (page small_mm r, mm1) /\
    free_page mm1 (page mm1 r) = Some mm2 /\ mm_inv mm2 (delete r (<[r := 3]> ∅)) /\
    free_frames mm2 = free_frames mm1 + 3.
Proof.
  destruct (malloc_page_inv unoptimised_last small_mm ∅ 3 small_mm_inv ltac:(lia)) as (r & mm1 & H1 & _ & _ & _ & H2 & _).
  { vm_compute; discriminate. }
  { exists 0. split; [lia|]. split; [vm_compute; discriminate|apply small_unused]. }
  destruct (free_page_unmaps mm1 (<[r := 3]> ∅) r 3 unoptimised_last H2 (lookup_insert_eq _ _ _))
    as (mm2 & H3 & H4 & H5 & _).
  exists r, mm1, mm2. auto.
Defined.
