(* ===== verification/SmallBlocks.v ===== *)
(** * Small blocks (mm/small_mem_header.cc; malloc, free, print_mem_info of
    mm/memory.cc; the message loop of mm/main.cc)

    Requests of at most 1024 bytes are served from pages cut into blocks of 16,
    32, ... 1024 bytes.  Such a page starts with a [small_mem_header] of 32
    bytes: its links in the queue [mem_desc[k]], the block size, the number of
    free blocks, and the list of the free blocks, which are linked through their
    own first 8 bytes. *)
From S2P Require Import Prelude Mem Paging Swar.
From S2P Require Bitmap CycleList.

(** Offsets in [small_mem_header]. *)
Definition each_block_size (page : Z) : Z := page + 8.
Definition free_cnts (page : Z) : Z := page + 12.
Definition page_in_free_queue (page : Z) : Z := page + 16.
Definition sizeof_header : Z := 32.

(** The loop of [install_mem_header], [n] blocks left. *)
Fixpoint append_blocks (n : nat) (m : mem) (page elem size : Z) : option mem :=
  match n with
  | O => Some m
  | S n' =>
      m ← CycleList.CycleList.append m (page_in_free_queue page) elem;
      append_blocks n' m page (u32 (elem + size)) size
  end.

Definition install_mem_header (m : mem) (page block_size : Z) : option mem :=
  if negb (page mod page_size =? 0) then Some m
  else
    deref page;;
    let m := store32 m (each_block_size page) block_size in
    let cnts := (page_size - sizeof_header) / block_size in
    let m := store32 m (free_cnts page) cnts in
    m ← CycleList.CycleList.initialize m (page_in_free_queue page);
    append_blocks (Z.to_nat cnts) m page (page + sizeof_header) block_size.

(** [for (cnt_start=16; cnt_start<cnt_bytes; cnt_start*=2, desc_idx++) ;] *)
Fixpoint desc_loop (fuel : nat) (cnt_start cnt_bytes desc_idx : Z) : option Z :=
  if cnt_start <? cnt_bytes then
    match fuel with
    | O => None
    | S fuel' => desc_loop fuel' (u32 (cnt_start * 2)) cnt_bytes (desc_idx + 1)
    end
  else Some desc_idx.

Definition desc_index (cnt_bytes : Z) : option Z := desc_loop 32 16 cnt_bytes 0.

(** [memset(p, 0, cnt)]: a null pointer is not written through. *)
Definition clear (m : mem) (p cnt : Z) : option mem :=
  if cnt =? 0 then Some m else deref p;; Some (memset_mem m p 0 (Z.to_nat cnt)).

(** Taking a block from the free queue of a page. *)
Definition pop_block (m : mem) (page : Z) : option (Z * mem) :=
  '(ret, m) ← CycleList.CycleList.pop m (page_in_free_queue page);
  Some (ret, store32 m (free_cnts page) (u32 (load32 m (free_cnts page) - 1))).

(** The search through the pages of a queue, from page number [i] on; [None]
    inside means that no page had a free block.  [fuel] bounds the length of the
    queue. *)
Fixpoint find_block (n : nat) (fuel : nat) (m : mem) (queue i : Z) : option (option (Z * mem)) :=
  match n with
  | O => Some None
  | S n' =>
      elem ← CycleList.CycleList.get_elem fuel m queue i;
      deref elem;;
      if 0 =? load32 m (free_cnts elem) then find_block n' fuel m queue (i + 1)
      else
        '(ret, m) ← pop_block m elem;
        m ← (if 0 =? load32 m (free_cnts elem) then
               m ← CycleList.CycleList.remove m elem;
               CycleList.CycleList.append m queue elem
             else Some m);
        m ← clear m ret (load32 m (each_block_size elem));
        Some (Some (ret, m))
  end.

Section code.
Context {compiler : Compiler}.

Definition malloc_small (fuel : nat) (mm : MemoryManager) (cnt_bytes : Z)
  : option (Z * MemoryManager) :=
  desc_idx ← desc_index cnt_bytes;
  let queue := mem_desc mm.(mem_desc_base) desc_idx in
  l ← CycleList.CycleList.get_length fuel mm.(m) queue;
  found ← find_block (Z.to_nat l) fuel mm.(m) queue 0;
  match found with
  | Some (ret, m') => Some (ret, set_m mm m')
  | None =>
      '(new_page, mm) ← malloc_page mm 1;
      m' ← install_mem_header mm.(m) new_page (Z.shiftl 2 (desc_idx + 3));
      m' ← CycleList.CycleList.push m' queue new_page;
      '(ret, m') ← pop_block m' new_page;
      m' ← clear m' ret (load32 m' (each_block_size new_page));
      Some (ret, set_m mm m')
  end.

Definition DIV_ROUND_UP (x y : Z) : Z := u32 (u32 (x + y) - 1) / y.

Definition malloc (fuel : nat) (mm : MemoryManager) (cnt_bytes : Z)
  : option (Z * MemoryManager) :=
  if 0 =? cnt_bytes then Some (NULL, mm)
  else if 1024 <? cnt_bytes then
    let page_cnt := DIV_ROUND_UP cnt_bytes page_size in
    '(ret, mm) ← malloc_page mm page_cnt;
    m' ← clear mm.(m) ret (u32 (page_cnt * page_size));
    Some (ret, set_m mm m')
  else malloc_small fuel mm cnt_bytes.

(** The two conditions at the end of [free]: as written, the division binds
    tighter than the subtraction. *)
Definition all_free (size cnts : Z) : bool := cnts =? u32 (page_size - sizeof_header / size).
Definition fifth_free (size cnts : Z) : bool := u32 (page_size - sizeof_header / size) <=? u32 (5 * cnts).

Definition free (mm : MemoryManager) (buf : Z) : option MemoryManager :=
  if 0 =? buf mod page_size then free_page mm buf
  else
    let page_header := Z.land buf 0xfffff000 in
    deref page_header;;
    m' ← CycleList.CycleList.append mm.(m) (page_in_free_queue page_header) buf;
    let m' := store32 m' (free_cnts page_header) (u32 (load32 m' (free_cnts page_header) + 1)) in
    let size := load32 m' (each_block_size page_header) in
    let cnts := load32 m' (free_cnts page_header) in
    desc_idx ← desc_index size;
    let queue := mem_desc mm.(mem_desc_base) desc_idx in
    if size =? 0 then None  (* division by zero *)
    else if all_free size cnts then
      m' ← CycleList.CycleList.remove m' page_header;
      free_page (set_m mm m') page_header
    else if fifth_free size cnts then
      m' ← CycleList.CycleList.remove m' page_header;
      m' ← CycleList.CycleList.push m' queue page_header;
      Some (set_m mm m')
    else Some (set_m mm m').

(** The word sum of [print_mem_info]: [n] words of the bitmap from byte [i] on. *)
Fixpoint used_pages (n : nat) (base : list Z) (i : Z) : option Z :=
  match n with
  | O => Some 0
  | S n' =>
      a ← base.[i]; b ← base.[i + 1]; c ← base.[i + 2]; d ← base.[i + 3];
      r ← used_pages n' base (i + 4);
      Some (u32 (swar (a + 256 * (b + 256 * (c + 256 * d))) + r))
  end.

(** The three numbers printed: total, used and free kilobytes. *)
Definition print_mem_info (mm : MemoryManager) : option (Z * Z * Z) :=
  let all_mem := get_mem_capacity mm.(m) in
  let bmap := mm.(phyaddr_bmap) in
  used ← used_pages (Z.to_nat (bmap.(Bitmap.bytes_len) / 4)) bmap.(Bitmap.base) 0;
  let all_used := u32 (used * page_size) in
  Some (Z.shiftr all_mem 10, Z.shiftr all_used 10, Z.shiftr (u32 (all_mem - all_used)) 10).

(** The message loop of mm/main.cc: one request of type [type] with argument
    [con_1].  An unknown type is printed and gets no reply. *)
Inductive response :=
| Reply               (* the received context goes back unchanged *)
| ReplyWith (con_1 : Z)
| NoReply.

Definition MALLOC : Z := 1.
Definition FREE : Z := 2.
Definition CMD_MEMINFO : Z := 256.

Definition mm_request (fuel : nat) (mm : MemoryManager) (type con_1 : Z)
  : option (response * MemoryManager) :=
  if type =? MALLOC then
    '(addr, mm) ← malloc fuel mm con_1; Some (ReplyWith addr, mm)
  else if type =? FREE then
    mm ← free mm con_1; Some (Reply, mm)
  else if type =? CMD_MEMINFO then
    _ ← print_mem_info mm; Some (Reply, mm)
  else Some (NoReply, mm).

End code.

(** ** Size classes *)

#[local] Ltac Zify.zify_post_hook ::= Z.to_euclidean_division_equations.
#[local] Opaque memset_mem.

Definition class_ok (cnt : Z) : bool :=
  match desc_index (cnt + 1) with
  | Some k => (0 <=? k) && (k <=? 6) && (cnt + 1 <=? 16 * 2 ^ k) &&
              ((k =? 0) || (8 * 2 ^ k <? cnt + 1)) && (Z.shiftl 2 (k + 3) =? 16 * 2 ^ k)
  | None => false
  end.

(** The queue chosen for [cnt] bytes holds the smallest blocks that are large
    enough. *)
Lemma desc_index_class cnt : 1 <= cnt <= 1024 ->
  exists k, desc_index cnt = Some k /\ 0 <= k <= 6 /\ cnt <= 16 * 2 ^ k /\
    (k = 0 \/ 8 * 2 ^ k < cnt) /\ Z.shiftl 2 (k + 3) = 16 * 2 ^ k.
Proof.
  intros Hc. assert (H : class_ok (cnt - 1) = true).
  { apply (below_spec 1024); [vm_compute; reflexivity|lia]. }
  unfold class_ok in H. replace (cnt - 1 + 1) with cnt in H by lia.
  destruct (desc_index cnt) as [k|]; [|done]. zbool; exists k; repeat split; auto; lia.
Qed.

(** Block sizes: 16 to 1024. *)
Lemma class_size k : 0 <= k <= 6 -> 16 <= 16 * 2 ^ k <= 1024.
Proof.
  intros Hk. assert (2 ^ 0 <= 2 ^ k <= 2 ^ 6) by (split; apply Z.pow_le_mono_r; lia).
  change (2 ^ 0) with 1 in *. change (2 ^ 6) with 64 in *. lia.
Qed.

(** ** Pages of small blocks *)

Definition aligned_page (page : Z) : Prop :=
  page mod 4096 = 0 /\ 0 < page /\ page + 4096 < 4294967296.

Definition is_block (page size b : Z) : Prop :=
  exists k, 0 <= k /\ b = page + 32 + size * k /\ b + size <= page + 4096.

Record small_page (m : mem) (page size : Z) (fl : list Z) : Prop := {
  sp_page : aligned_page page;
  sp_size : 16 <= size <= 1024;
  sp_block_size : load32 m (each_block_size page) = size;
  sp_free_cnts : load32 m (free_cnts page) = zlen fl;
  sp_queue : CycleList.CycleList.rep m (page_in_free_queue page) fl;
  sp_blocks : forall b, b ∈ fl -> is_block page size b;
}.

(** Only bytes in [lo, hi) differ. *)
Definition changes_in (m m' : mem) (lo hi : Z) : Prop :=
  forall b, b < lo \/ hi <= b -> load8 m' b = load8 m b.

Lemma changes_trans m1 m2 m3 lo hi :
  changes_in m1 m2 lo hi -> changes_in m2 m3 lo hi -> changes_in m1 m3 lo hi.
Proof. intros H1 H2 b Hb. rewrite H2, H1 by done. done. Qed.

Lemma changes_load32 m m' lo hi b :
  changes_in m m' lo hi -> b + 4 <= lo \/ hi <= b -> load32 m' b = load32 m b.
Proof. intros H Hb. unfold load32. rewrite !H by lia. done. Qed.

Lemma changes_store32 m lo hi b v : lo <= b -> b + 4 <= hi -> changes_in m (store32 m b v) lo hi.
Proof. intros H1 H2 x Hx. apply load8_store32_ne. lia. Qed.

Lemma changes_same_outside m m' ns lo hi :
  CycleList.CycleList.same_outside m m' ns -> (forall n, n ∈ ns -> lo <= n /\ n + 8 <= hi) ->
  changes_in m m' lo hi.
Proof. intros H Hn b Hb. apply H. intros n Hin. specialize (Hn n Hin). lia. Qed.

Lemma rep_changes m m' this xs lo hi :
  CycleList.CycleList.rep m this xs -> changes_in m m' lo hi ->
  (forall a, a ∈ CycleList.CycleList.nodes this xs -> a + 8 <= lo \/ hi <= a) ->
  CycleList.CycleList.rep m' this xs.
Proof.
  intros [HL HA Had] Hc Hout. constructor; auto.
  assert (Hin : forall b, b ∈ CycleList.CycleList.head this :: xs ++ [CycleList.CycleList.tail this] ->
    b + 8 <= lo \/ hi <= b).
  { intros b Hb. apply Hout. unfold CycleList.CycleList.nodes. set_solver. }
  apply (CycleList.CycleList.linked_frame m); auto.
  - intros b Hb _. apply (changes_load32 _ _ _ _ _ Hc). specialize (Hin b Hb). lia.
  - intros b Hb. apply (changes_load32 _ _ _ _ _ Hc).
    assert (Hb' : b ∈ CycleList.CycleList.head this :: xs ++ [CycleList.CycleList.tail this]) by set_solver.
    specialize (Hin b Hb'). lia.
  - apply CycleList.CycleList.all_apart_NoDup. eapply CycleList.CycleList.all_apart_perm; [|exact HA].
    symmetry. apply Permutation_middle.
Qed.

Lemma block_in_page page size b : 16 <= size -> is_block page size b ->
  page + 32 <= b /\ b + size <= page + 4096.
Proof. intros Hs (k & Hk & -> & Hb). nia. Qed.

(** Different blocks of a page do not overlap. *)
Lemma blocks_apart page size b b' : 16 <= size -> is_block page size b -> is_block page size b' ->
  b <> b' -> b + size <= b' \/ b' + size <= b.
Proof.
  intros Hs (k & Hk & -> & _) (k' & Hk' & -> & _) Hne.
  destruct (Z.lt_trichotomy k k') as [?|[->|?]]; [left; nia|done|right; nia].
Qed.

Lemma queue_nodes page size fl a :
  16 <= size -> (forall b, b ∈ fl -> is_block page size b) ->
  a ∈ CycleList.CycleList.nodes (page_in_free_queue page) fl -> page + 16 <= a /\ a + 8 <= page + 4096.
Proof.
  intros Hs Hb Ha. unfold CycleList.CycleList.nodes, CycleList.CycleList.head,
    CycleList.CycleList.tail, page_in_free_queue in Ha.
  apply elem_of_app in Ha as [Ha|Ha].
  - pose proof (block_in_page _ _ _ Hs (Hb a Ha)). lia.
  - set_unfold. lia.
Qed.

(** A change elsewhere in memory does not affect the page. *)
Lemma small_page_frame m m' page size fl lo hi :
  small_page m page size fl -> changes_in m m' lo hi -> hi <= page + 8 \/ page + 4096 <= lo ->
  small_page m' page size fl.
Proof.
  intros [Hp Hs Hbs Hfc Hq Hb] Hc Hout. constructor; auto.
  - rewrite <- Hbs. apply (changes_load32 _ _ _ _ _ Hc). unfold each_block_size. lia.
  - rewrite <- Hfc. apply (changes_load32 _ _ _ _ _ Hc). unfold free_cnts. lia.
  - eapply rep_changes; [exact Hq|exact Hc|]. intros a Ha.
    pose proof (queue_nodes page size fl a ltac:(lia) Hb Ha). lia.
Qed.

Lemma store32_small v m a : 0 <= v < 4294967296 -> load32 (store32 m a v) a = v.
Proof. intros. rewrite load32_store32_eq, u32_id; done. Qed.

(** The count of free blocks is written after the queue has changed. *)
Lemma small_page_recount m m1 page size fl fl' :
  small_page m page size fl ->
  CycleList.CycleList.rep m1 (page_in_free_queue page) fl' ->
  changes_in m m1 (page + 16) (page + 4096) ->
  (forall b, b ∈ fl' -> is_block page size b) -> zlen fl' < 4294967296 ->
  small_page (store32 m1 (free_cnts page) (zlen fl')) page size fl'.
Proof.
  intros [Hp Hs Hbs Hfc Hq Hb] Hr Hc Hb' Hl. unfold free_cnts, each_block_size in *.
  pose proof (zlen_nonneg fl'). constructor; auto.
  - unfold each_block_size. rewrite load32_store32_ne by lia.
    rewrite (changes_load32 _ _ _ _ _ Hc) by lia. done.
  - apply store32_small. lia.
  - eapply rep_changes; [exact Hr|apply (changes_store32 m1 (page + 12) (page + 16)); lia|].
    intros a Ha. pose proof (queue_nodes page size fl' a ltac:(lia) Hb' Ha). lia.
Qed.

Lemma pop_block_spec m page size b fl :
  small_page m page size (b :: fl) -> zlen (b :: fl) < 4294967296 ->
  exists m', pop_block m page = Some (b, m') /\ small_page m' page size fl /\
    changes_in m m' (page + 12) (page + 4096).
Proof.
  intros Hsp Hl. pose proof Hsp as [Hp Hs Hbs Hfc Hq Hb]. unfold pop_block.
  destruct (CycleList.CycleList.pop_rep _ _ _ _ Hq) as (m1 & -> & Hr & Hout). sbind.
  assert (Hb' : forall a, a ∈ fl -> is_block page size a) by (intros; apply Hb; by right).
  assert (Hc : changes_in m m1 (page + 16) (page + 4096)).
  { eapply changes_same_outside; [exact Hout|]. intros n Hn.
    apply (queue_nodes page size fl); auto; lia. }
  rewrite (changes_load32 _ _ _ _ _ Hc) by (unfold free_cnts; lia). rewrite Hfc.
  rewrite zlen_cons in *. pose proof (zlen_nonneg fl).
  rewrite u32_id by lia. replace (1 + zlen fl - 1) with (zlen fl) by lia.
  eexists. split; [done|]. split; [eapply small_page_recount; eauto; lia|].
  intros x Hx. unfold free_cnts. rewrite load8_store32_ne by lia. apply Hc. lia.
Qed.

(** Adding a block to the free queue, as [free] does. *)
Lemma append_block_spec m page size b fl :
  small_page m page size fl -> is_block page size b -> b ∉ fl -> zlen fl < 4294967295 ->
  exists m1, CycleList.CycleList.append m (page_in_free_queue page) b = Some m1 /\
    changes_in m m1 (page + 16) (page + 4096) /\
    load32 m1 (free_cnts page) = zlen fl /\
    let m' := store32 m1 (free_cnts page) (zlen fl + 1) in
    small_page m' page size (fl ++ [b]) /\ changes_in m m' (page + 12) (page + 4096).
Proof.
  intros Hsp Hblk Hni Hl. pose proof Hsp as [Hp Hs Hbs Hfc Hq Hb].
  pose proof (block_in_page page size b ltac:(lia) Hblk) as Hin. destruct Hp as (Hp1 & Hp2 & Hp3).
  destruct (CycleList.CycleList.append_rep m (page_in_free_queue page) fl b Hq) as (m1 & Ha & Hr & Hout).
  { unfold CycleList.CycleList.elem_addr. lia. }
  { apply Forall_forall. intros a Ha. apply elem_of_app in Ha as [Ha|Ha].
    - assert (Hne : b <> a) by (intros ->; done).
      pose proof (blocks_apart page size b a ltac:(lia) Hblk (Hb a Ha) Hne).
      unfold CycleList.CycleList.apart. lia.
    - unfold CycleList.CycleList.head, CycleList.CycleList.tail, page_in_free_queue,
        CycleList.CycleList.apart in *. set_unfold. lia. }
  rewrite Ha. exists m1. split; [done|].
  assert (Hb' : forall a, a ∈ fl ++ [b] -> is_block page size a).
  { intros a Ha'. apply elem_of_app in Ha' as [Ha'|Ha']; [by apply Hb|]. apply list_elem_of_singleton in Ha'. by subst. }
  assert (Hc : changes_in m m1 (page + 16) (page + 4096)).
  { eapply changes_same_outside; [exact Hout|]. intros n Hn.
    apply elem_of_cons in Hn as [->|Hn]; [lia|]. apply (queue_nodes page size fl); auto; lia. }
  split; [done|]. split.
  { rewrite (changes_load32 _ _ _ _ _ Hc) by (unfold free_cnts; lia). done. }
  assert (Hz : zlen fl + 1 = zlen (fl ++ [b])) by (rewrite zlen_app; reflexivity).
  cbv zeta. rewrite Hz. split.
  - eapply small_page_recount; eauto. lia.
  - intros x Hx. unfold free_cnts. rewrite load8_store32_ne by lia. apply Hc. lia.
Qed.

(** Zeroing a block that is not free. *)
Lemma clear_spec m page size b fl :
  small_page m page size fl -> is_block page size b -> b ∉ fl ->
  exists m', clear m b (load32 m (each_block_size page)) = Some m' /\ small_page m' page size fl /\
    changes_in m m' (page + 32) (page + 4096) /\ (forall x, b <= x < b + size -> load8 m' x = 0).
Proof.
  intros Hsp Hblk Hni. pose proof Hsp as [Hp Hs Hbs Hfc Hq Hb].
  pose proof (block_in_page page size b ltac:(lia) Hblk) as Hin. destruct Hp as (Hp1 & Hp2 & Hp3).
  rewrite Hbs. unfold clear. destruct (size =? 0) eqn:E; zbool; [lia|].
  unfold deref, NULL. destruct (b =? 0) eqn:E'; zbool; [lia|]. sbind.
  eexists. split; [done|].
  assert (Hc : changes_in m (memset_mem m b 0 (Z.to_nat size)) b (b + size)).
  { intros x Hx. rewrite load8_memset. destruct ((b <=? x) && _) eqn:F; zbool; [lia|done..]. }
  split; [|split].
  - constructor; auto.
    + by split.
    + rewrite <- Hbs at 2. apply (changes_load32 _ _ _ _ _ Hc). unfold each_block_size. lia.
    + rewrite <- Hfc. apply (changes_load32 _ _ _ _ _ Hc). unfold free_cnts. lia.
    + eapply rep_changes; [exact Hq|exact Hc|]. intros a Ha. apply elem_of_app in Ha as [Ha|Ha].
      * assert (Hne : b <> a) by (intros ->; done).
        pose proof (blocks_apart page size b a ltac:(lia) Hblk (Hb a Ha) Hne). lia.
      * unfold CycleList.CycleList.head, CycleList.CycleList.tail, page_in_free_queue in *.
        set_unfold. lia.
  - intros x Hx. apply Hc. lia.
  - intros x Hx. rewrite load8_memset. destruct ((b <=? x) && _) eqn:F; zbool; [done|lia|lia].
Qed.

(** The first [n] blocks of a page. *)
Definition blocks (page size : Z) (n : nat) : list Z :=
  map (fun i => page + 32 + size * Z.of_nat i) (seq 0 n).

Lemma blocks_S page size n : blocks page size (S n) = blocks page size n ++ [page + 32 + size * Z.of_nat n].
Proof. unfold blocks. by rewrite seq_S, map_app. Qed.

Lemma in_blocks page size n b : b ∈ blocks page size n <->
  exists i, 0 <= i < Z.of_nat n /\ b = page + 32 + size * i.
Proof.
  unfold blocks. rewrite list_elem_of_In, in_map_iff. split.
  - intros (i & <- & Hi%in_seq). exists (Z.of_nat i). split; [lia|done].
  - intros (i & Hi & ->). exists (Z.to_nat i). rewrite Z2Nat.id by lia. split; [done|].
    apply in_seq. lia.
Qed.

Lemma zlen_blocks page size n : zlen (blocks page size n) = Z.of_nat n.
Proof. unfold blocks, zlen. by rewrite length_map, length_seq. Qed.

Lemma header_quotient size : 16 <= size -> 0 <= 32 / size <= 2.
Proof.
  intros Hs. split; [apply Z.div_pos; lia|].
  apply Z.lt_succ_r, Z.div_lt_upper_bound; lia.
Qed.

Section install.
Context (page size : Z) (Hpage : aligned_page page) (Hsize : 16 <= size <= 1024).

Definition capacity : Z := (page_size - sizeof_header) / size.

Lemma capacity_range : 3 <= capacity <= 254 /\ 32 + size * capacity <= 4096.
Proof. unfold capacity, page_size, sizeof_header. nia. Qed.

Lemma nth_is_block i : 0 <= i < capacity -> is_block page size (page + 32 + size * i).
Proof. intros Hi. pose proof capacity_range. exists i. split; [lia|]. split; [done|]. nia. Qed.

Lemma append_blocks_spec n m i :
  CycleList.CycleList.rep m (page_in_free_queue page) (blocks page size i) ->
  Z.of_nat i + Z.of_nat n <= capacity ->
  exists m', append_blocks n m page (page + 32 + size * Z.of_nat i) size = Some m' /\
    CycleList.CycleList.rep m' (page_in_free_queue page) (blocks page size (i + n)) /\
    changes_in m m' (page + 16) (page + 4096).
Proof.
  destruct Hpage as (Hp1 & Hp2 & Hp3).
  revert m i. induction n as [|n IH]; intros m i Hr Hn; cbn [append_blocks].
  { exists m. rewrite Nat.add_0_r. split; [done|]. split; [done|]. by intros ?. }
  pose proof capacity_range. set (e := page + 32 + size * Z.of_nat i).
  assert (Hblk : forall a, a ∈ blocks page size i -> is_block page size a).
  { intros a (k & Hk & ->)%in_blocks. apply nth_is_block. lia. }
  assert (He : is_block page size e) by (apply nth_is_block; lia).
  pose proof (block_in_page page size e ltac:(lia) He) as Hein.
  destruct (CycleList.CycleList.append_rep m (page_in_free_queue page) _ e Hr) as (m1 & -> & Hr1 & Hout).
  { unfold CycleList.CycleList.elem_addr. lia. }
  { apply Forall_forall. intros a Ha. apply elem_of_app in Ha as [Ha|Ha].
    - assert (Hne : e <> a). { intros <-. apply in_blocks in Ha as (k & Hk & Ha). unfold e in Ha. nia. }
      pose proof (blocks_apart page size e a ltac:(lia) He (Hblk a Ha) Hne).
      unfold CycleList.CycleList.apart. lia.
    - unfold CycleList.CycleList.head, CycleList.CycleList.tail, page_in_free_queue,
        CycleList.CycleList.apart in *. set_unfold. lia. }
  sbind. rewrite u32_id by lia.
  replace (e + size) with (page + 32 + size * Z.of_nat (S i)) by (unfold e; lia).
  unfold e in Hr1. rewrite <- blocks_S in Hr1.
  destruct (IH m1 (S i) Hr1) as (m2 & -> & Hr2 & Hc2); [lia|].
  exists m2. split; [done|]. split; [by replace (i + S n)%nat with (S i + n)%nat by lia|].
  eapply changes_trans; [|exact Hc2]. eapply changes_same_outside; [exact Hout|].
  intros a Ha. apply elem_of_cons in Ha as [->|Ha]; [lia|].
  apply (queue_nodes page size (blocks page size i)); auto; lia.
Qed.

Lemma install_spec m :
  exists m', install_mem_header m page size = Some m' /\
    small_page m' page size (blocks page size (Z.to_nat capacity)) /\
    changes_in m m' (page + 8) (page + 4096).
Proof.
  destruct Hpage as (Hp1 & Hp2 & Hp3). pose proof capacity_range.
  unfold install_mem_header, page_size. rewrite Hp1, Z.eqb_refl. cbn [negb].
  unfold deref, NULL. destruct (page =? 0) eqn:E; zbool; [lia|]. sbind.
  change ((4096 - sizeof_header) / size) with capacity. unfold each_block_size, free_cnts.
  set (m1 := store32 (store32 m (page + 8) size) (page + 12) capacity).
  destruct (CycleList.CycleList.initialize_rep m1 (page_in_free_queue page)) as (m2 & -> & Hr2 & Hout);
    [unfold page_in_free_queue, CycleList.CycleList.tail, CycleList.CycleList.elem_addr; lia..|].
  sbind. replace (page + sizeof_header) with (page + 32 + size * Z.of_nat 0) by (unfold sizeof_header; lia).
  destruct (append_blocks_spec (Z.to_nat capacity) m2 0 Hr2) as (m3 & -> & Hr3 & Hc3); [lia|].
  assert (Hc2 : changes_in m1 m2 (page + 16) (page + 4096)).
  { eapply changes_same_outside; [exact Hout|]. unfold CycleList.CycleList.head, CycleList.CycleList.tail, page_in_free_queue.
    intros n Hn. set_unfold. lia. }
  pose proof (changes_trans _ _ _ _ _ Hc2 Hc3) as Hc. exists m3. split; [done|]. split.
  - constructor; unfold each_block_size, free_cnts; auto.
    + rewrite (changes_load32 _ _ _ _ _ Hc) by lia. unfold m1.
      rewrite load32_store32_ne, store32_small by lia. done.
    + rewrite (changes_load32 _ _ _ _ _ Hc), zlen_blocks by lia. unfold m1.
      rewrite store32_small by lia. lia.
    + intros b (k & Hk & ->)%in_blocks. apply nth_is_block. lia.
  - intros x Hx. rewrite Hc by lia. unfold m1. rewrite !load8_store32_ne by lia. done.
Qed.
End install.

(** ** The queue of pages of one size *)

(** The queue object lies outside the page. *)
Definition outside_page (queue page : Z) : Prop := queue + 16 <= page \/ page + 4096 <= queue.

(** A queue whose pages are aligned, all different, and away from the queue. *)
Record page_queue (m : mem) (queue : Z) (pages : list Z) : Prop := {
  pq_rep : CycleList.CycleList.rep m queue pages;
  pq_pages : Forall (fun p => aligned_page p /\ outside_page queue p) pages;
}.

Lemma page_queue_nodes m queue pages p a :
  page_queue m queue pages -> aligned_page p -> outside_page queue p ->
  a ∈ CycleList.CycleList.nodes queue pages -> a + 8 <= p + 8 \/ p + 4096 <= a.
Proof.
  intros [_ HF] (Hp1 & Hp2 & Hp3) Ho Ha. rewrite Forall_forall in HF.
  unfold CycleList.CycleList.nodes, CycleList.CycleList.head, CycleList.CycleList.tail in Ha.
  apply elem_of_app in Ha as [Ha|Ha].
  - destruct (HF a Ha) as [(Ha1 & Ha2 & Ha3) _]. lia.
  - unfold outside_page in Ho. set_unfold. lia.
Qed.

(** Work inside a page, past its queue links, keeps the queue. *)
Lemma page_queue_frame m m' queue pages p :
  page_queue m queue pages -> aligned_page p -> outside_page queue p ->
  changes_in m m' (p + 8) (p + 4096) -> page_queue m' queue pages.
Proof.
  intros Hq Hp Ho Hc. constructor; [|apply Hq]. eapply rep_changes; [apply Hq|exact Hc|].
  intros a Ha. eapply page_queue_nodes; eauto.
Qed.

Lemma changes_widen m m' lo hi lo' hi' :
  changes_in m m' lo hi -> lo' <= lo -> hi <= hi' -> changes_in m m' lo' hi'.
Proof. intros H Hl Hh b Hb. apply H. lia. Qed.

(** Moving the first page to the end of the queue. *)
Lemma move_to_tail m queue p ps size fl :
  page_queue m queue (p :: ps) -> small_page m p size fl ->
  exists m1 m2, CycleList.CycleList.remove m p = Some m1 /\
    CycleList.CycleList.append m1 queue p = Some m2 /\
    page_queue m2 queue (ps ++ [p]) /\ small_page m2 p size fl /\
    CycleList.CycleList.same_outside m m2 (CycleList.CycleList.nodes queue (p :: ps)).
Proof.
  intros Hq Hsp. pose proof Hq as [Hr HF]. apply Forall_cons in HF as [[Hp Ho] HF].
  destruct (CycleList.CycleList.remove_rep m queue [] p ps Hr) as (m1 & -> & Hr1 & Hout1).
  assert (Hap : Forall (CycleList.CycleList.apart p) (CycleList.CycleList.nodes queue ps)).
  { destruct Hr as [_ HA _]. cbn [app] in HA. destruct HA as [HA _]. exact HA. }
  destruct (CycleList.CycleList.append_rep m1 queue ps p Hr1) as (m2 & H2 & Hr2 & Hout2).
  { eapply CycleList.CycleList.rep_elem; [exact Hr|]. by left. }
  { exact Hap. }
  exists m1, m2. split; [done|]. split; [done|].
  assert (Hout : CycleList.CycleList.same_outside m m2 (CycleList.CycleList.nodes queue (p :: ps))).
  { eapply CycleList.CycleList.same_outside_trans.
    - eapply CycleList.CycleList.same_outside_mono; [|exact Hout1].
      intros n Hn. unfold CycleList.CycleList.nodes in *. set_solver.
    - eapply CycleList.CycleList.same_outside_mono; [|exact Hout2].
      intros n Hn. unfold CycleList.CycleList.nodes in *. set_solver. }
  split; [|split; [|done]].
  - constructor; [done|]. apply Forall_app. split; [done|]. by apply Forall_singleton.
  - destruct Hsp as [Hp' Hs Hbs Hfc Hq' Hb].
    assert (Hsame : forall b, p + 8 <= b < p + 4096 -> load8 m2 b = load8 m b).
    { intros b Hb'. apply Hout. intros n Hn.
      pose proof (page_queue_nodes _ _ _ p n Hq Hp Ho Hn). lia. }
    assert (Hsame32 : forall b, p + 8 <= b -> b + 4 <= p + 4096 -> load32 m2 b = load32 m b).
    { intros b H1 H2'. unfold load32. rewrite !Hsame by lia. done. }
    constructor; auto.
    + rewrite <- Hbs. apply Hsame32; unfold each_block_size; lia.
    + rewrite <- Hfc. apply Hsame32; unfold free_cnts; lia.
    + eapply CycleList.CycleList.rep_same_outside; [exact Hq'|exact Hout|].
      intros a n Ha Hn. pose proof (queue_nodes p size fl a ltac:(lia) Hb Ha).
      pose proof (page_queue_nodes _ _ _ p n Hq Hp Ho Hn). unfold CycleList.CycleList.apart. lia.
Qed.

Section malloc_small.
Context (fuel : nat) (queue size p : Z) (ps : list Z).

(** The search succeeds at the first page when that page has a free block. *)
Lemma find_block_hit n m b fl :
  page_queue m queue (p :: ps) -> (S (length ps) <= fuel)%nat ->
  small_page m p size (b :: fl) -> zlen (b :: fl) < 4294967296 ->
  exists m', find_block (S n) fuel m queue 0 = Some (Some (b, m')) /\
    small_page m' p size fl /\
    page_queue m' queue (match fl with [] => ps ++ [p] | _ => p :: ps end) /\
    (forall x, b <= x < b + size -> load8 m' x = 0) /\
    (forall x, (forall q, q ∈ CycleList.CycleList.nodes queue (p :: ps) -> x < q \/ q + 8 <= x) ->
       x < p + 12 \/ p + 4096 <= x -> load8 m' x = load8 m x).
Proof.
  intros Hq Hf Hsp Hl. pose proof Hq as [Hr HF]. apply Forall_cons in HF as [[Hp Ho] HF].
  pose proof Hp as (Hp1 & Hp2 & Hp3). pose proof (zlen_nonneg fl). rewrite zlen_cons in Hl.
  cbn [find_block]. rewrite (CycleList.CycleList.get_elem_rep _ _ _ _ _ Hr) by (simpl; lia).
  destruct (zlen (p :: ps) - 1 <? 0) eqn:E; zbool; [rewrite zlen_cons in E; pose proof (zlen_nonneg ps); lia|].
  sbind. unfold deref at 1, NULL. destruct (p =? 0) eqn:E'; zbool; [lia|]. sbind.
  rewrite (sp_free_cnts _ _ _ _ Hsp), zlen_cons.
  destruct (0 =? 1 + zlen fl) eqn:E2; zbool; [lia|].
  destruct (pop_block_spec m p size b fl Hsp) as (m1 & -> & Hsp1 & Hc1); [rewrite zlen_cons; lia|].
  sbind. rewrite (sp_free_cnts _ _ _ _ Hsp1).
  assert (Hblk : is_block p size b) by (apply (sp_blocks _ _ _ _ Hsp); by left).
  assert (Hni : b ∉ fl).
  { pose proof (CycleList.CycleList.rep_NoDup _ _ _ (sp_queue _ _ _ _ Hsp)) as HN.
    cbn [app] in HN. apply NoDup_cons in HN as [_ HN]. apply NoDup_cons in HN as [HN _]. set_solver. }
  assert (Hq1 : page_queue m1 queue (p :: ps)).
  { eapply page_queue_frame; eauto. eapply changes_widen; [exact Hc1|lia|lia]. }
  assert (Hmove : exists m2, (if 0 =? zlen fl then
               m ← CycleList.CycleList.remove m1 p; CycleList.CycleList.append m queue p
             else Some m1) = Some m2 /\ small_page m2 p size fl /\
      page_queue m2 queue (match fl with [] => ps ++ [p] | _ => p :: ps end) /\
      CycleList.CycleList.same_outside m1 m2 (CycleList.CycleList.nodes queue (p :: ps))).
  { destruct fl as [|b' fl].
    - change (0 =? zlen []) with true. cbv beta iota.
      destruct (move_to_tail m1 queue p ps size [] Hq1 Hsp1) as (m2 & m3 & -> & H3 & Hq3 & Hsp3 & Hout).
      sbind. eauto 10.
    - rewrite zlen_cons. pose proof (zlen_nonneg fl). destruct (0 =? 1 + zlen fl) eqn:E3; zbool; [lia|].
      exists m1. split; [done|]. split; [done|]. split; [done|apply CycleList.CycleList.same_outside_refl]. }
  destruct Hmove as (m2 & -> & Hsp2 & Hq2 & Hout2). sbind.
  destruct (clear_spec m2 p size b fl Hsp2 Hblk Hni) as (m3 & -> & Hsp3 & Hc3 & Hz). sbind.
  exists m3. split; [done|]. split; [done|]. split; [|split; [done|]].
  - eapply page_queue_frame; eauto. eapply changes_widen; [exact Hc3|lia|lia].
  - intros x Hx Hx'. rewrite Hc3 by lia. rewrite Hout2 by done. apply Hc1. lia.
Qed.

(** When the first page is full the search looks at nothing else. *)
Lemma find_block_full n m i :
  page_queue m queue (p :: ps) -> (S (length ps) <= fuel)%nat ->
  load32 m (free_cnts p) = 0 -> 0 <= i -> i + Z.of_nat n <= zlen (p :: ps) ->
  find_block n fuel m queue i = Some None.
Proof.
  intros Hq Hf H0. pose proof Hq as [Hr HF]. apply Forall_cons in HF as [[(_ & Hp2 & _) _] _].
  revert i. induction n as [|n IH]; intros i Hi Hl; [done|].
  cbn [find_block]. rewrite (CycleList.CycleList.get_elem_rep _ _ _ _ _ Hr) by (simpl; lia).
  destruct (zlen (p :: ps) - 1 <? i) eqn:E; zbool; [lia|]. sbind.
  unfold deref, NULL. destruct (p =? 0) eqn:E'; zbool; [lia|]. sbind. rewrite H0.
  cbn [Z.eqb]. apply IH; lia.
Qed.
End malloc_small.

(** A new page: header installed, page put in front of the queue. *)
Lemma install_push_spec m queue pages np size :
  page_queue m queue pages -> aligned_page np -> outside_page queue np -> np ∉ pages ->
  16 <= size <= 1024 ->
  exists m1 m2, install_mem_header m np size = Some m1 /\
    CycleList.CycleList.push m1 queue np = Some m2 /\
    page_queue m2 queue (np :: pages) /\
    small_page m2 np size (blocks np size (Z.to_nat (capacity size))).
Proof.
  intros Hq1 Hnp Hno Hni Hsz.
  destruct (install_spec np size Hnp Hsz m) as (m1 & -> & Hsp1 & Hc1).
  assert (Hq2 : page_queue m1 queue pages) by (eapply page_queue_frame; eauto).
  assert (Hfar : forall n, n ∈ np :: CycleList.CycleList.nodes queue pages ->
    n + 8 <= np + 8 \/ np + 4096 <= n).
  { intros n [->|Hn]%elem_of_cons; [lia|]. by apply (page_queue_nodes m1 queue pages). }
  pose proof Hnp as (Hn1 & Hn2 & Hn3).
  destruct (CycleList.CycleList.push_rep m1 queue pages np (pq_rep _ _ _ Hq2)) as (m2 & H2 & Hr2 & Hout2).
  { unfold CycleList.CycleList.elem_addr. lia. }
  { apply Forall_forall. intros a Ha. unfold CycleList.CycleList.apart.
    unfold CycleList.CycleList.nodes in Ha. apply elem_of_app in Ha as [Ha|Ha].
    - pose proof (pq_pages _ _ _ Hq1) as HF. rewrite Forall_forall in HF.
      destruct (HF a Ha) as [(Ha1 & Ha2 & Ha3) _]. assert (a <> np) by (by intros ->). lia.
    - unfold CycleList.CycleList.head, CycleList.CycleList.tail, outside_page in *. set_unfold. lia. }
  exists m1, m2. split; [done|]. split; [done|]. split.
  { constructor; [done|]. constructor; [done|]. apply (pq_pages _ _ _ Hq1). }
  destruct Hsp1 as [Hp' Hs Hbs Hfc Hq' Hb]. constructor; auto.
  - rewrite <- Hbs. apply (CycleList.CycleList.same_outside_load32 _ _ _ _ Hout2).
    intros n Hn. specialize (Hfar n Hn). unfold each_block_size. lia.
  - rewrite <- Hfc. apply (CycleList.CycleList.same_outside_load32 _ _ _ _ Hout2).
    intros n Hn. specialize (Hfar n Hn). unfold free_cnts. lia.
  - eapply CycleList.CycleList.rep_same_outside; [exact Hq'|exact Hout2|].
    intros a n Ha Hn. specialize (Hfar n Hn).
    pose proof (queue_nodes np size _ a ltac:(lia) Hb Ha). unfold CycleList.CycleList.apart. lia.
Qed.

Lemma blocks_first np size n : (0 < n)%nat -> exists fl, blocks np size n = (np + 32) :: fl.
Proof.
  intros Hn. unfold blocks. destruct n as [|n]; [lia|]. cbn [seq map]. eexists. f_equal. lia.
Qed.

Lemma first_not_free m page size b fl : small_page m page size (b :: fl) -> b ∉ fl.
Proof.
  intros Hsp. pose proof (CycleList.CycleList.rep_NoDup _ _ _ (sp_queue _ _ _ _ Hsp)) as HN.
  cbn [app] in HN. apply NoDup_cons in HN as [_ HN]. apply NoDup_cons in HN as [HN _]. set_solver.
Qed.

(** Taking the first block of a page and zeroing it. *)
Lemma pop_clear_spec m queue pages page size b fl :
  small_page m page size (b :: fl) -> zlen (b :: fl) < 4294967296 ->
  page_queue m queue pages -> outside_page queue page ->
  exists m1 m2, pop_block m page = Some (b, m1) /\
    clear m1 b (load32 m1 (each_block_size page)) = Some m2 /\
    small_page m2 page size fl /\ page_queue m2 queue pages /\
    (forall x, b <= x < b + size -> load8 m2 x = 0).
Proof.
  intros Hsp Hl Hq Ho. pose proof (sp_page _ _ _ _ Hsp) as Hp.
  destruct (pop_block_spec m page size b fl Hsp Hl) as (m1 & -> & Hsp1 & Hc1).
  assert (Hblk : is_block page size b) by (apply (sp_blocks _ _ _ _ Hsp); by left).
  destruct (clear_spec m1 page size b fl Hsp1 Hblk (first_not_free _ _ _ _ _ Hsp))
    as (m2 & H2 & Hsp2 & Hc2 & Hz2).
  exists m1, m2. split; [done|]. split; [done|]. split; [done|]. split; [|done].
  eapply page_queue_frame; [|done|done|].
  - eapply page_queue_frame; [exact Hq|done|done|]. eapply changes_widen; [exact Hc1|lia|lia].
  - eapply changes_widen; [exact Hc2|lia|lia].
Qed.

(** ** Properties of malloc and free *)

(** C24.  A small request is served from the smallest fitting size class: when the
    first page of the queue of that class has a free block [b], [malloc]
    terminates and returns [b], a zeroed block of [16 * 2^k] bytes, at least
    the requested number and less than twice it (or 16); the block is no longer
    free, a page that has become full goes to the end of the queue, and no byte
    outside that page and the links of the queue changes. *)
Theorem malloc_small_block `{compiler : Compiler} (fuel : nat) (mm : MemoryManager) (cnt k p b : Z) (ps fl : list Z) :
  1 <= cnt <= 1024 -> desc_index cnt = Some k ->
  page_queue mm.(m) (mem_desc mm.(mem_desc_base) k) (p :: ps) -> (S (length ps) <= fuel)%nat ->
  small_page mm.(m) p (16 * 2 ^ k) (b :: fl) -> zlen (b :: fl) < 4294967296 ->
  cnt <= 16 * 2 ^ k /\ (k = 0 \/ 16 * 2 ^ k < 2 * cnt) /\
  exists m', malloc fuel mm cnt = Some (b, set_m mm m') /\
    small_page m' p (16 * 2 ^ k) fl /\
    page_queue m' (mem_desc mm.(mem_desc_base) k) (match fl with [] => ps ++ [p] | _ => p :: ps end) /\
    (forall x, b <= x < b + 16 * 2 ^ k -> load8 m' x = 0) /\
    (forall x, (forall q, q ∈ CycleList.CycleList.nodes (mem_desc mm.(mem_desc_base) k) (p :: ps) ->
                  x < q \/ q + 8 <= x) ->
       x < p + 12 \/ p + 4096 <= x -> load8 m' x = load8 mm.(m) x).
Proof.
  intros Hc Hk Hq Hf Hsp Hl. destruct (desc_index_class cnt Hc) as (k' & Hk' & Hr & Hle & Hlt & _).
  assert (k' = k) as -> by congruence. split; [done|]. split; [lia|].
  unfold malloc. destruct (0 =? cnt) eqn:E; zbool; [lia|].
  destruct (1024 <? cnt) eqn:E'; zbool; [lia|]. unfold malloc_small. rewrite Hk. sbind.
  rewrite (CycleList.CycleList.get_length_rep _ _ _ _ (pq_rep _ _ _ Hq)) by (simpl; lia). sbind.
  replace (Z.to_nat (zlen (p :: ps))) with (S (length ps)) by (unfold zlen; simpl; lia).
  destruct (find_block_hit fuel _ (16 * 2 ^ k) p ps (length ps) mm.(m) b fl Hq Hf Hsp Hl)
    as (m' & -> & H). sbind. eauto.
Qed.

(** When the first page of the queue is full, a small request allocates a
    new page, whatever free blocks the other pages of the queue have: the page
    gets a header, the first block is returned zeroed, the other blocks of
    the page are free, and the page becomes the first of the queue. *)
Theorem malloc_small_new_page `{compiler : Compiler} (fuel : nat) (mm mm1 : MemoryManager) (cnt k p np : Z) (ps : list Z) :
  1 <= cnt <= 1024 -> desc_index cnt = Some k ->
  page_queue mm.(m) (mem_desc mm.(mem_desc_base) k) (p :: ps) -> (S (length ps) <= fuel)%nat ->
  load32 mm.(m) (free_cnts p) = 0 ->
  malloc_page mm 1 = Some (np, mm1) ->
  page_queue mm1.(m) (mem_desc mm.(mem_desc_base) k) (p :: ps) ->
  aligned_page np -> outside_page (mem_desc mm.(mem_desc_base) k) np -> np ∉ p :: ps ->
  exists m' fl, malloc fuel mm cnt = Some (np + 32, set_m mm1 m') /\
    blocks np (16 * 2 ^ k) (Z.to_nat (4064 / (16 * 2 ^ k))) = (np + 32) :: fl /\
    small_page m' np (16 * 2 ^ k) fl /\
    page_queue m' (mem_desc mm.(mem_desc_base) k) (np :: p :: ps) /\
    (forall x, np + 32 <= x < np + 32 + 16 * 2 ^ k -> load8 m' x = 0).
Proof.
  intros Hc Hk Hq Hf H0 Hmp Hq1 Hnp Hno Hni.
  destruct (desc_index_class cnt Hc) as (k' & Hk' & Hkr & Hle & Hlt & Hsh).
  assert (k' = k) as -> by congruence. pose proof (class_size k Hkr) as Hsz.
  set (size := 16 * 2 ^ k) in *. set (queue := mem_desc mm.(mem_desc_base) k) in *.
  pose proof (capacity_range size Hsz) as Hcap.
  unfold malloc. destruct (0 =? cnt) eqn:E; zbool; [lia|].
  destruct (1024 <? cnt) eqn:E'; zbool; [lia|]. unfold malloc_small. rewrite Hk. sbind. fold queue.
  rewrite (CycleList.CycleList.get_length_rep _ _ _ _ (pq_rep _ _ _ Hq)) by (simpl; lia). sbind.
  rewrite (find_block_full fuel queue p ps); auto; [|lia|pose proof (zlen_nonneg (p :: ps)); lia].
  sbind. rewrite Hmp. sbind. rewrite Hsh.
  destruct (install_push_spec mm1.(m) queue (p :: ps) np size Hq1 Hnp Hno Hni Hsz)
    as (m1 & m2 & -> & H2 & Hq2 & Hsp2). sbind. rewrite H2. sbind.
  destruct (blocks_first np size (Z.to_nat (capacity size))) as (fl & Hbl); [lia|].
  pose proof (zlen_blocks np size (Z.to_nat (capacity size))) as Hzl. rewrite Hbl in Hsp2, Hzl.
  destruct (pop_clear_spec m2 queue (np :: p :: ps) np size (np + 32) fl Hsp2)
    as (m3 & m4 & -> & H4 & Hsp4 & Hq4 & Hz4); [lia|done|done|].
  sbind. rewrite H4. sbind. exists m4, fl. auto.
Qed.

(** [free] of a block returns it to its page and does nothing else, whatever the
    number of free blocks: neither the branch that gives an entirely free page
    back nor the one that moves a page to the front of its queue is ever taken,
    because their conditions divide the header size instead of the page size by
    the block size. *)
Lemma free_only_appends `{compiler : Compiler} (mm : MemoryManager) (page k b : Z) (fl : list Z) :
  0 <= k <= 6 -> small_page mm.(m) page (16 * 2 ^ k) fl ->
  is_block page (16 * 2 ^ k) b -> b ∉ fl -> zlen fl < capacity (16 * 2 ^ k) ->
  exists m', free mm b = Some (set_m mm m') /\
    small_page m' page (16 * 2 ^ k) (fl ++ [b]) /\
    changes_in mm.(m) m' (page + 12) (page + 4096).
Proof.
  intros Hkr Hsp Hblk Hni Hl. pose proof (class_size k Hkr) as Hsz. set (size := 16 * 2 ^ k) in *.
  pose proof (capacity_range size Hsz) as Hcap. pose proof (zlen_nonneg fl).
  pose proof (block_in_page page size b ltac:(lia) Hblk) as Hin.
  destruct (sp_page _ _ _ _ Hsp) as (Hp1 & Hp2 & Hp3). unfold free, page_size.
  destruct (0 =? b mod 4096) eqn:E; zbool; [lia|].
  rewrite land_frame by lia. replace (b / 4096 * 4096) with page by lia.
  unfold deref, NULL. destruct (page =? 0) eqn:E'; zbool; [lia|]. sbind.
  destruct (append_block_spec mm.(m) page size b fl Hsp Hblk Hni) as (m1 & -> & Hc1 & Hfc1 & Hsp2 & Hc2);
    [lia|]. sbind. rewrite Hfc1, u32_id by lia. set (m2 := store32 _ _ _) in *.
  rewrite (sp_block_size _ _ _ _ Hsp2), (sp_free_cnts _ _ _ _ Hsp2).
  destruct (desc_index_class size) as (k' & -> & _); [lia|]. sbind.
  destruct (size =? 0) eqn:E0; zbool; [lia|].
  rewrite zlen_app. change (zlen [b]) with 1.
  pose proof (header_quotient size ltac:(lia)).
  unfold all_free, fifth_free, page_size, sizeof_header. rewrite !u32_id by lia.
  destruct (zlen fl + 1 =? 4096 - 32 / size) eqn:E1; zbool; [lia|].
  destruct (4096 - 32 / size <=? 5 * (zlen fl + 1)) eqn:E2; zbool; [lia|].
  exists m2. auto.
Qed.

(** C25.  [free] of a block returns it to its page: the page is found from the
    address, the block is appended to the free blocks of the page and their
    number grows by one, and no byte outside the page changes.  This is the case in
    which the page keeps its place: after it fewer than a fifth of the blocks of
    the page are free.  (The comments of [free] want a page with more free blocks
    to move to the front of its queue and an entirely free page to be given back;
    the conditions never hold, see [free_never_reclaims].) *)
Theorem free_small_block `{compiler : Compiler} (mm : MemoryManager) (page k b : Z) (fl : list Z) :
  0 <= k <= 6 -> small_page mm.(m) page (16 * 2 ^ k) fl ->
  is_block page (16 * 2 ^ k) b -> b ∉ fl -> 5 * (zlen fl + 1) < capacity (16 * 2 ^ k) ->
  exists m', free mm b = Some (set_m mm m') /\
    small_page m' page (16 * 2 ^ k) (fl ++ [b]) /\
    changes_in mm.(m) m' (page + 12) (page + 4096).
Proof.
  intros Hk Hsp Hb Hni Hc. pose proof (zlen_nonneg fl). apply (free_only_appends mm page k b fl); [done..|lia].
Qed.

(** The conditions of [free] as they were meant, with the number of blocks
    of a page, would hold for an entirely free page; the conditions as written
    hold for no page at all. *)
Theorem free_never_reclaims (k cnts : Z) :
  0 <= k <= 6 -> 0 <= cnts <= capacity (16 * 2 ^ k) ->
  all_free (16 * 2 ^ k) cnts = false /\ fifth_free (16 * 2 ^ k) cnts = false.
Proof.
  intros Hk Hc. pose proof (class_size k Hk) as Hsz. pose proof (capacity_range _ Hsz).
  set (size := 16 * 2 ^ k) in *. unfold all_free, fifth_free, page_size, sizeof_header.
  pose proof (header_quotient size ltac:(lia)).
  rewrite !u32_id by lia. split; [apply Z.eqb_neq|apply Z.leb_gt]; lia.
Qed.

(** ** Witnesses *)

#[local] Existing Instance unoptimised.

(** An empty queue at [0x1000], as the constructor leaves it. *)
Lemma empty_queue : exists m, CycleList.CycleList.initialize ∅ 0x1000 = Some m /\
  page_queue m 0x1000 [].
Proof.
  destruct (CycleList.CycleList.initialize_rep ∅ 0x1000) as (m & H & Hr & _);
    [unfold CycleList.CycleList.elem_addr, CycleList.CycleList.tail; lia..|].
  exists m. split; [done|]. by constructor.
Qed.

Lemma page_200000 : aligned_page 0x200000 /\ outside_page 0x1000 0x200000.
Proof. unfold aligned_page, outside_page. lia. Qed.

(** A page of 16-byte blocks in the queue. *)
Lemma one_page : exists m fl, page_queue m 0x1000 [0x200000] /\
  small_page m 0x200000 16 (0x200020 :: fl) /\ zlen (0x200020 :: fl) = 254.
Proof.
  destruct empty_queue as (m & _ & Hq). destruct page_200000 as [Hp Ho].
  destruct (install_push_spec m 0x1000 [] 0x200000 16 Hq Hp Ho) as (m1 & m2 & _ & _ & Hq2 & Hsp2);
    [set_solver|lia|].
  destruct (blocks_first 0x200000 16 (Z.to_nat (capacity 16))) as (fl & Hbl); [vm_compute; lia|].
  pose proof (zlen_blocks 0x200000 16 (Z.to_nat (capacity 16))) as Hz.
  rewrite Hbl in Hsp2, Hz. exists m2, fl. split; [done|]. split; [done|]. exact Hz.
Qed.

Definition mm_with (mem : mem) : MemoryManager := set_m small_mm mem.

Lemma malloc_small_block_witness :
  exists mm fl m', page_queue mm.(m) (mem_desc mm.(mem_desc_base) 0) [0x200000] /\
    malloc 1 mm 10 = Some (0x200020, set_m mm m') /\ small_page m' 0x200000 16 fl /\
    forall x, 0x200020 <= x < 0x200030 -> load8 m' x = 0.
Proof.
  destruct one_page as (m0 & fl & Hq & Hsp & Hz).
  destruct (malloc_small_block 1 (mm_with m0) 10 0 0x200000 0x200020 [] fl) as (_ & _ & m' & H1 & H2 & _ & H3 & _).
  - lia.
  - reflexivity.
  - exact Hq.
  - simpl; lia.
  - exact Hsp.
  - lia.
  - exists (mm_with m0), fl, m'. split; [exact Hq|]. split; [exact H1|]. split; [exact H2|exact H3].
Defined.

(** A page all of whose blocks are in use. *)
Lemma all_taken l : forall m, small_page m 0x200000 16 l -> zlen l < 4294967296 -> exists m', small_page m' 0x200000 16 [].
Proof.
  induction l as [|b fl IH]; intros m Hsp Hl; [by exists m|].
  destruct (pop_block_spec m 0x200000 16 b fl Hsp Hl) as (m1 & _ & Hsp1 & _).
  apply (IH m1 Hsp1). rewrite zlen_cons in Hl. lia.
Qed.

Lemma free_small_block_witness :
  exists mm m', small_page mm.(m) 0x200000 16 [] /\
    free mm 0x200020 = Some (set_m mm m') /\ small_page m' 0x200000 16 [0x200020].
Proof.
  destruct one_page as (m0 & fl & _ & Hsp & Hz).
  destruct (all_taken _ m0 Hsp) as (m1 & H1); [lia|].
  destruct (free_small_block (mm_with m1) 0x200000 0 0x200020 []) as (m' & H2 & H3 & _).
  - lia.
  - exact H1.
  - exists 0. lia.
  - apply not_elem_of_nil.
  - reflexivity.
  - exists (mm_with m1), m'. auto.
Defined.

Lemma free_never_reclaims_witness :
  all_free 16 254 = false /\ fifth_free 16 254 = false.
Proof. apply (free_never_reclaims 0 254); [lia|vm_compute; split; discriminate]. Defined.

(** A queue whose only page is full, in a manager with free pages. *)
Definition full_mem : mem :=
  default ∅ (m ← CycleList.CycleList.initialize ∅ 0x1000; CycleList.CycleList.push m 0x1000 0x400000).
Definition full_mm : MemoryManager := mm_with full_mem.
Definition full_mm1 : MemoryManager :=
  match malloc_page full_mm 1 with Some (_, mm) => mm | None => full_mm end.

Lemma full_page : malloc_page full_mm 1 = Some (0x200000, full_mm1).
Proof.
  assert (H : fst <$> malloc_page full_mm 1 = Some 0x200000) by (vm_compute; reflexivity).
  unfold full_mm1. destruct (malloc_page full_mm 1) as [[a mm]|]; [|discriminate H].
  cbn in H. congruence.
Qed.

Lemma full_queue (m : mem) :
  load32 m 0x1004 = 0x400000 -> load32 m 0x400000 = 0x1000 -> load32 m 0x400004 = 0x1008 ->
  load32 m 0x1008 = 0x400000 -> page_queue m 0x1000 [0x400000].
Proof.
  intros H1 H2 H3 H4. constructor.
  - constructor.
    + cbn. auto.
    + cbn. repeat split; repeat constructor;
        unfold CycleList.CycleList.apart, CycleList.CycleList.head, CycleList.CycleList.tail; lia.
    + repeat constructor; unfold CycleList.CycleList.head, CycleList.CycleList.tail; lia.
  - constructor; [|constructor]. unfold aligned_page, outside_page. lia.
Qed.

Lemma full_queue1 : page_queue full_mm1.(m) 0x1000 [0x400000].
Proof. apply full_queue; vm_compute; reflexivity. Qed.

Lemma malloc_small_new_page_witness :
  exists m' fl, malloc 1 full_mm 10 = Some (0x200020, set_m full_mm1 m') /\
    small_page m' 0x200000 16 fl /\ page_queue m' 0x1000 [0x200000; 0x400000].
Proof.
  destruct (malloc_small_new_page 1 full_mm full_mm1 10 0 0x400000 0x200000 [])
    as (m' & fl & H1 & _ & H2 & H3 & _).
  - lia.
  - reflexivity.
  - apply full_queue; vm_compute; reflexivity.
  - simpl; lia.
  - vm_compute; reflexivity.
  - exact full_page.
  - exact full_queue1.
  - unfold aligned_page. lia.
  - unfold outside_page. vm_compute. left. discriminate.
  - set_solver.
  - exists m', fl. auto.
Defined.
