(* ===== verification/Process.v ===== *)
(** * Processes (kernel/process.cc, kernel/timer.cc, kernel/tss.cc, kernel/sync.cc)

    The kernel state: the process control blocks and messages by address, the
    links of the ready queues (in [links], the byte memory on which CycleList.v
    runs; a PCB starts with its queue element), and the scheduler's globals.
    Dereferencing an address that holds no PCB or message is [None].  The
    functions run with interrupts disabled; switching the processor to another
    kernel stack is the assignment of [cur_proc], so a call of [schedule] ends
    with another process current, and what the caller does after it happens when
    the caller is current again. *)
From S2P Require Import Prelude Mem CString.
From S2P Require CycleList.

Inductive process_status :=
| RUNNING | READY | BLOCKED | WAITING | HANGING | DIED | WAITING_MSG | SENDING_MSG | WAITING_MID.

#[global] Instance process_status_eq_dec : EqDecision process_status.
Proof. solve_decision. Defined.

Definition NR_PROC : Z := 64.
Definition PRIORITY_KIND : Z := 5.
Definition PRIORITY_A : Z := 0.
Definition PRIORITY_B : Z := 1.
Definition PRIORITY_C : Z := 2.
Definition PRIORITY_D : Z := 3.
Definition PRIORITY_E : Z := 4.

(** [struct pcb] without its stack contents; its size is 3103 bytes. *)
Definition sizeof_pcb : Z := 3103.

Record pcb := mk_pcb {
  pid : Z;
  name : list Z;
  status : process_status;
  priority : Z;
  ticks : Z;
  elapsed_ticks : Z;
  esp : Z;
  next_ready : Z;
  message : Z;
  sendings : Z;
  intr_cnt : Z;
  userstack : Z;
  is_userproc : bool;
  func : Z;             (* self_stack.func *)
  args : Z;             (* self_stack.args *)
}.

Record context := mk_context { con_1 : Z; con_2 : Z; con_3 : Z; con_4 : Z }.

Record Message := mk_Message {
  source : Z;
  destination : Z;
  type : Z;
  ctx : context;
}.

Record kernel := mk_kernel {
  pcbs : gmap Z pcb;
  msgs : gmap Z Message;
  links : mem;
  ready_base : Z;              (* address of ready_processes *)
  max_rounds : list Z;
  processes : list Z;
  cur_proc : Z;
  max_priority : Z;
  timer_ticks : Z;
  tss_esp0 : Z;
  last_pid : Z;                (* the static variable of allocate_pid *)
}.

(** ** Field updates *)

Definition with_pcbs (k : kernel) x := mk_kernel x k.(msgs) k.(links) k.(ready_base) k.(max_rounds)
  k.(processes) k.(cur_proc) k.(max_priority) k.(timer_ticks) k.(tss_esp0) k.(last_pid).
Definition with_msgs (k : kernel) x := mk_kernel k.(pcbs) x k.(links) k.(ready_base) k.(max_rounds)
  k.(processes) k.(cur_proc) k.(max_priority) k.(timer_ticks) k.(tss_esp0) k.(last_pid).
Definition with_links (k : kernel) x := mk_kernel k.(pcbs) k.(msgs) x k.(ready_base) k.(max_rounds)
  k.(processes) k.(cur_proc) k.(max_priority) k.(timer_ticks) k.(tss_esp0) k.(last_pid).
Definition with_max_rounds (k : kernel) x := mk_kernel k.(pcbs) k.(msgs) k.(links) k.(ready_base) x
  k.(processes) k.(cur_proc) k.(max_priority) k.(timer_ticks) k.(tss_esp0) k.(last_pid).
Definition with_processes (k : kernel) x := mk_kernel k.(pcbs) k.(msgs) k.(links) k.(ready_base) k.(max_rounds)
  x k.(cur_proc) k.(max_priority) k.(timer_ticks) k.(tss_esp0) k.(last_pid).
Definition with_cur_proc (k : kernel) x := mk_kernel k.(pcbs) k.(msgs) k.(links) k.(ready_base) k.(max_rounds)
  k.(processes) x k.(max_priority) k.(timer_ticks) k.(tss_esp0) k.(last_pid).
Definition with_max_priority (k : kernel) x := mk_kernel k.(pcbs) k.(msgs) k.(links) k.(ready_base) k.(max_rounds)
  k.(processes) k.(cur_proc) x k.(timer_ticks) k.(tss_esp0) k.(last_pid).
Definition with_timer_ticks (k : kernel) x := mk_kernel k.(pcbs) k.(msgs) k.(links) k.(ready_base) k.(max_rounds)
  k.(processes) k.(cur_proc) k.(max_priority) x k.(tss_esp0) k.(last_pid).
Definition with_tss_esp0 (k : kernel) x := mk_kernel k.(pcbs) k.(msgs) k.(links) k.(ready_base) k.(max_rounds)
  k.(processes) k.(cur_proc) k.(max_priority) k.(timer_ticks) x k.(last_pid).
Definition with_last_pid (k : kernel) x := mk_kernel k.(pcbs) k.(msgs) k.(links) k.(ready_base) k.(max_rounds)
  k.(processes) k.(cur_proc) k.(max_priority) k.(timer_ticks) k.(tss_esp0) x.

Definition set_status (p : pcb) x := mk_pcb p.(pid) p.(name) x p.(priority) p.(ticks) p.(elapsed_ticks)
  p.(esp) p.(next_ready) p.(message) p.(sendings) p.(intr_cnt) p.(userstack) p.(is_userproc) p.(func) p.(args).
Definition set_ticks (p : pcb) x y := mk_pcb p.(pid) p.(name) p.(status) p.(priority) x y
  p.(esp) p.(next_ready) p.(message) p.(sendings) p.(intr_cnt) p.(userstack) p.(is_userproc) p.(func) p.(args).
Definition set_next_ready (p : pcb) x := mk_pcb p.(pid) p.(name) p.(status) p.(priority) p.(ticks) p.(elapsed_ticks)
  p.(esp) x p.(message) p.(sendings) p.(intr_cnt) p.(userstack) p.(is_userproc) p.(func) p.(args).
Definition set_message (p : pcb) x := mk_pcb p.(pid) p.(name) p.(status) p.(priority) p.(ticks) p.(elapsed_ticks)
  p.(esp) p.(next_ready) x p.(sendings) p.(intr_cnt) p.(userstack) p.(is_userproc) p.(func) p.(args).
Definition set_sendings (p : pcb) x := mk_pcb p.(pid) p.(name) p.(status) p.(priority) p.(ticks) p.(elapsed_ticks)
  p.(esp) p.(next_ready) p.(message) x p.(intr_cnt) p.(userstack) p.(is_userproc) p.(func) p.(args).
Definition set_intr_cnt (p : pcb) x := mk_pcb p.(pid) p.(name) p.(status) p.(priority) p.(ticks) p.(elapsed_ticks)
  p.(esp) p.(next_ready) p.(message) p.(sendings) x p.(userstack) p.(is_userproc) p.(func) p.(args).

Definition get_pcb (k : kernel) (a : Z) : option pcb := k.(pcbs) !! a.
Definition upd_pcb (k : kernel) (a : Z) (f : pcb -> pcb) : option kernel :=
  p ← get_pcb k a; Some (with_pcbs k (<[a := f p]> k.(pcbs))).

(** [ready_processes[i]]. *)
Definition ready_processes (k : kernel) (i : Z) : Z := k.(ready_base) + 16 * i.

(** ** process.cc *)

Fixpoint init_queues (n : nat) (m : mem) (base i : Z) : option mem :=
  match n with
  | O => Some m
  | S n' => m ← CycleList.CycleList.initialize m (base + 16 * i); init_queues n' m base (i + 1)
  end.

Definition init_pm (k : kernel) : option kernel :=
  m ← init_queues 5 k.(links) k.(ready_base) 0;
  Some (with_max_priority (with_max_rounds (with_links k m) (replicate 5 10)) (PRIORITY_KIND + 1)).

Definition priority2ticks (priority : Z) : Z := u32 (u32 (PRIORITY_KIND - priority) * 8).

(** [memset(name, 0, 16)] and [strcpy]: a name that does not fit would overwrite
    the fields behind it. *)
Definition init_process_info (k : kernel) (proc : Z) (name_ : list Z) (pid_ priority_ : Z)
  : option kernel :=
  p ← get_pcb k proc;
  nm ← memset p.(name) 0 0 16;
  nm ← strcpy nm 0 name_;
  Some (with_pcbs k (<[proc := mk_pcb (u32 pid_) nm p.(status) priority_ (priority2ticks priority_) 0
     p.(esp) p.(next_ready) p.(message) p.(sendings) p.(intr_cnt) p.(userstack) p.(is_userproc)
     p.(func) p.(args)]> k.(pcbs))).

(** [create_process(proc, func, args)]: the initial kernel stack. *)
Definition create_process (k : kernel) (proc func_ args_ : Z) : option kernel :=
  p ← get_pcb k proc;
  Some (with_pcbs k (<[proc := mk_pcb p.(pid) p.(name) READY p.(priority) p.(ticks) p.(elapsed_ticks)
     (u32 (proc + sizeof_pcb - 32)) p.(next_ready) NULL NULL p.(intr_cnt) p.(userstack)
     p.(is_userproc) func_ args_]> k.(pcbs))).

Definition allocate_pid (k : kernel) : Z * kernel :=
  let pid := u32 (k.(last_pid) + 1) in (pid, with_last_pid k pid).

(** The search for a free slot of [processes], from [idx] on. *)
Fixpoint free_slot (n : nat) (l : list Z) (idx : Z) : option Z :=
  match n with
  | O => Some (-1)
  | S n' => p ← l.[idx]; if 0 =? p then Some idx else free_slot n' l (idx + 1)
  end.

Definition append_all_array (k : kernel) (proc pid : Z) : option (Z * kernel) :=
  if 0 <=? pid then
    l ← k.(processes).[pid <- proc]; Some (pid, with_processes k l)
  else
    idx ← free_slot 64 k.(processes) 0;
    if idx =? -1 then Some (-1, k)
    else l ← k.(processes).[idx <- proc]; Some (idx, with_processes k l).

(** The common end of the functions that start a process. *)
Definition append_ready (k : kernel) (proc priority : Z) : option kernel :=
  m ← CycleList.CycleList.append k.(links) (ready_processes k priority) proc;
  let k := with_links k m in
  Some (if priority <? k.(max_priority) then with_max_priority k priority else k).

Definition start_process (k : kernel) (name : list Z) (pid priority func args proc : Z)
  : option kernel :=
  '(pid_, k) ← append_all_array k proc pid;
  k ← init_process_info k proc name pid_ priority;
  k ← create_process k proc func args;
  append_ready k proc priority.

Definition update_tss (k : kernel) (proc : Z) : kernel := with_tss_esp0 k (u32 (proc + sizeof_pcb)).

Definition switch_to (k : kernel) (next_proc : Z) : kernel := with_cur_proc k next_proc.

(** The search of [schedule] for a queue, [n] queues left: the number of the
    queue (5 when there is none) and the new round counters. *)
Fixpoint pick_queue (n : nat) (k : kernel) (rounds : list Z) (max_prio : Z) : option (Z * list Z) :=
  if max_prio <? PRIORITY_KIND then
    match n with
    | O => None
    | S n' =>
        r ← rounds.[max_prio];
        if (0 =? r) && (max_prio <? 3) then
          rounds ← rounds.[max_prio <- 10];
          pick_queue n' k rounds (max_prio + 1)
        else
          e ← CycleList.CycleList.is_empty k.(links) (ready_processes k max_prio);
          if negb e then Some (max_prio, rounds) else pick_queue n' k rounds (max_prio + 1)
    end
  else Some (max_prio, rounds).

(** What [schedule] does to the process that was running. *)
Definition leave_cpu (k : kernel) : option kernel :=
  cur ← get_pcb k k.(cur_proc);
  match cur.(status) with
  | RUNNING => upd_pcb k k.(cur_proc) (fun p => set_status p READY)
  | WAITING_MID =>
      k ← upd_pcb k k.(cur_proc) (fun p => set_status p WAITING_MSG);
      m ← CycleList.CycleList.remove k.(links) k.(cur_proc);
      Some (with_links k m)
  | _ => Some k
  end.

(** The second half of [schedule]: picking a process and switching to it.  [fuel]
    bounds the length of a ready queue. *)
Definition dispatch (fuel : nat) (k : kernel) : option kernel :=
  '(max_prio, rounds) ← pick_queue 5 k k.(max_rounds) k.(max_priority);
  let k := with_max_rounds k rounds in
  cur ← get_pcb k k.(cur_proc);
  '(next_proc, k) ←
    (if cur.(priority) =? max_prio then
       next ← CycleList.CycleList.next_elem k.(links) (ready_processes k max_prio) k.(cur_proc);
       r ← k.(max_rounds).[cur.(priority)];
       rounds ← k.(max_rounds).[cur.(priority) <- u32 (r - 1)];
       Some (next, with_max_rounds k rounds)
     else if max_prio <? PRIORITY_KIND then
       next ← CycleList.CycleList.get_elem fuel k.(links) (ready_processes k max_prio) 0;
       Some (next, k)
     else Some (NULL, k));
  if negb (next_proc =? NULL) then
    k ← upd_pcb k next_proc (fun p => set_status p RUNNING);
    next ← get_pcb k next_proc;
    let k := if next.(is_userproc) then update_tss k next_proc else k in
    Some (switch_to k next_proc)
  else Some k.

Definition schedule (fuel : nat) (k : kernel) : option kernel :=
  k ← leave_cpu k;
  dispatch fuel k.

Definition start_userprocess (k : kernel) (name : list Z)
    (pid priority func proc userstack init_userprocess : Z) : option kernel :=
  '(pid_, k) ← append_all_array k proc pid;
  k ← init_process_info k proc name pid_ priority;
  k ← upd_pcb k proc (fun p => mk_pcb p.(Process.pid) p.(Process.name) p.(status) p.(Process.priority) p.(ticks)
        p.(elapsed_ticks) p.(esp) p.(next_ready) p.(message) p.(sendings) p.(intr_cnt)
        userstack true p.(Process.func) p.(args));
  k ← create_process k proc init_userprocess func;
  append_ready k proc priority.

Definition init_name : list Z := [105; 110; 105; 116; 0].

Definition deal_init_process (k : kernel) (pid : Z) : option kernel :=
  let init_proc := 0x80000 in
  '(pid_, k) ← append_all_array k init_proc pid;
  k ← init_process_info k init_proc init_name pid_ PRIORITY_E;
  let k := with_cur_proc k init_proc in
  k ← upd_pcb k init_proc (fun p => set_status p RUNNING);
  '(_, k) ← append_all_array k init_proc pid;
  append_ready k init_proc PRIORITY_E.

Definition self_block (fuel : nat) (k : kernel) (stat : process_status) : option kernel :=
  if decide (WAITING_MSG = stat) then
    k ← upd_pcb k k.(cur_proc) (fun p => set_status p WAITING_MID);
    schedule fuel k
  else
    k ← upd_pcb k k.(cur_proc) (fun p => set_status p stat);
    m ← CycleList.CycleList.remove k.(links) k.(cur_proc);
    schedule fuel (with_links k m).

Definition proc_yield (fuel : nat) (k : kernel) : option kernel :=
  k ← upd_pcb k k.(cur_proc) (fun p => set_status p READY);
  schedule fuel k.

(** [status] is READY when it is compared with WAITING_MID. *)
Definition unblock_proc (k : kernel) (proc : Z) : option kernel :=
  k ← upd_pcb k proc (fun p => set_status p READY);
  p ← get_pcb k proc;
  if decide (WAITING_MID = p.(status)) then Some k
  else
    let k := if p.(priority) <? k.(max_priority) then with_max_priority k p.(priority) else k in
    m ← CycleList.CycleList.append k.(links) (ready_processes k p.(priority)) proc;
    Some (with_links k m).

(** [esp] lies in the page of the current PCB. *)
Definition get_current_proc (k : kernel) : Z := k.(cur_proc).

Definition pid2pcb (k : kernel) (pid : Z) : option Z := k.(processes).[pid].

Definition status2string (stat : process_status) : list Z :=
  match stat with
  | RUNNING => [82; 85; 78]
  | READY => [82; 68; 89]
  | BLOCKED => [66; 76; 68]
  | WAITING => [87; 65; 84]
  | HANGING => [68; 73; 69]
  | WAITING_MSG => [87; 77; 71]
  | SENDING_MSG => [83; 77; 71]
  | _ => [85; 75; 78]
  end.

(** [ps]: one line per used slot of [processes]: pid, status, name. *)
Fixpoint ps_loop (n : nat) (k : kernel) (i : Z) : option (list (Z * list Z * list Z)) :=
  match n with
  | O => Some []
  | S n' =>
      a ← k.(processes).[i];
      if a =? NULL then ps_loop n' k (i + 1)
      else
        p ← get_pcb k a;
        rest ← ps_loop n' k (i + 1);
        Some ((p.(pid), status2string p.(status), p.(name)) :: rest)
  end.

Definition ps (k : kernel) : option (list (Z * list Z * list Z)) := ps_loop 64 k 0.

(** ** timer.cc *)

Definition timer_handler (fuel : nat) (k : kernel) : option kernel :=
  let k := with_timer_ticks k (u32 (k.(timer_ticks) + 1)) in
  k ← upd_pcb k k.(cur_proc) (fun p => set_ticks p p.(ticks) (u32 (p.(elapsed_ticks) + 1)));
  cur ← get_pcb k k.(cur_proc);
  if 0 =? cur.(ticks) then schedule fuel k
  else upd_pcb k k.(cur_proc) (fun p => set_ticks p (u32 (p.(ticks) - 1)) p.(elapsed_ticks)).

(** ** sync.cc *)

Record Semaphore := mk_Semaphore { value : Z; waiters : Z }.

Definition Semaphore_init : Semaphore := mk_Semaphore 1 NULL.

(** One turn of the loop of [wait]: [true] when the semaphore has been taken;
    otherwise the process has been queued and another one is current, and the
    loop is entered again when the process is woken up. *)
Definition wait_turn (fuel : nat) (k : kernel) (s : Semaphore) : option (bool * Semaphore * kernel) :=
  if 0 =? s.(value) then
    k ← upd_pcb k k.(cur_proc) (fun p => set_next_ready p s.(waiters));
    let s := mk_Semaphore s.(value) k.(cur_proc) in
    k ← self_block fuel k BLOCKED;
    Some (false, s, k)
  else Some (true, mk_Semaphore (s32 (s.(value) - 1)) s.(waiters), k).

Definition signal (k : kernel) (s : Semaphore) : option (Semaphore * kernel) :=
  if negb (s.(waiters) =? NULL) then
    let will_wakeup := s.(waiters) in
    w ← get_pcb k s.(waiters);
    k ← unblock_proc k will_wakeup;
    Some (mk_Semaphore (s32 (s.(value) + 1)) w.(next_ready), k)
  else Some (mk_Semaphore (s32 (s.(value) + 1)) s.(waiters), k).

Record Lock := mk_Lock { holder : Z; sema : Semaphore }.

Definition Lock_init : Lock := mk_Lock NULL Semaphore_init.

(** Where a process is in its use of a lock: before [acquire] or after [release];
    in the loop of [sema.wait()]; behind it, before [holder] is set; between
    [acquire] and [release]; in [release], before [sema.signal()]. *)
Inductive place := Outside | Waiting | Taken | Inside | Leaving.

(** The next uninterrupted piece of [acquire]: the test of [holder] on entry, one
    turn of [sema.wait()], which runs with the interrupts disabled and enables
    them when it returns, and the assignment to [holder]. *)
Definition acquire_step (fuel : nat) (k : kernel) (l : Lock) (at_ : place) : option (place * Lock * kernel) :=
  match at_ with
  | Outside | Inside =>
      if negb (l.(holder) =? k.(cur_proc)) then Some (Waiting, l, k) else Some (Inside, l, k)
  | Waiting =>
      '(taken, s, k) ← wait_turn fuel k l.(sema);
      Some (if (taken : bool) then Taken else Waiting, mk_Lock l.(holder) s, k)
  | Taken => Some (Inside, mk_Lock k.(cur_proc) l.(sema), k)
  | Leaving => None
  end.

(** The next uninterrupted piece of [release]: nothing is tested, [holder] is
    cleared with the interrupts enabled, then the semaphore is signalled. *)
Definition release_step (k : kernel) (l : Lock) (at_ : place) : option (place * Lock * kernel) :=
  match at_ with
  | Outside | Inside => Some (Leaving, mk_Lock NULL l.(sema), k)
  | Leaving =>
      '(s, k) ← signal k l.(sema);
      Some (Outside, mk_Lock l.(holder) s, k)
  | Waiting | Taken => None
  end.
