(* ===== verification/Scheduler.v ===== *)
(** * Correctness of the scheduler (kernel/process.cc)

    The invariant of the kernel between two entries: the five ready queues are
    well-formed lists that share no element, they hold exactly the ready processes
    and the running one, each in the queue of its priority, and [max_priority] is
    a lower bound of the non-empty queues. *)
From S2P Require Import Prelude Mem Process.
From S2P Require CycleList.
Import CycleList.CycleList.

(** ** The ready queues in memory *)

Definition upd {A} (f : Z -> A) (i : Z) (x : A) : Z -> A := fun j => if j =? i then x else f j.

Lemma upd_eq {A} (f : Z -> A) i x : upd f i x i = x.
Proof. unfold upd. by rewrite Z.eqb_refl. Qed.
Lemma upd_ne {A} (f : Z -> A) i x j : j <> i -> upd f i x j = f j.
Proof. unfold upd. intros. destruct (j =? i) eqn:E; zbool; [done|done]. Qed.

Record queues (m : mem) (base : Z) (qs : Z -> list Z) : Prop := {
  q_rep : forall i, 0 <= i < 5 -> rep m (base + 16 * i) (qs i);
  q_apart : forall i j a b, 0 <= i < 5 -> 0 <= j < 5 -> i <> j ->
    a ∈ nodes (base + 16 * i) (qs i) -> b ∈ nodes (base + 16 * j) (qs j) -> apart a b;
}.

(** Rewriting queue [i], touching only its nodes and one element [e] that
    overlaps no other queue. *)
Lemma queues_change m m' base qs i l ns :
  queues m base qs -> 0 <= i < 5 -> rep m' (base + 16 * i) l -> same_outside m m' ns ->
  (forall n j b, n ∈ ns -> 0 <= j < 5 -> j <> i -> b ∈ nodes (base + 16 * j) (qs j) -> apart b n) ->
  (forall a j b, a ∈ nodes (base + 16 * i) l -> 0 <= j < 5 -> j <> i ->
     b ∈ nodes (base + 16 * j) (qs j) -> apart a b) ->
  queues m' base (upd qs i l).
Proof.
  intros [Hr Ha] Hi Hl Hout Hns Hl'. constructor.
  - intros j Hj. destruct (decide (j = i)) as [->|D]; [by rewrite upd_eq|]. rewrite upd_ne by done.
    eapply rep_same_outside; [by apply Hr|exact Hout|]. intros a n Hin Hn. by eapply (Hns n j).
  - intros j j' a b Hj Hj' Hne Hina Hinb.
    unfold upd in Hina, Hinb.
    destruct (j =? i) eqn:E; destruct (j' =? i) eqn:E'; zbool; subst.
    + done.
    + by apply (Hl' a j' b).
    + apply apart_sym. by apply (Hl' b j a).
    + by apply (Ha j j' a b).
Qed.

Lemma queues_append m base qs i e :
  queues m base qs -> 0 <= i < 5 -> elem_addr e ->
  (forall j a, 0 <= j < 5 -> a ∈ nodes (base + 16 * j) (qs j) -> apart e a) ->
  exists m', append m (base + 16 * i) e = Some m' /\ queues m' base (upd qs i (qs i ++ [e])).
Proof.
  intros Hq Hi He Hap.
  destruct (append_rep m (base + 16 * i) (qs i) e) as (m' & Hm & Hr & Hout).
  - by apply Hq.
  - done.
  - apply Forall_forall. intros a Ha. by eapply Hap.
  - exists m'. split; [done|]. eapply queues_change; eauto.
    + intros n j b Hn Hj Hne Hb. apply elem_of_cons in Hn as [->|Hn]; [apply apart_sym; by eapply Hap|].
      by eapply (q_apart _ _ _ Hq j i).
    + intros a j b Ha Hj Hne Hb.
      assert (Ha' : a = e \/ a ∈ nodes (base + 16 * i) (qs i)) by (unfold nodes in *; set_solver).
      destruct Ha' as [->|Ha']; [by eapply Hap|]. by eapply (q_apart _ _ _ Hq i j); auto.
Qed.

Lemma queues_remove m base qs i l1 e l2 :
  queues m base qs -> 0 <= i < 5 -> qs i = l1 ++ e :: l2 ->
  exists m', remove m e = Some m' /\ queues m' base (upd qs i (l1 ++ l2)) /\
    load32 m' (e + 4) = match l2 with [] => tail (base + 16 * i) | c :: _ => c end.
Proof.
  intros Hq Hi Hqi. pose proof (q_rep _ _ _ Hq i Hi) as Hr. rewrite Hqi in Hr.
  destruct (remove_rep _ _ _ _ _ Hr) as (m' & Hm & Hr' & Hout).
  assert (Hsub : forall a, a ∈ nodes (base + 16 * i) (l1 ++ l2) -> a ∈ nodes (base + 16 * i) (qs i)).
  { intros a. rewrite Hqi. unfold nodes. set_solver. }
  exists m'. split; [done|]. split.
  - eapply queues_change; eauto.
    + intros n j b Hn Hj Hne Hb. by eapply (q_apart _ _ _ Hq j i); auto.
    + intros a j b Ha Hj Hne Hb. by eapply (q_apart _ _ _ Hq i j); auto.
  - rewrite (same_outside_load32 _ _ _ _ Hout).
    + pose proof (elem_next _ _ _ _ _ Hr) as Hn. unfold get_next in Hn.
      destruct (deref e); [|done]. by injection Hn.
    + intros n Hn. assert (Hne : e <> n).
      { intros <-. pose proof (all_apart_NoDup _ (rep_apart _ _ _ Hr)) as HN.
        rewrite <- app_assoc, <- app_comm_cons in HN.
        apply NoDup_app in HN as (_ & Hd & [He _]%NoDup_cons).
        assert (e ∉ l1) by (intros Hin; apply (Hd e Hin); by left).
        unfold nodes in Hn. set_solver. }
      assert (apart e n).
      { eapply rep_nodes_apart; [exact Hr| | |done].
        - unfold nodes. set_solver.
        - unfold nodes in *. set_solver. }
      unfold apart in *. lia.
Qed.

(** ** The kernel invariant *)

Definition runnable (pc : pcb) : Prop := pc.(status) = READY \/ pc.(status) = RUNNING.

Record kbase (k : kernel) (qs : Z -> list Z) : Prop := {
  kb_queues : queues k.(links) k.(ready_base) qs;
  kb_pcb : forall p pc, k.(pcbs) !! p = Some pc -> elem_addr p /\ 0 <= pc.(priority) < 5 /\
    forall j, 0 <= j < 5 -> apart p (head (ready_processes k j)) /\ apart p (tail (ready_processes k j));
  kb_apart : forall p p' c c', k.(pcbs) !! p = Some c -> k.(pcbs) !! p' = Some c' -> p <> p' -> apart p p';
  kb_in : forall i p, 0 <= i < 5 -> p ∈ qs i ->
    exists pc, k.(pcbs) !! p = Some pc /\ pc.(priority) = i /\ runnable pc;
  kb_out : forall p pc, k.(pcbs) !! p = Some pc -> runnable pc -> p ∈ qs pc.(priority);
  kb_low : forall i, 0 <= i < k.(max_priority) -> qs i = [];
  kb_max : 0 <= k.(max_priority) <= 4;
  kb_rounds : zlen k.(max_rounds) = 5;
  kb_init : qs 4 <> [];
  kb_run : forall p pc, k.(pcbs) !! p = Some pc -> pc.(status) = RUNNING -> p = k.(cur_proc);
}.

(** Between two entries of the kernel the current process is running. *)
Record kinv (k : kernel) (qs : Z -> list Z) : Prop := {
  ki_base : kbase k qs;
  ki_cur : exists pc, k.(pcbs) !! k.(cur_proc) = Some pc /\ pc.(status) = RUNNING;
}.

(** The first three priorities are served in bursts: queue [j] has to wait when it
    has used up its rounds. *)
Definition exhausted (rounds : list Z) (j : Z) : Prop := j < 3 /\ rounds.[j] = Some 0.

#[global] Instance exhausted_dec rounds j : Decision (exhausted rounds j).
Proof. unfold exhausted. apply _. Defined.

(** Queue [n] is the one the scheduler serves: it is not empty and has rounds left,
    and every queue of higher priority is empty or has none.  There is one such
    [n] ([served_unique]). *)
Definition served (k : kernel) (qs : Z -> list Z) (n : Z) : Prop :=
  0 <= n < 5 /\ qs n <> [] /\ ~ exhausted k.(max_rounds) n /\
  forall j, 0 <= j < n -> qs j = [] \/ exhausted k.(max_rounds) j.

Lemma served_unique k qs n n' : served k qs n -> served k qs n' -> n = n'.
Proof.
  assert (H : forall a b, served k qs a -> served k qs b -> ~ a < b).
  { intros a b (Ha & Hne & Hx & _) (_ & _ & _ & Hb) Hlt. by destruct (Hb a) as [?|?]; [lia| |]. }
  intros H1 H2. pose proof (H _ _ H1 H2). pose proof (H _ _ H2 H1). lia.
Qed.

(** The counters after the scan has gone from queue [mp] to queue [n]: those that
    were used up have been refilled. *)
Definition refilled (rounds : list Z) (mp n j : Z) : option Z :=
  if decide (mp <= j < n /\ exhausted rounds j) then Some 10 else rounds.[j].

Lemma refilled_refl rounds mp j : refilled rounds mp mp j = rounds.[j].
Proof. unfold refilled. rewrite decide_False; [done|]. intros [? _]. lia. Qed.

Lemma refilled_keep rounds mp n j : ~ exhausted rounds n ->
  refilled rounds mp (n + 1) j = refilled rounds mp n j.
Proof.
  intros Hn. unfold refilled.
  destruct (decide (mp <= j < n /\ exhausted rounds j)) as [[? ?]|D];
    [by rewrite decide_True by (split; [lia|done])|].
  rewrite decide_False; [done|]. intros [Hj He]. apply D. split; [|done].
  destruct (decide (j = n)) as [->|]; [done|lia].
Qed.

Lemma refilled_fill rounds rounds' mp n j : mp <= n -> 0 <= n < zlen rounds' -> exhausted rounds n ->
  0 <= j -> rounds'.[j] = refilled rounds mp n j ->
  (<[Z.to_nat n := 10]> rounds').[j] = refilled rounds mp (n + 1) j.
Proof.
  intros Hmp Hn He Hj0 Hr. rewrite zget_insert by lia. unfold refilled in *.
  destruct (n =? j) eqn:E; zbool.
  - subst j. by rewrite decide_True by (split; [lia|done]).
  - rewrite Hr. destruct (decide (mp <= j < n /\ _)) as [[? ?]|D];
      [by rewrite decide_True by (split; [lia|done])|].
    rewrite decide_False; [done|]. intros [Hj ?]. apply D. split; [lia|done].
Qed.

Lemma pick_queue_spec n k qs rounds mp0 mp :
  kbase k qs -> zlen rounds = 5 -> 0 <= mp0 <= mp -> mp <= 4 -> 5 <= mp + Z.of_nat n ->
  (forall j, 0 <= j -> rounds.[j] = refilled k.(max_rounds) mp0 mp j) ->
  exists q rounds', pick_queue n k rounds mp = Some (q, rounds') /\
    mp <= q < 5 /\ qs q <> [] /\ ~ exhausted k.(max_rounds) q /\ zlen rounds' = 5 /\
    (forall j, 0 <= j -> rounds'.[j] = refilled k.(max_rounds) mp0 q j) /\
    forall j, mp <= j < q -> qs j = [] \/ exhausted k.(max_rounds) j.
Proof.
  intros Hk. revert rounds mp. induction n as [|n IH]; intros rounds mp Hz Hmp0 Hmp Hn Hr; [lia|].
  cbn [pick_queue]. unfold PRIORITY_KIND. destruct (mp <? 5) eqn:E; zbool; [|lia].
  destruct (zget_in rounds mp) as [r Er]; [lia|]. rewrite Er. sbind.
  assert (Er0 : k.(max_rounds).[mp] = Some r).
  { rewrite <- Er, Hr by lia. unfold refilled. rewrite decide_False; [done|]. intros [? _]. lia. }
  assert (Hstep : forall rounds1, zlen rounds1 = 5 ->
    (forall j, 0 <= j -> rounds1.[j] = refilled k.(max_rounds) mp0 (mp + 1) j) -> mp <> 4 ->
    (qs mp = [] \/ exhausted k.(max_rounds) mp) ->
    exists q rounds', pick_queue n k rounds1 (mp + 1) = Some (q, rounds') /\
    mp <= q < 5 /\ qs q <> [] /\ ~ exhausted k.(max_rounds) q /\ zlen rounds' = 5 /\
    (forall j, 0 <= j -> rounds'.[j] = refilled k.(max_rounds) mp0 q j) /\
    forall j, mp <= j < q -> qs j = [] \/ exhausted k.(max_rounds) j).
  { intros rounds1 Hz1 Hr1 H4 Hskip.
    destruct (IH rounds1 (mp + 1)) as (q & r' & Hp & Hq & Hne & Hx & Hz' & Hr' & Hj); auto; try lia.
    exists q, r'. repeat split; auto; try lia. intros j Hj'.
    destruct (decide (j = mp)) as [->|]; [done|]. apply Hj. lia. }
  assert (Hscan : (0 =? r) && (mp <? 3) = false ->
    exists q rounds', (e ← is_empty k.(links) (ready_processes k mp);
      if negb e then Some (mp, rounds) else pick_queue n k rounds (mp + 1)) = Some (q, rounds') /\
    mp <= q < 5 /\ qs q <> [] /\ ~ exhausted k.(max_rounds) q /\ zlen rounds' = 5 /\
    (forall j, 0 <= j -> rounds'.[j] = refilled k.(max_rounds) mp0 q j) /\
    forall j, mp <= j < q -> qs j = [] \/ exhausted k.(max_rounds) j).
  { intros Hb. assert (Hx : ~ exhausted k.(max_rounds) mp).
    { intros [? Hr0]. assert (r = 0) as -> by congruence. zbool; lia. }
    pose proof (q_rep _ _ _ (kb_queues _ _ Hk) mp ltac:(lia)) as Hrep.
    unfold ready_processes. rewrite (is_empty_rep _ _ _ Hrep). sbind.
    destruct (qs mp) eqn:Eq; cbn [negb].
    + apply Hstep; auto; [|intros ->; by apply (kb_init _ _ Hk)].
      intros j Hj. rewrite refilled_keep by done. by apply Hr.
    + exists mp, rounds. split; [done|]. split; [lia|]. split; [by rewrite Eq|].
      do 3 (split; [done|]). lia. }
  destruct ((0 =? r) && (mp <? 3)) eqn:E1; [|by apply Hscan].
  zbool. subst r. rewrite zset_in by lia. sbind. apply Hstep; [by rewrite zlen_insert| |lia|by right].
  intros j Hj. apply refilled_fill; [lia|lia|by split|done|by apply Hr].
Qed.

(** Where [next_elem] leads from a process that is in the queue, or has just been
    taken out of it between [l1] and [l2]. *)
Definition next_ok (k : kernel) (qs : Z -> list Z) (n : Z) : Prop :=
  k.(cur_proc) ∈ qs n \/
  exists l1 l2, qs n = l1 ++ l2 /\
    load32 k.(links) (k.(cur_proc) + 4) =
      match l2 with [] => tail (ready_processes k n) | c :: _ => c end.

(** The process after [p] in the queue [l], which is served in a circle. *)
Fixpoint after (p first : Z) (l : list Z) : Z :=
  match l with
  | [] => first
  | a :: l' => if a =? p then match l' with [] => first | c :: _ => c end else after p first l'
  end.

Definition next_in_turn (l : list Z) (p : Z) : Z :=
  match l with [] => p | first :: _ => after p first l end.

Lemma after_split p first l1 l2 : p ∉ l1 ->
  after p first (l1 ++ p :: l2) = match l2 with [] => first | c :: _ => c end.
Proof.
  induction l1 as [|a l1 IH]; intros Hp; cbn [app after]; [by rewrite Z.eqb_refl|].
  apply not_elem_of_cons in Hp as [Hne Hp]. destruct (a =? p) eqn:E; zbool; [done|by apply IH].
Qed.

Lemma next_in_turn_split l1 p l2 : p ∉ l1 ->
  next_in_turn (l1 ++ p :: l2) p =
    match l2 with c :: _ => c | [] => match l1 with [] => p | x :: _ => x end end.
Proof.
  intros Hp. destruct l1 as [|x l1].
  - exact (after_split p p [] l2 Hp).
  - change (next_in_turn ((x :: l1) ++ p :: l2) p) with (after p x ((x :: l1) ++ p :: l2)).
    rewrite after_split by done. done.
Qed.

Lemma next_elem_ok k qs n :
  kbase k qs -> 0 <= n < 5 -> qs n <> [] -> elem_addr k.(cur_proc) -> next_ok k qs n ->
  exists p, next_elem k.(links) (ready_processes k n) k.(cur_proc) = Some p /\ p ∈ qs n /\
    (k.(cur_proc) ∈ qs n -> p = next_in_turn (qs n) k.(cur_proc)).
Proof.
  intros Hk Hn Hne Hel Hok. pose proof (q_rep _ _ _ (kb_queues _ _ Hk) n Hn) as Hrep.
  fold (ready_processes k n) in Hrep. destruct (decide (k.(cur_proc) ∈ qs n)) as [Hin|Hout].
  - apply list_elem_of_split_l in Hin as (l1 & l2 & Hq & Hl1). rewrite Hq in Hrep.
    rewrite (next_elem_rep _ _ _ _ _ Hrep). eexists. split; [done|]. rewrite Hq.
    split; [destruct l2; [destruct l1|]; set_solver|]. intros _. by rewrite next_in_turn_split.
  - destruct Hok as [Hin|(l1 & l2 & Hq & Hload)]; [done|].
    unfold next_elem, get_next. rewrite (deref_addr _ Hel). sbind. rewrite Hload.
    pose proof (head_next _ _ _ Hrep) as Hh. unfold get_next in Hh. rewrite Hq in *.
    destruct l2 as [|c l2].
    + rewrite Z.eqb_refl, Hh, app_nil_r in *. destruct l1 as [|x l1]; [done|].
      eexists. split; [done|]. split; [by left|done].
    + destruct (c =? tail (ready_processes k n)) eqn:E; zbool.
      * exfalso. eapply (rep_ne_tail _ _ _ c Hrep); [set_solver|done].
      * exists c. split; [done|]. split; [set_solver|done].
Qed.

Lemma pcbs_apart k qs (pcbs' : gmap Z pcb) :
  kbase k qs -> (forall a c, pcbs' !! a = Some c -> exists c0, k.(pcbs) !! a = Some c0) ->
  forall p p' c c', pcbs' !! p = Some c -> pcbs' !! p' = Some c' -> p <> p' -> apart p p'.
Proof.
  intros Hk H p p' c c' Hc Hc'. destruct (H _ _ Hc) as [c0 ?]. destruct (H _ _ Hc') as [c0' ?].
  by apply (kb_apart _ _ Hk p p' c0 c0').
Qed.

(** Making a queued process the running one, when no other is. *)
Lemma kinv_run k qs p pc rounds esp0 :
  kbase k qs -> (forall a c, k.(pcbs) !! a = Some c -> c.(status) <> RUNNING) ->
  k.(pcbs) !! p = Some pc -> p ∈ qs pc.(priority) -> zlen rounds = 5 ->
  kinv (switch_to (with_tss_esp0 (with_pcbs (with_max_rounds k rounds)
          (<[p := set_status pc RUNNING]> k.(pcbs))) esp0) p) qs.
Proof.
  intros Hk Hno Hp Hin Hz. split.
  - constructor; cbn; try apply Hk; auto.
    + intros a c [(<- & <-)|(Hne & Ha)]%lookup_insert_Some; [by apply (kb_pcb _ _ Hk p pc)|].
      by apply (kb_pcb _ _ Hk a c).
    + apply (pcbs_apart k qs); [done|]. intros a c. rewrite lookup_insert_Some. intros [(<- & _)|(_ & Ha)]; eauto.
    + intros i a Hi Ha. destruct (kb_in _ _ Hk i a Hi Ha) as (c & Hc & Hpr & Hr).
      destruct (decide (a = p)) as [->|D].
      * exists (set_status pc RUNNING). rewrite lookup_insert_eq. split; [done|].
        assert (c = pc) as -> by congruence. split; [done|by right].
      * exists c. by rewrite lookup_insert_ne.
    + intros a c [(<- & <-)|(Hne & Ha)]%lookup_insert_Some Hr; [done|]. by apply (kb_out _ _ Hk a c).
    + intros a c [(<- & <-)|(Hne & Ha)]%lookup_insert_Some Hr; [done|]. by destruct (Hno a c Ha).
  - exists (set_status pc RUNNING). cbn. by rewrite lookup_insert_eq.
Qed.

Definition short_queues (fuel : nat) (qs : Z -> list Z) : Prop :=
  forall i, 0 <= i < 5 -> (length (qs i) <= fuel)%nat.

(** Round robin: when the queue that is served is the one of the process that gives
    up the processor, its successor in that queue is next; the head of the queue
    otherwise. *)
Definition in_turn (qs : Z -> list Z) (n prio cur p : Z) : Prop :=
  if prio =? n then cur ∈ qs n -> p = next_in_turn (qs n) cur else hd_error (qs n) = Some p.

(** The counters afterwards: those found used up by the scan are refilled, and a
    turn of the queue that is being served uses up one round. *)
Definition rounds_after (rounds : list Z) (mp n prio j : Z) : option Z :=
  if (prio =? n) && (j =? n) then r ← rounds.[j]; Some (u32 (r - 1)) else refilled rounds mp n j.

(** What [dispatch] changes: one status, and the scheduler's own variables. *)
Record dispatched (k k' : kernel) (qs : Z -> list Z) (n prio p : Z) (pc : pcb) : Prop := {
  di_cur : k'.(cur_proc) = p;
  di_pcb : k.(pcbs) !! p = Some pc;
  di_pcbs : k'.(pcbs) = <[p := set_status pc RUNNING]> k.(pcbs);
  di_msgs : k'.(msgs) = k.(msgs);
  di_turn : in_turn qs n prio k.(cur_proc) p;
  di_rounds : forall j, 0 <= j -> k'.(max_rounds).[j] = rounds_after k.(max_rounds) k.(max_priority) n prio j;
}.

(** The choice [dispatch] makes once the queue [n] is known. *)
Definition choice (fuel : nat) (k : kernel) (n : Z) (rounds : list Z) (pcur : pcb) : option (Z * kernel) :=
  if pcur.(priority) =? n then
    next ← next_elem k.(links) (ready_processes k n) k.(cur_proc);
    r ← rounds.[pcur.(priority)];
    rounds ← rounds.[pcur.(priority) <- u32 (r - 1)];
    Some (next, with_max_rounds k rounds)
  else if n <? PRIORITY_KIND then
    next ← get_elem fuel k.(links) (ready_processes k n) 0;
    Some (next, with_max_rounds k rounds)
  else Some (NULL, with_max_rounds k rounds).

Lemma choice_spec fuel k qs n rounds pcur :
  kbase k qs -> k.(pcbs) !! k.(cur_proc) = Some pcur ->
  next_ok k qs n \/ n <> pcur.(priority) -> short_queues fuel qs ->
  0 <= n < 5 -> qs n <> [] -> ~ exhausted k.(max_rounds) n -> zlen rounds = 5 ->
  (forall j, 0 <= j -> rounds.[j] = refilled k.(max_rounds) k.(max_priority) n j) ->
  exists p rounds',
    choice fuel k n rounds pcur = Some (p, with_max_rounds k rounds') /\
    p ∈ qs n /\ zlen rounds' = 5 /\ in_turn qs n pcur.(priority) k.(cur_proc) p /\
    forall j, 0 <= j -> rounds'.[j] = rounds_after k.(max_rounds) k.(max_priority) n pcur.(priority) j.
Proof.
  intros Hk Hcur Hok Hf Hn Hne Hx Hz Hr. destruct (kb_pcb _ _ Hk _ _ Hcur) as (Hel & Hpr & _).
  unfold choice, in_turn, rounds_after. destruct (pcur.(priority) =? n) eqn:E; zbool; cbn [andb].
  - destruct Hok as [Hok|]; [|congruence].
    destruct (next_elem_ok k qs n Hk Hn Hne Hel Hok) as (p & -> & Hin & Ht). sbind. rewrite E.
    destruct (zget_in rounds n) as [r Er]; [lia|]. rewrite Er. sbind.
    rewrite zset_in by lia. sbind. eexists _, _. split; [reflexivity|].
    split; [done|]. split; [by rewrite zlen_insert|]. split; [done|].
    intros j Hj. rewrite zget_insert, Z.eqb_sym by lia. destruct (j =? n) eqn:Ej; zbool; [|by apply Hr].
    subst j. rewrite Hr in Er by lia. unfold refilled in Er. rewrite decide_False in Er by lia. by rewrite Er.
  - unfold PRIORITY_KIND. destruct (n <? 5) eqn:E5; zbool; [|lia].
    pose proof (q_rep _ _ _ (kb_queues _ _ Hk) n ltac:(lia)) as Hrep. fold (ready_processes k n) in Hrep.
    rewrite (get_elem_rep _ _ _ _ _ Hrep) by (apply Hf; lia). sbind.
    destruct (qs n) as [|x l] eqn:Eq; [done|]. rewrite zlen_cons. pose proof (zlen_nonneg l).
    destruct (1 + zlen l - 1 <? 0) eqn:E0; zbool; [lia|].
    exists x, rounds. split; [done|]. split; [by left|]. by repeat (split; [done|]).
Qed.

Lemma dispatch_spec fuel k qs pcur :
  kbase k qs -> (forall a c, k.(pcbs) !! a = Some c -> c.(status) <> RUNNING) ->
  k.(pcbs) !! k.(cur_proc) = Some pcur ->
  next_ok k qs pcur.(priority) -> short_queues fuel qs ->
  exists k' n p pc, dispatch fuel k = Some k' /\ served k qs n /\ p ∈ qs n /\
    dispatched k k' qs n pcur.(priority) p pc /\ kinv k' qs.
Proof.
  intros Hk Hno Hcur Hok Hf. unfold dispatch. pose proof (kb_max _ _ Hk) as Hmx.
  destruct (pick_queue_spec 5 k qs k.(max_rounds) k.(max_priority) k.(max_priority))
    as (n & rounds & -> & Hn & Hne & Hx & Hz & Hr & Hskip); auto; try lia; [apply Hk| |].
  { intros j _. by rewrite refilled_refl. }
  sbind. unfold get_pcb. cbn [pcbs with_max_rounds cur_proc]. rewrite Hcur. sbind.
  assert (Hserved : served k qs n).
  { split; [lia|]. split; [done|]. split; [done|]. intros j Hj.
    destruct (decide (j < k.(max_priority))); [left; by apply (kb_low _ _ Hk); lia|]. apply Hskip. lia. }
  destruct (choice_spec fuel k qs n rounds pcur) as (p & rounds' & Hc & Hin & Hz' & Ht & Hra); auto; try lia.
  { destruct (decide (n = pcur.(priority))) as [->|]; [by left|by right]. }
  match goal with |- context [if pcur.(priority) =? n then ?a else ?b] =>
    change (if pcur.(priority) =? n then a else b) with (choice fuel k n rounds pcur) end.
  rewrite Hc. sbind.
  destruct (kb_in _ _ Hk n p ltac:(lia) Hin) as (pc & Hpc & Hprio & _).
  destruct (kb_pcb _ _ Hk _ _ Hpc) as (Hpel & _).
  unfold NULL. destruct (p =? 0) eqn:E0; zbool; [unfold elem_addr in Hpel; lia|]. cbn [negb].
  unfold upd_pcb, get_pcb. cbn [pcbs with_max_rounds with_pcbs]. rewrite Hpc. sbind.
  cbn [pcbs with_pcbs]. rewrite lookup_insert_eq. sbind. cbn [is_userproc set_status].
  assert (Hin' : p ∈ qs pc.(priority)) by (by rewrite Hprio).
  eexists _, n, p, pc. split; [reflexivity|]. split; [done|]. split; [done|].
  destruct (is_userproc pc).
  - split; [by constructor|]. by apply (kinv_run k qs p pc rounds').
  - split; [by constructor|].
    apply (kinv_run k qs p pc rounds' k.(tss_esp0) Hk Hno Hpc Hin' Hz').
Qed.

(** ** Leaving the processor *)

Lemma upd_pcb_eq k p pc f : k.(pcbs) !! p = Some pc ->
  upd_pcb k p f = Some (with_pcbs k (<[p := f pc]> k.(pcbs))).
Proof. intros H. unfold upd_pcb, get_pcb. rewrite H. done. Qed.

(** A running process that stays ready. *)
Lemma kbase_ready k qs pc :
  kbase k qs -> k.(pcbs) !! k.(cur_proc) = Some pc -> pc.(status) = RUNNING ->
  let k1 := with_pcbs k (<[k.(cur_proc) := set_status pc READY]> k.(pcbs)) in
  kbase k1 qs /\ (forall a c, k1.(pcbs) !! a = Some c -> c.(status) <> RUNNING).
Proof.
  intros Hk Hpc Hr k1. split.
  - constructor; cbn; try apply Hk.
    + intros a c [(<- & <-)|(Hne & Ha)]%lookup_insert_Some; [by apply (kb_pcb _ _ Hk _ pc)|].
      by apply (kb_pcb _ _ Hk a c).
    + apply (pcbs_apart k qs); [done|]. intros a c. rewrite lookup_insert_Some. intros [(<- & _)|(_ & Ha)]; eauto.
    + intros i a Hi Ha. destruct (kb_in _ _ Hk i a Hi Ha) as (c & Hc & Hpr & Hrc).
      destruct (decide (a = k.(cur_proc))) as [->|D].
      * exists (set_status pc READY). rewrite lookup_insert_eq. split; [done|].
        assert (c = pc) as -> by congruence. split; [done|by left].
      * exists c. by rewrite lookup_insert_ne.
    + intros a c [(<- & <-)|(Hne & Ha)]%lookup_insert_Some Hrc.
      * cbn. apply (kb_out _ _ Hk _ pc Hpc). by right.
      * by apply (kb_out _ _ Hk a c).
    + intros a c [(<- & <-)|(Hne & Ha)]%lookup_insert_Some Hrc; [done|]. by apply (kb_run _ _ Hk a c).
  - cbn. intros a c [(<- & <-)|(Hne & Ha)]%lookup_insert_Some; [done|].
    intros Hc. apply Hne. symmetry. by apply (kb_run _ _ Hk a c).
Qed.

(** A running process that leaves its queue with a status that is not
    runnable. *)
Lemma kbase_block k qs pc stat l1 l2 m' :
  kbase k qs -> k.(pcbs) !! k.(cur_proc) = Some pc -> stat <> READY -> stat <> RUNNING ->
  qs pc.(priority) = l1 ++ k.(cur_proc) :: l2 ->
  let qs' := upd qs pc.(priority) (l1 ++ l2) in
  queues m' k.(ready_base) qs' -> qs' 4 <> [] ->
  let k1 := with_links (with_pcbs k (<[k.(cur_proc) := set_status pc stat]> k.(pcbs))) m' in
  kbase k1 qs' /\ (forall a c, k1.(pcbs) !! a = Some c -> c.(status) <> RUNNING) /\
  (forall i, 0 <= i < 5 -> k.(cur_proc) ∉ qs' i).
Proof.
  intros Hk Hpc Hs1 Hs2 Hq qs' Hq' H4 k1.
  destruct (kb_pcb _ _ Hk _ _ Hpc) as (_ & Hpr & _).
  assert (HN : forall i, 0 <= i < 5 -> NoDup (qs i)).
  { intros i Hi. pose proof (all_apart_NoDup _ (rep_apart _ _ _ (q_rep _ _ _ (kb_queues _ _ Hk) i Hi))) as HN.
    by apply NoDup_app in HN as (HN & _). }
  assert (Hsub : forall i a, a ∈ qs' i -> a ∈ qs i).
  { intros i a. unfold qs', upd. destruct (i =? pc.(priority)) eqn:E; zbool; [|done].
    subst i. rewrite Hq. set_solver. }
  assert (Hcur : forall i, 0 <= i < 5 -> k.(cur_proc) ∉ qs' i).
  { intros i Hi Hin. unfold qs', upd in Hin. destruct (i =? pc.(priority)) eqn:E; zbool.
    - specialize (HN _ Hpr). rewrite Hq in HN.
      apply NoDup_app in HN as (_ & Hd & [Hn _]%NoDup_cons).
      apply elem_of_app in Hin as [Hin|Hin]; [|done]. apply (Hd _ Hin). by left.
    - destruct (kb_in _ _ Hk i _ Hi Hin) as (c & Hc & Hpi & _). congruence. }
  split; [|split; [|done]].
  - constructor; cbn; auto; try apply Hk.
    + intros a c [(<- & <-)|(_ & Ha)]%lookup_insert_Some; [by apply (kb_pcb _ _ Hk _ pc)|].
      by apply (kb_pcb _ _ Hk a c).
    + apply (pcbs_apart k qs); [done|]. intros a c. rewrite lookup_insert_Some. intros [(<- & _)|(_ & Ha)]; eauto.
    + intros i a Hi Ha. destruct (kb_in _ _ Hk i a Hi (Hsub _ _ Ha)) as (c & Hc & Hpi & Hrc).
      exists c. rewrite lookup_insert_ne; [done|]. intros <-. by apply (Hcur i).
    + intros a c [(<- & <-)|(Hne & Ha)]%lookup_insert_Some Hrc.
      * destruct Hrc; cbn in *; congruence.
      * pose proof (kb_out _ _ Hk a c Ha Hrc) as Hin. unfold qs', upd.
        destruct (c.(priority) =? pc.(priority)) eqn:E; zbool; [|done].
        rewrite E, Hq in Hin. set_solver.
    + intros i Hi. unfold qs', upd. destruct (i =? pc.(priority)) eqn:E; zbool; [|by apply (kb_low _ _ Hk)].
      subst i. rewrite (kb_low _ _ Hk) in Hq by done. by destruct l1.
    + intros a c [(<- & <-)|(Hne & Ha)]%lookup_insert_Some Hrc; [done|]. by apply (kb_run _ _ Hk a c).
  - cbn. intros a c [(<- & <-)|(Hne & Ha)]%lookup_insert_Some; [done|].
    intros Hc. apply Hne. symmetry. by apply (kb_run _ _ Hk a c).
Qed.

(** ** schedule, self_block and unblock_proc *)

Lemma kinv_cur k qs : kinv k qs ->
  exists pc, k.(pcbs) !! k.(cur_proc) = Some pc /\ pc.(status) = RUNNING /\
    elem_addr k.(cur_proc) /\ 0 <= pc.(priority) < 5 /\ k.(cur_proc) ∈ qs pc.(priority).
Proof.
  intros [Hk (pc & Hpc & Hr)]. exists pc. destruct (kb_pcb _ _ Hk _ _ Hpc) as (? & ? & _).
  do 4 (split; [done|]). apply (kb_out _ _ Hk _ _ Hpc). by right.
Qed.

(** Whose turn it is, and what it costs. *)
Definition turn_taken (k k' : kernel) (qs : Z -> list Z) (n prio p : Z) : Prop :=
  p = (if prio =? n then next_in_turn (qs n) k.(cur_proc) else hd k.(cur_proc) (qs n)) /\
  forall j, 0 <= j -> k'.(max_rounds).[j] = rounds_after k.(max_rounds) k.(max_priority) n prio j.

Lemma schedule_run fuel k qs :
  kinv k qs -> short_queues fuel qs ->
  exists k' n p pc c, schedule fuel k = Some k' /\ served k qs n /\ p ∈ qs n /\ k'.(cur_proc) = p /\
    kinv k' qs /\ k'.(msgs) = k.(msgs) /\ turn_taken k k' qs n pc.(priority) p /\ k.(pcbs) !! k.(cur_proc) = Some pc /\ pc.(status) = RUNNING /\
    <[k.(cur_proc) := set_status pc READY]> k.(pcbs) !! p = Some c /\
    k'.(pcbs) = <[p := set_status c RUNNING]> (<[k.(cur_proc) := set_status pc READY]> k.(pcbs)).
Proof.
  intros Hi Hf. destruct (kinv_cur _ _ Hi) as (pc & Hpc & Hr & Hel & Hpr & Hin).
  pose proof (ki_base _ _ Hi) as Hk. destruct (kbase_ready k qs pc Hk Hpc Hr) as [Hk1 Hno].
  unfold schedule, leave_cpu, get_pcb. rewrite Hpc. sbind. rewrite Hr, (upd_pcb_eq _ _ _ _ Hpc). sbind.
  set (k1 := with_pcbs k _) in *.
  destruct (dispatch_spec fuel k1 qs (set_status pc READY)) as (k' & n & p & c & Hd & Hs & Hp & [] & Hk');
    auto.
  { cbn. by rewrite lookup_insert_eq. }
  { by left. }
  exists k', n, p, pc, c. do 6 (split; [done|]). split; [|by repeat (split; [done|])].
  split; [|done]. cbn [priority set_status cur_proc with_pcbs k1] in di_turn0. unfold in_turn in di_turn0.
  destruct (pc.(priority) =? n) eqn:E; zbool; [subst n; by apply di_turn0|].
  destruct (qs n); [done|]. by injection di_turn0.
Qed.

Lemma schedule_spec fuel k qs :
  kinv k qs -> short_queues fuel qs ->
  exists k' n p, schedule fuel k = Some k' /\ served k qs n /\ p ∈ qs n /\ k'.(cur_proc) = p /\
    kinv k' qs /\ k'.(msgs) = k.(msgs).
Proof.
  intros Hi Hf. destruct (schedule_run fuel k qs Hi Hf) as (k' & n & p & _ & _ & ? & ? & ? & ? & ? & ? & _).
  by exists k', n, p.
Qed.

(** The statuses a process blocks with. *)
Definition blocking (stat : process_status) : Prop :=
  stat <> READY /\ stat <> RUNNING /\ stat <> WAITING_MID.

Lemma self_block_spec fuel k qs pc stat l1 l2 :
  kinv k qs -> short_queues fuel qs -> k.(pcbs) !! k.(cur_proc) = Some pc -> blocking stat ->
  qs pc.(priority) = l1 ++ k.(cur_proc) :: l2 ->
  let qs' := upd qs pc.(priority) (l1 ++ l2) in
  qs' 4 <> [] ->
  exists k' n p c, self_block fuel k stat = Some k' /\ served k qs' n /\ p ∈ qs' n /\
    k'.(cur_proc) = p /\ p <> k.(cur_proc) /\ k.(pcbs) !! p = Some c /\
    k'.(pcbs) = <[p := set_status c RUNNING]> (<[k.(cur_proc) := set_status pc stat]> k.(pcbs)) /\
    k'.(msgs) = k.(msgs) /\ kinv k' qs'.
Proof.
  intros Hi Hf Hpc (Hs1 & Hs2 & Hs3) Hq qs' H4.
  destruct (kinv_cur _ _ Hi) as (pc' & Hpc' & Hr & Hel & Hpr & Hin).
  assert (pc' = pc) as -> by congruence. pose proof (ki_base _ _ Hi) as Hk.
  destruct (queues_remove _ _ _ _ l1 k.(cur_proc) l2 (kb_queues _ _ Hk) Hpr Hq) as (m' & Hrm & Hq' & Hload).
  destruct (kbase_block k qs pc stat l1 l2 m' Hk Hpc Hs1 Hs2 Hq Hq' H4) as (Hk1 & Hno & Hcur).
  set (k1 := with_links (with_pcbs k (<[k.(cur_proc) := set_status pc stat]> k.(pcbs))) m') in *.
  assert (Hsb : self_block fuel k stat = dispatch fuel k1).
  { unfold self_block, schedule, leave_cpu, get_pcb. rewrite !(upd_pcb_eq _ _ _ _ Hpc).
    destruct (decide (WAITING_MSG = stat)) as [<-|D]; sbind.
    - cbn [pcbs with_pcbs cur_proc]. rewrite lookup_insert_eq. sbind. cbn [status set_status].
      rewrite (upd_pcb_eq _ _ (set_status pc WAITING_MID)) by (cbn; by rewrite lookup_insert_eq). sbind.
      cbn [links with_pcbs cur_proc]. rewrite Hrm. sbind. unfold k1. f_equal.
      unfold with_links, with_pcbs. cbn. f_equal. by rewrite insert_insert_eq.
    - cbn [links with_pcbs cur_proc]. rewrite Hrm. sbind. fold k1.
      change (pcbs k1 !! cur_proc k1)
        with (<[k.(cur_proc) := set_status pc stat]> k.(pcbs) !! k.(cur_proc)).
      rewrite lookup_insert_eq. sbind. cbn [status set_status]. by destruct stat. }
  rewrite Hsb.
  destruct (dispatch_spec fuel k1 qs' (set_status pc stat)) as (k' & n & p & c & Hd & Hs & Hp & Hdi & Hk'); auto.
  { cbn. by rewrite lookup_insert_eq. }
  { right. exists l1, l2. split; [apply upd_eq|]. exact Hload. }
  { intros i Hi'. unfold qs', upd. destruct (i =? pc.(priority)) eqn:E; zbool; [|by apply Hf].
    specialize (Hf pc.(priority) Hpr). rewrite Hq in Hf. rewrite length_app in *. simpl in Hf. lia. }
  assert (Hne : p <> k.(cur_proc)). { intros ->. apply (Hcur n); [apply Hs|done]. }
  pose proof (di_pcb _ _ _ _ _ _ _ Hdi) as Hpcb. cbn in Hpcb. rewrite lookup_insert_ne in Hpcb by done.
  exists k', n, p, c. split; [done|]. split; [exact Hs|]. split; [done|].
  split; [by apply Hdi|]. split; [done|]. split; [done|].
  split; [apply Hdi|]. split; [apply Hdi|done].
Qed.

(** Adding a ready process that was in no queue: [k'] differs from [k] in the PCB
    of [p], the links and [max_priority]. *)
Lemma kinv_enqueue k k' qs p pc' :
  kinv k qs -> elem_addr p -> 0 <= pc'.(priority) < 5 -> pc'.(status) = READY ->
  p <> k.(cur_proc) ->
  (forall j, 0 <= j < 5 -> apart p (head (ready_processes k j)) /\ apart p (tail (ready_processes k j))) ->
  (forall a c, k.(pcbs) !! a = Some c -> a <> p -> apart p a) ->
  let qs' := upd qs pc'.(priority) (qs pc'.(priority) ++ [p]) in
  queues k'.(links) k'.(ready_base) qs' -> k'.(ready_base) = k.(ready_base) ->
  k'.(pcbs) = <[p := pc']> k.(pcbs) -> k'.(cur_proc) = k.(cur_proc) ->
  k'.(max_rounds) = k.(max_rounds) ->
  k'.(max_priority) = Z.min k.(max_priority) pc'.(priority) ->
  kinv k' qs'.
Proof.
  intros [Hk (pcur & Hpcur & Hrun)] Hel Hpr Hst Hne Hsent Hap qs' Hq' E2 E3 E5 E6 E7.
  pose proof (kb_max _ _ Hk) as Hmx.
  assert (Hqs : forall i a, a ∈ qs i -> a ∈ qs' i).
  { intros i a Ha. unfold qs', upd. destruct (i =? pc'.(priority)) eqn:E; zbool; [|done]. subst. set_solver. }
  split.
  - constructor; unfold ready_processes; rewrite ?E3, ?E5, ?E6, ?E7; auto; try apply Hk; try lia.
    + rewrite E2. intros a c [(<- & <-)|(_ & Ha)]%lookup_insert_Some; [done|]. by apply (kb_pcb _ _ Hk a c).
    + intros a a' c c' Ha Ha' Hd. rewrite lookup_insert_Some in Ha, Ha'.
      destruct Ha as [(<- & _)|(Hn & Ha)]; destruct Ha' as [(<- & _)|(Hn' & Ha')]; try done.
      * by apply (Hap a' c').
      * apply apart_sym. by apply (Hap a c).
      * by apply (kb_apart _ _ Hk a a' c c').
    + intros i a Hi Ha. destruct (decide (a = p)) as [->|D].
      * exists pc'. rewrite lookup_insert_eq. split; [done|].
        unfold qs', upd in Ha. destruct (i =? pc'.(priority)) eqn:E; zbool; [split; [done|by left]|].
        (* [p] is in another queue: it is a runnable process of that priority *)
        destruct (kb_in _ _ Hk i p Hi Ha) as (c & Hc & Hci & Hrc).
        exfalso. assert (Hin : p ∈ qs i) by done.
        pose proof (q_apart _ _ _ Hq' i pc'.(priority) p p Hi Hpr E) as Hpp.
        apply (apart_irrefl p), Hpp; unfold nodes.
        -- apply elem_of_app. left. by apply Hqs.
        -- apply elem_of_app. left. unfold qs'. rewrite upd_eq. set_solver.
      * rewrite lookup_insert_ne by done. apply (kb_in _ _ Hk i a Hi).
        unfold qs', upd in Ha. destruct (i =? pc'.(priority)) eqn:E; zbool; [|done]. subst. set_solver.
    + intros a c [(<- & <-)|(_ & Ha)]%lookup_insert_Some Hrc.
      * unfold qs'. rewrite upd_eq. set_solver.
      * apply Hqs. by apply (kb_out _ _ Hk a c).
    + intros i Hi. unfold qs'. rewrite upd_ne by lia. apply (kb_low _ _ Hk). lia.
    + intros H4. apply (kb_init _ _ Hk). destruct (qs 4) as [|x l] eqn:Eq; [done|].
      exfalso. assert (Hx : x ∈ qs' 4) by (apply Hqs; rewrite Eq; by left). rewrite H4 in Hx. set_solver.
    + intros a c [(<- & <-)|(_ & Ha)]%lookup_insert_Some Hrc; [congruence|]. by apply (kb_run _ _ Hk a c).
  - rewrite E3, E5. exists pcur. by rewrite lookup_insert_ne.
Qed.

Lemma queues_enqueue k qs p n :
  kinv k qs -> elem_addr p -> 0 <= n < 5 ->
  (forall j, 0 <= j < 5 -> apart p (head (ready_processes k j)) /\ apart p (tail (ready_processes k j))) ->
  (forall a c, k.(pcbs) !! a = Some c -> a <> p -> apart p a) ->
  (forall i, 0 <= i < 5 -> p ∉ qs i) ->
  exists m', append k.(links) (ready_processes k n) p = Some m' /\
    queues m' k.(ready_base) (upd qs n (qs n ++ [p])).
Proof.
  intros [Hk _] Hel Hn Hsent Hap Hout. apply queues_append; auto; [apply Hk|].
  intros j a Hj Ha. apply elem_of_app in Ha as [Ha|Ha].
  - destruct (kb_in _ _ Hk j a Hj Ha) as (c & Hc & _). apply (Hap a c Hc). intros ->. by apply (Hout j).
  - destruct (Hsent j Hj) as [H1 H2]. apply elem_of_cons in Ha as [->|Ha]; [done|].
    by apply list_elem_of_singleton in Ha as ->.
Qed.

Lemma unblock_proc_spec k qs p pc :
  kinv k qs -> k.(pcbs) !! p = Some pc -> ~ runnable pc ->
  let qs' := upd qs pc.(priority) (qs pc.(priority) ++ [p]) in
  exists k', unblock_proc k p = Some k' /\ kinv k' qs' /\
    k'.(pcbs) = <[p := set_status pc READY]> k.(pcbs) /\ k'.(msgs) = k.(msgs) /\
    k'.(cur_proc) = k.(cur_proc) /\ k'.(max_rounds) = k.(max_rounds).
Proof.
  intros Hi Hp Hnr qs'. pose proof Hi as [Hk (pcur & Hpcur & Hrun)].
  destruct (kb_pcb _ _ Hk _ _ Hp) as (Hel & Hpr & Hsent).
  assert (Hout : forall i, 0 <= i < 5 -> p ∉ qs i).
  { intros i Hi' Hin. destruct (kb_in _ _ Hk i p Hi' Hin) as (c & Hc & _ & Hr).
    apply Hnr. by assert (c = pc) as <- by congruence. }
  assert (Hne : p <> k.(cur_proc)).
  { intros ->. apply Hnr. assert (pcur = pc) as <- by congruence. by right. }
  assert (Hap : forall a c, k.(pcbs) !! a = Some c -> a <> p -> apart p a).
  { intros a c Ha Hd. by apply (kb_apart _ _ Hk p a pc c). }
  destruct (queues_enqueue k qs p pc.(priority) Hi Hel Hpr Hsent Hap Hout) as (m' & Hm & Hq').
  unfold unblock_proc. rewrite (upd_pcb_eq _ _ _ _ Hp). sbind.
  unfold get_pcb. cbn [pcbs with_pcbs]. rewrite lookup_insert_eq. sbind.
  cbn [status set_status priority]. destruct (decide (WAITING_MID = READY)) as [D|_]; [done|].
  set (k1 := with_pcbs k (<[p := set_status pc READY]> k.(pcbs))).
  set (k2 := if pc.(priority) <? max_priority k1 then _ else _).
  assert (Hk2 : links k2 = links k /\ ready_base k2 = ready_base k /\
    pcbs k2 = <[p := set_status pc READY]> k.(pcbs) /\ msgs k2 = msgs k /\
    cur_proc k2 = cur_proc k /\ max_rounds k2 = max_rounds k /\
    max_priority k2 = Z.min (max_priority k) pc.(priority)).
  { unfold k2. destruct (pc.(priority) <? max_priority k1) eqn:E; zbool;
      repeat (split; [done|]); cbn in *; lia. }
  clearbody k2. destruct Hk2 as (E1 & E2 & E3 & E4 & E5 & E6 & E7).
  unfold ready_processes. rewrite E1, E2. unfold ready_processes in Hm. rewrite Hm. sbind.
  eexists. split; [done|]. split; [|cbn; rewrite E3, E4, E5, E6; auto].
  apply (kinv_enqueue k _ qs p (set_status pc READY)); auto; cbn; try congruence.
Qed.

(** ** Starting processes *)

Lemma append_ready_spec k qs p pc' :
  kinv k qs -> k.(pcbs) !! p = None -> elem_addr p -> 0 <= pc'.(priority) < 5 -> pc'.(status) = READY ->
  (forall j, 0 <= j < 5 -> apart p (head (ready_processes k j)) /\ apart p (tail (ready_processes k j))) ->
  (forall a c, k.(pcbs) !! a = Some c -> apart p a) ->
  exists k', append_ready (with_pcbs k (<[p := pc']> k.(pcbs))) p pc'.(priority) = Some k' /\
    kinv k' (upd qs pc'.(priority) (qs pc'.(priority) ++ [p])) /\
    k'.(pcbs) = <[p := pc']> k.(pcbs) /\ k'.(cur_proc) = k.(cur_proc).
Proof.
  intros Hi Hp Hel Hpr Hst Hsent Hap. pose proof Hi as [Hk (pcur & Hpcur & Hrun)].
  assert (Hout : forall i, 0 <= i < 5 -> p ∉ qs i).
  { intros i Hi' Hin. destruct (kb_in _ _ Hk i p Hi' Hin) as (c & Hc & _). congruence. }
  destruct (queues_enqueue k qs p pc'.(priority) Hi Hel Hpr Hsent (fun a c Ha _ => Hap a c Ha) Hout)
    as (m' & Hm & Hq').
  unfold append_ready. change (links (with_pcbs k _)) with (links k).
  change (ready_processes (with_pcbs k _) pc'.(priority)) with (ready_processes k pc'.(priority)).
  rewrite Hm. sbind. eexists. split; [reflexivity|].
  set (k1 := with_links (with_pcbs k (<[p := pc']> k.(pcbs))) m').
  set (k2 := if pc'.(priority) <? max_priority k1 then _ else _).
  assert (Hk2 : links k2 = m' /\ ready_base k2 = ready_base k /\ pcbs k2 = <[p := pc']> k.(pcbs) /\
    cur_proc k2 = cur_proc k /\ max_rounds k2 = max_rounds k /\
    max_priority k2 = Z.min (max_priority k) pc'.(priority)).
  { unfold k2. destruct (pc'.(priority) <? max_priority k1) eqn:E; zbool;
      repeat (split; [done|]); cbn in *; lia. }
  clearbody k2. destruct Hk2 as (E1 & E2 & E3 & E5 & E6 & E7).
  split; [|by rewrite E3, E5].
  apply (kinv_enqueue k k2 qs p pc'); auto.
  - intros ->. congruence.
  - intros a c Ha _. by apply (Hap a c).
  - rewrite E1, E2. done.
Qed.

Section start.
Context (k : kernel) (qs : Z -> list Z) (proc : Z) (raw : pcb) (nm rest : list Z) (pid prio func args : Z).
Context (Hinv : kinv k qs) (Hnew : k.(pcbs) !! proc = None) (Hel : elem_addr proc)
  (Hprio : 0 <= prio < 5) (Hpid : 0 <= pid < 64) (Hz : zlen k.(processes) = 64)
  (Hraw : zlen raw.(name) = 16) (Hnm : CString.is_str nm) (Hlen : zlen nm <= 16)
  (Hsent : forall j, 0 <= j < 5 -> apart proc (head (ready_processes k j)) /\ apart proc (tail (ready_processes k j)))
  (Hap : forall a c, k.(pcbs) !! a = Some c -> apart proc a).

(** The memory of the new PCB holds [raw] before the process is started. *)
Definition before_start : kernel := with_pcbs k (<[proc := raw]> k.(pcbs)).

(** What a started process has in its PCB. *)
Definition started (pc : pcb) : Prop :=
  pc.(Process.pid) = pid /\ pc.(priority) = prio /\ pc.(status) = READY /\ pc.(ticks) = (5 - prio) * 8 /\
  pc.(sendings) = 0 /\ pc.(message) = 0.

Lemma start_process_spec :
  exists k' pc, start_process before_start (CString.cstr nm rest) pid prio func args proc = Some k' /\
    kinv k' (upd qs prio (qs prio ++ [proc])) /\ k'.(pcbs) = <[proc := pc]> k.(pcbs) /\
    started pc /\ k'.(cur_proc) = k.(cur_proc) /\ k'.(processes).[pid] = Some proc.
Proof.
  unfold start_process, append_all_array. destruct (0 <=? pid) eqn:E; zbool; [|lia].
  change (processes before_start) with (processes k). rewrite zset_in by lia. sbind.
  unfold init_process_info, get_pcb. cbn [pcbs with_processes before_start with_pcbs].
  rewrite lookup_insert_eq. sbind.
  destruct (CString.memset_ok raw.(name) 0 0 16) as (n1 & -> & Hz1); [lia|lia|]. sbind.
  destruct (CString.strcpy_ok n1 0 nm rest Hnm) as (n2 & -> & Hz2); [lia|lia|]. sbind.
  unfold create_process, get_pcb. cbn [pcbs with_pcbs]. rewrite lookup_insert_eq. sbind.
  rewrite !insert_insert_eq.
  match goal with |- context [append_ready (with_pcbs _ (<[proc := ?x]> _)) _ _] => set (pc := x) end.
  set (k1 := with_processes k (<[Z.to_nat pid := proc]> k.(processes))).
  assert (Hinv1 : kinv k1 qs) by (destruct Hinv as [[] ?]; split; [by constructor|done]).
  destruct (append_ready_spec k1 qs proc pc Hinv1 Hnew Hel Hprio eq_refl Hsent Hap)
    as (k' & H & Hk' & Hp' & Hc').
  exists k', pc. split; [exact H|]. split; [exact Hk'|]. split; [exact Hp'|].
  split. { unfold started, pc, priority2ticks, PRIORITY_KIND. cbn.
    rewrite (u32_id pid), (u32_id (5 - prio)), (u32_id (_ * 8)) by lia. done. }
  split; [exact Hc'|].
  unfold append_ready in H. bind_Some H. injection H as <-.
  case_match; cbn; rewrite zget_insert, Z.eqb_refl by lia; done.
Qed.
End start.

(** ** Boot *)

Lemma init_queues_spec n m base i :
  0 < base -> base + 96 < 4294967296 -> 0 <= i -> i + Z.of_nat n <= 5 ->
  (forall j, 0 <= j < i -> rep m (base + 16 * j) []) ->
  exists m', init_queues n m base i = Some m' /\
    forall j, 0 <= j < i + Z.of_nat n -> rep m' (base + 16 * j) [].
Proof.
  intros Hb1 Hb2. revert m i. induction n as [|n IH]; intros m i Hi Hn Hm; cbn [init_queues].
  { exists m. split; [done|]. intros j Hj. apply Hm. lia. }
  destruct (initialize_rep m (base + 16 * i)) as (m1 & -> & Hr & Hout);
    [unfold elem_addr, tail; lia..|]. sbind.
  destruct (IH m1 (i + 1)) as (m2 & -> & H2); [lia|lia| |].
  - intros j Hj. destruct (decide (j = i)) as [->|D]; [done|].
    eapply rep_same_outside; [apply Hm; lia|exact Hout|]. cbn [app].
    intros a b Ha Hb. unfold head, tail, apart in *. set_unfold. lia.
  - exists m2. split; [done|]. intros j Hj. apply H2. lia.
Qed.

(** The kernel at the end of [deal_init_process]: one process, [init], running. *)
Lemma boot_spec k0 raw :
  k0.(pcbs) = {[0x80000 := raw]} -> zlen raw.(name) = 16 -> zlen k0.(processes) = 64 ->
  0x10000 <= k0.(ready_base) -> k0.(ready_base) + 96 <= 0x80000 ->
  exists k1 k2, init_pm k0 = Some k1 /\ deal_init_process k1 0 = Some k2 /\
    kinv k2 (upd (fun _ => []) 4 [0x80000]) /\ k2.(cur_proc) = 0x80000 /\
    zlen k2.(processes) = 64 /\ k2.(ready_base) = k0.(ready_base) /\
    forall a c, k2.(pcbs) !! a = Some c -> a = 0x80000.
Proof.
  intros Hp Hraw Hz Hb1 Hb2. unfold init_pm.
  destruct (init_queues_spec 5 k0.(links) k0.(ready_base) 0) as (m1 & -> & Hm1); try lia. sbind.
  set (k1 := with_max_priority _ _).
  cut (exists k2, deal_init_process k1 0 = Some k2 /\
    kinv k2 (upd (fun _ => []) 4 [0x80000]) /\ k2.(cur_proc) = 0x80000 /\
    zlen k2.(processes) = 64 /\ k2.(ready_base) = k0.(ready_base) /\
    forall a c, k2.(pcbs) !! a = Some c -> a = 0x80000).
  { intros (k2 & H2). exists k1, k2. split; [reflexivity|exact H2]. }
  assert (Hq : queues m1 k0.(ready_base) (fun _ => [])).
  { constructor; [intros; apply Hm1; lia|]. intros i j a b Hi Hj Hne Ha Hb.
    unfold nodes, head, tail, apart in *. set_unfold. lia. }
  destruct (queues_append m1 k0.(ready_base) (fun _ => []) 4 0x80000 Hq) as (m2 & Hm2 & Hq2).
  { lia. } { unfold elem_addr; lia. }
  { intros j a Hj Ha. unfold nodes, head, tail, apart in *. set_unfold. lia. }
  unfold deal_init_process, append_all_array. cbn [Z.leb Z.compare].
  change (processes k1) with (processes k0). rewrite zset_in by lia. sbind.
  unfold init_process_info, get_pcb. cbn [pcbs with_processes]. change (pcbs k1) with (pcbs k0).
  rewrite Hp, lookup_singleton_eq. sbind.
  destruct (CString.memset_ok raw.(name) 0 0 16) as (n1 & -> & Hz1); [lia|lia|]. sbind.
  assert (Hstr : CString.is_str [105; 110; 105; 116]) by (repeat constructor; unfold is_u8; lia).
  destruct (CString.strcpy_ok n1 0 [105; 110; 105; 116] [] Hstr) as (n2 & Hs & Hz2); [lia|rewrite Hz1, Hraw; done|].
  change (CString.cstr [105; 110; 105; 116] []) with init_name in Hs. rewrite Hs. sbind.
  unfold upd_pcb, get_pcb. cbn [pcbs with_pcbs with_cur_proc]. rewrite lookup_insert_eq. sbind.
  cbn [processes with_pcbs with_cur_proc with_processes]. rewrite zset_in by (rewrite zlen_insert; lia). sbind.
  unfold append_ready, ready_processes. cbn [links ready_base with_pcbs with_cur_proc with_processes].
  change (links k1) with m1. change (ready_base k1) with (ready_base k0).
  change (16 * PRIORITY_E) with (16 * 4). rewrite Hm2. sbind. eexists. split; [reflexivity|].
  cbn [max_priority with_links with_pcbs with_cur_proc with_processes].
  change (max_priority k1) with 6. cbn [Z.ltb Z.compare Pos.compare Pos.compare_cont].
  set (pc := set_status _ RUNNING).
  assert (Hpcbs : forall x a c, (<[0x80000 := pc]> (<[0x80000 := x]> {[0x80000 := raw]}) : gmap Z pcb)
    !! a = Some c -> a = 0x80000 /\ c = pc).
  { intros x a c. rewrite insert_insert_eq. intros [(<- & <-)|(Hne & Ha)]%lookup_insert_Some; [done|].
    by apply lookup_singleton_Some in Ha as [<- _]. }
  split; [split|].
  - constructor; cbn; auto.
    + intros a c [-> ->]%Hpcbs. split; [unfold elem_addr; lia|]. split; [cbn; unfold PRIORITY_E; lia|].
      intros j Hj. unfold ready_processes, head, tail, apart; cbn. lia.
    + intros a a' c c' [-> ->]%Hpcbs [-> ->]%Hpcbs. done.
    + intros i a Hi. unfold upd. destruct (i =? 4) eqn:E; zbool; [|set_solver].
      intros ->%list_elem_of_singleton. exists pc. rewrite lookup_insert_eq. subst. repeat split. by right.
    + intros a c [-> ->]%Hpcbs _. by left.
    + intros i Hi. rewrite upd_ne by (unfold PRIORITY_E in *; lia). done.
    + unfold PRIORITY_E. lia.
    + by intros a c [-> ->]%Hpcbs.
  - cbn. exists pc. by rewrite lookup_insert_eq.
  - split; [done|]. split; [cbn; by rewrite !zlen_insert|]. split; [done|].
    by intros a c [-> _]%Hpcbs.
Qed.

(** ** Properties *)

(** C2.  Scheduling is total and its choice is the one of the priority rule: from a
    state that satisfies the kernel invariant, [schedule] (called on a timer tick
    or by a process that yields) terminates without an invalid access.  The queue
    it serves is the only one that is not empty and has rounds left while every
    queue of higher priority is empty or, among the first three, has used up its
    rounds.  When the process that was running belongs to that queue, the next one
    in its circle runs and the queue has one round less, otherwise the head of the
    queue runs; the counters found used up are refilled with 10 and the others are
    kept.  Only the status of the two processes changes, and the invariant holds
    again with the same queues. *)
Theorem schedule_serves (fuel : nat) (k : kernel) (qs : Z -> list Z) :
  kinv k qs -> short_queues fuel qs ->
  exists k' n pc p c, schedule fuel k = Some k' /\
    served k qs n /\ (forall n', served k qs n' -> n' = n) /\
    k.(pcbs) !! k.(cur_proc) = Some pc /\
    p = (if pc.(priority) =? n then next_in_turn (qs n) k.(cur_proc) else hd k.(cur_proc) (qs n)) /\
    p ∈ qs n /\ k'.(cur_proc) = p /\
    (forall j, 0 <= j < 5 -> k'.(max_rounds).[j] =
       rounds_after k.(max_rounds) k.(max_priority) n pc.(priority) j) /\
    <[k.(cur_proc) := set_status pc READY]> k.(pcbs) !! p = Some c /\
    k'.(pcbs) = <[p := set_status c RUNNING]> (<[k.(cur_proc) := set_status pc READY]> k.(pcbs)) /\
    kinv k' qs /\ k'.(msgs) = k.(msgs).
Proof.
  intros Hi Hf. destruct (schedule_run fuel k qs Hi Hf)
    as (k' & n & p & pc & c & E & Hs & Hp & Hc & Hk & Hm & (Ht & Hr) & Hpc & _ & Hpc' & Hpcbs).
  exists k', n, pc, p, c. split; [done|]. split; [done|].
  split; [intros n' Hn'; by apply (served_unique k qs)|].
  do 4 (split; [done|]). split; [intros j Hj; apply Hr; lia|done].
Qed.

(** Boot establishes the kernel invariant: after [init_pm] and
    [deal_init_process] the only process is [init], it is running, and it is the
    only element of the ready queues. *)
Theorem boot_establishes_invariant (k0 : kernel) (raw : pcb) :
  k0.(pcbs) = {[0x80000 := raw]} -> zlen raw.(name) = 16 -> zlen k0.(processes) = 64 ->
  0x10000 <= k0.(ready_base) -> k0.(ready_base) + 96 <= 0x80000 ->
  exists k1 k2, init_pm k0 = Some k1 /\ deal_init_process k1 0 = Some k2 /\
    kinv k2 (upd (fun _ => []) 4 [0x80000]) /\ k2.(cur_proc) = 0x80000.
Proof.
  intros Ha Hb Hc Hd He. destruct (boot_spec k0 raw) as (k1 & k2 & H1 & H2 & H3 & H4 & _); auto. exists k1, k2. auto.
Qed.

(** C21. [start_process] adds one ready process: whatever the memory of the new PCB
    holds, afterwards the invariant holds with the process at the end of the
    queue of its priority; its PCB has its pid, its priority, the ticks of that
    priority, no message and no senders, and it is entered in [processes]. *)
Theorem start_process_adds (k : kernel) (qs : Z -> list Z) (proc : Z) (raw : pcb)
    (nm rest : list Z) (pid prio func args : Z) :
  kinv k qs -> k.(pcbs) !! proc = None -> elem_addr proc -> 0 <= prio < 5 -> 0 <= pid < 64 ->
  zlen k.(processes) = 64 -> zlen raw.(name) = 16 -> CString.is_str nm -> zlen nm <= 16 ->
  (forall j, 0 <= j < 5 -> apart proc (head (ready_processes k j)) /\ apart proc (tail (ready_processes k j))) ->
  (forall a c, k.(pcbs) !! a = Some c -> apart proc a) ->
  exists k' pc, start_process (before_start k proc raw) (CString.cstr nm rest) pid prio func args proc = Some k' /\
    kinv k' (upd qs prio (qs prio ++ [proc])) /\ k'.(pcbs) = <[proc := pc]> k.(pcbs) /\
    started pid prio pc /\ k'.(cur_proc) = k.(cur_proc) /\ k'.(processes).[pid] = Some proc.
Proof. apply start_process_spec. Qed.

(** ** Witnesses *)

Definition raw_pcb : pcb := mk_pcb 0 (replicate 16 0) DIED 0 0 0 0 0 0 0 0 0 false 0 0.
Definition boot_kernel : kernel :=
  mk_kernel {[0x80000 := raw_pcb]} ∅ ∅ 0x18000 [] (replicate 64 0) 0 0 0 0 0.

Lemma boot_establishes_invariant_witness :
  exists k1 k2, init_pm boot_kernel = Some k1 /\ deal_init_process k1 0 = Some k2 /\
    kinv k2 (upd (fun _ => []) 4 [0x80000]) /\ k2.(cur_proc) = 0x80000.
Proof.
  apply (boot_establishes_invariant boot_kernel raw_pcb);
    [reflexivity|reflexivity|reflexivity|cbn; lia|cbn; lia].
Defined.

Lemma booted : exists k, kinv k (upd (fun _ => []) 4 [0x80000]) /\ zlen k.(processes) = 64 /\
  k.(ready_base) = 0x18000 /\ forall a c, k.(pcbs) !! a = Some c -> a = 0x80000.
Proof.
  destruct (boot_spec boot_kernel raw_pcb) as (k1 & k2 & H1 & H2 & H3 & H4 & H5 & H6 & H7);
    [reflexivity|reflexivity|reflexivity|cbn; lia|cbn; lia|].
  exists k2. auto.
Qed.

Lemma schedule_serves_witness :
  exists k k' n p, kinv k (upd (fun _ => []) 4 [0x80000]) /\ schedule 1 k = Some k' /\
    served k (upd (fun _ => []) 4 [0x80000]) n /\ k'.(cur_proc) = p.
Proof.
  destruct booted as (k & Hk & _).
  destruct (schedule_serves 1 k (upd (fun _ => []) 4 [0x80000]))
    as (k' & n & pc & p & c & H1 & H2 & _ & _ & _ & _ & H3 & _).
  - exact Hk.
  - intros i _. unfold upd. destruct (i =? 4); simpl; lia.
  - exists k, k', n, p. auto.
Defined.

Lemma start_process_adds_witness :
  exists k k' pc, start_process (before_start k 0x93000 raw_pcb) (CString.cstr [107; 114] []) 7 PRIORITY_C 0 0 0x93000
      = Some k' /\ started 7 PRIORITY_C pc /\ k'.(pcbs) !! 0x93000 = Some pc.
Proof.
  destruct booted as (k & Hk & Hz & Hb & Hp).
  destruct (start_process_adds k (upd (fun _ => []) 4 [0x80000]) 0x93000 raw_pcb [107; 114] [] 7 PRIORITY_C 0 0)
    as (k' & pc & H1 & _ & H2 & H3 & _).
  - exact Hk.
  - destruct (k.(pcbs) !! 0x93000) eqn:E; [|reflexivity]. apply Hp in E. discriminate E.
  - unfold elem_addr. lia.
  - unfold PRIORITY_C. lia.
  - lia.
  - exact Hz.
  - reflexivity.
  - repeat constructor; unfold is_u8; lia.
  - vm_compute. discriminate.
  - intros j Hj. unfold ready_processes, head, tail, apart. rewrite Hb. lia.
  - intros a c ->%Hp. unfold apart. lia.
  - exists k, k', pc. split; [exact H1|]. split; [exact H3|]. rewrite H2. apply lookup_insert_eq.
Defined.
