(* ===== verification/Ipc.v ===== *)
(** * Messages between processes (kernel/ipc.cc, kernel/syscall_init.cc, lib/syscall.cc)

    A message object lives at an address; a process that sends to a process
    which is not waiting for it is linked in front of the receiver's chain
    [sendings] (through [next_ready]) and blocks with its message pointer in its
    PCB.  The file gives [send] and [receive] on the kernel state, and proves
    what they deliver and whom they wake. *)
From S2P Require Import Prelude Mem Process Scheduler.
From S2P Require CycleList.

Definition ANY : Z := 0.
Definition INTERRUPT : Z := 0x98000.
Definition INTERRUPT_NET : Z := 0x98100.
Definition INTERRUPT_PCB : Z := 0x98000.
Definition REPLY : Z := 0xfffffe.
Definition INTR : Z := 0xffffff.

Definition get_msg (k : kernel) (a : Z) : option Message := k.(msgs) !! a.
Definition upd_msg (k : kernel) (a : Z) (f : Message -> Message) : option kernel :=
  m ← get_msg k a; Some (with_msgs k (<[a := f m]> k.(msgs))).

Definition set_type (type_ : Z) (m : Message) : Message := mk_Message m.(source) m.(destination) type_ m.(ctx).
Definition set_context (c : context) (m : Message) : Message := mk_Message m.(source) m.(destination) m.(type) c.
Definition set_dest (dst : Z) (m : Message) : Message := mk_Message m.(source) dst m.(type) m.(ctx).
Definition set_source (src : Z) (m : Message) : Message := mk_Message src m.(destination) m.(type) m.(ctx).

(** Is the process waiting, and if so for whom? *)
Definition waits_for (k : kernel) (d : pcb) : option (option Z) :=
  if decide (WAITING_MSG = d.(status)) then
    dm ← get_msg k d.(message); Some (Some dm.(destination))
  else Some None.

Definition send (fuel : nat) (k : kernel) (this dest_pid : Z) : option kernel :=
  msg ← get_msg k this;
  d ← get_pcb k dest_pid;
  if msg.(source) =? INTERRUPT_NET then
    k ← upd_pcb k dest_pid (fun p => set_intr_cnt p (u8 (p.(intr_cnt) + 1)));
    w ← waits_for k d;
    match w with
    | Some want =>
        if ANY =? want then
          k ← upd_msg k d.(message) (set_type INTR);
          unblock_proc k dest_pid
        else Some k
    | None => Some k
    end
  else
    w ← waits_for k d;
    let accepted := match w with
                    | Some want => (ANY =? want) || (msg.(source) =? want) || (REPLY =? msg.(type))
                    | None => false
                    end in
    if accepted then
      k ← upd_msg k d.(message) (set_type msg.(type));
      k ← upd_msg k d.(message) (set_context msg.(ctx));
      k ← upd_msg k d.(message) (set_dest msg.(source));
      unblock_proc k dest_pid
    else if INTERRUPT =? msg.(source) then
      k ← upd_pcb k INTERRUPT_PCB (fun p => set_next_ready p d.(sendings));
      upd_pcb k dest_pid (fun p => set_sendings p INTERRUPT_PCB)
    else
      k ← upd_pcb k msg.(source) (fun p => set_message p this);
      d ← get_pcb k dest_pid;
      k ← upd_pcb k k.(cur_proc) (fun p => set_next_ready p d.(sendings));
      k ← upd_pcb k dest_pid (fun p => set_sendings p k.(cur_proc));
      self_block fuel k SENDING_MSG.

(** [if (SENDING_MSG == proc->status) unblock_proc(proc)] *)
Definition wake_sender (k : kernel) (proc : Z) : option kernel :=
  p ← get_pcb k proc;
  if decide (SENDING_MSG = p.(status)) then unblock_proc k proc else Some k.

(** The traversal of the chain: [prev_sender] is never null; [n] bounds the
    number of links followed (the chain can be cyclic).  [None] inside: the wanted
    sender is not in the chain. *)
Fixpoint find_sender (n : nat) (k : kernel) (this want_whose prev_sender : Z)
  : option (option kernel) :=
  match n with
  | O => None
  | S n' =>
      prev ← get_pcb k prev_sender;
      let sender := prev.(next_ready) in
      if want_whose =? sender then
        w ← get_pcb k want_whose;
        wm ← get_msg k w.(message);
        k ← upd_msg k this (set_type wm.(type));
        k ← upd_msg k this (set_context wm.(ctx));
        k ← upd_pcb k prev_sender (fun p => set_next_ready p w.(next_ready));
        k ← upd_msg k this (set_dest prev_sender);
        k ← wake_sender k prev_sender;
        Some (Some k)
      else if prev.(next_ready) =? NULL then Some None
      else find_sender n' k this want_whose prev.(next_ready)
  end.

Definition receive (fuel : nat) (k : kernel) (this want_whose_msg : Z) : option kernel :=
  msg ← get_msg k this;
  let src := msg.(source) in
  s ← get_pcb k src;
  let prev_sender := s.(sendings) in
  if negb (0 =? s.(intr_cnt)) && (ANY =? want_whose_msg) then
    k ← upd_msg k this (set_type INTR);
    upd_pcb k src (fun p => set_intr_cnt p (u8 (p.(intr_cnt) - 1)))
  else
    found ←
      (if negb (prev_sender =? NULL) then
         if (want_whose_msg =? prev_sender) || (0 =? want_whose_msg) then
           ps ← get_pcb k prev_sender;
           pm ← get_msg k ps.(message);
           k ← upd_msg k this (set_type pm.(type));
           k ← upd_msg k this (set_context pm.(ctx));
           k ← upd_pcb k src (fun p =>
                 set_sendings p (if ps.(next_ready) =? prev_sender then NULL else ps.(next_ready)));
           k ← upd_msg k this (set_dest prev_sender);
           k ← wake_sender k prev_sender;
           Some (Some k)
         else find_sender fuel k this want_whose_msg prev_sender
       else Some None);
    match found with
    | Some k => Some k
    | None =>
        k ← upd_msg k this (set_dest want_whose_msg);
        k ← upd_pcb k src (fun p => set_message p this);
        self_block fuel k WAITING_MSG
    end.

Definition reset_message (k : kernel) (this type_ : Z) (c : context) : option kernel :=
  k ← upd_msg k this (set_type type_); upd_msg k this (set_context c).

(** The kernel's own [Message::reply]. *)
Definition reply (fuel : nat) (k : kernel) (this : Z) : option kernel :=
  msg ← get_msg k this; send fuel k this msg.(destination).

(** [Message::reply] of the user library (lib/syscall.cc). *)
Definition user_reply (fuel : nat) (k : kernel) (this : Z) : option kernel :=
  k ← upd_msg k this (set_type REPLY);
  msg ← get_msg k this;
  send fuel k this msg.(destination).

Definition SEND : Z := 1.
Definition RECV : Z := 2.

(** [syscall_handler].  When the send blocks the caller, its receive happens after
    it has been woken up: the second component is that receive, still to be
    done by the caller ([syscall_resume]). *)
Definition syscall_handler (fuel : nat) (k : kernel) (type_ msg target : Z)
  : option (kernel * option (Z * Z)) :=
  m ← get_msg k msg;
  k ← (if 0 =? m.(source) then upd_msg k msg (set_source (get_current_proc k)) else Some k);
  let caller := k.(cur_proc) in
  k ← (if truth (Z.land type_ SEND) then send fuel k msg target else Some k);
  if truth (Z.land type_ RECV) then
    if k.(cur_proc) =? caller then k ← receive fuel k msg target; Some (k, None)
    else Some (k, Some (msg, target))
  else Some (k, None).

Definition syscall_resume (fuel : nat) (k : kernel) (pending : Z * Z) : option kernel :=
  receive fuel k pending.1 pending.2.

(** ** What the invariant does not depend on *)

Lemma kinv_with_msgs k qs x : kinv k qs -> kinv (with_msgs k x) qs.
Proof. intros [[] ?]. split; [by constructor|done]. Qed.

(** Updates of a PCB that keep its status and priority. *)
Lemma kinv_upd k qs p pc pc' :
  kinv k qs -> k.(pcbs) !! p = Some pc -> pc'.(status) = pc.(status) -> pc'.(priority) = pc.(priority) ->
  kinv (with_pcbs k (<[p := pc']> k.(pcbs))) qs.
Proof.
  intros [Hk (pcur & Hpcur & Hrun)] Hp Hs Hpr. split.
  - constructor; cbn; try apply Hk.
    + intros a c [(<- & <-)|(_ & Ha)]%lookup_insert_Some; [rewrite Hpr|]; by eapply (kb_pcb _ _ Hk).
    + apply (pcbs_apart k qs); [done|]. intros a c. rewrite lookup_insert_Some. intros [(<- & _)|(_ & Ha)]; eauto.
    + intros i a Hi Ha. destruct (kb_in _ _ Hk i a Hi Ha) as (c & Hc & Hpi & Hr).
      destruct (decide (a = p)) as [->|D]; [|exists c; by rewrite lookup_insert_ne].
      assert (c = pc) as -> by congruence. exists pc'. rewrite lookup_insert_eq.
      unfold runnable in *. rewrite Hs, Hpr. auto.
    + intros a c [(<- & <-)|(_ & Ha)]%lookup_insert_Some Hr; [|by apply (kb_out _ _ Hk a c)].
      rewrite Hpr. apply (kb_out _ _ Hk p pc Hp). unfold runnable in *. by rewrite <- Hs.
    + intros a c [(<- & <-)|(_ & Ha)]%lookup_insert_Some Hr; [|by apply (kb_run _ _ Hk a c)].
      apply (kb_run _ _ Hk p pc Hp). by rewrite <- Hs.
  - cbn. destruct (decide (p = k.(cur_proc))) as [->|D].
    + exists pc'. rewrite lookup_insert_eq, Hs. split; [done|]. by assert (pc = pcur) as -> by congruence.
    + exists pcur. by rewrite lookup_insert_ne.
Qed.

Lemma upd_msg_eq k a m f : k.(msgs) !! a = Some m ->
  upd_msg k a f = Some (with_msgs k (<[a := f m]> k.(msgs))).
Proof. intros H. unfold upd_msg, get_msg. by rewrite H. Qed.

(** ** Sending *)

Section sending.
Context (fuel : nat) (k : kernel) (qs : Z -> list Z) (this dest : Z) (m : Message) (d : pcb).
Context (Hinv : kinv k qs) (Hm : k.(msgs) !! this = Some m) (Hd : k.(pcbs) !! dest = Some d).

(** The receiver waits, and accepts a message from this sender. *)
Definition accepts (dm : Message) : Prop :=
  dm.(destination) = ANY \/ dm.(destination) = m.(source) \/ m.(type) = REPLY.

Lemma accepted_true dm : accepts dm ->
  (ANY =? dm.(destination)) || (m.(source) =? dm.(destination)) || (REPLY =? m.(type)) = true.
Proof.
  intros [->|[->| ->]]; rewrite ?Z.eqb_refl; [done|by rewrite orb_true_r|apply orb_true_r].
Qed.

Lemma accepted_false dm : ~ accepts dm ->
  (ANY =? dm.(destination)) || (m.(source) =? dm.(destination)) || (REPLY =? m.(type)) = false.
Proof.
  intros Hn. rewrite !orb_false_iff, !Z.eqb_neq. unfold accepts in Hn. intuition.
Qed.

Lemma send_delivers_spec dm :
  m.(source) <> INTERRUPT_NET -> d.(status) = WAITING_MSG -> k.(msgs) !! d.(message) = Some dm ->
  accepts dm ->
  exists k', send fuel k this dest = Some k' /\
    kinv k' (upd qs d.(priority) (qs d.(priority) ++ [dest])) /\
    k'.(msgs) = <[d.(message) := mk_Message dm.(source) m.(source) m.(type) m.(ctx)]> k.(msgs) /\
    k'.(pcbs) = <[dest := set_status d READY]> k.(pcbs) /\ k'.(cur_proc) = k.(cur_proc).
Proof.
  intros Hs Hw Hdm Hacc. unfold send, get_msg, get_pcb. rewrite Hm. sbind. rewrite Hd. sbind.
  destruct (m.(source) =? INTERRUPT_NET) eqn:E; zbool; [done|].
  unfold waits_for, get_msg. rewrite Hw. destruct (decide (WAITING_MSG = WAITING_MSG)); [|done].
  rewrite Hdm. sbind. rewrite (accepted_true _ Hacc).
  rewrite (upd_msg_eq _ _ _ _ Hdm). sbind.
  rewrite (upd_msg_eq _ _ (set_type m.(type) dm)) by (cbn; by rewrite lookup_insert_eq). sbind.
  rewrite (upd_msg_eq _ _ (set_context m.(ctx) (set_type m.(type) dm)))
    by (cbn; by rewrite lookup_insert_eq). sbind.
  set (k1 := with_msgs _ _).
  destruct (unblock_proc_spec k1 qs dest d) as (k' & -> & Hk' & Hp' & Hm' & Hc' & _).
  - unfold k1. repeat apply kinv_with_msgs. done.
  - done.
  - intros [Hr|Hr]; congruence.
  - exists k'. split; [done|]. split; [done|]. split; [|done].
    rewrite Hm'. unfold k1. cbn. rewrite !insert_insert_eq. done.
Qed.

(** The receiver is not waiting for this sender: the sender blocks. *)
Lemma send_blocks_spec c l1 l2 :
  m.(source) = k.(cur_proc) -> m.(source) <> INTERRUPT_NET -> m.(source) <> INTERRUPT ->
  k.(pcbs) !! k.(cur_proc) = Some c -> dest <> k.(cur_proc) ->
  (d.(status) = WAITING_MSG -> exists dm, k.(msgs) !! d.(message) = Some dm /\ ~ accepts dm) ->
  short_queues fuel qs ->
  qs c.(priority) = l1 ++ k.(cur_proc) :: l2 ->
  let qs' := upd qs c.(priority) (l1 ++ l2) in
  qs' 4 <> [] ->
  exists k' p c', send fuel k this dest = Some k' /\ kinv k' qs' /\ k'.(cur_proc) = p /\
    p <> k.(cur_proc) /\ k'.(msgs) = k.(msgs) /\
    k'.(pcbs) !! k.(cur_proc) =
      Some (set_status (set_next_ready (set_message c this) d.(sendings)) SENDING_MSG) /\
    k'.(pcbs) !! dest = Some c' /\ c'.(sendings) = k.(cur_proc) /\ c'.(message) = d.(message).
Proof.
  intros Hsrc Hs1 Hs2 Hc Hne Hw Hf Hq qs' H4.
  unfold send, get_msg, get_pcb. rewrite Hm. sbind. rewrite Hd. sbind.
  destruct (m.(source) =? INTERRUPT_NET) eqn:E; zbool; [done|].
  assert (Hacc : exists w, waits_for k d = Some w /\
    match w with Some want => (ANY =? want) || (m.(source) =? want) || (REPLY =? m.(type))
               | None => false end = false).
  { unfold waits_for, get_msg. destruct (decide (WAITING_MSG = d.(status))) as [D|D].
    - destruct Hw as (dm & Hdm & Hna); [done|]. rewrite Hdm. sbind. eexists. split; [done|].
      by apply accepted_false.
    - by exists None. }
  destruct Hacc as (w & -> & Hacc). sbind. rewrite Hacc.
  destruct (INTERRUPT =? m.(source)) eqn:E2; zbool; [congruence|]. rewrite Hsrc.
  rewrite (upd_pcb_eq _ _ _ _ Hc). sbind. cbn [pcbs with_pcbs].
  rewrite lookup_insert_ne, Hd by done. sbind. cbn [cur_proc with_pcbs].
  rewrite (upd_pcb_eq _ _ (set_message c this)) by (cbn; by rewrite lookup_insert_eq). sbind.
  rewrite (upd_pcb_eq _ _ d) by (cbn; by rewrite !lookup_insert_ne). sbind.
  set (c2 := set_next_ready (set_message c this) d.(sendings)).
  set (k1 := with_pcbs _ _).
  assert (Hk1 : pcbs k1 = <[dest := set_sendings d k.(cur_proc)]> (<[k.(cur_proc) := c2]> k.(pcbs))).
  { unfold k1. cbn. by rewrite insert_insert_eq. }
  assert (Hinv1 : kinv k1 qs).
  { pose proof (kinv_upd k qs _ c (set_message c this) Hinv Hc eq_refl eq_refl) as HA.
    pose proof (kinv_upd _ qs k.(cur_proc) (set_message c this) c2 HA
                  (lookup_insert_eq _ _ _) eq_refl eq_refl) as HB.
    refine (kinv_upd _ qs dest d (set_sendings d k.(cur_proc)) HB _ eq_refl eq_refl).
    cbn. by rewrite !lookup_insert_ne. }
  assert (Hc1 : pcbs k1 !! cur_proc k1 = Some c2).
  { rewrite Hk1. change (cur_proc k1) with k.(cur_proc). rewrite lookup_insert_ne by done. by rewrite lookup_insert_eq. }
  destruct (self_block_spec fuel k1 qs c2 SENDING_MSG l1 l2 Hinv1 Hf Hc1) as
    (k' & n & p & cp & -> & _ & Hp & Hcur & Hpne & Hcp & Hpcbs & Hmsgs & Hk'); auto.
  { repeat split; discriminate. }
  change (cur_proc k1) with k.(cur_proc) in *. rewrite Hk1 in Hcp, Hpcbs.
  exists k', p. rewrite Hpcbs.
  rewrite (lookup_insert_ne _ p k.(cur_proc)) by done. rewrite lookup_insert_eq.
  destruct (decide (p = dest)) as [->|D].
  - rewrite lookup_insert_eq in *. injection Hcp as <-. eexists. repeat (split; [done|]). done.
  - rewrite (lookup_insert_ne _ p dest), lookup_insert_ne, lookup_insert_eq by done.
    eexists. repeat (split; [done|]). done.
Qed.
End sending.

(** ** Receiving *)

Section receiving.
Context (fuel : nat) (k : kernel) (qs : Z -> list Z) (this want : Z) (m : Message) (s : pcb).
Context (Hinv : kinv k qs) (Hm : k.(msgs) !! this = Some m) (Hs : k.(pcbs) !! m.(source) = Some s).

(** No pending network interrupt for a receiver that accepts any message. *)
Definition no_intr : Prop := s.(intr_cnt) = 0 \/ want <> ANY.

Lemma no_intr_false : no_intr -> negb (0 =? s.(intr_cnt)) && (ANY =? want) = false.
Proof.
  unfold ANY. intros [->|Hw]; [done|]. apply andb_false_iff. right. apply Z.eqb_neq. unfold ANY in Hw. congruence.
Qed.

(** The sender at the front of the chain is the one wanted. *)
Lemma receive_front_spec h hp hm :
  no_intr -> s.(sendings) = h -> h <> NULL -> want = h \/ want = ANY ->
  k.(pcbs) !! h = Some hp -> hp.(status) = SENDING_MSG -> h <> m.(source) ->
  k.(msgs) !! hp.(message) = Some hm ->
  exists k', receive fuel k this want = Some k' /\
    kinv k' (upd qs hp.(priority) (qs hp.(priority) ++ [h])) /\
    k'.(msgs) = <[this := mk_Message m.(source) h hm.(type) hm.(ctx)]> k.(msgs) /\
    k'.(pcbs) = <[h := set_status hp READY]>
      (<[m.(source) := set_sendings s (if hp.(next_ready) =? h then NULL else hp.(next_ready))]> k.(pcbs)) /\
    k'.(cur_proc) = k.(cur_proc).
Proof.
  intros Hni Hh Hh0 Hw Hhp Hst Hne Hhm. unfold receive, get_msg, get_pcb. rewrite Hm. sbind.
  rewrite Hs. sbind. rewrite (no_intr_false Hni), Hh.
  destruct (h =? NULL) eqn:E; zbool; [done|]. cbn [negb].
  assert (Hw' : (want =? h) || (0 =? want) = true).
  { apply orb_true_iff. rewrite !Z.eqb_eq. unfold ANY in Hw. destruct Hw; [by left|right; congruence]. }
  rewrite Hw', Hhp. sbind. rewrite Hhm. sbind.
  rewrite (upd_msg_eq k this m (set_type hm.(type)) Hm). sbind.
  rewrite (upd_msg_eq (with_msgs k _) _ (set_type hm.(type) m)) by (cbn; by rewrite lookup_insert_eq). sbind.
  rewrite (upd_pcb_eq (with_msgs _ _) _ s) by done. sbind.
  rewrite (upd_msg_eq (with_pcbs _ _) _ (set_context hm.(ctx) (set_type hm.(type) m)))
    by (cbn; by rewrite lookup_insert_eq). sbind.
  set (s' := set_sendings s _). set (k1 := with_msgs _ _).
  assert (Hk1 : pcbs k1 = <[m.(source) := s']> k.(pcbs)) by done.
  assert (Hinv1 : kinv k1 qs).
  { unfold k1. apply kinv_with_msgs.
    refine (kinv_upd _ qs m.(source) s s' _ _ eq_refl eq_refl); [|done]. by do 2 apply kinv_with_msgs. }
  unfold wake_sender, get_pcb. rewrite Hk1, lookup_insert_ne, Hhp by done. sbind. rewrite Hst.
  destruct (decide (SENDING_MSG = SENDING_MSG)); [|done].
  destruct (unblock_proc_spec k1 qs h hp Hinv1) as (k' & -> & Hk' & Hp' & Hm' & Hc' & _).
  { by rewrite Hk1, lookup_insert_ne. }
  { intros [?|?]; congruence. }
  sbind. exists k'. split; [done|]. split; [done|]. split.
  { rewrite Hm'. unfold k1. cbn. rewrite !insert_insert_eq. done. }
  by rewrite Hp', Hk1.
Qed.

(** Nobody is sending: the receiver blocks, with the sender it wants in its
    message. *)
Lemma receive_blocks_spec c l1 l2 :
  no_intr -> m.(source) = k.(cur_proc) -> s.(sendings) = NULL ->
  k.(pcbs) !! k.(cur_proc) = Some c -> short_queues fuel qs ->
  qs c.(priority) = l1 ++ k.(cur_proc) :: l2 ->
  let qs' := upd qs c.(priority) (l1 ++ l2) in
  qs' 4 <> [] ->
  exists k' p, receive fuel k this want = Some k' /\ kinv k' qs' /\ k'.(cur_proc) = p /\
    p <> k.(cur_proc) /\ k'.(msgs) = <[this := set_dest want m]> k.(msgs) /\
    k'.(pcbs) !! k.(cur_proc) = Some (set_status (set_message c this) WAITING_MSG).
Proof.
  intros Hni Hsrc Hh Hc Hf Hq qs' H4. unfold receive, get_msg, get_pcb. rewrite Hm. sbind.
  rewrite Hs. sbind. rewrite (no_intr_false Hni), Hh. cbn [negb Z.eqb NULL]. sbind.
  rewrite (upd_msg_eq _ _ _ _ Hm). sbind. rewrite Hsrc in *.
  assert (s = c) as -> by congruence.
  rewrite (upd_pcb_eq _ _ c) by done. sbind. set (k1 := with_pcbs _ _).
  assert (Hinv1 : kinv k1 qs).
  { unfold k1. apply (kinv_upd _ qs k.(cur_proc) c (set_message c this)); [|exact Hs|done|done].
    by apply kinv_with_msgs. }
  destruct (self_block_spec fuel k1 qs (set_message c this) WAITING_MSG l1 l2 Hinv1 Hf) as
    (k' & n & p & cp & -> & _ & Hp & Hcur & Hpne & Hcp & Hpcbs & Hmsgs & Hk'); auto.
  { cbn. by rewrite lookup_insert_eq. }
  { repeat split; discriminate. }
  exists k', p. split; [done|]. split; [done|]. split; [done|]. split; [done|]. split; [done|].
  rewrite Hpcbs. change (cur_proc k1) with k.(cur_proc) in *. rewrite lookup_insert_ne by done.
  by rewrite lookup_insert_eq.
Qed.
End receiving.

(** ** Properties *)

(** C1.  A message for a process that waits for it is delivered at once: type,
    context and sender are written to the receiver's message object, the receiver
    becomes ready, at the end of the queue of its priority, and the sender keeps
    the processor.  A receiver accepts messages from anyone, from the process it
    named, and replies from any process. *)
Theorem send_delivers (fuel : nat) (k : kernel) (qs : Z -> list Z) (this dest : Z) (m dm : Message) (d : pcb) :
  kinv k qs -> k.(msgs) !! this = Some m -> k.(pcbs) !! dest = Some d ->
  m.(source) <> INTERRUPT_NET -> d.(status) = WAITING_MSG -> k.(msgs) !! d.(message) = Some dm ->
  accepts m dm ->
  exists k', send fuel k this dest = Some k' /\
    kinv k' (upd qs d.(priority) (qs d.(priority) ++ [dest])) /\
    k'.(msgs) = <[d.(message) := mk_Message dm.(source) m.(source) m.(type) m.(ctx)]> k.(msgs) /\
    k'.(pcbs) = <[dest := set_status d READY]> k.(pcbs) /\ k'.(cur_proc) = k.(cur_proc).
Proof. intros. by eapply send_delivers_spec. Qed.

(** C14.  A message for a process that is not waiting for it blocks its sender:
    the sender leaves its ready queue with status [SENDING_MSG], keeps the
    pointer to its message and becomes the head of the receiver's chain of
    senders, linked to the previous head; another process runs.  No message
    object changes. *)
Theorem send_blocks (fuel : nat) (k : kernel) (qs : Z -> list Z) (this dest : Z) (m : Message) (d c : pcb)
    (l1 l2 : list Z) :
  kinv k qs -> k.(msgs) !! this = Some m -> k.(pcbs) !! dest = Some d ->
  m.(source) = k.(cur_proc) -> m.(source) <> INTERRUPT_NET -> m.(source) <> INTERRUPT ->
  k.(pcbs) !! k.(cur_proc) = Some c -> dest <> k.(cur_proc) ->
  (d.(status) = WAITING_MSG -> exists dm, k.(msgs) !! d.(message) = Some dm /\ ~ accepts m dm) ->
  short_queues fuel qs ->
  qs c.(priority) = l1 ++ k.(cur_proc) :: l2 ->
  upd qs c.(priority) (l1 ++ l2) 4 <> [] ->
  exists k' p c', send fuel k this dest = Some k' /\
    kinv k' (upd qs c.(priority) (l1 ++ l2)) /\ k'.(cur_proc) = p /\
    p <> k.(cur_proc) /\ k'.(msgs) = k.(msgs) /\
    k'.(pcbs) !! k.(cur_proc) =
      Some (set_status (set_next_ready (set_message c this) d.(sendings)) SENDING_MSG) /\
    k'.(pcbs) !! dest = Some c' /\ c'.(sendings) = k.(cur_proc) /\ c'.(message) = d.(message).
Proof. intros. by eapply send_blocks_spec. Qed.

(** C23.  [receive] takes the message of the process at the head of the chain of
    senders, when the receiver wants that process or any process: type, context
    and sender are copied from the sender's own message object, the chain
    continues with the next sender, the sender is ready again, and the receiver
    keeps the processor. *)
Theorem receive_takes_front (fuel : nat) (k : kernel) (qs : Z -> list Z) (this want h : Z) (m hm : Message)
    (s hp : pcb) :
  kinv k qs -> k.(msgs) !! this = Some m -> k.(pcbs) !! m.(source) = Some s ->
  no_intr want s -> s.(sendings) = h -> h <> NULL -> want = h \/ want = ANY ->
  k.(pcbs) !! h = Some hp -> hp.(status) = SENDING_MSG -> h <> m.(source) ->
  k.(msgs) !! hp.(message) = Some hm ->
  exists k', receive fuel k this want = Some k' /\
    kinv k' (upd qs hp.(priority) (qs hp.(priority) ++ [h])) /\
    k'.(msgs) = <[this := mk_Message m.(source) h hm.(type) hm.(ctx)]> k.(msgs) /\
    k'.(pcbs) = <[h := set_status hp READY]>
      (<[m.(source) := set_sendings s (if hp.(next_ready) =? h then NULL else hp.(next_ready))]> k.(pcbs)) /\
    k'.(cur_proc) = k.(cur_proc).
Proof. intros. by eapply receive_front_spec. Qed.

(** C15.  A receiver for which nobody is sending blocks: it leaves its ready queue
    with status [WAITING_MSG], its message object names the sender it wants, and
    its PCB points to that object, where [send] will deliver. *)
Theorem receive_blocks (fuel : nat) (k : kernel) (qs : Z -> list Z) (this want : Z) (m : Message) (s c : pcb)
    (l1 l2 : list Z) :
  kinv k qs -> k.(msgs) !! this = Some m -> k.(pcbs) !! m.(source) = Some s ->
  no_intr want s -> m.(source) = k.(cur_proc) -> s.(sendings) = NULL ->
  k.(pcbs) !! k.(cur_proc) = Some c -> short_queues fuel qs ->
  qs c.(priority) = l1 ++ k.(cur_proc) :: l2 ->
  upd qs c.(priority) (l1 ++ l2) 4 <> [] ->
  exists k' p, receive fuel k this want = Some k' /\
    kinv k' (upd qs c.(priority) (l1 ++ l2)) /\ k'.(cur_proc) = p /\
    p <> k.(cur_proc) /\ k'.(msgs) = <[this := set_dest want m]> k.(msgs) /\
    k'.(pcbs) !! k.(cur_proc) = Some (set_status (set_message c this) WAITING_MSG).
Proof. intros. by eapply receive_blocks_spec. Qed.

(** A receiver that wants the second process of its chain gets that
    process's message, but [receive] names the first process as the sender and
    wakes that one up: the wanted process is taken out of the chain and stays
    blocked in [SENDING_MSG], and a reply goes to the wrong process. *)
Theorem receive_wakes_wrong_process (fuel : nat) (k : kernel) (qs : Z -> list Z) (this want h : Z)
    (m wm : Message) (s hp wp : pcb) :
  kinv k qs -> k.(msgs) !! this = Some m -> k.(pcbs) !! m.(source) = Some s ->
  s.(sendings) = h -> h <> NULL -> want <> h -> want <> ANY -> want <> m.(source) ->
  k.(pcbs) !! h = Some hp -> hp.(next_ready) = want -> hp.(status) = SENDING_MSG ->
  k.(pcbs) !! want = Some wp -> wp.(status) = SENDING_MSG -> k.(msgs) !! wp.(message) = Some wm ->
  exists k', receive (S fuel) k this want = Some k' /\
    k'.(msgs) !! this = Some (mk_Message m.(source) h wm.(type) wm.(ctx)) /\
    k'.(pcbs) !! h = Some (set_status (set_next_ready hp wp.(next_ready)) READY) /\
    k'.(pcbs) !! want = Some wp /\
    kinv k' (upd qs hp.(priority) (qs hp.(priority) ++ [h])).
Proof.
  intros Hinv Hm Hs Hh Hh0 Hwh Hw0 Hws Hhp Hnext Hst Hwp Hwst Hwm.
  unfold receive, get_msg, get_pcb. rewrite Hm. sbind. rewrite Hs. sbind.
  rewrite no_intr_false by (by right). rewrite Hh.
  destruct (h =? NULL) eqn:E; zbool; [done|]. cbn [negb].
  assert (Hw' : (want =? h) || (0 =? want) = false).
  { apply orb_false_iff. rewrite !Z.eqb_neq. unfold ANY in Hw0. auto. }
  rewrite Hw'. cbn [find_sender]. unfold get_pcb, get_msg. rewrite Hhp. sbind.
  rewrite Hnext, Z.eqb_refl, Hwp. sbind. rewrite Hwm. sbind.
  rewrite (upd_msg_eq k this m (set_type wm.(type)) Hm). sbind.
  rewrite (upd_msg_eq (with_msgs k _) _ (set_type wm.(type) m)) by (cbn; by rewrite lookup_insert_eq). sbind.
  rewrite (upd_pcb_eq (with_msgs _ _) _ hp) by done. sbind.
  rewrite (upd_msg_eq (with_pcbs _ _) _ (set_context wm.(ctx) (set_type wm.(type) m)))
    by (cbn; by rewrite lookup_insert_eq). sbind.
  set (hp' := set_next_ready hp wp.(next_ready)). set (k1 := with_msgs _ _).
  assert (Hk1 : pcbs k1 = <[h := hp']> k.(pcbs)) by done.
  assert (Hinv1 : kinv k1 qs).
  { unfold k1. apply kinv_with_msgs.
    apply (kinv_upd _ qs h hp hp'); [|exact Hhp|done|done]. by do 2 apply kinv_with_msgs. }
  unfold wake_sender, get_pcb. rewrite Hk1, lookup_insert_eq. sbind.
  change (status hp') with (status hp). rewrite Hst.
  destruct (decide (SENDING_MSG = SENDING_MSG)); [|done].
  destruct (unblock_proc_spec k1 qs h hp' Hinv1) as (k' & -> & Hk' & Hp' & Hm' & Hc' & _).
  { by rewrite Hk1, lookup_insert_eq. }
  { intros [Hr|Hr]; change (status hp') with (status hp) in Hr; congruence. }
  sbind. exists k'. split; [done|]. rewrite Hm', Hp', Hk1.
  split. { unfold k1. cbn. by rewrite lookup_insert_eq. }
  split; [by rewrite lookup_insert_eq|].
  split; [by rewrite !lookup_insert_ne|]. exact Hk'.
Qed.

(** One network interrupt is seen twice by a process that was waiting for
    any message: [send] both delivers the interrupt message and leaves the
    interrupt counter at 1, so the next [receive] of the process reports an
    interrupt again. *)
Theorem net_interrupt_delivered_twice (fuel : nat) (k : kernel) (qs : Z -> list Z) (this dest : Z)
    (m dm : Message) (d : pcb) :
  kinv k qs -> k.(msgs) !! this = Some m -> m.(source) = INTERRUPT_NET ->
  k.(pcbs) !! dest = Some d -> d.(status) = WAITING_MSG -> d.(intr_cnt) = 0 ->
  k.(msgs) !! d.(message) = Some dm -> dm.(destination) = ANY -> dm.(source) = dest ->
  exists k' k'', send fuel k this dest = Some k' /\
    k'.(pcbs) !! dest = Some (set_status (set_intr_cnt d 1) READY) /\
    k'.(msgs) !! d.(message) = Some (set_type INTR dm) /\
    receive fuel k' d.(message) ANY = Some k'' /\
    k''.(msgs) !! d.(message) = Some (set_type INTR dm) /\
    k''.(pcbs) !! dest = Some (set_status (set_intr_cnt d 0) READY).
Proof.
  intros Hinv Hm Hsrc Hd Hst H0 Hdm Hany Hds. unfold send, get_msg, get_pcb. rewrite Hm. sbind. rewrite Hd. sbind.
  rewrite Hsrc, Z.eqb_refl, (upd_pcb_eq _ _ _ _ Hd). sbind. rewrite H0. change (u8 (0 + 1)) with 1.
  set (k1 := with_pcbs k _). unfold waits_for, get_msg. rewrite Hst.
  destruct (decide (WAITING_MSG = WAITING_MSG)); [|done].
  change (msgs k1) with (msgs k). rewrite Hdm. sbind. rewrite Hany, Z.eqb_refl.
  rewrite (upd_msg_eq k1 _ dm) by done. sbind. set (k2 := with_msgs k1 _).
  assert (Hinv2 : kinv k2 qs).
  { apply kinv_with_msgs. by apply (kinv_upd k qs dest d (set_intr_cnt d 1)). }
  destruct (unblock_proc_spec k2 qs dest (set_intr_cnt d 1) Hinv2) as (k' & -> & _ & Hp' & Hm' & _ & _).
  { unfold k2, k1. cbn. by rewrite lookup_insert_eq. }
  { intros [Hr|Hr]; cbn in Hr; congruence. }
  assert (Hp2 : k'.(pcbs) !! dest = Some (set_status (set_intr_cnt d 1) READY)).
  { by rewrite Hp', lookup_insert_eq. }
  assert (Hm2 : k'.(msgs) !! d.(message) = Some (set_type INTR dm)).
  { rewrite Hm'. unfold k2. cbn. by rewrite lookup_insert_eq. }
  exists k'. unfold receive, get_msg, get_pcb. rewrite Hm2. sbind.
  change (source (set_type INTR dm)) with (source dm). rewrite Hds, Hp2. sbind.
  cbn [intr_cnt set_status set_intr_cnt negb Z.eqb andb ANY].
  rewrite (upd_msg_eq _ _ _ _ Hm2). sbind.
  rewrite (upd_pcb_eq (with_msgs _ _) dest (set_status (set_intr_cnt d 1) READY)) by done. sbind.
  eexists. split; [reflexivity|]. split; [done|]. split; [done|]. split; [reflexivity|].
  cbn. by rewrite !lookup_insert_eq.
Qed.

(** One turn of the search for the sender [want]: it stands at a PCB, whose link is
    neither the one wanted nor null, and goes on there. *)
Definition seeks (k : kernel) (want prev next : Z) : Prop :=
  (exists pc, k.(pcbs) !! prev = Some pc /\ pc.(next_ready) = next) /\ want <> next /\ next <> NULL.

Lemma find_sender_seeks n k this want prev next :
  seeks k want prev next -> find_sender (S n) k this want prev = find_sender n k this want next.
Proof.
  intros ((pc & Hpc & Hnext) & Hw & H0). cbn [find_sender]. unfold get_pcb. rewrite Hpc. sbind. rewrite Hnext.
  rewrite (proj2 (Z.eqb_neq want next)), (proj2 (Z.eqb_neq next NULL)) by done. done.
Qed.

(** [n] turns of the search. *)
Inductive walks (k : kernel) (want : Z) : nat -> Z -> Z -> Prop :=
| walks_none p : walks k want 0 p p
| walks_turn n p q r : seeks k want p q -> walks k want n q r -> walks k want (S n) p r.

Lemma find_sender_walks n k this want p q : walks k want n p q -> find_sender n k this want p = None.
Proof. induction 1 as [|n p q r Hs _ IH]; [done|]. by rewrite (find_sender_seeks _ _ _ _ _ _ Hs). Qed.

(** Two PCBs that lead to each other. *)
Lemma walks_cycle k want p q n : seeks k want p q -> seeks k want q p ->
  walks k want n p (if Nat.even n then p else q).
Proof.
  revert p q. induction n as [|n IH]; intros p q Hpq Hqp; [constructor|].
  eapply walks_turn; [exact Hpq|]. rewrite Nat.even_succ, <- Nat.negb_even. specialize (IH q p Hqp Hpq).
  by destruct (Nat.even n).
Qed.

(** [receive] from a given process searches when the first sender is another one. *)
Lemma receive_searches fuel k this want m s :
  k.(msgs) !! this = Some m -> k.(pcbs) !! m.(source) = Some s -> want <> ANY ->
  s.(sendings) <> NULL -> s.(sendings) <> want ->
  receive fuel k this want =
    (found ← find_sender fuel k this want s.(sendings);
     match found with
     | Some k => Some k
     | None =>
         k ← upd_msg k this (set_dest want);
         k ← upd_pcb k m.(source) (fun p => set_message p this);
         self_block fuel k WAITING_MSG
     end).
Proof.
  intros Hm Hs Hany H0 Hne. unfold receive, get_msg, get_pcb. rewrite Hm. sbind. rewrite Hs. sbind.
  rewrite (proj2 (Z.eqb_neq ANY want)), andb_false_r by done.
  rewrite (proj2 (Z.eqb_neq s.(sendings) NULL)) by done. cbn [negb].
  rewrite (proj2 (Z.eqb_neq want s.(sendings))), (proj2 (Z.eqb_neq 0 want)) by (unfold ANY in *; congruence).
  done.
Qed.

(** C40.  An interrupt message that finds the interrupt pseudo-process already
    behind another sender [a] closes the chain of senders into a cycle, since
    there is only one such PCB.  From then on a [receive] from any process that is
    not in the chain goes around for ever: it searches from the first sender, the
    interrupt PCB, on ([receive_searches]); after any number of turns, each of
    which finds a valid PCB whose link is neither the one wanted nor null, the
    search stands at one of the two PCBs of the cycle; so no bound on the turns is
    enough. *)
Theorem second_interrupt_hangs_receiver (fuel : nat) (k : kernel) (this dest a rmsg want : Z) (m rm : Message)
    (d ap ip : pcb) :
  k.(msgs) !! this = Some m -> m.(source) = INTERRUPT -> k.(pcbs) !! dest = Some d ->
  d.(status) <> WAITING_MSG -> d.(sendings) = a -> a <> NULL -> a <> INTERRUPT_PCB ->
  dest <> INTERRUPT_PCB -> a <> dest ->
  k.(pcbs) !! a = Some ap -> ap.(next_ready) = INTERRUPT_PCB -> k.(pcbs) !! INTERRUPT_PCB = Some ip ->
  k.(msgs) !! rmsg = Some rm -> rm.(source) = dest ->
  want <> a -> want <> INTERRUPT_PCB -> want <> ANY ->
  exists k', send fuel k this dest = Some k' /\
    k'.(msgs) !! rmsg = Some rm /\ k'.(pcbs) !! dest = Some (set_sendings d INTERRUPT_PCB) /\
    (forall n, walks k' want n INTERRUPT_PCB (if Nat.even n then INTERRUPT_PCB else a)) /\
    forall n, receive n k' rmsg want = None.
Proof.
  intros Hm Hsrc Hd Hst Ha Ha0 Hai Hdi Had Hap Hnext Hip Hrm Hrs Hw1 Hw2 Hw3.
  unfold send, get_msg, get_pcb. rewrite Hm. sbind. rewrite Hd. sbind. rewrite Hsrc.
  change (INTERRUPT =? INTERRUPT_NET) with false. unfold waits_for.
  destruct (decide (WAITING_MSG = d.(status))) as [D|D]; [congruence|]. sbind.
  rewrite Z.eqb_refl, (upd_pcb_eq _ _ _ _ Hip). sbind.
  rewrite (upd_pcb_eq (with_pcbs _ _) dest d) by (cbn; by rewrite lookup_insert_ne). sbind.
  eexists. split; [reflexivity|]. set (k' := with_pcbs _ _).
  assert (Hd' : k'.(pcbs) !! dest = Some (set_sendings d INTERRUPT_PCB)) by (cbn; by rewrite lookup_insert_eq).
  assert (H1 : seeks k' want INTERRUPT_PCB a).
  { split; [|done]. exists (set_next_ready ip a). split; [|done]. cbn.
    rewrite lookup_insert_ne by done. by rewrite lookup_insert_eq, Ha. }
  assert (H2 : seeks k' want a INTERRUPT_PCB).
  { split; [|done]. exists ap. split; [|done]. cbn. by rewrite !lookup_insert_ne. }
  assert (Hw : forall n, walks k' want n INTERRUPT_PCB (if Nat.even n then INTERRUPT_PCB else a))
    by (intros n; by apply walks_cycle).
  split; [done|]. split; [done|]. split; [done|]. intros n.
  rewrite (receive_searches n k' rmsg want rm (set_sendings d INTERRUPT_PCB)); [|done|by rewrite Hrs|done..|cbn; congruence].
  cbn [sendings set_sendings]. by rewrite (find_sender_walks _ _ _ _ _ _ (Hw n)).
Qed.

(** ** Witnesses *)

(** Two runnable processes, [init] and the current process 0x91000, and others
    that are not runnable. *)
Definition demo_pcb (st : process_status) (prio sends nxt msg : Z) : pcb :=
  mk_pcb 7 [] st prio 10 0 0 nxt msg sends 0 0 false 0 0.
Definition demo_qs : Z -> list Z := upd (upd (fun _ => []) 4 [0x80000]) 1 [0x91000].
Definition demo_pcbs (cur : pcb) (others : list (Z * pcb)) : gmap Z pcb :=
  <[0x80000 := demo_pcb READY 4 0 0 0]> (<[0x91000 := cur]> (list_to_map others)).
Definition demo (l : mem) (cur : pcb) (others : list (Z * pcb)) (ms : list (Z * Message)) : kernel :=
  mk_kernel (demo_pcbs cur others) (list_to_map ms) l 0x18000 (replicate 5 10) (replicate 64 0) 0x91000 1 0 0 0.

Lemma demo_links : exists l, queues l 0x18000 demo_qs.
Proof.
  destruct (init_queues_spec 5 ∅ 0x18000 0) as (m1 & _ & Hm1); [lia..|].
  assert (Hq : queues m1 0x18000 (fun _ => [])).
  { constructor; [intros; apply Hm1; lia|]. intros i j a b Hi Hj Hne Ha Hb.
    unfold CycleList.CycleList.nodes, CycleList.CycleList.head, CycleList.CycleList.tail, CycleList.CycleList.apart in *.
    set_unfold. lia. }
  destruct (queues_append m1 0x18000 (fun _ => []) 4 0x80000 Hq) as (m2 & _ & Hq2).
  { lia. } { unfold CycleList.CycleList.elem_addr; lia. }
  { intros j a Hj Ha. unfold CycleList.CycleList.nodes, CycleList.CycleList.head, CycleList.CycleList.tail,
      CycleList.CycleList.apart in *. set_unfold. lia. }
  destruct (queues_append m2 0x18000 _ 1 0x91000 Hq2) as (m3 & _ & Hq3).
  { lia. } { unfold CycleList.CycleList.elem_addr; lia. }
  { intros j a Hj Ha. unfold upd, CycleList.CycleList.nodes, CycleList.CycleList.head, CycleList.CycleList.tail,
      CycleList.CycleList.apart in *. destruct (j =? 4); set_unfold; lia. }
  exists m3. exact Hq3.
Qed.

Definition demo_addrs : list Z := [0x92000; 0x94000; 0x98000].

Lemma demo_kinv l cur others ms :
  queues l 0x18000 demo_qs -> cur.(status) = RUNNING -> cur.(priority) = 1 ->
  Forall (fun x => x.1 ∈ demo_addrs /\ 0 <= x.2.(priority) < 5 /\ ~ runnable x.2) others ->
  kinv (demo l cur others ms) demo_qs.
Proof.
  intros Hq Hst Hpr Ho.
  assert (Hcase : forall a c, demo_pcbs cur others !! a = Some c ->
    (a = 0x80000 /\ c = demo_pcb READY 4 0 0 0) \/ (a = 0x91000 /\ c = cur) \/
    (a ∈ demo_addrs /\ 0 <= c.(priority) < 5 /\ ~ runnable c)).
  { intros a c. unfold demo_pcbs. intros [(<- & <-)|(_ & [(<- & <-)|(_ & H)]%lookup_insert_Some)]%lookup_insert_Some; auto.
    right; right. apply elem_of_list_to_map_2 in H. rewrite Forall_forall in Ho. apply (Ho _ H). }
  assert (Haddr : forall a c, demo_pcbs cur others !! a = Some c -> a ∈ 0x80000 :: 0x91000 :: demo_addrs).
  { intros a c [(-> & _)|[(-> & _)|(? & _)]]%Hcase; set_solver. }
  split.
  - constructor; cbn; auto.
    + intros a c Ha. pose proof (Haddr a c Ha) as Hin. split; [|split].
      * unfold demo_addrs in Hin. unfold CycleList.CycleList.elem_addr. set_unfold. lia.
      * apply Hcase in Ha as [(_ & ->)|[(_ & ->)|(_ & ? & _)]]; cbn; lia.
      * intros j Hj. unfold ready_processes, CycleList.CycleList.head, CycleList.CycleList.tail, CycleList.CycleList.apart; cbn.
        unfold demo_addrs in Hin. set_unfold. lia.
    + intros a a' c c' Ha Ha' Hne. apply Haddr in Ha, Ha'. unfold demo_addrs in *.
      unfold CycleList.CycleList.apart. set_unfold. lia.
    + intros i a Hi Ha. unfold demo_qs, upd in Ha. destruct (i =? 1) eqn:E1; zbool.
      * apply list_elem_of_singleton in Ha as ->. exists cur. unfold demo_pcbs.
        rewrite lookup_insert_ne, lookup_insert_eq by done. subst. split; [done|]. split; [done|by right].
      * destruct (i =? 4) eqn:E4; zbool; [|by apply elem_of_nil in Ha].
        apply list_elem_of_singleton in Ha as ->. eexists. unfold demo_pcbs. rewrite lookup_insert_eq.
        split; [reflexivity|]. subst. split; [done|by left].
    + intros a c Ha Hr. apply Hcase in Ha as [(-> & ->)|[(-> & ->)|(_ & _ & ?)]]; [by left| |done].
      rewrite Hpr. by left.
    + intros i Hi. unfold demo_qs. by rewrite !upd_ne by lia.
    + lia.
    + intros a c Ha Hr. apply Hcase in Ha as [(-> & ->)|[(-> & ->)|(_ & _ & Hn)]]; [done|done|].
      destruct Hn. by right.
  - exists cur. cbn. unfold demo_pcbs. by rewrite lookup_insert_ne, lookup_insert_eq.
Qed.

Definition ctx0 : context := mk_context 1 2 3 4.
Definition curp (nxt sends : Z) : pcb := demo_pcb RUNNING 1 sends nxt 0.

(** The state in which 0x92000 waits for any message, in the object 0x6000. *)
Definition waiting_demo l (src : Z) : kernel :=
  demo l (curp 0 0) [(0x92000, demo_pcb WAITING_MSG 2 0 0 0x6000)]
    [(0x5000, mk_Message src 0x92000 9 ctx0); (0x6000, mk_Message 0x92000 ANY 0 ctx0)].

Ltac demo_inv := apply demo_kinv; [eassumption|reflexivity|reflexivity|repeat (constructor; [cbn; split; [unfold demo_addrs; set_solver|split; [lia|intros [?|?]; discriminate]]|]); constructor].

Lemma send_delivers_witness :
  exists l k', send 2 (waiting_demo l 0x91000) 0x5000 0x92000 = Some k' /\
    k'.(msgs) !! 0x6000 = Some (mk_Message 0x92000 0x91000 9 ctx0).
Proof.
  destruct demo_links as (l & Hl). exists l.
  destruct (send_delivers 2 (waiting_demo l 0x91000) demo_qs 0x5000 0x92000
    (mk_Message 0x91000 0x92000 9 ctx0) (mk_Message 0x92000 ANY 0 ctx0)
    (demo_pcb WAITING_MSG 2 0 0 0x6000)) as (k' & H1 & _ & H2 & _).
  - demo_inv.
  - reflexivity.
  - reflexivity.
  - discriminate.
  - reflexivity.
  - reflexivity.
  - left. reflexivity.
  - exists k'. split; [exact H1|]. rewrite H2. reflexivity.
Defined.

Definition busy_demo l (cur_sends : Z) (dstat : process_status) (src : Z) : kernel :=
  demo l (curp 0 cur_sends) [(0x92000, demo_pcb dstat 2 0 0 0); (0x94000, demo_pcb SENDING_MSG 3 0 0 0x6000)]
    [(0x5000, mk_Message src 0 9 ctx0); (0x6000, mk_Message 0x94000 0 11 ctx0)].

Lemma demo_short : short_queues 2 demo_qs.
Proof.
  intros i Hi. unfold demo_qs, upd. destruct (i =? 1); [cbn; lia|]. destruct (i =? 4); cbn; lia.
Qed.

Lemma send_blocks_witness :
  exists l k' c', send 2 (busy_demo l 0 BLOCKED 0x91000) 0x5000 0x92000 = Some k' /\
    k'.(pcbs) !! 0x92000 = Some c' /\ c'.(sendings) = 0x91000 /\ k'.(cur_proc) <> 0x91000.
Proof.
  destruct demo_links as (l & Hl). exists l.
  destruct (send_blocks 2 (busy_demo l 0 BLOCKED 0x91000) demo_qs 0x5000 0x92000
    (mk_Message 0x91000 0 9 ctx0) (demo_pcb BLOCKED 2 0 0 0) (curp 0 0) [] [])
    as (k' & p & c' & H1 & _ & H2 & H3 & _ & _ & H4 & H5 & _).
  - demo_inv.
  - reflexivity.
  - reflexivity.
  - reflexivity.
  - discriminate.
  - discriminate.
  - reflexivity.
  - discriminate.
  - discriminate.
  - exact demo_short.
  - reflexivity.
  - discriminate.
  - exists k', c'. split; [exact H1|]. split; [exact H4|]. split; [exact H5|]. rewrite H2. exact H3.
Defined.

Lemma receive_takes_front_witness :
  exists l k', receive 2 (busy_demo l 0x94000 BLOCKED 0x91000) 0x5000 ANY = Some k' /\
    k'.(msgs) !! 0x5000 = Some (mk_Message 0x91000 0x94000 11 ctx0).
Proof.
  destruct demo_links as (l & Hl). exists l.
  destruct (receive_takes_front 2 (busy_demo l 0x94000 BLOCKED 0x91000) demo_qs 0x5000 ANY 0x94000
    (mk_Message 0x91000 0 9 ctx0) (mk_Message 0x94000 0 11 ctx0) (curp 0 0x94000)
    (demo_pcb SENDING_MSG 3 0 0 0x6000)) as (k' & H1 & _ & H2 & _).
  - demo_inv.
  - reflexivity.
  - reflexivity.
  - left. reflexivity.
  - reflexivity.
  - discriminate.
  - right. reflexivity.
  - reflexivity.
  - reflexivity.
  - discriminate.
  - reflexivity.
  - exists k'. split; [exact H1|]. rewrite H2. reflexivity.
Defined.

Lemma receive_blocks_witness :
  exists l k' p, receive 2 (busy_demo l 0 BLOCKED 0x91000) 0x5000 0x94000 = Some k' /\
    k'.(cur_proc) = p /\ p <> 0x91000.
Proof.
  destruct demo_links as (l & Hl). exists l.
  destruct (receive_blocks 2 (busy_demo l 0 BLOCKED 0x91000) demo_qs 0x5000 0x94000
    (mk_Message 0x91000 0 9 ctx0) (curp 0 0) (curp 0 0) [] []) as (k' & p & H1 & _ & H2 & H3 & _).
  - demo_inv.
  - reflexivity.
  - reflexivity.
  - left. reflexivity.
  - reflexivity.
  - reflexivity.
  - reflexivity.
  - exact demo_short.
  - reflexivity.
  - discriminate.
  - exists k', p. auto.
Defined.

(** 0x94000 and then 0x92000 are in the chain of the current process. *)
Definition chain_demo l : kernel :=
  demo l (curp 0 0x94000) [(0x92000, demo_pcb SENDING_MSG 2 0 0 0x7000); (0x94000, demo_pcb SENDING_MSG 3 0 0x92000 0x6000)]
    [(0x5000, mk_Message 0x91000 0 9 ctx0); (0x6000, mk_Message 0x94000 0 11 ctx0);
     (0x7000, mk_Message 0x92000 0 12 ctx0)].

Lemma receive_wakes_wrong_process_witness :
  exists l k', receive 2 (chain_demo l) 0x5000 0x92000 = Some k' /\
    k'.(msgs) !! 0x5000 = Some (mk_Message 0x91000 0x94000 12 ctx0) /\
    k'.(pcbs) !! 0x92000 = Some (demo_pcb SENDING_MSG 2 0 0 0x7000).
Proof.
  destruct demo_links as (l & Hl). exists l.
  destruct (receive_wakes_wrong_process 1 (chain_demo l) demo_qs 0x5000 0x92000 0x94000
    (mk_Message 0x91000 0 9 ctx0) (mk_Message 0x92000 0 12 ctx0) (curp 0 0x94000)
    (demo_pcb SENDING_MSG 3 0 0x92000 0x6000) (demo_pcb SENDING_MSG 2 0 0 0x7000)) as (k' & H1 & H2 & _ & H3 & _).
  - demo_inv.
  - reflexivity.
  - reflexivity.
  - reflexivity.
  - discriminate.
  - discriminate.
  - discriminate.
  - discriminate.
  - reflexivity.
  - reflexivity.
  - reflexivity.
  - reflexivity.
  - reflexivity.
  - reflexivity.
  - exists k'. auto.
Defined.

Lemma net_interrupt_delivered_twice_witness :
  exists l k' k'', send 2 (waiting_demo l INTERRUPT_NET) 0x5000 0x92000 = Some k' /\
    receive 2 k' 0x6000 ANY = Some k'' /\
    k''.(msgs) !! 0x6000 = Some (mk_Message 0x92000 ANY INTR ctx0).
Proof.
  destruct demo_links as (l & Hl). exists l.
  destruct (net_interrupt_delivered_twice 2 (waiting_demo l INTERRUPT_NET) demo_qs 0x5000 0x92000
    (mk_Message INTERRUPT_NET 0x92000 9 ctx0) (mk_Message 0x92000 ANY 0 ctx0)
    (demo_pcb WAITING_MSG 2 0 0 0x6000)) as (k' & k'' & H1 & _ & _ & H2 & H3 & _).
  - demo_inv.
  - reflexivity.
  - reflexivity.
  - reflexivity.
  - reflexivity.
  - reflexivity.
  - reflexivity.
  - reflexivity.
  - reflexivity.
  - exists k', k''. auto.
Defined.

(** An interrupt is queued for 0x92000 behind 0x94000, and another one arrives. *)
Definition intr_demo : kernel :=
  demo ∅ (curp 0 0) [(0x92000, demo_pcb BLOCKED 2 0x94000 0 0); (0x94000, demo_pcb SENDING_MSG 3 0 0x98000 0x6000);
                     (0x98000, demo_pcb DIED 0 0 0 0)]
    [(0x5000, mk_Message INTERRUPT 0x92000 INTR ctx0); (0x6000, mk_Message 0x94000 0 11 ctx0);
     (0x7000, mk_Message 0x92000 0 0 ctx0)].

Lemma second_interrupt_hangs_receiver_witness :
  exists k', send 2 intr_demo 0x5000 0x92000 = Some k' /\ walks k' 0x91000 7 INTERRUPT_PCB 0x94000 /\
    forall n, receive n k' 0x7000 0x91000 = None.
Proof.
  destruct (second_interrupt_hangs_receiver 2 intr_demo 0x5000 0x92000 0x94000 0x7000 0x91000
    (mk_Message INTERRUPT 0x92000 INTR ctx0) (mk_Message 0x92000 0 0 ctx0) (demo_pcb BLOCKED 2 0x94000 0 0)
    (demo_pcb SENDING_MSG 3 0 0x98000 0x6000) (demo_pcb DIED 0 0 0 0)) as (k' & H1 & _ & _ & H3 & H4);
    first [reflexivity | discriminate | exists k'; split; [exact H1|split; [exact (H3 7%nat)|exact H4]]].
Defined.
