(* ===== verification/Machine.v ===== *)
(** * The machine as the kernel sets it up
    (kernel/interrupt.cc, kernel/tss.cc, kernel/page.cc, kernel/cmos.cc, lib/time.cc)

    The interrupt descriptor table and the table of handlers, the descriptor of
    the task state segment, the initial page tables, and the clock.  The entry
    points of the assembly stubs are parameters, as are the registers of the
    clock; a two-level page walk is given as the meaning of the page tables. *)
From S2P Require Import Prelude Mem Paging.

(** ** kernel/interrupt.cc *)

Record idt_entry := mk_idt_entry {
  off_low16 : Z;
  seg_selector : Z;
  reserved : Z;
  flags : Z;
  off_high16 : Z;
}.

Definition selector_code : Z := 0x8.

Definition set_idt_entry (IDT : list idt_entry) (nr off_ seg_selector_ flags_ : Z) : option (list idt_entry) :=
  IDT.[nr <- mk_idt_entry (u16 (Z.land off_ 0xffff)) seg_selector_ 0 flags_
               (u16 (Z.land (Z.shiftr off_ 16) 0xffff))].

Section idt.
(** Addresses of [intr_handler0] ... [intr_handler47] and of [syscall_pre_handler]. *)
Context (intr_handler : Z -> Z) (syscall_pre_handler : Z).

(** The calls of [set_idt_entry] for the entries from [nr] on. *)
Fixpoint init_idt_entries (n : nat) (IDT : list idt_entry) (nr : Z) : option (list idt_entry) :=
  match n with
  | O => Some IDT
  | S n' => IDT ← set_idt_entry IDT nr (intr_handler nr) selector_code 0x8e;
            init_idt_entries n' IDT (nr + 1)
  end.

Definition init_idt (IDT : list idt_entry) : option (list idt_entry) :=
  IDT ← init_idt_entries 48 IDT 0;
  set_idt_entry IDT 0x99 syscall_pre_handler selector_code 0xee.
End idt.

(** The address the processor jumps to. *)
Definition entry_offset (e : idt_entry) : Z := e.(off_high16) * 65536 + e.(off_low16).

(** [real_handlers]: the addresses of the registered handlers, 0 where there is
    none; neither function checks the number. *)
Definition register_intr_handler (real_handlers : list Z) (nr handler : Z) : option (list Z) :=
  real_handlers.[nr <- handler].

(** The handler that is called. *)
Definition general_intr_handler (real_handlers : list Z) (nr : Z) : option (option Z) :=
  h ← real_handlers.[nr];
  Some (if negb (NULL =? h) then Some h else None).

(** The commands of [init_8259A], as (port, data). *)
Definition init_8259A : list (Z * Z) :=
  [(0x20, 0x11); (0xa0, 0x11); (0x21, 0x20); (0xa1, 0x28); (0x21, 0x04); (0xa1, 0x02);
   (0x21, 0x01); (0xa1, 0x01); (0x21, 0xf8); (0xa1, 0xbb)].

Definition disable_all_intr : list (Z * Z) := [(0x21, 0xff); (0xa1, 0xff)].

(** ** kernel/timer.cc *)

Definition init_pit (real_handlers : list Z) (timer_handler : Z) : option (list Z * list (Z * Z)) :=
  h ← register_intr_handler real_handlers 0x20 timer_handler;
  let divisor := 1193180 / 100 in
  let low_byte := u8 (Z.land divisor 0xff) in
  let high_byte := u8 (Z.land (Z.shiftr divisor 8) 0xff) in
  Some (h, [(0x43, 0x36); (0x40, low_byte); (0x40, high_byte)]).

(** ** kernel/tss.cc *)

Record gdt_desc := mk_gdt_desc {
  limit_low : Z;
  base_low : Z;
  base_mid : Z;
  attr_low : Z;
  limit_high : Z;
  base_high : Z;
}.

Definition TSS_ATTR_LOW : Z := Z.shiftl 1 7 + 9.
Definition TSS_ATTR_HIGH : Z := Z.shiftl 1 7.

Definition make_gdt_desc (desc_addr limit attr_low_ attr_high : Z) : gdt_desc :=
  mk_gdt_desc (u16 (Z.land limit 0x0000ffff)) (u16 (Z.land desc_addr 0x0000ffff))
    (u8 (Z.shiftr (Z.land desc_addr 0x00ff0000) 16)) attr_low_
    (u8 (Z.shiftr (Z.land limit 0x000f0000) 16 + attr_high)) (u8 (Z.shiftr desc_addr 24)).

Definition sizeof_tss : Z := 108.

(** The descriptor in memory. *)
Definition store_desc (m : mem) (a : Z) (d : gdt_desc) : mem :=
  let m := store8 m a d.(limit_low) in
  let m := store8 m (a + 1) (d.(limit_low) / 256) in
  let m := store8 m (a + 2) d.(base_low) in
  let m := store8 m (a + 3) (d.(base_low) / 256) in
  let m := store8 m (a + 4) d.(base_mid) in
  let m := store8 m (a + 5) d.(attr_low) in
  let m := store8 m (a + 6) d.(limit_high) in
  store8 m (a + 7) d.(base_high).

(** [install_tss], [tss] being the address of the variable. *)
Definition install_tss (m : mem) (tss : Z) : mem :=
  let m := memset_mem m tss 0 (Z.to_nat sizeof_tss) in
  let m := store32 m (tss + 8) 16 in
  let m := store32 m (tss + 104) sizeof_tss in
  store_desc m (0x502 + 56) (make_gdt_desc tss (sizeof_tss - 1) TSS_ATTR_LOW TSS_ATTR_HIGH).

(** ** kernel/page.cc *)

Definition page_dir_base : Z := 0x100000.
Definition default_pageattr : Z := Z.lor (Z.lor US_U RW_W) P.

Fixpoint fill_pagetable (n : nat) (m : mem) (first_pagetable idx entry : Z) : mem :=
  match n with
  | O => m
  | S n' =>
      fill_pagetable n' (store32 m (first_pagetable + 4 * idx) (Z.lor entry default_pageattr))
        first_pagetable (idx + 1) (u32 (entry + 4096))
  end.

Definition install_page (m : mem) : mem :=
  let pagedir_base := page_dir_base in
  let first_pagetable := pagedir_base + page_size in
  let m := memset_mem m pagedir_base 0 (Z.to_nat page_size) in
  let m := store32 m pagedir_base (Z.lor first_pagetable default_pageattr) in
  let m := store32 m (pagedir_base + 4 * 1023) (pagedir_base + default_pageattr) in
  fill_pagetable 528 m first_pagetable 0 0.

(** The translation the processor performs with the page directory at [dir]
    (present bits only). *)
Definition walk (m : mem) (dir v : Z) : option Z :=
  let pde := load32 m (dir + 4 * (v / 4194304)) in
  if truth (Z.land pde P) then
    let pte := load32 m (pde - pde mod 4096 + 4 * ((v / 4096) mod 1024)) in
    if truth (Z.land pte P) then Some (pte - pte mod 4096 + v mod 4096) else None
  else None.

(** ** kernel/cmos.cc *)

Record time := mk_time {
  second : Z;
  minute : Z;
  hour : Z;
  day : Z;
  month : Z;
  year : Z;
}.

Definition bcd2dec (bcd : Z) : Z := u8 (Z.land bcd 0xf + Z.shiftr bcd 4 * 10).

(** [cmos r] is what the clock returns for register [r]. *)
Definition get_cmos_time (cmos : Z -> Z) : time :=
  mk_time (bcd2dec (cmos 0x0)) (bcd2dec (cmos 0x2)) (bcd2dec (cmos 0x4)) (bcd2dec (cmos 0x7))
    (bcd2dec (cmos 0x8)) (bcd2dec (cmos 0x9) + 2000).

(** ** lib/time.cc *)

Definition num2time (num : Z) : time :=
  mk_time (u8 (Z.land num 0xff)) (u8 (Z.land (Z.shiftr num 8) 0x3f)) (u8 (Z.land (Z.shiftr num 16) 0x3f))
    (u8 (Z.land (Z.shiftr num 22) 0x3f)) (u8 (Z.land (Z.shiftr num 28) 0xf)) (u32 (Z.shiftr num 32)).

(** The shifts other than that of the year are those of [int], which is then
    converted to 64 bits with its sign. *)
Definition time2num (t : time) : Z :=
  Z.lor (Z.lor (Z.lor (Z.lor (Z.lor (u64 (Z.shiftl t.(year) 32))
    (u64 (s32 (Z.shiftl (Z.land t.(month) 0xf) 28))))
    (u64 (s32 (Z.shiftl (Z.land t.(day) 0x3f) 22))))
    (u64 (s32 (Z.shiftl (Z.land t.(hour) 0x3f) 16))))
    (u64 (s32 (Z.shiftl t.(minute) 8))))
    (u64 (s32 t.(second))).

(** ** The interrupt descriptor table *)

Lemma land_low v k : 0 <= k -> Z.land v (Z.ones k) = v mod 2 ^ k.
Proof. intros. by apply Z.land_ones. Qed.

Lemma entry_offset_set off sel fl : 0 <= off < 4294967296 ->
  entry_offset (mk_idt_entry (u16 (Z.land off 0xffff)) sel 0 fl (u16 (Z.land (Z.shiftr off 16) 0xffff))) = off.
Proof.
  intros H. unfold entry_offset, u16. cbn [off_high16 off_low16].
  change 0xffff with (Z.ones 16). rewrite !land_low, Z.shiftr_div_pow2 by lia.
  change (2 ^ 16) with 65536. rewrite !Z.mod_mod by lia.
  rewrite (Z.mod_small (off / 65536)); [|split; [apply Z.div_pos; lia|apply Z.div_lt_upper_bound; lia]].
  pose proof (Z.div_mod off 65536). lia.
Qed.

Section idt_proofs.
Context (intr_handler : Z -> Z) (syscall_pre_handler : Z).

Definition entry_for (off flags_ : Z) : idt_entry :=
  mk_idt_entry (u16 (Z.land off 0xffff)) selector_code 0 flags_ (u16 (Z.land (Z.shiftr off 16) 0xffff)).

Lemma init_idt_entries_spec n IDT nr :
  0 <= nr -> nr + Z.of_nat n <= zlen IDT ->
  exists IDT', init_idt_entries intr_handler n IDT nr = Some IDT' /\ zlen IDT' = zlen IDT /\
    forall i, 0 <= i -> IDT'.[i] =
      if (nr <=? i) && (i <? nr + Z.of_nat n) then Some (entry_for (intr_handler i) 0x8e) else IDT.[i].
Proof.
  revert IDT nr. induction n as [|n IH]; intros IDT nr Hnr Hn; cbn [init_idt_entries].
  { exists IDT. split_and!; [done|done|]. intros i Hi. destruct (_ && _) eqn:E; zbool; [lia|done|done]. }
  unfold set_idt_entry. rewrite zset_in by lia. sbind.
  destruct (IH (<[Z.to_nat nr := entry_for (intr_handler nr) 0x8e]> IDT) (nr + 1)) as (T & H1 & H2 & H3);
    [lia|rewrite zlen_insert; lia|].
  exists T. split; [exact H1|]. rewrite zlen_insert in H2. split; [done|]. intros i Hi. rewrite H3 by lia.
  rewrite zget_insert by lia.
  destruct ((nr + 1 <=? i) && _) eqn:E1; destruct ((nr <=? i) && _) eqn:E2; zbool; try lia; try done.
  all: destruct (nr =? i) eqn:E3; zbool; subst; try lia; try done.
Qed.

Lemma init_idt_spec IDT : zlen IDT = 256 ->
  exists IDT', init_idt intr_handler syscall_pre_handler IDT = Some IDT' /\ zlen IDT' = 256 /\
    forall i, 0 <= i -> IDT'.[i] =
      if i =? 0x99 then Some (entry_for syscall_pre_handler 0xee)
      else if i <? 48 then Some (entry_for (intr_handler i) 0x8e) else IDT.[i].
Proof.
  intros Hz. unfold init_idt. destruct (init_idt_entries_spec 48 IDT 0) as (T & -> & H1 & H2); [lia|lia|].
  sbind. unfold set_idt_entry. rewrite zset_in by lia. eexists. split; [reflexivity|].
  rewrite zlen_insert. split; [lia|]. intros i Hi. rewrite zget_insert, H2 by lia.
  rewrite (Z.eqb_sym 0x99 i). destruct (i =? 0x99) eqn:E; [done|].
  destruct (0 <=? i) eqn:E0; zbool; [done|lia].
Qed.
End idt_proofs.

(** ** Paging *)

Lemma load32_fill n m base idx entry : 
  0 <= idx -> 0 <= entry -> entry + 4096 * Z.of_nat n <= 4294967296 -> entry mod 4096 = 0 ->
  (forall a, a + 4 <= base + 4 * idx \/ base + 4 * (idx + Z.of_nat n) <= a ->
     load32 (fill_pagetable n m base idx entry) a = load32 m a) /\
  (forall i, idx <= i < idx + Z.of_nat n ->
     load32 (fill_pagetable n m base idx entry) (base + 4 * i) = entry + 4096 * (i - idx) + 7).
Proof.
  revert m idx entry. induction n as [|n IH]; intros m idx entry Hi He Hn Hal; cbn [fill_pagetable].
  { split; [done|lia]. }
  assert (Hor : Z.lor entry default_pageattr = entry + 7).
  { pose proof (Z.div_mod entry 4096). replace entry with (entry / 4096 * 2 ^ 12) by lia.
    by apply lor_low. }
  rewrite Hor. destruct (decide (n = O)) as [->|D].
  - cbn [fill_pagetable]. split.
    + intros a Ha. apply load32_store32_ne. lia.
    + intros i Hii. replace i with idx by lia. rewrite load32_store32_eq, u32_id by lia. lia.
  - rewrite (u32_id (entry + 4096)) by lia.
    destruct (IH (store32 m (base + 4 * idx) (entry + 7)) (idx + 1) (entry + 4096)) as [H1 H2]; try lia.
    { replace (entry + 4096) with (entry + 1 * 4096) by lia. rewrite Z.mod_add; lia. }
    split.
    + intros a Ha. rewrite H1 by lia. apply load32_store32_ne. lia.
    + intros i Hii. destruct (decide (i = idx)) as [->|Di].
      * rewrite H1 by lia. rewrite load32_store32_eq, u32_id by lia. lia.
      * rewrite H2 by lia. lia.
Qed.

Lemma install_page_spec m :
  let m' := install_page m in
  load32 m' page_dir_base = 0x101007 /\
  load32 m' (page_dir_base + 4 * 1023) = 0x100007 /\
  (forall i, 0 < i < 1023 -> load32 m' (page_dir_base + 4 * i) = 0) /\
  (forall i, 0 <= i < 528 -> load32 m' (page_dir_base + 4096 + 4 * i) = 4096 * i + 7) /\
  (forall i, 528 <= i < 1024 -> load32 m' (page_dir_base + 4096 + 4 * i) = load32 m (page_dir_base + 4096 + 4 * i)).
Proof.
  intros m'. unfold m', install_page.
  change (Z.lor (page_dir_base + page_size) default_pageattr) with 0x101007.
  change (page_dir_base + default_pageattr) with 0x100007.
  change (page_dir_base + page_size) with (page_dir_base + 4096).
  set (m0 := memset_mem m page_dir_base 0 (Z.to_nat page_size)).
  set (m1 := store32 m0 page_dir_base 0x101007).
  set (m2 := store32 m1 (page_dir_base + 4 * 1023) 0x100007).
  destruct (load32_fill 528 m2 (page_dir_base + 4096) 0 0) as [H1 H2]; [lia..|done|].
  assert (Hsz : Z.of_nat (Z.to_nat page_size) = 4096) by (rewrite Z2Nat.id; unfold page_size; lia).
  unfold page_dir_base in *. split_and!.
  - rewrite H1 by lia. unfold m2, m1. rewrite load32_store32_ne, load32_store32_eq by lia. reflexivity.
  - rewrite H1 by lia. unfold m2. rewrite load32_store32_eq. reflexivity.
  - intros i Hi. rewrite H1 by lia. unfold m2, m1. rewrite !load32_store32_ne by lia.
    unfold m0. apply load32_memset_in; [lia|]. rewrite Hsz. lia.
  - intros i Hi. rewrite H2 by lia. lia.
  - intros i Hi. rewrite H1 by lia. unfold m2, m1. rewrite !load32_store32_ne by lia.
    unfold m0. apply load32_memset_out. rewrite Hsz. lia.
Qed.

(** ** Time *)

Lemma land15 x : 0 <= x < 16 -> Z.land x 0xf = x.
Proof. intros. change 0xf with (Z.ones 4). rewrite land_low by lia. apply Z.mod_small. lia. Qed.
Lemma land63 x : 0 <= x < 64 -> Z.land x 0x3f = x.
Proof. intros. change 0x3f with (Z.ones 6). rewrite land_low by lia. apply Z.mod_small. lia. Qed.

(** The year field a number made by [time2num] carries. *)
Definition year_field (mo y : Z) : Z := if mo <? 8 then y else 0xffffffff.

Definition valid_time (t : time) : Prop :=
  0 <= t.(second) < 60 /\ 0 <= t.(minute) < 60 /\ 0 <= t.(hour) < 24 /\ 1 <= t.(day) <= 31 /\
  1 <= t.(month) <= 12 /\ 0 <= t.(year) < 4294967296.

Lemma year_month y mo : 0 <= y < 4294967296 -> 1 <= mo <= 12 ->
  Z.lor (u64 (Z.shiftl y 32)) (u64 (s32 (Z.shiftl (Z.land mo 0xf) 28))) =
  (year_field mo y * 16 + mo) * 2 ^ 28.
Proof.
  intros Hy Hm. rewrite land15 by lia. rewrite !Z.shiftl_mul_pow2 by lia.
  unfold u64. rewrite (Z.mod_small (y * 2 ^ 32)) by lia.
  unfold year_field. destruct (mo <? 8) eqn:E; zbool.
  - rewrite s32_id, Z.mod_small by lia. rewrite lor_low by lia. lia.
  - assert (Hs : s32 (mo * 2 ^ 28) = mo * 2 ^ 28 - 4294967296).
    { unfold s32. replace (mo * 2 ^ 28 + 2147483648) with (mo * 2 ^ 28 - 2147483648 + 1 * 4294967296) by lia.
      rewrite Z.mod_add, Z.mod_small by lia. lia. }
    rewrite Hs.
    replace (mo * 2 ^ 28 - 4294967296) with (0xffffffff * 2 ^ 32 + mo * 2 ^ 28 + (-1) * 18446744073709551616) by lia.
    rewrite Z.mod_add, Z.mod_small by lia.
    rewrite <- (lor_low 0xffffffff (mo * 2 ^ 28) 32) by lia. rewrite Z.lor_assoc.
    assert (Ho : Z.lor (y * 2 ^ 32) (0xffffffff * 2 ^ 32) = 0xffffffff * 2 ^ 32).
    { rewrite <- !Z.shiftl_mul_pow2, <- Z.shiftl_lor by lia. f_equal.
      change 0xffffffff with (Z.ones 32).
      destruct (decide (y = 0)) as [->|D]; [apply Z.lor_0_l|].
      apply Z.lor_ones_low; [lia|]. apply Z.log2_lt_pow2; lia. }
    rewrite Ho, lor_low by lia. lia.
Qed.

Lemma time2num_eq t : valid_time t ->
  time2num t = (((year_field t.(month) t.(year) * 16 + t.(month)) * 64 + t.(day)) * 64 + t.(hour)) * 65536 +
    t.(minute) * 256 + t.(second).
Proof.
  intros (Hs & Hmi & Hh & Hd & Hmo & Hy). unfold time2num. rewrite year_month by lia.
  rewrite !land63 by lia. rewrite !Z.shiftl_mul_pow2 by lia.
  rewrite !s32_id by lia. unfold u64. rewrite !Z.mod_small by lia.
  rewrite lor_low by lia.
  replace ((year_field (month t) (year t) * 16 + month t) * 2 ^ 28 + day t * 2 ^ 22)
    with (((year_field (month t) (year t) * 16 + month t) * 64 + day t) * 2 ^ 22) by lia.
  rewrite lor_low by lia.
  replace (((year_field (month t) (year t) * 16 + month t) * 64 + day t) * 2 ^ 22 + hour t * 2 ^ 16)
    with ((((year_field (month t) (year t) * 16 + month t) * 64 + day t) * 64 + hour t) * 2 ^ 16) by lia.
  rewrite lor_low by lia.
  replace ((((year_field (month t) (year t) * 16 + month t) * 64 + day t) * 64 + hour t) * 2 ^ 16 + minute t * 2 ^ 8)
    with (((((year_field (month t) (year t) * 16 + month t) * 64 + day t) * 64 + hour t) * 256 + minute t) * 2 ^ 8) by lia.
  rewrite lor_low by lia. lia.
Qed.

(** One field of a number. *)
Lemma field_at p f q k w : 0 <= w -> 0 <= k -> 0 <= q < 2 ^ k -> 0 <= f < 2 ^ w ->
  Z.land (Z.shiftr ((p * 2 ^ w + f) * 2 ^ k + q) k) (Z.ones w) = f.
Proof.
  intros Hw Hk Hq Hf. rewrite Z.shiftr_div_pow2, land_low by lia.
  rewrite Z.div_add_l, (Z.div_small q), Z.add_0_r by lia.
  rewrite Z.add_comm, Z.mod_add, Z.mod_small by lia. done.
Qed.

Lemma num2time_time2num t : valid_time t ->
  num2time (time2num t) =
    mk_time t.(second) t.(minute) t.(hour) t.(day) t.(month) (year_field t.(month) t.(year)).
Proof.
  intros Hv. rewrite time2num_eq by done. destruct Hv as (Hs & Hmi & Hh & Hd & Hmo & Hy).
  set (Y := year_field t.(month) t.(year)).
  assert (HY : 0 <= Y < 4294967296) by (unfold Y, year_field; destruct (_ <? _); lia).
  unfold num2time. change 0xff with (Z.ones 8). change 0x3f with (Z.ones 6). change 0xf with (Z.ones 4).
  set (N := _ + t.(second)).
  assert (E0 : Z.land N (Z.ones 8) = t.(second)).
  { rewrite <- (Z.shiftr_0_r N). replace N with (((((((Y * 16 + t.(month)) * 64 + t.(day)) * 64 + t.(hour)) * 256
      + t.(minute))) * 2 ^ 8 + t.(second)) * 2 ^ 0 + 0) by (unfold N; lia). apply field_at; lia. }
  assert (E1 : Z.land (Z.shiftr N 8) (Z.ones 6) = t.(minute)).
  { replace N with (((((((Y * 16 + t.(month)) * 64 + t.(day)) * 64 + t.(hour)) * 4) * 2 ^ 6 + t.(minute))) * 2 ^ 8
      + t.(second)) by (unfold N; lia). apply field_at; lia. }
  assert (E2 : Z.land (Z.shiftr N 16) (Z.ones 6) = t.(hour)).
  { replace N with (((((Y * 16 + t.(month)) * 64 + t.(day)) * 2 ^ 6 + t.(hour))) * 2 ^ 16
      + (t.(minute) * 256 + t.(second))) by (unfold N; lia). apply field_at; lia. }
  assert (E3 : Z.land (Z.shiftr N 22) (Z.ones 6) = t.(day)).
  { replace N with (((Y * 16 + t.(month)) * 2 ^ 6 + t.(day)) * 2 ^ 22
      + (t.(hour) * 65536 + t.(minute) * 256 + t.(second))) by (unfold N; lia). apply field_at; lia. }
  assert (E4 : Z.land (Z.shiftr N 28) (Z.ones 4) = t.(month)).
  { replace N with ((Y * 2 ^ 4 + t.(month)) * 2 ^ 28
      + (t.(day) * 4194304 + t.(hour) * 65536 + t.(minute) * 256 + t.(second))) by (unfold N; lia).
    apply field_at; lia. }
  assert (E5 : Z.shiftr N 32 = Y).
  { replace N with (Y * 2 ^ 32 + (t.(month) * 268435456 + t.(day) * 4194304 + t.(hour) * 65536
      + t.(minute) * 256 + t.(second))) by (unfold N; lia).
    rewrite Z.shiftr_div_pow2, Z.div_add_l, Z.div_small by lia. lia. }
  rewrite E0, E1, E2, E3, E4, E5, !u8_id, u32_id by lia. done.
Qed.

(** The clock holds two decimal digits per register. *)
Definition bcd (n : Z) : Z := 16 * (n / 10) + n mod 10.

Lemma bcd2dec_bcd n : 0 <= n < 100 -> bcd2dec (bcd n) = n.
Proof.
  intros H. apply Z.eqb_eq. revert n H. change 100 with (Z.of_nat 100). by apply below_spec.
Qed.

(** ** Properties *)

(** [init_idt] installs the 48 exception and interrupt gates and the system
    call gate: the processor finds the address of the handler in two halves of
    the entry, only the system call can be raised from user mode, and no other
    entry changes. *)
Theorem init_idt_installs (intr_handler : Z -> Z) (syscall_pre_handler : Z) (IDT : list idt_entry) :
  zlen IDT = 256 -> (forall nr, 0 <= intr_handler nr < 4294967296) ->
  0 <= syscall_pre_handler < 4294967296 ->
  exists IDT', init_idt intr_handler syscall_pre_handler IDT = Some IDT' /\
    (forall nr, 0 <= nr < 48 -> exists e, IDT'.[nr] = Some e /\ entry_offset e = intr_handler nr /\
       e.(seg_selector) = selector_code /\ e.(flags) = 0x8e) /\
    (exists e, IDT'.[0x99] = Some e /\ entry_offset e = syscall_pre_handler /\ e.(flags) = 0xee) /\
    (forall nr, 48 <= nr -> nr <> 0x99 -> IDT'.[nr] = IDT.[nr]).
Proof.
  intros Hz Hh Hs. destruct (init_idt_spec intr_handler syscall_pre_handler IDT Hz) as (T & H1 & _ & H2).
  exists T. split; [done|]. split_and!.
  - intros nr Hnr. rewrite H2 by lia. destruct (nr =? 0x99) eqn:E; zbool; [lia|].
    destruct (nr <? 48) eqn:E2; zbool; [|lia]. eexists. split; [reflexivity|].
    split; [by apply entry_offset_set|done].
  - rewrite H2 by lia. eexists. split; [reflexivity|]. split; [by apply entry_offset_set|done].
  - intros nr Hnr Hne. rewrite H2 by lia. destruct (nr =? 0x99) eqn:E; zbool; [lia|].
    destruct (nr <? 48) eqn:E2; zbool; [lia|done].
Qed.

Lemma init_idt_installs_witness :
  exists IDT', init_idt (fun nr => 0x20000 + 16 * (nr mod 256)) 0x12345678 (replicate 256 (mk_idt_entry 0 0 0 0 0)) = Some IDT' /\
    exists e, IDT'.[33] = Some e /\ entry_offset e = 0x20210.
Proof.
  destruct (init_idt_installs (fun nr => 0x20000 + 16 * (nr mod 256)) 0x12345678
    (replicate 256 (mk_idt_entry 0 0 0 0 0))) as (T & H1 & H2 & _).
  - reflexivity.
  - intros nr. pose proof (Z.mod_pos_bound nr 256). lia.
  - lia.
  - exists T. split; [exact H1|]. destruct (H2 33) as (e & He & Ho & _); [lia|].
    exists e. split; [exact He|]. rewrite Ho. reflexivity.
Defined.

(** [install_page] maps the first 528 pages to themselves, and maps the page
    tables where the memory manager looks for them: the virtual addresses that
    [vaddr2pde] and [vaddr2pte] compute ([pte_slot]) are translated to the entries of the page
    directory and of the first page table. *)
Theorem install_page_maps (m : mem) (v : Z) :
  0 <= v < 4194304 ->
  let m' := install_page m in
  (v < 528 * 4096 -> walk m' page_dir_base v = Some v) /\
  walk m' page_dir_base (vaddr2pde v) = Some page_dir_base /\
  walk m' page_dir_base (pte_slot v) = Some (page_dir_base + 4096 + 4 * (v / 4096)).
Proof.
  intros Hv m'. destruct (install_page_spec m) as (H0 & H1 & H2 & H3 & _). fold m' in H0, H1, H2, H3.
  rewrite vaddr2pde_eq, pte_slot_eq by lia.
  pose proof (Z.div_mod v 4096) as Hd. pose proof (Z.mod_pos_bound v 4096) as Hb.
  assert (Hq : 0 <= v / 4096 < 1024) by lia.
  unfold walk. split_and!.
  - intros Hv'. rewrite (Z.div_small v 4194304), Z.mul_0_r, Z.add_0_r, H0 by lia.
    change (truth (Z.land 0x101007 P)) with true. cbv iota.
    change (0x101007 - 0x101007 mod 4096) with (page_dir_base + 4096).
    rewrite (Z.mod_small (v / 4096)), H3 by lia.
    assert (Hl : Z.land (4096 * (v / 4096) + 7) P = 1).
    { change P with (Z.ones 1). rewrite land_low by lia.
      replace (4096 * (v / 4096) + 7) with (1 + (2048 * (v / 4096) + 3) * 2 ^ 1) by lia.
      by rewrite Z.mod_add by lia. }
    rewrite Hl. change (truth 1) with true. cbv iota. f_equal.
    replace (4096 * (v / 4096) + 7) with (7 + (v / 4096) * 4096) by lia. rewrite Z.mod_add by lia.
    change (7 mod 4096) with 7. lia.
  - rewrite (Z.div_small v 4194304), Z.mul_0_r, Z.add_0_r by lia.
    change (0xfffff000 / 4194304) with 1023. rewrite H1.
    change (truth (Z.land 0x100007 P)) with true. cbv iota.
    change (0x100007 - 0x100007 mod 4096) with page_dir_base.
    change ((0xfffff000 / 4096) mod 1024) with 1023. rewrite H1. reflexivity.
  - replace ((0xffc00000 + 4 * (v / 4096)) / 4194304) with 1023
      by (apply Z.div_unique with (4 * (v / 4096)); lia).
    rewrite H1. change (truth (Z.land 0x100007 P)) with true. cbv iota.
    change (0x100007 - 0x100007 mod 4096) with page_dir_base.
    replace ((0xffc00000 + 4 * (v / 4096)) / 4096) with (0xffc00 + 0)
      by (apply Z.div_unique with (4 * (v / 4096)); lia).
    change ((0xffc00 + 0) mod 1024) with 0. rewrite Z.mul_0_r, Z.add_0_r, H0.
    change (truth (Z.land 0x101007 P)) with true. cbv iota.
    change (0x101007 - 0x101007 mod 4096) with (page_dir_base + 4096). f_equal.
    assert (Hm : (0xffc00000 + 4 * (v / 4096)) mod 4096 = 4 * (v / 4096)).
    { symmetry. apply Z.mod_unique with 0xffc00; lia. }
    rewrite Hm. lia.
Qed.

Lemma install_page_maps_witness :
  walk (install_page ∅) page_dir_base (pte_slot 0x20fabc) = Some (page_dir_base + 4096 + 4 * (0x20fabc / 4096)).
Proof. apply (install_page_maps ∅ 0x20fabc). lia. Defined.

(** C39.  A time survives its coding as a number when its month is before August.
    From August on the shift of the month sets the sign bit of an [int], and the
    year read back is 4294967295. *)
Theorem time_roundtrip (t : time) :
  valid_time t ->
  num2time (time2num t) =
    if t.(month) <? 8 then t else mk_time t.(second) t.(minute) t.(hour) t.(day) t.(month) 4294967295.
Proof.
  intros Ht. rewrite num2time_time2num by done. unfold year_field. destruct (t.(month) <? 8); [by destruct t|done].
Qed.

Lemma time_roundtrip_witness :
  num2time (time2num (mk_time 59 59 23 31 12 2018)) = mk_time 59 59 23 31 12 4294967295.
Proof. apply (time_roundtrip (mk_time 59 59 23 31 12 2018)). repeat split; cbn; lia. Defined.
