(* ===== verification/KernelMain.v ===== *)
(** * The kernel process and the start of the system (kernel/main.cc, kernel/process.cc, kernel/timer.cc)

    [main] sets the machine up and starts the processes; [kernel_work] is the loop
    of the kernel process, here one request at a time.  Printing is left out; the
    requests that wait for another process end in a [kernel_next] that says what
    is still to be done. *)
From S2P Require Import Prelude Mem Paging Machine Process Scheduler Ipc.
From S2P Require CString.

Definition MM : Z := 0x91000.
Definition FS : Z := 0x92000.
Definition KR : Z := 0x93000.
Definition DR : Z := 0x94000.
Definition NET : Z := 0x95000.
Definition TER : Z := 0x96000.

(** Strings as the compiler stores them, with what follows in memory. *)
Definition name_idle : list Z := [105; 100; 108; 101].
Definition name_mm : list Z := [109; 109].
Definition name_fs : list Z := [102; 115].
Definition name_dr : list Z := [100; 114].
Definition name_net : list Z := [110; 101; 116].
Definition name_terminal : list Z := [116; 101; 114; 109; 105; 110; 97; 108].
Definition name_kernel : list Z := [107; 101; 114; 110; 101; 108].
Definition name_user : list Z := [85; 83; 69; 82; 95; 67; 82; 69; 65; 84; 69].

Section main.
(** The addresses of the code, and the memory of the future PCBs. *)
Context (idle_process kernel_work init_userprocess : Z) (raws : Z -> pcb).

(** [start_process] on the raw memory at [proc]. *)
Definition start_at (k : kernel) (nm : list Z) (pid priority func proc : Z) : option kernel :=
  start_process (before_start k proc (raws proc)) (CString.cstr nm []) pid priority func NULL proc.

Definition start_user_at (k : kernel) (nm : list Z) (pid priority func proc userstack : Z) : option kernel :=
  start_userprocess (before_start k proc (raws proc)) (CString.cstr nm []) pid priority func proc userstack
    init_userprocess.

(** The processes [main] starts. *)
Definition start_all (k : kernel) : option kernel :=
  k ← start_at k name_idle 1 PRIORITY_E idle_process 0x99000;
  k ← start_user_at k name_mm 2 PRIORITY_B 0x20000 MM (MM - 0x10000 + 0xfff);
  k ← start_user_at k name_fs 3 PRIORITY_B 0x30000 FS (FS - 0x10000 + 0xfff);
  k ← start_user_at k name_dr 4 PRIORITY_A 0x40000 DR (DR - 0x10000 + 0xfff);
  k ← start_user_at k name_net 5 PRIORITY_C 0x50000 NET (NET - 0x10000 + 0xfff);
  k ← start_user_at k name_terminal 6 PRIORITY_C 0x60000 TER (TER - 0x10000 + 0xfff);
  start_at k name_kernel 7 PRIORITY_C kernel_work KR.

(** [main]: the memory of the page tables and descriptors, the interrupt tables,
    and the processes.  [tss] and [timer_handler] are addresses. *)
Definition main (intr_handler : Z -> Z) (syscall_pre_handler timer_handler tss : Z)
    (m : mem) (IDT : list idt_entry) (real_handlers : list Z) (k : kernel)
  : option (mem * list idt_entry * list Z * kernel) :=
  let m := install_page m in
  IDT ← init_idt intr_handler syscall_pre_handler IDT;
  '(real_handlers, _) ← init_pit real_handlers timer_handler;
  let m := install_tss m tss in
  k ← init_pm k;
  k ← deal_init_process k 0;
  k ← start_all k;
  Some (m, IDT, real_handlers, k).

(** ** kernel/process.cc, user processes *)

Record intr_stack := mk_intr_stack {
  is_gs : Z; is_fs : Z; is_es : Z; is_ds : Z;
  is_ip : Z; is_cs : Z; is_eflags : Z; is_esp : Z; is_ss : Z;
}.

Definition SELECTOR_U_DATA : Z := Z.shiftl 5 3 + 3.
Definition SELECTOR_U_CODE : Z := Z.shiftl 4 3 + 3.
Definition SELECTOR_GS : Z := Z.shiftl 6 3 + 3.
Definition EF_MBS : Z := Z.shiftl 1 1.
Definition EF_IF_ON : Z := Z.shiftl 1 9.
Definition EF_IOPL_ON : Z := Z.shiftl 3 12.

(** [init_userprocess(func)], run by a new user process on its kernel stack: the
    address and the contents of the interrupt frame it returns through (the
    general registers are 0). *)
Definition user_frame (k : kernel) (func : Z) : option (Z * intr_stack) :=
  let cur := get_current_proc k in
  p ← get_pcb k cur;
  Some (u32 (cur + sizeof_pcb),
    mk_intr_stack SELECTOR_GS SELECTOR_U_DATA SELECTOR_U_DATA SELECTOR_U_DATA func SELECTOR_U_CODE
      (Z.lor (Z.lor EF_MBS EF_IOPL_ON) EF_IF_ON) p.(userstack) SELECTOR_U_DATA).

(** [create_process(func)] once the memory manager has answered both requests:
    [pcb] and [userstack] are the results of [malloc]. *)
Definition create_user_process (k : kernel) (func pcb userstack : Z) : option kernel :=
  start_userprocess (before_start k pcb (raws pcb)) (CString.cstr name_user []) (-1) PRIORITY_D func pcb userstack
    init_userprocess.

(** ** kernel_work *)

Definition REGR_INTR : Z := 1.
Definition SLEEP : Z := 2.
Definition GET_TIME : Z := 3.
Definition CREATE_PROC : Z := 4.
Definition CMD_PS : Z := 256.
Definition CMD_HALT : Z := 257.
Definition CMD_POWEROFF : Z := 258.
Definition CMD_REBOOT : Z := 259.

Inductive kernel_next :=
| Receive                                (* back to the start of the loop *)
| Sleeping (start_time slp_ticks : Z)    (* in [sleep_seconds]; then a reply *)
| Allocating (func : Z)                  (* in [create_process], waiting for the memory manager *)
| Halted
| PoweredOff
| Rebooting.

(** The reply to [GET_TIME]; [c4] is the uninitialised fourth word. *)
Definition time_context (cur_time : time) (c4 : Z) : context :=
  mk_context
    (u32 (Z.lor (Z.lor (Z.lor cur_time.(second) (Z.shiftl cur_time.(minute) 8))
            (Z.shiftl cur_time.(hour) 16)) (Z.shiftl cur_time.(day) 24)))
    (Z.land cur_time.(month) 0xff) cur_time.(year) c4.

(** What the loop does with the request in [msg]. *)
Definition kernel_request (fuel : nat) (cmos : Z -> Z) (c4 : Z) (real_handlers : list Z) (k : kernel) (msg : Z)
  : option (list Z * kernel * kernel_next) :=
  m ← get_msg k msg;
  if m.(type) =? REGR_INTR then
    real_handlers ← register_intr_handler real_handlers m.(ctx).(con_1) m.(ctx).(con_2);
    k ← reply fuel k msg; Some (real_handlers, k, Receive)
  else if m.(type) =? SLEEP then
    Some (real_handlers, k, Sleeping k.(timer_ticks) (u32 (m.(ctx).(con_1) * 500)))
  else if m.(type) =? GET_TIME then
    k ← reset_message k msg 1 (time_context (get_cmos_time cmos) c4);
    k ← reply fuel k msg; Some (real_handlers, k, Receive)
  else if m.(type) =? CREATE_PROC then Some (real_handlers, k, Allocating m.(ctx).(con_1))
  else if m.(type) =? CMD_PS then
    _ ← ps k;
    k ← reply fuel k msg; Some (real_handlers, k, Receive)
  else if m.(type) =? CMD_HALT then Some (real_handlers, k, Halted)
  else if m.(type) =? CMD_POWEROFF then Some (real_handlers, k, PoweredOff)
  else if m.(type) =? CMD_REBOOT then Some (real_handlers, k, Rebooting)
  else Some (real_handlers, k, Receive).

(** One turn of the loop of [sleep_seconds]: [true] when the time is over. *)
Definition sleep_turn (fuel : nat) (k : kernel) (start_time slp_ticks : Z) : option (bool * kernel) :=
  if u32 (k.(timer_ticks) - start_time) <? slp_ticks then k ← proc_yield fuel k; Some (false, k)
  else Some (true, k).
End main.

(** ** Starting the system *)

Section boot.
Context (idle_process kernel_work init_userprocess : Z) (raws : Z -> pcb) (base : Z).
Context (Hraws : forall a, zlen (raws a).(name) = 16).
Context (Hb1 : 0x10000 <= base) (Hb2 : base + 96 <= 0x20000).

Abbreviation entry := (Z * Z * Z)%type.

(** The state during the start: [tbl] lists pid, priority and PCB of the processes
    started so far. *)
Record booting (k : kernel) (qs : Z -> list Z) (tbl : list entry) : Prop := {
  bo_inv : kinv k qs;
  bo_len : zlen k.(processes) = 64;
  bo_base : k.(ready_base) = base;
  bo_cur : k.(cur_proc) = 0x80000;
  bo_pcbs : forall a c, k.(pcbs) !! a = Some c -> a ∈ 0x80000 :: map snd tbl;
  bo_tbl : Forall (fun '(pid, prio, a) => exists pc, k.(pcbs) !! a = Some pc /\ started pid prio pc /\
                     k.(processes).[pid] = Some a) tbl;
}.

(** The PCBs lie in pages of their own above the ready queues, which are part of the
    kernel (kernel/link.ld puts it at 0x10000, the memory manager follows at
    0x20000). *)
Definition placed (tbl : list entry) (pid prio a : Z) : Prop :=
  0x81000 <= a <= 0x99000 /\ 0 <= pid < 64 /\ 0 <= prio < 5 /\
  Forall (fun '(pid', _, a') => pid' <> pid /\ CycleList.CycleList.apart a a') tbl.

Lemma append_ready_frame k p pr k' : append_ready k p pr = Some k' ->
  processes k' = processes k /\ ready_base k' = ready_base k.
Proof. unfold append_ready. intros H. bind_Some H. injection H as <-. by case_match. Qed.

Lemma booting_append k qs tbl pid a pc :
  booting k qs tbl -> placed tbl pid pc.(priority) a -> started pid pc.(priority) pc ->
  exists k', append_ready (with_pcbs (with_processes k (<[Z.to_nat pid := a]> k.(processes)))
      (<[a := pc]> k.(pcbs))) a pc.(priority) = Some k' /\
    booting k' (upd qs pc.(priority) (qs pc.(priority) ++ [a])) ((pid, pc.(priority), a) :: tbl).
Proof.
  intros [Hinv Hz Hbase Hcur Hpcbs Htbl] (Ha & Hpid & Hprio & Hdist) Hst.
  set (k1 := with_processes k _).
  assert (Hinv1 : kinv k1 qs) by (destruct Hinv as [[] ?]; split; [by constructor|done]).
  assert (Hap : forall a' c, k.(pcbs) !! a' = Some c -> CycleList.CycleList.apart a a').
  { intros a' c H%Hpcbs. apply elem_of_cons in H as [->|H].
    - unfold CycleList.CycleList.apart. lia.
    - apply list_elem_of_fmap in H as ([[pid' prio'] a''] & -> & H).
      rewrite Forall_forall in Hdist. by apply (Hdist _ H). }
  assert (Hnew : k.(pcbs) !! a = None).
  { destruct (k.(pcbs) !! a) eqn:E; [|done]. apply Hap in E. unfold CycleList.CycleList.apart in E. lia. }
  destruct (append_ready_spec k1 qs a pc Hinv1 Hnew) as (k' & H & Hk' & Hp' & Hc').
  - unfold CycleList.CycleList.elem_addr. lia.
  - done.
  - apply Hst.
  - intros j Hj. change (ready_processes k1 j) with (ready_base k + 16 * j). rewrite Hbase.
    unfold CycleList.CycleList.apart, CycleList.CycleList.head, CycleList.CycleList.tail. lia.
  - exact Hap.
  - exists k'. split; [exact H|]. destruct (append_ready_frame _ _ _ _ H) as [Hf1 Hf2].
    change (processes k' = <[Z.to_nat pid := a]> (processes k)) in Hf1.
    change (ready_base k' = ready_base k) in Hf2. constructor.
    + exact Hk'.
    + by rewrite Hf1, zlen_insert.
    + by rewrite Hf2.
    + by rewrite Hc'.
    + intros a' c. rewrite Hp', lookup_insert_Some. cbn [map snd].
      intros [(<- & _)|(_ & H')]; [set_solver|]. apply Hpcbs in H'. set_solver.
    + rewrite Hf1, Hp'. constructor.
      * exists pc. rewrite lookup_insert_eq, zget_insert, Z.eqb_refl by lia. done.
      * apply Forall_forall. intros [[pid' prio'] a'] Hin. rewrite Forall_forall in Htbl, Hdist.
        destruct (Htbl _ Hin) as (pc' & Hpc' & Hst' & Hpr'). destruct (Hdist _ Hin) as [Hne Hap'].
        assert (0 <= pid') by (apply zget_lt in Hpr'; lia).
        exists pc'. rewrite lookup_insert_ne; [|unfold CycleList.CycleList.apart in Hap'; lia].
        rewrite zget_insert by lia. destruct (pid =? pid') eqn:E; zbool; [congruence|done].
Qed.

Lemma name_copied a nm : CString.is_str nm -> zlen nm <= 16 ->
  exists n1 n2, CString.memset (raws a).(name) 0 0 16 = Some n1 /\
    CString.strcpy n1 0 (CString.cstr nm []) = Some n2.
Proof.
  intros Hs Hl. destruct (CString.memset_ok (raws a).(name) 0 0 16) as (n1 & H1 & Hz1); [lia|rewrite Hraws; lia|].
  destruct (CString.strcpy_ok n1 0 nm [] Hs) as (n2 & H2 & _); [lia|rewrite Hz1, Hraws; lia|].
  exists n1, n2. auto.
Qed.

(** Through the entry in [processes] and [init_process_info]. *)
Ltac start_tac Hnm :=
  unfold append_all_array;
  match goal with |- context [0 <=? ?p] => destruct (0 <=? p) eqn:E; zbool; [|lia] end;
  cbn [processes before_start with_pcbs]; rewrite zset_in by lia; sbind;
  unfold init_process_info, get_pcb; cbn [pcbs with_processes before_start with_pcbs];
  rewrite lookup_insert_eq; sbind;
  destruct Hnm as (n1 & n2 & -> & H2); sbind; rewrite H2; sbind.

Lemma booting_start_at k qs tbl nm pid prio func a :
  booting k qs tbl -> placed tbl pid prio a -> CString.is_str nm -> zlen nm <= 16 ->
  exists k', start_at raws k nm pid prio func a = Some k' /\
    booting k' (upd qs prio (qs prio ++ [a])) ((pid, prio, a) :: tbl).
Proof.
  intros Hbo Hpl Hs Hl. pose proof (bo_len _ _ _ Hbo) as Hz. pose proof Hpl as (Ha & Hpid & Hprio & _).
  pose proof (name_copied a nm Hs Hl) as Hnm. unfold start_at, start_process.
  start_tac Hnm.
  unfold create_process, get_pcb. cbn [pcbs with_pcbs]. rewrite lookup_insert_eq. sbind.
  rewrite !insert_insert_eq.
  match goal with |- context [append_ready (with_pcbs _ (<[a := ?x]> _)) _ _] => set (pc := x) end.
  apply (booting_append k qs tbl pid a pc Hbo Hpl).
  unfold started, pc, priority2ticks, PRIORITY_KIND. cbn.
  rewrite (u32_id pid), (u32_id (5 - prio)), (u32_id (_ * 8)) by lia. done.
Qed.

Lemma booting_start_user_at k qs tbl nm pid prio func a userstack :
  booting k qs tbl -> placed tbl pid prio a -> CString.is_str nm -> zlen nm <= 16 ->
  exists k', start_user_at init_userprocess raws k nm pid prio func a userstack = Some k' /\
    booting k' (upd qs prio (qs prio ++ [a])) ((pid, prio, a) :: tbl).
Proof.
  intros Hbo Hpl Hs Hl. pose proof (bo_len _ _ _ Hbo) as Hz. pose proof Hpl as (Ha & Hpid & Hprio & _).
  pose proof (name_copied a nm Hs Hl) as Hnm. unfold start_user_at, start_userprocess.
  start_tac Hnm.
  unfold upd_pcb, get_pcb. cbn [pcbs with_pcbs]. rewrite lookup_insert_eq. sbind.
  unfold create_process, get_pcb. cbn [pcbs with_pcbs]. rewrite lookup_insert_eq. sbind.
  rewrite !insert_insert_eq.
  match goal with |- context [append_ready (with_pcbs _ (<[a := ?x]> _)) _ _] => set (pc := x) end.
  apply (booting_append k qs tbl pid a pc Hbo Hpl).
  unfold started, pc, priority2ticks, PRIORITY_KIND. cbn.
  rewrite (u32_id pid), (u32_id (5 - prio)), (u32_id (_ * 8)) by lia. done.
Qed.
End boot.

Lemma is_str_names : CString.is_str name_idle /\ CString.is_str name_mm /\ CString.is_str name_fs /\
  CString.is_str name_dr /\ CString.is_str name_net /\ CString.is_str name_terminal /\ CString.is_str name_kernel.
Proof. repeat split; repeat constructor; unfold is_u8; lia. Qed.

(** The processes after the start, the last one first. *)
Definition boot_table : list (Z * Z * Z) :=
  [(7, PRIORITY_C, KR); (6, PRIORITY_C, TER); (5, PRIORITY_C, NET); (4, PRIORITY_A, DR);
   (3, PRIORITY_B, FS); (2, PRIORITY_B, MM); (1, PRIORITY_E, 0x99000)].

Ltac placed_tac := unfold placed, CycleList.CycleList.apart, PRIORITY_A, PRIORITY_B, PRIORITY_C, PRIORITY_E, MM, FS, DR, NET, TER, KR;
  split_and!; [lia..|]; repeat constructor; lia.
Ltac short_tac := vm_compute; discriminate.

Lemma start_all_spec idle kwork inituser raws base k :
  (forall a, zlen (raws a).(name) = 16) -> 0x10000 <= base -> base + 96 <= 0x20000 ->
  booting base k (upd (fun _ => []) 4 [0x80000]) [] ->
  exists k' qs, start_all idle kwork inituser raws k = Some k' /\ booting base k' qs boot_table /\
    map qs [0; 1; 2; 3; 4] = [[DR]; [MM; FS]; [NET; TER; KR]; []; [0x80000; 0x99000]].
Proof.
  intros Hraws Hb1 Hb2 H0. destruct is_str_names as (I1 & I2 & I3 & I4 & I5 & I6 & I7).
  unfold start_all.
  edestruct (booting_start_at raws base Hraws Hb1 Hb2 k _ _ name_idle 1 PRIORITY_E idle 0x99000 H0)
    as (k1 & -> & H1); [placed_tac|done|short_tac|]. sbind.
  edestruct (booting_start_user_at inituser raws base Hraws Hb1 Hb2 k1 _ _ name_mm 2 PRIORITY_B 0x20000 MM (MM - 0x10000 + 0xfff) H1)
    as (k2 & -> & H2); [placed_tac|done|short_tac|]. sbind.
  edestruct (booting_start_user_at inituser raws base Hraws Hb1 Hb2 k2 _ _ name_fs 3 PRIORITY_B 0x30000 FS (FS - 0x10000 + 0xfff) H2)
    as (k3 & -> & H3); [placed_tac|done|short_tac|]. sbind.
  edestruct (booting_start_user_at inituser raws base Hraws Hb1 Hb2 k3 _ _ name_dr 4 PRIORITY_A 0x40000 DR (DR - 0x10000 + 0xfff) H3)
    as (k4 & -> & H4); [placed_tac|done|short_tac|]. sbind.
  edestruct (booting_start_user_at inituser raws base Hraws Hb1 Hb2 k4 _ _ name_net 5 PRIORITY_C 0x50000 NET (NET - 0x10000 + 0xfff) H4)
    as (k5 & -> & H5); [placed_tac|done|short_tac|]. sbind.
  edestruct (booting_start_user_at inituser raws base Hraws Hb1 Hb2 k5 _ _ name_terminal 6 PRIORITY_C 0x60000 TER (TER - 0x10000 + 0xfff) H5)
    as (k6 & -> & H6); [placed_tac|done|short_tac|]. sbind.
  edestruct (booting_start_at raws base Hraws Hb1 Hb2 k6 _ _ name_kernel 7 PRIORITY_C kwork KR H6)
    as (k7 & -> & H7); [placed_tac|done|short_tac|].
  eexists k7, _. split; [done|]. split; [exact H7|]. reflexivity.
Qed.

(** ** Properties *)

Lemma main_spec (idle kwork inituser : Z) (raws : Z -> pcb) (intr_handler : Z -> Z)
    (syscall timer tss : Z) (m : mem) (IDT : list idt_entry) (handlers : list Z) (k : kernel) :
  (forall a, zlen (raws a).(name) = 16) -> zlen IDT = 256 -> zlen handlers = 256 ->
  k.(pcbs) = {[0x80000 := raws 0x80000]} -> zlen k.(processes) = 64 ->
  0x10000 <= k.(ready_base) -> k.(ready_base) + 96 <= 0x20000 ->
  exists m' IDT' handlers' k' qs,
    main idle kwork inituser raws intr_handler syscall timer tss m IDT handlers k = Some (m', IDT', handlers', k') /\
    handlers'.[0x20] = Some timer /\
    kinv k' qs /\ k'.(cur_proc) = 0x80000 /\
    map qs [0; 1; 2; 3; 4] = [[DR]; [MM; FS]; [NET; TER; KR]; []; [0x80000; 0x99000]] /\
    Forall (fun '(pid, prio, a) => exists pc, k'.(pcbs) !! a = Some pc /\ started pid prio pc /\
              k'.(processes).[pid] = Some a) boot_table.
Proof.
  intros Hr Hi Hh Hp Hz Hb1 Hb2. unfold main.
  destruct (init_idt_spec intr_handler syscall IDT Hi) as (IDT' & -> & _ & _). sbind.
  unfold init_pit, register_intr_handler. rewrite zset_in by lia. sbind.
  destruct (boot_spec k (raws 0x80000)) as (k1 & k2 & -> & H2 & Hk & Hc & Hz2 & Hb & Hpc); auto; [lia|].
  sbind. rewrite H2. sbind.
  destruct (start_all_spec idle kwork inituser raws k.(ready_base) k2 Hr Hb1 Hb2) as (k' & qs & -> & Hbo & Hqs).
  { constructor; auto. intros a c Ha. apply Hpc in Ha as ->. set_solver. }
  sbind. eexists _, _, _, k', qs. split; [reflexivity|].
  split; [rewrite zget_insert by lia; done|].
  split; [apply Hbo|]. split; [apply Hbo|]. split; [done|]. apply Hbo.
Qed.

(** C20.  The system starts: from cleared tables, with the ready queues in the
    kernel's own memory (0x10000 to 0x20000, where kernel/link.ld puts it), [main] sets up paging, the
    interrupt table and the descriptor of the task state segment without an
    invalid access, and reaches a state that satisfies the kernel invariant, in
    which [init] runs and the seven other processes are ready, each in the queue
    of its priority, with its pid entered in [processes]. *)
Theorem system_starts (idle kwork inituser : Z) (raws : Z -> pcb) (intr_handler : Z -> Z)
    (syscall timer tss : Z) (m : mem) (IDT : list idt_entry) (handlers : list Z) (k : kernel) :
  (forall a, zlen (raws a).(name) = 16) -> zlen IDT = 256 -> zlen handlers = 256 ->
  k.(pcbs) = {[0x80000 := raws 0x80000]} -> zlen k.(processes) = 64 ->
  0x10000 <= k.(ready_base) -> k.(ready_base) + 96 <= 0x20000 ->
  exists m' IDT' handlers' k' qs,
    main idle kwork inituser raws intr_handler syscall timer tss m IDT handlers k = Some (m', IDT', handlers', k') /\
    handlers'.[0x20] = Some timer /\
    kinv k' qs /\ k'.(cur_proc) = 0x80000 /\
    map qs [0; 1; 2; 3; 4] = [[DR]; [MM; FS]; [NET; TER; KR]; []; [0x80000; 0x99000]] /\
    Forall (fun '(pid, prio, a) => exists pc, k'.(pcbs) !! a = Some pc /\ started pid prio pc /\
              k'.(processes).[pid] = Some a) boot_table.
Proof. apply main_spec. Qed.

Definition boot_kernel2 : kernel :=
  mk_kernel {[0x80000 := raw_pcb]} ∅ ∅ 0x18000 [] (replicate 64 0) 0 0 0 0 0.

Lemma system_starts_witness :
  exists m' IDT' handlers' k', main 0x9000 0x9100 0x9200 (fun _ => raw_pcb) (fun nr => 16 * nr) 0x9300 0x9400 0x9500 ∅
      (replicate 256 (mk_idt_entry 0 0 0 0 0)) (replicate 256 0) boot_kernel2 = Some (m', IDT', handlers', k') /\
    k'.(cur_proc) = 0x80000.
Proof.
  destruct (system_starts 0x9000 0x9100 0x9200 (fun _ => raw_pcb) (fun nr => 16 * nr) 0x9300 0x9400 0x9500 ∅
      (replicate 256 (mk_idt_entry 0 0 0 0 0)) (replicate 256 0) boot_kernel2)
    as (m' & IDT' & h' & k' & qs & H1 & _ & _ & H2 & _).
  - intros a. reflexivity.
  - reflexivity.
  - reflexivity.
  - reflexivity.
  - reflexivity.
  - cbn. lia.
  - cbn. lia.
  - exists m', IDT', h', k'. auto.
Defined.
