(* ===== verification/Syscalls.v ===== *)
(** * The system calls of the user library (lib/all_syscall.cc)

    Each function fills a message, sends it to a system process and takes its
    result from the reply.  What a process can do is the class [Ipc]: exchange a
    message, and access its memory; the functions are written against the class.
    A context that the code leaves uninitialised has the value [u]. *)
From S2P Require Import Prelude Mem Paging Process Scheduler Ipc Machine KernelMain.
From S2P Require SmallBlocks.

(** The state of a process together with everything that can answer it. *)
Class Ipc (S : Type) := {
  send_then_recv : Z -> Z -> context -> S -> option (context * S);   (* destination, type *)
  send_msg : Z -> Z -> context -> S -> option S;
  peek : S -> Z -> Z;
  poke : S -> Z -> Z -> S;
}.

Module dr.
Definition IDEN : Z := 1.
Definition OPEN : Z := 2.
Definition READ : Z := 3.
Definition WRITE : Z := 4.
Definition PRINT_PART : Z := 5.
Definition ASK_DISK : Z := 6.
Definition SEND_PKT : Z := 7.
Definition GET_MAC : Z := 8.
Definition WHERE_KEYBOARD_BUFFER : Z := 9.
Definition WHERE_NET_BUFFER : Z := 10.
End dr.

Module fs.
Definition MKDIR : Z := 1.
Definition RMDIR : Z := 2.
Definition OPEN_FILE : Z := 3.
Definition CLOSE_FILE : Z := 4.
Definition WRITE_FILE : Z := 5.
Definition READ_FILE : Z := 6.
Definition MKFILE : Z := 7.
Definition RMFILE : Z := 8.
Definition LSEEK_FILE : Z := 9.
Definition IS_EOF : Z := 10.
Definition GET_CUR_DIR : Z := 11.
End fs.

Module net.
Definition LISTEN : Z := 6.
Definition SEND : Z := 7.
Definition ACCEPT : Z := 8.
Definition RECV : Z := 9.
Definition CLOSE : Z := 10.
End net.

(** The time [get_current_time] takes from the reply. *)
Definition reply_time (con_ret : context) : time :=
  mk_time (u8 (Z.land con_ret.(con_1) 0xff)) (u8 (Z.land (Z.shiftr con_ret.(con_1) 8) 0xff))
    (u8 (Z.land (Z.shiftr con_ret.(con_1) 16) 0xff)) (u8 (Z.land (Z.shiftr con_ret.(con_1) 24) 0xff))
    (u8 (Z.land con_ret.(con_2) 0xff)) con_ret.(con_3).

Section calls.
Context {St : Type} `{Ipc St} (u : context).

Definition con1 (a : Z) : context := mk_context a u.(con_2) u.(con_3) u.(con_4).
Definition con2 (a b : Z) : context := mk_context a b u.(con_3) u.(con_4).
Definition con3 (a b c : Z) : context := mk_context a b c u.(con_4).

(** An exchange of which the function uses the first word, or nothing. *)
Definition ask (dest type : Z) (con : context) (s : St) : option (Z * St) :=
  '(c, s) ← send_then_recv dest type con s; Some (c.(con_1), s).
Definition tell (dest type : Z) (con : context) (s : St) : option St :=
  '(_, s) ← send_then_recv dest type con s; Some s.

Definition malloc (cnt : Z) : St -> option (Z * St) := ask MM SmallBlocks.MALLOC (con1 cnt).
Definition free (addr : Z) : St -> option St := tell MM SmallBlocks.FREE (con1 addr).

Definition get_keyboard_buffer : St -> option (Z * St) := ask DR dr.WHERE_KEYBOARD_BUFFER u.
Definition get_net_buffer : St -> option (Z * St) := ask DR dr.WHERE_NET_BUFFER u.
Definition read_disk (disk_nr lba buf cnt : Z) : St -> option St := tell DR dr.READ (mk_context disk_nr lba buf cnt).
Definition write_disk (disk_nr lba str cnt : Z) : St -> option St := tell DR dr.WRITE (mk_context disk_nr lba str cnt).
Definition print_partition_info (disk_nr : Z) : St -> option St := tell DR dr.PRINT_PART (con1 disk_nr).
Definition get_disk (disk_nr : Z) : St -> option (Z * St) := ask DR dr.ASK_DISK (con1 disk_nr).
Definition send_packet (pkt : Z) : St -> option St := tell DR dr.SEND_PKT (con1 pkt).

Fixpoint copy_bytes (n : nat) (dst src : Z) (s : St) : St :=
  match n with
  | O => s
  | S n' => copy_bytes n' (dst + 1) (src + 1) (poke s dst (peek s src))
  end.

Definition get_mac_addr (mac_addr : Z) (s : St) : option St :=
  '(a, s) ← ask DR dr.GET_MAC u s; Some (copy_bytes 6 mac_addr a s).

Definition sys_register_intr_handler (intr_num handler : Z) : St -> option St :=
  tell KR REGR_INTR (con2 intr_num handler).

Definition get_current_time (s : St) : option (Z * St) :=
  '(con_ret, s) ← send_then_recv KR GET_TIME u s;
  Some (time2num (reply_time con_ret), s).

Definition sys_create_process (func : Z) : St -> option St := send_msg KR CREATE_PROC (con1 func).

Definition mkdir (path : Z) : St -> option St := tell FS fs.MKDIR (con1 path).
Definition rmdir (path : Z) : St -> option St := tell FS fs.RMDIR (con1 path).
Definition mkfile (path : Z) : St -> option St := tell FS fs.MKFILE (con1 path).
Definition rmfile (path : Z) : St -> option St := tell FS fs.RMFILE (con1 path).
Definition open (path : Z) : St -> option (Z * St) := ask FS fs.OPEN_FILE (con1 path).
Definition close (fd : Z) : St -> option St := tell FS fs.CLOSE_FILE (con1 fd).
Definition write (fd str count mode : Z) : St -> option St := tell FS fs.WRITE_FILE (mk_context fd str count mode).
Definition read (fd buf count : Z) : St -> option (Z * St) := ask FS fs.READ_FILE (con3 fd buf count).
Definition eof (fd : Z) (s : St) : option (bool * St) :=
  '(r, s) ← ask FS fs.IS_EOF (con1 fd) s; Some (truth r, s).
Definition lseek (fd offset : Z) : St -> option St := tell FS fs.LSEEK_FILE (con2 fd offset).

(** [fuel] bounds the characters of the line. *)
Fixpoint readline (fuel : nat) (fd buf : Z) (s : St) : option St :=
  match fuel with
  | O => None
  | S fuel' =>
      '(e, s) ← eof fd s;
      if (e : bool) then Some s
      else
        '(_, s) ← read fd buf 1 s;
        if 10 =? peek s buf then Some (poke s (buf + 1) 0)
        else readline fuel' fd (buf + 1) s
  end.

(** [strcpy], which does not copy the terminator; [fuel] bounds the length. *)
Fixpoint strcpy_mem (fuel : nat) (dst src : Z) (s : St) : option St :=
  match fuel with
  | O => None
  | S fuel' =>
      if truth (peek s src) then strcpy_mem fuel' (dst + 1) (src + 1) (poke s dst (peek s src))
      else Some s
  end.

Definition get_cur_dir (fuel : nat) (buf : Z) (s : St) : option St :=
  '(cur_dir, s) ← ask FS fs.GET_CUR_DIR u s; strcpy_mem fuel buf cur_dir s.

(** [src_port] is that field of the socket. *)
Definition listen (port : Z) : St -> option St := tell NET net.LISTEN (con1 port).
Definition accept (src_port : Z) : St -> option (Z * St) := ask NET net.ACCEPT (con1 src_port).
Definition recv (src_port buf len : Z) : St -> option (Z * St) := ask NET net.RECV (con3 src_port buf len).
Definition send_socket (src_port buf len : Z) : St -> option St := tell NET net.SEND (con3 src_port buf len).
Definition close_socket (src_port : Z) : St -> option St := tell NET net.CLOSE (con1 src_port).
End calls.

(** ** The memory manager as a server *)

(** What a client of the memory manager sees, [c] being the uninitialised part
    of its reply; a request of unknown type is never answered. *)
Definition mm_answer `{compiler : Compiler} (fuel : nat) (c : context) (type : Z) (con : context) (mm : MemoryManager)
  : option (context * MemoryManager) :=
  '(r, mm) ← SmallBlocks.mm_request fuel mm type con.(con_1);
  match r with
  | SmallBlocks.Reply => Some (con, mm)
  | SmallBlocks.ReplyWith a => Some (mk_context a c.(con_2) c.(con_3) c.(con_4), mm)
  | SmallBlocks.NoReply => None
  end.

Definition mm_ipc `{compiler : Compiler} (fuel : nat) (c : context) : Ipc MemoryManager := {|
  send_then_recv dest type con mm := if dest =? MM then mm_answer fuel c type con mm else None;
  send_msg _ _ _ _ := None;
  peek mm a := load8 mm.(m) a;
  poke mm a v := set_m mm (store8 mm.(m) a v);
|}.

Lemma malloc_served `{compiler : Compiler} fuel c u cnt mm :
  @malloc _ (mm_ipc fuel c) u cnt mm = SmallBlocks.malloc fuel mm cnt.
Proof.
  unfold malloc, ask. cbn [send_then_recv mm_ipc]. rewrite Z.eqb_refl. unfold mm_answer, SmallBlocks.mm_request.
  rewrite Z.eqb_refl. cbn [con_1 con1].
  by destruct (SmallBlocks.malloc fuel mm cnt) as [[]|].
Qed.

Lemma free_served `{compiler : Compiler} fuel c u addr mm :
  @free _ (mm_ipc fuel c) u addr mm = SmallBlocks.free mm addr.
Proof.
  unfold free, tell. cbn [send_then_recv mm_ipc]. rewrite Z.eqb_refl. unfold mm_answer, SmallBlocks.mm_request.
  change (SmallBlocks.FREE =? SmallBlocks.MALLOC) with false. rewrite Z.eqb_refl. cbn [con_1 con1].
  by destruct (SmallBlocks.free mm addr).
Qed.

(** ** The time of day *)

(** The registers of the clock show [t]. *)
Definition clock_shows (cmos : Z -> Z) (t : time) : Prop :=
  cmos 0x0 = bcd t.(second) /\ cmos 0x2 = bcd t.(minute) /\ cmos 0x4 = bcd t.(hour) /\
  cmos 0x7 = bcd t.(day) /\ cmos 0x8 = bcd t.(month) /\ cmos 0x9 = bcd (t.(year) - 2000).

Lemma get_cmos_time_shows cmos t :
  valid_time t -> 2000 <= t.(year) < 2100 -> clock_shows cmos t -> get_cmos_time cmos = t.
Proof.
  intros (Hs & Hmi & Hh & Hd & Hmo & _) Hy (E1 & E2 & E3 & E4 & E5 & E6).
  unfold get_cmos_time. rewrite E1, E2, E3, E4, E5, E6, !bcd2dec_bcd by lia.
  destruct t; cbn in *. f_equal. lia.
Qed.

(** The reply carries every field. *)
Lemma reply_time_context t c4 : valid_time t -> reply_time (time_context t c4) = t.
Proof.
  intros (Hs & Hmi & Hh & Hd & Hmo & Hy). unfold time_context, reply_time. cbn [con_1 con_2 con_3].
  rewrite !Z.shiftl_mul_pow2 by lia. change 0xff with (Z.ones 8).
  rewrite (Z.lor_comm (second t)), lor_low by lia.
  rewrite (Z.lor_comm (minute t * 2 ^ 8 + second t)), lor_low by lia.
  rewrite (Z.lor_comm (hour t * 2 ^ 16 + _)), lor_low by lia.
  rewrite u32_id by lia. set (N := _ * 2 ^ 24 + _).
  assert (E0 : Z.land N (Z.ones 8) = second t).
  { rewrite <- (Z.shiftr_0_r N). replace N with ((((day t * 256 + hour t) * 256 + minute t) * 2 ^ 8 + second t)
      * 2 ^ 0 + 0) by (unfold N; lia). apply field_at; lia. }
  assert (E1 : Z.land (Z.shiftr N 8) (Z.ones 8) = minute t).
  { replace N with (((day t * 256 + hour t) * 2 ^ 8 + minute t) * 2 ^ 8 + second t) by (unfold N; lia).
    apply field_at; lia. }
  assert (E2 : Z.land (Z.shiftr N 16) (Z.ones 8) = hour t).
  { replace N with ((day t * 2 ^ 8 + hour t) * 2 ^ 16 + (minute t * 256 + second t)) by (unfold N; lia).
    apply field_at; lia. }
  assert (E3 : Z.land (Z.shiftr N 24) (Z.ones 8) = day t).
  { replace N with ((0 * 2 ^ 8 + day t) * 2 ^ 24 + (hour t * 65536 + minute t * 256 + second t)) by (unfold N; lia).
    apply field_at; lia. }
  rewrite E0, E1, E2, E3, !land_low, !u8_id by (rewrite ?land_low; lia).
  rewrite (Z.mod_small (month t)), (Z.mod_small (month t)) by lia.
  rewrite u8_id by lia. by destruct t.
Qed.

(** ** Properties *)

(** C27.  Asking for the time works through the whole system: when a process has
    sent [GET_TIME] and waits for the kernel process, the kernel reads the clock,
    which counts in binary coded decimals, and its reply wakes the process up;
    what [get_current_time] makes of the reply is the time shown, with the
    defect of [time2num] from August on. *)
Theorem get_time_served (fuel : nat) (cmos : Z -> Z) (c4 : Z) (handlers : list Z) (k : kernel)
    (qs : Z -> list Z) (msg : Z) (m dm : Message) (d : pcb) (t : time) :
  kinv k qs -> k.(msgs) !! msg = Some m -> m.(type) = GET_TIME -> m.(source) = KR ->
  k.(pcbs) !! m.(destination) = Some d -> d.(status) = WAITING_MSG ->
  k.(msgs) !! d.(message) = Some dm -> dm.(destination) = KR -> d.(message) <> msg ->
  valid_time t -> 2000 <= t.(year) < 2100 -> clock_shows cmos t ->
  exists k' c, kernel_request fuel cmos c4 handlers k msg = Some (handlers, k', Receive) /\
    kinv k' (upd qs d.(priority) (qs d.(priority) ++ [m.(destination)])) /\
    k'.(msgs) !! d.(message) = Some (mk_Message dm.(source) KR 1 c) /\
    num2time (time2num (reply_time c)) =
      if t.(month) <? 8 then t else mk_time t.(second) t.(minute) t.(hour) t.(day) t.(month) 4294967295.
Proof.
  intros Hinv Hm Hty Hsrc Hd Hst Hdm Hdest Hne Hv Hy Hc. unfold kernel_request, get_msg. rewrite Hm. sbind.
  rewrite Hty. change (GET_TIME =? REGR_INTR) with false. change (GET_TIME =? SLEEP) with false.
  rewrite Z.eqb_refl, (get_cmos_time_shows cmos t Hv Hy Hc). unfold reset_message.
  rewrite (upd_msg_eq _ _ _ _ Hm). sbind.
  rewrite (upd_msg_eq _ _ (set_type 1 m)) by (cbn; by rewrite lookup_insert_eq). sbind.
  set (m' := set_context _ _). set (k1 := with_msgs _ _). unfold reply, get_msg.
  assert (Hm' : k1.(msgs) !! msg = Some m') by (unfold k1; cbn; by rewrite lookup_insert_eq).
  rewrite Hm'. sbind.
  destruct (send_delivers_spec fuel k1 qs msg (destination m') m' d) with (dm := dm) as (k' & H1 & H2 & H3 & _).
  - unfold k1. by do 2 apply kinv_with_msgs.
  - done.
  - exact Hd.
  - change (source m') with (source m). rewrite Hsrc. discriminate.
  - exact Hst.
  - unfold k1. cbn. rewrite !lookup_insert_ne by done. exact Hdm.
  - right. left. change (source m') with (source m). congruence.
  - rewrite H1. sbind. exists k', (time_context t c4). split; [done|]. split; [exact H2|]. split.
    + rewrite H3, lookup_insert_eq. change (source m') with (source m). by rewrite Hsrc.
    + rewrite reply_time_context, num2time_time2num by done. unfold year_field.
      destruct (month t <? 8); [by destruct t|done].
Qed.

(** The registers of a clock that shows 23:59:58 on 2018-05-30. *)
Definition demo_time : time := mk_time 58 59 23 30 5 2018.
Definition demo_cmos (r : Z) : Z :=
  if r =? 0 then 0x58 else if r =? 2 then 0x59 else if r =? 4 then 0x23
  else if r =? 7 then 0x30 else if r =? 8 then 0x05 else 0x18.

Definition clock_demo l : kernel :=
  demo l (curp 0 0) [(0x92000, demo_pcb WAITING_MSG 1 0 0 0x6000)]
    [(0x5000, mk_Message KR 0x92000 GET_TIME ctx0); (0x6000, mk_Message 0x92000 KR 0 ctx0)].

Lemma get_time_served_witness :
  exists l k' c, kernel_request 2 demo_cmos 0 [] (clock_demo l) 0x5000 = Some ([], k', Receive) /\
    k'.(msgs) !! 0x6000 = Some (mk_Message 0x92000 KR 1 c) /\ num2time (time2num (reply_time c)) = demo_time.
Proof.
  destruct demo_links as (l & Hl). exists l.
  destruct (get_time_served 2 demo_cmos 0 [] (clock_demo l) demo_qs 0x5000 (mk_Message KR 0x92000 GET_TIME ctx0)
    (mk_Message 0x92000 KR 0 ctx0) (demo_pcb WAITING_MSG 1 0 0 0x6000) demo_time) as (k' & c & H1 & _ & H2 & H3).
  - demo_inv.
  - reflexivity.
  - reflexivity.
  - reflexivity.
  - reflexivity.
  - reflexivity.
  - reflexivity.
  - reflexivity.
  - discriminate.
  - repeat split; cbn; lia.
  - cbn. lia.
  - repeat split.
  - exists k', c. auto.
Defined.
