(* ===== verification/Packets.v ===== *)
(** * Packets (net/byte_order.cc, net/ethernet.cc, net/ip.cc, net/icmp.cc, net/arp.cc, net/udp.cc, net/dns.cc)

    A packet is a buffer of bytes; the fields of the packed structures are offsets
    into it, 16- and 32-bit fields little endian.  Addresses are byte sequences.
    An access outside a buffer is [None].  The functions that build a frame get
    the memory [malloc] returned as an argument and give back the frame handed to
    [send_packet]. *)
From S2P Require Import Prelude CString.

(** ** Stores and loads *)

Definition put8 (b : list Z) (off v : Z) : option (list Z) := b.[off <- u8 v].
Definition put16 (b : list Z) (off v : Z) : option (list Z) :=
  b ← put8 b off v; put8 b (off + 1) (v / 256).
Definition put32 (b : list Z) (off v : Z) : option (list Z) :=
  b ← put16 b off v; put16 b (off + 2) (v / 65536).
Definition get16 (b : list Z) (off : Z) : option Z :=
  x ← b.[off]; y ← b.[off + 1]; Some (x + 256 * y).
Definition get32 (b : list Z) (off : Z) : option Z :=
  x ← get16 b off; y ← get16 b (off + 2); Some (x + 65536 * y).

(** The loops [for (i=0; i<n; i++) { a[i] = x[i]; b[i] = y[i]; }] over two fields
    of the same packet. *)
Fixpoint copy2 (n : nat) (b : list Z) (d1 : Z) (x : list Z) (d2 : Z) (y : list Z) (i : Z) : option (list Z) :=
  match n with
  | O => Some b
  | S n' =>
      c ← x.[i]; b ← b.[d1 + i <- c];
      c ← y.[i]; b ← b.[d2 + i <- c];
      copy2 n' b d1 x d2 y (i + 1)
  end.

(** ** Byte order *)

Definition swap_word (word : Z) : Z := u16 (Z.lor (Z.shiftl (Z.land word 0xff) 8) (Z.shiftr word 8)).

Definition swap_double_word (dw : Z) : Z :=
  Z.lor (Z.lor (Z.lor (u32 (Z.shiftl (Z.land dw 0xff) 24)) (Z.shiftl (Z.land dw 0xff00) 8))
    (Z.shiftr (Z.land dw 0xff0000) 8)) (Z.shiftr (Z.land dw 0xff000000) 24).

(** ** Checksum *)

(** The first loop: [n] words from [off] on. *)
Fixpoint sum_words (n : nat) (pkt : list Z) (off checksum : Z) : option Z :=
  match n with
  | O => Some checksum
  | S n' => w ← get16 pkt off; sum_words n' pkt (off + 2) (u32 (checksum + w))
  end.

Definition fold_checksum (checksum : Z) : Z :=
  let checksum := u32 (Z.shiftr checksum 16 + Z.land checksum 0xffff) in
  let checksum := u32 (checksum + Z.shiftr checksum 16) in
  u16 (Z.lnot checksum).

(** A byte that remains is read as a word, with the byte behind the data. *)
Definition generate_checksum (pkt : list Z) (off len : Z) : option Z :=
  checksum ← sum_words (Z.to_nat (len / 2)) pkt off 0;
  if truth (len mod 2) then
    w ← get16 pkt (off + 2 * (len / 2)); Some (fold_checksum (u32 (checksum + w)))
  else Some (fold_checksum checksum).

(** ** Ethernet *)

Definition sizeof_eth : Z := 14.
Definition next_is_arp : Z := 0x0806.
Definition next_is_ip : Z := 0x0800.

Definition eth_format_packet (data mac_addr target_mac_addr : list Z) (next_proto : Z) : option (list Z) :=
  data ← put16 data 12 (swap_word next_proto);
  copy2 6 data 0 target_mac_addr 6 mac_addr 0.

(** ** IPv4; [off] is the position of the header in the frame *)

Definition sizeof_ip : Z := 20.
Definition no_fragment : Z := 0x4000.

Definition ip_format_packet (data : list Z) (off : Z) (ip_addr target_ip : list Z) (next_proto total_len : Z)
  : option (list Z) :=
  b ← data.[off];
  data ← put8 data off (Z.lor (Z.land b 0x0f) 0x40);
  b ← data.[off];
  data ← put8 data off (Z.lor (Z.land b 0xf0) 0x5);
  data ← put8 data (off + 1) 0;
  data ← put16 data (off + 2) (swap_word total_len);
  data ← put16 data (off + 4) (swap_word 0x4455);
  data ← put16 data (off + 6) (swap_word no_fragment);
  data ← put8 data (off + 8) 64;
  data ← put8 data (off + 9) next_proto;
  data ← put16 data (off + 10) 0;
  data ← copy2 4 data (off + 12) ip_addr (off + 16) target_ip 0;
  b ← data.[off];
  c ← generate_checksum data off (Z.land b 0x0f * 4);
  put16 data (off + 10) c.

(** ** ICMP *)

Definition sizeof_icmp : Z := 64.
Definition ICMP_REQUEST : Z := 0x08.
Definition ICMP_REPLY : Z := 0x0.

Fixpoint put_seq (n : nat) (data : list Z) (off v : Z) : option (list Z) :=
  match n with
  | O => Some data
  | S n' => data ← put8 data off v; put_seq n' data (off + 1) (v + 1)
  end.

Definition icmp_format_packet (data : list Z) (off type : Z) : option (list Z) :=
  data ← put8 data off type;
  data ← put8 data (off + 1) 0;
  data ← put16 data (off + 2) 0;
  data ← put16 data (off + 4) 0;
  data ← put16 data (off + 6) 0;
  data ← memset data (off + 8) 0 8;
  data ← put8 data (off + 16) 0x33;
  data ← put8 data (off + 17) 0x2b;
  data ← put8 data (off + 18) 0x04;
  data ← memset data (off + 19) 0 5;
  data ← put_seq 39 data (off + 24) 0x10;
  c ← generate_checksum data off sizeof_icmp;
  put16 data (off + 2) c.

(** A frame of the ping, [data] being the allocated buffer. *)
Definition icmp_frame (data mac_addr ip_addr target_ip target_mac_addr : list Z) (type : Z) : option (list Z) :=
  data ← eth_format_packet data mac_addr target_mac_addr next_is_ip;
  data ← ip_format_packet data sizeof_eth ip_addr target_ip 0x1 (sizeof_ip + sizeof_icmp);
  icmp_format_packet data (sizeof_eth + sizeof_ip) type.

Definition icmp_request (data mac_addr ip_addr target_ip target_mac_addr : list Z) : option (list Z) :=
  icmp_frame data mac_addr ip_addr target_ip target_mac_addr ICMP_REQUEST.
Definition icmp_reply (data mac_addr ip_addr target_ip target_mac_addr : list Z) : option (list Z) :=
  icmp_frame data mac_addr ip_addr target_ip target_mac_addr ICMP_REPLY.

(** What [ICMPFactory::resolve_packet] prints. *)
Inductive icmp_event := EchoRequest | EchoReply (seq : option Z).

Definition icmp_resolve_packet (need_output : bool) (data : list Z) (off : Z) : option icmp_event :=
  t ← data.[off];
  if ICMP_REQUEST =? t then Some EchoRequest
  else if need_output then s ← get16 data (off + 6); Some (EchoReply (Some s))
  else Some (EchoReply None).

(** ** ARP packets *)

Definition sizeof_arp : Z := 28.
Definition req_opcode : Z := 0x0001.
Definition rsp_opcode : Z := 0x0002.

Definition arp_format_header (data : list Z) (off opcode : Z) : option (list Z) :=
  data ← put16 data off (swap_word 0x0001);
  data ← put16 data (off + 2) (swap_word 0x0800);
  data ← put8 data (off + 4) 0x06;
  data ← put8 data (off + 5) 0x04;
  put16 data (off + 6) (swap_word opcode).

Definition format_request_packet (data : list Z) (off : Z) (mac_addr ip_addr target_ip : list Z) : option (list Z) :=
  data ← arp_format_header data off req_opcode;
  data ← copy2 6 data (off + 8) mac_addr (off + 18) (replicate 6 0) 0;
  copy2 4 data (off + 14) ip_addr (off + 24) target_ip 0.

Definition format_reply_packet (data : list Z) (off : Z) (mac_addr ip_addr res_mac_addr req_ip : list Z)
  : option (list Z) :=
  data ← arp_format_header data off rsp_opcode;
  data ← copy2 6 data (off + 8) mac_addr (off + 18) res_mac_addr 0;
  copy2 4 data (off + 14) ip_addr (off + 24) req_ip 0.

Definition mac_broadcast : list Z := replicate 6 0xff.

Definition arp_request (data mac_addr ip_addr target_ip : list Z) : option (list Z) :=
  data ← eth_format_packet data mac_addr mac_broadcast next_is_arp;
  format_request_packet data sizeof_eth mac_addr ip_addr target_ip.

Definition arp_reply (data mac_addr ip_addr src_mac_addr res_mac_addr req_ip : list Z) : option (list Z) :=
  data ← eth_format_packet data mac_addr src_mac_addr next_is_arp;
  format_reply_packet data sizeof_eth mac_addr ip_addr res_mac_addr req_ip.

(** ** UDP *)

Definition sizeof_udp : Z := 8.

Definition allocate_port (port : Z) : Z := u16 (port + 1).

Definition init_udp_header (data : list Z) (off port dst_port length : Z) : option (list Z * Z) :=
  let port := allocate_port port in
  data ← put16 data off (swap_word port);
  data ← put16 data (off + 2) (swap_word dst_port);
  data ← put16 data (off + 4) (swap_word length);
  data ← put16 data (off + 6) 0;
  c ← generate_checksum data off length;
  data ← put16 data (off + 6) c;
  Some (data, port).

Record UdpSocket := mk_UdpSocket {
  u_src_port : Z; u_src_ip : list Z; u_dst_port : Z; u_dst_ip : list Z;
}.

(** [UdpFactory::connect], [own_ip] being the address of the interface. *)
Definition udp_connect (own_ip target_ip : list Z) (target_port : Z) : option UdpSocket :=
  src ← memcpy (replicate 4 0) 0 own_ip 0 4;
  dst ← memcpy (replicate 4 0) 0 target_ip 0 4;
  Some (mk_UdpSocket 0x7970 src target_port dst).

(** [UdpFactory::format_packet]: the pseudo header and the buffer [check_sum_use]
    are filled and freed; the checksum of the packet stays 0. *)
Definition udp_pseudo_header (socket : UdpSocket) (size : Z) : option (list Z) :=
  h ← memcpy (replicate 12 0) 0 socket.(u_src_ip) 0 4;
  h ← memcpy h 4 socket.(u_dst_ip) 0 4;
  h ← put8 h 8 0;
  h ← put8 h 9 0x11;
  put16 h 10 (swap_word (sizeof_udp + size)).

Definition udp_format_packet (data check_sum_use : list Z) (off : Z) (socket : UdpSocket) (payload : list Z) (size : Z)
  : option (list Z) :=
  data ← put16 data off (swap_word socket.(u_src_port));
  data ← put16 data (off + 2) (swap_word socket.(u_dst_port));
  data ← put16 data (off + 4) (swap_word (sizeof_udp + size));
  data ← put16 data (off + 6) 0;
  pseudo ← udp_pseudo_header socket size;
  check_sum_use ← memcpy check_sum_use 0 pseudo 0 12;
  _ ← memcpy check_sum_use 12 data off (Z.to_nat (sizeof_udp + size));
  memcpy data (off + sizeof_udp) payload 0 (Z.to_nat size).

(** [UdpFactory::send], with the addresses of the interface and its gateway. *)
Definition udp_send (data check_sum_use mac_addr ip_addr gateway_mac_addr : list Z) (socket : UdpSocket)
    (payload : list Z) (size : Z) : option (list Z) :=
  data ← eth_format_packet data mac_addr gateway_mac_addr next_is_ip;
  data ← ip_format_packet data sizeof_eth ip_addr socket.(u_dst_ip) 0x11 (sizeof_ip + sizeof_udp + size);
  udp_format_packet data check_sum_use (sizeof_eth + sizeof_ip) socket payload size.

(** ** DNS *)

(** The loop of [format_url] from position [i] on: the labels are copied one place
    further, and each dot becomes the length of the label before it, in [pos]. *)
Fixpoint format_url_loop (buf url : list Z) (off i pos cnt : Z) : option (list Z * Z * Z * Z) :=
  match url with
  | [] => None
  | c :: url' =>
      if negb (truth c) then Some (buf, i, pos, cnt)
      else if negb (46 =? c) then
        buf ← buf.[off + (i + 1) <- c];
        format_url_loop buf url' off (i + 1) pos (u8 (cnt + 1))
      else
        buf ← put8 buf (off + pos) cnt;
        format_url_loop buf url' off (i + 1) (u8 (i + 1)) 0
  end.

(** An empty name reads the byte before the string. *)
Definition format_url (buf url : list Z) (off : Z) : option (list Z) :=
  '(buf, i, pos, cnt) ← format_url_loop buf url off 0 0 0;
  c ← url.[i - 1];
  buf ← buf.[off + i <- c];
  buf ← put8 buf (off + pos) cnt;
  put8 buf (off + (i + 1)) 0.

Definition sizeof_dns : Z := 13.
Definition STAND_QUERY : Z := 0x0100.
Definition DNS_PORT : Z := 53.
Definition DNS_A : Z := 1.
Definition DNS_IN : Z := 1.

Definition init_dns_header (data : list Z) (off : Z) (url : list Z) : option (list Z) :=
  data ← put16 data off 0;
  data ← put16 data (off + 2) (swap_word STAND_QUERY);
  data ← put16 data (off + 4) (swap_word 0x1);
  data ← put16 data (off + 6) (swap_word 0x0);
  data ← put16 data (off + 8) (swap_word 0x0);
  data ← put16 data (off + 10) (swap_word 0x0);
  data ← format_url data url (off + 12);
  len ← strlen url;
  data ← put16 data (off + 12 + (len + 2)) (swap_word DNS_A);
  put16 data (off + 12 + (len + 4)) (swap_word DNS_IN).

Definition send_dns_packet (data mac_addr ip_addr target_mac_addr target_ip url : list Z) (port : Z)
  : option (list Z * Z) :=
  len ← strlen url;
  data ← eth_format_packet data mac_addr target_mac_addr next_is_ip;
  data ← ip_format_packet data sizeof_eth ip_addr target_ip 0x11 (sizeof_ip + sizeof_udp + sizeof_dns + len + 5);
  '(data, port) ← init_udp_header data (sizeof_eth + sizeof_ip) port DNS_PORT (sizeof_udp + sizeof_dns + len + 5);
  data ← init_dns_header data (sizeof_eth + sizeof_ip + sizeof_udp) url;
  Some (data, port).

(** ** Byte order *)

#[local] Ltac Zify.zify_post_hook ::= Z.to_euclidean_division_equations.

Lemma swap_word_eq w : is_u16 w -> swap_word w = w mod 256 * 256 + w / 256.
Proof.
  intros H. unfold is_u16, swap_word in *. change 0xff with (Z.ones 8). rewrite Z.land_ones by lia.
  rewrite Z.shiftl_mul_pow2, Z.shiftr_div_pow2 by lia. change (2 ^ 8) with 256.
  change 256 with (2 ^ 8) at 2. rewrite lor_low by (change (2 ^ 8) with 256; lia).
  change (2 ^ 8) with 256. rewrite u16_id; lia.
Qed.

Lemma swap_word_range w : is_u16 (swap_word w).
Proof. unfold swap_word, is_u16. apply u16_range. Qed.

Lemma swap_word_involutive w : is_u16 w -> swap_word (swap_word w) = w.
Proof.
  intros H. rewrite !swap_word_eq by (try apply swap_word_range; done). unfold is_u16 in H. lia.
Qed.

Lemma field_bits dw a k : 0 <= a -> 0 <= k -> Z.land dw (Z.ones k * 2 ^ a) = dw / 2 ^ a mod 2 ^ k * 2 ^ a.
Proof. intros. by apply land_field. Qed.

Lemma swap_double_word_eq dw : is_u32 dw ->
  swap_double_word dw =
    dw mod 256 * 16777216 + dw / 256 mod 256 * 65536 + dw / 65536 mod 256 * 256 + dw / 16777216.
Proof.
  intros H. unfold is_u32 in H. unfold swap_double_word.
  change 0xff00 with (Z.ones 8 * 2 ^ 8). change 0xff0000 with (Z.ones 8 * 2 ^ 16).
  change 0xff000000 with (Z.ones 8 * 2 ^ 24). rewrite !field_bits by lia.
  change 0xff with (Z.ones 8). rewrite Z.land_ones by lia.
  rewrite !Z.shiftl_mul_pow2, !Z.shiftr_div_pow2 by lia.
  replace (dw / 2 ^ 8 mod 2 ^ 8 * 2 ^ 8 * 2 ^ 8) with (dw / 2 ^ 8 mod 2 ^ 8 * 2 ^ 16) by lia.
  replace (dw / 2 ^ 16 mod 2 ^ 8 * 2 ^ 16 / 2 ^ 8) with (dw / 2 ^ 16 mod 2 ^ 8 * 2 ^ 8)
    by (change (2 ^ 16) with (2 ^ 8 * 2 ^ 8); rewrite Z.mul_assoc, Z.div_mul; lia).
  rewrite Z.div_mul by lia. 
  set (b0 := dw mod 2 ^ 8). set (b1 := dw / 2 ^ 8 mod 2 ^ 8). set (b2 := dw / 2 ^ 16 mod 2 ^ 8).
  set (b3 := dw / 2 ^ 24 mod 2 ^ 8).
  assert (Hb : 0 <= b0 < 256 /\ 0 <= b1 < 256 /\ 0 <= b2 < 256 /\ 0 <= b3 < 256).
  { unfold b0, b1, b2, b3. change (2 ^ 8) with 256.
    repeat split; try apply Z.mod_pos_bound; lia. }
  rewrite u32_id by lia.
  rewrite (lor_low b0 (b1 * 2 ^ 16) 24) by lia.
  replace (b0 * 2 ^ 24 + b1 * 2 ^ 16) with ((b0 * 256 + b1) * 2 ^ 16) by lia.
  rewrite (lor_low _ (b2 * 2 ^ 8) 16) by lia.
  replace ((b0 * 256 + b1) * 2 ^ 16 + b2 * 2 ^ 8) with (((b0 * 256 + b1) * 256 + b2) * 2 ^ 8) by lia.
  rewrite (lor_low _ b3 8) by lia.
  assert (Hb3 : b3 = dw / 16777216).
  { unfold b3. apply Z.mod_small. change (2 ^ 24) with 16777216. change (2 ^ 8) with 256. lia. }
  unfold b0, b1, b2 in *. change (2 ^ 8) with 256 in *. change (2 ^ 16) with 65536 in *. lia.
Qed.

Lemma swap_double_word_range dw : is_u32 dw -> is_u32 (swap_double_word dw).
Proof.
  intros H. rewrite swap_double_word_eq by done. unfold is_u32 in *.
  pose proof (Z.mod_pos_bound dw 256). pose proof (Z.mod_pos_bound (dw / 256) 256).
  pose proof (Z.mod_pos_bound (dw / 65536) 256).
  assert (0 <= dw / 16777216 < 256) by (split; [apply Z.div_pos|apply Z.div_lt_upper_bound]; lia). lia.
Qed.

Lemma digits4 a b c d : 0 <= a < 256 -> 0 <= b < 256 -> 0 <= c < 256 -> 0 <= d < 256 ->
  let n := a * 16777216 + b * 65536 + c * 256 + d in
  n mod 256 = d /\ n / 256 mod 256 = c /\ n / 65536 mod 256 = b /\ n / 16777216 = a.
Proof.
  intros Ha Hb Hc Hd n.
  assert (E1 : n / 256 = a * 65536 + b * 256 + c) by (symmetry; apply Z.div_unique with d; lia).
  assert (E2 : n / 65536 = a * 256 + b) by (symmetry; apply Z.div_unique with (c * 256 + d); lia).
  assert (E3 : n / 16777216 = a) by (symmetry; apply Z.div_unique with (b * 65536 + c * 256 + d); lia).
  rewrite E1, E2, E3. split_and!; [|..|done]; symmetry.
  - apply Z.mod_unique with (a * 65536 + b * 256 + c); lia.
  - apply Z.mod_unique with (a * 256 + b); lia.
  - apply Z.mod_unique with a; lia.
Qed.

Lemma swap_double_word_involutive dw : is_u32 dw -> swap_double_word (swap_double_word dw) = dw.
Proof.
  intros H. rewrite (swap_double_word_eq (swap_double_word dw)) by (by apply swap_double_word_range).
  rewrite swap_double_word_eq by done. unfold is_u32 in H.
  pose proof (Z.mod_pos_bound dw 256). pose proof (Z.mod_pos_bound (dw / 256) 256).
  pose proof (Z.mod_pos_bound (dw / 65536) 256).
  assert (0 <= dw / 16777216 < 256) by (split; [apply Z.div_pos|apply Z.div_lt_upper_bound]; lia).
  destruct (digits4 (dw mod 256) (dw / 256 mod 256) (dw / 65536 mod 256) (dw / 16777216))
    as (E1 & E2 & E3 & E4); [lia..|].
  rewrite E1, E2, E3, E4. lia.
Qed.

(** ** What the stores write

    [wrote b b' f]: [b'] has the bytes of [b], except where [f] gives another
    one. *)

Definition wrote (b b' : list Z) (f : Z -> option Z) : Prop :=
  zlen b' = zlen b /\ forall j, 0 <= j -> b'.[j] = match f j with Some v => Some v | None => b.[j] end.

Lemma put8_wrote b off v : 0 <= off < zlen b ->
  exists b', put8 b off v = Some b' /\ wrote b b' (fun j => if j =? off then Some (u8 v) else None).
Proof.
  intros H. unfold put8. rewrite zset_in by done. eexists. split; [reflexivity|]. split; [apply zlen_insert|].
  intros j Hj. rewrite zget_insert by lia. rewrite (Z.eqb_sym off). by destruct (j =? off).
Qed.

Lemma wrote_trans b b1 b2 f g : wrote b b1 f -> wrote b1 b2 g ->
  wrote b b2 (fun j => match g j with Some v => Some v | None => f j end).
Proof.
  intros [H1 H2] [H3 H4]. split; [congruence|]. intros j Hj. rewrite H4, H2 by done. by destruct (g j).
Qed.

Lemma wrote_ext b b' f g : wrote b b' f -> (forall j, f j = g j) -> wrote b b' g.
Proof. intros [H1 H2] E. split; [done|]. intros j Hj. by rewrite <- E, H2. Qed.

(** A word at [off]. *)
Definition word_at (off v j : Z) : option Z :=
  if j =? off then Some (u8 v) else if j =? off + 1 then Some (u8 (v / 256)) else None.
Definition dword_at (off v j : Z) : option Z :=
  match word_at off v j with Some x => Some x | None => word_at (off + 2) (v / 65536) j end.

Lemma put16_wrote b off v : 0 <= off -> off + 1 < zlen b ->
  exists b', put16 b off v = Some b' /\ wrote b b' (word_at off v).
Proof.
  intros H1 H2. unfold put16. destruct (put8_wrote b off v) as (b1 & -> & W1); [lia|]. sbind.
  destruct (put8_wrote b1 (off + 1) (v / 256)) as (b2 & -> & W2); [destruct W1; lia|].
  exists b2. split; [done|]. eapply wrote_ext; [by eapply wrote_trans|]. intros j. unfold word_at.
  destruct (j =? off + 1) eqn:E1; destruct (j =? off) eqn:E2; zbool; try done. lia.
Qed.

Lemma put32_wrote b off v : 0 <= off -> off + 3 < zlen b ->
  exists b', put32 b off v = Some b' /\ wrote b b' (dword_at off v).
Proof.
  intros H1 H2. unfold put32. destruct (put16_wrote b off v) as (b1 & -> & W1); [lia|lia|]. sbind.
  destruct (put16_wrote b1 (off + 2) (v / 65536)) as (b2 & -> & W2); [lia|destruct W1; lia|].
  exists b2. split; [done|]. eapply wrote_ext; [by eapply wrote_trans|]. intros j. unfold dword_at, word_at.
  destruct (j =? off + 2) eqn:E1; destruct (j =? off + 2 + 1) eqn:E2; destruct (j =? off) eqn:E3;
    destruct (j =? off + 1) eqn:E4; zbool; try done; lia.
Qed.

(** The bytes of [x] at [d]. *)
Definition bytes_at (d n : Z) (x : list Z) (j : Z) : option Z :=
  if (d <=? j) && (j <? d + n) then x.[j - d] else None.

Lemma bytes_at_out d n x j : j < d \/ d + n <= j -> bytes_at d n x j = None.
Proof. intros H. unfold bytes_at. destruct (_ && _) eqn:E; zbool; [lia|done|done]. Qed.
Lemma bytes_at_in d n x j : d <= j < d + n -> bytes_at d n x j = x.[j - d].
Proof. intros H. unfold bytes_at. destruct (_ && _) eqn:E; zbool; [done|lia|lia]. Qed.

Lemma copy2_wrote_aux n b d1 x d2 y i :
  0 <= i -> 0 <= d1 -> 0 <= d2 -> d1 + i + Z.of_nat n <= zlen b -> d2 + i + Z.of_nat n <= zlen b ->
  i + Z.of_nat n <= zlen x -> i + Z.of_nat n <= zlen y ->
  (forall p q, i <= p < i + Z.of_nat n -> i <= q < i + Z.of_nat n -> d1 + p <> d2 + q) ->
  exists b', copy2 n b d1 x d2 y i = Some b' /\ zlen b' = zlen b /\
    forall j, 0 <= j -> b'.[j] =
      if (d1 + i <=? j) && (j <? d1 + i + Z.of_nat n) then x.[j - d1]
      else if (d2 + i <=? j) && (j <? d2 + i + Z.of_nat n) then y.[j - d2] else b.[j].
Proof.
  revert b i. induction n as [|n IH]; intros b i Hi H1 H2 H3 H4 H5 H6 Hd; cbn [copy2].
  { exists b. split; [done|]. split; [done|]. intros j Hj.
    destruct (_ && _) eqn:E; zbool; [lia| |]; (destruct (_ && _) eqn:E'; zbool; [lia|done|done]). }
  destruct (zget_in x i) as [c Hc]; [lia|]. rewrite Hc. sbind. rewrite zset_in by lia. sbind.
  destruct (zget_in y i) as [c' Hc']; [lia|]. rewrite Hc'. sbind. rewrite zset_in by (rewrite zlen_insert; lia). sbind.
  set (b1 := <[Z.to_nat (d2 + i) := c']> _).
  assert (Hz : zlen b1 = zlen b) by (unfold b1; by rewrite !zlen_insert).
  destruct (IH b1 (i + 1)) as (b' & Hb' & Hz' & Hj'); try lia.
  { intros p q Hp Hq. apply Hd; lia. }
  exists b'. split; [done|]. split; [lia|]. intros j Hj. rewrite Hj' by lia.
  assert (Hb1 : b1.[j] = if d2 + i =? j then Some c' else if d1 + i =? j then Some c else b.[j]).
  { unfold b1. rewrite zget_insert by (rewrite ?zlen_insert; lia). destruct (_ =? _); [done|].
    by rewrite zget_insert by lia. }
  rewrite Hb1. assert (Hne : d1 + i <> d2 + i) by (apply Hd; lia).
  assert (Hx : j = d1 + i -> x.[j - d1] = Some c) by (intros ->; rewrite <- Hc; f_equal; lia).
  assert (Hy : j = d2 + i -> y.[j - d2] = Some c') by (intros ->; rewrite <- Hc'; f_equal; lia).
  destruct ((d1 + (i + 1) <=? j) && (j <? d1 + (i + 1) + Z.of_nat n)) eqn:E1;
    destruct ((d1 + i <=? j) && (j <? d1 + i + Z.of_nat (S n))) eqn:E2;
    zbool; try lia; try done.
  all: destruct ((d2 + (i + 1) <=? j) && (j <? d2 + (i + 1) + Z.of_nat n)) eqn:E3;
    destruct ((d2 + i <=? j) && (j <? d2 + i + Z.of_nat (S n))) eqn:E4;
    zbool; try lia; try done.
  all: destruct (d2 + i =? j) eqn:E5; destruct (d1 + i =? j) eqn:E6; zbool; try lia; try done.
  all: try (rewrite Hx by lia; done); try (rewrite Hy by lia; done).
  all: exfalso; first [apply (Hd (j - d1) i); lia|apply (Hd i (j - d2)); lia].
Qed.

Lemma copy2_wrote n b d1 x d2 y :
  0 <= d1 -> d1 + n <= d2 \/ d2 + n <= d1 -> 0 <= d2 -> d1 + n <= zlen b -> d2 + n <= zlen b ->
  0 <= n <= zlen x -> n <= zlen y ->
  exists b', copy2 (Z.to_nat n) b d1 x d2 y 0 = Some b' /\
    wrote b b' (fun j => match bytes_at d1 n x j with Some v => Some v | None => bytes_at d2 n y j end).
Proof.
  intros H1 Hd H2 H3 H4 H5 H6. destruct (copy2_wrote_aux (Z.to_nat n) b d1 x d2 y 0) as (b' & Hb & Hz & Hj); try lia.
  exists b'. split; [done|]. split; [done|]. intros j Hj0. rewrite Hj by done. unfold bytes_at.
  rewrite !Z.add_0_r, Z2Nat.id by lia.
  destruct ((d1 <=? j) && (j <? d1 + n)) eqn:E1; zbool.
  - destruct (zget_in x (j - d1)) as [v ->]; [lia|done].
  - destruct ((d2 <=? j) && (j <? d2 + n)) eqn:E2; zbool; try done.
    destruct (zget_in y (j - d2)) as [v ->]; [lia|done].
  - destruct ((d2 <=? j) && (j <? d2 + n)) eqn:E2; zbool; try done.
    destruct (zget_in y (j - d2)) as [v ->]; [lia|done].
Qed.

(** [memcpy] of [n] bytes of [src] from [s] on to [d]. *)
Definition copied (d n : Z) (src : list Z) (s j : Z) : option Z :=
  if (d <=? j) && (j <? d + n) then src.[s + (j - d)] else None.

Lemma copied_out d n src s j : j < d \/ d + n <= j -> copied d n src s j = None.
Proof. intros H. unfold copied. destruct (_ && _) eqn:E; zbool; [lia|done|done]. Qed.
Lemma copied_in d n src s j : d <= j < d + n -> copied d n src s j = src.[s + (j - d)].
Proof. intros H. unfold copied. destruct (_ && _) eqn:E; zbool; [done|lia|lia]. Qed.

Lemma memcpy_wrote n dst d src s :
  0 <= d -> 0 <= s -> 0 <= n -> d + n <= zlen dst -> s + n <= zlen src ->
  exists dst', memcpy dst d src s (Z.to_nat n) = Some dst' /\ wrote dst dst' (copied d n src s).
Proof.
  intros Hd Hs Hn H1 H2. rewrite <- (Z2Nat.id n) in * by done. set (k := Z.to_nat n) in *. clearbody k. clear Hn.
  rewrite Nat2Z.id. revert dst d s Hd Hs H1 H2. induction k as [|k IH]; intros dst d s Hd Hs H1 H2; cbn [memcpy].
  { exists dst. split; [done|]. split; [done|]. intros j Hj. by rewrite copied_out by lia. }
  destruct (zget_in src s) as [c Hc]; [lia|]. rewrite Hc. sbind. rewrite zset_in by lia. sbind.
  destruct (IH (<[Z.to_nat d := c]> dst) (d + 1) (s + 1)) as (dst' & -> & [Hz Hj]);
    [lia|lia|rewrite zlen_insert; lia|lia|].
  exists dst'. split; [done|]. split; [by rewrite Hz, zlen_insert|]. intros j Hj0. rewrite Hj by done.
  rewrite zget_insert by lia. destruct (d =? j) eqn:E; zbool.
  - subst. rewrite copied_out, copied_in by lia. replace (s + (j - j)) with s by lia. by rewrite Hc.
  - destruct (decide (d <= j < d + Z.of_nat (S k))) as [D|D].
    + rewrite !copied_in by lia. replace (s + 1 + (j - (d + 1))) with (s + (j - d)) by lia. done.
    + rewrite !copied_out by lia. done.
Qed.

(** All bytes are bytes. *)
Definition bytes (b : list Z) : Prop := forall j v, b.[j] = Some v -> is_u8 v.

Lemma wrote_bytes b b' f : wrote b b' f -> bytes b -> (forall j v, f j = Some v -> is_u8 v) -> bytes b'.
Proof.
  intros [_ H] Hb Hf j v Hv. assert (0 <= j) by (apply zget_lt in Hv; lia).
  rewrite H in Hv by done. destruct (f j) as [w|] eqn:E; [injection Hv as <-; eauto|eauto].
Qed.

Lemma u8_is z : is_u8 (u8 z). Proof. apply u8_range. Qed.

Lemma word_at_u8 off v j x : word_at off v j = Some x -> is_u8 x.
Proof. unfold word_at. repeat (case_match; [intros [= <-]; apply u8_is|]). done. Qed.
Lemma dword_at_u8 off v j x : dword_at off v j = Some x -> is_u8 x.
Proof. unfold dword_at. case_match eqn:E; [intros [= <-]; by apply word_at_u8 in E|apply word_at_u8]. Qed.
Lemma bytes_at_u8 d n x j v : bytes x -> bytes_at d n x j = Some v -> is_u8 v.
Proof. intros Hx. unfold bytes_at. case_match; [apply Hx|done]. Qed.

Lemma copied_u8 d n src s j v : bytes src -> copied d n src s j = Some v -> is_u8 v.
Proof. intros Hx. unfold copied. case_match; [apply Hx|done]. Qed.

Lemma replicate_bytes n v : is_u8 v -> bytes (replicate n v).
Proof. intros Hv j w H. apply zget_Some in H as [_ H]. apply lookup_replicate in H as [-> _]. done. Qed.

(** ** Sums of words *)

(** The sum of [n] words, not reduced. *)
Fixpoint wsum (n : nat) (b : list Z) (off : Z) : Z :=
  match n with
  | O => 0
  | S n' => default 0 (get16 b off) + wsum n' b (off + 2)
  end.

Lemma get16_in b off : bytes b -> 0 <= off -> off + 1 < zlen b ->
  exists w, get16 b off = Some w /\ is_u16 w.
Proof.
  intros Hb H1 H2. unfold get16. destruct (zget_in b off) as [x Hx]; [lia|].
  destruct (zget_in b (off + 1)) as [y Hy]; [lia|]. rewrite Hx, Hy. sbind. eexists. split; [reflexivity|].
  apply Hb in Hx, Hy. unfold is_u8, is_u16 in *. lia.
Qed.

Lemma wsum_bound n b off : bytes b -> 0 <= off -> off + 2 * Z.of_nat n <= zlen b ->
  0 <= wsum n b off <= 65535 * Z.of_nat n.
Proof.
  revert off. induction n as [|n IH]; intros off Hb H1 H2; cbn [wsum]; [lia|].
  destruct (get16_in b off) as (w & -> & Hw); [done|lia|lia|]. cbn [from_option id].
  specialize (IH (off + 2) Hb ltac:(lia) ltac:(lia)). unfold is_u16 in Hw. lia.
Qed.

Lemma sum_words_wsum n b off acc : bytes b -> 0 <= off -> off + 2 * Z.of_nat n <= zlen b -> 0 <= acc ->
  acc + 65535 * Z.of_nat n < 4294967296 -> sum_words n b off acc = Some (acc + wsum n b off).
Proof.
  revert off acc. induction n as [|n IH]; intros off acc Hb H1 H2 H3 H4; cbn [sum_words wsum].
  { f_equal. lia. }
  destruct (get16_in b off) as (w & -> & Hw); [done|lia|lia|]. sbind. cbn [from_option id].
  unfold is_u16 in Hw. rewrite u32_id by lia. rewrite IH by (try done; lia). f_equal. lia.
Qed.

Lemma wsum_ext n b b' off : (forall j, off <= j < off + 2 * Z.of_nat n -> b'.[j] = b.[j]) ->
  wsum n b' off = wsum n b off.
Proof.
  revert off. induction n as [|n IH]; intros off H; cbn [wsum]; [done|].
  rewrite IH by (intros; apply H; lia). unfold get16. by rewrite !H by lia.
Qed.

Lemma wsum_app n k b off : wsum (n + k) b off = wsum n b off + wsum k b (off + 2 * Z.of_nat n).
Proof.
  revert off. induction n as [|n IH]; intros off; cbn [wsum Nat.add].
  - replace (off + 2 * Z.of_nat 0) with off by lia. lia.
  - rewrite IH. replace (off + 2 * Z.of_nat (S n)) with (off + 2 + 2 * Z.of_nat n) by lia. lia.
Qed.

(** Storing a word where there was 0 adds it to the sum. *)
Lemma wsum_put16 n j b b' off v : 0 <= off -> (j < n)%nat -> is_u16 v ->
  b.[off + 2 * Z.of_nat j] = Some 0 -> b.[off + 2 * Z.of_nat j + 1] = Some 0 ->
  wrote b b' (word_at (off + 2 * Z.of_nat j) v) -> wsum n b' off = wsum n b off + v.
Proof.
  intros Ho Hj Hv H0 H1 [_ Hw]. replace n with (j + (1 + (n - j - 1)))%nat by lia.
  rewrite !wsum_app. set (p := off + 2 * Z.of_nat j) in *.
  rewrite (wsum_ext j b b'), (wsum_ext (n - j - 1) b b').
  - cbn [wsum]. unfold get16. rewrite !Hw by lia. unfold word_at. rewrite Z.eqb_refl, H0, H1.
    destruct (p + 1 =? p) eqn:E; zbool; [lia|]. rewrite Z.eqb_refl. sbind. cbn [from_option id].
    unfold is_u16, u8 in *. lia.
  - intros i Hi. rewrite Hw by lia. unfold word_at. destruct (i =? p) eqn:E1; zbool; [lia|].
    destruct (i =? p + 1) eqn:E2; zbool; [lia|done].
  - intros i Hi. rewrite Hw by lia. unfold word_at. destruct (i =? p) eqn:E1; zbool; [lia|].
    destruct (i =? p + 1) eqn:E2; zbool; [lia|done].
Qed.

(** The one's complement of a sum, and the sum of a packet that contains it. *)
Lemma fold_checksum_eq s : 0 <= s < 4294967296 ->
  exists r, fold_checksum s = 65535 - r /\ 0 <= r <= 65535 /\ (exists q, 0 <= q /\ s = r + 65535 * q) /\ (r = 0 -> s = 0).
Proof.
  intros Hs. unfold fold_checksum. change (Z.land s 0xffff) with (Z.land s (Z.ones 16)).
  rewrite !Z.shiftr_div_pow2, Z.land_ones by lia. change (2 ^ 16) with 65536.
  rewrite (u32_id (s / 65536 + s mod 65536)) by lia.
  set (f := s / 65536 + s mod 65536). assert (Hf : 0 <= f <= 131070) by (unfold f; lia).
  rewrite (u32_id (f + f / 65536)) by lia. unfold u16, Z.lnot.
  assert (Hs' : s = f + 65535 * (s / 65536)) by (unfold f; lia). clearbody f. unfold Z.pred.
  destruct (decide (f < 65536)) as [D|D].
  - rewrite (Z.div_small f) by lia. exists f. split_and!; [|lia|lia|exists (s / 65536); lia|lia].
    symmetry. apply Z.mod_unique with (-1); lia.
  - replace (f / 65536) with 1 by (apply Z.div_unique with (f - 65536); lia).
    exists (f - 65535). split_and!; [|lia|lia|exists (s / 65536 + 1); lia|lia].
    symmetry. apply Z.mod_unique with (-2); lia.
Qed.

Lemma fold_checksum_range s : is_u16 (fold_checksum s).
Proof. unfold fold_checksum, is_u16. apply u16_range. Qed.

Lemma fold_checksum_verifies s : 0 <= s -> s + 65535 < 4294967296 -> fold_checksum (s + fold_checksum s) = 0.
Proof.
  intros H1 H2. destruct (fold_checksum_eq s) as (r & E & Hr & (q & Hq0 & Hq) & H0); [lia|]. rewrite E.
  destruct (fold_checksum_eq (s + (65535 - r))) as (r' & E' & Hr' & (q' & Hq0' & Hq') & H0'); [lia|]. rewrite E'.
  assert (r' = 0 \/ r' = 65535) by lia. lia.
Qed.

(** A packet in which the word [off + 2 * j] was 0 when the checksum was taken and
    holds the checksum verifies. *)
Lemma checksum_verifies b b' off len j c :
  bytes b -> 0 <= off -> 0 <= len <= 65536 -> len mod 2 = 0 -> off + len <= zlen b -> 0 <= 2 * Z.of_nat j < len ->
  b.[off + 2 * Z.of_nat j] = Some 0 -> b.[off + 2 * Z.of_nat j + 1] = Some 0 ->
  generate_checksum b off len = Some c -> wrote b b' (word_at (off + 2 * Z.of_nat j) c) ->
  generate_checksum b' off len = Some 0.
Proof.
  intros Hb Ho Hl Hev Hlen Hj H0 H1 Hc Hw. unfold generate_checksum in *. rewrite Hev in *.
  cbn [truth Z.eqb negb] in *.
  rewrite (sum_words_wsum (Z.to_nat (len / 2)) b off 0) in Hc by (try done; lia).
  cbn [mbind option_bind] in Hc. injection Hc as <-. rewrite Z.add_0_l in *.
  pose proof (fold_checksum_range (wsum (Z.to_nat (len / 2)) b off)) as Hr.
  assert (Hb' : bytes b').
  { eapply wrote_bytes; [exact Hw|done|]. intros i v. apply word_at_u8. }
  rewrite sum_words_wsum by (try done; try lia; destruct Hw; lia). sbind.
  rewrite (wsum_put16 _ j b b' off (fold_checksum (wsum (Z.to_nat (len / 2)) b off)) Ho) by (try done; lia).
  pose proof (wsum_bound (Z.to_nat (len / 2)) b off Hb Ho ltac:(lia)).
  f_equal. rewrite Z.add_0_l. apply fold_checksum_verifies; lia.
Qed.

(** ** Reading through a chain of stores *)

Ltac zdec := repeat match goal with
  | |- context [?x =? ?y] =>
      first [rewrite (proj2 (Z.eqb_neq x y)) by lia | rewrite (proj2 (Z.eqb_eq x y)) by lia]
  end.

Ltac wlen := repeat match goal with W : wrote _ ?b _ |- context [zlen ?b] => rewrite (proj1 W) end.

(** [b.[j]] after the stores in the context. *)
Ltac wlook := repeat match goal with
  | W : wrote _ ?b _ |- context [zget ?b ?j] =>
      rewrite (proj2 W j) by lia; cbv beta; unfold dword_at, word_at; zdec; cbv iota;
      repeat (rewrite (bytes_at_out _ _ _ j) by lia); cbv iota
  end.

Ltac wr L := let b := fresh "b" in let W := fresh "W" in let E := fresh "E" in
  edestruct L as (b & E & W); [try (wlen; lia)..|];
  try change (Z.to_nat 4) with 4%nat in E; try change (Z.to_nat 6) with 6%nat in E;
  try change (Z.to_nat 12) with 12%nat in E; rewrite E; clear E; sbind.

Lemma low_nibble_45 b : is_u8 b ->
  Z.lor (Z.land (u8 (Z.lor (Z.land b 0x0f) 0x40)) 0xf0) 5 = 0x45.
Proof.
  intros H. apply Z.eqb_eq. revert b H. change (is_u8) with (fun b => 0 <= b < Z.of_nat 256). cbv beta.
  by apply (below_spec 256 (fun b => Z.lor (Z.land (u8 (Z.lor (Z.land b 0x0f) 0x40)) 0xf0) 5 =? 0x45)).
Qed.

(** The header [ip_format_packet] leaves at [off]. *)
Record ip_header (d : list Z) (off : Z) (ip_addr target_ip : list Z) (proto len : Z) : Prop := {
  ih_version : d.[off] = Some 0x45;
  ih_len : d.[off + 2] = Some (len / 256) /\ d.[off + 3] = Some (len mod 256);
  ih_proto : d.[off + 9] = Some proto;
  ih_src : forall i, 0 <= i < 4 -> d.[off + 12 + i] = ip_addr.[i];
  ih_dst : forall i, 0 <= i < 4 -> d.[off + 16 + i] = target_ip.[i];
}.

Lemma swapped_bytes v : is_u16 v -> u8 (swap_word v) = v / 256 /\ u8 (swap_word v / 256) = v mod 256.
Proof.
  intros H. rewrite swap_word_eq by done. unfold is_u16, u8 in *.
  replace ((v mod 256 * 256 + v / 256) / 256) with (v mod 256) by (apply Z.div_unique with (v / 256); lia).
  split; [|apply Z.mod_mod; lia]. symmetry. apply Z.mod_unique with (v mod 256); lia.
Qed.

Lemma ip_format_packet_spec data off ip_addr target_ip proto len :
  bytes data -> 0 <= off -> off + 20 <= zlen data -> bytes ip_addr -> bytes target_ip ->
  zlen ip_addr = 4 -> zlen target_ip = 4 -> is_u8 proto -> is_u16 len ->
  exists d, ip_format_packet data off ip_addr target_ip proto len = Some d /\ zlen d = zlen data /\ bytes d /\
    generate_checksum d off 20 = Some 0 /\ ip_header d off ip_addr target_ip proto len /\
    (forall j, 0 <= j < off \/ off + 20 <= j -> d.[j] = data.[j]).
Proof.
  intros Hb Ho Hl Hi Ht Hli Hlt Hp Hlen. unfold ip_format_packet.
  destruct (zget_in data off) as [v0 Hv0]; [lia|]. rewrite Hv0. sbind.
  wr (put8_wrote data off (Z.lor (Z.land v0 0x0f) 0x40)).
  assert (H0 : b.[off] = Some (u8 (Z.lor (Z.land v0 0x0f) 0x40))) by (wlook; done).
  rewrite H0. sbind. rewrite low_nibble_45 by (by eapply Hb).
  wr (put8_wrote b off 0x45). wr (put8_wrote b0 (off + 1) 0). wr (put16_wrote b1 (off + 2) (swap_word len)).
  wr (put16_wrote b2 (off + 4) (swap_word 0x4455)). wr (put16_wrote b3 (off + 6) (swap_word no_fragment)).
  wr (put8_wrote b4 (off + 8) 64). wr (put8_wrote b5 (off + 9) proto). wr (put16_wrote b6 (off + 10) 0).
  wr (copy2_wrote 4 b7 (off + 12) ip_addr (off + 16) target_ip).
  assert (H45 : b8.[off] = Some 0x45) by (wlook; done).
  rewrite H45. sbind. change (Z.land 0x45 0x0f * 4) with 20.
  assert (Hbytes : bytes b8).
  { repeat match goal with W : wrote _ ?b _ |- bytes ?b =>
      eapply wrote_bytes; [exact W| |cbv beta; intros j v;
        first [apply word_at_u8
              |case_match; [intros [= <-]; apply u8_is|done]
              |case_match eqn:Ex; [intros [= <-]; eapply bytes_at_u8; [|exact Ex]|apply bytes_at_u8]; done]] end.
    done. }
  destruct (generate_checksum b8 off 20) as [c|] eqn:Hc.
  2: { unfold generate_checksum in Hc. change (Z.to_nat (20 / 2)) with 10%nat in Hc. change (20 mod 2) with 0 in Hc.
       rewrite sum_words_wsum in Hc by (try done; wlen; lia). discriminate Hc. }
  sbind. destruct (put16_wrote b8 (off + 10) c) as (d & -> & Wd); [wlen; lia|wlen; lia|].
  destruct (swapped_bytes len Hlen) as [Hs1 Hs2].
  exists d. split; [done|]. split; [wlen; done|]. split_and!.
  - eapply wrote_bytes; [exact Wd|done|]. intros j v. apply word_at_u8.
  - apply (checksum_verifies b8 d off 20 5 c); try done; try (wlen; lia); change (2 * Z.of_nat 5) with 10.
    + wlook. done.
    + replace (off + 10 + 1) with (off + 11) by lia. wlook. done.
  - constructor.
    + wlook. done.
    + split; wlook; by f_equal.
    + wlook. f_equal. unfold is_u8 in Hp. by rewrite u8_id.
    + intros i Hi4. rewrite (proj2 Wd) by lia. unfold word_at. zdec. cbv iota. rewrite (proj2 W8) by lia. cbv beta.
      rewrite bytes_at_in by lia. replace (off + 12 + i - (off + 12)) with i by lia.
      destruct (zget_in ip_addr i) as [v ->]; [lia|done].
    + intros i Hi4. rewrite (proj2 Wd) by lia. unfold word_at. zdec. cbv iota. rewrite (proj2 W8) by lia. cbv beta.
      rewrite bytes_at_out, bytes_at_in by lia. replace (off + 16 + i - (off + 16)) with i by lia.
      destruct (zget_in target_ip i) as [v ->]; [lia|done].
  - intros j Hj. wlook. done.
Qed.

Lemma copy2_fields_u8 d1 n x d2 y j v : bytes x -> bytes y ->
  match bytes_at d1 n x j with Some v => Some v | None => bytes_at d2 n y j end = Some v -> is_u8 v.
Proof. intros Hx Hy. case_match eqn:E; [intros [= <-]; by eapply bytes_at_u8 in E|by apply bytes_at_u8]. Qed.

Lemma eth_format_packet_spec data mac target proto :
  bytes data -> 14 <= zlen data -> bytes mac -> bytes target -> zlen mac = 6 -> zlen target = 6 -> is_u16 proto ->
  exists d, eth_format_packet data mac target proto = Some d /\ zlen d = zlen data /\ bytes d /\
    d.[12] = Some (proto / 256) /\ d.[13] = Some (proto mod 256) /\
    (forall j, 14 <= j -> d.[j] = data.[j]).
Proof.
  intros Hb Hl Hm Ht Hzm Hzt Hp. unfold eth_format_packet.
  wr (put16_wrote data 12 (swap_word proto)). 
  destruct (copy2_wrote 6 b 0 target 6 mac) as (d & E & Wd); [try (wlen; lia)..|].
  change (Z.to_nat 6) with 6%nat in E. exists d. split; [done|]. split; [wlen; done|].
  destruct (swapped_bytes proto Hp) as [Hs1 Hs2]. split_and!.
  - eapply wrote_bytes; [exact Wd| |intros j v; by apply copy2_fields_u8].
    eapply wrote_bytes; [exact W|done|intros j v; apply word_at_u8].
  - wlook. by f_equal.
  - wlook. by f_equal.
  - intros j Hj. wlook. done.
Qed.

(** Reading back the words that were stored swapped. *)
Lemma get16_wrote b b' off v : 0 <= off -> is_u16 v -> wrote b b' (word_at off v) -> get16 b' off = Some v.
Proof.
  intros Ho Hv [_ W]. unfold get16. rewrite !W by lia. unfold word_at. zdec. cbv iota. sbind.
  unfold is_u16, u8 in *. f_equal. lia.
Qed.

(** ** Properties *)

(** The IP header that [IPv4Factory::format_packet] writes is one a receiver
    accepts: whatever the buffer held, the sum over the header with its checksum
    verifies, version, header length, protocol, total length (in network order)
    and both addresses are where the protocol has them, and nothing outside the
    twenty bytes changes. *)
Theorem ip_header_verifies (data : list Z) (off : Z) (ip_addr target_ip : list Z) (proto len : Z) :
  bytes data -> 0 <= off -> off + 20 <= zlen data -> bytes ip_addr -> bytes target_ip ->
  zlen ip_addr = 4 -> zlen target_ip = 4 -> is_u8 proto -> is_u16 len ->
  exists d, ip_format_packet data off ip_addr target_ip proto len = Some d /\ zlen d = zlen data /\
    generate_checksum d off 20 = Some 0 /\ ip_header d off ip_addr target_ip proto len /\
    (forall j, 0 <= j < off \/ off + 20 <= j -> d.[j] = data.[j]).
Proof.
  intros. destruct (ip_format_packet_spec data off ip_addr target_ip proto len) as (d & E1 & E2 & _ & E3); auto.
  exists d. auto.
Qed.

Definition demo_ip : list Z := [172; 17; 0; 2].
Definition demo_gateway : list Z := [172; 17; 0; 1].

Lemma bytes_forall l : forallb (fun v => (0 <=? v) && (v <? 256)) l = true -> bytes l.
Proof.
  intros H j v Hj. apply zget_Some in Hj as [_ Hj]. apply list_elem_of_lookup_2 in Hj.
  rewrite forallb_forall in H. specialize (H v). rewrite <- list_elem_of_In in H. specialize (H Hj).
  zbool. unfold is_u8. lia.
Qed.

Lemma ip_header_verifies_witness :
  exists d, ip_format_packet (replicate 40 0xaa) 14 demo_ip demo_gateway 1 84 = Some d /\
    generate_checksum d 14 20 = Some 0.
Proof.
  destruct (ip_header_verifies (replicate 40 0xaa) 14 demo_ip demo_gateway 1 84) as (d & H1 & _ & H2 & _).
  - apply bytes_forall. reflexivity.
  - lia.
  - vm_compute. discriminate.
  - apply bytes_forall. reflexivity.
  - apply bytes_forall. reflexivity.
  - reflexivity.
  - reflexivity.
  - unfold is_u8. lia.
  - unfold is_u16. lia.
  - exists d. auto.
Defined.
