(* ===== verification/NetIf.v ===== *)
(** * Network interfaces (net/arp.cc, net/route_table.cc, net/network_interface.cc, net/network_manager.cc)

    The ARP cache of an interface has five entries; a lookup counts the entry as
    used, and the entry used least is replaced when the cache is full.  A pointer
    to an address that is null is [None] inside the result. *)
From S2P Require Import Prelude CString Packets.

(** ** The ARP cache *)

Record mac_map_ip := mk_mac_map_ip { mac_addr : list Z; ip_addr : list Z; ref : Z }.

Definition item0 : mac_map_ip := mk_mac_map_ip (replicate 6 0) (replicate 4 0) 0.

(** Comparison of [n] bytes. *)
Fixpoint is_same (n : nat) (a b : list Z) (i : Z) : option bool :=
  match n with
  | O => Some true
  | S n' =>
      x ← a.[i]; y ← b.[i];
      if negb (x =? y) then Some false else is_same n' a b (i + 1)
  end.

Definition is_same_mac_addr (a b : list Z) : option bool := is_same 6 a b 0.
Definition is_same_ip_addr (a b : list Z) : option bool := is_same 4 a b 0.

Abbreviation ArpCacheTable := (list mac_map_ip).

Definition ArpCacheTable_init : ArpCacheTable := replicate 5 item0.

(** [set_item] keeps the use count. *)
Definition set_item (t : ArpCacheTable) (slot : Z) (mac ip : list Z) : option ArpCacheTable :=
  it ← t.[slot];
  m ← memcpy it.(mac_addr) 0 mac 0 6;
  p ← memcpy it.(ip_addr) 0 ip 0 4;
  t.[slot <- mk_mac_map_ip m p it.(ref)].

(** The first item that satisfies a test, from [i] on. *)
Fixpoint locate (n : nat) (test : mac_map_ip -> option bool) (t : ArpCacheTable) (i : Z) : option Z :=
  match n with
  | O => Some (-1)
  | S n' =>
      it ← t.[i]; b ← test it;
      if (b : bool) then Some i else locate n' test t (i + 1)
  end.

Definition locate_ip_addr (t : ArpCacheTable) (ip : list Z) : option Z :=
  locate 5 (fun it => is_same_ip_addr it.(ip_addr) ip) t 0.
Definition locate_mac_addr (t : ArpCacheTable) (mac : list Z) : option Z :=
  locate 5 (fun it => is_same_mac_addr it.(mac_addr) mac) t 0.

Definition count_use (t : ArpCacheTable) (i : Z) : option ArpCacheTable :=
  it ← t.[i]; t.[i <- mk_mac_map_ip it.(mac_addr) it.(ip_addr) (u32 (it.(ref) + 1))].

Definition get_ip_addr (t : ArpCacheTable) (mac : list Z) : option (option (list Z) * ArpCacheTable) :=
  i ← locate_mac_addr t mac;
  if negb (-1 =? i) then t ← count_use t i; it ← t.[i]; Some (Some it.(ip_addr), t)
  else Some (None, t).

Definition get_mac_addr (t : ArpCacheTable) (ip : list Z) : option (option (list Z) * ArpCacheTable) :=
  i ← locate_ip_addr t ip;
  if negb (-1 =? i) then t ← count_use t i; it ← t.[i]; Some (Some it.(mac_addr), t)
  else Some (None, t).

Definition delete_item (t : ArpCacheTable) (mac : list Z) : option ArpCacheTable :=
  i ← locate_mac_addr t mac;
  if negb (-1 =? i) then set_item t i (replicate 6 0) (replicate 4 0) else Some t.

(** Only the hardware address is checked. *)
Definition is_free_slot (it : mac_map_ip) : option bool := is_same_mac_addr it.(mac_addr) (replicate 6 0).

Definition get_free_slot (t : ArpCacheTable) : option Z := locate 5 is_free_slot t 0.

Definition is_exists (t : ArpCacheTable) (mac ip : list Z) : option (bool * ArpCacheTable) :=
  '(found, t) ← get_ip_addr t mac;
  match found with
  | None => Some (false, t)
  | Some ip_in_tbl => b ← is_same_ip_addr ip ip_in_tbl; Some (b, t)
  end.

(** The comparison is unsigned: the [int] [less_use_cnt] is converted. *)
Fixpoint less_used (n : nat) (t : ArpCacheTable) (i idx less_use_cnt : Z) : option Z :=
  match n with
  | O => Some idx
  | S n' =>
      it ← t.[i];
      if it.(ref) <? u32 less_use_cnt then less_used n' t (i + 1) i (s32 it.(ref))
      else less_used n' t (i + 1) idx less_use_cnt
  end.

Definition remove_less_use_item (t : ArpCacheTable) : option Z :=
  it ← t.[0]; less_used 4 t 1 0 (s32 it.(ref)).

Definition append (t : ArpCacheTable) (mac ip : list Z) : option ArpCacheTable :=
  '(e, t) ← is_exists t mac ip;
  if (e : bool) then Some t
  else
    slot ← get_free_slot t;
    slot ← (if -1 =? slot then remove_less_use_item t else Some slot);
    if negb (-1 =? slot) then set_item t slot mac ip else Some t.

(** [print_all]: the entries printed. *)
Fixpoint print_items (n : nat) (t : ArpCacheTable) (i : Z) : option (list (list Z * list Z)) :=
  match n with
  | O => Some []
  | S n' =>
      it ← t.[i]; b ← is_free_slot it;
      rest ← print_items n' t (i + 1);
      Some (if (b : bool) then rest else (it.(mac_addr), it.(ip_addr)) :: rest)
  end.

Definition print_all (t : ArpCacheTable) : option (list (list Z * list Z)) := print_items 5 t 0.

(** ** The route table *)

Record route_tbl_item := mk_route { destination : list Z; gateway : list Z; mask : list Z }.

Abbreviation RouteTable := (list route_tbl_item).

(** The constructor sets the first of the four items. *)
Definition RouteTable_init (t : RouteTable) : option RouteTable :=
  t.[0 <- mk_route (replicate 4 0) (replicate 4 0) (replicate 4 0)].

Definition get_default_gateway (t : RouteTable) : option (list Z) := it ← t.[0]; Some it.(gateway).

Definition set_default_gateway (t : RouteTable) (gw : list Z) : option RouteTable :=
  it ← t.[0];
  g ← memcpy it.(gateway) 0 gw 0 4;
  t.[0 <- mk_route it.(destination) g it.(mask)].

(** ** Interfaces *)

Record NetworkInterface := mk_if {
  iface_name : list Z;
  if_mac : list Z;
  if_ip : list Z;
  arp_tbl : ArpCacheTable;
  route_tbl : RouteTable;
}.

Definition default_gateway : list Z := [172; 17; 0; 1].

(** [NetworkInterface()] on the raw object. *)
Definition NetworkInterface_init (raw : NetworkInterface) : option NetworkInterface :=
  r ← RouteTable_init raw.(route_tbl);
  nm ← memset raw.(iface_name) 0 0 16;
  r ← set_default_gateway r default_gateway;
  Some (mk_if nm raw.(if_mac) raw.(if_ip) ArpCacheTable_init r).

Definition with_arp (i : NetworkInterface) t := mk_if i.(iface_name) i.(if_mac) i.(if_ip) t i.(route_tbl).

Definition set_mac_addr (i : NetworkInterface) (mac : list Z) : option NetworkInterface :=
  m ← memcpy i.(if_mac) 0 mac 0 6; Some (mk_if i.(iface_name) m i.(if_ip) i.(arp_tbl) i.(route_tbl)).
Definition set_ip_addr (i : NetworkInterface) (ip : list Z) : option NetworkInterface :=
  p ← memcpy i.(if_ip) 0 ip 0 4; Some (mk_if i.(iface_name) i.(if_mac) p i.(arp_tbl) i.(route_tbl)).
Definition set_name (i : NetworkInterface) (name : list Z) : option NetworkInterface :=
  l ← strlen name;
  n ← memcpy i.(iface_name) 0 name 0 (Z.to_nat l);
  Some (mk_if n i.(if_mac) i.(if_ip) i.(arp_tbl) i.(route_tbl)).

(** The gateway's hardware address, a null pointer when the cache has none. *)
Definition get_default_gateway_mac (i : NetworkInterface) : option (option (list Z) * NetworkInterface) :=
  g ← get_default_gateway i.(route_tbl);
  '(m, t) ← get_mac_addr i.(arp_tbl) g;
  Some (m, with_arp i t).

Definition ip_of_uint (ip_uint : Z) : list Z :=
  [Z.shiftr (Z.land ip_uint 0xff000000) 24; Z.shiftr (Z.land ip_uint 0x00ff0000) 16;
   Z.shiftr (Z.land ip_uint 0x0000ff00) 8; Z.land ip_uint 0x000000ff].

(** The cache keeps the old address, and the gateway is not set. *)
Definition config_iface (i : NetworkInterface) (ip_uint gateway_uint : Z) : option NetworkInterface :=
  set_ip_addr i (ip_of_uint ip_uint).

(** ** The manager *)

Record NetworkManager := mk_nm { net_ifaces : list NetworkInterface; cur_iface : Z; ifaces_nr : Z }.

Definition iface1 : list Z := [105; 102; 97; 99; 101; 49; 0].

(** The constructor, [mac] being the address read from the driver. *)
Definition NetworkManager_init (raw : list NetworkInterface) (mac : list Z) : option NetworkManager :=
  ifs ← mapM NetworkInterface_init raw;
  i ← ifs.[0];
  i ← set_mac_addr i mac;
  i ← set_ip_addr i [172; 17; 0; 2];
  i ← set_name i iface1;
  t ← set_item i.(arp_tbl) 0 mac [172; 17; 0; 2];
  ifs ← ifs.[0 <- with_arp i t];
  Some (mk_nm ifs 0 1).

Definition get_cur_ifaces (nm : NetworkManager) : option NetworkInterface := nm.(net_ifaces).[nm.(cur_iface)].

(** ** Comparisons and searches *)

Lemma is_same_aux n a b i : 0 <= i -> zlen a = i + Z.of_nat n -> zlen b = i + Z.of_nat n ->
  (forall j, 0 <= j < i -> a.[j] = b.[j]) -> is_same n a b i = Some (bool_decide (a = b)).
Proof.
  revert i. induction n as [|n IH]; intros i Hi Ha Hb Hp; cbn [is_same].
  { rewrite bool_decide_eq_true_2; [done|]. apply zget_ext; [lia|]. intros j Hj. apply Hp. lia. }
  destruct (zget_in a i) as [x Hx]; [lia|]. destruct (zget_in b i) as [y Hy]; [lia|].
  rewrite Hx, Hy. sbind. destruct (x =? y) eqn:E; zbool; cbn [negb].
  - apply IH; try lia. intros j Hj. destruct (decide (j = i)) as [->|]; [congruence|]. apply Hp. lia.
  - rewrite bool_decide_eq_false_2; [done|]. intros ->. congruence.
Qed.

Lemma is_same_mac_spec a b : zlen a = 6 -> zlen b = 6 -> is_same_mac_addr a b = Some (bool_decide (a = b)).
Proof. intros. apply is_same_aux; lia. Qed.
Lemma is_same_ip_spec a b : zlen a = 4 -> zlen b = 4 -> is_same_ip_addr a b = Some (bool_decide (a = b)).
Proof. intros. apply is_same_aux; lia. Qed.

(** A search finds the first item with the property, or returns -1. *)
Lemma locate_spec n test (Q : mac_map_ip -> Prop) `{!forall it, Decision (Q it)} t i :
  0 <= i -> i + Z.of_nat n = zlen t ->
  (forall it, it ∈ t -> test it = Some (bool_decide (Q it))) ->
  exists r, locate n test t i = Some r /\
    ((r = -1 /\ forall j it, i <= j -> t.[j] = Some it -> ~ Q it) \/
     (i <= r < zlen t /\ (exists it, t.[r] = Some it /\ Q it) /\
      forall j it, i <= j < r -> t.[j] = Some it -> ~ Q it)).
Proof.
  revert i. induction n as [|n IH]; intros i Hi Hn Ht; cbn [locate].
  { exists (-1). split; [done|]. left. split; [done|]. intros j it Hj Hit. apply zget_lt in Hit. lia. }
  destruct (zget_in t i) as [it Hit]; [lia|]. rewrite Hit. sbind.
  rewrite Ht by (apply zget_Some in Hit as [_ Hit]; by eapply list_elem_of_lookup_2). sbind.
  destruct (decide (Q it)) as [D|D].
  - rewrite bool_decide_eq_true_2 by done. exists i. split; [done|]. right. split; [lia|]. split; [eauto|]. lia.
  - rewrite bool_decide_eq_false_2 by done. destruct (IH (i + 1)) as (r & -> & Hr); [lia|lia|done|].
    exists r. split; [done|].
    assert (Hi' : forall j it', i <= j -> j < i + 1 -> t.[j] = Some it' -> ~ Q it').
    { intros j it' H1 H2 Hj. assert (j = i) as -> by lia. congruence. }
    destruct Hr as [[-> Hr]|(H1 & H2 & H3)].
    + left. split; [done|]. intros j it' Hj. destruct (decide (j < i + 1)); [apply Hi'; lia|apply Hr; lia].
    + right. split; [lia|]. split; [done|]. intros j it' Hj.
      destruct (decide (j < i + 1)); [apply Hi'; lia|apply H3; lia].
Qed.

(** ** The invariant of the cache *)

Definition item_ok (it : mac_map_ip) : Prop := zlen it.(mac_addr) = 6 /\ zlen it.(ip_addr) = 4.
Definition table_ok (t : ArpCacheTable) : Prop := zlen t = 5 /\ Forall item_ok t.

Lemma table_item t i it : table_ok t -> t.[i] = Some it -> item_ok it.
Proof.
  intros [_ H] Hi. apply zget_Some in Hi as [_ Hi]. rewrite Forall_forall in H. apply H.
  by eapply list_elem_of_lookup_2.
Qed.

Lemma table_elem t it : table_ok t -> it ∈ t -> item_ok it.
Proof. intros [_ H] Hi. rewrite Forall_forall in H. by apply H. Qed.

Lemma table_set t i it : table_ok t -> 0 <= i < 5 -> item_ok it -> table_ok (<[Z.to_nat i := it]> t).
Proof. intros [Hz Hf] Hi Hit. split; [by rewrite zlen_insert|]. by apply Forall_insert. Qed.

Lemma memcpy_all a b n : zlen a = Z.of_nat n -> zlen b = Z.of_nat n -> memcpy a 0 b 0 n = Some b.
Proof.
  enough (H : forall k d, zlen a = Z.of_nat n -> zlen b = Z.of_nat n -> 0 <= d -> d + Z.of_nat k = Z.of_nat n ->
    forall a', zlen a' = zlen a -> (forall j, 0 <= j < d -> a'.[j] = b.[j]) -> memcpy a' d b d k = Some b).
  { intros Ha Hb. apply (H n 0); auto; lia. }
  induction k as [|k IH]; intros d Ha Hb Hd Hk a' Ha' Hj; cbn [memcpy].
  { f_equal. apply zget_ext; [lia|]. intros j Hj'. apply Hj. lia. }
  destruct (zget_in b d) as [c Hc]; [lia|]. rewrite Hc. sbind. rewrite zset_in by lia. sbind.
  apply IH; auto; try lia; [by rewrite zlen_insert|].
  intros j Hj'. rewrite zget_insert by lia. destruct (d =? j) eqn:E; zbool; [by subst|]. apply Hj. lia.
Qed.

Lemma set_item_ok t slot it mac ip : table_ok t -> t.[slot] = Some it -> zlen mac = 6 -> zlen ip = 4 ->
  let t' := <[Z.to_nat slot := mk_mac_map_ip mac ip it.(ref)]> t in
  set_item t slot mac ip = Some t' /\ table_ok t'.
Proof.
  intros Ht Hs Hm Hp t'. pose proof (table_item _ _ _ Ht Hs) as [Hi1 Hi2]. unfold set_item. rewrite Hs. sbind.
  rewrite (memcpy_all _ mac 6), (memcpy_all _ ip 4) by (cbn; lia). sbind.
  assert (0 <= slot < zlen t) by (by apply zget_lt in Hs). destruct Ht as [Hz Hf].
  rewrite zset_in by lia. split; [done|]. apply table_set; [done|lia|done].
Qed.

Lemma count_use_ok t i it : table_ok t -> t.[i] = Some it ->
  let t' := <[Z.to_nat i := mk_mac_map_ip it.(mac_addr) it.(ip_addr) (u32 (it.(ref) + 1))]> t in
  count_use t i = Some t' /\ table_ok t' /\ forall j it', t'.[j] = Some it' ->
    exists it0, t.[j] = Some it0 /\ it0.(mac_addr) = it'.(mac_addr) /\ it0.(ip_addr) = it'.(ip_addr).
Proof.
  intros Ht Hi t'. assert (Hr : 0 <= i < zlen t) by (by apply zget_lt in Hi). unfold count_use. rewrite Hi. sbind.
  rewrite zset_in by lia. split; [done|]. split.
  - apply table_set; [done|destruct Ht; lia|]. by apply (table_item t i it).
  - intros j it' Hj. assert (0 <= j) by (apply zget_lt in Hj; lia). unfold t' in Hj. rewrite zget_insert in Hj by lia.
    destruct (i =? j) eqn:E; zbool; [injection Hj as <-; subst; eauto|eauto].
Qed.

Lemma count_use_keeps t i it t' j it0 : t.[i] = Some it -> count_use t i = Some t' -> t.[j] = Some it0 ->
  exists r, t'.[j] = Some (mk_mac_map_ip it0.(mac_addr) it0.(ip_addr) r).
Proof.
  intros Hi Hc Hj. unfold count_use in Hc. rewrite Hi in Hc. cbn [mbind option_bind] in Hc.
  apply zset_Some in Hc as [Hr ->]. assert (0 <= j) by (apply zget_lt in Hj; lia).
  rewrite zget_insert by lia. destruct (i =? j) eqn:E; zbool; [|exists it0.(ref); by destruct it0].
  subst. assert (it = it0) as -> by congruence. eauto.
Qed.

Lemma less_used_range n t i idx c : table_ok t -> 0 <= i -> i + Z.of_nat n = 5 -> 0 <= idx < 5 ->
  exists r, less_used n t i idx c = Some r /\ 0 <= r < 5.
Proof.
  intros [Hz Ht]. revert i idx c. induction n as [|n IH]; intros i idx c Hi Hn Hx; cbn [less_used]; [eauto|].
  destruct (zget_in t i) as [it ->]; [lia|]. sbind. destruct (_ <? _); apply IH; lia.
Qed.

(** [get_mac_addr] when the first entry for [ip] is [it]. *)
Lemma get_mac_addr_found t ip : table_ok t -> zlen ip = 4 -> (exists j it, t.[j] = Some it /\ it.(ip_addr) = ip) ->
  exists it t', it ∈ t /\ it.(ip_addr) = ip /\ get_mac_addr t ip = Some (Some it.(mac_addr), t') /\ table_ok t'.
Proof.
  intros Ht Hz (j0 & it0 & Hj0 & Hip0).
  destruct (locate_spec 5 (fun it => is_same_ip_addr it.(ip_addr) ip) (fun it => it.(ip_addr) = ip) t 0)
    as (r & Hr & Hcase); [lia|destruct Ht; lia| |].
  { intros it Hit. destruct (table_elem _ _ Ht Hit). by apply is_same_ip_spec. }
  destruct Hcase as [[-> Hno]|(Hrr & (it & Hit & Hip) & _)].
  { exfalso. apply (Hno j0 it0); [apply zget_lt in Hj0; lia|done|done]. }
  unfold get_mac_addr, locate_ip_addr. rewrite Hr. sbind.
  destruct (-1 =? r) eqn:E; zbool; [lia|]. cbn [negb].
  destruct (count_use_ok t r it Ht Hit) as (-> & Ht' & _). sbind.
  rewrite zget_insert, Z.eqb_refl by lia. sbind. eexists it, _.
  split; [apply zget_Some in Hit as [_ Hit]; by eapply list_elem_of_lookup_2|]. done.
Qed.

Lemma append_spec t mac ip : table_ok t -> zlen mac = 6 -> zlen ip = 4 ->
  Forall (fun it => it.(ip_addr) <> ip) t ->
  exists t' slot, append t mac ip = Some t' /\ table_ok t' /\ 0 <= slot < 5 /\
    (exists r, t'.[slot] = Some (mk_mac_map_ip mac ip r)) /\
    forall j it, t'.[j] = Some it -> j <> slot -> it.(ip_addr) <> ip.
Proof.
  intros Ht Hm Hp Hno. rewrite Forall_forall in Hno.
  assert (Hno' : forall j it, t.[j] = Some it -> it.(ip_addr) <> ip).
  { intros j it Hj. apply zget_Some in Hj as [_ Hj]. apply Hno. by eapply list_elem_of_lookup_2. }
  (* the entry is not there: counting a use may change the table *)
  assert (He : exists t1, is_exists t mac ip = Some (false, t1) /\ table_ok t1 /\
    forall j it, t1.[j] = Some it -> it.(ip_addr) <> ip).
  { unfold is_exists, get_ip_addr, locate_mac_addr.
    destruct (locate_spec 5 (fun it => is_same_mac_addr it.(mac_addr) mac) (fun it => it.(mac_addr) = mac) t 0)
      as (r & -> & Hcase); [lia|destruct Ht; lia| |].
    { intros it Hit. destruct (table_elem _ _ Ht Hit). by apply is_same_mac_spec. }
    sbind. destruct Hcase as [[-> _]|(Hr & (it & Hit & _) & _)].
    - cbn [Z.eqb negb]. sbind. exists t. auto.
    - destruct (-1 =? r) eqn:E; zbool; [lia|]. cbn [negb].
      destruct (count_use_ok t r it Ht Hit) as (-> & Ht1 & Hold). sbind.
      rewrite zget_insert, Z.eqb_refl by lia. sbind. cbn [ip_addr].
      destruct (table_item _ _ _ Ht Hit). rewrite is_same_ip_spec by done. sbind.
      rewrite bool_decide_eq_false_2 by (intros E0; by apply (Hno' r it)). eexists. split; [reflexivity|].
      split; [done|]. intros j it' Hj. destruct (Hold j it' Hj) as (it0 & H1 & _ & <-). by apply (Hno' j it0). }
  destruct He as (t1 & He & Ht1 & Hno1). unfold append. rewrite He. sbind. unfold get_free_slot.
  destruct (locate_spec 5 is_free_slot (fun it => it.(mac_addr) = replicate 6 0) t1 0) as (r & -> & Hcase);
    [lia|destruct Ht1; lia| |].
  { intros it Hit. destruct (table_elem _ _ Ht1 Hit). by apply is_same_mac_spec. }
  sbind.
  assert (Hslot : exists slot, (if -1 =? r then remove_less_use_item t1 else Some r) = Some slot /\ 0 <= slot < 5).
  { destruct Ht1 as [Hz1 Hf1]. destruct Hcase as [[-> _]|(Hr & _)].
    - cbn [Z.eqb]. unfold remove_less_use_item. destruct (zget_in t1 0) as [it0 ->]; [lia|]. sbind.
      apply less_used_range; [done|lia..].
    - destruct (-1 =? r) eqn:E; zbool; [lia|]. exists r. split; [done|lia]. }
  destruct Hslot as (slot & -> & Hslot). sbind. destruct (-1 =? slot) eqn:E; zbool; [lia|]. cbn [negb].
  destruct (zget_in t1 slot) as [it Hit]; [destruct Ht1; lia|].
  destruct (set_item_ok t1 slot it mac ip Ht1 Hit Hm Hp) as [-> Ht2].
  eexists _, slot. split; [reflexivity|]. split; [done|]. split; [done|]. split.
  - exists it.(ref). rewrite zget_insert, Z.eqb_refl by (destruct Ht1; lia). done.
  - intros j it' Hj Hne. assert (0 <= j) by (apply zget_lt in Hj; lia).
    rewrite zget_insert in Hj by (destruct Ht1; lia). destruct (slot =? j) eqn:E2; zbool; [congruence|].
    by apply (Hno1 j).
Qed.

(** ** Interfaces that can send *)

(** The hardware addresses of the cache are bytes, and the gateway is known. *)
Record if_ok (i : NetworkInterface) : Prop := {
  io_mac : zlen i.(if_mac) = 6 /\ bytes i.(if_mac);
  io_ip : zlen i.(if_ip) = 4 /\ bytes i.(if_ip);
  io_table : table_ok i.(arp_tbl) /\ forall j it, i.(arp_tbl).[j] = Some it -> bytes it.(mac_addr);
  io_gateway : exists g, get_default_gateway i.(route_tbl) = Some g /\ zlen g = 4 /\
    exists j it, i.(arp_tbl).[j] = Some it /\ it.(ip_addr) = g;
}.

Lemma get_default_gateway_mac_ok i : if_ok i ->
  exists m i', get_default_gateway_mac i = Some (Some m, i') /\ zlen m = 6 /\ bytes m /\ if_ok i' /\
    i'.(if_ip) = i.(if_ip) /\ i'.(if_mac) = i.(if_mac).
Proof.
  intros [Hm Hp [Ht Hb] (g & Hg & Hzg & (j0 & it0 & Hj0 & Hip0))]. unfold get_default_gateway_mac. rewrite Hg. sbind.
  destruct (locate_spec 5 (fun it => is_same_ip_addr it.(ip_addr) g) (fun it => it.(ip_addr) = g) i.(arp_tbl) 0)
    as (r & Hr & Hcase); [lia|destruct Ht; lia| |].
  { intros it Hit. destruct (table_elem _ _ Ht Hit). by apply is_same_ip_spec. }
  destruct Hcase as [[-> Hno]|(Hrr & (it & Hit & Hip) & _)].
  { exfalso. apply (Hno j0 it0); [apply zget_lt in Hj0; lia|done|done]. }
  unfold get_mac_addr, locate_ip_addr. rewrite Hr. sbind.
  destruct (-1 =? r) eqn:E; zbool; [lia|]. cbn [negb].
  destruct (count_use_ok _ r it Ht Hit) as (Hc & Ht' & Hold).
  pose proof (count_use_keeps _ _ _ _ _ _ Hit Hc Hj0) as (r0 & Hkeep). rewrite Hc. sbind.
  set (t' := <[Z.to_nat r := _]> _) in *.
  assert (Hr' : t'.[r] = Some (mk_mac_map_ip it.(mac_addr) it.(ip_addr) (u32 (it.(ref) + 1)))).
  { unfold t'. rewrite zget_insert, Z.eqb_refl by lia. done. }
  rewrite Hr'. sbind. cbn [mac_addr]. destruct (table_item _ _ _ Ht Hit) as [Hz6 _].
  eexists _, _. split; [reflexivity|]. split; [done|]. split; [by eapply Hb|]. split; [|done].
  constructor; cbn; auto.
  - split; [done|]. intros j it' Hj. destruct (Hold _ _ Hj) as (it1 & H1 & <- & _). by eapply Hb.
  - exists g. split; [done|]. split; [done|]. eexists j0, _. split; [exact Hkeep|done].
Qed.

(** ** Properties *)

(** An address that the cache learns can be looked up: after [append] of an
    IP address it has no entry for, [get_mac_addr] finds the hardware address,
    also when the table was full and the least used entry had to go; the table
    keeps its shape. *)
Theorem arp_append_lookup (t : ArpCacheTable) (mac ip : list Z) :
  table_ok t -> zlen mac = 6 -> zlen ip = 4 -> Forall (fun it => it.(ip_addr) <> ip) t ->
  exists t' t'', append t mac ip = Some t' /\ table_ok t' /\
    get_mac_addr t' ip = Some (Some mac, t'') /\ table_ok t''.
Proof.
  intros Ht Hm Hp Hno. destruct (append_spec t mac ip Ht Hm Hp Hno) as (t' & slot & H1 & H2 & H3 & (r & H4) & H5).
  destruct (get_mac_addr_found t' ip H2 Hp) as (it & t'' & Hin & Hip & Hg & Ht''); [eauto|].
  exists t', t''. split; [done|]. split; [done|]. split; [|done]. rewrite Hg. do 3 f_equal.
  apply list_elem_of_lookup in Hin as [n Hn].
  assert (Hz : t'.[Z.of_nat n] = Some it) by (apply zget_Some; rewrite Nat2Z.id; split; [lia|done]).
  destruct (decide (Z.of_nat n = slot)) as [E|E]; [|by destruct (H5 _ _ Hz E)].
  rewrite E, H4 in Hz. by injection Hz as <-.
Qed.

Lemma arp_append_lookup_witness :
  exists t' t'', append ArpCacheTable_init [2; 4; 6; 8; 10; 12] demo_gateway = Some t' /\
    get_mac_addr t' demo_gateway = Some (Some [2; 4; 6; 8; 10; 12], t'').
Proof.
  destruct (arp_append_lookup ArpCacheTable_init [2; 4; 6; 8; 10; 12] demo_gateway) as (t' & t'' & H1 & _ & H2 & _).
  - split; [reflexivity|]. repeat constructor.
  - reflexivity.
  - reflexivity.
  - repeat (constructor; [discriminate|]). constructor.
  - exists t', t''. auto.
Defined.
