(* ===== verification/Tcp.v ===== *)
(** * TCP (net/tcp.cc)

    The sockets of an interface, the segments that are sent and the state machine
    of [resolve_packet].  The factory holds its sockets by value; receive buffers
    are kept by address in [bufs]; frames handed to the driver and messages to
    processes are recorded in the order in which they are sent.  [fresh n] is the
    memory [malloc(n)] returns. *)
From S2P Require Import Prelude CString Packets NetIf.
From S2P Require RingBuffer.
Module IRB := RingBuffer.IndirectRingBuffer.

Inductive tcp_socket_state :=
| CLOSED | LISTENING | SYN_SENT | SYN_RECEIVED | ESTABLISHED | FIN_WAIT1 | FIN_WAIT2 | CLOSING | TIME_WAIT
| CLOSE_WAIT | LAST_ACK | ACCEPT.

#[global] Instance tcp_socket_state_eq_dec : EqDecision tcp_socket_state.
Proof. solve_decision. Defined.

Definition FIN : Z := 0x1.
Definition SYN : Z := 0x2.
Definition PSH : Z := 0x8.
Definition ACK : Z := 0x10.

Record TcpSocket := mk_TcpSocket {
  src_port : Z;
  src_ip : list Z;
  dst_port : Z;
  dst_ip : list Z;
  seq_num : Z;
  ack_num : Z;
  state : tcp_socket_state;
  recv_buffer : IRB.t;
  bind_proc : Z;
  tcp_factory : bool;            (* the pointer is set *)
}.

Definition set_seq (s : TcpSocket) x := mk_TcpSocket s.(src_port) s.(src_ip) s.(dst_port) s.(dst_ip) x s.(ack_num)
  s.(state) s.(recv_buffer) s.(bind_proc) s.(tcp_factory).
Definition set_ack (s : TcpSocket) x := mk_TcpSocket s.(src_port) s.(src_ip) s.(dst_port) s.(dst_ip) s.(seq_num) x
  s.(state) s.(recv_buffer) s.(bind_proc) s.(tcp_factory).
Definition set_state (s : TcpSocket) x := mk_TcpSocket s.(src_port) s.(src_ip) s.(dst_port) s.(dst_ip) s.(seq_num)
  s.(ack_num) x s.(recv_buffer) s.(bind_proc) s.(tcp_factory).
Definition set_remote (s : TcpSocket) p ip := mk_TcpSocket s.(src_port) s.(src_ip) p ip s.(seq_num)
  s.(ack_num) s.(state) s.(recv_buffer) s.(bind_proc) s.(tcp_factory).
Definition set_local (s : TcpSocket) p ip := mk_TcpSocket p ip s.(dst_port) s.(dst_ip) s.(seq_num)
  s.(ack_num) s.(state) s.(recv_buffer) s.(bind_proc) s.(tcp_factory).
Definition set_recv_buffer (s : TcpSocket) x := mk_TcpSocket s.(src_port) s.(src_ip) s.(dst_port) s.(dst_ip)
  s.(seq_num) s.(ack_num) s.(state) x s.(bind_proc) s.(tcp_factory).
Definition set_bind_proc (s : TcpSocket) x := mk_TcpSocket s.(src_port) s.(src_ip) s.(dst_port) s.(dst_ip)
  s.(seq_num) s.(ack_num) s.(state) s.(recv_buffer) x s.(tcp_factory).
Definition set_tcp_factory (s : TcpSocket) := mk_TcpSocket s.(src_port) s.(src_ip) s.(dst_port) s.(dst_ip)
  s.(seq_num) s.(ack_num) s.(state) s.(recv_buffer) s.(bind_proc) true.

(** The factory with what surrounds it.  [sockets] has 128 entries. *)
Record tcp := mk_tcp {
  sockets : list (option TcpSocket);
  net_if : NetworkInterface;
  bufs : gmap Z (list Z);
  sent : list (list Z);
  notes : list (Z * Z * Z);           (* destination, type, first word *)
}.

Definition with_sockets (t : tcp) x := mk_tcp x t.(net_if) t.(bufs) t.(sent) t.(notes).
Definition with_if (t : tcp) x := mk_tcp t.(sockets) x t.(bufs) t.(sent) t.(notes).
Definition with_bufs (t : tcp) x := mk_tcp t.(sockets) t.(net_if) x t.(sent) t.(notes).
Definition with_sent (t : tcp) x := mk_tcp t.(sockets) t.(net_if) t.(bufs) x t.(notes).
Definition with_notes (t : tcp) x := mk_tcp t.(sockets) t.(net_if) t.(bufs) t.(sent) x.

Definition TcpFactory_init (net_if_ : NetworkInterface) : tcp := mk_tcp (replicate 128 None) net_if_ ∅ [] [].

(** ** Segments *)

Definition sizeof_tcp : Z := 24.

Definition tcp_pseudo_header (socket : TcpSocket) (size : Z) : option (list Z) :=
  h ← memcpy (replicate 12 0) 0 socket.(src_ip) 0 4;
  h ← memcpy h 4 socket.(dst_ip) 0 4;
  h ← put16 h 8 0x0600;
  put16 h 10 (swap_word (u16 (sizeof_tcp + size))).

(** The header before the checksum is taken; the two nibbles of byte 12 are bit
    fields. *)
Definition tcp_header (data : list Z) (off : Z) (socket : TcpSocket) (flags : Z) : option (list Z) :=
  data ← put16 data off (swap_word socket.(src_port));
  data ← put16 data (off + 2) (swap_word socket.(dst_port));
  data ← put32 data (off + 4) (swap_double_word socket.(seq_num));
  data ← put32 data (off + 8) (swap_double_word socket.(ack_num));
  b ← data.[off + 12];
  data ← put8 data (off + 12) (Z.lor (Z.land b 0x0f) (16 * (sizeof_tcp / 4)));
  b ← data.[off + 12];
  data ← put8 data (off + 12) (Z.land b 0xf0);
  data ← put8 data (off + 13) flags;
  data ← put16 data (off + 14) 0xffff;
  data ← put16 data (off + 16) 0;
  data ← put16 data (off + 18) 0;
  put32 data (off + 20) (if truth (Z.land flags SYN) then 0xb4050402 else 0).

Definition tcp_format_packet (data check_sum_use : list Z) (off : Z) (socket : TcpSocket) (payload : list Z)
    (size flags : Z) : option (list Z * TcpSocket) :=
  data ← tcp_header data off socket flags;
  pseudo ← tcp_pseudo_header socket size;
  use ← memcpy check_sum_use 0 pseudo 0 12;
  use ← memcpy use 12 data off (Z.to_nat (sizeof_tcp + size));
  use ← memcpy use (12 + sizeof_tcp) payload 0 (Z.to_nat size);
  c ← generate_checksum use 0 (12 + sizeof_tcp + size);
  data ← put16 data (off + 16) c;
  data ← memcpy data (off + sizeof_tcp) payload 0 (Z.to_nat size);
  Some (data, set_seq socket (u32 (socket.(seq_num) + size))).

Section tcp.
Context (fresh : Z -> list Z).

(** [TcpFactory::send]; a missing gateway address is a null pointer. *)
Definition send (t : tcp) (socket : TcpSocket) (payload : list Z) (size flags : Z) : option (TcpSocket * tcp) :=
  '(gw, i) ← get_default_gateway_mac t.(net_if);
  let t := with_if t i in
  let data := fresh (sizeof_eth + sizeof_ip + sizeof_tcp + size) in
  gateway_mac_addr ← gw;
  data ← eth_format_packet data i.(if_mac) gateway_mac_addr next_is_ip;
  data ← ip_format_packet data sizeof_eth i.(if_ip) socket.(dst_ip) 0x6 (u16 (sizeof_ip + sizeof_tcp + size));
  '(data, socket) ← tcp_format_packet data (fresh (12 + sizeof_tcp + size)) (sizeof_eth + sizeof_ip) socket payload size
      (u8 flags);
  Some (socket, with_sent t (t.(sent) ++ [take (Z.to_nat (sizeof_eth + sizeof_ip + sizeof_tcp + size)) data])).

Definition get_socket (t : tcp) (port : Z) : option (option TcpSocket) := t.(sockets).[port].
Definition put_socket (t : tcp) (port : Z) (s : option TcpSocket) : option tcp :=
  ss ← t.(sockets).[port <- s]; Some (with_sockets t ss).

(** [listen]: [raw] is the memory of the new socket, [addrs] the addresses of the
    ten buffers. *)
Definition listen (t : tcp) (port : Z) (raw : TcpSocket) (addrs : list Z) : option (bool * tcp) :=
  s ← get_socket t port;
  match s with
  | Some _ => Some (false, t)
  | None =>
      ip ← memcpy raw.(src_ip) 0 t.(net_if).(if_ip) 0 4;
      let s := set_state (set_local raw port ip) LISTENING in
      r ← IRB.initialize s.(recv_buffer) addrs;
      let s := set_bind_proc (set_recv_buffer s r) 0 in
      let t := with_bufs t (foldr (fun a m => <[a := fresh 1600]> m) t.(bufs) addrs) in
      t ← put_socket t port (Some s);
      Some (true, t)
  end.

Fixpoint free_port (n : nat) (t : tcp) (i : Z) : option Z :=
  match n with
  | O => Some (-1)
  | S n' => s ← get_socket t i; match s with None => Some i | Some _ => free_port n' t (i + 1) end
  end.

Definition get_free_port (t : tcp) : option Z := free_port 116 t 12.

(** [connect]: the port of the new socket, -1 when there is none. *)
Definition connect (t : tcp) (raw : TcpSocket) (dst_ip_ : list Z) (dst_port_ : Z) : option (Z * tcp) :=
  p ← get_free_port t;
  if -1 =? p then Some (-1, t)
  else
    ip ← memcpy raw.(src_ip) 0 t.(net_if).(if_ip) 0 4;
    dip ← memcpy raw.(dst_ip) 0 dst_ip_ 0 4;
    let s := set_remote (set_local (set_tcp_factory raw) p ip) dst_port_ dip in
    let s := set_ack (set_seq (set_state s SYN_SENT) 0) 0 in
    '(s, t) ← send t s [] 0 SYN;
    t ← put_socket t p (Some s);
    Some (p, t).

Definition disconnect (t : tcp) (s : TcpSocket) : option (TcpSocket * tcp) :=
  '(s, t) ← send t (set_state s FIN_WAIT1) [] 0 (Z.lor FIN ACK);
  Some (set_seq s (u32 (s.(seq_num) + 1)), t).

(** The loop that counts the bytes other than 0 of the payload. *)
Fixpoint count_nonzero (n : nat) (data : list Z) (pos real_len : Z) : option Z :=
  match n with
  | O => Some real_len
  | S n' => c ← data.[pos]; count_nonzero n' data (pos + 1) (if negb (0 =? c) then u32 (real_len + 1) else real_len)
  end.

(** The default case of [resolve_packet]: the payload from [data_start] on. *)
Definition receive_data (t : tcp) (port : Z) (s : TcpSocket) (data : list Z) (off payload_len : Z) : option tcp :=
  b ← data.[off + 12];
  let head := Z.shiftr b 4 * 4 in
  let data_start := off + head in
  real_len ← count_nonzero (Z.to_nat (payload_len - head)) data data_start 0;
  seq ← get32 data (off + 4);
  if swap_double_word seq =? s.(ack_num) then
    '(a, r) ← IRB.get_first_free_buffer s.(recv_buffer);
    buf ← t.(bufs) !! a;
    buf ← put32 buf 0 real_len;
    buf ← memcpy buf 4 data data_start (Z.to_nat real_len);
    let s := set_ack (set_recv_buffer s r) (u32 (s.(ack_num) + real_len)) in
    let t := with_bufs t (<[a := buf]> t.(bufs)) in
    '(s, t) ← send t s [] 0 ACK;
    put_socket t port (Some s)
  else Some t.

(** [resolve_packet]: the segment at [off] of the frame [data]. *)
Definition resolve_packet (t : tcp) (data : list Z) (off : Z) (remote_ip : list Z) (payload_len : Z) : option tcp :=
  dp ← get16 data (off + 2);
  sp ← get16 data off;
  let dst_port_ := swap_word dp in
  let src_port_ := swap_word sp in
  s ← get_socket t dst_port_;
  match s with
  | None => Some t
  | Some s =>
      flags ← data.[off + 13];
      seq ← get32 data (off + 4);
      let f := Z.land flags (Z.lor (Z.lor SYN ACK) FIN) in
      if f =? SYN then
        if decide (LISTENING = s.(state)) then
          ip ← memcpy s.(dst_ip) 0 remote_ip 0 4;
          let s := set_remote (set_state s SYN_RECEIVED) src_port_ ip in
          let s := set_seq (set_ack s (u32 (swap_double_word seq + 1))) 0 in
          '(s, t) ← send t s [] 0 (Z.lor SYN ACK);
          put_socket t dst_port_ (Some (set_seq s (u32 (s.(seq_num) + 1))))
        else Some t
      else if f =? Z.lor SYN ACK then
        if decide (SYN_SENT = s.(state)) then
          let s := set_seq (set_state s ESTABLISHED) (u32 (s.(seq_num) + 1)) in
          let s := set_ack s (u32 (swap_double_word seq + 1)) in
          '(s, t) ← send t s [] 0 ACK;
          put_socket t dst_port_ (Some s)
        else Some t
      else if (f =? FIN) || (f =? Z.lor FIN ACK) then
        if decide (ESTABLISHED = s.(state)) then
          let s := set_ack (set_state s CLOSE_WAIT) (u32 (s.(ack_num) + 1)) in
          '(s, t) ← send t s [] 0 ACK;
          '(s, t) ← send t s [] 0 (Z.lor FIN ACK);
          put_socket t dst_port_ (Some s)
        else if decide (CLOSE_WAIT = s.(state)) then put_socket t dst_port_ (Some (set_state s CLOSED))
        else if decide (FIN_WAIT1 = s.(state) \/ FIN_WAIT2 = s.(state)) then
          let s := set_ack (set_state s CLOSED) (u32 (s.(ack_num) + 1)) in
          '(s, t) ← send t s [] 0 ACK;
          put_socket t dst_port_ (Some s)
        else Some t
      else if f =? ACK then
        if decide (SYN_RECEIVED = s.(state)) then
          let t := with_notes t (t.(notes) ++ [(s.(bind_proc), 1, src_port_)]) in
          put_socket t dst_port_ (Some (set_state s ESTABLISHED))
        else if decide (FIN_WAIT1 = s.(state)) then put_socket t dst_port_ (Some (set_state s FIN_WAIT2))
        else if decide (CLOSE_WAIT = s.(state)) then put_socket t dst_port_ (Some (set_state s CLOSED))
        else receive_data t dst_port_ s data off payload_len
      else receive_data t dst_port_ s data off payload_len
  end.

(** [TcpSocket::send]. *)
Definition socket_send (t : tcp) (s : TcpSocket) (data : list Z) (size : Z) : option (TcpSocket * tcp) :=
  if negb s.(tcp_factory) then Some (s, t) else send t s data size ACK.

Definition socket_accept (t : tcp) (port bind_proc_ : Z) : option (bool * tcp) :=
  s ← get_socket t port;
  match s with
  | Some s =>
      if decide (LISTENING = s.(state)) then t ← put_socket t port (Some (set_bind_proc s bind_proc_)); Some (true, t)
      else Some (false, t)
  | None => Some (false, t)
  end.

(** [recv] into [buf]; an empty ring gives a null pointer. *)
Definition recv (t : tcp) (port : Z) (buf : list Z) (len : Z) : option (list Z * tcp) :=
  s ← get_socket t port;
  s ← s;
  '(a, r) ← IRB.get_first_used_buffer s.(recv_buffer);
  t ← put_socket t port (Some (set_recv_buffer s r));
  data_buf ← t.(bufs) !! a;
  content_len ← get32 data_buf 0;
  let len := if content_len <? len then content_len else len in
  buf ← memcpy buf 0 data_buf 4 (Z.to_nat len);
  Some (buf, t).

Definition send_socket (t : tcp) (port : Z) (data : list Z) (len : Z) : option tcp :=
  s ← get_socket t port;
  match s with
  | None => Some t
  | Some s => '(s, t) ← send t s data len (Z.lor PSH ACK); put_socket t port (Some s)
  end.

Definition close_socket (t : tcp) (port : Z) : option tcp :=
  s ← get_socket t port;
  s ← s;
  '(s, t) ← disconnect t s;
  put_socket t port None.
End tcp.

(** ** Segments *)

#[local] Ltac Zify.zify_post_hook ::= Z.to_euclidean_division_equations.

Definition socket_ok (s : TcpSocket) : Prop :=
  zlen s.(src_ip) = 4 /\ bytes s.(src_ip) /\ zlen s.(dst_ip) = 4 /\ bytes s.(dst_ip) /\
  is_u16 s.(src_port) /\ is_u16 s.(dst_port) /\ is_u32 s.(seq_num) /\ is_u32 s.(ack_num).

(** What a receiver reads in the segment at [off]. *)
Record tcp_fields (d : list Z) (off : Z) (s : TcpSocket) (flags : Z) : Prop := {
  tf_src : get16 d off = Some (swap_word s.(src_port));
  tf_dst : get16 d (off + 2) = Some (swap_word s.(dst_port));
  tf_seq : get32 d (off + 4) = Some (swap_double_word s.(seq_num));
  tf_ack : get32 d (off + 8) = Some (swap_double_word s.(ack_num));
  tf_head : d.[off + 12] = Some 0x60;
  tf_flags : d.[off + 13] = Some flags;
}.

Lemma tcp_fields_ext d d' off s flags :
  (forall j, off <= j < off + 14 -> d'.[j] = d.[j]) -> tcp_fields d off s flags -> tcp_fields d' off s flags.
Proof.
  intros H [H1 H2 H3 H4 H5 H6]. unfold get32, get16 in *.
  constructor; unfold get32, get16; rewrite !H by lia; done.
Qed.

Lemma word_bytes v : is_u16 v -> u8 v + 256 * u8 (v / 256) = v.
Proof. unfold is_u16, u8. lia. Qed.

Lemma dword_bytes v : is_u32 v ->
  u8 v + 256 * u8 (v / 256) + 65536 * (u8 (v / 65536) + 256 * u8 (v / 65536 / 256)) = v.
Proof.
  intros H. pose proof (word_bytes (v mod 65536)) as H1. pose proof (word_bytes (v / 65536)) as H2.
  unfold is_u32, is_u16, u8 in *.
  replace (v mod 65536 mod 256) with (v mod 256) in H1 by lia.
  replace (v mod 65536 / 256 mod 256) with (v / 256 mod 256) in H1 by lia.
  rewrite H1, H2 by lia. lia.
Qed.

Lemma high_nibble_60 b : is_u8 b ->
  u8 (Z.land (u8 (Z.lor (Z.land b 0x0f) (16 * (sizeof_tcp / 4)))) 0xf0) = 0x60.
Proof.
  intros H. apply Z.eqb_eq. revert b H. change (is_u8) with (fun b => 0 <= b < Z.of_nat 256). cbv beta.
  by apply (below_spec 256 (fun b => u8 (Z.land (u8 (Z.lor (Z.land b 0x0f) (16 * (sizeof_tcp / 4)))) 0xf0) =? 0x60)).
Qed.

Lemma tcp_header_spec data off s flags :
  bytes data -> 0 <= off -> off + 24 <= zlen data -> socket_ok s -> is_u8 flags ->
  exists d, tcp_header data off s flags = Some d /\ zlen d = zlen data /\ bytes d /\
    tcp_fields d off s flags /\ d.[off + 16] = Some 0 /\ d.[off + 17] = Some 0 /\
    (forall j, 0 <= j < off \/ off + 24 <= j -> d.[j] = data.[j]).
Proof.
  intros Hb Ho Hl (_ & _ & _ & _ & Hsp & Hdp & Hsq & Hak) Hfl. unfold tcp_header.
  pose proof (swap_word_range s.(src_port)) as R1. pose proof (swap_word_range s.(dst_port)) as R2.
  pose proof (swap_double_word_range _ Hsq) as R3. pose proof (swap_double_word_range _ Hak) as R4.
  remember (swap_word s.(src_port)) as w1 eqn:Ew1. remember (swap_word s.(dst_port)) as w2 eqn:Ew2.
  remember (swap_double_word s.(seq_num)) as w3 eqn:Ew3. remember (swap_double_word s.(ack_num)) as w4 eqn:Ew4.
  wr (put16_wrote data off w1). wr (put16_wrote b (off + 2) w2). wr (put32_wrote b0 (off + 4) w3).
  wr (put32_wrote b1 (off + 8) w4).
  destruct (zget_in data (off + 12)) as [v Hv]; [lia|].
  assert (H12 : b2.[off + 12] = Some v) by (wlook; done). rewrite H12. sbind.
  wr (put8_wrote b2 (off + 12) (Z.lor (Z.land v 0x0f) (16 * (sizeof_tcp / 4)))).
  assert (H12' : b3.[off + 12] = Some (u8 (Z.lor (Z.land v 0x0f) (16 * (sizeof_tcp / 4))))) by (wlook; done).
  rewrite H12'. sbind. set (nib := Z.land (u8 _) 0xf0).
  assert (Hnib : u8 nib = 0x60) by exact (high_nibble_60 v (Hb _ _ Hv)). clearbody nib.
  wr (put8_wrote b3 (off + 12) nib). wr (put8_wrote b4 (off + 13) flags). wr (put16_wrote b5 (off + 14) 0xffff).
  wr (put16_wrote b6 (off + 16) 0). wr (put16_wrote b7 (off + 18) 0).
  set (opt := if truth _ then _ else _). clearbody opt.
  destruct (put32_wrote b8 (off + 20) opt) as (d & E & Wd); [wlen; lia|wlen; lia|].
  exists d. split; [done|]. split; [wlen; done|]. split.
  { repeat match goal with W : wrote _ ?b _ |- bytes ?b =>
      eapply wrote_bytes; [exact W| |cbv beta; intros j x;
        first [apply word_at_u8|apply dword_at_u8|case_match; [intros [= <-]; apply u8_is|done]]] end.
    done. }
  split; [|split_and!; [replace (off + 17) with (off + 16 + 1) by lia; wlook; done..|intros j Hj; wlook; done]].
  constructor.
  - unfold get16. wlook. sbind. f_equal. rewrite <- Ew1. by apply word_bytes.
  - unfold get16. wlook. sbind. f_equal. rewrite <- Ew2. by apply word_bytes.
  - unfold get32, get16. wlook. sbind. f_equal. rewrite <- Ew3. by apply dword_bytes.
  - unfold get32, get16. wlook. sbind. f_equal. rewrite <- Ew4. by apply dword_bytes.
  - wlook. by rewrite Hnib.
  - wlook. f_equal. by apply u8_id.
Qed.

Lemma tcp_pseudo_header_ok s size : socket_ok s ->
  exists h, tcp_pseudo_header s size = Some h /\ zlen h = 12 /\ bytes h.
Proof.
  intros (H1 & B1 & H2 & B2 & _). unfold tcp_pseudo_header.
  assert (Hz : zlen (replicate 12 0) = 12) by done.
  wr (memcpy_wrote 4 (replicate 12 0) 0 s.(src_ip) 0). wr (memcpy_wrote 4 b 4 s.(dst_ip) 0).
  wr (put16_wrote b0 8 0x0600).
  destruct (put16_wrote b1 10 (swap_word (u16 (sizeof_tcp + size)))) as (h & E & W2); [wlen; lia|wlen; lia|].
  exists h. split; [done|]. split; [wlen; done|].
  repeat match goal with W : wrote _ ?b _ |- bytes ?b =>
    eapply wrote_bytes; [exact W| |intros j x; first [apply word_at_u8|by apply copied_u8]] end.
  apply replicate_bytes. unfold is_u8. lia.
Qed.

(** The bytes the receiver sums: its own pseudo header and the segment. *)
Definition summed (pseudo d : list Z) (off n : Z) : list Z := pseudo ++ take (Z.to_nat n) (drop (Z.to_nat off) d).

Lemma zget_summed pseudo d off n j : 0 <= off -> 0 <= n -> off + n <= zlen d -> 0 <= j ->
  (summed pseudo d off n).[j] =
    if j <? zlen pseudo then pseudo.[j] else if j <? zlen pseudo + n then d.[off + (j - zlen pseudo)] else None.
Proof.
  intros Ho Hn Hl Hj. unfold summed. destruct (j <? zlen pseudo) eqn:E; zbool.
  { by apply zget_app_l. }
  rewrite zget_app_r by lia. unfold zget. destruct (0 <=? j - zlen pseudo) eqn:E1; zbool; [|lia].
  destruct (j <? zlen pseudo + n) eqn:E2; zbool.
  - rewrite lookup_take_lt by lia. rewrite lookup_drop. destruct (0 <=? off + (j - zlen pseudo)) eqn:E3; zbool; [|lia].
    f_equal. lia.
  - by rewrite lookup_take_ge by lia.
Qed.

Lemma zlen_summed pseudo d off n : 0 <= off -> 0 <= n -> off + n <= zlen d ->
  zlen (summed pseudo d off n) = zlen pseudo + n.
Proof.
  intros Ho Hn Hl. unfold summed. rewrite zlen_app. unfold zlen in *. rewrite length_take, length_drop. lia.
Qed.

(** [checksum_verifies] for a checksum taken over a copy of the data. *)
Lemma checksum_of_copy a b len j c :
  bytes a -> 0 <= len <= 65536 -> len mod 2 = 0 -> len <= zlen a -> len <= zlen b -> 0 <= 2 * Z.of_nat j < len ->
  a.[2 * Z.of_nat j] = Some 0 -> a.[2 * Z.of_nat j + 1] = Some 0 -> generate_checksum a 0 len = Some c ->
  (forall i, 0 <= i < len -> b.[i] = match word_at (2 * Z.of_nat j) c i with Some v => Some v | None => a.[i] end) ->
  generate_checksum b 0 len = Some 0.
Proof.
  intros Ha Hl Hev Hla Hlb Hj H0 H1 Hc Hb.
  destruct (put16_wrote a (2 * Z.of_nat j) c) as (a' & _ & Wa); [lia|lia|].
  pose proof (checksum_verifies a a' 0 len j c Ha ltac:(lia) Hl Hev ltac:(lia) Hj H0 H1 Hc Wa) as Hv.
  assert (Ha' : bytes a') by (eapply wrote_bytes; [exact Wa|done|intros i v; apply word_at_u8]).
  unfold generate_checksum in *. rewrite Hev in *. cbn [truth Z.eqb negb] in *.
  assert (Hs : sum_words (Z.to_nat (len / 2)) b 0 0 = sum_words (Z.to_nat (len / 2)) a' 0 0).
  { enough (H : forall n off acc, 0 <= off -> off + 2 * Z.of_nat n <= len ->
      sum_words n b off acc = sum_words n a' off acc) by (apply H; lia).
    induction n as [|n IH]; intros off acc Ho Hn; [done|]. cbn [sum_words]. unfold get16.
    rewrite !Hb by lia. rewrite <- !(proj2 Wa) by lia.
    destruct (a'.[off]); [|done]. sbind. destruct (a'.[off + 1]); [|done]. sbind. apply IH; lia. }
  by rewrite Hs.
Qed.

Lemma tcp_format_packet_spec data use off s payload size flags :
  bytes data -> bytes use -> bytes payload -> 0 <= off -> 0 <= size <= 1460 -> size mod 2 = 0 ->
  off + 24 + size <= zlen data -> 36 + size <= zlen use -> size <= zlen payload -> socket_ok s -> is_u8 flags ->
  exists d, tcp_format_packet data use off s payload size flags = Some (d, set_seq s (u32 (s.(seq_num) + size))) /\
    zlen d = zlen data /\ bytes d /\ tcp_fields d off s flags /\
    (forall i, 0 <= i < size -> d.[off + 24 + i] = payload.[i]) /\
    (forall j, 0 <= j < off \/ off + 24 + size <= j -> d.[j] = data.[j]) /\
    forall pseudo, tcp_pseudo_header s size = Some pseudo ->
      generate_checksum (summed pseudo d off (24 + size)) 0 (36 + size) = Some 0.
Proof.
  intros Hbd Hbu Hbp Ho Hsz Hev Hld Hlu Hlp Hs Hfl. unfold tcp_format_packet, sizeof_tcp.
  destruct (tcp_header_spec data off s flags) as (h & -> & Hzh & Hbh & Hf & H16 & H17 & Hout); try done; [lia|]. sbind.
  destruct (tcp_pseudo_header_ok s size Hs) as (ps & Hps & Hzp & Hbps). rewrite Hps. sbind.
  wr (memcpy_wrote 12 use 0 ps 0). wr (memcpy_wrote (24 + size) b 12 h off).
  wr (memcpy_wrote size b0 (12 + 24) payload 0).
  assert (Hbb : bytes b1).
  { repeat match goal with W : wrote _ ?b _ |- bytes ?b =>
      eapply wrote_bytes; [exact W| |intros j x; by apply copied_u8] end. done. }
  replace (12 + 24 + size) with (36 + size) by lia.
  destruct (generate_checksum b1 0 (36 + size)) as [c|] eqn:Hc.
  2: { unfold generate_checksum in Hc. replace ((36 + size) mod 2) with 0 in Hc by lia.
       rewrite sum_words_wsum in Hc by (try done; wlen; lia). discriminate Hc. }
  sbind. wr (put16_wrote h (off + 16) c). wr (memcpy_wrote size b2 (off + 24) payload 0).
  exists b3. split; [done|]. split; [wlen; done|]. split_and!.
  - eapply wrote_bytes; [exact W3| |intros j x; by apply copied_u8].
    eapply wrote_bytes; [exact W2|done|intros j x; apply word_at_u8].
  - eapply tcp_fields_ext; [|exact Hf]. intros j Hj. rewrite (proj2 W3), copied_out by lia.
    rewrite (proj2 W2) by lia. unfold word_at. by zdec.
  - intros i Hi. rewrite (proj2 W3), copied_in by lia. replace (0 + (off + 24 + i - (off + 24))) with i by lia.
    destruct (zget_in payload i) as [v ->]; [lia|done].
  - intros j Hj. rewrite (proj2 W3), copied_out by lia. rewrite (proj2 W2) by lia. unfold word_at. zdec.
    apply Hout. lia.
  - intros pseudo [= <-].
    assert (Hz3 : zlen b3 = zlen data) by (wlen; done).
    assert (Hb1 : forall i, 0 <= i < 36 + size -> b1.[i] =
      if i <? 12 then ps.[i] else if i <? 36 then h.[off + (i - 12)] else payload.[i - 36]).
    { intros i Hi. rewrite (proj2 W1), (proj2 W0), (proj2 W) by lia.
      destruct (i <? 12) eqn:E12; [|destruct (i <? 36) eqn:E36]; zbool.
      - rewrite !(copied_out _ _ _ _ i) by lia. rewrite copied_in by lia. replace (0 + (i - 0)) with i by lia.
        destruct (zget_in ps i) as [v ->]; [lia|done].
      - rewrite copied_out, copied_in by lia. destruct (zget_in h (off + (i - 12))) as [v ->]; [lia|done].
      - rewrite copied_in by lia. replace (0 + (i - (12 + 24))) with (i - 36) by lia.
        destruct (zget_in payload (i - 36)) as [v ->]; [lia|done]. }
    apply (checksum_of_copy b1 _ (36 + size) 14 c); try done; try lia.
    + wlen. lia.
    + rewrite zlen_summed by lia. lia.
    + change (2 * Z.of_nat 14) with 28. rewrite Hb1 by lia. cbn [Z.ltb Z.compare Pos.compare Pos.compare_cont].
      replace (off + (28 - 12)) with (off + 16) by lia. done.
    + change (2 * Z.of_nat 14) with 28. change (28 + 1) with 29. rewrite Hb1 by lia.
      cbn [Z.ltb Z.compare Pos.compare Pos.compare_cont]. replace (off + (29 - 12)) with (off + 17) by lia. done.
    + intros i Hi. change (2 * Z.of_nat 14) with 28. rewrite zget_summed, Hzp, Hb1 by lia.
      destruct (i <? 12) eqn:E12; zbool; [unfold word_at; by zdec|].
      destruct (i <? 12 + (24 + size)) eqn:E60; zbool; [|lia]. rewrite (proj2 W3) by lia.
      destruct (i <? 36) eqn:E36; zbool.
      * rewrite copied_out, (proj2 W2) by lia. unfold word_at.
        destruct (i =? 28) eqn:E28; zbool; [subst; by zdec|].
        destruct (i =? 28 + 1) eqn:E29; zbool; [subst; zdec; done|]. by zdec.
      * rewrite copied_in by lia. unfold word_at. zdec.
        replace (0 + (off + (i - 12) - (off + 24))) with (i - 36) by lia.
        destruct (zget_in payload (i - 36)) as [v ->]; [lia|done].
Qed.

(** ** The receiver's check

    Written from the standard (RFC 793, 1071), not from the code: the sum of the
    16-bit words in network byte order over the addresses, a zero byte, the
    protocol number 6, the length of the segment, and the segment with its
    checksum is a multiple of 65535. *)
Fixpoint network_sum (l : list Z) : Z :=
  match l with
  | a :: b :: l' => 256 * a + b + network_sum l'
  | [a] => 256 * a
  | [] => 0
  end.

Definition pseudo_header (src dst : list Z) (len : Z) : list Z := src ++ dst ++ [0; 6; len / 256; len mod 256].

Definition accepted (src dst segment : list Z) : Prop :=
  network_sum (pseudo_header src dst (zlen segment) ++ segment) mod 65535 = 0.

Lemma tcp_pseudo_header_eq s size : socket_ok s -> 0 <= size -> 24 + size < 65536 ->
  tcp_pseudo_header s size = Some (pseudo_header s.(src_ip) s.(dst_ip) (24 + size)).
Proof.
  intros (H1 & _ & H2 & _) Hs Hl. unfold tcp_pseudo_header, sizeof_tcp.
  assert (forall l : list Z, zlen l = 4 -> exists a b c d, l = [a; b; c; d]) as Hfour.
  { intros l Hz. unfold zlen in Hz. destruct l as [|a [|b [|c [|d [|]]]]]; cbn in Hz; try lia. by exists a, b, c, d. }
  destruct (Hfour _ H1) as (a & b & c & d & ->). destruct (Hfour _ H2) as (a' & b' & c' & d' & ->).
  assert (is_u16 (24 + size)) as Hu by (unfold is_u16; lia).
  rewrite u16_id by lia. destruct (swapped_bytes _ Hu) as [E1 E2]. unfold put16, put8. rewrite E1, E2. reflexivity.
Qed.

(** The words of the code are in the byte order of the machine; the two sums
    differ by a factor of 256. *)
Lemma network_sum_wsum n : forall pre l, length l = (2 * n)%nat ->
  exists k, network_sum l = 256 * wsum n (pre ++ l) (zlen pre) + 65535 * k.
Proof.
  induction n as [|n IH]; intros pre l Hl.
  - destruct l; [|cbn in Hl; lia]. by exists 0.
  - destruct l as [|a [|b l]]; [cbn in Hl; lia|cbn in Hl; lia|].
    destruct (IH (pre ++ [a; b]) l) as [k Hk]; [cbn in Hl; lia|].
    cbn [network_sum wsum]. rewrite Hk. rewrite zlen_app, <- (assoc_L (++)). change (zlen [a; b]) with 2. cbn [app].
    unfold get16. pose proof (zlen_nonneg pre).
    rewrite (zget_app_r pre (a :: b :: l) (zlen pre)), (zget_app_r pre (a :: b :: l) (zlen pre + 1)) by lia.
    rewrite Z.sub_diag, Z.add_simpl_l. change ((a :: b :: l).[0]) with (Some a). change ((a :: b :: l).[1]) with (Some b).
    cbn [mbind option_bind from_option id]. exists (k - b). lia.
Qed.

Lemma checksum_accepted l : bytes l -> zlen l mod 2 = 0 -> zlen l <= 65536 ->
  generate_checksum l 0 (zlen l) = Some 0 -> network_sum l mod 65535 = 0.
Proof.
  intros Hb He Hz H. pose proof (zlen_nonneg l). unfold generate_checksum in H. rewrite He in H.
  set (n := Z.to_nat (zlen l / 2)) in *. assert (Z.of_nat n = zlen l / 2) as Hn by lia.
  rewrite sum_words_wsum in H by (try done; lia). cbn [mbind option_bind truth Z.eqb negb Z.add] in H.
  pose proof (wsum_bound n l 0 Hb ltac:(lia) ltac:(lia)) as Hw.
  destruct (fold_checksum_eq (wsum n l 0)) as (r & E & Hr & (q & Hq & Hs) & _); [lia|].
  injection H as H. rewrite Z.add_0_l, E in H. destruct (network_sum_wsum n [] l) as [k Hk]; [unfold zlen in *; lia|].
  cbn [app] in Hk. change (zlen []) with 0 in Hk. rewrite Hk, Hs.
  replace (256 * (r + 65535 * q) + 65535 * k) with ((256 * (1 + q) + k) * 65535) by lia. by rewrite Z.mod_mul.
Qed.

(** ** Properties *)


Definition demo_socket : TcpSocket :=
  mk_TcpSocket 12 [172; 17; 0; 2] 80 [172; 17; 0; 3] 7 9 ESTABLISHED (IRB.mk [] 0 0) 0 true.

