(* ===== verification/Net.v ===== *)
(** * The network process (net/protocol_stack.cc, net/main.cc)

    Frames from the driver go to ARP, ICMP or TCP; requests of other processes
    work on the sockets.  There is one interface in use; the factory of Tcp.v
    holds it.  The second part of the file runs two machines against each other. *)
From S2P Require Import Prelude CString Packets NetIf Tcp Process.
Module IRB := RingBuffer.IndirectRingBuffer.

Definition IP : Z := 0x0800.
Definition ARP : Z := 0x0806.
Definition ICMP : Z := 0x01.
Definition TCP : Z := 0x06.

(** A field of [n] bytes. *)
Definition slice (data : list Z) (off n : Z) : list Z := take (Z.to_nat n) (drop (Z.to_nat off) data).

Section stack.
Context (fresh : Z -> list Z).

(** [ArpFactory::reply] and its like: the frame goes to the driver. *)
Definition transmit (t : tcp) (size : Z) (frame : option (list Z)) : option tcp :=
  f ← frame; Some (with_sent t (t.(sent) ++ [take (Z.to_nat size) f])).

Definition handle_arp (t : tcp) (data : list Z) : option tcp :=
  op ← get16 data (sizeof_eth + 6);
  let src_mac := slice data (sizeof_eth + 8) 6 in
  let src_ip_ := slice data (sizeof_eth + 14) 4 in
  let i := t.(net_if) in
  if req_opcode =? swap_word op then
    '(res, tbl) ← get_mac_addr i.(arp_tbl) (slice data (sizeof_eth + 24) 4);
    let t := with_if t (with_arp i tbl) in
    match res with
    | Some _ =>
        transmit t (sizeof_eth + sizeof_arp)
          (arp_reply (fresh (sizeof_eth + sizeof_arp)) i.(if_mac) i.(if_ip) src_mac src_mac src_ip_)
    | None => Some t
    end
  else
    tbl ← append i.(arp_tbl) src_mac src_ip_;
    Some (with_if t (with_arp i tbl)).

(** [handle_packet].  [need_output] decides what an ICMP packet prints, which is
    left out of the result; a packet for another host is not told apart. *)
Definition handle_packet (need_output : bool) (t : tcp) (data : list Z) (len : Z) : option tcp :=
  proto ← get16 data 12;
  if swap_word proto =? ARP then handle_arp t data
  else if swap_word proto =? IP then
    next ← data.[sizeof_eth + 9];
    if ICMP =? next then
      _ ← icmp_resolve_packet need_output data (sizeof_eth + sizeof_ip); Some t
    else if TCP =? next then
      resolve_packet fresh t data (sizeof_eth + sizeof_ip) (slice data (sizeof_eth + 12) 4)
        (u16 (len - sizeof_eth - sizeof_ip))
    else Some t
  else Some t.

(** ** net/main.cc *)

(** The process: the factory, whether a ping was sent, the ring of received
    packets and their buffers (which the driver fills). *)
Record net := mk_net {
  stack : tcp;
  need_output : bool;
  net_buf : IRB.t;
  packets : gmap Z (list Z);
}.

Definition with_stack (n : net) x := mk_net x n.(need_output) n.(net_buf) n.(packets).

(** Start: the ARP request for the gateway. *)
Definition net_start (raw : list NetworkInterface) (mac : list Z) (ring : IRB.t) (pkts : gmap Z (list Z))
  : option net :=
  nm ← NetworkManager_init raw mac;
  i ← get_cur_ifaces nm;
  let t := TcpFactory_init i in
  t ← transmit t (sizeof_eth + sizeof_arp)
        (arp_request (fresh (sizeof_eth + sizeof_arp)) i.(if_mac) i.(if_ip) default_gateway);
  Some (mk_net t false ring pkts).

(** [case intr::INTR]: the next packet; when the ring is empty the pointer is
    null. *)
Definition net_interrupt (n : net) : option net :=
  '(a, r) ← IRB.get_first_used_buffer n.(net_buf);
  data ← n.(packets) !! a;
  packet_len ← get16 data 0;
  t ← handle_packet n.(need_output) n.(stack) (drop 2 data) packet_len;
  Some (mk_net t n.(need_output) r n.(packets)).

Definition SHOW_ARPTBL : Z := 2.
Definition PING : Z := 3.
Definition SHOW_IFACES : Z := 4.
Definition CONF_NET : Z := 5.
Definition LISTEN : Z := 6.
Definition NET_SEND : Z := 7.
Definition NET_ACCEPT : Z := 8.
Definition NET_RECV : Z := 9.
Definition NET_CLOSE : Z := 10.

(** What a request leads to: a reply or not, and the bytes written to the memory
    of the process that asked. *)
Record outcome := mk_outcome { replied : bool; writes : list (Z * list Z) }.
Definition reply_only : outcome := mk_outcome true [].
Definition no_reply : outcome := mk_outcome false [].

(** [user a] is the memory from address [a] on, [raw] and [addrs] the memory
    allocated for a new socket; [from] is the sender of the request. *)
Definition net_request (user : Z -> list Z) (raw : TcpSocket) (addrs : list Z) (n : net)
    (type : Z) (con : context) (from : Z) : option (outcome * net) :=
  let t := n.(stack) in
  let i := t.(net_if) in
  if type =? SHOW_ARPTBL then _ ← print_all i.(arp_tbl); Some (reply_only, n)
  else if type =? PING then
    '(gw, i') ← get_default_gateway_mac i;
    target ← gw;
    t ← transmit (with_if t i') (sizeof_eth + sizeof_ip + sizeof_icmp)
          (icmp_request (fresh (sizeof_eth + sizeof_ip + sizeof_icmp)) i.(if_mac) i.(if_ip) (ip_of_uint con.(con_1))
             target);
    Some (reply_only, mk_net t true n.(net_buf) n.(packets))
  else if type =? SHOW_IFACES then Some (reply_only, n)
  else if type =? CONF_NET then
    i ← config_iface i con.(con_1) con.(con_2);
    t ← transmit (with_if t i) (sizeof_eth + sizeof_arp)
          (arp_reply (fresh (sizeof_eth + sizeof_arp)) i.(if_mac) i.(if_ip) mac_broadcast mac_broadcast (replicate 6 0));
    Some (reply_only, with_stack n t)
  else if type =? LISTEN then
    '(_, t) ← listen fresh t (u16 con.(con_1)) raw addrs; Some (reply_only, with_stack n t)
  else if type =? NET_ACCEPT then
    '(_, t) ← socket_accept t (u16 con.(con_1)) from; Some (no_reply, with_stack n t)
  else if type =? NET_SEND then
    t ← send_socket fresh t (u16 con.(con_1)) (user con.(con_2)) con.(con_3); Some (reply_only, with_stack n t)
  else if type =? NET_RECV then
    '(buf, t) ← recv t (u16 con.(con_1)) (take (Z.to_nat con.(con_3)) (user con.(con_2))) con.(con_3);
    Some (mk_outcome true [(con.(con_2), buf)], with_stack n t)
  else if type =? NET_CLOSE then
    t ← close_socket fresh t (u16 con.(con_1)); Some (reply_only, with_stack n t)
  else Some (no_reply, n).
End stack.
