(* ===== verification/Handshake.v ===== *)
(** * Two machines open a connection (net/tcp.cc, net/protocol_stack.cc)

    A client calls [connect] and a server has called [listen]; the frames each of
    them sends are handed to [handle_packet] of the other one. *)
From S2P Require Import Prelude CString Packets NetIf Tcp Net.

#[local] Ltac Zify.zify_post_hook ::= Z.to_euclidean_division_equations.

Section handshake.
Context (fresh : Z -> list Z).
Context (Hfresh : forall n, 0 <= n -> n <= zlen (fresh n) /\ bytes (fresh n)).

(** A TCP frame from [ip] with the fields of [s] and a payload. *)
Record frame_ok (f ip : list Z) (s : TcpSocket) (flags : Z) (payload : list Z) : Prop := {
  fo_len : zlen f = 58 + zlen payload;
  fo_payload : forall i, 0 <= i < zlen payload -> f.[58 + i] = payload.[i];
  fo_proto : f.[12] = Some 0x08 /\ f.[13] = Some 0;
  fo_tcp : f.[23] = Some TCP;
  fo_ip : slice f 26 4 = ip;
  fo_fields : tcp_fields f 34 s flags;
}.

Lemma zlen_take {A} (l : list A) n : 0 <= n <= zlen l -> zlen (take (Z.to_nat n) l) = n.
Proof. intros H. unfold zlen in *. rewrite length_take. lia. Qed.

Lemma zget_take {A} (l : list A) n j : 0 <= j < n -> (take (Z.to_nat n) l).[j] = l.[j].
Proof.
  intros H. unfold zget. destruct (0 <=? j) eqn:E; zbool; [|lia]. apply lookup_take_lt. lia.
Qed.

Lemma slice_eq f off n x : 0 <= off -> 0 <= n -> off + n <= zlen f -> zlen x = n ->
  (forall i, 0 <= i < n -> f.[off + i] = x.[i]) -> slice f off n = x.
Proof.
  intros Ho Hn Hl Hz H. assert (Hzs : zlen (slice f off n) = n).
  { unfold slice, zlen in *. rewrite length_take, length_drop. lia. }
  apply zget_ext; [lia|]. intros i Hi. rewrite <- H by lia. unfold slice.
  rewrite zget_take by lia. unfold zget. destruct (0 <=? i) eqn:E; zbool; [|lia].
  rewrite lookup_drop. destruct (0 <=? off + i) eqn:E2; zbool; [|lia]. f_equal. lia.
Qed.

Lemma set_seq_id s : is_u32 s.(seq_num) -> set_seq s (u32 (s.(seq_num) + 0)) = s.
Proof. intros H. unfold is_u32 in H. rewrite Z.add_0_r, u32_id by lia. by destruct s. Qed.

Lemma bytes_nil : bytes [].
Proof. by apply bytes_forall. Qed.

Lemma send_data_spec t s flags payload rest :
  if_ok t.(net_if) -> socket_ok s -> is_u8 flags -> bytes (payload ++ rest) -> zlen payload <= 1460 -> zlen payload mod 2 = 0 ->
  exists f i', send fresh t s (payload ++ rest) (zlen payload) flags =
      Some (set_seq s (u32 (s.(seq_num) + zlen payload)), with_sent (with_if t i') (t.(sent) ++ [f])) /\
    if_ok i' /\ i'.(if_ip) = t.(net_if).(if_ip) /\ frame_ok f t.(net_if).(if_ip) s flags payload.
Proof.
  intros Hi Hs Hfl Hbp Hlen Hev. pose proof (zlen_nonneg payload) as H0. set (n := zlen payload) in *.
  unfold send. destruct (get_default_gateway_mac_ok _ Hi) as (gw & i' & -> & Hg & Hbg & Hi' & Hip & Hmac).
  sbind. unfold sizeof_eth, sizeof_ip, sizeof_tcp. change (14 + 20 + 24) with 58. change (12 + 24) with 36.
  change (20 + 24) with 44. replace (u16 (44 + n)) with (44 + n) by (unfold u16; lia).
  destruct (Hfresh (58 + n)) as [Hl1 Hb1]; [lia|]. destruct (Hfresh (36 + n)) as [Hl2 Hb2]; [lia|].
  destruct (io_mac _ Hi') as [Hzm Hbm]. destruct (io_ip _ Hi') as [Hzp Hbp'].
  destruct (eth_format_packet_spec (fresh (58 + n)) i'.(if_mac) gw next_is_ip) as (d1 & -> & Hz1 & Hd1 & H12 & H13 & _);
    try done; try lia. sbind.
  pose proof Hs as (_ & _ & Hzd & Hbd & _).
  destruct (ip_format_packet_spec d1 14 i'.(if_ip) s.(dst_ip) 6 (44 + n)) as (d2 & -> & Hz2 & Hd2 & _ & Hh & Hout2);
    try done; try (unfold is_u16; lia). sbind.
  destruct (tcp_format_packet_spec d2 (fresh (36 + n)) (14 + 20) s (payload ++ rest) n (u8 flags))
    as (d3 & -> & Hz3 & _ & Hf & Hpay & Hout3 & _); try done; try lia;
    [rewrite zlen_app; pose proof (zlen_nonneg rest); fold n; lia|apply u8_is|]. sbind.
  eexists _, i'. split; [reflexivity|]. split; [done|]. split; [done|].
  assert (Hlow : forall j, 0 <= j < 34 -> (take (Z.to_nat (58 + n)) d3).[j] = d2.[j]).
  { intros j Hj. rewrite zget_take by lia. apply Hout3. lia. }
  constructor.
  - apply zlen_take. lia.
  - intros i Hr. fold n in Hr. rewrite zget_take by lia. rewrite <- (zget_app_l payload rest) by (fold n; lia). apply Hpay. lia.
  - rewrite !Hlow by lia. rewrite !Hout2 by lia. done.
  - rewrite Hlow by lia. apply (ih_proto _ _ _ _ _ _ Hh).
  - rewrite <- Hip. apply slice_eq; try lia; [rewrite zlen_take; lia|]. intros j Hj. rewrite Hlow by lia.
    apply (ih_src _ _ _ _ _ _ Hh j Hj).
  - eapply tcp_fields_ext; [|rewrite u8_id in Hf by (unfold is_u8 in Hfl; lia); exact Hf].
    intros j Hj. apply zget_take. lia.
Qed.

Lemma send_spec t s flags :
  if_ok t.(net_if) -> socket_ok s -> is_u8 flags ->
  exists f i', send fresh t s [] 0 flags = Some (s, with_sent (with_if t i') (t.(sent) ++ [f])) /\
    if_ok i' /\ i'.(if_ip) = t.(net_if).(if_ip) /\ frame_ok f t.(net_if).(if_ip) s flags [].
Proof.
  intros Hi Hs Hfl. destruct (send_data_spec t s flags [] [] Hi Hs Hfl bytes_nil) as (f & i' & E & H); [done..|].
  exists f, i'. split; [|exact H]. change (set_seq s (u32 (seq_num s + zlen []))) with (set_seq s (u32 (seq_num s + 0))) in E.
  rewrite set_seq_id in E by apply Hs. exact E.
Qed.

Lemma handle_data_frame no t f ip s flags payload : frame_ok f ip s flags payload -> zlen payload <= 1460 ->
  handle_packet fresh no t f (58 + zlen payload) = resolve_packet fresh t f 34 ip (24 + zlen payload).
Proof.
  intros [Hl _ [H12 H13] H23 Hip _] Hs. pose proof (zlen_nonneg payload).
  unfold handle_packet, get16. change (12 + 1) with 13. rewrite H12, H13. sbind.
  change (swap_word (8 + 256 * 0) =? ARP) with false. change (swap_word (8 + 256 * 0) =? IP) with true. cbv iota.
  change (sizeof_eth + 9) with 23. rewrite H23. sbind. change (ICMP =? TCP) with false. rewrite Z.eqb_refl.
  change (sizeof_eth + 12) with 26. rewrite Hip. unfold u16. rewrite Z.mod_small by (unfold sizeof_eth, sizeof_ip; lia).
  do 2 f_equal. unfold sizeof_eth, sizeof_ip. lia.
Qed.

Lemma handle_tcp_frame no t f ip s flags : frame_ok f ip s flags [] ->
  handle_packet fresh no t f 58 = resolve_packet fresh t f 34 ip 24.
Proof. intros H. by apply (handle_data_frame no t f ip s flags []). Qed.

Lemma zget_put {A} (l : list A) i x : 0 <= i < zlen l -> (<[Z.to_nat i := x]> l).[i] = Some x.
Proof. intros H. rewrite zget_insert, Z.eqb_refl by lia. done. Qed.

(** The three steps of the opening: a SYN for a listening socket, the answer for
    the client, and its acknowledgement for the server. *)
Section resolve.
Context (t : tcp) (f ip : list Z) (s : TcpSocket) (r : TcpSocket).
Context (Hip : zlen ip = 4 /\ bytes ip) (Hs : socket_ok s).
Context (Hr : t.(sockets).[s.(dst_port)] = Some (Some r)) (Hrok : socket_ok r) (Hif : if_ok t.(net_if)).

Definition syn_received : TcpSocket :=
  set_seq (set_ack (set_remote (set_state r SYN_RECEIVED) s.(src_port) ip) (u32 (s.(seq_num) + 1))) 0.

Lemma resolve_unfold flags payload : frame_ok f ip s flags payload ->
  exists seq, get32 f 38 = Some seq /\ swap_double_word seq = s.(seq_num) /\ f.[47] = Some flags /\
  get16 f 36 = Some (swap_word s.(dst_port)) /\ get16 f 34 = Some (swap_word s.(src_port)).
Proof.
  intros [_ _ _ _ _ [H1 H2 H3 H4 H5 H6]]. exists (swap_double_word s.(seq_num)). split; [done|].
  split; [apply swap_double_word_involutive; apply Hs|done].
Qed.

Ltac resolve_start Hf :=
  destruct (resolve_unfold _ _ Hf) as (seq & Hseq & Hsw & Hfl & Hdp & Hsp);
  unfold resolve_packet; change (34 + 2) with 36; change (34 + 13) with 47; change (34 + 4) with 38;
  rewrite Hdp; sbind; rewrite Hsp; sbind; rewrite !swap_word_involutive by apply Hs;
  unfold get_socket; rewrite Hr; sbind; rewrite Hfl; sbind; rewrite Hseq; sbind; rewrite Hsw.

Lemma resolve_syn : frame_ok f ip s SYN [] -> r.(state) = LISTENING ->
  exists f' i', resolve_packet fresh t f 34 ip 24 =
      Some (mk_tcp (<[Z.to_nat s.(dst_port) := Some (set_seq syn_received 1)]> t.(sockets)) i' t.(bufs)
              (t.(sent) ++ [f']) t.(notes)) /\
    if_ok i' /\ i'.(if_ip) = t.(net_if).(if_ip) /\
    frame_ok f' t.(net_if).(if_ip) syn_received (Z.lor SYN ACK) [] /\ socket_ok syn_received.
Proof.
  intros Hf Hst. resolve_start Hf. change (Z.land SYN (Z.lor (Z.lor SYN ACK) FIN) =? SYN) with true. cbv iota.
  destruct (decide (LISTENING = r.(state))) as [_|D]; [|congruence].
  assert (Hrz : zlen r.(dst_ip) = 4) by apply Hrok.
  rewrite (memcpy_all r.(dst_ip) ip 4) by (try done; tauto). sbind. fold syn_received.
  assert (Hsr : socket_ok syn_received).
  { destruct Hrok as (A1 & A2 & A3 & A4 & A5 & A6 & A7 & A8). destruct Hs as (B1 & B2 & B3 & B4 & B5 & B6 & B7 & B8).
    destruct Hip. unfold socket_ok, syn_received; cbn. split_and!; try done. apply u32_range. }
  destruct (send_spec t syn_received (Z.lor SYN ACK) Hif Hsr) as (f' & i' & -> & H1 & H2 & H3); [done|]. sbind.
  unfold put_socket. cbn [sockets with_sent with_if]. rewrite zset_in by (by apply zget_lt in Hr). sbind.
  exists f', i'. split; [reflexivity|]. done.
Qed.

Definition established : TcpSocket :=
  set_ack (set_seq (set_state r ESTABLISHED) (u32 (r.(seq_num) + 1))) (u32 (s.(seq_num) + 1)).

Lemma resolve_syn_ack : frame_ok f ip s (Z.lor SYN ACK) [] -> r.(state) = SYN_SENT ->
  exists f' i', resolve_packet fresh t f 34 ip 24 =
      Some (mk_tcp (<[Z.to_nat s.(dst_port) := Some established]> t.(sockets)) i' t.(bufs)
              (t.(sent) ++ [f']) t.(notes)) /\
    frame_ok f' t.(net_if).(if_ip) established ACK [] /\ socket_ok established.
Proof.
  intros Hf Hst. resolve_start Hf.
  change (Z.land (Z.lor SYN ACK) (Z.lor (Z.lor SYN ACK) FIN)) with (Z.lor SYN ACK).
  change (Z.lor SYN ACK =? SYN) with false. rewrite Z.eqb_refl. cbv iota.
  destruct (decide (SYN_SENT = r.(state))) as [_|D]; [|congruence]. fold established.
  assert (Hse : socket_ok established).
  { destruct Hrok as (A1 & A2 & A3 & A4 & A5 & A6 & A7 & A8). unfold socket_ok, established; cbn.
    split_and!; try done; apply u32_range. }
  destruct (send_spec t established ACK Hif Hse) as (f' & i' & -> & _ & _ & H3); [done|]. sbind.
  unfold put_socket. cbn [sockets with_sent with_if]. rewrite zset_in by (by apply zget_lt in Hr). sbind.
  exists f', i'. split; [reflexivity|]. done.
Qed.

Lemma resolve_ack : frame_ok f ip s ACK [] -> r.(state) = SYN_RECEIVED ->
  resolve_packet fresh t f 34 ip 24 =
    Some (mk_tcp (<[Z.to_nat s.(dst_port) := Some (set_state r ESTABLISHED)]> t.(sockets)) t.(net_if) t.(bufs)
            t.(sent) (t.(notes) ++ [(r.(bind_proc), 1, s.(src_port))])).
Proof.
  intros Hf Hst. resolve_start Hf. change (Z.land ACK (Z.lor (Z.lor SYN ACK) FIN)) with ACK.
  change (ACK =? SYN) with false. change (ACK =? Z.lor SYN ACK) with false.
  change (ACK =? FIN) with false. change (ACK =? Z.lor FIN ACK) with false. rewrite Z.eqb_refl. cbv iota. cbn [orb].
  destruct (decide (SYN_RECEIVED = r.(state))) as [_|D]; [|congruence].
  unfold put_socket. cbn [sockets with_notes]. rewrite zset_in by (by apply zget_lt in Hr). reflexivity.
Qed.
End resolve.

Lemma free_port_spec n t i p : 0 <= i -> free_port n t i = Some p -> p <> -1 ->
  i <= p < i + Z.of_nat n /\ t.(sockets).[p] = Some None.
Proof.
  revert i. induction n as [|n IH]; intros i Hi H Hp; cbn [free_port] in H; [congruence|].
  unfold get_socket in H. destruct (t.(sockets).[i]) as [[x|]|] eqn:E; cbn [mbind option_bind] in H; [| |done].
  - destruct (IH (i + 1)) as [H1 H2]; [lia|done|done|]. split; [lia|done].
  - injection H as <-. split; [lia|done].
Qed.

(** The socket [connect] makes of the memory [raw]. *)
Definition syn_sent (raw : TcpSocket) (p : Z) (ip dip : list Z) (dport : Z) : TcpSocket :=
  set_ack (set_seq (set_state (set_remote (set_local (set_tcp_factory raw) p ip) dport dip) SYN_SENT) 0) 0.

Lemma connect_spec t raw dip dport p :
  if_ok t.(net_if) -> zlen raw.(src_ip) = 4 -> zlen raw.(dst_ip) = 4 -> zlen dip = 4 -> bytes dip -> is_u16 dport ->
  get_free_port t = Some p -> p <> -1 ->
  let s := syn_sent raw p t.(net_if).(if_ip) dip dport in
  exists f i', connect fresh t raw dip dport =
      Some (p, mk_tcp (<[Z.to_nat p := Some s]> t.(sockets)) i' t.(bufs) (t.(sent) ++ [f]) t.(notes)) /\
    if_ok i' /\ i'.(if_ip) = t.(net_if).(if_ip) /\ frame_ok f t.(net_if).(if_ip) s SYN [] /\ socket_ok s /\
    12 <= p < zlen t.(sockets) /\ p < 128.
Proof.
  intros Hif Hz1 Hz2 Hz3 Hb Hdp Hp Hne s. destruct (free_port_spec 116 t 12 p ltac:(lia) Hp Hne) as [Hr Hfree].
  pose proof (zget_lt _ _ _ Hfree) as Hlt. unfold connect. rewrite Hp. sbind.
  destruct (-1 =? p) eqn:E; zbool; [congruence|].
  destruct (io_ip _ Hif) as [Hzi Hbi]. rewrite (memcpy_all _ (t.(net_if).(if_ip)) 4) by done. sbind.
  rewrite (memcpy_all _ dip 4) by done. sbind. fold (syn_sent raw p t.(net_if).(if_ip) dip dport). fold s.
  assert (Hs : socket_ok s).
  { unfold socket_ok, s, syn_sent, is_u16, is_u32 in *; cbn. split_and!; try done; lia. }
  destruct (send_spec t s SYN Hif Hs) as (f & i' & -> & H1 & H2 & H3); [done|]. sbind.
  unfold put_socket. cbn [sockets with_sent with_if]. rewrite zset_in by done. sbind.
  exists f, i'. split; [reflexivity|]. split_and!; try done; lia.
Qed.

(** ** Properties *)

(** C10.  Two machines open a connection: the client's [connect] and the frames
    that each side sends in answer to the other's lead to an established
    connection on both sides after three frames, with the sequence number of each
    side equal to the acknowledgement number of the other, the server's socket
    bound to the client's address and port, and a message to the process that
    accepts. *)
Theorem handshake_establishes (no : bool) (ta tb : tcp) (raw l : TcpSocket) (port p : Z) :
  if_ok ta.(net_if) -> if_ok tb.(net_if) ->
  zlen raw.(src_ip) = 4 -> zlen raw.(dst_ip) = 4 -> is_u16 port ->
  get_free_port ta = Some p -> p <> -1 ->
  tb.(sockets).[port] = Some (Some l) -> socket_ok l -> l.(src_port) = port -> l.(state) = LISTENING ->
  exists ta1 f1 tb1 f2 ta2 f3 tb2 sa sb,
    connect fresh ta raw tb.(net_if).(if_ip) port = Some (p, ta1) /\ ta1.(sent) = ta.(sent) ++ [f1] /\
    handle_packet fresh no tb f1 58 = Some tb1 /\ tb1.(sent) = tb.(sent) ++ [f2] /\
    handle_packet fresh no ta1 f2 58 = Some ta2 /\ ta2.(sent) = ta1.(sent) ++ [f3] /\
    handle_packet fresh no tb1 f3 58 = Some tb2 /\ tb2.(sent) = tb1.(sent) /\
    ta2.(sockets).[p] = Some (Some sa) /\ tb2.(sockets).[port] = Some (Some sb) /\
    sa.(state) = ESTABLISHED /\ sb.(state) = ESTABLISHED /\
    sa.(seq_num) = sb.(ack_num) /\ sb.(seq_num) = sa.(ack_num) /\
    sb.(dst_port) = p /\ sb.(dst_ip) = ta.(net_if).(if_ip) /\
    tb2.(notes) = tb.(notes) ++ [(l.(bind_proc), 1, p)].
Proof.
  intros Hia Hib Hz1 Hz2 Hport Hp Hne Hl Hlok Hlp Hlst. destruct (io_ip _ Hib) as [Hzb Hbb].
  destruct (connect_spec ta raw tb.(net_if).(if_ip) port p) as (f1 & ia & Hc & Hia1 & Hipa & Hf1 & Hsa & Hpr & Hp128); auto.
  set (sa := syn_sent _ _ _ _ _) in *. rewrite Hc. clear Hc.
  set (ta1 := mk_tcp (<[Z.to_nat p := Some sa]> ta.(sockets)) ia ta.(bufs) (ta.(sent) ++ [f1]) ta.(notes)).
  (* the server answers the SYN *)
  destruct (resolve_syn tb f1 ta.(net_if).(if_ip) sa l) as (f2 & ib & H2 & Hib1 & Hipb & Hf2 & Hsb); auto.
  { apply (io_ip _ Hia). }
  set (sb := syn_received _ _ _) in *. change (dst_port sa) with port in H2.
  set (tb1 := mk_tcp _ ib _ _ _) in H2.
  (* the client is established *)
  assert (Hta1 : ta1.(sockets).[sb.(dst_port)] = Some (Some sa)).
  { change (dst_port sb) with p. apply zget_put. lia. }
  destruct (resolve_syn_ack ta1 f2 tb.(net_if).(if_ip) sb sa) as (f3 & ia2 & H3 & Hf3 & Hse); auto.
  set (sa2 := established sb sa) in *. set (ta2 := mk_tcp _ ia2 _ _ _) in H3.
  change (if_ip (net_if ta1)) with (if_ip ia) in Hf3. rewrite Hipa in Hf3.
  (* the server is established *)
  pose proof (zget_lt _ _ _ Hl) as Hlr.
  assert (Htb1 : tb1.(sockets).[sa2.(dst_port)] = Some (Some (set_seq sb 1))).
  { change (dst_port sa2) with port. apply zget_put. lia. }
  pose proof (resolve_ack tb1 f3 ta.(net_if).(if_ip) sa2 (set_seq sb 1) Hse Htb1 Hf3 eq_refl) as H4.
  eexists ta1, f1, tb1, f2, ta2, f3, _, sa2, (set_state (set_seq sb 1) ESTABLISHED).
  split; [done|]. split; [done|].
  split; [by rewrite (handle_tcp_frame no tb f1 _ _ _ Hf1)|]. split; [done|].
  split; [by rewrite (handle_tcp_frame no ta1 f2 _ _ _ Hf2)|]. split; [done|].
  split; [rewrite (handle_tcp_frame no tb1 f3 _ _ _ Hf3); exact H4|]. split; [done|].
  split; [change (dst_port sb) with p; cbn; apply zget_put; rewrite zlen_insert; lia|].
  split; [change (dst_port sa2) with port; cbn; apply zget_put; rewrite zlen_insert; lia|].
  split_and!; try done.
Qed.
End handshake.

(** ** Witnesses *)

(** An interface with the gateway in its cache. *)
Definition demo_arp : list mac_map_ip :=
  [mk_mac_map_ip [2; 4; 6; 8; 10; 12] demo_gateway 0; item0; item0; item0; item0].
Definition demo_if (ip : list Z) : NetworkInterface :=
  mk_if (replicate 16 0) [1; 3; 5; 7; 9; 11] ip demo_arp (replicate 4 (mk_route (replicate 4 0) demo_gateway (replicate 4 0))).
Definition raw_socket : TcpSocket :=
  mk_TcpSocket 80 [172; 17; 0; 3] 0 [0; 0; 0; 0] 0 0 LISTENING (IRB.mk (replicate 10 0) 0 0) 0x96000 false.
Definition demo_fresh (n : Z) : list Z := replicate (Z.to_nat n) 0xaa.

Lemma demo_if_ok ip : zlen ip = 4 -> bytes ip -> if_ok (demo_if ip).
Proof.
  intros Hz Hb. constructor.
  - split; [reflexivity|by apply bytes_forall].
  - by split.
  - split; [split; [reflexivity|repeat constructor]|]. intros j it Hj. apply zget_Some in Hj as [_ Hj].
    apply list_elem_of_lookup_2 in Hj. cbn in Hj. set_unfold.
    repeat match goal with H : _ \/ _ |- _ => destruct H as [->|H] end; try by apply bytes_forall.
  - exists demo_gateway. split; [reflexivity|]. split; [reflexivity|]. by eexists 0, _.
Qed.

Lemma demo_fresh_ok n : 0 <= n -> n <= zlen (demo_fresh n) /\ bytes (demo_fresh n).
Proof.
  intros Hn. unfold demo_fresh, zlen. rewrite length_replicate. split; [lia|]. apply replicate_bytes. unfold is_u8. lia.
Qed.

Definition demo_client : tcp := TcpFactory_init (demo_if [172; 17; 0; 2]).
Definition demo_server : tcp :=
  mk_tcp (<[80%nat := Some raw_socket]> (replicate 128 None)) (demo_if [172; 17; 0; 3]) ∅ [] [].

Lemma handshake_establishes_witness :
  exists ta1 f1 tb1 f2 ta2 sa, connect demo_fresh demo_client raw_socket [172; 17; 0; 3] 80 = Some (12, ta1) /\
    ta1.(sent) = [f1] /\ handle_packet demo_fresh false demo_server f1 58 = Some tb1 /\ tb1.(sent) = [f2] /\
    handle_packet demo_fresh false ta1 f2 58 = Some ta2 /\ ta2.(sockets).[12] = Some (Some sa) /\
    sa.(state) = ESTABLISHED.
Proof.
  destruct (handshake_establishes demo_fresh demo_fresh_ok false demo_client demo_server raw_socket raw_socket 80 12)
    as (ta1 & f1 & tb1 & f2 & ta2 & f3 & tb2 & sa & sb & H1 & H2 & H3 & H4 & H5 & _ & _ & _ & H6 & _ & H7 & _).
  - apply demo_if_ok; [reflexivity|by apply bytes_forall].
  - apply demo_if_ok; [reflexivity|by apply bytes_forall].
  - reflexivity.
  - reflexivity.
  - unfold is_u16. lia.
  - reflexivity.
  - discriminate.
  - reflexivity.
  - unfold socket_ok, is_u16, is_u32; cbn. split; [reflexivity|]. split; [by apply bytes_forall|].
    split; [reflexivity|]. split; [by apply bytes_forall|]. lia.
  - reflexivity.
  - reflexivity.
  - exists ta1, f1, tb1, f2, ta2, sa. auto 10.
Defined.
