(* ===== verification/FsState.v ===== *)
(** * The file system: state and on-disk structures (fs/fs.h, super_block.h, inode.h, dir.h, file.h)

    The file system is a process that keeps its data on the slave disk.  Here are
    the state it keeps in memory, the structures it keeps on disk with their
    coding as bytes, and the requests to other processes it makes: reading and
    writing sectors (the disk driver), blocks of memory (the memory manager) and
    the time (the kernel).

    A function of the file system is a computation [fsm]: it takes the state and
    gives a result and the new state, or nothing when an access is outside its
    object. *)
From Stdlib Require Import Ascii String.
From stdpp Require Import list_numbers.
From S2P Require Import Prelude Bitmap CString.
Export list_numbers.
#[global] Open Scope Z_scope.

(** ** Bytes *)

(** Little-endian coding of an [n]-byte integer. *)
Definition le (n : nat) (z : Z) : list Z := Z_to_little_endian (Z.of_nat n) 8 z.
Definition unle (bs : list Z) : Z := little_endian_to_Z 8 bs.

(** The [n]-byte integer at offset [off]. *)
Definition field (buf : list Z) (off n : nat) : Z := unle (take n (drop off buf)).

(** [memcpy(buf + off, data, ...)] of a whole object. *)
Definition put (buf : list Z) (off : Z) (data : list Z) : option (list Z) :=
  if (0 <=? off) && (off + zlen data <=? zlen buf)
  then Some (take (Z.to_nat off) buf ++ data ++ drop (Z.to_nat off + length data) buf)
  else None.

#[global] Arguments le : simpl never.
#[global] Arguments field : simpl never.
#[global] Arguments put : simpl never.

(** The characters of a string literal. *)
Definition text (s : String.string) : list Z :=
  map (fun c => Z.of_N (Ascii.N_of_ascii c)) (String.list_ascii_of_string s).

(** ** Structures on disk *)

Definition sector_size : Z := 512.

Record super_block_data := mk_sb {
  magic : list Z;                       (* 7 bytes *)
  is_sufficient : Z;
  sectors_nr : Z;
  inodes_nr : Z;
  start_lba : Z;
  block_bitmap_lba : Z;
  block_bitmap_sectors : Z;
  inode_bitmap_lba : Z;
  inode_bitmap_sectors : Z;
  inode_table_lba : Z;
  inode_table_sectors : Z;
  data_start : Z;
  root_inode_no : Z;
  dir_entry_size : Z;
}.

Definition enc_sb (x : super_block_data) : list Z :=
  x.(magic) ++ le 1 x.(is_sufficient) ++ le 4 x.(sectors_nr) ++ le 4 x.(inodes_nr) ++
  le 4 x.(start_lba) ++ le 4 x.(block_bitmap_lba) ++ le 4 x.(block_bitmap_sectors) ++
  le 4 x.(inode_bitmap_lba) ++ le 4 x.(inode_bitmap_sectors) ++ le 4 x.(inode_table_lba) ++
  le 4 x.(inode_table_sectors) ++ le 4 x.(data_start) ++ le 4 x.(root_inode_no) ++
  le 4 x.(dir_entry_size).

Definition dec_sb (b : list Z) : super_block_data :=
  mk_sb (take 7 b) (field b 7 1) (field b 8 4) (field b 12 4) (field b 16 4) (field b 20 4)
    (field b 24 4) (field b 28 4) (field b 32 4) (field b 36 4) (field b 40 4) (field b 44 4)
    (field b 48 4) (field b 52 4).

Record inode := mk_inode {
  inode_no : Z;
  i_size : Z;
  last_modify_time : Z;
  link_cnt : Z;
  i_uid : Z;
  i_gid : Z;
  i_mode : Z;
  i_sectors : list Z;                   (* 9 *)
}.

Definition sizeof_inode : Z := 64.

Definition enc_inode (x : inode) : list Z :=
  le 4 x.(inode_no) ++ le 4 x.(i_size) ++ le 8 x.(last_modify_time) ++ le 4 x.(link_cnt) ++
  le 2 x.(i_uid) ++ le 2 x.(i_gid) ++ le 4 x.(i_mode) ++ concat (map (le 4) x.(i_sectors)).

Definition dec_inode (b : list Z) : inode :=
  mk_inode (field b 0 4) (field b 4 4) (field b 8 8) (field b 16 4) (field b 20 2) (field b 22 2)
    (field b 24 4) (map (fun k => field b (28 + 4 * k) 4) (seq 0 9)).

Definition zero_inode : inode := mk_inode 0 0 0 0 0 0 0 (replicate 9 0).

Definition set_sectors (x : inode) (l : list Z) : inode :=
  mk_inode x.(inode_no) x.(i_size) x.(last_modify_time) x.(link_cnt) x.(i_uid) x.(i_gid) x.(i_mode) l.
Definition set_size (x : inode) (v : Z) : inode :=
  mk_inode x.(inode_no) v x.(last_modify_time) x.(link_cnt) x.(i_uid) x.(i_gid) x.(i_mode) x.(i_sectors).
Definition set_mode (x : inode) (v : Z) : inode :=
  mk_inode x.(inode_no) x.(i_size) x.(last_modify_time) x.(link_cnt) x.(i_uid) x.(i_gid) v x.(i_sectors).
Definition set_uid (x : inode) (v : Z) : inode :=
  mk_inode x.(inode_no) x.(i_size) x.(last_modify_time) x.(link_cnt) v x.(i_gid) x.(i_mode) x.(i_sectors).

Module inode_mode.
Definition DEFAULT_PRIVILEGE : Z := 0x3d.
Definition READ_OWNER : Z := 0x20.
Definition WRITE_OWNER : Z := 0x10.
Definition EXEC_OWNER : Z := 0x08.
Definition READ_OTHER : Z := 0x04.
Definition WRITE_OTHER : Z := 0x02.
Definition EXEC_OTHER : Z := 0x01.
End inode_mode.

(** [enum dir_entry_type]. *)
Definition DIR : Z := 0.
Definition FILE : Z := 1.

Record dir_entry := mk_entry {
  d_name : list Z;                      (* 64 bytes *)
  d_inode_no : Z;
  d_type : Z;
}.

Definition sizeof_dir_entry : Z := 72.
Definition entries_per_sector : Z := sector_size / sizeof_dir_entry.

Definition enc_entry (e : dir_entry) : list Z := e.(d_name) ++ le 4 e.(d_inode_no) ++ le 4 e.(d_type).
Definition dec_entry (b : list Z) : dir_entry := mk_entry (take 64 b) (field b 64 4) (field b 68 4).

(** [((struct dir_entry* )buf)[j]]. *)
Definition entry_at (buf : list Z) (j : Z) : dir_entry := dec_entry (drop (Z.to_nat (sizeof_dir_entry * j)) buf).

(** ** State in memory *)

Record file := mk_file { offset : Z; f_inode : inode }.

Record fs := mk_fs {
  disk : gmap Z (list Z);               (* the sectors of the slave disk *)
  sb : super_block_data;                (* cur_part->sb_data *)
  block_bmap : bitmap;                  (* cur_part->block_bmap *)
  inode_bmap : bitmap;                  (* cur_part->inode_bmap *)
  file_desc_tbl : list (option file);   (* 64 *)
  cur_dir : list Z;                     (* 64 bytes *)
  uid : Z;
  clock : Z;                            (* the time the kernel answers *)
  junk : nat -> Z -> Z;                 (* the bytes in the n-th block of memory received *)
  mallocs : nat;
  frees : nat;
  console : list Z;                     (* what has been printed *)
}.

Definition set_disk (d : gmap Z (list Z)) (s : fs) : fs :=
  mk_fs d s.(sb) s.(block_bmap) s.(inode_bmap) s.(file_desc_tbl) s.(cur_dir) s.(uid) s.(clock)
    s.(junk) s.(mallocs) s.(frees) s.(console).
Definition set_sb (x : super_block_data) (s : fs) : fs :=
  mk_fs s.(disk) x s.(block_bmap) s.(inode_bmap) s.(file_desc_tbl) s.(cur_dir) s.(uid) s.(clock)
    s.(junk) s.(mallocs) s.(frees) s.(console).
Definition set_block_bmap (b : bitmap) (s : fs) : fs :=
  mk_fs s.(disk) s.(sb) b s.(inode_bmap) s.(file_desc_tbl) s.(cur_dir) s.(uid) s.(clock)
    s.(junk) s.(mallocs) s.(frees) s.(console).
Definition set_inode_bmap (b : bitmap) (s : fs) : fs :=
  mk_fs s.(disk) s.(sb) s.(block_bmap) b s.(file_desc_tbl) s.(cur_dir) s.(uid) s.(clock)
    s.(junk) s.(mallocs) s.(frees) s.(console).
Definition set_fdt (t : list (option file)) (s : fs) : fs :=
  mk_fs s.(disk) s.(sb) s.(block_bmap) s.(inode_bmap) t s.(cur_dir) s.(uid) s.(clock)
    s.(junk) s.(mallocs) s.(frees) s.(console).
Definition set_cur_dir (c : list Z) (s : fs) : fs :=
  mk_fs s.(disk) s.(sb) s.(block_bmap) s.(inode_bmap) s.(file_desc_tbl) c s.(uid) s.(clock)
    s.(junk) s.(mallocs) s.(frees) s.(console).
Definition set_cur_uid (u : Z) (s : fs) : fs :=
  mk_fs s.(disk) s.(sb) s.(block_bmap) s.(inode_bmap) s.(file_desc_tbl) s.(cur_dir) u s.(clock)
    s.(junk) s.(mallocs) s.(frees) s.(console).
Definition count_malloc (s : fs) : fs :=
  mk_fs s.(disk) s.(sb) s.(block_bmap) s.(inode_bmap) s.(file_desc_tbl) s.(cur_dir) s.(uid) s.(clock)
    s.(junk) (S s.(mallocs)) s.(frees) s.(console).
Definition count_free (s : fs) : fs :=
  mk_fs s.(disk) s.(sb) s.(block_bmap) s.(inode_bmap) s.(file_desc_tbl) s.(cur_dir) s.(uid) s.(clock)
    s.(junk) s.(mallocs) (S s.(frees)) s.(console).
Definition set_console (l : list Z) (s : fs) : fs :=
  mk_fs s.(disk) s.(sb) s.(block_bmap) s.(inode_bmap) s.(file_desc_tbl) s.(cur_dir) s.(uid) s.(clock)
    s.(junk) s.(mallocs) s.(frees) l.

(** ** Computations *)

Definition fsm (A : Type) : Type := fs -> option (A * fs).

#[export] Instance fsm_ret : MRet fsm := fun A a s => Some (a, s).
#[export] Instance fsm_bind : MBind fsm := fun A B k m s =>
  match m s with Some (a, s') => k a s' | None => None end.

Definition lift {A} (o : option A) : fsm A := fun s =>
  match o with Some a => Some (a, s) | None => None end.
Definition gets {A} (f : fs -> A) : fsm A := fun s => Some (f s, s).
Definition modify (f : fs -> fs) : fsm unit := fun s => Some (tt, f s).
Definition skip : fsm unit := mret tt.

(** ** Requests to the other processes *)

Definition zero_sector : list Z := replicate 512 0.
#[global] Arguments zero_sector : simpl never.

Definition sector (d : gmap Z (list Z)) (lba : Z) : list Z := default zero_sector (d !! lba).

(** The driver puts the number of sectors into a register of 8 bits, where 0 stands
    for 256 (dr/disk.cc, [choose_sector]), and then waits for each of them: a
    request for no sector or for more than 256 never returns. *)
Definition can_transfer (cnt : Z) : bool := (1 <=? cnt) && (cnt <=? 256).

(** [read_disk(1, lba, buf, cnt)]: the bytes the buffer holds afterwards. *)
Definition read_disk (lba cnt : Z) : fsm (list Z) :=
  if can_transfer cnt then
    gets (fun s => concat (map (fun k => sector s.(disk) (u32 (lba + k))) (seqZ 0 cnt)))
  else lift None.

Fixpoint write_sectors (n : nat) (d : gmap Z (list Z)) (lba : Z) (buf : list Z) : option (gmap Z (list Z)) :=
  match n with
  | O => Some d
  | S n' =>
      if zlen buf <? sector_size then None
      else write_sectors n' (<[u32 lba := take 512 buf]> d) (lba + 1) (drop 512 buf)
  end.

(** [write_disk(1, lba, buf, cnt)]. *)
Definition write_disk (lba : Z) (buf : list Z) (cnt : Z) : fsm unit := fun s =>
  if can_transfer cnt then
    match write_sectors (Z.to_nat cnt) s.(disk) lba buf with
    | Some d => Some (tt, set_disk d s)
    | None => None
    end
  else None.

Lemma can_transfer_true cnt : 1 <= cnt <= 256 -> can_transfer cnt = true.
Proof. intros H. unfold can_transfer. rewrite !(proj2 (Z.leb_le _ _)) by lia. done. Qed.

(** A block of [n] bytes with whatever it holds; the memory manager is taken to
    have one. *)
Definition malloc (n : Z) : fsm (list Z) := fun s =>
  Some (map (fun i => u8 (s.(junk) s.(mallocs) i)) (seqZ 0 n), count_malloc s).

(** A block is given back for the first time.  The memory manager puts it into the
    list of free blocks, whose links overwrite its first bytes; a second [free] of
    the same block makes that list circular.  Blocks are not told apart here: a
    function that goes on using a block it has given back, or gives it back again,
    has to say so with [alive]; only [remove_dir_entry] (Dir.v) does. *)
Definition free : fsm unit := modify count_free.

(** A block is used or given back: not after it has been given back. *)
Definition alive (freed : bool) : fsm unit := if freed then lift None else skip.

(** [printf]: the text is composed in a buffer of 1024 bytes. *)
Definition printf (fmt : String.string) (args : list arg) : fsm unit :=
  out ← lift (vsprintf (text fmt ++ [0]) args);
  if zlen out <? 1024 then modify (fun s => set_console (s.(console) ++ out) s) else lift None.

(** [printf] of a format that ends with a newline. *)
Definition printf_ln (fmt : String.string) (args : list arg) : fsm unit :=
  printf (String.append fmt (String.String (Ascii.ascii_of_nat 10) String.EmptyString)) args.

(** ** Coding and decoding *)

Lemma le_length n z : length (le n z) = n.
Proof. pose proof (length_Z_to_little_endian (Z.of_nat n) 8 z ltac:(lia)). unfold le. lia. Qed.

Lemma le_bytes n z : Forall is_u8 (le n z).
Proof. apply (Z_to_little_endian_bound (Z.of_nat n) 8 z); lia. Qed.

Lemma unle_le n z : 0 <= z < 2 ^ (Z.of_nat n * 8) -> unle (le n z) = z.
Proof.
  intros H. unfold unle, le. rewrite little_endian_to_Z_to_little_endian by lia.
  apply Z.mod_small, H.
Qed.

Lemma unle_bound bs n :
  Forall is_u8 bs -> (length bs <= n)%nat -> 0 <= unle bs < 2 ^ (Z.of_nat n * 8).
Proof.
  intros Hb Hn. pose proof (little_endian_to_Z_bound 8 bs ltac:(lia) Hb) as [H1 H2].
  split; [done|]. eapply Z.lt_le_trans; [exact H2|]. apply Z.pow_le_mono_r; lia.
Qed.

Lemma field_bound buf off n : Forall is_u8 buf -> 0 <= field buf off n < 2 ^ (Z.of_nat n * 8).
Proof.
  intros H. apply unle_bound; [|rewrite length_take; lia].
  apply Forall_take, Forall_drop, H.
Qed.

Lemma field_here n z rest : 0 <= z < 2 ^ (Z.of_nat n * 8) -> field (le n z ++ rest) 0 n = z.
Proof.
  intros H. unfold field. rewrite drop_0, take_app_length' by (symmetry; apply le_length). apply unle_le, H.
Qed.

Lemma field_skip (a rest : list Z) off n :
  (length a <= off)%nat -> field (a ++ rest) off n = field rest (off - length a) n.
Proof. intros H. unfold field. rewrite drop_app_ge by done. done. Qed.

#[local] Ltac decode :=
  repeat (rewrite field_skip by (rewrite ?le_length; lia));
  rewrite ?le_length; cbn [Nat.sub]; apply field_here; unwrap; lia.

(** Every field has a value of its type. *)
Record inode_ok (x : inode) : Prop := {
  ok_no : is_u32 x.(inode_no);
  ok_size : is_u32 x.(i_size);
  ok_time : 0 <= x.(last_modify_time) < 18446744073709551616;
  ok_link : is_u32 x.(link_cnt);
  ok_uid : is_u16 x.(i_uid);
  ok_gid : is_u16 x.(i_gid);
  ok_mode : is_u32 x.(i_mode);
  ok_nine : length x.(i_sectors) = 9%nat;
  ok_sectors : Forall is_u32 x.(i_sectors);
}.

Record entry_ok (e : dir_entry) : Prop := {
  ok_name : length e.(d_name) = 64%nat /\ Forall is_u8 e.(d_name);
  ok_ino : is_u32 e.(d_inode_no);
  ok_type : is_u32 e.(d_type);
}.

Lemma enc_inode_length x : length x.(i_sectors) = 9%nat -> length (enc_inode x) = 64%nat.
Proof.
  intros H. destruct x as [? ? ? ? ? ? ? l]. cbn in H.
  do 9 (destruct l as [|? l]; [done|]). destruct l; [|done].
  unfold enc_inode. cbn [i_sectors map concat inode_no i_size last_modify_time link_cnt i_uid i_gid i_mode].
  rewrite !length_app, !le_length. done.
Qed.

Lemma enc_inode_bytes x : Forall is_u8 (enc_inode x).
Proof.
  unfold enc_inode. rewrite !Forall_app. split_and!; try apply le_bytes.
  induction (i_sectors x); cbn [map concat]; [done|]. apply Forall_app. split; [apply le_bytes|done].
Qed.

Lemma dec_enc_inode x rest : inode_ok x -> dec_inode (enc_inode x ++ rest) = x.
Proof.
  intros [H1 H2 H3 H4 H5 H6 H7 H8 H9]. destruct x as [no sz tm lk ui gi mo l]. cbn in *.
  do 9 (destruct l as [|? l]; [done|]). destruct l; [|done].
  repeat (match goal with H : Forall _ (_ :: _) |- _ => inversion H; clear H; subst end).
  unfold dec_inode, enc_inode.
  cbn [i_sectors map concat inode_no i_size last_modify_time link_cnt i_uid i_gid i_mode seq Nat.add Nat.mul].
  rewrite <- !(assoc_L (++)). f_equal; [decode..|]. repeat (apply (f_equal2 cons); [decode|]). done.
Qed.

Lemma enc_entry_length e : length e.(d_name) = 64%nat -> length (enc_entry e) = 72%nat.
Proof. intros H. unfold enc_entry. rewrite !length_app, !le_length, H. done. Qed.

Lemma enc_entry_bytes e : Forall is_u8 e.(d_name) -> Forall is_u8 (enc_entry e).
Proof. intros H. unfold enc_entry. rewrite !Forall_app. split_and!; auto using le_bytes. Qed.

Lemma dec_enc_entry e rest : entry_ok e -> dec_entry (enc_entry e ++ rest) = e.
Proof.
  intros [[H1 _] H2 H3]. destruct e as [nm no ty]. cbn in *.
  unfold dec_entry, enc_entry. cbn [d_name d_inode_no d_type].
  rewrite <- !(assoc_L (++)). f_equal; [apply take_app_length'; done|..];
    (rewrite field_skip by lia; rewrite H1; cbn [Nat.sub]; decode).
Qed.

(** The super block. *)
Record sb_ok (x : super_block_data) : Prop := {
  ok_magic : length x.(magic) = 7%nat /\ Forall is_u8 x.(magic);
  ok_suff : is_u8 x.(is_sufficient);
  ok_words : Forall is_u32 [x.(sectors_nr); x.(inodes_nr); x.(start_lba); x.(block_bitmap_lba);
               x.(block_bitmap_sectors); x.(inode_bitmap_lba); x.(inode_bitmap_sectors);
               x.(inode_table_lba); x.(inode_table_sectors); x.(data_start); x.(root_inode_no);
               x.(dir_entry_size)];
}.

Lemma enc_sb_length x : length x.(magic) = 7%nat -> length (enc_sb x) = 56%nat.
Proof. intros H. unfold enc_sb. rewrite !length_app, !le_length, H. done. Qed.

Lemma enc_sb_bytes x : Forall is_u8 x.(magic) -> Forall is_u8 (enc_sb x).
Proof. intros H. unfold enc_sb. rewrite !Forall_app. split_and!; auto using le_bytes. Qed.

Lemma dec_enc_sb x rest : sb_ok x -> dec_sb (enc_sb x ++ rest) = x.
Proof.
  intros [[H1 _] H2 H3]. destruct x. cbn in *.
  repeat (match goal with H : Forall _ (_ :: _) |- _ => inversion H; clear H; subst end).
  unfold dec_sb, enc_sb.
  cbn [magic is_sufficient sectors_nr inodes_nr start_lba block_bitmap_lba block_bitmap_sectors
       inode_bitmap_lba inode_bitmap_sectors inode_table_lba inode_table_sectors data_start
       root_inode_no dir_entry_size].
  rewrite <- !(assoc_L (++)). f_equal; [apply take_app_length'; done|..];
    (rewrite field_skip by lia; rewrite H1; cbn [Nat.sub]; decode).
Qed.

(** ** [put] *)

Lemma put_ok buf off data :
  0 <= off -> off + zlen data <= zlen buf ->
  put buf off data = Some (take (Z.to_nat off) buf ++ data ++ drop (Z.to_nat off + length data) buf).
Proof.
  intros H1 H2. unfold put. rewrite (proj2 (Z.leb_le _ _) H1), (proj2 (Z.leb_le _ _) H2). done.
Qed.

Lemma put_length buf off data buf' : put buf off data = Some buf' -> length buf' = length buf.
Proof.
  unfold put. case_if; try done. intros [= <-]. zbool. unfold zlen in *.
  rewrite !length_app, length_take, length_drop. lia.
Qed.

Lemma put_bytes buf off data buf' :
  put buf off data = Some buf' -> Forall is_u8 buf -> Forall is_u8 data -> Forall is_u8 buf'.
Proof.
  unfold put. case_if; try done. intros [= <-] H1 H2. rewrite !Forall_app.
  split_and!; auto using Forall_take, Forall_drop.
Qed.

(** What is at the place, and what is elsewhere. *)
Lemma put_here buf off data buf' :
  put buf off data = Some buf' ->
  drop (Z.to_nat off) buf' = data ++ drop (Z.to_nat off + length data) buf.
Proof.
  unfold put. case_if; try done. intros [= <-]. zbool. unfold zlen in *.
  apply drop_app_length'. rewrite length_take. lia.
Qed.

Lemma put_before buf off data buf' (a n : nat) :
  put buf off data = Some buf' -> Z.of_nat (a + n) <= off ->
  take n (drop a buf') = take n (drop a buf).
Proof.
  unfold put. case_if; try done. intros [= <-] H. zbool. unfold zlen in *.
  rewrite drop_app_le by (rewrite length_take; lia).
  rewrite take_app_le by (rewrite length_drop, length_take; lia).
  rewrite skipn_firstn_comm, take_take. f_equal. lia.
Qed.

Lemma put_after buf off data buf' (a n : nat) :
  put buf off data = Some buf' -> off + zlen data <= Z.of_nat a ->
  take n (drop a buf') = take n (drop a buf).
Proof.
  unfold put. case_if; try done. intros [= <-] H. zbool. unfold zlen in *.
  rewrite drop_app_ge by (rewrite length_take; lia).
  rewrite drop_app_ge by (rewrite length_take; lia).
  rewrite drop_drop, length_take. do 2 f_equal. lia.
Qed.

(** ** Sectors *)

Lemma sector_insert d a v b : sector (<[a := v]> d) b = if b =? a then v else sector d b.
Proof.
  unfold sector. destruct (Z.eqb_spec b a) as [->|H].
  - rewrite lookup_insert_eq. done.
  - rewrite lookup_insert_ne by done. done.
Qed.

Lemma read_disk_one lba s : read_disk lba 1 s = Some (sector s.(disk) (u32 lba), s).
Proof.
  unfold read_disk, gets. change (can_transfer 1) with true. change (seqZ 0 1) with [0]. cbn [map concat]. rewrite app_nil_r, Z.add_0_r. done.
Qed.

Lemma write_disk_one lba buf s :
  length buf = 512%nat -> write_disk lba buf 1 s = Some (tt, set_disk (<[u32 lba := buf]> s.(disk)) s).
Proof.
  intros H. unfold write_disk. change (can_transfer 1) with true. change (Z.to_nat 1) with 1%nat. cbn [write_sectors].
  unfold zlen, sector_size. rewrite H. change (Z.of_nat 512 <? 512) with false. cbn match.
  rewrite take_ge by lia. done.
Qed.

(** ** Types

    Every sector has 512 bytes, every byte, word and table its type. *)

Definition file_ok (f : file) : Prop := is_u32 f.(offset) /\ inode_ok f.(f_inode).

Definition sector_ok (b : list Z) : Prop := length b = 512%nat /\ Forall is_u8 b.

Record fs_typed (s : fs) : Prop := {
  t_disk : map_Forall (fun _ b => sector_ok b) s.(disk);
  t_sb : sb_ok s.(sb);
  t_block_bmap : Forall is_u8 s.(block_bmap).(base);
  t_inode_bmap : Forall is_u8 s.(inode_bmap).(base);
  t_fdt : length s.(file_desc_tbl) = 64%nat /\
          Forall (fun o => match o with Some f => file_ok f | None => True end) s.(file_desc_tbl);
  t_dir : length s.(cur_dir) = 64%nat /\ Forall is_u8 s.(cur_dir);
  t_uid : is_u32 s.(uid);
  t_clock : 0 <= s.(clock) < 18446744073709551616;
}.

Lemma sector_typed s lba : fs_typed s -> sector_ok (sector s.(disk) lba).
Proof.
  intros H. unfold sector. destruct (disk s !! lba) as [b|] eqn:E; cbn [from_option id].
  - exact (t_disk _ H _ _ E).
  - split; [apply length_replicate|]. apply Forall_replicate. unfold is_u8. lia.
Qed.

Lemma dec_inode_ok b : Forall is_u8 b -> inode_ok (dec_inode b).
Proof.
  intros H. pose proof (fun o n => field_bound b o n H) as F.
  unfold dec_inode. constructor; cbn [inode_no i_size last_modify_time link_cnt i_uid i_gid i_mode i_sectors];
    try (match goal with |- context [field b ?o ?n] => pose proof (F o n) end; unwrap; lia).
  - rewrite length_map, length_seq. done.
  - apply Forall_forall. intros x [k [-> _]]%list_elem_of_fmap.
    pose proof (F (28 + 4 * k)%nat 4%nat). unwrap. lia.
Qed.

Lemma dec_entry_ok b : Forall is_u8 b -> (72 <= length b)%nat -> entry_ok (dec_entry b).
Proof.
  intros H Hl. pose proof (fun o n => field_bound b o n H) as F. constructor; cbn [dec_entry d_name d_inode_no d_type].
  - split; [rewrite length_take; lia|]. apply Forall_take, H.
  - pose proof (F 64%nat 4%nat). unwrap. lia.
  - pose proof (F 68%nat 4%nat). unwrap. lia.
Qed.

Lemma dec_sb_ok b : Forall is_u8 b -> (56 <= length b)%nat -> sb_ok (dec_sb b).
Proof.
  intros H Hl. pose proof (fun o n => field_bound b o n H) as F. constructor.
  - cbn. split; [rewrite length_take; lia|]. apply Forall_take, H.
  - cbn. pose proof (F 7%nat 1%nat). unwrap. lia.
  - cbn [dec_sb sectors_nr inodes_nr start_lba block_bitmap_lba block_bitmap_sectors inode_bitmap_lba
         inode_bitmap_sectors inode_table_lba inode_table_sectors data_start root_inode_no dir_entry_size].
    repeat constructor; match goal with |- context [field b ?o ?n] => pose proof (F o n) end; unwrap; lia.
Qed.

(** A structure is read from its own bytes only. *)
Lemma field_take b (m off n : nat) : (off + n <= m)%nat -> field (take m b) off n = field b off n.
Proof. intros H. unfold field. rewrite skipn_firstn_comm, take_take. do 2 f_equal. lia. Qed.

Lemma dec_inode_take b : dec_inode (take 64 b) = dec_inode b.
Proof.
  unfold dec_inode. rewrite !field_take by lia. f_equal. apply map_ext_in. intros k Hk%in_seq.
  apply field_take. lia.
Qed.

Lemma dec_entry_take b : dec_entry (take 72 b) = dec_entry b.
Proof. unfold dec_entry. rewrite !field_take by lia. rewrite take_take. done. Qed.

(** ** An example

    A partition of 100 sectors from sector 10 on with the directories [/] and
    [/etc] and the file [/etc/rc]. *)
Definition fill (n : nat) (l : list Z) : list Z := l ++ replicate (n - length l) 0.

Definition demo_sb : super_block_data :=
  mk_sb (text "Shmily"%string ++ [0]) 0 100 0 10 12 1 13 1 14 8 22 0 72.
Definition demo_inode (no size u lba : Z) : inode := mk_inode no size 5 0 u 0 0x3d (lba :: replicate 8 0).
Definition demo_entry (name : String.string) (no ty : Z) : dir_entry := mk_entry (fill 64 (text name)) no ty.

Definition demo_table : list Z :=
  fill 512 (enc_inode (demo_inode 0 144 0 22) ++ enc_inode (demo_inode 1 144 0 23) ++ enc_inode (demo_inode 2 3 0 24)).
Definition demo_root : list Z :=
  fill 512 (enc_entry (demo_entry "."%string 0 0) ++ enc_entry (demo_entry ".."%string 0 0) ++ enc_entry (demo_entry "etc"%string 1 0)).
Definition demo_etc : list Z :=
  fill 512 (enc_entry (demo_entry "."%string 1 0) ++ enc_entry (demo_entry ".."%string 0 0) ++ enc_entry (demo_entry "rc"%string 2 1)).
Definition demo_bits : bitmap := mk_bitmap 512 (7 :: replicate 511 0).

Definition demo : fs :=
  mk_fs (<[14 := demo_table]> (<[22 := demo_root]> {[ 23 := demo_etc ]})) demo_sb demo_bits demo_bits
    (replicate 64 None) (fill 64 (text "/"%string)) 0 1000 (fun _ _ => 0) 0 0 [].

(** Deciding the typing of concrete data. *)
Definition u8b (z : Z) : bool := (0 <=? z) && (z <? 256).
Lemma bytes_dec l : forallb u8b l = true -> Forall is_u8 l.
Proof.
  intros H. apply Forall_forall. intros x Hx%list_elem_of_In. rewrite forallb_forall in H.
  specialize (H x Hx). unfold u8b in H. zbool. split; done.
Qed.

Lemma demo_typed : fs_typed demo.
Proof.
  assert (sector_ok demo_table /\ sector_ok demo_root /\ sector_ok demo_etc) as (H1 & H2 & H3).
  { split_and!; (split; [vm_compute; reflexivity|apply bytes_dec; vm_compute; reflexivity]). }
  constructor.
  - apply map_Forall_insert_2; [done|]. apply map_Forall_insert_2; [done|]. by apply map_Forall_singleton.
  - constructor; [split; [done|apply bytes_dec; done]|cbn; unwrap; lia|].
    repeat constructor; cbn; unwrap; lia.
  - apply bytes_dec. vm_compute. reflexivity.
  - apply bytes_dec. vm_compute. reflexivity.
  - split; [done|]. apply Forall_replicate. done.
  - split; [done|apply bytes_dec; done].
  - cbn. unwrap. lia.
  - cbn. lia.
Qed.
