(* ===== verification/Inode.v ===== *)
(** * Inodes and blocks (fs/inode.cc, check_inode_permission of fs/protect.cc)

    Allocation in the two bitmaps of the mounted partition, the inode table on
    disk and access rights. *)
From S2P Require Import Prelude Bitmap FsState.
#[local] Ltac Zify.zify_post_hook ::= Z.to_euclidean_division_equations.

(** [bitmap_scan] gives an [int]; setting a bit takes an [unsigned int], so that
    the bit set when the bitmap is full is number 2^32 - 1. *)
Definition allocate_inode_no : fsm Z :=
  inode_bmap ← gets inode_bmap;
  slot ← lift (bitmap_scan inode_bmap 1);
  inode_bmap' ← lift (bitmap_set_bit inode_bmap (u32 slot) 1);
  modify (set_inode_bmap inode_bmap') ;;
  if negb (-1 =? slot) then mret (u32 slot) else lift None.

(** What [create_inode] makes of an inode that was filled with zeros. *)
Definition create_inode : fsm inode :=
  no ← allocate_inode_no;
  t ← gets clock;
  u ← gets uid;
  mret (mk_inode no 0 t 0 (u16 u) 0 inode_mode.DEFAULT_PRIVILEGE (replicate 9 0)).

Definition free_inode (ino : Z) : fsm unit :=
  inode_bmap ← gets inode_bmap;
  inode_bmap' ← lift (bitmap_set_bit inode_bmap ino 0);
  modify (set_inode_bmap inode_bmap').

Definition inodes_per_sector : Z := sector_size / sizeof_inode.

Definition sync_inode (x : inode) : fsm unit :=
  let ino := x.(inode_no) in
  let sector_offset := ino / inodes_per_sector in
  let in_sector_offset := ino mod inodes_per_sector in
  sb ← gets sb;
  let inode_tbl_lba := sb.(inode_table_lba) in
  malloc sector_size ;;
  buf ← read_disk (u32 (inode_tbl_lba + sector_offset)) 1;
  buf' ← lift (put buf (in_sector_offset * sizeof_inode) (enc_inode x));
  write_disk (u32 (inode_tbl_lba + sector_offset)) buf' 1 ;;
  free.

Definition ino2inode (ino : Z) : fsm inode :=
  let sector_offset := ino / inodes_per_sector in
  let in_sector_offset := ino mod inodes_per_sector in
  sb ← gets sb;
  let inode_tbl_lba := sb.(inode_table_lba) in
  malloc sector_size ;;
  buf ← read_disk (u32 (inode_tbl_lba + sector_offset)) 1;
  free ;;
  mret (dec_inode (drop (Z.to_nat (in_sector_offset * sizeof_inode)) buf)).

Definition allocate_block : fsm Z :=
  bmap ← gets block_bmap;
  slot ← lift (bitmap_scan bmap 1);
  bmap' ← lift (bitmap_set_bit bmap (u32 slot) 1);
  modify (set_block_bmap bmap') ;;
  if negb (-1 =? slot) then mret (u32 slot) else lift None.

Definition free_block (block_no : Z) : fsm unit :=
  bmap ← gets block_bmap;
  bmap' ← lift (bitmap_set_bit bmap block_no 0);
  modify (set_block_bmap bmap').

Definition sync_block (block_no : Z) (buf : list Z) : fsm unit :=
  sb ← gets sb;
  write_disk (u32 (sb.(data_start) + block_no)) buf 1.

Definition sync_inode_bitmap : fsm unit :=
  sb ← gets sb;
  bmap ← gets inode_bmap;
  write_disk sb.(inode_bitmap_lba) bmap.(base) sb.(inode_bitmap_sectors).

Definition sync_block_bitmap : fsm unit :=
  sb ← gets sb;
  bmap ← gets block_bmap;
  write_disk sb.(block_bitmap_lba) bmap.(base) sb.(block_bitmap_sectors).

Definition read_block (block_no : Z) : fsm (list Z) :=
  sb ← gets sb;
  read_disk (u32 (sb.(data_start) + block_no)) 1.

Module access_mode.
Definition READ : Z := 4.
Definition WRITE : Z := 2.
Definition EXEC : Z := 1.
End access_mode.

(** [op] is an [unsigned char]. *)
Definition check_inode_permission (x : inode) (op : Z) : fsm bool :=
  uid ← gets uid;
  if uid =? 0 then mret true
  else
    let op := if uid =? x.(i_uid) then u8 (Z.shiftl op 3) else op in
    mret (truth (Z.land x.(i_mode) op)).

(** ** The inode table *)

(** The place of an inode in the table. *)
Definition table_sector (s : fs) (ino : Z) : Z := u32 (u32 (s.(sb).(inode_table_lba) + ino / 8)).

(** What the table holds for [ino]. *)
Definition inode_of (s : fs) (ino : Z) : inode :=
  dec_inode (drop (Z.to_nat (ino mod 8 * 64)) (sector s.(disk) (table_sector s ino))).

Lemma ino2inode_spec ino s :
  ino2inode ino s = Some (inode_of s ino, count_free (count_malloc s)).
Proof.
  unfold ino2inode, mbind, fsm_bind, gets, malloc, free, modify. rewrite read_disk_one. done.
Qed.

Lemma sync_inode_spec x s buf :
  put (sector s.(disk) (table_sector s x.(inode_no))) (x.(inode_no) mod 8 * 64) (enc_inode x) = Some buf ->
  length (sector s.(disk) (table_sector s x.(inode_no))) = 512%nat ->
  sync_inode x s =
    Some (tt, count_free (set_disk (<[table_sector s x.(inode_no) := buf]> s.(disk)) (count_malloc s))).
Proof.
  intros Hp Hl. unfold sync_inode, mbind, fsm_bind, gets, malloc, free, modify.
  rewrite read_disk_one. change (disk (count_malloc s)) with (disk s).
  change inodes_per_sector with 8. change sizeof_inode with 64.
  fold (table_sector s (inode_no x)). unfold lift. rewrite Hp.
  rewrite write_disk_one by (rewrite (put_length _ _ _ _ Hp); done). done.
Qed.

(** [sync_inode] returns, and afterwards the table holds the inode under its
    number and every other inode as before. *)
Lemma sync_inode_table x s :
  fs_typed s -> inode_ok x -> s.(sb).(inode_table_lba) + 536870912 <= 4294967296 ->
  exists s', sync_inode x s = Some (tt, s') /\ inode_of s' x.(inode_no) = x /\
    (forall ino, is_u32 ino -> ino <> x.(inode_no) -> inode_of s' ino = inode_of s ino) /\
    (forall lba, lba <> table_sector s x.(inode_no) -> sector s'.(disk) lba = sector s.(disk) lba) /\
    s'.(sb) = s.(sb) /\ s'.(block_bmap) = s.(block_bmap) /\ s'.(inode_bmap) = s.(inode_bmap).
Proof.
  intros Ht Hx Hlba. destruct (sector_typed s (table_sector s x.(inode_no)) Ht) as [Hl _].
  pose proof (enc_inode_length x (ok_nine _ Hx)) as He.
  pose proof (ok_no _ Hx) as Hno.
  assert (exists buf, put (sector s.(disk) (table_sector s x.(inode_no))) (x.(inode_no) mod 8 * 64)
            (enc_inode x) = Some buf) as [buf Hp].
  { eexists. apply put_ok; [lia|]. unfold zlen. rewrite Hl, He. lia. }
  eexists. split; [apply (sync_inode_spec x s buf Hp Hl)|].
  pose proof (ok_words _ (t_sb _ Ht)) as W.
  assert (0 <= inode_table_lba (sb s)).
  { repeat match goal with H : Forall _ (_ :: _) |- _ => inversion H; clear H; subst end. unwrap. lia. }
  split; [|split; [|split; [|done]]].
  - unfold inode_of. change (table_sector (count_free _) ?i) with (table_sector s i).
    cbn [disk count_free set_disk]. rewrite sector_insert, Z.eqb_refl, (put_here _ _ _ _ Hp).
    apply dec_enc_inode, Hx.
  - intros ino Hi Hne. unfold inode_of. change (table_sector (count_free _) ?i) with (table_sector s i).
    cbn [disk count_free set_disk]. rewrite sector_insert. case_if; [|done].
    assert (ino / 8 = x.(inode_no) / 8) as Hq.
    { unfold table_sector in *. unwrap. rewrite !Z.mod_small in E by lia. lia. }
    rewrite E. rewrite <- dec_inode_take, <- (dec_inode_take (drop _ (sector _ _))).
    destruct (Z.lt_ge_cases (ino mod 8) (x.(inode_no) mod 8)) as [Hlt|Hge].
    + rewrite (put_before _ _ _ _ _ _ Hp) by lia. done.
    + rewrite (put_after _ _ _ _ _ _ Hp) by (unfold zlen; rewrite He; lia). done.
  - intros lba Hne. cbn [disk count_free set_disk]. rewrite sector_insert. case_if; done.
Qed.

(** The tables of open files and users have no part in it. *)
Lemma sync_inode_keeps_tables x s s' : sync_inode x s = Some (tt, s') ->
  s'.(file_desc_tbl) = s.(file_desc_tbl) /\ s'.(uid) = s.(uid).
Proof.
  unfold sync_inode, mbind, fsm_bind, gets, malloc, free, modify, lift. rewrite read_disk_one.
  destruct (put _ _ _) as [buf|]; [|done]. unfold write_disk. destruct (write_sectors _ _ _ _); [|done].
  by intros [= <-].
Qed.

(** ** Running a computation

    [runs m s Q]: from [s] the computation gives a result, and [Q] holds of the
    result and the state. *)
Definition runs {A} (m : fsm A) (s : fs) (Q : A -> fs -> Prop) : Prop :=
  exists a s', m s = Some (a, s') /\ Q a s'.

Section runs.
Context {A B : Type}.
Implicit Types (Q : A -> fs -> Prop).

Lemma runs_ret (a : A) s Q : Q a s -> runs (mret a) s Q.
Proof. intros H. exists a, s. done. Qed.

Lemma runs_bind (m : fsm A) (k : A -> fsm B) s (Q : B -> fs -> Prop) :
  runs m s (fun a s' => runs (k a) s' Q) -> runs (m ≫= k) s Q.
Proof.
  intros (a & s1 & H1 & b & s2 & H2 & HQ). exists b, s2. split; [|done].
  unfold mbind, fsm_bind. rewrite H1. exact H2.
Qed.

Lemma runs_weaken (m : fsm A) s Q Q' : runs m s Q -> (forall a s', Q a s' -> Q' a s') -> runs m s Q'.
Proof. intros (a & s1 & H1 & HQ) H. exists a, s1. auto. Qed.

Lemma runs_gets (f : fs -> A) s Q : Q (f s) s -> runs (gets f) s Q.
Proof. intros H. exists (f s), s. done. Qed.

Lemma runs_lift (o : option A) a s Q : o = Some a -> Q a s -> runs (lift o) s Q.
Proof. intros -> H. exists a, s. done. Qed.
End runs.

Lemma runs_modify f s (Q : unit -> fs -> Prop) : Q tt (f s) -> runs (modify f) s Q.
Proof. intros H. exists tt, (f s). done. Qed.

Lemma runs_read lba s (Q : list Z -> fs -> Prop) : Q (sector s.(disk) (u32 lba)) s -> runs (read_disk lba 1) s Q.
Proof. intros H. eexists _, s. split; [apply read_disk_one|exact H]. Qed.

Lemma runs_write lba buf s (Q : unit -> fs -> Prop) :
  length buf = 512%nat -> Q tt (set_disk (<[u32 lba := buf]> s.(disk)) s) -> runs (write_disk lba buf 1) s Q.
Proof. intros Hl H. eexists _, _. split; [by apply write_disk_one|exact H]. Qed.

(** ** Blocks *)

(** Sectors have their length. *)
Definition full (d : gmap Z (list Z)) : Prop := forall lba, length (sector d lba) = 512%nat.

Lemma full_insert d a b : full d -> length b = 512%nat -> full (<[a := b]> d).
Proof. intros H Hb lba. rewrite sector_insert. case_if; [done|apply H]. Qed.

Lemma typed_full s : fs_typed s -> full s.(disk).
Proof. intros H lba. apply sector_typed, H. Qed.

(** Several sectors are written one after another, and no other changes. *)
Lemma write_sectors_frame n d lba buf :
  full d -> 512 * Z.of_nat n <= zlen buf -> 0 <= lba -> lba + Z.of_nat n <= 4294967296 ->
  exists d', write_sectors n d lba buf = Some d' /\ full d' /\
    forall a, a < lba \/ lba + Z.of_nat n <= a -> sector d' a = sector d a.
Proof.
  revert d lba buf. induction n as [|n IH]; intros d lba buf Hfull Hb H0 Hl; cbn [write_sectors]; [by exists d|].
  unfold sector_size. destruct (Z.ltb_spec (zlen buf) 512); [lia|].
  destruct (IH (<[u32 lba := take 512 buf]> d) (lba + 1) (drop 512 buf)) as (d' & Hd & Hfl & Hf);
    [apply full_insert; [done|rewrite length_take; unfold zlen in *; lia]|unfold zlen in *; rewrite length_drop; lia|lia|lia|].
  exists d'. split; [done|]. split; [done|]. intros a Ha. rewrite Hf by lia. rewrite sector_insert, u32_id by lia.
  case_if; [lia|done].
Qed.

(** The places on the disk: the bitmap and the inode table before the blocks, a
    block for every bit. *)
Record fs_layout (s : fs) : Prop := {
  lay_full : full s.(disk);
  lay_wf : bitmap_wf s.(block_bmap);
  lay_len : zlen s.(block_bmap).(base) = 512 * s.(sb).(block_bitmap_sectors);
  lay_request : 1 <= s.(sb).(block_bitmap_sectors) <= 256;
  lay_bitmap : 0 <= s.(sb).(block_bitmap_lba) /\
               s.(sb).(block_bitmap_lba) + s.(sb).(block_bitmap_sectors) <= s.(sb).(data_start);
  lay_table : 0 <= s.(sb).(inode_table_lba);
  lay_top : s.(sb).(data_start) + 8 * zlen s.(block_bmap).(base) <= 4294967296;
}.

(** [lba] is the sector of a block. *)
Definition is_block (s : fs) (lba : Z) : Prop :=
  s.(sb).(data_start) <= lba < s.(sb).(data_start) + 8 * zlen s.(block_bmap).(base).

Lemma runs_sync_block_bitmap s (Q : unit -> fs -> Prop) :
  fs_layout s ->
  (forall d', full d' -> (forall a, is_block s a -> sector d' a = sector s.(disk) a) -> Q tt (set_disk d' s)) ->
  runs sync_block_bitmap s Q.
Proof.
  intros [Hfull _ Hl Hr Hb _ Ht] HQ. unfold sync_block_bitmap.
  apply runs_bind, runs_gets, runs_bind, runs_gets. pose proof (zlen_nonneg (base (block_bmap s))).
  destruct (write_sectors_frame (Z.to_nat (block_bitmap_sectors (sb s))) (disk s) (block_bitmap_lba (sb s))
              (base (block_bmap s))) as (d' & Hd & Hfl & Hf); [done|lia..|].
  exists tt, (set_disk d' s). unfold write_disk. rewrite can_transfer_true, Hd by done. split; [done|]. apply HQ; [done|].
  intros a [Ha _]. apply Hf. lia.
Qed.

(** The first free bit of a bitmap is found and set. *)
Lemma bitmap_take_first b :
  bitmap_wf b -> (exists i, 0 <= i < 8 * b.(bytes_len) /\ bit_at b i = false) ->
  exists r b', bitmap_scan b 1 = Some r /\ 0 <= r < 8 * b.(bytes_len) /\ u32 r = r /\ bit_at b r = false /\
    (forall i, 0 <= i -> bit_at b i = false -> r <= i) /\
    bitmap_set_bit b (u32 r) 1 = Some b' /\ bitmap_wf b' /\ zlen b'.(base) = zlen b.(base) /\
    b'.(bytes_len) = b.(bytes_len) /\
    (forall i, 0 <= i < 8 * zlen b.(base) -> bit_at b' i = if i =? r then true else bit_at b i).
Proof.
  intros Hwf (i & Hi & Hbi). pose proof (bitmap_scan_one _ Hwf) as Hs.
  destruct (bitmap_scan b 1) as [r|] eqn:E.
  2: { destruct Hs as [_ Hs]. rewrite Hs in Hbi by done. done. }
  destruct Hs as [[-> Hs]|(Hr & Hbr & Hfirst)]; [rewrite Hs in Hbi by done; done|].
  pose proof (wf_len _ Hwf) as Hl. pose proof (wf_int _ Hwf) as Hint.
  destruct (bitmap_set_bit_bits _ r 1 Hwf) as (b' & Hb' & Hwf' & Hlen & Hz & Hbits); [lia|].
  exists r, b'. rewrite u32_id by lia. split_and!; try done; try lia.
  intros k Hk Hbk. destruct (Z.le_gt_cases r k); [done|]. rewrite Hfirst in Hbk by lia. done.
Qed.

Lemma runs_allocate_block s (Q : Z -> fs -> Prop) :
  fs_layout s -> (exists i, 0 <= i < 8 * s.(block_bmap).(bytes_len) /\ bit_at s.(block_bmap) i = false) ->
  (forall r b', 0 <= r < 8 * s.(block_bmap).(bytes_len) -> bit_at s.(block_bmap) r = false ->
     bitmap_wf b' -> zlen b'.(base) = zlen s.(block_bmap).(base) ->
     b'.(bytes_len) = s.(block_bmap).(bytes_len) ->
     (forall i, 0 <= i < 8 * zlen s.(block_bmap).(base) -> bit_at b' i = if i =? r then true else bit_at s.(block_bmap) i) ->
     Q r (set_block_bmap b' s)) ->
  runs allocate_block s Q.
Proof.
  intros [_ Hwf _ _ _ _ _] Hfree HQ.
  destruct (bitmap_take_first _ Hwf Hfree) as (r & b' & Hs & Hr & Hu & Hbr & _ & Hb' & Hwf' & Hz & Hlen & Hbits).
  unfold allocate_block. apply runs_bind, runs_gets, runs_bind. eapply runs_lift; [done|].
  apply runs_bind. eapply runs_lift; [exact Hb'|].
  apply runs_bind, runs_modify. rewrite (proj2 (Z.eqb_neq (-1) r)) by lia. cbn [negb].
  apply runs_ret. rewrite Hu. apply HQ; auto.
Qed.

Lemma runs_free_block s lba (Q : unit -> fs -> Prop) :
  fs_layout s -> is_block s lba ->
  (forall b', bitmap_wf b' -> zlen b'.(base) = zlen s.(block_bmap).(base) ->
     bit_at b' (lba - s.(sb).(data_start)) = false -> Q tt (set_block_bmap b' s)) ->
  runs (free_block (u32 (lba - s.(sb).(data_start)))) s Q.
Proof.
  intros [_ Hwf Hz0 Hb _ Ht] Hblk HQ. unfold is_block in Hblk. pose proof (zlen_nonneg (base (block_bmap s))).
  unfold free_block. apply runs_bind, runs_gets, runs_bind.
  destruct (bitmap_set_bit_bits _ (lba - data_start (sb s)) 0 Hwf) as (b' & Hb' & Hwf' & Hlen & Hz & Hbits); [lia|].
  eapply runs_lift; [rewrite u32_id by lia; exact Hb'|]. apply runs_modify, HQ; auto.
  rewrite Hbits by lia. rewrite Z.eqb_refl. done.
Qed.

Lemma runs_sync_inode x s (Q : unit -> fs -> Prop) :
  full s.(disk) -> length x.(i_sectors) = 9%nat -> is_u32 x.(inode_no) ->
  (forall buf, length buf = 512%nat ->
     Q tt (count_free (set_disk (<[table_sector s x.(inode_no) := buf]> s.(disk)) (count_malloc s)))) ->
  runs (sync_inode x) s Q.
Proof.
  intros Hf Hx Hno HQ. pose proof (enc_inode_length x Hx) as He.
  assert (exists buf, put (sector s.(disk) (table_sector s x.(inode_no))) (x.(inode_no) mod 8 * 64)
            (enc_inode x) = Some buf) as [buf Hp].
  { eexists. apply put_ok; [lia|]. unfold zlen. rewrite Hf, He. unwrap. lia. }
  eexists _, _. split; [apply (sync_inode_spec x s buf Hp), Hf|]. apply HQ.
  rewrite (put_length _ _ _ _ Hp). apply Hf.
Qed.

(** ** What is written is read back *)

(** What [ino2inode] reads for a number. *)
Definition read_inode (ino : Z) (s : fs) : option inode := fst <$> ino2inode ino s.

(** C19. An inode that is written to the table is read back, whatever the sector
    held, and every other one as before. *)
Theorem inode_table_roundtrip x s :
  fs_typed s -> inode_ok x -> s.(sb).(inode_table_lba) + 536870912 <= 4294967296 ->
  exists s', sync_inode x s = Some (tt, s') /\ read_inode x.(inode_no) s' = Some x /\
    forall ino, is_u32 ino -> ino <> x.(inode_no) -> read_inode ino s' = read_inode ino s.
Proof.
  intros Ht Hx Hl. destruct (sync_inode_table x s Ht Hx Hl) as (s' & Hs & Hown & Hoth & _).
  exists s'. split; [done|]. unfold read_inode. split.
  - rewrite ino2inode_spec, Hown. done.
  - intros ino Hi Hne. rewrite !ino2inode_spec. cbn. by rewrite Hoth.
Qed.

Lemma demo_inode_ok no size u lba :
  is_u32 no -> is_u32 size -> is_u16 u -> is_u32 lba -> inode_ok (demo_inode no size u lba).
Proof.
  intros H1 H2 H3 H4. constructor; cbn; try done; try (unwrap; lia).
  repeat constructor; try (unwrap; lia); apply H4.
Qed.

Lemma inode_table_roundtrip_witness :
  exists s', sync_inode (demo_inode 9 700 7 30) demo = Some (tt, s') /\
    read_inode 9 s' = Some (demo_inode 9 700 7 30) /\
    forall ino, is_u32 ino -> ino <> 9 -> read_inode ino s' = read_inode ino demo.
Proof.
  apply (inode_table_roundtrip (demo_inode 9 700 7 30) demo).
  - apply demo_typed.
  - apply demo_inode_ok; unwrap; lia.
  - cbn. lia.
Defined.
