(* ===== verification/Dir.v ===== *)
(** * Directories (fs/dir.cc; sys_chmod and sys_chown of fs/protect.cc)

    A directory is an inode whose sectors hold entries of 72 bytes, seven in a
    sector; an entry whose name is empty is free.  A path is the memory from the
    pointer on.  [strcmp] answers [true] for equal strings. *)
From Stdlib Require Import String.
From S2P Require Import Prelude Bitmap CString FsState Inode.
#[local] Open Scope string_scope.
#[global] Open Scope list_scope.
#[global] Open Scope Z_scope.

(** The value [-1] of an [int], or of an [unsigned int] that was assigned one. *)
Definition NO_INODE : Z := u32 (-1).

(** ** Paths *)

(** Reads [path] from its start: the rest of the path after the component, and
    the component as it is written into a zeroed buffer of 64 bytes.  [cur] is
    the offset of [cur_path]. *)
Fixpoint split_component (path : list Z) (cur_path : list Z) (cur : Z) : option (option (list Z) * list Z) :=
  match path with
  | [] => None
  | c :: path' =>
      if 47 =? c then
        cur_path' ← cur_path.[cur <- 0];
        Some (Some path', cur_path')
      else
        cur_path' ← cur_path.[cur <- c];
        next ← path'.[0];
        if 0 =? next then Some (None, cur_path')
        else split_component path' cur_path' (cur + 1)
  end.

Definition split_path (path cur_path : list Z) : option (option (list Z) * list Z) :=
  c ← path.[0];
  if 47 =? c then
    cur_path1 ← cur_path.[0 <- 47];
    cur_path2 ← cur_path1.[1 <- 0];
    Some (Some (drop 1 path), cur_path2)
  else if 0 =? c then Some (None, cur_path)
  else split_component path cur_path 0.

Definition skip_last_slash (str : list Z) : option (list Z) :=
  l ← strlen str;
  c ← str.[u32 (l - 1)];
  if 47 =? c then str.[u32 (l - 1) <- 0] else Some str.

(** The number of ['/'] in the string. *)
Fixpoint count_slashes (path : list Z) (l : Z) : option Z :=
  match path with
  | [] => None
  | c :: path' => if 0 =? c then Some l else count_slashes path' (if 47 =? c then l + 1 else l)
  end.

(** Copies [path] until [l - 1] slashes have been copied: [parent], the offset
    behind the last byte, and the rest of the path. *)
Fixpoint copy_parent (i l : Z) (path parent : list Z) (d : Z) : option (list Z * Z * list Z) :=
  if i <? l - 1 then
    match path with
    | [] => None
    | c :: path' =>
        parent' ← parent.[d <- c];
        copy_parent (if 47 =? c then i + 1 else i) l path' parent' (d + 1)
    end
  else Some (parent, d, path).

(** The last component (or a null pointer) and the path of its directory, in the
    buffer [parent]. *)
Definition split_path_2parts (path parent : list Z) : option (option (list Z) * list Z) :=
  c ← path.[0];
  if negb (47 =? c) then Some (None, parent)
  else
    l ← count_slashes path 1;
    '(parent, d, rest) ← copy_parent 0 l path parent 0;
    c1 ← parent.[1];
    if negb (0 =? c1) then
      parent ← parent.[d - 1 <- 0];
      parent ← skip_last_slash parent;
      Some (Some rest, parent)
    else Some (Some rest, parent).

(** ** Looking up *)

Fixpoint find_in_sector (js : list Z) (buf child : list Z) : option (option Z) :=
  match js with
  | [] => Some None
  | j :: js' =>
      let p := entry_at buf j in
      c ← p.(d_name).[0];
      if 0 =? c then find_in_sector js' buf child
      else
        same ← strcmp p.(d_name) child;
        if (same : bool) then Some (Some p.(d_inode_no)) else find_in_sector js' buf child
  end.

Fixpoint find_in_sectors (sectors : list Z) (child : list Z) : fsm (option Z) :=
  match sectors with
  | [] => mret None
  | lba :: sectors' =>
      if 0 =? lba then find_in_sectors sectors' child
      else
        buf ← read_disk lba 1;
        found ← lift (find_in_sector (seqZ 0 entries_per_sector) buf child);
        match found with
        | Some ino => mret (Some ino)
        | None => find_in_sectors sectors' child
        end
  end.

Definition find_dir_entry (x : inode) (child : list Z) : fsm Z :=
  malloc sector_size ;;
  found ← find_in_sectors x.(i_sectors) child;
  free ;;
  mret (match found with Some ino => ino | None => NO_INODE end).

(** The loop of [dir_is_exists]: every turn takes at least one character of the
    path. *)
Fixpoint walk (fuel : nat) (next_path : option (list Z)) (parent_inode_no : Z) (x : inode) : fsm Z :=
  match next_path, fuel with
  | None, _ => mret parent_inode_no
  | Some _, O => lift None
  | Some path, S fuel' =>
      '(next_path, cur_path) ← lift (split_path path (replicate 64 0));
      slash ← lift (strcmp (text "/" ++ [0]) cur_path);
      if (slash : bool) then walk fuel' next_path parent_inode_no x
      else
        ino ← find_dir_entry x cur_path;
        if NO_INODE =? ino then mret NO_INODE
        else
          x' ← ino2inode ino;
          walk fuel' next_path ino x'
  end.

Definition dir_is_exists (path : list Z) : fsm Z :=
  c ← lift (path.[0]);
  if negb (47 =? c) then mret NO_INODE
  else
    c1 ← lift (path.[1]);
    if 0 =? c1 then mret 0
    else
      sb ← gets sb;
      x ← ino2inode sb.(root_inode_no);
      walk (S (length path)) (Some path) sb.(root_inode_no) x.

(** ** Entries *)

(** The search of one sector for a free slot: [None] inside when the name
    exists, else the sector and the offset of the first free slot. *)
Fixpoint scan_slots (js : list Z) (lba : Z) (buf child : list Z) (slot : Z * Z) : option (option (Z * Z)) :=
  match js with
  | [] => Some (Some slot)
  | j :: js' =>
      let p := entry_at buf j in
      c ← p.(d_name).[0];
      if (0 =? c) && (0 =? slot.2) && (0 =? slot.1) then scan_slots js' lba buf child (lba, j)
      else
        same ← strcmp p.(d_name) child;
        if (same : bool) then Some None else scan_slots js' lba buf child slot
  end.

Fixpoint scan_sectors (sectors : list Z) (child : list Z) (slot : Z * Z) : fsm (option (Z * Z)) :=
  match sectors with
  | [] => mret (Some slot)
  | lba :: sectors' =>
      if 0 =? lba then scan_sectors sectors' child slot
      else
        buf ← read_disk lba 1;
        r ← lift (scan_slots (seqZ 0 entries_per_sector) lba buf child slot);
        match r with
        | Some slot' => scan_sectors sectors' child slot'
        | None => mret None
        end
  end.

(** The third loop: the first unused sector of the inode gets a block. *)
Fixpoint add_sector (idx : list Z) (x : inode) (child : dir_entry) : fsm unit :=
  match idx with
  | [] => skip
  | i :: idx' =>
      lba ← lift (x.(i_sectors).[i]);
      if negb (0 =? lba) then add_sector idx' x child
      else
        block_no ← allocate_block;
        buf ← read_block block_no;
        buf ← lift (put buf 0 (enc_entry child));
        sync_block block_no buf ;;
        sb ← gets sb;
        sectors ← lift (x.(i_sectors).[i <- u32 (sb.(data_start) + block_no)]);
        sync_inode (set_sectors x sectors) ;;
        sync_block_bitmap ;;
        free
  end.

Definition create_dir_entry (x : inode) (child : dir_entry) : fsm unit :=
  malloc sector_size ;;
  r ← scan_sectors x.(i_sectors) child.(d_name) (0, 0);
  match r with
  | None => printf_ln "Already exists." [] ;; free
  | Some (free_sector, free_offset) =>
      if negb (0 =? free_sector) then
        buf ← read_disk free_sector 1;
        buf ← lift (put buf (free_offset * sizeof_dir_entry) (enc_entry child));
        write_disk free_sector buf 1 ;;
        free
      else add_sector (seqZ 0 9) x child
  end.

(** The inner loop of [remove_dir_entry]: whether an entry has been removed, the
    number of free entries, and whether the buffer has been given back.  A removal
    gives it back, and what follows uses it all the same. *)
Fixpoint remove_in_sector (js : list Z) (lba : Z) (buf path_del : list Z) (is_found : bool) (empty_cnts : Z)
    (freed : bool) : fsm (bool * Z * bool) :=
  match js with
  | [] => mret (is_found, empty_cnts, freed)
  | j :: js' =>
      alive freed ;;
      let p := entry_at buf j in
      same ← lift (strcmp p.(d_name) path_del);
      if (same : bool) then
        buf' ← lift (buf.[j * sizeof_dir_entry <- 0]);
        write_disk lba buf' 1 ;;
        free ;;
        remove_in_sector js' lba buf' path_del true (empty_cnts + 1) true
      else
        c ← lift (p.(d_name).[0]);
        remove_in_sector js' lba buf path_del is_found (if 0 =? c then empty_cnts + 1 else empty_cnts) freed
  end.

Fixpoint remove_in_sectors (idx : list Z) (x : inode) (path_del : list Z) (is_found freed : bool) : fsm unit :=
  match idx with
  | [] =>
      alive freed ;;
      free ;;
      if negb is_found then printf_ln "Not found the directory." [] else skip
  | i :: idx' =>
      lba ← lift (x.(i_sectors).[i]);
      if 0 =? lba then remove_in_sectors idx' x path_del is_found freed
      else
        alive freed ;;
        buf ← read_disk lba 1;
        '(is_found, empty_cnts, freed) ← remove_in_sector (seqZ 0 entries_per_sector) lba buf path_del is_found 0 freed;
        if (is_found : bool) && (empty_cnts =? entries_per_sector) then
          sb ← gets sb;
          free_block (u32 (lba - sb.(data_start))) ;;
          sync_block_bitmap ;;
          sectors ← lift (x.(i_sectors).[i <- 0]);
          sync_inode (set_sectors x sectors)
        else remove_in_sectors idx' x path_del is_found freed
  end.

Definition remove_dir_entry (x : inode) (path_del : list Z) : fsm unit :=
  malloc sector_size ;;
  remove_in_sectors (seqZ 0 9) x path_del false false.

(** The first sector of a new directory, composed in fresh memory. *)
Definition init_child_dir (parent_ino ino : Z) : fsm unit :=
  buf ← malloc sector_size;
  x ← ino2inode ino;
  buf ← lift (put buf 0 (text "."));
  buf ← lift (put buf 64 (le 4 ino));
  buf ← lift (put buf 72 (text ".."));
  buf ← lift (put buf 136 (le 4 parent_ino));
  block_no ← allocate_block;
  sb ← gets sb;
  let lba := u32 (sb.(data_start) + block_no) in
  sectors ← lift (x.(i_sectors).[0 <- lba]);
  write_disk lba buf 1 ;;
  sync_inode (set_sectors x sectors) ;;
  sync_block_bitmap ;;
  free.

(** ** Requests *)

(** [strcpy(child.name, name)] into a zeroed entry; the name may be a null
    pointer. *)
Definition make_entry (name : option (list Z)) (type ino : Z) : option dir_entry :=
  name ← name;
  d_name ← strcpy (replicate 64 0) 0 name;
  Some (mk_entry d_name ino type).

Definition denied (path : list Z) : fsm unit := printf_ln "Permission denied. path: %s" [AStr path].

Definition sys_mkdir (path : list Z) : fsm unit :=
  '(child_name, parent) ← lift (split_path_2parts path (replicate 64 0));
  parent_ino ← dir_is_exists parent;
  if NO_INODE =? parent_ino then skip
  else
    x ← ino2inode parent_ino;
    ok ← check_inode_permission x access_mode.WRITE;
    if negb ok then denied parent
    else
      child_inode ← create_inode;
      sync_inode child_inode ;;
      sync_inode_bitmap ;;
      child ← lift (make_entry child_name DIR child_inode.(inode_no));
      create_dir_entry x child ;;
      init_child_dir parent_ino child.(d_inode_no).

(** Entries 2 to 6 of the first sector. *)
Fixpoint all_free (js : list Z) (buf : list Z) : option bool :=
  match js with
  | [] => Some true
  | j :: js' =>
      c ← (entry_at buf j).(d_name).[0];
      if negb (0 =? c) then Some false else all_free js' buf
  end.

Definition dir_is_empty (path : list Z) : fsm bool :=
  ino ← dir_is_exists path;
  x ← ino2inode ino;
  malloc sector_size ;;
  lba ← lift (x.(i_sectors).[0]);
  buf ← read_disk lba 1;
  empty ← lift (all_free (seqZ 2 (entries_per_sector - 2)) buf);
  free ;;
  mret (empty && forallb (fun lba => 0 =? lba) (tail x.(i_sectors))).

(** [remove_dir_entry] takes the name, which may be a null pointer. *)
Definition sys_rmdir (path : list Z) : fsm unit :=
  empty ← dir_is_empty path;
  if negb empty then printf_ln "dir is not empty." []
  else
    '(path_del, parent) ← lift (split_path_2parts path (replicate 64 0));
    parent_ino ← dir_is_exists parent;
    child_ino ← dir_is_exists path;
    if NO_INODE =? parent_ino then skip
    else
      inode_parent ← ino2inode parent_ino;
      ok ← check_inode_permission inode_parent access_mode.WRITE;
      if negb ok then denied parent
      else
        path_del ← lift path_del;
        remove_dir_entry inode_parent path_del ;;
        free_inode child_ino ;;
        sync_inode_bitmap.

Definition pwd : fsm unit :=
  cur_dir ← gets cur_dir;
  printf_ln "%s" [AStr cur_dir].

Definition cd (path : list Z) : fsm bool :=
  ino ← dir_is_exists path;
  if NO_INODE =? ino then mret false
  else
    x ← ino2inode ino;
    ok ← check_inode_permission x access_mode.EXEC;
    if negb ok then denied path ;; mret false
    else
      cur_dir ← lift (strcpy (replicate 64 0) 0 path);
      modify (set_cur_dir cur_dir) ;;
      mret true.

Fixpoint ls_sector (js : list Z) (buf : list Z) : fsm unit :=
  match js with
  | [] => skip
  | j :: js' =>
      let p := entry_at buf j in
      c ← lift (p.(d_name).[0]);
      (if 0 =? c then skip else printf "%s " [AStr p.(d_name)]) ;;
      ls_sector js' buf
  end.

Fixpoint ls_sectors (sectors : list Z) : fsm unit :=
  match sectors with
  | [] => skip
  | lba :: sectors' =>
      (if 0 =? lba then skip
       else buf ← read_disk lba 1; ls_sector (seqZ 0 entries_per_sector) buf) ;;
      ls_sectors sectors'
  end.

Definition ls (path : option (list Z)) : fsm unit :=
  cur_dir ← gets cur_dir;
  let path := match path with Some path => path | None => cur_dir end in
  ino ← dir_is_exists path;
  if NO_INODE =? ino then skip
  else
    x ← ino2inode ino;
    ok ← check_inode_permission x access_mode.READ;
    if negb ok then denied path
    else
      malloc sector_size ;;
      ls_sectors x.(i_sectors) ;;
      printf_ln "" [] ;;
      free.

(** [new_mode] is an [unsigned char], the user of an inode has 16 bits.  The
    inode is written back whether or not it was changed. *)
Definition sys_chmod (path : list Z) (new_mode : Z) : fsm unit :=
  ino ← dir_is_exists path;
  if NO_INODE =? ino then skip
  else
    x ← ino2inode ino;
    uid ← gets uid;
    sync_inode (if (0 =? uid) || (uid =? x.(i_uid)) then set_mode x (u8 new_mode) else x).

Definition sys_chown (path : list Z) (new_uid : Z) : fsm unit :=
  ino ← dir_is_exists path;
  if NO_INODE =? ino then skip
  else
    x ← ino2inode ino;
    uid ← gets uid;
    sync_inode (if (0 =? uid) || (uid =? x.(i_uid)) then set_uid x (u16 new_uid) else x).
