(* ===== verification/File.v ===== *)
(** * Files (fs/file.cc)

    An open file is a slot of the table of descriptors, with its own copy of the
    inode and an offset.  A file has at most nine sectors.  The indices of the
    loops are [int], the counts [unsigned int]; buffers of the caller are lists
    of bytes from the pointer on. *)
From Stdlib Require Import String.
From S2P Require Import Prelude Bitmap CString FsState Inode Dir.
#[local] Open Scope string_scope.
#[global] Open Scope list_scope.
#[global] Open Scope Z_scope.

Module file_io.
Definition APPEND : Z := 0.
Definition COVER : Z := 1.
End file_io.

Definition sys_mkfile (path : list Z) : fsm unit :=
  '(file_name, parent) ← lift (split_path_2parts path (replicate 64 0));
  parent_ino ← dir_is_exists parent;
  if NO_INODE =? parent_ino then skip
  else
    parent_inode ← ino2inode parent_ino;
    ok ← check_inode_permission parent_inode access_mode.WRITE;
    if negb ok then denied parent
    else
      file_inode ← create_inode;
      sync_inode file_inode ;;
      sync_inode_bitmap ;;
      file_entry ← lift (make_entry file_name FILE file_inode.(inode_no));
      create_dir_entry parent_inode file_entry.

Fixpoint free_blocks (sectors : list Z) : fsm unit :=
  match sectors with
  | [] => skip
  | lba :: sectors' =>
      (if 0 =? lba then skip
       else sb ← gets sb; free_block (u32 (lba - sb.(data_start)))) ;;
      free_blocks sectors'
  end.

Definition free_inode_sectors (x : inode) : fsm unit :=
  free_blocks x.(i_sectors) ;;
  sync_block_bitmap.

Definition sys_rmfile (path : list Z) : fsm unit :=
  '(file_del, parent) ← lift (split_path_2parts path (replicate 64 0));
  parent_ino ← dir_is_exists parent;
  file_del_ino ← dir_is_exists path;
  if NO_INODE =? file_del_ino then printf_ln "file is not exists." []
  else
    inode_parent ← ino2inode parent_ino;
    ok ← check_inode_permission inode_parent access_mode.WRITE;
    if negb ok then denied parent
    else
      inode_del ← ino2inode file_del_ino;
      file_del ← lift file_del;
      remove_dir_entry inode_parent file_del ;;
      free_inode_sectors inode_del ;;
      free_inode file_del_ino ;;
      sync_inode_bitmap.

(** ** Writing *)

(** A block for every sector of the range that has none. *)
Fixpoint allocate_sectors (idx : list Z) (sectors : list Z) : fsm (list Z) :=
  match idx with
  | [] => mret sectors
  | i :: idx' =>
      lba ← lift (sectors.[i]);
      if 0 =? lba then
        block_no ← allocate_block;
        sb ← gets sb;
        sectors' ← lift (sectors.[i <- u32 (sb.(data_start) + block_no)]);
        allocate_sectors idx' sectors'
      else allocate_sectors idx' sectors
  end.

(** [memcpy(buf + off, src, cnt)] from the start of [src]. *)
Definition copy_in (buf : list Z) (off : Z) (src : list Z) (cnt : Z) : option (list Z) :=
  if cnt <=? zlen src then put buf off (take (Z.to_nat cnt) src) else None.

(** The sectors between the first and the last: 512 bytes at [str + i * 512] each. *)
Fixpoint write_middle (idx : list Z) (sectors str : list Z) : fsm unit :=
  match idx with
  | [] => skip
  | i :: idx' =>
      lba ← lift (sectors.[i]);
      write_disk lba (drop (Z.to_nat (i * 512)) str) 1 ;;
      write_middle idx' sectors str
  end.

(** The last loop: sectors behind the data are released. *)
Fixpoint free_surplus (idx : list Z) (sectors : list Z) (has_surplus : bool) : fsm (list Z * bool) :=
  match idx with
  | [] => mret (sectors, has_surplus)
  | i :: idx' =>
      lba ← lift (sectors.[i]);
      if 0 =? lba then free_surplus idx' sectors has_surplus
      else
        sb ← gets sb;
        free_block (u32 (lba - sb.(data_start))) ;;
        sectors' ← lift (sectors.[i <- 0]);
        free_surplus idx' sectors' true
  end.

(** The indices [i], [i + 1], ... below [bound]. *)
Definition upto (i bound : Z) : list Z := seqZ i (bound - i).

Definition set_file (fd : Z) (f : option file) : fsm unit :=
  t ← gets file_desc_tbl;
  t' ← lift (t.[fd <- f]);
  modify (set_fdt t').

(** How [write_file] divides [count] bytes: the sector and the position of the
    first byte, the number of sectors and the number of bytes in the last one. *)
Definition write_plan (size count mode : Z) : Z * Z * Z * Z :=
  if file_io.APPEND =? mode then
    let start_sector := size / sector_size in
    let all_bytes := u32 (size + count) in
    (start_sector, size mod sector_size, s32 (all_bytes / sector_size - start_sector), all_bytes mod sector_size)
  else (0, 0, count / sector_size, count mod sector_size).

Definition write_file (fd : Z) (str : list Z) (count mode : Z) : fsm unit :=
  t ← gets file_desc_tbl;
  f ← lift (t.[fd]);
  match f with
  | None => skip
  | Some f =>
      len ← lift (strlen str);
      let count := if len <? count then u32 (len + 1) else count in
      let x := f.(f_inode) in
      ok ← check_inode_permission x access_mode.WRITE;
      if negb ok then printf_ln "Permission denied." []
      else
        let '(start_sector, start_pos, sector_cnts, last_sector_bytes) := write_plan x.(i_size) count mode in
        sectors ← allocate_sectors (upto start_sector (sector_cnts + 1)) x.(i_sectors);
        sync_inode (set_sectors x sectors) ;;
        sync_block_bitmap ;;
        let start_sector_surplus := sector_size - start_pos in
        let will_write_first_sector := if start_sector_surplus <? count then start_sector_surplus else count in
        malloc sector_size ;;
        lba ← lift (sectors.[start_sector]);
        buf ← read_disk lba 1;
        buf ← lift (copy_in buf start_pos str will_write_first_sector);
        write_disk lba buf 1 ;;
        let str := drop (Z.to_nat will_write_first_sector) str in
        write_middle (upto (start_sector + 1) (sector_cnts - 1)) sectors str ;;
        let i := Z.max (start_sector + 1) (sector_cnts - 1) in
        (if start_sector_surplus <? count then
           buf ← lift (copy_in (replicate 512 0) 0 (drop (Z.to_nat (i * 512)) str) last_sector_bytes);
           lba ← lift (sectors.[i]);
           write_disk lba buf 1
         else skip) ;;
        '(sectors, has_surplus) ← free_surplus (upto (sector_cnts + 1) 9) sectors false;
        let size := if file_io.APPEND =? mode then u32 (x.(i_size) + count) else count in
        let x' := set_size (set_sectors x sectors) size in
        set_file fd (Some (mk_file f.(offset) x')) ;;
        sync_inode x' ;;
        (if has_surplus : bool then sync_block_bitmap else skip) ;;
        free
  end.

(** ** Reading *)

Fixpoint read_middle (idx : list Z) (sectors : list Z) (buf : list Z) (base : Z) : fsm (list Z) :=
  match idx with
  | [] => mret buf
  | i :: idx' =>
      lba ← lift (sectors.[i]);
      b ← read_disk lba 1;
      buf' ← lift (put buf (base + i * 512) b);
      read_middle idx' sectors buf' base
  end.

(** The result and the buffer. *)
Definition read_file (fd : Z) (buf : list Z) (count : Z) : fsm (Z * list Z) :=
  t ← gets file_desc_tbl;
  f ← lift (t.[fd]);
  match f with
  | None => mret (u32 (-1), buf)
  | Some f =>
      let x := f.(f_inode) in
      ok ← check_inode_permission x access_mode.READ;
      if negb ok then printf_ln "Permission denied." [] ;; mret (u32 (-1), buf)
      else
        let count := if x.(i_size) <? count then x.(i_size) else count in
        let start_sector := f.(offset) / sector_size in
        let start_offset_first := f.(offset) mod sector_size in
        let bytes_first_sector := if 512 <? count then u32 (sector_size - f.(offset)) else count in
        let sector_cnts := if 512 <? count then u32 (count - bytes_first_sector) / sector_size else 0 in
        let last_sector_bytes := u32 (count - bytes_first_sector) mod sector_size in
        malloc sector_size ;;
        lba ← lift (x.(i_sectors).[start_sector]);
        buf_temp ← read_disk lba 1;
        buf ← lift (copy_in buf 0 (drop (Z.to_nat start_offset_first) buf_temp) bytes_first_sector);
        buf ← read_middle (upto (start_sector + 1) sector_cnts) x.(i_sectors) buf bytes_first_sector;
        let i := Z.max (start_sector + 1) sector_cnts in
        buf ← (if 512 <? count then
                 lba ← lift (x.(i_sectors).[i]);
                 buf_temp ← read_disk lba 1;
                 lift (copy_in buf (bytes_first_sector + i * 512) buf_temp last_sector_bytes)
               else mret buf);
        free ;;
        set_file fd (Some (mk_file (u32 (f.(offset) + count)) x)) ;;
        mret (count, buf)
  end.

(** The two functions do not test for a closed descriptor. *)
Definition lseek_file (fd off : Z) : fsm unit :=
  t ← gets file_desc_tbl;
  f ← lift (t.[fd]);
  f ← lift f;
  let off := if f.(f_inode).(i_size) <? off then f.(f_inode).(i_size) else off in
  set_file fd (Some (mk_file off f.(f_inode))).

Definition is_eof (fd : Z) : fsm bool :=
  t ← gets file_desc_tbl;
  f ← lift (t.[fd]);
  f ← lift f;
  mret (f.(f_inode).(i_size) <=? f.(offset)).

(** ** Descriptors *)

Fixpoint free_slot (t : list (option file)) (i : Z) : Z :=
  match t with
  | [] => -1
  | None :: _ => i
  | Some _ :: t' => free_slot t' (i + 1)
  end.

Definition get_fdt_free_slot : fsm Z :=
  t ← gets file_desc_tbl;
  mret (free_slot t 0).

Definition free_fdt_slot (slot : Z) : fsm unit :=
  if 63 <? slot then skip else set_file slot None.

(** The copy of the inode and the file are blocks of memory; they are not given
    back when opening fails. *)
Definition open_file (path : list Z) : fsm Z :=
  ino ← dir_is_exists path;
  if NO_INODE =? ino then printf_ln "file is not exists." [] ;; mret (-1)
  else
    malloc sizeof_inode ;;
    x ← ino2inode ino;
    ok ← check_inode_permission x access_mode.READ;
    if negb ok then printf_ln "Permission denied path: %s." [AStr path] ;; mret (-1)
    else
      malloc 8 ;;
      slot ← get_fdt_free_slot;
      if -1 =? slot then mret (-1)
      else
        set_file slot (Some (mk_file 0 x)) ;;
        mret slot.

Definition close_file (fd : Z) : fsm unit :=
  t ← gets file_desc_tbl;
  f ← lift (t.[fd]);
  match f with
  | None => skip
  | Some _ => free ;; free ;; free_fdt_slot fd
  end.

(** ** Whole files *)

Definition div_round_up (x y : Z) : Z := u32 (x + y - 1) / y.

(** [printf("%s", buf)] of each sector. *)
Fixpoint cat_sectors (idx : list Z) (sectors : list Z) : fsm unit :=
  match idx with
  | [] => skip
  | i :: idx' =>
      lba ← lift (sectors.[i]);
      buf ← read_disk lba 1;
      printf "%s" [AStr buf] ;;
      cat_sectors idx' sectors
  end.

Definition sys_cat (filename : list Z) : fsm unit :=
  ino ← dir_is_exists filename;
  if NO_INODE =? ino then printf_ln "File is not exists." []
  else
    x ← ino2inode ino;
    ok ← check_inode_permission x access_mode.READ;
    if negb ok then denied filename
    else
      malloc sector_size ;;
      cat_sectors (seqZ 0 (div_round_up x.(i_size) sector_size)) x.(i_sectors) ;;
      printf_ln "" [] ;;
      free.

(** The new sectors of the destination. *)
Fixpoint copy_sectors (idx : list Z) (src dst : list Z) : fsm (list Z) :=
  match idx with
  | [] => mret dst
  | i :: idx' =>
      lba ← lift (src.[i]);
      if 0 =? lba then copy_sectors idx' src dst
      else
        block_no ← allocate_block;
        sb ← gets sb;
        let lba' := u32 (sb.(data_start) + block_no) in
        dst' ← lift (dst.[i <- lba']);
        buf ← read_disk lba 1;
        write_disk lba' buf 1 ;;
        copy_sectors idx' src dst'
  end.

(** Neither function looks whether the files exist. *)
Definition copy_file (src dst : list Z) : fsm unit :=
  sys_mkfile dst ;;
  src_ino ← dir_is_exists src;
  dst_ino ← dir_is_exists dst;
  src_inode ← ino2inode src_ino;
  dst_inode ← ino2inode dst_ino;
  malloc sector_size ;;
  ok ← check_inode_permission src_inode access_mode.READ;
  if negb ok then denied src
  else
    sectors ← copy_sectors (seqZ 0 9) src_inode.(i_sectors) dst_inode.(i_sectors);
    sync_inode (set_size (set_sectors dst_inode sectors) src_inode.(i_size)) ;;
    sync_block_bitmap.

Definition move_file (src dst : list Z) : fsm unit :=
  sys_mkfile dst ;;
  '(src_filename, src_parent) ← lift (split_path_2parts src (replicate 64 0));
  src_parent_ino ← dir_is_exists src_parent;
  src_ino ← dir_is_exists src;
  dst_ino ← dir_is_exists dst;
  src_parent_inode ← ino2inode src_parent_ino;
  src_inode ← ino2inode src_ino;
  dst_inode ← ino2inode dst_ino;
  ok ← check_inode_permission src_inode access_mode.WRITE;
  if negb ok then denied src
  else
    src_filename ← lift src_filename;
    remove_dir_entry src_parent_inode src_filename ;;
    free_inode src_ino ;;
    sync_inode (set_size (set_sectors dst_inode src_inode.(i_sectors)) src_inode.(i_size)) ;;
    sync_inode_bitmap.
