(* ===== verification/FileSystem.v ===== *)
(** * The file system process (fs/fs.cc, fs/main.cc, fs/exec.cc)

    Formatting and mounting a partition, and the loop that answers requests.  A
    pointer in a request is an address in the memory of the caller, which ends at
    [top]. *)
From Stdlib Require Import String.
From S2P Require Import Prelude Mem Bitmap CString FsState Inode Dir File.
From S2P Require Process Syscalls.
#[local] Open Scope string_scope.
#[global] Open Scope list_scope.
#[global] Open Scope Z_scope.

(** [enum partition_type]. *)
Definition PRIMARY : Z := 0.
Definition EXTEND : Z := 1.
Definition LOGIC : Z := 2.

Record partition := mk_partition {
  p_name : list Z;                      (* 16 bytes *)
  sector_cnt : Z;
  p_start_lba : Z;
  p_type : Z;
}.

(** [struct disk] of the disk driver, which the process reads in place. *)
Record disk_info := mk_disk { primary : list partition; logic : list partition }.

Definition max_file_nr : Z := 1024.
Definition min_file_nr : Z := 64.

(** The super block [partition_install_fs] writes. *)
Definition layout (part : partition) : super_block_data :=
  let sufficient := 10000 <? part.(sector_cnt) in
  let i_bmap_sectors := if sufficient then div_round_up max_file_nr (8 * sector_size)
                        else div_round_up min_file_nr sector_size in
  let i_tbl_sectors := if sufficient then div_round_up (sizeof_inode * max_file_nr) sector_size
                       else div_round_up (sizeof_inode * min_file_nr) sector_size in
  let free_sectors := u32 (part.(sector_cnt) - i_bmap_sectors - i_tbl_sectors - 2) in
  let block_bmap_sectors := div_round_up free_sectors (8 * sector_size) in
  let block_bitmap_lba := u32 (part.(p_start_lba) + 2) in
  let block_bitmap_sectors := div_round_up (u32 (free_sectors - block_bmap_sectors)) (8 * sector_size) in
  let inode_bitmap_lba := u32 (block_bitmap_lba + block_bitmap_sectors) in
  let inode_table_lba := u32 (inode_bitmap_lba + i_bmap_sectors) in
  mk_sb (text "Shmily" ++ [0]) (Z.b2z sufficient) part.(sector_cnt) 0 part.(p_start_lba)
    block_bitmap_lba block_bitmap_sectors inode_bitmap_lba i_bmap_sectors inode_table_lba i_tbl_sectors
    (u32 (inode_table_lba + i_tbl_sectors)) 0 sizeof_dir_entry.

Definition root_inode (x : super_block_data) : inode :=
  mk_inode 0 (sizeof_dir_entry * 2) 0 0 0 0 inode_mode.DEFAULT_PRIVILEGE
    (x.(data_start) :: replicate 8 0).

(** The first byte of a bitmap: number 0 is taken. *)
Definition set_first (buf : list Z) : option (list Z) := b ← buf.[0]; buf.[0 <- u8 (Z.lor b 1)].

Definition partition_install_fs (part : partition) : fsm unit :=
  malloc sector_size ;;
  let sb := layout part in
  write_disk (u32 (part.(p_start_lba) + 1)) (enc_sb sb ++ replicate 456 0) 1 ;;
  let buf_size := u32 ((if sb.(inode_table_sectors) <? sb.(block_bitmap_sectors)
                        then sb.(block_bitmap_sectors) else sb.(inode_table_sectors)) * sector_size) in
  buf ← malloc buf_size;
  buf ← lift (set_first buf);
  write_disk sb.(block_bitmap_lba) buf sb.(block_bitmap_sectors) ;;
  let zeros := replicate (Z.to_nat buf_size) 0 in
  buf ← lift (set_first zeros);
  write_disk sb.(inode_bitmap_lba) buf sb.(inode_bitmap_sectors) ;;
  buf ← lift (put zeros 0 (enc_inode (root_inode sb)));
  write_disk sb.(inode_table_lba) buf sb.(inode_table_sectors) ;;
  buf ← lift (put zeros 0 (text "."));
  buf ← lift (put buf 64 (le 4 0));
  buf ← lift (put buf 72 (text ".."));
  buf ← lift (put buf 136 (le 4 0));
  write_disk sb.(data_start) buf 3 ;;
  free ;;
  free.

(** The last partition of that name. *)
Fixpoint find_partition (parts : list partition) (part_name : list Z) (cur_part : option partition)
  : option (option partition) :=
  match parts with
  | [] => Some cur_part
  | part :: parts' =>
      same ← strcmp part_name part.(p_name);
      find_partition parts' part_name (if (same : bool) then Some part else cur_part)
  end.

Definition mount_partition (d : disk_info) (part_name : list Z) : fsm unit :=
  cur_part ← lift (find_partition (d.(primary) ++ d.(logic)) part_name None);
  malloc sector_size ;;
  malloc 56 ;;
  cur_part ← lift cur_part;
  sector ← read_disk (u32 (cur_part.(p_start_lba) + 1)) 1;
  free ;;
  let sb := dec_sb sector in
  modify (set_sb sb) ;;
  malloc (u32 (sb.(block_bitmap_sectors) * sector_size)) ;;
  bytes ← read_disk sb.(block_bitmap_lba) sb.(block_bitmap_sectors);
  modify (set_block_bmap (mk_bitmap (u32 (sb.(block_bitmap_sectors) * sector_size)) bytes)) ;;
  malloc (u32 (sb.(inode_bitmap_sectors) * sector_size)) ;;
  bytes ← read_disk sb.(inode_bitmap_lba) sb.(inode_bitmap_sectors);
  modify (set_inode_bmap (mk_bitmap (u32 (sb.(inode_bitmap_sectors) * sector_size)) bytes)) ;;
  cur_dir ← lift (strcpy (replicate 64 0) 0 (text "/" ++ [0]));
  modify (set_cur_dir cur_dir).

(** Whether a partition is formatted is decided by comparing its magic number
    with [magic]. *)
Fixpoint install_partitions (parts : list partition) (magic : list Z) (skip_extend : bool) : fsm unit :=
  match parts with
  | [] => skip
  | part :: parts' =>
      (if (0 =? part.(sector_cnt)) || (skip_extend && (EXTEND =? part.(p_type))) then skip
       else
         sector ← read_disk (u32 (part.(p_start_lba) + 1)) 1;
         same ← lift (strcmp sector magic);
         if negb same then partition_install_fs part else skip) ;;
      install_partitions parts' magic skip_extend
  end.

Definition init_fs (d : disk_info) : fsm unit :=
  malloc sector_size ;;
  install_partitions d.(primary) (text "hmily" ++ [0]) true ;;
  install_partitions (take 4 d.(logic)) (text "Shmily" ++ [0]) false ;;
  free ;;
  mount_partition d (text "sda0" ++ [0]) ;;
  modify (set_fdt (replicate 64 None)) ;;
  modify (set_cur_uid 0).

(** ** Requests *)

Module fs_type.
Export Syscalls.fs.
Definition CUR_USER : Z := 12.
Definition CMD_PWD : Z := 256.
Definition CMD_CD : Z := 257.
Definition CMD_LS : Z := 258.
Definition CMD_CAT : Z := 259.
Definition CMD_CPFILE : Z := 260.
Definition CMD_MVFILE : Z := 261.
Definition CMD_CHMOD : Z := 262.
Definition CMD_CHOWN : Z := 263.
End fs_type.

(** What the sender is answered: nothing, the message as it is, or a message
    with the value in its first word. *)
Inductive answer :=
| no_reply
| reply
| reply_with (con_1 : Z).

Section requests.
(** The end of the memory of the caller, and the address of [cur_dir]. *)
Variables top cur_dir_addr : Z.

Definition bytes_at (m : mem) (p : Z) : list Z := map (load8 m) (seqZ p (top - p)).

Fixpoint store_bytes (m : mem) (p : Z) (bs : list Z) : mem :=
  match bs with [] => m | b :: bs' => store_bytes (store8 m p b) (p + 1) bs' end.

Import fs_type.

(** One turn of [main]. *)
Definition fs_turn (m : mem) (type : Z) (con : Process.context) : fsm (mem * answer) :=
  let c1 := con.(Process.con_1) in
  let c2 := con.(Process.con_2) in
  let c3 := con.(Process.con_3) in
  let c4 := con.(Process.con_4) in
  if type =? MKDIR then sys_mkdir (bytes_at m c1) ;; mret (m, reply)
  else if type =? RMDIR then sys_rmdir (bytes_at m c1) ;; mret (m, reply)
  else if type =? MKFILE then sys_mkfile (bytes_at m c1) ;; mret (m, reply)
  else if type =? RMFILE then sys_rmfile (bytes_at m c1) ;; mret (m, reply)
  else if type =? OPEN_FILE then fd ← open_file (bytes_at m c1); mret (m, reply_with (u32 fd))
  else if type =? CLOSE_FILE then close_file c1 ;; mret (m, reply)
  else if type =? WRITE_FILE then write_file c1 (bytes_at m c2) c3 (u8 c4) ;; mret (m, reply)
  else if type =? READ_FILE then
    '(len, buf) ← read_file c1 (bytes_at m c2) c3; mret (store_bytes m c2 buf, reply_with len)
  else if type =? LSEEK_FILE then lseek_file c1 c2 ;; mret (m, reply)
  else if type =? IS_EOF then res ← is_eof c1; mret (m, reply_with (Z.b2z res))
  else if type =? GET_CUR_DIR then mret (m, reply_with cur_dir_addr)
  else if type =? CMD_PWD then pwd ;; mret (m, reply)
  else if type =? CMD_CD then res ← cd (bytes_at m c1); mret (m, reply_with (Z.b2z res))
  else if type =? CMD_LS then
    ls (if c1 =? NULL then None else Some (bytes_at m c1)) ;; mret (m, reply)
  else if type =? CMD_CAT then sys_cat (bytes_at m c1) ;; mret (m, reply)
  else if type =? CMD_CPFILE then copy_file (bytes_at m c1) (bytes_at m c2) ;; mret (m, reply)
  else if type =? CMD_MVFILE then move_file (bytes_at m c1) (bytes_at m c2) ;; mret (m, reply)
  else if type =? CMD_CHMOD then sys_chmod (bytes_at m c1) c2 ;; mret (m, reply)
  else if type =? CMD_CHOWN then sys_chown (bytes_at m c1) c2 ;; mret (m, reply)
  else if type =? CUR_USER then modify (set_cur_uid c1) ;; mret (m, no_reply)
  else printf_ln "fs received unknown message type." [] ;; mret (m, no_reply).
End requests.

(** [exec_file] starts the code at a fixed address. *)
Definition exec_file {St} `{Syscalls.Ipc St} (u : Process.context) (file : list Z) : St -> option St :=
  Syscalls.sys_create_process u 0x50000.
