(* ===== verification/FsTypes.v ===== *)
(** * The file system keeps its types

    Whatever a request does, sectors keep 512 bytes, and bytes, words, inodes,
    entries and tables keep their types ([fs_typed]).  [keeps m P] says so of a
    computation, with what is known of its result; there is a rule per construct
    and a lemma per function of Inode.v, Dir.v, File.v and FileSystem.v. *)
From S2P Require Import Prelude Mem Bitmap CString FsState Inode Dir File FileSystem.
From S2P Require Process Syscalls.

Definition keeps {A} (m : fsm A) (P : A -> Prop) : Prop :=
  forall s a s', fs_typed s -> m s = Some (a, s') -> fs_typed s' /\ P a.

Definition any {A} (a : A) : Prop := True.

(** ** Rules *)

Lemma keeps_ret {A} (a : A) (P : A -> Prop) : P a -> keeps (mret a) P.
Proof. intros H s b s' Hs [= <- <-]. auto. Qed.

Lemma keeps_bind {A B} (m : fsm A) (k : A -> fsm B) (P : A -> Prop) (Q : B -> Prop) :
  keeps m P -> (forall a, P a -> keeps (k a) Q) -> keeps (m ≫= k) Q.
Proof.
  intros Hm Hk s b s' Hs H. unfold mbind, fsm_bind in H. destruct (m s) as [[a s1]|] eqn:E; [|done].
  destruct (Hm _ _ _ Hs E). eapply Hk; eauto.
Qed.

Lemma keeps_weaken {A} (m : fsm A) (P Q : A -> Prop) : keeps m P -> (forall a, P a -> Q a) -> keeps m Q.
Proof. intros H HPQ s a s' Hs E. destruct (H _ _ _ Hs E). auto. Qed.

Lemma keeps_any {A} (m : fsm A) (P : A -> Prop) : keeps m P -> keeps m any.
Proof. intros H. eapply keeps_weaken; [exact H|]. done. Qed.

Lemma keeps_lift {A} (o : option A) : keeps (lift o) (fun a => o = Some a).
Proof. intros s a s' Hs H. unfold lift in H. destruct o; [|done]. injection H as <- <-. auto. Qed.

Lemma keeps_gets {A} (f : fs -> A) : keeps (gets f) (fun a => exists s, fs_typed s /\ a = f s).
Proof. intros s a s' Hs [= <- <-]. eauto. Qed.

Lemma keeps_modify f : (forall s, fs_typed s -> fs_typed (f s)) -> keeps (modify f) any.
Proof. intros H s a s' Hs [= <- <-]. split; [auto|done]. Qed.

Lemma keeps_skip : keeps skip any.
Proof. apply keeps_ret. done. Qed.

(** Splits a computation along its binds and cases; facts about the results of
    steps are left in the context. *)
Ltac keep1 :=
  match goal with
  | |- keeps (mbind _ _) _ => eapply keeps_bind
  | |- forall _, _ -> keeps _ _ => let a := fresh "a" in let H := fresh "H" in intros a H; cbv beta in H
  | |- keeps (mret _) _ => apply keeps_ret
  | |- keeps skip _ => apply keeps_ret
  | |- keeps (lift _) _ => apply keeps_lift
  | |- keeps (gets _) _ => apply keeps_gets
  | |- keeps (let '(_, _) := ?x in _) _ => destruct x eqn:?
  | |- keeps (if ?b then _ else _) _ => destruct b eqn:?
  | |- keeps (match ?o with Some _ => _ | None => _ end) _ => destruct o eqn:?
  | H : exists s, fs_typed s /\ _ = _ |- _ => destruct H as (? & ? & ->)
  | |- any _ => done
  end.

(** Steps whose result is not used may have any postcondition. *)
Lemma keeps_seq {A B} (m : fsm A) (k : fsm B) (Q : B -> Prop) :
  keeps m any -> keeps k Q -> keeps (m ≫= fun _ => k) Q.
Proof. intros H1 H2. eapply keeps_bind; [exact H1|]. auto. Qed.

Create HintDb keeps discriminated.
#[export] Hint Constants Opaque : keeps.
Ltac keep_go :=
  repeat first
    [ progress cbv beta zeta
    | match goal with
      | |- keeps (mbind (fun _ => ?k) _) _ => apply keeps_seq
      | |- keeps (if _ then _ else _) _ => keep1
      | |- keeps (mbind _ _) _ => keep1
      end
    | solve [eauto with keeps]
    | solve [eapply keeps_any; eauto with keeps]
    | keep1 ].

(** ** State changes *)

Lemma typed_set_disk s d :
  fs_typed s -> map_Forall (fun _ b => sector_ok b) d -> fs_typed (set_disk d s).
Proof. intros [] H. constructor; auto. Qed.

Lemma typed_block_bmap s b : fs_typed s -> Forall is_u8 b.(base) -> fs_typed (set_block_bmap b s).
Proof. intros [] H. constructor; auto. Qed.
Lemma typed_inode_bmap s b : fs_typed s -> Forall is_u8 b.(base) -> fs_typed (set_inode_bmap b s).
Proof. intros [] H. constructor; auto. Qed.
Lemma typed_sb s x : fs_typed s -> sb_ok x -> fs_typed (set_sb x s).
Proof. intros [] H. constructor; auto. Qed.
Lemma typed_cur_dir s c : fs_typed s -> length c = 64%nat -> Forall is_u8 c -> fs_typed (set_cur_dir c s).
Proof. intros [] H1 H2. constructor; auto. Qed.
Lemma typed_cur_uid s u : fs_typed s -> is_u32 u -> fs_typed (set_cur_uid u s).
Proof. intros [] H. constructor; auto. Qed.
Lemma typed_malloc s : fs_typed s -> fs_typed (count_malloc s).
Proof. intros []. constructor; auto. Qed.
Lemma typed_free s : fs_typed s -> fs_typed (count_free s).
Proof. intros []. constructor; auto. Qed.
Lemma typed_console s l : fs_typed s -> fs_typed (set_console l s).
Proof. intros []. constructor; auto. Qed.

(** ** Bytes *)

Lemma u8_is_u8 z : is_u8 (u8 z). Proof. apply u8_range. Qed.
Lemma u32_is_u32 z : is_u32 (u32 z). Proof. apply u32_range. Qed.
Lemma u16_is_u16 z : is_u16 (u16 z). Proof. apply u16_range. Qed.
#[export] Hint Resolve u8_is_u8 u32_is_u32 u16_is_u16 le_bytes : keeps.

Lemma Forall_zset {A} (P : A -> Prop) l i x l' :
  l.[i <- x] = Some l' -> Forall P l -> P x -> Forall P l'.
Proof.
  intros [_ ->]%zset_Some Hl Hx. apply Forall_insert; done.
Qed.

Lemma zset_length {A} (l : list A) i x l' : l.[i <- x] = Some l' -> length l' = length l.
Proof. intros [_ ->]%zset_Some. apply length_insert. Qed.

Lemma Forall_replicate_zero n : Forall is_u8 (replicate n 0).
Proof. apply Forall_replicate. unfold is_u8. lia. Qed.
#[export] Hint Resolve Forall_replicate_zero : keeps.

Lemma bitmap_set_bit_bytes b i v b' :
  bitmap_set_bit b i v = Some b' -> Forall is_u8 b.(base) -> Forall is_u8 b'.(base).
Proof.
  unfold bitmap_set_bit. intros H Hb. bind_Some H. bind_Some H. injection H as <-. cbn.
  destruct (truth v); eapply Forall_zset; eauto with keeps.
Qed.

Lemma strcpy_bytes dst d src dst' :
  strcpy dst d src = Some dst' -> Forall is_u8 dst -> Forall is_u8 src ->
  Forall is_u8 dst' /\ length dst' = length dst.
Proof.
  revert dst d. induction src as [|c src IH]; intros dst d H H1 H2; [done|].
  inversion H2; subst. cbn in H. destruct (truth c); [|by injection H as <-].
  bind_Some H. destruct (IH _ _ H) as [? Hl]; [eapply Forall_zset; eauto|done|].
  split; [done|]. rewrite Hl. eapply zset_length; eauto.
Qed.

(** ** Requests to other processes *)

Lemma read_disk_keeps lba cnt : keeps (read_disk lba cnt) (fun b => Forall is_u8 b).
Proof.
  intros s b s' Hs H. unfold read_disk in H. destruct (can_transfer cnt); [|done].
  injection H as <- <-. split; [done|]. apply Forall_concat, Forall_map, Forall_forall.
  intros k _. apply sector_typed, Hs.
Qed.

Lemma read_one_keeps lba : keeps (read_disk lba 1) sector_ok.
Proof.
  intros s b s' Hs H. rewrite read_disk_one in H. injection H as <- <-.
  split; [done|]. apply sector_typed, Hs.
Qed.

Lemma write_sectors_typed n d lba buf d' :
  write_sectors n d lba buf = Some d' -> map_Forall (fun _ b => sector_ok b) d -> Forall is_u8 buf ->
  map_Forall (fun _ b => sector_ok b) d'.
Proof.
  revert d lba buf. induction n as [|n IH]; intros d lba buf H Hd Hb; cbn [write_sectors] in H.
  - injection H as <-. done.
  - destruct (zlen buf <? sector_size) eqn:E; [done|]. zbool. eapply IH; [exact H| |apply Forall_drop, Hb].
    apply map_Forall_insert_2; [|done]. split; [|apply Forall_take, Hb].
    rewrite length_take. unfold zlen, sector_size in E. lia.
Qed.

Lemma write_disk_keeps lba buf cnt : Forall is_u8 buf -> keeps (write_disk lba buf cnt) any.
Proof.
  intros Hb s a s' Hs H. unfold write_disk in H. destruct (can_transfer cnt); [|done].
  destruct (write_sectors _ _ _ _) eqn:E; [|done].
  injection H as <- <-. split; [|done]. apply typed_set_disk; [done|].
  eapply write_sectors_typed; eauto. apply (t_disk _ Hs).
Qed.

Lemma malloc_keeps n : keeps (malloc n) (fun b => Forall is_u8 b).
Proof.
  intros s b s' Hs [= <- <-]. split; [by apply typed_malloc|].
  apply Forall_map, Forall_forall. intros i _. apply u8_is_u8.
Qed.

Lemma free_keeps : keeps free any.
Proof. apply keeps_modify. apply typed_free. Qed.

Lemma printf_keeps fmt args : keeps (printf fmt args) any.
Proof. unfold printf. keep_go; [|easy]. apply keeps_modify. intros s. apply typed_console. Qed.

Lemma printf_ln_keeps fmt args : keeps (printf_ln fmt args) any.
Proof. apply printf_keeps. Qed.
#[export] Hint Resolve read_one_keeps malloc_keeps free_keeps printf_keeps printf_ln_keeps
  write_disk_keeps keeps_skip : keeps.

Lemma sector_ok_bytes b : sector_ok b -> Forall is_u8 b.
Proof. intros []. done. Qed.
#[export] Hint Resolve sector_ok_bytes put_bytes : keeps.

(** ** Inode.v *)

Lemma zeros_u32 n : Forall is_u32 (replicate n 0).
Proof. apply Forall_replicate. unfold is_u32. lia. Qed.

Lemma sectors_set x i v l :
  inode_ok x -> is_u32 v -> x.(i_sectors).[i <- v] = Some l -> inode_ok (set_sectors x l).
Proof.
  intros [] Hv H. constructor; auto; cbn.
  - rewrite (zset_length _ _ _ _ H). done.
  - eapply Forall_zset; eauto.
Qed.

Lemma allocate_inode_no_keeps : keeps allocate_inode_no is_u32.
Proof.
  unfold allocate_inode_no. keep_go; auto with keeps; [|easy].
  apply keeps_modify. intros s Hs. apply typed_inode_bmap; [done|].
  eapply bitmap_set_bit_bytes; [eassumption|]. by apply t_inode_bmap.
Qed.

Lemma allocate_block_keeps : keeps allocate_block is_u32.
Proof.
  unfold allocate_block. keep_go; auto with keeps; [|easy].
  apply keeps_modify. intros s Hs. apply typed_block_bmap; [done|].
  eapply bitmap_set_bit_bytes; [eassumption|]. by apply t_block_bmap.
Qed.

Lemma free_inode_keeps ino : keeps (free_inode ino) any.
Proof.
  unfold free_inode. keep_go.
  apply keeps_modify. intros s Hs. apply typed_inode_bmap; [done|].
  eapply bitmap_set_bit_bytes; [eassumption|]. by apply t_inode_bmap.
Qed.

Lemma free_block_keeps b : keeps (free_block b) any.
Proof.
  unfold free_block. keep_go.
  apply keeps_modify. intros s Hs. apply typed_block_bmap; [done|].
  eapply bitmap_set_bit_bytes; [eassumption|]. by apply t_block_bmap.
Qed.
#[export] Hint Resolve allocate_inode_no_keeps allocate_block_keeps free_inode_keeps free_block_keeps : keeps.

Lemma create_inode_keeps : keeps create_inode inode_ok.
Proof.
  unfold create_inode. keep_go.
  constructor; cbn [inode_no i_size last_modify_time link_cnt i_uid i_gid i_mode i_sectors];
    try apply u16_is_u16; try done; try (unwrap; lia); try (by apply t_clock).
  apply zeros_u32.
Qed.

Lemma sync_inode_keeps x : keeps (sync_inode x) any.
Proof.
  unfold sync_inode. keep_go. eapply keeps_weaken; [apply write_disk_keeps|done].
  eauto using put_bytes, enc_inode_bytes, sector_ok_bytes.
Qed.

Lemma ino2inode_keeps ino : keeps (ino2inode ino) inode_ok.
Proof.
  unfold ino2inode. keep_go. by apply dec_inode_ok, Forall_drop, sector_ok_bytes.
Qed.

Lemma sync_block_bitmap_keeps : keeps sync_block_bitmap any.
Proof. unfold sync_block_bitmap. keep_go. apply write_disk_keeps, t_block_bmap. done. Qed.

Lemma sync_inode_bitmap_keeps : keeps sync_inode_bitmap any.
Proof. unfold sync_inode_bitmap. keep_go. apply write_disk_keeps, t_inode_bmap. done. Qed.

Lemma sync_block_keeps b buf : Forall is_u8 buf -> keeps (sync_block b buf) any.
Proof. intros H. unfold sync_block. keep_go. Qed.

Lemma read_block_keeps b : keeps (read_block b) sector_ok.
Proof. unfold read_block. keep_go. Qed.

Lemma check_keeps x op : keeps (check_inode_permission x op) any.
Proof. unfold check_inode_permission. keep_go. Qed.
#[export] Hint Resolve create_inode_keeps sync_inode_keeps ino2inode_keeps sync_block_bitmap_keeps
  sync_inode_bitmap_keeps sync_block_keeps read_block_keeps check_keeps : keeps.

(** ** Dir.v *)

Lemma entry_no_u32 b j : Forall is_u8 b -> is_u32 (entry_at b j).(d_inode_no).
Proof. intros H. apply (field_bound _ 64 4). apply Forall_drop, H. Qed.

Lemma find_in_sector_u32 js buf child r :
  Forall is_u8 buf -> find_in_sector js buf child = Some (Some r) -> is_u32 r.
Proof.
  intros Hb. induction js as [|j js IH]; cbn [find_in_sector]; intros H; [done|].
  bind_Some H. destruct (0 =? x); [auto|]. bind_Some H. destruct x0; [|auto].
  injection H as <-. apply entry_no_u32, Hb.
Qed.

Lemma find_in_sectors_keeps l child :
  keeps (find_in_sectors l child) (fun o => match o with Some r => is_u32 r | None => True end).
Proof.
  induction l as [|lba l IH]; cbn [find_in_sectors]; keep_go; try done.
  eapply find_in_sector_u32; [|eassumption]. eauto with keeps.
Qed.

#[export] Hint Resolve find_in_sectors_keeps : keeps.

Lemma find_dir_entry_keeps x child : keeps (find_dir_entry x child) is_u32.
Proof.
  unfold find_dir_entry. keep_go. case_match; [done|apply u32_is_u32].
Qed.
#[export] Hint Resolve find_dir_entry_keeps : keeps.

Lemma walk_keeps fuel next ino x : is_u32 ino -> keeps (walk fuel next ino x) is_u32.
Proof.
  revert next ino x. induction fuel as [|fuel IH]; intros next ino x Hi; cbn [walk]; destruct next;
    keep_go; try done; auto using u32_is_u32.
Qed.

Lemma root_u32 s : fs_typed s -> is_u32 s.(sb).(root_inode_no).
Proof. intros H. eapply Forall_lookup_1 with (i := 10%nat); [apply (ok_words _ (t_sb _ H))|done]. Qed.

Lemma no_inode_u32 : is_u32 NO_INODE. Proof. apply u32_is_u32. Qed.
#[export] Hint Resolve no_inode_u32 : keeps.

Lemma dir_is_exists_keeps path : keeps (dir_is_exists path) is_u32.
Proof.
  unfold dir_is_exists. keep_go; auto with keeps; try (unwrap; lia). by apply walk_keeps, root_u32.
Qed.
#[export] Hint Resolve dir_is_exists_keeps : keeps.

Lemma scan_sectors_keeps l child slot : keeps (scan_sectors l child slot) any.
Proof. revert slot. induction l as [|lba l IH]; intros slot; cbn [scan_sectors]; keep_go. Qed.
#[export] Hint Resolve scan_sectors_keeps : keeps.

Lemma add_sector_keeps idx x child :
  inode_ok x -> Forall is_u8 child.(d_name) -> keeps (add_sector idx x child) any.
Proof.
  intros Hx Hc. induction idx as [|i idx IH]; cbn [add_sector]; keep_go.
  apply sync_block_keeps. eauto using put_bytes, enc_entry_bytes, sector_ok_bytes.
Qed.

Lemma create_dir_entry_keeps x child :
  inode_ok x -> Forall is_u8 child.(d_name) -> keeps (create_dir_entry x child) any.
Proof.
  intros Hx Hc. unfold create_dir_entry. keep_go; [|auto using add_sector_keeps].
  apply write_disk_keeps. eauto using put_bytes, enc_entry_bytes, sector_ok_bytes.
Qed.

Lemma alive_keeps freed : keeps (alive freed) any.
Proof. destruct freed; [by intros s a s' _ H|apply keeps_skip]. Qed.

#[export] Hint Resolve alive_keeps : keeps.

Lemma remove_in_sector_keeps js lba buf path_del found n freed :
  Forall is_u8 buf -> keeps (remove_in_sector js lba buf path_del found n freed) any.
Proof.
  revert buf found n freed. induction js as [|j js IH]; intros buf found n freed Hb; cbn [remove_in_sector]; keep_go.
  - apply write_disk_keeps. eapply Forall_zset; eauto. unwrap. lia.
  - apply IH. eapply Forall_zset; eauto. unwrap. lia.
Qed.

#[export] Hint Resolve remove_in_sector_keeps : keeps.

Lemma remove_in_sectors_keeps idx x path_del found freed : keeps (remove_in_sectors idx x path_del found freed) any.
Proof.
  revert found freed. induction idx as [|i idx IH]; intros found freed; cbn [remove_in_sectors]; keep_go.
Qed.

Lemma remove_dir_entry_keeps x path_del : keeps (remove_dir_entry x path_del) any.
Proof. unfold remove_dir_entry. keep_go. apply remove_in_sectors_keeps. Qed.

Lemma text_bytes s : Forall is_u8 (text s).
Proof.
  unfold text. apply Forall_map, Forall_forall. intros c _. pose proof (Ascii.N_ascii_bounded c).
  unwrap. lia.
Qed.

Lemma init_child_dir_keeps p c : keeps (init_child_dir p c) any.
Proof.
  unfold init_child_dir. keep_go.
  - apply write_disk_keeps. eauto 6 using put_bytes, text_bytes, le_bytes.
Qed.

#[export] Hint Resolve text_bytes remove_in_sectors_keeps remove_dir_entry_keeps init_child_dir_keeps
  create_dir_entry_keeps : keeps.

Lemma copy_parent_rest i l path parent d parent' d' rest :
  copy_parent i l path parent d = Some (parent', d', rest) -> Forall is_u8 path -> Forall is_u8 rest.
Proof.
  revert i parent d. induction path as [|c path IH]; intros i parent d; cbn [copy_parent];
    (case_if; [|by intros [= <- <- <-]]); [done|].
  intros H Hp. inversion Hp; subst. bind_Some H. eauto.
Qed.

Lemma split_2parts_rest path parent rest parent' :
  split_path_2parts path parent = Some (Some rest, parent') -> Forall is_u8 path -> Forall is_u8 rest.
Proof.
  unfold split_path_2parts. intros H Hp. bind_Some H. case_match; [done|].
  bind_Some H. bind_Some H. destruct x1 as [[p d] r]. bind_Some H.
  assert (Forall is_u8 r) by (eapply copy_parent_rest; eauto).
  destruct (negb (0 =? x1)); [bind_Some H; bind_Some H|]; injection H as <- <-; done.
Qed.

Lemma make_entry_bytes name path parent parent' ty ino e :
  make_entry name ty ino = Some e -> split_path_2parts path parent = Some (name, parent') ->
  Forall is_u8 path -> Forall is_u8 e.(d_name).
Proof.
  unfold make_entry. intros H Hs Hp. destruct name as [name|]; [|done]. cbn [mbind option_bind] in H.
  destruct (strcpy _ _ _) eqn:E; [|done]. injection H as <-. cbn [d_name].
  apply (strcpy_bytes _ _ _ _ E); [apply Forall_replicate_zero|]. eapply split_2parts_rest; eauto.
Qed.

Lemma denied_keeps path : keeps (denied path) any.
Proof. unfold denied. apply printf_ln_keeps. Qed.
#[export] Hint Resolve denied_keeps : keeps.

Lemma sys_mkdir_keeps path : Forall is_u8 path -> keeps (sys_mkdir path) any.
Proof.
  intros Hp. unfold sys_mkdir. keep_go. subst.
  apply create_dir_entry_keeps; [done|]. eapply make_entry_bytes; eauto.
Qed.

Lemma dir_is_empty_keeps path : keeps (dir_is_empty path) any.
Proof. unfold dir_is_empty. keep_go. Qed.
#[export] Hint Resolve dir_is_empty_keeps : keeps.

Lemma sys_rmdir_keeps path : keeps (sys_rmdir path) any.
Proof. unfold sys_rmdir. keep_go. Qed.

Lemma pwd_keeps : keeps pwd any.
Proof. unfold pwd. keep_go. Qed.

Lemma cd_keeps path : Forall is_u8 path -> keeps (cd path) any.
Proof.
  intros Hp. unfold cd. keep_go. apply keeps_modify. intros s Hs.
  edestruct strcpy_bytes as [Hb Hl]; [eassumption|auto with keeps|done|].
  apply typed_cur_dir; [done| |done]. rewrite Hl. apply length_replicate.
Qed.

Lemma ls_sector_keeps js buf : keeps (ls_sector js buf) any.
Proof. induction js as [|j js IH]; cbn [ls_sector]; keep_go. Qed.
#[export] Hint Resolve ls_sector_keeps : keeps.

Lemma ls_sectors_keeps l : keeps (ls_sectors l) any.
Proof. induction l as [|lba l IH]; cbn [ls_sectors]; keep_go. Qed.
#[export] Hint Resolve ls_sectors_keeps : keeps.

Lemma ls_keeps path : keeps (ls path) any.
Proof. unfold ls. keep_go. Qed.

Lemma sys_chmod_keeps path mode : keeps (sys_chmod path mode) any.
Proof. unfold sys_chmod. keep_go. Qed.

Lemma sys_chown_keeps path u : keeps (sys_chown path u) any.
Proof. unfold sys_chown. keep_go. Qed.

(** ** File.v *)

Lemma sys_mkfile_keeps path : Forall is_u8 path -> keeps (sys_mkfile path) any.
Proof.
  intros Hp. unfold sys_mkfile. keep_go. subst.
  apply create_dir_entry_keeps; [done|]. eapply make_entry_bytes; eauto.
Qed.

Lemma free_blocks_keeps l : keeps (free_blocks l) any.
Proof. induction l as [|lba l IH]; cbn [free_blocks]; keep_go. Qed.
#[export] Hint Resolve free_blocks_keeps : keeps.

Lemma free_inode_sectors_keeps x : keeps (free_inode_sectors x) any.
Proof. unfold free_inode_sectors. keep_go. Qed.
#[export] Hint Resolve free_inode_sectors_keeps sys_mkfile_keeps : keeps.

Lemma sys_rmfile_keeps path : keeps (sys_rmfile path) any.
Proof. unfold sys_rmfile. keep_go. Qed.

(** Nine words. *)
Definition nine (l : list Z) : Prop := length l = 9%nat /\ Forall is_u32 l.

Lemma nine_set l i v l' : nine l -> l.[i <- v] = Some l' -> is_u32 v -> nine l'.
Proof.
  intros [H1 H2] E Hv. split; [rewrite (zset_length _ _ _ _ E); done|eapply Forall_zset; eauto].
Qed.

Lemma allocate_sectors_keeps idx l : nine l -> keeps (allocate_sectors idx l) nine.
Proof.
  revert l. induction idx as [|i idx IH]; intros l Hl; cbn [allocate_sectors]; keep_go; try done.
  apply IH. eauto using nine_set with keeps.
Qed.

Lemma write_middle_keeps idx l str : Forall is_u8 str -> keeps (write_middle idx l str) any.
Proof.
  intros Hs. induction idx as [|i idx IH]; cbn [write_middle]; keep_go.
  apply write_disk_keeps, Forall_drop, Hs.
Qed.

Lemma free_surplus_keeps idx l b : nine l -> keeps (free_surplus idx l b) (fun r => nine r.1).
Proof.
  revert l b. induction idx as [|i idx IH]; intros l b Hl; cbn [free_surplus]; keep_go; try done.
  apply IH. eapply nine_set; eauto. unwrap. lia.
Qed.

Lemma copy_in_bytes buf off src cnt buf' :
  copy_in buf off src cnt = Some buf' -> Forall is_u8 buf -> Forall is_u8 src -> Forall is_u8 buf'.
Proof. unfold copy_in. case_match; [|done]. eauto using put_bytes, Forall_take. Qed.

Lemma set_file_keeps fd f : (forall x, f = Some x -> file_ok x) -> keeps (set_file fd f) any.
Proof.
  intros Hf. unfold set_file. keep_go. apply keeps_modify. intros s Hs.
  assert (length a0 = 64%nat /\ Forall (fun o => match o with Some f => file_ok f | None => True end) a0)
    as [? ?].
  { destruct (t_fdt _ H) as [H1 H2]. split; [rewrite (zset_length _ _ _ _ H0); done|].
    eapply Forall_zset; [exact H0|done|]. destruct f; auto. }
  destruct Hs. constructor; auto.
Qed.

Lemma nine_ok x l : inode_ok x -> nine l -> inode_ok (set_sectors x l).
Proof. intros [] [? ?]. constructor; auto. Qed.
Lemma size_ok x v : inode_ok x -> is_u32 v -> inode_ok (set_size x v).
Proof. intros [] ?. constructor; auto. Qed.
Lemma inode_nine x : inode_ok x -> nine x.(i_sectors).
Proof. intros []. split; done. Qed.

Lemma fd_ok s fd f : fs_typed s -> s.(file_desc_tbl).[fd] = Some (Some f) -> file_ok f.
Proof. intros Hs H. exact (Forall_zget _ _ _ _ H (proj2 (t_fdt _ Hs))). Qed.
#[export] Hint Resolve nine_ok size_ok inode_nine write_middle_keeps allocate_sectors_keeps
  free_surplus_keeps set_file_keeps Forall_drop : keeps.


(** The file a descriptor denotes is well typed. *)
Ltac fd_typed :=
  match goal with Hs : fs_typed ?s, H : (file_desc_tbl ?s).[_] = Some (Some ?f) |- _ =>
    let E1 := fresh "Hoff" in let E2 := fresh "Hino" in
    destruct (fd_ok _ _ _ Hs H) as [E1 E2] end.

Lemma write_file_keeps fd str count mode :
  Forall is_u8 str -> is_u32 count -> keeps (write_file fd str count mode) any.
Proof.
  intros Hs Hc. unfold write_file. keep_go; fd_typed.
  - auto with keeps.
  - apply write_disk_keeps. eauto using copy_in_bytes, sector_ok_bytes.
  - apply write_disk_keeps. eapply copy_in_bytes; eauto using Forall_replicate_zero, Forall_drop.
  - apply set_file_keeps. intros g [= <-]. split; [done|].
    apply size_ok; [by apply nine_ok|]. repeat case_match; try apply u32_is_u32; done.
Qed.

Lemma read_middle_keeps idx l buf b : Forall is_u8 buf -> keeps (read_middle idx l buf b) (Forall is_u8).
Proof.
  revert buf. induction idx as [|i idx IH]; intros buf Hb; cbn [read_middle]; keep_go.
Qed.
#[export] Hint Resolve read_middle_keeps : keeps.


Lemma read_file_keeps fd buf count :
  Forall is_u8 buf -> keeps (read_file fd buf count) (fun r => Forall is_u8 r.2).
Proof.
  intros Hb. unfold read_file. keep_go; fd_typed.
  - apply read_middle_keeps. eapply copy_in_bytes; eauto using Forall_drop, sector_ok_bytes.
  - eapply keeps_weaken; [apply keeps_lift|]. cbv beta. intros b E.
    eapply copy_in_bytes; eauto using sector_ok_bytes.
  - apply set_file_keeps. intros g [= <-]. split; [apply u32_is_u32|done].
Qed.

Lemma lseek_file_keeps fd off : is_u32 off -> keeps (lseek_file fd off) any.
Proof.
  intros Ho. unfold lseek_file. keep_go. subst. fd_typed.
  apply set_file_keeps. intros g [= <-]. split; [|done]. cbn. case_match; [apply Hino|done].
Qed.

Lemma is_eof_keeps fd : keeps (is_eof fd) any.
Proof. unfold is_eof. keep_go. Qed.

Lemma close_file_keeps fd : keeps (close_file fd) any.
Proof. unfold close_file, free_fdt_slot. keep_go. apply set_file_keeps. done. Qed.

Lemma open_file_keeps path : keeps (open_file path) any.
Proof.
  unfold open_file, get_fdt_free_slot. keep_go; try done.
  apply set_file_keeps. intros g [= <-]. split; [cbn; unwrap; lia|done].
Qed.

Lemma cat_sectors_keeps idx l : keeps (cat_sectors idx l) any.
Proof. induction idx as [|i idx IH]; cbn [cat_sectors]; keep_go. Qed.
#[export] Hint Resolve cat_sectors_keeps : keeps.

Lemma sys_cat_keeps path : keeps (sys_cat path) any.
Proof. unfold sys_cat. keep_go. Qed.

Lemma copy_sectors_keeps idx src dst : nine dst -> keeps (copy_sectors idx src dst) nine.
Proof.
  revert dst. induction idx as [|i idx IH]; intros dst Hd; cbn [copy_sectors]; keep_go; try done.
  apply IH. eauto using nine_set with keeps.
Qed.
#[export] Hint Resolve copy_sectors_keeps : keeps.

Lemma copy_file_keeps src dst : Forall is_u8 dst -> keeps (copy_file src dst) any.
Proof. intros Hd. unfold copy_file. keep_go. Qed.

Lemma move_file_keeps src dst : Forall is_u8 dst -> keeps (move_file src dst) any.
Proof. intros Hd. unfold move_file. keep_go. Qed.

(** ** FileSystem.v *)

Lemma layout_ok part : is_u32 part.(sector_cnt) -> is_u32 part.(p_start_lba) -> sb_ok (layout part).
Proof.
  intros H1 H2. constructor.
  - split; [done|]. apply Forall_app. split; [apply text_bytes|]. repeat constructor. unwrap. lia.
  - cbn. destruct (10000 <? sector_cnt part); cbn; unwrap; lia.
  - unfold layout. cbn [sectors_nr inodes_nr start_lba block_bitmap_lba block_bitmap_sectors
      inode_bitmap_lba inode_bitmap_sectors inode_table_lba inode_table_sectors data_start root_inode_no
      dir_entry_size].
    assert (forall x y, 1 <= y -> is_u32 (div_round_up x y)) as Hd.
    { intros x y Hy. unfold div_round_up. pose proof (u32_range (x + y - 1)). split.
      - apply Z.div_pos; lia.
      - apply Z.div_lt_upper_bound; [lia|]. nia. }
    assert (is_u32 0) as H0 by (unwrap; lia). assert (is_u32 sizeof_dir_entry) as H72 by (unwrap; cbv; done).
    repeat apply Forall_cons_2; try apply Forall_nil; try apply u32_is_u32; try done;
      try (apply Hd; done); destruct (10000 <? sector_cnt part); apply Hd; done.
Qed.

Lemma set_first_bytes b b' : set_first b = Some b' -> Forall is_u8 b -> Forall is_u8 b'.
Proof. unfold set_first. intros H Hb. bind_Some H. eapply Forall_zset; eauto using u8_is_u8. Qed.

Lemma install_keeps part :
  is_u32 part.(sector_cnt) -> is_u32 part.(p_start_lba) -> keeps (partition_install_fs part) any.
Proof.
  intros H1 H2. pose proof (layout_ok part H1 H2) as Hl.
  unfold partition_install_fs. set (sb := layout part) in *. clearbody sb. keep_go.
  - apply write_disk_keeps. apply Forall_app. split; [|apply Forall_replicate_zero].
    apply enc_sb_bytes, (ok_magic _ Hl).
  - apply write_disk_keeps. eauto using set_first_bytes.
  - apply write_disk_keeps. eauto using set_first_bytes, Forall_replicate_zero.
  - apply write_disk_keeps. eauto using put_bytes, enc_inode_bytes, Forall_replicate_zero.
  - apply write_disk_keeps. eauto 8 using put_bytes, text_bytes, le_bytes, Forall_replicate_zero.
Qed.

Definition partition_ok (p : partition) : Prop := is_u32 p.(sector_cnt) /\ is_u32 p.(p_start_lba).

Lemma install_partitions_keeps parts magic b :
  Forall partition_ok parts -> keeps (install_partitions parts magic b) any.
Proof.
  induction 1 as [|part parts [H1 H2] Hp IH]; cbn [install_partitions]; keep_go.
  by apply install_keeps.
Qed.

Lemma mount_keeps d name : keeps (mount_partition d name) any.
Proof.
  unfold mount_partition. keep_go.
  - apply keeps_modify. intros s Hs. apply typed_sb; [done|]. destruct H1 as [Hl Hb].
    apply dec_sb_ok; [done|lia].
  - apply read_disk_keeps.
  - apply keeps_modify. intros s Hs. by apply typed_block_bmap.
  - apply read_disk_keeps.
  - apply keeps_modify. intros s Hs. by apply typed_inode_bmap.
  - apply keeps_modify. intros s Hs.
    edestruct strcpy_bytes as [Hb Hl]; [eassumption|apply Forall_replicate_zero| |].
    + apply Forall_app. split; [apply text_bytes|]. repeat constructor; unwrap; lia.
    + apply typed_cur_dir; [done| |done]. rewrite Hl. apply length_replicate.
Qed.

(** [init_fs] only needs the disk to be well typed; it makes the table of
    descriptors. *)
Lemma init_fs_keeps d :
  Forall partition_ok (d.(primary) ++ d.(logic)) -> keeps (init_fs d) any.
Proof.
  intros [H1 H2]%Forall_app. unfold init_fs. keep_go.
  - by apply install_partitions_keeps.
  - apply install_partitions_keeps, Forall_take. done.
  - apply mount_keeps.
  - apply keeps_modify. intros s []. constructor; auto. cbn [file_desc_tbl set_fdt]. split; [done|].
    apply Forall_replicate. done.
  - apply keeps_modify. intros s Hs. apply typed_cur_uid; [done|]. unwrap. lia.
Qed.

Lemma bytes_at_bytes top m p : map_Forall (fun _ b => is_u8 b) m -> Forall is_u8 (bytes_at top m p).
Proof.
  intros Hm. unfold bytes_at. apply Forall_map, Forall_forall. intros a _. unfold load8.
  destruct (m !! a) as [b|] eqn:E; cbn; [exact (Hm _ _ E)|]. unwrap. lia.
Qed.

Lemma store_bytes_typed bs m p :
  map_Forall (fun _ b => is_u8 b) m -> map_Forall (fun _ b => is_u8 b) (store_bytes m p bs).
Proof.
  revert m p. induction bs as [|b bs IH]; intros m p Hm; [done|]. cbn [store_bytes]. apply IH.
  apply map_Forall_insert_2; [apply u8_is_u8|done].
Qed.

(** The words of a message. *)
Definition context_ok (c : Process.context) : Prop :=
  is_u32 c.(Process.con_1) /\ is_u32 c.(Process.con_2) /\ is_u32 c.(Process.con_3) /\ is_u32 c.(Process.con_4).

#[export] Hint Resolve sys_mkdir_keeps sys_rmdir_keeps sys_rmfile_keeps open_file_keeps close_file_keeps
  write_file_keeps read_file_keeps lseek_file_keeps is_eof_keeps pwd_keeps cd_keeps ls_keeps sys_cat_keeps
  copy_file_keeps move_file_keeps sys_chmod_keeps sys_chown_keeps bytes_at_bytes store_bytes_typed : keeps.

Lemma fs_turn_keeps top cur_dir_addr m type con :
  map_Forall (fun _ b => is_u8 b) m -> context_ok con ->
  keeps (fs_turn top cur_dir_addr m type con) (fun r => map_Forall (fun _ b => is_u8 b) r.1).
Proof.
  intros Hm (H1 & H2 & H3 & H4). unfold fs_turn. keep_go; try done; [by apply store_bytes_typed|].
  apply keeps_modify. intros s Hs. by apply typed_cur_uid.
Qed.

(** ** The life of the process *)

Definition set_clock (t : Z) (s : fs) : fs :=
  mk_fs s.(disk) s.(sb) s.(block_bmap) s.(inode_bmap) s.(file_desc_tbl) s.(cur_dir) s.(uid) t
    s.(junk) s.(mallocs) s.(frees) s.(console).

(** Between two requests the memory of the callers and the time change. *)
Inductive fs_step (top cur_dir_addr : Z) : fs -> fs -> Prop :=
| step_turn m type con m' a s s' :
    map_Forall (fun _ b => is_u8 b) m -> context_ok con ->
    fs_turn top cur_dir_addr m type con s = Some ((m', a), s') -> fs_step top cur_dir_addr s s'
| step_time t s :
    0 <= t < 18446744073709551616 -> fs_step top cur_dir_addr s (set_clock t s).

(** The process when it starts: its variables are zero. *)
Definition fs_boot (d : gmap Z (list Z)) (t : Z) (junk : nat -> Z -> Z) : fs :=
  mk_fs d (dec_sb zero_sector) (mk_bitmap 0 []) (mk_bitmap 0 []) (replicate 64 None) (replicate 64 0)
    0 t junk 0 0 [].

Lemma fs_boot_typed d t junk :
  map_Forall (fun _ b => sector_ok b) d -> 0 <= t < 18446744073709551616 -> fs_typed (fs_boot d t junk).
Proof.
  intros Hd Ht. constructor; cbn [fs_boot disk sb block_bmap inode_bmap file_desc_tbl cur_dir uid clock base];
    try done.
  - apply dec_sb_ok; [apply Forall_replicate_zero|]. unfold zero_sector. rewrite length_replicate. lia.
  - split; [done|]. apply Forall_replicate. done.
  - split; [done|apply Forall_replicate_zero].
Qed.

Lemma fs_step_typed top cur_dir_addr s s' : fs_step top cur_dir_addr s s' -> fs_typed s -> fs_typed s'.
Proof.
  intros [m type con m' a s0 s1 Hm Hc H|t s0 Ht] Hs.
  - eapply fs_turn_keeps; eauto.
  - destruct Hs. constructor; auto.
Qed.

Lemma fs_life_typed_spec top cur_dir_addr d dk t junk s1 s2 :
  map_Forall (fun _ b => sector_ok b) dk -> 0 <= t < 18446744073709551616 ->
  Forall partition_ok (d.(primary) ++ d.(logic)) ->
  init_fs d (fs_boot dk t junk) = Some (tt, s1) -> star (fs_step top cur_dir_addr) s1 s2 -> fs_typed s2.
Proof.
  intros Hd Ht Hp H Hstar. eapply star_inv_preserved; [|exact Hstar|].
  - intros a b Ha Hab. eapply fs_step_typed; eauto.
  - eapply init_fs_keeps; eauto using fs_boot_typed.
Qed.

(** The file system keeps its types for ever: when it has started on a disk
    of well-formed sectors, then after any sequence of requests, with any
    arguments and any contents of the callers' memory, every sector has 512
    bytes, every inode, entry, bitmap and open file is well formed, and the table
    of descriptors has its 64 slots. *)
Theorem fs_life_typed top cur_dir_addr d dk t junk s1 s2 :
  map_Forall (fun _ b => sector_ok b) dk -> 0 <= t < 18446744073709551616 ->
  Forall partition_ok (d.(primary) ++ d.(logic)) ->
  init_fs d (fs_boot dk t junk) = Some (tt, s1) -> star (fs_step top cur_dir_addr) s1 s2 -> fs_typed s2.
Proof. apply fs_life_typed_spec. Qed.

(** The example partition as it is on disk, mounted, and a directory made. *)
Definition demo_dk : gmap Z (list Z) :=
  <[11 := fill 512 (enc_sb demo_sb)]> (<[12 := 7 :: replicate 511 0]> (<[13 := 7 :: replicate 511 0]> demo.(disk))).
Definition no_partition : partition := mk_partition (replicate 16 0) 0 0 0.
Definition demo_parts : disk_info :=
  mk_disk (replicate 4 no_partition)
    (mk_partition (fill 16 [115; 100; 97; 48]) 100 10 LOGIC :: replicate 3 no_partition).
Definition demo_path : mem := store_bytes ∅ 1000 [47; 104; 0].
Definition demo_request : Process.context := Process.mk_context 1000 0 0 0.

Lemma fs_life_typed_witness :
  exists s1 s2, init_fs demo_parts (fs_boot demo_dk 1000 (fun _ _ => 0)) = Some (tt, s1) /\
    star (fs_step 1100 5) s1 s2 /\ fs_typed s2.
Proof.
  destruct (init_fs demo_parts (fs_boot demo_dk 1000 (fun _ _ => 0))) as [[[] s1]|] eqn:E1.
  2: { exfalso. assert (match init_fs demo_parts (fs_boot demo_dk 1000 (fun _ _ => 0)) with
                        | Some _ => true | None => false end = true) as H by (vm_compute; reflexivity).
       rewrite E1 in H. discriminate H. }
  destruct (fs_turn 1100 5 demo_path Syscalls.fs.MKDIR demo_request s1) as [[[m a] s2]|] eqn:E2.
  2: { exfalso. assert (match init_fs demo_parts (fs_boot demo_dk 1000 (fun _ _ => 0)) with
                        | Some (_, s) => match fs_turn 1100 5 demo_path Syscalls.fs.MKDIR demo_request s with
                                         | Some _ => true | None => false end
                        | None => false end = true) as H by (vm_compute; reflexivity).
       rewrite E1, E2 in H. discriminate H. }
  assert (star (fs_step 1100 5) s1 s2) as Hstar.
  { eapply star_step; [|apply star_refl]. eapply step_turn; [| |exact E2].
    - apply store_bytes_typed, map_Forall_empty.
    - repeat split; discriminate. }
  exists s1, s2. split; [reflexivity|]. split; [exact Hstar|].
  apply (fs_life_typed 1100 5 demo_parts demo_dk 1000 (fun _ _ => 0) s1 s2).
  - unfold demo_dk. do 3 (apply map_Forall_insert_2;
      [split; [vm_compute; reflexivity|apply bytes_dec; vm_compute; reflexivity]|]). apply (t_disk _ demo_typed).
  - split; [discriminate|reflexivity].
  - repeat (apply Forall_cons_2; [split; split; (discriminate || reflexivity)|]). apply Forall_nil. done.
  - exact E1.
  - exact Hstar.
Defined.
