(* ===== verification/DirSpec.v ===== *)
(** * Directories as finite maps, paths as lists of names

    The entries of a directory, in the order of its sectors, give each name the
    number of its inode.  Looking up a path follows the names from the root;
    creating an entry adds one name and changes no other. *)
From Stdlib Require Import String.
From S2P Require Import Prelude Bitmap CString FsState Inode Dir.
#[local] Open Scope string_scope.
#[global] Open Scope list_scope.
#[global] Open Scope Z_scope.

(** ** Strings in buffers *)

(** The string at the start of a buffer, and whether it ends within it. *)
Fixpoint str_of (l : list Z) : list Z :=
  match l with
  | [] => []
  | c :: l' => if truth c then c :: str_of l' else []
  end.

Definition ended (l : list Z) : Prop := In 0 l.

Lemma strcmp_str_of l1 l2 :
  ended l1 -> ended l2 -> strcmp l1 l2 = Some (bool_decide (str_of l1 = str_of l2)).
Proof.
  revert l2. induction l1 as [|a l1 IH]; intros l2 H1 H2; [done|].
  destruct l2 as [|b l2]; [done|]. cbn [strcmp str_of].
  destruct (truth a) eqn:Ha, (truth b) eqn:Hb; cbn [andb negb];
    try (f_equal; symmetry; first [by apply bool_decide_eq_true | by apply bool_decide_eq_false]).
  assert (a <> 0 /\ b <> 0) as [? ?].
  { split; intros ->; discriminate. }
  destruct H1 as [H1|H1]; [done|]. destruct H2 as [H2|H2]; [done|].
  destruct (Z.eqb_spec a b) as [<-|Hne].
  - rewrite IH by done. f_equal. apply bool_decide_ext. split; [by intros ->|by intros [= ->]].
  - f_equal. symmetry. apply bool_decide_eq_false. intros [= ? ?]. done.
Qed.

Lemma str_of_nil p : ended p -> p.[0] = Some 0 <-> str_of p = [].
Proof.
  destruct p as [|c p]; [done|]. intros _. cbn [str_of]. change ((c :: p).[0]) with (Some c).
  destruct (truth c) eqn:E; split; intros H; try done.
  - injection H as ->. discriminate.
  - apply truth_false in E. subst. done.
Qed.

Lemma ended_head p : ended p -> exists c, p.[0] = Some c.
Proof. destruct p as [|c p]; [done|]. intros _. exists c. done. Qed.

(** ** Directories *)

(** The name of an entry; it is empty when the entry is free. *)
Definition name_of (e : dir_entry) : list Z := str_of e.(d_name).

(** The seven entries of a sector. *)
Definition sector_entries (b : list Z) : list dir_entry := map (entry_at b) (seqZ 0 entries_per_sector).

(** The entries of a directory with the sectors [l]. *)
Definition entries (s : fs) (l : list Z) : list dir_entry :=
  concat (map (fun lba => if 0 =? lba then [] else sector_entries (sector s.(disk) (u32 lba))) l).

(** The map a list of entries stands for. *)
Fixpoint lookup_name (es : list dir_entry) (name : list Z) : option Z :=
  match es with
  | [] => None
  | e :: es' => if bool_decide (name_of e = name) then Some e.(d_inode_no) else lookup_name es' name
  end.

Definition names_end (es : list dir_entry) : Prop := Forall (fun e => ended e.(d_name)) es.

Lemma lookup_name_app es1 es2 name :
  lookup_name (es1 ++ es2) name =
    match lookup_name es1 name with Some i => Some i | None => lookup_name es2 name end.
Proof. induction es1 as [|e es1 IH]; [done|]. cbn. case_bool_decide; [done|]. exact IH. Qed.

Lemma find_in_sector_lookup js b child name :
  ended child -> str_of child = name -> name <> [] -> names_end (map (entry_at b) js) ->
  find_in_sector js b child = Some (lookup_name (map (entry_at b) js) name).
Proof.
  intros Hc Hn Hne. induction js as [|j js IH]; intros Hend; [done|].
  inversion Hend as [|? ? He Hend']; subst. specialize (IH Hend').
  cbn [find_in_sector map lookup_name]. destruct (ended_head _ He) as [c Ec]. rewrite Ec. sbind.
  destruct (Z.eqb_spec 0 c) as [<-|Hnz].
  - apply str_of_nil in Ec; [|done]. rewrite bool_decide_eq_false_2; [exact IH|].
    unfold name_of. rewrite Ec. done.
  - rewrite strcmp_str_of by done. sbind. unfold name_of. case_bool_decide; [done|exact IH].
Qed.

Lemma find_in_sectors_lookup l child name s :
  ended child -> str_of child = name -> name <> [] -> names_end (entries s l) ->
  find_in_sectors l child s = Some (lookup_name (entries s l) name, s).
Proof.
  intros Hc Hn Hne. induction l as [|lba l IH]; intros Hend; [done|].
  cbn [find_in_sectors]. unfold entries in *. cbn [map concat] in *.
  destruct (0 =? lba); [by apply IH|]. apply Forall_app in Hend as [He1 He2].
  unfold mbind at 1, fsm_bind at 1. rewrite read_disk_one. unfold mbind at 1, fsm_bind at 1, lift.
  rewrite (find_in_sector_lookup _ _ _ name) by done. rewrite lookup_name_app.
  fold (sector_entries (sector (disk s) (u32 lba))).
  destruct (lookup_name (sector_entries _) name) as [i|]; [done|]. exact (IH He2).
Qed.

(** [s'] is [s] after blocks of memory have been received and given back. *)
Definition same_but_heap (s s' : fs) : Prop :=
  s' = mk_fs s.(disk) s.(sb) s.(block_bmap) s.(inode_bmap) s.(file_desc_tbl) s.(cur_dir) s.(uid) s.(clock)
         s.(junk) s'.(mallocs) s'.(frees) s.(console).

#[export] Instance same_but_heap_preorder : PreOrder same_but_heap.
Proof.
  split.
  - intros []. done.
  - intros a b c H1 H2. unfold same_but_heap in *. rewrite H2, H1. done.
Qed.

Lemma heap_malloc s : same_but_heap s (count_malloc s). Proof. done. Qed.
Lemma heap_free s : same_but_heap s (count_free s). Proof. done. Qed.

Lemma heap_inode_of s s' ino : same_but_heap s s' -> inode_of s' ino = inode_of s ino.
Proof. intros ->. done. Qed.
Lemma heap_entries s s' l : same_but_heap s s' -> entries s' l = entries s l.
Proof. intros ->. done. Qed.

Lemma find_dir_entry_lookup x child name s :
  ended child -> str_of child = name -> name <> [] -> names_end (entries s x.(i_sectors)) ->
  exists s', find_dir_entry x child s =
      Some (match lookup_name (entries s x.(i_sectors)) name with Some i => i | None => NO_INODE end, s') /\
    same_but_heap s s'.
Proof.
  intros Hc Hn Hne Hend. unfold find_dir_entry, mbind, fsm_bind, malloc.
  rewrite (find_in_sectors_lookup _ _ name) by done. eexists. split; [done|].
  etrans; [apply heap_malloc|apply heap_free].
Qed.

(** ** Paths *)

Definition valid_name (n : list Z) : Prop :=
  n <> [] /\ Forall (fun c => c <> 0 /\ c <> 47) n /\ (length n < 64)%nat.

(** ["/n1/n2/..."], terminated, with whatever follows in memory. *)
Definition path_of (names : list (list Z)) (rest : list Z) : list Z :=
  concat (map (cons 47) names) ++ 0 :: rest.

Lemma path_of_cons n ns rest : path_of (n :: ns) rest = 47 :: n ++ path_of ns rest.
Proof. unfold path_of. cbn [map concat app]. rewrite <- (assoc_L (++)). done. Qed.

(** The inode the names lead to from [ino]. *)
Fixpoint resolve (s : fs) (ino : Z) (names : list (list Z)) : option Z :=
  match names with
  | [] => Some ino
  | n :: names' =>
      match lookup_name (entries s (inode_of s ino).(i_sectors)) n with
      | Some i => if NO_INODE =? i then None else resolve s i names'
      | None => None
      end
  end.

(** In the directories on the way every name has its terminator. *)
Fixpoint dirs_end (s : fs) (ino : Z) (names : list (list Z)) : Prop :=
  match names with
  | [] => True
  | n :: names' =>
      names_end (entries s (inode_of s ino).(i_sectors)) /\
      match lookup_name (entries s (inode_of s ino).(i_sectors)) n with
      | Some i => dirs_end s i names'
      | None => True
      end
  end.

Lemma str_of_name n k : Forall (fun c => c <> 0 /\ c <> 47) n -> str_of (n ++ replicate k 0) = n.
Proof.
  induction 1 as [|c n [Hc _] _ IH]; [by destruct k|]. cbn [app str_of].
  rewrite truth_true by done. by rewrite IH.
Qed.

(** A component that ends at [t], a slash or the end of the path. *)
Lemma split_component_name n t p pre k :
  n <> [] -> Forall (fun c => c <> 0 /\ c <> 47) n -> (length n < k)%nat -> t = 47 \/ t = 0 ->
  split_component (n ++ t :: p) (pre ++ replicate k 0) (zlen pre) =
    Some (if t =? 47 then Some p else None, pre ++ n ++ replicate (k - length n) 0).
Proof.
  revert pre k. induction n as [|c n IH]; intros pre k Hne Hn Hk Ht; [done|].
  inversion Hn as [|? ? [Hc0 Hc47] Hn']; subst. destruct k as [|k]; [cbn in Hk; lia|].
  cbn [app split_component]. rewrite (proj2 (Z.eqb_neq 47 c)) by done.
  change (replicate (S k) 0) with (0 :: replicate k 0). rewrite zset_mid. sbind.
  replace (pre ++ c :: replicate k 0) with ((pre ++ [c]) ++ replicate k 0) by (by rewrite <- (assoc_L (++))).
  replace (zlen pre + 1) with (zlen (pre ++ [c])) by (rewrite zlen_app; done).
  cbn [length Nat.sub]. cbn in Hk. destruct n as [|c2 n].
  - cbn [app]. change ((t :: p).[0]) with (Some t). sbind. destruct Ht as [-> | ->].
    + change (0 =? 47) with false. cbn [Z.eqb]. cbn [split_component Z.eqb Pos.eqb].
      destruct k as [|k]; [lia|]. change (replicate (S k) 0) with (0 :: replicate k 0).
      rewrite zset_mid. sbind. rewrite <- (assoc_L (++)). done.
    + cbn [Z.eqb Nat.sub]. rewrite Nat.sub_0_r, <- (assoc_L (++)). done.
  - inversion Hn' as [|? ? [Hd0 _] _]; subst. cbn [app]. change ((c2 :: ?l).[0]) with (Some c2). sbind.
    rewrite (proj2 (Z.eqb_neq 0 c2)) by done.
    change (c2 :: n ++ t :: p) with ((c2 :: n) ++ t :: p). rewrite IH by (done || (cbn in *; lia)).
    rewrite <- !(assoc_L (++)). done.
Qed.

Lemma split_path_name n t p :
  valid_name n -> t = 47 \/ t = 0 ->
  split_path (n ++ t :: p) (replicate 64 0) =
    Some (if t =? 47 then Some p else None, n ++ replicate (64 - length n) 0).
Proof.
  intros (Hne & Hn & Hl) Ht. pose proof (split_component_name n t p [] 64 Hne Hn Hl Ht) as H.
  unfold split_path. destruct n as [|c n]; [done|]. inversion Hn as [|? ? [Hc0 Hc47] _]; subst.
  cbn [app] in *. change ((c :: ?l).[0]) with (Some c). sbind.
  rewrite (proj2 (Z.eqb_neq 47 c)), (proj2 (Z.eqb_neq 0 c)) by done. exact H.
Qed.

Lemma resolve_cons s ino n names :
  resolve s ino (n :: names) =
    match lookup_name (entries s (inode_of s ino).(i_sectors)) n with
    | Some i => if NO_INODE =? i then None else resolve s i names
    | None => None
    end.
Proof. done. Qed.

Lemma heap_resolve s s' ino names : same_but_heap s s' -> resolve s' ino names = resolve s ino names.
Proof.
  intros ->. revert ino. induction names as [|n names IH]; intros ino; [done|]. cbn [resolve].
  change (entries (mk_fs _ _ _ _ _ _ _ _ _ _ _ _) ?l) with (entries s l).
  change (inode_of (mk_fs _ _ _ _ _ _ _ _ _ _ _ _) ?i) with (inode_of s i).
  destruct (lookup_name _ n); [|done]. destruct (NO_INODE =? _); [done|apply IH].
Qed.

Lemma heap_dirs_end s s' ino names : same_but_heap s s' -> dirs_end s ino names -> dirs_end s' ino names.
Proof.
  intros ->. revert ino. induction names as [|n names IH]; intros ino; [done|]. cbn [dirs_end].
  change (entries (mk_fs _ _ _ _ _ _ _ _ _ _ _ _) ?l) with (entries s l).
  change (inode_of (mk_fs _ _ _ _ _ _ _ _ _ _ _ _) ?i) with (inode_of s i).
  intros [H1 H2]. split; [done|]. destruct (lookup_name _ n); [by apply IH|done].
Qed.

(** The walk from the first character of a component. *)
Lemma walk_names ns : forall n fuel ino s rest,
  Forall valid_name (n :: ns) -> (length ns <= fuel)%nat -> dirs_end s ino (n :: ns) ->
  exists s', walk (S fuel) (Some (n ++ path_of ns rest)) ino (inode_of s ino) s =
      Some (match resolve s ino (n :: ns) with Some i => i | None => NO_INODE end, s') /\
    same_but_heap s s'.
Proof.
  induction ns as [|n2 ns IH]; intros n fuel ino s rest Hv Hf [He Hd]; inversion Hv as [|? ? Hn Hv']; subst.
  all: pose proof Hn as (Hne & Hch & Hlen).
  all: assert (str_of (n ++ replicate (64 - length n) 0) = n) as Hs by (by apply str_of_name).
  all: assert (ended (n ++ replicate (64 - length n) 0)) as Hend
    by (apply in_or_app; right; destruct (64 - length n)%nat eqn:E; [lia|by left]).
  all: assert (strcmp (text "/" ++ [0]) (n ++ replicate (64 - length n) 0) = Some false) as Hslash
    by (rewrite strcmp_str_of, Hs by (done || (right; by left)); f_equal; apply bool_decide_eq_false;
        intros <-; inversion Hch as [|? ? [_ ?] _]; done).
  all: destruct (find_dir_entry_lookup (inode_of s ino) _ n s Hend Hs Hne He) as (s1 & Hfind & H1).
  - cbn [walk]. unfold path_of. cbn [map concat app].
    unfold mbind, fsm_bind, lift. rewrite split_path_name by auto. change (0 =? 47) with false. cbn match.
    rewrite Hslash. cbn match. rewrite Hfind, resolve_cons.
    destruct (lookup_name _ n) as [i|]; [|by exists s1].
    destruct (Z.eqb_spec NO_INODE i) as [<-|Hno]; [by exists s1|].
    rewrite ino2inode_spec. destruct fuel; eexists; (split; [done|]);
      (etrans; [exact H1|]; etrans; [apply heap_malloc|apply heap_free]).
  - destruct fuel as [|fuel]; [cbn in Hf; lia|].
    cbn [walk]. rewrite path_of_cons.
    unfold mbind, fsm_bind, lift. rewrite split_path_name by auto. change (47 =? 47) with true. cbn match.
    rewrite Hslash. cbn match. rewrite Hfind, resolve_cons.
    destruct (lookup_name (entries s (i_sectors (inode_of s ino))) n) as [i|]; [|by exists s1].
    destruct (Z.eqb_spec NO_INODE i) as [<-|Hno]; [by exists s1|].
    rewrite ino2inode_spec. set (s2 := count_free (count_malloc s1)).
    assert (same_but_heap s s2) as H2 by (etrans; [exact H1|]; etrans; [apply heap_malloc|apply heap_free]).
    rewrite (heap_inode_of s s1) by done. rewrite <- (heap_inode_of s s2) by done.
    destruct (IH n2 fuel i s2 rest) as (s3 & Hw & H3);
      [done|cbn in Hf; lia|by eapply heap_dirs_end|].
    exists s3. rewrite (heap_resolve s s2) in Hw by done.
    split; [exact Hw|]. by etrans.
Qed.

Lemma dir_is_exists_resolve names rest s :
  names <> [] -> Forall valid_name names -> dirs_end s s.(sb).(root_inode_no) names ->
  exists s', dir_is_exists (path_of names rest) s =
      Some (match resolve s s.(sb).(root_inode_no) names with Some i => i | None => NO_INODE end, s') /\
    same_but_heap s s'.
Proof.
  intros Hne Hv Hd. destruct names as [|n ns]; [done|].
  inversion Hv as [|? ? Hn _]; subst. pose proof Hn as (Hn0 & Hch & Hlen).
  destruct n as [|c n]; [done|]. inversion Hch as [|? ? [Hc0 Hc47] _]; subst.
  unfold dir_is_exists, mbind, fsm_bind, lift.
  change ((path_of ((c :: n) :: ns) rest).[0]) with (Some 47).
  change ((path_of ((c :: n) :: ns) rest).[1]) with (Some c). cbn match.
  change (negb (47 =? 47)) with false. cbn match. rewrite (proj2 (Z.eqb_neq 0 c)) by done.
  unfold gets. rewrite ino2inode_spec. set (s1 := count_free (count_malloc s)).
  set (r := root_inode_no (sb s)). change (inode_of s r) with (inode_of s1 r).
  assert (same_but_heap s s1) as H1 by (etrans; [apply heap_malloc|apply heap_free]).
  assert (length ns <= length (path_of ((c :: n) :: ns) rest) - 1)%nat as Hf.
  { unfold path_of. rewrite length_app. cbn [map concat app length]. rewrite length_app.
    assert (length ns <= length (concat (map (cons 47%Z) ns)))%nat; [|lia].
    clear. induction ns as [|m ns IH]; cbn; [lia|]. rewrite length_app. lia. }
  destruct (walk_names ns (c :: n) (length (path_of ((c :: n) :: ns) rest) - 1) r s1 rest) as (s2 & Hw & H2);
    [done|done|by eapply heap_dirs_end|].
  exists s2. rewrite <- (heap_resolve s s1) by done. split; [|by etrans].
  rewrite <- Hw. rewrite (path_of_cons (c :: n)) at 2. cbn [walk]. unfold mbind, fsm_bind, lift.
  change (split_path (47 :: ?p) (replicate 64 0)) with (Some (Some p, 47 :: replicate 63 0)).
  change (strcmp (text "/" ++ [0]) (47 :: replicate 63 0)) with (Some true). cbn match.
  f_equal.
Qed.

(** ** Creating an entry *)

(** The places of a directory: sector and index. *)
Definition slots (l : list Z) : list (Z * Z) :=
  concat (map (fun lba => if 0 =? lba then [] else map (pair lba) (seqZ 0 entries_per_sector)) l).

Definition entry_in (s : fs) (p : Z * Z) : dir_entry := entry_at (sector s.(disk) (u32 p.1)) p.2.

Lemma entries_slots s l : entries s l = map (entry_in s) (slots l).
Proof.
  unfold entries, slots. rewrite concat_map, map_map. f_equal. apply map_ext. intros lba.
  destruct (0 =? lba); [done|]. unfold sector_entries. rewrite map_map. done.
Qed.

(** What the search leaves: nothing when the name is there, else the first free
    place, or [(0, 0)]. *)
Fixpoint search (f : Z * Z -> dir_entry) (ps : list (Z * Z)) (name : list Z) (slot : Z * Z) : option (Z * Z) :=
  match ps with
  | [] => Some slot
  | p :: ps' =>
      if bool_decide (name_of (f p) = name) then None
      else if bool_decide (name_of (f p) = []) && (slot.1 =? 0) then search f ps' name p
      else search f ps' name slot
  end.

Lemma search_app f ps1 ps2 name slot :
  search f (ps1 ++ ps2) name slot =
    match search f ps1 name slot with Some slot' => search f ps2 name slot' | None => None end.
Proof.
  revert slot. induction ps1 as [|p ps1 IH]; intros slot; [done|]. cbn [app search].
  case_bool_decide; [done|]. destruct (_ && _); apply IH.
Qed.

(** A slot is [(0, 0)] or in a sector. *)
Definition slot_ok (slot : Z * Z) : Prop := slot.1 = 0 -> slot.2 = 0.

Lemma scan_slots_search js s lba child name slot :
  lba <> 0 -> ended child -> str_of child = name -> name <> [] -> slot_ok slot ->
  names_end (map (entry_at (sector s.(disk) (u32 lba))) js) ->
  scan_slots js lba (sector s.(disk) (u32 lba)) child slot =
    Some (search (entry_in s) (map (pair lba) js) name slot).
Proof.
  intros Hl Hc Hn Hne. revert slot. induction js as [|j js IH]; intros slot Hs Hend; [done|].
  inversion Hend as [|? ? He Hend']; subst. cbn [scan_slots map search].
  destruct (ended_head _ He) as [c Ec]. rewrite Ec. sbind.
  unfold name_of. change (entry_in s (lba, j)) with (entry_at (sector s.(disk) (u32 lba)) j).
  destruct (Z.eqb_spec 0 c) as [<-|Hnz]; cbn [andb].
  - pose proof Ec as E0. apply str_of_nil in E0; [|done]. rewrite E0.
    rewrite (bool_decide_eq_false_2 ([] = _)) by congruence. rewrite bool_decide_eq_true_2 by done. cbn [andb].
    destruct (Z.eqb_spec slot.1 0) as [E1|E1].
    + rewrite E1, (Hs E1). cbn [Z.eqb andb]. apply IH; [|done]. intros H. cbn in H. done.
    + rewrite (proj2 (Z.eqb_neq 0 (slot.1))) by congruence. rewrite andb_false_r.
      rewrite strcmp_str_of, E0 by done. rewrite bool_decide_eq_false_2 by congruence. sbind. by apply IH.
  - rewrite (bool_decide_eq_false_2 (str_of _ = [])).
    2: { intros E. apply str_of_nil in E; [|done]. congruence. }
    cbn [andb]. rewrite strcmp_str_of by done. sbind. case_bool_decide; [done|]. by apply IH.
Qed.

Lemma search_slot f ps name slot slot' :
  search f ps name slot = Some slot' -> slot_ok slot -> (forall p, In p ps -> p.1 <> 0) -> slot_ok slot'.
Proof.
  revert slot. induction ps as [|p ps IH]; intros slot; cbn [search].
  - intros [= <-]. done.
  - case_bool_decide; [done|]. intros Hse Hs Hp. destruct (_ && _).
    + eapply IH; [exact Hse| |]; [intros E; exfalso; eapply Hp; [by left|done]|intros q Hq; apply Hp; by right].
    + eapply IH; eauto. intros q Hq. apply Hp. by right.
Qed.

Lemma scan_sectors_search l s child name slot :
  ended child -> str_of child = name -> name <> [] -> slot_ok slot -> names_end (entries s l) ->
  scan_sectors l child slot s = Some (search (entry_in s) (slots l) name slot, s).
Proof.
  intros Hc Hn Hne. revert slot. induction l as [|lba l IH]; intros slot Hs Hend; [done|].
  cbn [scan_sectors]. unfold entries, slots in *. cbn [map concat] in *.
  destruct (Z.eqb_spec 0 lba) as [<-|Hl]; [by apply IH|]. apply Forall_app in Hend as [He1 He2].
  unfold mbind, fsm_bind, lift. rewrite read_disk_one, (scan_slots_search _ _ _ _ name) by (done || congruence).
  rewrite search_app. destruct (search _ (map (pair lba) _) name slot) as [slot'|] eqn:E; [|done].
  apply IH; [|done]. eapply search_slot; [exact E|done|].
  intros p (j & <- & _)%in_map_iff. cbn. congruence.
Qed.

(** The search finds no name exactly when the map has none, and then a free
    place if there is one. *)
Lemma search_spec f ps name slot :
  name <> [] ->
  match search f ps name slot with
  | None => lookup_name (map f ps) name <> None
  | Some slot' => lookup_name (map f ps) name = None /\
      (slot' = slot /\ (slot.1 = 0 -> forall p, In p ps -> name_of (f p) <> []) \/
       In slot' ps /\ name_of (f slot') = [])
  end.
Proof.
  intros Hne. revert slot. induction ps as [|p ps IH]; intros slot; cbn [search map lookup_name].
  - split; [done|]. left. split; [done|]. intros _ p [].
  - case_bool_decide as E1; [done|]. destruct (_ && _) eqn:E2.
    + apply andb_true_iff in E2 as [E2%bool_decide_eq_true E3%Z.eqb_eq].
      specialize (IH p). destruct (search f ps name p) as [slot'|]; [|done].
      destruct IH as [IH1 IH2]. split; [done|]. right.
      destruct IH2 as [[-> _]|[? ?]]; [split; [by left|done]|split; [by right|done]].
    + specialize (IH slot). destruct (search f ps name slot) as [slot'|]; [|done].
      destruct IH as [IH1 IH2]. split; [done|]. destruct IH2 as [[-> H]|[? ?]]; [left|right; split; [by right|done]].
      split; [done|]. intros Hs q [<-|Hq]; [|by apply H]. intros E.
      rewrite (bool_decide_eq_true_2 _ E), Hs in E2. done.
Qed.

(** Writing one free place changes the map at one name. *)
Section update.
Variables (f g : Z * Z -> dir_entry) (k : Z * Z).
Hypothesis free_before : name_of (f k) = [].

Lemma lookup_update_ne ps name :
  (forall p, In p ps -> p <> k -> g p = f p) -> name <> [] -> name <> name_of (g k) ->
  lookup_name (map g ps) name = lookup_name (map f ps) name.
Proof.
  intros Hg Hne Hn. induction ps as [|p ps IH]; [done|]. cbn [map lookup_name].
  assert (lookup_name (map g ps) name = lookup_name (map f ps) name) as ->
    by (apply IH; intros q Hq; apply Hg; by right).
  destruct (decide (p = k)) as [->|Hp]; [|rewrite (Hg p) by (done || by left); done].
  rewrite free_before, !bool_decide_eq_false_2 by congruence. done.
Qed.

Lemma lookup_update_eq ps :
  (forall p, In p ps -> p <> k -> g p = f p) -> In k ps ->
  lookup_name (map f ps) (name_of (g k)) = None ->
  lookup_name (map g ps) (name_of (g k)) = Some (g k).(d_inode_no).
Proof.
  intros Hg Hin. induction ps as [|p ps IH]; [done|]. cbn [map lookup_name].
  destruct (decide (p = k)) as [->|Hp];
    [by rewrite (bool_decide_eq_true_2 (name_of (g k) = _)) by done|].
  rewrite (Hg p) by (done || by left). case_bool_decide; [done|]. destruct Hin as [->|Hin]; [done|].
  apply IH; [|done]. intros q Hq. apply Hg. by right.
Qed.
End update.

Lemma slots_in l p :
  In p (slots l) <-> In p.1 l /\ p.1 <> 0 /\ 0 <= p.2 < 7.
Proof.
  unfold slots. rewrite in_concat. split.
  - intros (ps & (lba & <- & Hl)%in_map_iff & Hp). destruct (Z.eqb_spec 0 lba) as [<-|Hne]; [done|].
    apply in_map_iff in Hp as (j & <- & Hj). cbn. split; [done|]. split; [done|].
    apply list_elem_of_In, elem_of_seqZ in Hj. change (entries_per_sector) with 7 in Hj. lia.
  - intros (Hl & Hne & Hj). eexists. split; [apply in_map_iff; exists p.1; split; [reflexivity|done]|].
    rewrite (proj2 (Z.eqb_neq 0 (p.1))) by congruence. apply in_map_iff. exists p.2.
    destruct p as [lba j]. split; [done|]. apply list_elem_of_In, elem_of_seqZ.
    change (entries_per_sector) with 7. cbn in *. lia.
Qed.

(** The state after [e] was written at the place [k]. *)
Definition with_entry (s : fs) (k : Z * Z) (buf : list Z) : fs := set_disk (<[u32 k.1 := buf]> s.(disk)) s.

Lemma entry_in_with s k e buf p :
  put (sector s.(disk) (u32 k.1)) (k.2 * sizeof_dir_entry) (enc_entry e) = Some buf ->
  entry_ok e -> is_u32 k.1 -> is_u32 p.1 -> 0 <= k.2 < 7 -> 0 <= p.2 < 7 ->
  entry_in (with_entry s k buf) p = if decide (p = k) then e else entry_in s p.
Proof.
  intros Hput He Hk Hp Hk2 Hp2. unfold entry_in, entry_at. cbn [disk with_entry set_disk]. rewrite sector_insert.
  pose proof (enc_entry_length e (proj1 (ok_name _ He))) as Hlen.
  destruct (decide (p = k)) as [->|Hne].
  - rewrite Z.eqb_refl, Z.mul_comm, (put_here _ _ _ _ Hput). apply dec_enc_entry, He.
  - case_if; [|done]. rewrite E, <- dec_entry_take, <- (dec_entry_take (drop _ (sector _ _))). f_equal.
    rewrite !u32_id in E by done. destruct p as [a j], k as [b i]. cbn [fst snd] in *. subst b.
    assert (j <> i) by congruence. change sizeof_dir_entry with 72 in *.
    destruct (Z.lt_ge_cases j i).
    + eapply put_before; [exact Hput|]. lia.
    + eapply put_after; [exact Hput|]. unfold zlen. lia.
Qed.

(** Creating an entry in a directory that has a free place. *)
Lemma create_dir_entry_free x e s :
  fs_typed s -> inode_ok x -> names_end (entries s x.(i_sectors)) ->
  entry_ok e -> ended e.(d_name) -> name_of e <> [] ->
  lookup_name (entries s x.(i_sectors)) (name_of e) = None ->
  Exists (fun e' => name_of e' = []) (entries s x.(i_sectors)) ->
  exists s' k buf, create_dir_entry x e s = Some (tt, s') /\
    same_but_heap (with_entry s k buf) s' /\ In k (slots x.(i_sectors)) /\ name_of (entry_in s k) = [] /\
    put (sector s.(disk) (u32 k.1)) (k.2 * sizeof_dir_entry) (enc_entry e) = Some buf.
Proof.
  intros Ht Hx Hend He Hee Hne Hno Hfree. unfold create_dir_entry, mbind, fsm_bind, malloc.
  rewrite (scan_sectors_search _ _ _ (name_of e)); [|done..|exact Hend].
  rewrite entries_slots in Hno, Hfree.
  pose proof (search_spec (entry_in (count_malloc s)) (slots x.(i_sectors)) (name_of e) (0, 0) Hne) as Hs.
  change (entry_in (count_malloc s)) with (entry_in s) in *.
  destruct (search (entry_in s) _ _ _) as [[lba j]|]; [|done].
  destruct Hs as [_ [[_ Hf]|[Hin Hf]]].
  { exfalso. apply Exists_exists in Hfree as (e' & (p & -> & Hp)%list_elem_of_fmap & Hn).
    eapply Hf; [done| |exact Hn]. by apply list_elem_of_In. }
  pose proof Hin as (Hl & Hlne & Hj)%slots_in. cbn [fst snd] in *.
  rewrite (proj2 (Z.eqb_neq 0 lba)) by congruence. cbn [negb].
  rewrite read_disk_one. change (disk (count_malloc s)) with (disk s).
  destruct (sector_typed s (u32 lba) Ht) as [Hlen _].
  pose proof (enc_entry_length e (proj1 (ok_name _ He))) as Henc.
  assert (exists buf, put (sector s.(disk) (u32 lba)) (j * sizeof_dir_entry) (enc_entry e) = Some buf) as [buf Hp].
  { eexists. change sizeof_dir_entry with 72. apply put_ok; [lia|]. unfold zlen. lia. }
  unfold lift. rewrite Hp. rewrite write_disk_one by (rewrite (put_length _ _ _ _ Hp); done).
  eexists _, (lba, j), buf. split; [reflexivity|]. split; [done|]. done.
Qed.

Lemma create_dir_entry_exists x e s :
  names_end (entries s x.(i_sectors)) -> ended e.(d_name) -> name_of e <> [] ->
  lookup_name (entries s x.(i_sectors)) (name_of e) <> None ->
  exists s', create_dir_entry x e s = Some (tt, s') /\ s'.(disk) = s.(disk).
Proof.
  intros Hend Hee Hne Hyes. unfold create_dir_entry, mbind, fsm_bind, malloc.
  rewrite (scan_sectors_search _ _ _ (name_of e)); [|done..|exact Hend].
  rewrite entries_slots in Hyes.
  pose proof (search_spec (entry_in s) (slots x.(i_sectors)) (name_of e) (0, 0) Hne) as Hs.
  change (entry_in (count_malloc s)) with (entry_in s) in *.
  destruct (search (entry_in s) _ _ _) as [slot|]; [by destruct Hs|].
  eexists. split; reflexivity.
Qed.

Lemma create_dir_entry_insert x e s :
  fs_typed s -> inode_ok x -> names_end (entries s x.(i_sectors)) ->
  entry_ok e -> ended e.(d_name) -> name_of e <> [] ->
  Exists (fun e' => name_of e' = []) (entries s x.(i_sectors)) ->
  exists s', create_dir_entry x e s = Some (tt, s') /\ names_end (entries s' x.(i_sectors)) /\
    forall name, name <> [] ->
      lookup_name (entries s' x.(i_sectors)) name =
        match lookup_name (entries s x.(i_sectors)) (name_of e) with
        | None => if decide (name = name_of e) then Some e.(d_inode_no)
                  else lookup_name (entries s x.(i_sectors)) name
        | Some _ => lookup_name (entries s x.(i_sectors)) name
        end.
Proof.
  intros Ht Hx Hend He Hee Hne Hfree.
  destruct (lookup_name (entries s (i_sectors x)) (name_of e)) as [i|] eqn:El.
  { destruct (create_dir_entry_exists x e s) as (s' & Hs & Hd); [done..|by rewrite El|].
    exists s'. unfold entries. rewrite Hd. done. }
  destruct (create_dir_entry_free x e s) as (s' & k & buf & Hs & Hh & Hk & Hf & Hp); [done..|].
  pose proof Hk as (Hk1 & _ & Hk2)%slots_in.
  assert (forall p, In p (slots x.(i_sectors)) ->
            entry_in (with_entry s k buf) p = if decide (p = k) then e else entry_in s p) as Hg.
  { intros p (Hp1 & _ & Hp2)%slots_in. eapply entry_in_with; eauto;
      eapply Forall_forall; first [apply (ok_sectors _ Hx)|by apply list_elem_of_In]. }
  exists s'. rewrite (heap_entries _ _ _ Hh), !entries_slots in *. split; [done|]. split.
  - apply Forall_map, Forall_forall. intros p Hp'%list_elem_of_In. rewrite Hg by done.
    destruct (decide (p = k)); [done|]. unfold names_end in Hend. rewrite Forall_map, Forall_forall in Hend.
    apply Hend. by apply list_elem_of_In.
  - intros name Hn. assert (name_of (entry_in (with_entry s k buf) k) = name_of e) as Hnk
      by (rewrite Hg by done; by rewrite decide_True).
    assert (forall p, In p (slots x.(i_sectors)) -> p <> k -> entry_in (with_entry s k buf) p = entry_in s p) as Hg'
      by (intros p Hp' Hpk; rewrite Hg by done; by rewrite decide_False).
    case_decide as Ed.
    + subst name. rewrite <- Hnk. rewrite (lookup_update_eq (entry_in s) _ k) by (done || by rewrite Hnk).
      f_equal. rewrite Hg by done. by rewrite decide_True.
    + apply (lookup_update_ne _ _ k); [done|done|done|]. by rewrite Hnk.
Qed.

(** ** The theorems *)

(** C17. Looking up a path is following its names: for the path [/n1/n2/...] of
    valid names [dir_is_exists] returns, the loop ends, no access is outside its
    buffer, and the result is the inode number that the names lead to from the
    root directory, or the number for "none" when a name on the way is missing. *)
Theorem path_resolves names rest s :
  names <> [] -> Forall valid_name names -> dirs_end s s.(sb).(root_inode_no) names ->
  exists s', dir_is_exists (path_of names rest) s =
      Some (match resolve s s.(sb).(root_inode_no) names with Some i => i | None => NO_INODE end, s') /\
    same_but_heap s s'.
Proof. apply dir_is_exists_resolve. Qed.

Definition etc : list Z := Eval compute in text "etc".
Definition rc : list Z := Eval compute in text "rc".

Definition endedb (l : list Z) : bool := existsb (Z.eqb 0) l.
Lemma names_end_dec es : forallb (fun e => endedb e.(d_name)) es = true -> names_end es.
Proof.
  intros H. apply Forall_forall. intros e He%list_elem_of_In. rewrite forallb_forall in H.
  apply H in He. apply existsb_exists in He as (z & Hz & E%Z.eqb_eq). by subst.
Qed.

Lemma valid_name_dec n :
  negb (bool_decide (n = [])) && forallb (fun c => negb (c =? 0) && negb (c =? 47)) n && (length n <? 64)%nat = true ->
  valid_name n.
Proof.
  rewrite !andb_true_iff, negb_true_iff, bool_decide_eq_false. intros [[H1 H2] H3]. split; [done|].
  split; [|by apply Nat.ltb_lt]. apply Forall_forall. intros c Hc%list_elem_of_In.
  rewrite forallb_forall in H2. specialize (H2 c Hc). zbool. done.
Qed.

Lemma path_resolves_witness :
  exists s', dir_is_exists (path_of [etc; rc] []) demo = Some (2, s') /\ same_but_heap demo s'.
Proof.
  assert (Forall valid_name [etc; rc]) as H1.
  { repeat (apply Forall_cons_2; [apply valid_name_dec; reflexivity|]). apply Forall_nil. done. }
  assert (dirs_end demo 0 [etc; rc]) as H2.
  { split; [apply names_end_dec; vm_compute; reflexivity|].
    replace (lookup_name _ etc) with (Some 1) by (vm_compute; reflexivity).
    split; [apply names_end_dec; vm_compute; reflexivity|].
    replace (lookup_name _ rc) with (Some 2) by (vm_compute; reflexivity). done. }
  destruct (path_resolves [etc; rc] [] demo ltac:(discriminate) H1 H2) as (s' & Hs & Hh).
  exists s'. split; [|exact Hh]. rewrite Hs. do 2 f_equal.
Defined.

(** C18. Creating an entry in a directory with a free place (so that no sector has
    to be added) is inserting into the map of names: afterwards the new name leads to the new inode number and every
    other name to what it led to before; when the name is taken the map stays as
    it is. *)
Theorem create_dir_entry_refines x e s :
  fs_typed s -> inode_ok x -> names_end (entries s x.(i_sectors)) ->
  entry_ok e -> ended e.(d_name) -> name_of e <> [] ->
  Exists (fun e' => name_of e' = []) (entries s x.(i_sectors)) ->
  exists s', create_dir_entry x e s = Some (tt, s') /\ names_end (entries s' x.(i_sectors)) /\
    forall name, name <> [] ->
      lookup_name (entries s' x.(i_sectors)) name =
        match lookup_name (entries s x.(i_sectors)) (name_of e) with
        | None => if decide (name = name_of e) then Some e.(d_inode_no)
                  else lookup_name (entries s x.(i_sectors)) name
        | Some _ => lookup_name (entries s x.(i_sectors)) name
        end.
Proof. apply create_dir_entry_insert. Qed.

(** The root directory of the example gets a file. *)
Definition new_entry : dir_entry := demo_entry "log" 3 FILE.

Lemma create_dir_entry_refines_witness :
  exists s', create_dir_entry (inode_of demo 0) new_entry demo = Some (tt, s') /\
    lookup_name (entries s' [22; 0; 0; 0; 0; 0; 0; 0; 0]) (text "log") = Some 3 /\
    lookup_name (entries s' [22; 0; 0; 0; 0; 0; 0; 0; 0]) etc = Some 1.
Proof.
  assert (i_sectors (inode_of demo 0) = [22; 0; 0; 0; 0; 0; 0; 0; 0]) as Hl by (vm_compute; reflexivity).
  destruct (create_dir_entry_refines (inode_of demo 0) new_entry demo) as (s' & Hs & _ & Hlook).
  - apply demo_typed.
  - apply dec_inode_ok, Forall_drop, sector_typed, demo_typed.
  - apply names_end_dec. vm_compute. reflexivity.
  - constructor; [split; [done|apply bytes_dec; done]|split; [discriminate|reflexivity]|split; [discriminate|reflexivity]].
  - vm_compute. do 3 right. by left.
  - discriminate.
  - apply Exists_exists. exists (entry_at (sector demo.(disk) 22) 3).
    split; [|vm_compute; reflexivity]. rewrite Hl. vm_compute. do 3 right. left.
  - exists s'. rewrite Hl in Hlook. split; [exact Hs|]. split; rewrite Hlook; vm_compute; (reflexivity || discriminate).
Defined.
