(* ===== verification/FileSpec.v ===== *)
(** * What is written to a file is read back

    A write of less than a sector that covers the file, a seek to its start and
    a read give the bytes that were written, whatever the file held; on the way
    the file gets a block if it has none, and gives back those it no longer
    needs. *)
From S2P Require Import Prelude Bitmap CString FsState Inode Dir File.

(** The answer of [check_inode_permission]. *)
Definition allowed (s : fs) (x : inode) (op : Z) : bool :=
  if s.(uid) =? 0 then true
  else truth (Z.land x.(i_mode) (if s.(uid) =? x.(i_uid) then u8 (Z.shiftl op 3) else op)).

Lemma check_allowed x op s : check_inode_permission x op s = Some (allowed s x op, s).
Proof.
  unfold check_inode_permission, allowed, mbind, fsm_bind, gets. destruct (uid s =? 0); done.
Qed.

Lemma runs_check x op s (Q : bool -> fs -> Prop) : Q (allowed s x op) s -> runs (check_inode_permission x op) s Q.
Proof. intros H. eexists _, _. split; [apply check_allowed|exact H]. Qed.

(** ** The sectors of a file *)

(** Each sector is unused or a block of the partition. *)
Definition sectors_ok (s : fs) (l : list Z) : Prop :=
  length l = 9%nat /\ Forall (fun lba => lba = 0 \/ is_block s lba) l.

(** What changes between two points of a function that works on blocks: the
    contents of the disk outside a sector, the block bitmap, the heap. *)
Record block_work (lba : Z) (s s' : fs) : Prop := {
  bw_layout : fs_layout s';
  bw_sector : sector s'.(disk) lba = sector s.(disk) lba;
  bw_sb : s'.(sb) = s.(sb);
  bw_len : zlen s'.(block_bmap).(base) = zlen s.(block_bmap).(base);
  bw_fdt : s'.(file_desc_tbl) = s.(file_desc_tbl);
  bw_uid : s'.(uid) = s.(uid);
}.

Lemma block_work_refl lba s : fs_layout s -> block_work lba s s.
Proof. intros H. constructor; done. Qed.

Lemma block_work_trans lba a b c : block_work lba a b -> block_work lba b c -> block_work lba a c.
Proof. intros [] []. constructor; [done|congruence..]. Qed.

Lemma is_block_work lba s s' a : block_work lba s s' -> is_block s a -> is_block s' a.
Proof. intros [_ _ E1 E2 _ _]. unfold is_block. rewrite E1, E2. done. Qed.

Lemma sectors_work lba s s' l : block_work lba s s' -> sectors_ok s l -> sectors_ok s' l.
Proof.
  intros Hw [H1 H2]. split; [done|]. eapply Forall_impl; [exact H2|]. cbv beta. intros a [->|Ha]; [by left|].
  right. eapply is_block_work; eauto.
Qed.

Lemma work_set_bitmap lba s b :
  fs_layout s -> bitmap_wf b -> zlen b.(base) = zlen s.(block_bmap).(base) ->
  block_work lba s (set_block_bmap b s).
Proof. intros [] Hb Hl. constructor; try done; constructor; cbn; try done; by rewrite Hl. Qed.

Lemma work_set_disk lba s d :
  fs_layout s -> full d -> sector d lba = sector s.(disk) lba -> block_work lba s (set_disk d s).
Proof. intros [] Hf Hl. constructor; try done; constructor; done. Qed.

Lemma work_malloc lba s : fs_layout s -> block_work lba s (count_malloc s).
Proof. intros []. constructor; try done; constructor; done. Qed.

Lemma work_free lba s : fs_layout s -> block_work lba s (count_free s).
Proof. intros []. constructor; try done; constructor; done. Qed.

(** The last loop of [write_file] releases every sector of its range. *)
Lemma runs_free_surplus lba idx : forall s l b (Q : list Z * bool -> fs -> Prop),
  fs_layout s -> sectors_ok s l -> (forall i, In i idx -> 0 < i < 9) ->
  (forall l' b' s', block_work lba s s' -> sectors_ok s' l' -> l' !! 0%nat = l !! 0%nat -> Q (l', b') s') ->
  runs (free_surplus idx l b) s Q.
Proof.
  induction idx as [|i idx IH]; intros s l b Q Hlay Hl Hi HQ; cbn [free_surplus].
  - apply runs_ret, HQ; [by apply block_work_refl|done|done].
  - assert (0 < i < 9) as Hi9 by (apply Hi; by left). pose proof Hl as [Hlen Hall].
    destruct (zget_in l i) as [a Ha]; [unfold zlen; lia|].
    apply runs_bind. eapply runs_lift; [exact Ha|].
    destruct (Z.eqb_spec 0 a) as [<-|Hne].
    { apply IH; [done..| |done]. intros j Hj. apply Hi. by right. }
    assert (is_block s a) as Hblk.
    { apply zget_Some in Ha as [_ Ha]. destruct (Forall_lookup_1 _ _ _ _ Hall Ha); [congruence|done]. }
    apply runs_bind, runs_gets, runs_bind, runs_free_block; [done|done|]. intros b' Hwf Hz _.
    pose proof (work_set_bitmap lba s b' Hlay Hwf Hz) as Hw.
    apply runs_bind. eapply runs_lift; [apply zset_in; unfold zlen; lia|].
    apply IH; [apply Hw| |intros j Hj; apply Hi; by right|].
    + pose proof (sectors_work _ _ _ _ Hw Hl) as [H1 H2]. split; [by rewrite length_insert|].
      apply Forall_insert; [done|by left].
    + intros l' b'' s' Hw' Hl' H0. apply HQ; [by eapply block_work_trans|done|].
      rewrite H0, list_lookup_insert_ne by lia. done.
Qed.

(** The inode table lies before the blocks. *)
Definition table_before (s : fs) (x : inode) : Prop :=
  is_u32 x.(inode_no) /\ s.(sb).(inode_table_lba) + x.(inode_no) / 8 < s.(sb).(data_start).

Lemma table_sector_before s x :
  fs_layout s -> table_before s x ->
  table_sector s x.(inode_no) = s.(sb).(inode_table_lba) + x.(inode_no) / 8 /\ 0 < s.(sb).(data_start).
Proof.
  intros [_ _ Hz [Hb0 Hb] Ht Htop] [[Hn _] Hlt]. pose proof (zlen_nonneg s.(block_bmap).(base)).
  assert (0 <= x.(inode_no) / 8) by (apply Z.div_pos; lia).
  unfold table_sector. rewrite (u32_id (_ + _)) by lia. rewrite u32_id by lia. lia.
Qed.

Lemma table_before_work lba s s' x x' :
  block_work lba s s' -> x'.(inode_no) = x.(inode_no) -> table_before s x -> table_before s' x'.
Proof. intros [_ _ E _ _ _] Ex H. unfold table_before. rewrite E, Ex. exact H. Qed.

(** Writing the inode back does not touch a block. *)
Lemma runs_sync_inode_work lba x s (Q : unit -> fs -> Prop) :
  fs_layout s -> table_before s x -> length x.(i_sectors) = 9%nat -> is_block s lba ->
  (forall s', block_work lba s s' -> Q tt s') -> runs (sync_inode x) s Q.
Proof.
  intros Hlay Htab Hx Hblk HQ. destruct (table_sector_before _ _ Hlay Htab) as [Et Hpos].
  apply runs_sync_inode; [apply (lay_full _ Hlay)|done|apply Htab|]. intros buf Hb. apply HQ.
  rewrite Et. pose proof (work_malloc lba s Hlay) as H1. eapply block_work_trans; [exact H1|].
  set (s1 := count_malloc s) in *. pose proof (bw_layout _ _ _ H1) as Hlay1.
  assert (block_work lba s1 (set_disk (<[inode_table_lba (sb s) + inode_no x / 8 := buf]> (disk s)) s1)) as H2.
  { apply work_set_disk; [done|apply full_insert; [apply (lay_full _ Hlay1)|done]|].
    rewrite sector_insert. case_if; [|done]. destruct Htab. unfold is_block in Hblk. lia. }
  eapply block_work_trans; [exact H2|]. apply work_free, H2.
Qed.

Lemma runs_sync_bitmap_work lba s (Q : unit -> fs -> Prop) :
  fs_layout s -> is_block s lba -> (forall s', block_work lba s s' -> Q tt s') -> runs sync_block_bitmap s Q.
Proof.
  intros Hlay Hblk HQ. apply runs_sync_block_bitmap; [done|]. intros d' Hf Hd. apply HQ.
  apply work_set_disk; auto.
Qed.

Lemma filter_ext_in {A} (P1 P2 : A -> Prop) `{!forall x, Decision (P1 x), !forall x, Decision (P2 x)} (l : list A) :
  (forall x, x ∈ l -> P1 x <-> P2 x) -> filter P1 l = filter P2 l.
Proof.
  induction l as [|a l IH]; intros HP; [done|]. rewrite !filter_cons, IH by (intros x Hx; apply HP; by right).
  apply decide_ext, HP. by left.
Qed.

Lemma filter_all {A} (P : A -> Prop) `{!forall x, Decision (P x)} (l : list A) : (forall x, x ∈ l -> P x) -> filter P l = l.
Proof.
  induction l as [|a l IH]; intros HP; [done|]. rewrite filter_cons_True by (apply HP; by left).
  f_equal. apply IH. intros x Hx. apply HP. by right.
Qed.

(** A free block of the bitmap, and [n] of them. *)
Definition free_bit (s : fs) (i : Z) : Prop := 0 <= i < 8 * s.(block_bmap).(bytes_len) /\ bit_at s.(block_bmap) i = false.
Definition blocks_left (s : fs) (n : nat) : Prop := exists l, NoDup l /\ (n <= length l)%nat /\ Forall (free_bit s) l.

(** One block is taken, or none. *)
Definition takes (s s' : fs) : Prop :=
  exists r, forall i, free_bit s i -> i <> r -> free_bit s' i.

Lemma blocks_left_takes s s' n : takes s s' -> blocks_left s (S n) -> blocks_left s' n.
Proof.
  intros [r Hr] (l & Hnd & Hn & Hl). exists (filter (fun i => i <> r) l).
  split; [by apply NoDup_filter|]. split.
  - assert (length l <= S (length (filter (fun i => i <> r) l)))%nat; [|lia]. clear Hn Hl.
    induction l as [|a l IH]; [cbn; lia|]. apply NoDup_cons in Hnd as [Ha Hnd]. rewrite filter_cons. case_decide as Hd.
    + cbn. specialize (IH Hnd). lia.
    + subst a. rewrite filter_all; [done|]. by intros x Hx ->.
  - apply Forall_forall. intros i Hi. apply list_elem_of_filter in Hi as [Hne Hi]. apply Hr; [|done].
    by eapply Forall_forall in Hl.
Qed.

(** The sector [i] of the file gets a block unless it has one. *)
Lemma runs_allocate_one s l i idx (Q : list Z -> fs -> Prop) :
  fs_layout s -> 0 < s.(sb).(data_start) -> sectors_ok s l -> 0 <= i < 9 ->
  (l.[i] = Some 0 -> exists k, free_bit s k) ->
  (forall l' s' lba, (forall a, block_work a s s') -> sectors_ok s' l' -> l'.[i] = Some lba -> is_block s' lba ->
     (l.[i] <> Some 0 -> s' = s) -> takes s s' -> (forall j, j <> i -> l'.[j] = l.[j]) ->
     runs (allocate_sectors idx l') s' Q) ->
  runs (allocate_sectors (i :: idx) l) s Q.
Proof.
  intros Hlay Hpos [Hlen Hall] Hi Hfree HQ. cbn [allocate_sectors].
  destruct (zget_in l i) as [a Ha]; [unfold zlen; lia|].
  apply runs_bind. eapply runs_lift; [exact Ha|]. destruct (Z.eqb_spec 0 a) as [<-|Hne].
  - apply runs_bind, runs_allocate_block; [done|by apply Hfree|]. intros r b' Hr _ Hwf Hz Hbl' Hbits.
    pose proof (fun lba => work_set_bitmap lba s b' Hlay Hwf Hz) as Hw.
    apply runs_bind, runs_gets, runs_bind. set (s' := set_block_bmap b' s) in *.
    pose proof (wf_len _ (lay_wf _ Hlay)) as Hbl. destruct Hlay as [_ _ Hz0 [Hb0 Hb] _ Htop].
    pose proof (zlen_nonneg s.(block_bmap).(base)). change (sb s') with (sb s).
    eapply runs_lift; [apply zset_in; unfold zlen; lia|].
    assert (is_block s' (u32 (data_start (sb s) + r))) as Hblk.
    { unfold is_block. change (sb s') with (sb s). cbn [block_bmap s' set_block_bmap]. rewrite Hz, u32_id; lia. }
    apply (HQ _ _ (u32 (data_start (sb s) + r))); [exact Hw| | |done|done| |].
    + destruct (sectors_work 0 s s' l (Hw 0)) as [H1 H2]; [done|]. split; [by rewrite length_insert|].
      apply Forall_insert; [done|by right].
    + rewrite (zget_insert l i i) by (unfold zlen; lia). by rewrite Z.eqb_refl.
    + exists r. intros k [Hk1 Hk2] Hkr. unfold free_bit. cbn [s' block_bmap set_block_bmap]. rewrite Hbl'.
      split; [done|]. rewrite Hbits by lia. by rewrite (proj2 (Z.eqb_neq k r)).
    + intros j Hj. destruct (Z.leb_spec 0 j) as [Hj0|Hj0].
      * rewrite zget_insert by (unfold zlen; lia). by rewrite (proj2 (Z.eqb_neq i j)) by congruence.
      * by rewrite !(proj2 (zget_None _ j)) by lia.
  - apply (HQ _ _ a); [intros; by apply block_work_refl|done|done| |done|by exists 0|done].
    apply zget_Some in Ha as [_ Ha]. destruct (Forall_lookup_1 _ _ _ _ Hall Ha); [congruence|done].
Qed.

(** Every sector of a range does, when there are enough free blocks. *)
Lemma runs_allocate_range idx : forall s l (Q : list Z -> fs -> Prop),
  fs_layout s -> 0 < s.(sb).(data_start) -> sectors_ok s l -> Forall (fun i => 0 <= i < 9) idx -> NoDup idx ->
  blocks_left s (length (filter (fun i => l.[i] = Some 0) idx)) ->
  (forall l' s', (forall a, block_work a s s') -> sectors_ok s' l' ->
     (forall i, i ∈ idx -> exists lba, l'.[i] = Some lba /\ is_block s' lba) ->
     (forall j, j ∉ idx -> l'.[j] = l.[j]) -> Q l' s') ->
  runs (allocate_sectors idx l) s Q.
Proof.
  induction idx as [|i idx IH]; intros s l Q Hlay Hpos Hl Hidx Hnd Hleft HQ.
  { apply runs_ret, HQ; [intros; by apply block_work_refl|done| |done]. intros i Hi. by apply elem_of_nil in Hi. }
  apply Forall_cons in Hidx as [Hi Hidx]. apply NoDup_cons in Hnd as [Hni Hnd]. rewrite filter_cons in Hleft.
  apply runs_allocate_one; [done..| |].
  { intros E. rewrite decide_True in Hleft by done. destruct Hleft as ([|k ks] & _ & Hn & Hks); [cbn in Hn; lia|].
    exists k. by apply Forall_cons in Hks as [? _]. }
  intros l1 s1 lba Hw Hl1 E1 Hblk Hsame Htakes Hrest.
  assert (filter (fun j => l1.[j] = Some 0) idx = filter (fun j => l.[j] = Some 0) idx) as Ef.
  { apply filter_ext_in. intros j Hj. rewrite Hrest; [done|]. by intros ->. }
  apply IH; [apply (Hw 0)| |done..| |].
  - by rewrite (bw_sb _ _ _ (Hw 0)).
  - rewrite Ef. destruct (decide (l.[i] = Some 0)) as [E|E].
    + by eapply blocks_left_takes.
    + by rewrite (Hsame E).
  - intros l' s' Hw' Hl' Hin Hout. apply HQ; [intros a; by eapply block_work_trans|done| |].
    + intros j Hj. apply elem_of_cons in Hj as [->|Hj]; [|by apply Hin]. exists lba. rewrite Hout by done.
      split; [done|]. exact (is_block_work lba _ _ _ (Hw' lba) Hblk).
    + intros j Hj. apply not_elem_of_cons in Hj as [Hj1 Hj2]. by rewrite Hout, Hrest.
Qed.

(** The first sector of the file gets a block unless it has one. *)
Lemma runs_allocate_first s l (Q : list Z -> fs -> Prop) :
  fs_layout s -> 0 < s.(sb).(data_start) -> sectors_ok s l ->
  (l.[0] = Some 0 -> exists i, free_bit s i) ->
  (forall l' s' lba, (forall a, block_work a s s') -> sectors_ok s' l' -> l'.[0] = Some lba -> is_block s' lba -> Q l' s') ->
  runs (allocate_sectors [0] l) s Q.
Proof.
  intros Hlay Hpos Hl Hfree HQ. apply runs_allocate_one; [done..|lia|done|].
  intros l' s' lba Hw Hl' E Hblk _ _ _. by apply runs_ret, (HQ l' s' lba).
Qed.

(** ** Writing and reading *)

(** The first [n] bytes of a sector. *)
Definition holds (s : fs) (lba : Z) (data : list Z) : Prop :=
  take (length data) (sector s.(disk) (u32 lba)) = data.

Lemma holds_work lba s s' data : block_work (u32 lba) s s' -> holds s lba data -> holds s' lba data.
Proof. intros [_ E _ _ _ _]. unfold holds. rewrite E. done. Qed.

Lemma copy_in_ok buf data rest :
  (length data <= length buf)%nat ->
  copy_in buf 0 (data ++ rest) (zlen data) = Some (data ++ drop (length data) buf).
Proof.
  intros H. unfold copy_in. rewrite (proj2 (Z.leb_le (zlen data) (zlen (data ++ rest))))
    by (rewrite zlen_app; pose proof (zlen_nonneg rest); lia).
  unfold zlen at 1. rewrite Nat2Z.id, take_app_length, put_ok by (unfold zlen; lia). done.
Qed.

Lemma runs_set_file fd f g s (Q : unit -> fs -> Prop) :
  s.(file_desc_tbl).[fd] = Some g -> Q tt (set_fdt (<[Z.to_nat fd := f]> s.(file_desc_tbl)) s) ->
  runs (set_file fd f) s Q.
Proof.
  intros Hfd HQ. unfold set_file. apply runs_bind, runs_gets, runs_bind.
  eapply runs_lift; [apply zset_in; eapply zget_lt; eauto|]. by apply runs_modify.
Qed.

Lemma fdt_layout s t : fs_layout s -> fs_layout (set_fdt t s).
Proof. intros []. constructor; done. Qed.

Lemma layout_set_disk s d : fs_layout s -> full d -> fs_layout (set_disk d s).
Proof. intros [] H. constructor; done. Qed.

(** The part of [write_file] after the data has been written. *)
Lemma runs_write_end k size fd f x lba l data s (Q : unit -> fs -> Prop) :
  1 <= k -> fs_layout s -> table_before s x -> sectors_ok s l -> l.[0] = Some lba -> is_block s lba -> 0 <= lba ->
  s.(file_desc_tbl).[fd] = Some (Some f) -> holds s lba data ->
  (forall s' x', fs_layout s' -> s'.(uid) = s.(uid) ->
     s'.(file_desc_tbl) = <[Z.to_nat fd := Some (mk_file f.(offset) x')]> s.(file_desc_tbl) ->
     x'.(i_sectors).[0] = Some lba -> x'.(i_size) = size -> x'.(i_mode) = x.(i_mode) ->
     x'.(i_uid) = x.(i_uid) -> length x'.(i_sectors) = 9%nat -> holds s' lba data -> Q tt s') ->
  runs ('(sectors, has_surplus) ← free_surplus (upto k 9) l false;
        let x' := set_size (set_sectors x sectors) size in
        set_file fd (Some (mk_file f.(offset) x')) ;;
        sync_inode x' ;;
        (if has_surplus : bool then sync_block_bitmap else skip) ;;
        free) s Q.
Proof.
  intros Hk Hlay Htab Hl Hl0 Hblk Hlba Hfd Hh HQ. pose proof (lay_top _ Hlay) as Htop.
  assert (u32 lba = lba) as Hu by (apply u32_id; unfold is_block in Hblk; lia).
  apply runs_bind, (runs_free_surplus lba); [done|done| |].
  { intros i Hi. apply list_elem_of_In, elem_of_seqZ in Hi. lia. }
  intros l' b s1 Hw1 Hl' Hl0'. cbv beta iota zeta.
  pose proof (bw_fdt _ _ _ Hw1) as Hfd1. rewrite <- Hfd1 in Hfd. apply runs_bind.
  eapply runs_set_file; [exact Hfd|]. rewrite Hfd1.
  set (x' := set_size (set_sectors x l') size). set (s2 := set_fdt _ s1).
  pose proof (fdt_layout _ (<[Z.to_nat fd := Some (mk_file f.(offset) x')]> s.(file_desc_tbl)) (bw_layout _ _ _ Hw1)) as Hlay2.
  fold s2 in Hlay2.
  assert (is_block s2 lba) as Hblk2 by exact (is_block_work _ _ _ _ Hw1 Hblk).
  apply runs_bind, (runs_sync_inode_work lba); [done| |apply Hl'|done|].
  { exact (table_before_work lba s s1 x x' Hw1 eq_refl Htab). }
  intros s3 Hw3. apply runs_bind.
  assert (forall s4, block_work lba s2 s4 -> Q tt (count_free s4)) as Hend.
  { intros s4 Hw4. pose proof (block_work_trans _ _ _ _ Hw4 (work_free lba _ (bw_layout _ _ _ Hw4))) as Hw5.
    apply (HQ _ x'); try done.
    - apply Hw5.
    - rewrite (bw_uid _ _ _ Hw5). apply (bw_uid _ _ _ Hw1).
    - rewrite (bw_fdt _ _ _ Hw5). done.
    - apply zget_Some. split; [lia|]. change (Z.to_nat 0) with 0%nat. cbn [x' i_sectors set_size set_sectors].
      rewrite Hl0'. by apply zget_Some in Hl0 as [_ ?].
    - apply Hl'.
    - unfold holds in *. rewrite Hu in *. rewrite (bw_sector _ _ _ Hw5). cbn [s2 disk set_fdt].
      rewrite (bw_sector _ _ _ Hw1). done. }
  destruct b; [|apply runs_ret, runs_modify, Hend, Hw3].
  apply (runs_sync_bitmap_work lba); [apply Hw3|exact (is_block_work _ _ _ _ Hw3 Hblk2)|].
  intros s4 Hw4. apply runs_modify, Hend. by eapply block_work_trans.
Qed.

Lemma runs_write_small fd f data rest s (Q : unit -> fs -> Prop) :
  let x := f.(f_inode) in
  fs_layout s -> table_before s x -> sectors_ok s x.(i_sectors) ->
  (x.(i_sectors).[0] = Some 0 -> exists i, 0 <= i < 8 * s.(block_bmap).(bytes_len) /\ bit_at s.(block_bmap) i = false) ->
  s.(file_desc_tbl).[fd] = Some (Some f) -> allowed s x access_mode.WRITE = true ->
  is_str data -> zlen data < 512 ->
  (forall s' x' lba, fs_layout s' -> s'.(uid) = s.(uid) ->
     s'.(file_desc_tbl) = <[Z.to_nat fd := Some (mk_file f.(offset) x')]> s.(file_desc_tbl) ->
     x'.(i_sectors).[0] = Some lba -> x'.(i_size) = zlen data -> x'.(i_mode) = x.(i_mode) ->
     x'.(i_uid) = x.(i_uid) -> length x'.(i_sectors) = 9%nat -> holds s' lba data -> Q tt s') ->
  runs (write_file fd (cstr data rest) (zlen data) file_io.COVER) s Q.
Proof.
  intros x Hlay Htab Hl Hfree Hfd Hok Hstr Hlen HQ. pose proof (zlen_nonneg data) as Hpos.
  destruct (table_sector_before _ _ Hlay Htab) as [_ Hds].
  unfold write_file. apply runs_bind, runs_gets, runs_bind. eapply runs_lift; [exact Hfd|]. cbv beta iota.
  apply runs_bind. eapply runs_lift; [apply strlen_cstr; [done|lia]|].
  rewrite (proj2 (Z.ltb_ge (zlen data) (zlen data))) by lia. fold x.
  apply runs_bind, runs_check. rewrite Hok. cbn [negb].
  replace (write_plan (i_size x) (zlen data) file_io.COVER) with (0, 0, 0, zlen data).
  2: { unfold write_plan. cbn [file_io.APPEND file_io.COVER Z.eqb]. unfold sector_size.
       rewrite Z.div_small, Z.mod_small by lia. done. }
  cbv beta iota zeta. change (upto 0 (0 + 1)) with [0]. change (upto (0 + 1) (0 - 1)) with (@nil Z).
  change (upto (0 + 1) 9) with (upto 1 9). change (sector_size - 0) with 512.
  rewrite (proj2 (Z.ltb_ge 512 (zlen data))) by lia.
  apply runs_bind, runs_allocate_first; [done|done|done|exact Hfree|]. intros l s1 lba Hw1 Hl1 Hl0 Hblk1.
  pose proof (bw_layout _ _ _ (Hw1 lba)) as Hlay1.
  apply runs_bind, (runs_sync_inode_work lba); [done| |apply Hl1|done|].
  { exact (table_before_work lba s s1 x (set_sectors x l) (Hw1 lba) eq_refl Htab). }
  intros s2 Hw2. apply runs_bind, (runs_sync_bitmap_work lba); [apply Hw2|exact (is_block_work _ _ _ _ Hw2 Hblk1)|].
  intros s3 Hw3. apply runs_bind. eexists _, _. split; [reflexivity|].
  apply runs_bind. eapply runs_lift; [exact Hl0|]. apply runs_bind, runs_read.
  set (s4 := count_malloc s3). pose proof (work_malloc lba s3 (bw_layout _ _ _ Hw3)) as Hw4. fold s4 in Hw4.
  assert (block_work lba s s4) as Hw.
  { exact (block_work_trans _ _ _ _ (Hw1 lba) (block_work_trans _ _ _ _ Hw2 (block_work_trans _ _ _ _ Hw3 Hw4))). }
  pose proof (bw_layout _ _ _ Hw) as Hlay4. pose proof (lay_full _ Hlay4 (u32 lba)) as Hf.
  apply runs_bind. eapply runs_lift; [apply copy_in_ok; unfold zlen in Hlen; lia|].
  apply runs_bind, runs_write; [rewrite length_app, length_drop; unfold zlen in Hlen; lia|].
  set (buf := data ++ _). assert (length buf = 512%nat) as Hbuf
    by (unfold buf; rewrite length_app, length_drop; unfold zlen in Hlen; lia).
  set (s5 := set_disk _ s4).
  assert (fs_layout s5) as Hlay5
    by (apply layout_set_disk; [done|apply full_insert; [apply (lay_full _ Hlay4)|done]]).
  assert (is_block s5 lba) as Hblk5.
  { pose proof (is_block_work _ _ _ _ (block_work_trans _ _ _ _ Hw2 (block_work_trans _ _ _ _ Hw3 Hw4)) Hblk1). done. }
  apply runs_bind, runs_ret, runs_bind, runs_ret.
  apply (runs_write_end 1 (zlen data) fd f x lba l data); try done.
  - unfold table_before. change (sb s5) with (sb s4). rewrite (bw_sb _ _ _ Hw). done.
  - exact (sectors_work _ _ _ _ (block_work_trans _ _ _ _ Hw2 (block_work_trans _ _ _ _ Hw3 Hw4)) Hl1).
  - pose proof (lay_top _ Hlay5). unfold is_block in Hblk5. change (sb s5) with (sb s4) in Hblk5.
    rewrite (bw_sb _ _ _ Hw) in Hblk5. lia.
  - change (file_desc_tbl s5) with (file_desc_tbl s4). rewrite (bw_fdt _ _ _ Hw). done.
  - unfold holds. cbn [s5 disk set_disk]. rewrite sector_insert, Z.eqb_refl. unfold buf. apply take_app_length.
  - intros s' x' H1 H2 H3. apply HQ; [done| |].
    + rewrite H2. apply (bw_uid _ _ _ Hw).
    + rewrite H3. change (file_desc_tbl s5) with (file_desc_tbl s4). by rewrite (bw_fdt _ _ _ Hw).
Qed.

(** Reading the first bytes of a sector. *)
Lemma runs_read_small fd f lba data buf s (Q : Z * list Z -> fs -> Prop) :
  let x := f.(f_inode) in
  full s.(disk) -> s.(file_desc_tbl).[fd] = Some (Some f) -> f.(offset) = 0 ->
  allowed s x access_mode.READ = true -> x.(i_sectors).[0] = Some lba -> x.(i_size) = zlen data ->
  zlen data < 512 -> holds s lba data -> (length data <= length buf)%nat ->
  (forall s', Q (zlen data, data ++ drop (length data) buf) s') ->
  runs (read_file fd buf (zlen data)) s Q.
Proof.
  intros x Hf Hfd Hoff Hok Hl0 Hsize Hlen Hh Hbuf HQ. pose proof (zlen_nonneg data) as Hpos.
  unfold read_file. apply runs_bind, runs_gets, runs_bind. eapply runs_lift; [exact Hfd|]. cbv beta iota.
  fold x. apply runs_bind, runs_check. rewrite Hok, Hsize, Hoff. cbn [negb].
  rewrite (proj2 (Z.ltb_ge (zlen data) (zlen data))), (proj2 (Z.ltb_ge 512 (zlen data))) by lia.
  cbv beta iota zeta. rewrite ?Z.sub_diag. change (u32 0 mod sector_size) with 0. change (0 / sector_size) with 0.
  change (0 mod sector_size) with 0. change (upto (0 + 1) 0) with (@nil Z). change (Z.to_nat 0) with 0%nat.
  apply runs_bind. eexists _, _. split; [reflexivity|]. set (s1 := count_malloc s).
  apply runs_bind. eapply runs_lift; [exact Hl0|]. apply runs_bind, runs_read.
  change (disk s1) with (disk s). rewrite drop_0. rewrite <- (take_drop (length data) (sector (disk s) (u32 lba))).
  unfold holds in Hh. rewrite Hh.
  apply runs_bind. eapply runs_lift; [by apply copy_in_ok|].
  apply runs_bind, runs_ret, runs_bind, runs_ret, runs_bind, runs_modify, runs_bind.
  eapply runs_set_file; [exact Hfd|]. apply runs_ret, HQ.
Qed.

(** An open file of the mounted partition: its inode is in the table, its
    sectors are blocks, and if it has no first sector there is a free block. *)
Record open_file_ok (s : fs) (fd : Z) (f : file) : Prop := {
  of_fd : s.(file_desc_tbl).[fd] = Some (Some f);
  of_table : table_before s f.(f_inode);
  of_sectors : sectors_ok s f.(f_inode).(i_sectors);
  of_free : f.(f_inode).(i_sectors).[0] = Some 0 ->
            exists i, 0 <= i < 8 * s.(block_bmap).(bytes_len) /\ bit_at s.(block_bmap) i = false;
}.

Lemma runs_write_read fd f data rest buf s :
  fs_layout s -> open_file_ok s fd f ->
  allowed s f.(f_inode) access_mode.WRITE = true -> allowed s f.(f_inode) access_mode.READ = true ->
  is_str data -> zlen data < 512 -> (length data <= length buf)%nat ->
  runs (write_file fd (cstr data rest) (zlen data) file_io.COVER ;;
        lseek_file fd 0 ;;
        read_file fd buf (zlen data)) s
    (fun r _ => r = (zlen data, data ++ drop (length data) buf)).
Proof.
  intros Hlay [Hfd Htab Hl Hfree] Hw Hr Hstr Hlen Hbuf. pose proof (zget_lt _ _ _ Hfd) as Hrange.
  apply runs_bind, (runs_write_small fd f data rest); try done.
  intros s1 x' lba Hlay1 Hu1 Ht1 Hl0 Hsz Hmode Hui Hn Hh. set (f1 := mk_file _ x') in Ht1.
  assert ((file_desc_tbl s1).[fd] = Some (Some f1)) as Hfd1
    by (rewrite Ht1, zget_insert by lia; by rewrite Z.eqb_refl).
  apply runs_bind. unfold lseek_file. apply runs_bind, runs_gets, runs_bind.
  eapply runs_lift; [exact Hfd1|]. apply runs_bind. eapply runs_lift; [reflexivity|].
  cbn [f_inode f1]. rewrite (proj2 (Z.ltb_ge (i_size x') 0)) by (rewrite Hsz; apply zlen_nonneg).
  eapply runs_set_file; [exact Hfd1|]. set (s2 := set_fdt _ s1).
  eapply (runs_read_small fd (mk_file 0 x') lba data buf s2); try done.
  - apply (lay_full _ Hlay1).
  - cbn [s2 file_desc_tbl set_fdt]. rewrite zget_insert by (rewrite ?Ht1, ?zlen_insert; lia). by rewrite Z.eqb_refl.
  - rewrite <- Hr. unfold allowed. cbn [f_inode]. change (uid s2) with (uid s1). by rewrite Hu1, Hui, Hmode.
Qed.

(** C8. Fewer than 512 bytes, none of them 0, that are written over an open file
    are read back: the write in the mode that covers the file, a seek to the start
    and a read of as many bytes return, and the reader gets the bytes that were
    written, the rest of its buffer as it was. (Longer writes and appends lose
    bytes, see FsDefects.v.) *)
Theorem write_then_read fd f data rest buf s :
  fs_layout s -> open_file_ok s fd f ->
  allowed s f.(f_inode) access_mode.WRITE = true -> allowed s f.(f_inode) access_mode.READ = true ->
  is_str data -> zlen data < 512 -> (length data <= length buf)%nat ->
  runs (write_file fd (cstr data rest) (zlen data) file_io.COVER ;;
        lseek_file fd 0 ;;
        read_file fd buf (zlen data)) s
    (fun r _ => r = (zlen data, data ++ drop (length data) buf)).
Proof. apply runs_write_read. Qed.

Lemma demo_layout : fs_layout demo.
Proof.
  constructor.
  - apply typed_full, demo_typed.
  - constructor; [apply (t_block_bmap _ demo_typed)|split; [discriminate|vm_compute; discriminate]|reflexivity].
  - reflexivity.
  - split; discriminate.
  - split; [discriminate|discriminate].
  - discriminate.
  - discriminate.
Qed.

(** The file [/etc/rc] is open. *)
Definition demo_file : file := mk_file 0 (demo_inode 2 3 0 24).
Definition demo_open : fs := set_fdt (Some demo_file :: replicate 63 None) demo.

Lemma write_then_read_witness :
  runs (write_file 0 (cstr [104; 105; 33; 33] []) 4 file_io.COVER ;;
        lseek_file 0 0 ;;
        read_file 0 [1; 2; 3; 4; 5] 4) demo_open
    (fun r _ => r = (4, [104; 105; 33; 33; 5])).
Proof.
  apply (write_then_read 0 demo_file [104; 105; 33; 33] [] [1; 2; 3; 4; 5]).
  - apply fdt_layout, demo_layout.
  - constructor.
    + reflexivity.
    + split; [split; [discriminate|reflexivity]|reflexivity].
    + split; [reflexivity|]. apply Forall_cons_2; [right; split; [discriminate|reflexivity]|].
      apply Forall_replicate. by left.
    + discriminate.
  - reflexivity.
  - reflexivity.
  - repeat (apply Forall_cons_2; [split; [split; [discriminate|reflexivity]|discriminate]|]). by apply Forall_nil.
  - reflexivity.
  - apply Nat.leb_le. reflexivity.
Defined.
