(* ===== verification/FormatSpec.v ===== *)
(** * Formatting and mounting

    A partition that has been formatted and mounted is an empty file system: the
    super block is the computed layout, the places on the disk do not overlap,
    and the root directory has the names [.] and [..] and no other. *)
From Stdlib Require Import String.
From S2P Require Import Prelude Bitmap CString FsState Inode Dir File FileSystem DirSpec FsTypes.
#[local] Open Scope string_scope.
#[global] Open Scope list_scope.
#[global] Open Scope Z_scope.
#[local] Ltac Zify.zify_post_hook ::= Z.to_euclidean_division_equations.

(** ** Several sectors *)

(** What the sectors hold afterwards. *)
Lemma write_sectors_get n d lba buf d' k :
  write_sectors n d lba buf = Some d' -> 0 <= lba -> lba + Z.of_nat n <= 4294967296 -> (k < n)%nat ->
  sector d' (lba + Z.of_nat k) = take 512 (drop (512 * k) buf).
Proof.
  revert d lba buf k. induction n as [|n IH]; intros d lba buf k H H0 Hl Hk; [lia|].
  cbn [write_sectors] in H. unfold sector_size in H. destruct (Z.ltb_spec (zlen buf) 512) as [|Hb]; [done|].
  destruct k as [|k].
  - assert (exists d2, write_sectors n (<[u32 lba := take 512 buf]> d) (lba + 1) (drop 512 buf) = Some d2 /\
              sector d2 lba = sector (<[u32 lba := take 512 buf]> d) lba) as (d2 & Hd & Hs).
    { clear IH. revert H. generalize (<[u32 lba := take 512 buf]> d) (drop 512 buf). clear d buf Hb.
      assert (forall m e a b, write_sectors m e a b = Some d' -> lba < a -> a + Z.of_nat m <= 4294967296 ->
                sector d' lba = sector e lba) as Hfr.
      { induction m as [|m IHm]; intros e a b Hw Ha Hm; cbn [write_sectors] in Hw; [by injection Hw as <-|].
        destruct (_ <? _); [done|]. rewrite (IHm _ _ _ Hw) by lia. rewrite sector_insert, u32_id by lia.
        case_if; [lia|done]. }
      intros e b Hw. exists d'. split; [done|]. apply (Hfr _ _ _ _ Hw); lia. }
    rewrite Hd in H. injection H as ->. rewrite Z.add_0_r, Hs, sector_insert, u32_id, Z.eqb_refl by lia. done.
  - rewrite Nat2Z.inj_succ. replace (lba + Z.succ (Z.of_nat k)) with (lba + 1 + Z.of_nat k) by lia.
    rewrite (IH _ _ _ k H) by lia. rewrite drop_drop. do 2 f_equal. lia.
Qed.

(** The state after a write: what changed, and what the sectors hold. *)
Lemma runs_write_many lba buf cnt s (Q : unit -> fs -> Prop) :
  full s.(disk) -> 1 <= cnt <= 256 -> 512 * cnt <= zlen buf -> 0 <= lba -> lba + cnt <= 4294967296 ->
  (forall d', full d' -> (forall a, a < lba \/ lba + cnt <= a -> sector d' a = sector s.(disk) a) ->
     (0 < cnt -> sector d' lba = take 512 buf) -> Q tt (set_disk d' s)) ->
  runs (write_disk lba buf cnt) s Q.
Proof.
  intros Hf Hc Hb H0 Hl HQ.
  destruct (write_sectors_frame (Z.to_nat cnt) (disk s) lba buf) as (d' & Hd & Hfl & Hfr); [done|lia..|].
  exists tt, (set_disk d' s). unfold write_disk. rewrite can_transfer_true, Hd by done. split; [done|]. apply HQ; [done| |].
  - intros a Ha. apply Hfr. lia.
  - intros Hp. pose proof (write_sectors_get _ _ _ _ _ 0 Hd ltac:(lia) ltac:(lia) ltac:(lia)) as H.
    change (512 * 0)%nat with 0%nat in H. cbn [Z.of_nat] in H. rewrite Z.add_0_r, drop_0 in H. exact H.
Qed.

Lemma read_many_length lba cnt d :
  full d -> 0 <= cnt -> zlen (concat (map (fun k => sector d (u32 (lba + k))) (seqZ 0 cnt))) = 512 * cnt.
Proof.
  intros Hf Hc. unfold zlen. rewrite length_concat, map_map.
  rewrite (map_ext _ (fun _ => 512%nat)) by (intros; apply Hf).
  rewrite <- (Z2Nat.id cnt) at 2 by done. rewrite <- (length_seqZ 0 cnt).
  generalize (seqZ 0 cnt). induction l as [|x l IH]; [done|]. cbn [map length list_sum foldr]. unfold list_sum in IH. lia.
Qed.

(** ** The layout *)

(** Sizes the theorem is about: room for the tables, a block bitmap that the driver
    transfers in one request (up to 512 MB), addresses of 28 bits. *)
Record partition_fits (part : partition) : Prop := {
  fits_cnt : 20 <= part.(sector_cnt) <= 1048576;
  fits_lba : 0 <= part.(p_start_lba);
  fits_end : part.(p_start_lba) + part.(sector_cnt) <= 268435456;
}.

(** The sectors from [a] to [b] are divided into [regions], one behind the other. *)
Fixpoint tiled (a : Z) (regions : list (Z * Z)) (b : Z) : Prop :=
  match regions with
  | [] => a = b
  | (lba, n) :: regions' => lba = a /\ 0 < n /\ tiled (a + n) regions' b
  end.

(** The number of files a partition has room for. *)
Definition files_for (part : partition) : Z := if 10000 <? part.(sector_cnt) then 1024 else 64.

(** What a layout has to be: boot sector, super block, block bitmap, inode bitmap,
    inode table and data divide the partition without gap or overlap; the inode
    table has a place of 64 bytes for every file and the inode bitmap a bit; every
    data sector has a bit in the block bitmap, but for one that may be left over;
    and there are data. *)
Record laid_out (part : partition) (x : super_block_data) : Prop := {
  lo_tiled : tiled part.(p_start_lba)
    [(part.(p_start_lba), 1); (part.(p_start_lba) + 1, 1); (x.(block_bitmap_lba), x.(block_bitmap_sectors));
     (x.(inode_bitmap_lba), x.(inode_bitmap_sectors)); (x.(inode_table_lba), x.(inode_table_sectors));
     (x.(data_start), part.(p_start_lba) + part.(sector_cnt) - x.(data_start))]
    (part.(p_start_lba) + part.(sector_cnt));
  lo_table : 64 * files_for part <= 512 * x.(inode_table_sectors);
  lo_inodes : files_for part <= 4096 * x.(inode_bitmap_sectors);
  lo_blocks : part.(p_start_lba) + part.(sector_cnt) - x.(data_start) <= 4096 * x.(block_bitmap_sectors) + 1;
  lo_requests : x.(block_bitmap_sectors) <= 256 /\ x.(inode_bitmap_sectors) <= 256 /\ x.(inode_table_sectors) <= 256;
  lo_magic : x.(magic) = text "Shmily" ++ [0];
  lo_size : x.(sectors_nr) = part.(sector_cnt) /\ x.(start_lba) = part.(p_start_lba);
}.

Lemma div_round_up_4096 x : 0 <= x <= 1048576 -> div_round_up x (8 * sector_size) = (x + 4095) / 4096.
Proof.
  intros H. unfold div_round_up. change (8 * sector_size) with 4096. rewrite u32_id by lia. f_equal. lia.
Qed.

Lemma layout_spec part :
  partition_fits part ->
  exists b bbs it, (it = 8 \/ it = 128) /\ 1 <= bbs <= 256 /\ (files_for part = 8 * it /\ 4096 * bbs <= part.(sector_cnt) + 4096 /\
      part.(sector_cnt) - 3 - it - bbs <= 4096 * bbs + 1 /\ 3 <= part.(sector_cnt) - 3 - it - bbs) /\
    layout part =
      mk_sb (text "Shmily" ++ [0]) b part.(sector_cnt) 0 part.(p_start_lba) (part.(p_start_lba) + 2) bbs
        (part.(p_start_lba) + 2 + bbs) 1 (part.(p_start_lba) + 3 + bbs) it (part.(p_start_lba) + 3 + bbs + it) 0 72.
Proof.
  intros [Hc Hl He]. unfold layout, files_for.
  set (it := if 10000 <? sector_cnt part then div_round_up (sizeof_inode * max_file_nr) sector_size
             else div_round_up (sizeof_inode * min_file_nr) sector_size).
  assert (it = if 10000 <? sector_cnt part then 128 else 8) as Hit
    by (unfold it; destruct (10000 <? sector_cnt part); reflexivity).
  replace (if 10000 <? sector_cnt part then div_round_up max_file_nr (8 * sector_size)
           else div_round_up min_file_nr sector_size) with 1
    by (destruct (10000 <? sector_cnt part); reflexivity).
  cbv zeta. rewrite (u32_id (sector_cnt part - 1 - it - 2)) by (rewrite Hit; destruct (10000 <? _) eqn:E; zbool; lia).
  set (free := sector_cnt part - 1 - it - 2).
  assert (sector_cnt part - 3 - it = free) as Hfr by (unfold free; lia).
  assert (9 <= free <= sector_cnt part) as Hfree by (unfold free; rewrite Hit; destruct (10000 <? _) eqn:E; zbool; lia).
  clearbody free.
  rewrite (div_round_up_4096 free) by lia. rewrite (u32_id (free - _)) by lia. rewrite div_round_up_4096 by lia.
  set (bbs := (free - (free + 4095) / 4096 + 4095) / 4096).
  assert (1 <= bbs <= 256) as Hb1 by (unfold bbs; lia).
  assert (4096 * bbs <= sector_cnt part + 4096 /\ free - bbs <= 4096 * bbs + 1 /\ 3 <= free - bbs) as Hb2 by (unfold bbs; lia).
  exists (Z.b2z (10000 <? sector_cnt part)), bbs, it.
  assert (it = 8 \/ it = 128) as Hit' by (rewrite Hit; destruct (10000 <? _); auto).
  split; [done|]. split; [done|]. split; [rewrite Hit in *; destruct (10000 <? _); lia|]. clearbody bbs it.
  rewrite (u32_id (p_start_lba part + 2)) by lia. rewrite (u32_id (_ + 2 + bbs)) by lia.
  rewrite (u32_id (_ + bbs + 1)) by lia. rewrite u32_id by lia.
  f_equal; lia.
Qed.

Lemma layout_laid_out part : partition_fits part -> laid_out part (layout part).
Proof.
  intros Hfit. destruct (layout_spec part Hfit) as (b & bbs & it & Hit & Hb1 & (Hf & Hc1 & Hc2 & Hc3) & ->).
  destruct Hfit as [Hc Hl He].
  constructor; cbn [tiled block_bitmap_lba block_bitmap_sectors inode_bitmap_lba inode_bitmap_sectors inode_table_lba
    inode_table_sectors data_start magic sectors_nr start_lba]; [repeat split; lia|lia|lia|lia|lia|done|done].
Qed.

(** ** The root directory *)

Lemma put_take buf off data n :
  0 <= off -> off + zlen data <= Z.of_nat n -> (n <= length buf)%nat ->
  exists buf', put buf off data = Some buf' /\ put (take n buf) off data = Some (take n buf').
Proof.
  intros H0 Hn Hl. unfold zlen in *. eexists.
  rewrite put_ok, put_ok by (unfold zlen; rewrite ?length_take; lia). split; [reflexivity|]. f_equal.
  rewrite take_take, Nat.min_l by lia. rewrite take_app, length_take, Nat.min_l by lia.
  rewrite (take_ge (take _ _)) by (rewrite length_take; lia). f_equal.
  rewrite take_app. rewrite (take_ge data) by lia. f_equal.
  rewrite skipn_firstn_comm. f_equal. lia.
Qed.

(** The root sector, as [partition_install_fs] composes it in its buffer. *)
Definition root_sector : list Z :=
  fill 512 (fill 64 (text ".") ++ le 4 0 ++ le 4 0 ++ fill 64 (text "..") ++ le 4 0).

Lemma root_puts t1 t2 t3 t4 :
  put (replicate 512 0) 0 (text ".") = Some t1 -> put t1 64 (le 4 0) = Some t2 ->
  put t2 72 (text "..") = Some t3 -> put t3 136 (le 4 0) = Some t4 -> t4 = root_sector.
Proof.
  intros F1 F2 F3 F4. vm_compute in F1. injection F1 as <-. vm_compute in F2. injection F2 as <-.
  vm_compute in F3. injection F3 as <-. vm_compute in F4. injection F4 as <-. vm_compute. reflexivity.
Qed.

Lemma root_buffer (n : nat) :
  (512 <= n)%nat ->
  exists b1 b2 b3 b4, put (replicate n 0) 0 (text ".") = Some b1 /\ put b1 64 (le 4 0) = Some b2 /\
    put b2 72 (text "..") = Some b3 /\ put b3 136 (le 4 0) = Some b4 /\
    length b4 = n /\ take 512 b4 = root_sector.
Proof.
  intros Hn.
  destruct (put_take (replicate n 0) 0 (text ".") 512) as (b1 & E1 & F1); [done|done|rewrite length_replicate; lia|].
  pose proof (put_length _ _ _ _ E1) as L1. rewrite length_replicate in L1.
  destruct (put_take b1 64 (le 4 0) 512) as (b2 & E2 & F2); [done|done|lia|].
  pose proof (put_length _ _ _ _ E2) as L2.
  destruct (put_take b2 72 (text "..") 512) as (b3 & E3 & F3); [done|done|lia|].
  pose proof (put_length _ _ _ _ E3) as L3.
  destruct (put_take b3 136 (le 4 0) 512) as (b4 & E4 & F4); [done|done|lia|].
  pose proof (put_length _ _ _ _ E4) as L4.
  exists b1, b2, b3, b4. do 4 (split; [assumption|]). split; [lia|].
  rewrite take_replicate, Nat.min_l in F1 by lia.
  exact (root_puts _ _ _ _ F1 F2 F3 F4).
Qed.

(** ** Formatting *)

(** What formatting leaves on the disk. *)
Record formatted (part : partition) (d : gmap Z (list Z)) : Prop := {
  fm_full : full d;
  fm_sb : sector d (part.(p_start_lba) + 1) = enc_sb (layout part) ++ replicate 456 0;
  fm_inode : exists rest, sector d (layout part).(inode_table_lba) = enc_inode (root_inode (layout part)) ++ rest;
  fm_root : sector d (layout part).(data_start) = root_sector;
  fm_bits : sector d (layout part).(inode_bitmap_lba) = 1 :: replicate 511 0;
}.

Lemma runs_malloc n s (Q : list Z -> fs -> Prop) :
  (forall b, length b = Z.to_nat n -> Q b (count_malloc s)) -> runs (malloc n) s Q.
Proof.
  intros HQ. eexists _, _. split; [reflexivity|]. apply HQ. rewrite length_map, length_seqZ. done.
Qed.

Lemma runs_set_first b (s : fs) (Q : list Z -> fs -> Prop) :
  (0 < length b)%nat -> (forall b', length b' = length b -> Q b' s) -> runs (lift (set_first b)) s Q.
Proof.
  intros Hl HQ. destruct b as [|x b]; [cbn in Hl; lia|]. eapply runs_lift; [reflexivity|]. by apply HQ.
Qed.

Lemma install_formats part s :
  partition_fits part -> full s.(disk) ->
  runs (partition_install_fs part) s (fun _ s' =>
    formatted part s'.(disk) /\ s'.(cur_dir) = s.(cur_dir) /\ s'.(uid) = s.(uid)).
Proof.
  intros Hfit Hfull. pose proof Hfit as [Hc Hl He].
  destruct (layout_spec part Hfit) as (b & bbs & it & Hit & Hb1 & Hb2 & El).
  assert (length (magic (layout part)) = 7%nat) as Hmag by (rewrite El; done).
  pose proof (enc_sb_length _ Hmag) as Hsb.
  pose proof (enc_inode_length (root_inode (layout part)) eq_refl) as Hino.
  unfold partition_install_fs. set (sb := layout part) in *.
  set (rt := enc_inode (root_inode sb)) in *. set (esb := enc_sb sb) in *.
  rewrite (u32_id (p_start_lba part + 1)) by lia.
  replace (u32 _) with (Z.max it bbs * 512).
  2: { rewrite El. cbn [inode_table_sectors block_bitmap_sectors]. unfold sector_size.
       destruct (Z.ltb_spec it bbs); rewrite u32_id; lia. }
  set (size := Z.max it bbs * 512). set (zeros := replicate (Z.to_nat size) 0).
  apply runs_bind, runs_malloc. intros _ _. apply runs_bind, runs_write_many; [done|lia| |lia|lia|].
  { unfold zlen. rewrite length_app, length_replicate, Hsb. lia. }
  intros d1 F1 _ S1. specialize (S1 ltac:(lia)). rewrite take_ge in S1 by (rewrite length_app, length_replicate; lia).
  apply runs_bind, runs_malloc. intros b0 Hb0. apply runs_bind, runs_set_first; [lia|]. intros b0' Hb0'.
  rewrite El. cbn [block_bitmap_lba block_bitmap_sectors inode_bitmap_lba inode_bitmap_sectors inode_table_lba
    inode_table_sectors data_start].
  apply runs_bind, runs_write_many; [done|lia|unfold zlen; lia|lia|lia|]. intros d2 F2 R2 _.
  assert (set_first zeros = Some (1 :: replicate (Z.to_nat size - 1) 0)) as Hfirst.
  { unfold zeros. destruct (Z.to_nat size) as [|k] eqn:E; [lia|]. cbn [Nat.sub]. by rewrite Nat.sub_0_r. }
  apply runs_bind. eapply runs_lift; [exact Hfirst|].
  apply runs_bind, runs_write_many; [done|lia|unfold zlen; cbn [length]; rewrite length_replicate; lia|lia|lia|].
  intros d3 F3 R3 S3. specialize (S3 ltac:(lia)).
  assert (put zeros 0 rt = Some (rt ++ drop 64 zeros)) as Hput.
  { rewrite put_ok; [|lia|unfold zlen, zeros; rewrite length_replicate; lia]. rewrite Hino. done. }
  apply runs_bind. eapply runs_lift; [exact Hput|].
  apply runs_bind, runs_write_many; [done|lia| |lia|lia|].
  { unfold zlen. rewrite length_app, length_drop. unfold zeros. rewrite length_replicate. lia. }
  intros d4 F4 R4 S4. specialize (S4 ltac:(lia)).
  destruct (root_buffer (Z.to_nat size)) as (c1 & c2 & c3 & c4 & P1 & P2 & P3 & P4 & Lc & Tc); [lia|].
  do 4 (apply runs_bind; eapply runs_lift; [eassumption|]).
  apply runs_bind, runs_write_many; [done|lia|unfold zlen; lia|lia|lia|]. intros d5 F5 R5 S5. specialize (S5 ltac:(lia)).
  apply runs_bind, runs_modify, runs_modify. split; [|done]. cbn [disk count_free set_disk count_malloc] in *.
  constructor; [done| | | |].
  - rewrite R5, R4, R3, R2 by lia. exact S1.
  - fold sb. rewrite El. cbn [inode_table_lba]. rewrite R5 by lia. rewrite S4.
    eexists. rewrite take_app_ge by lia. rewrite <- El. reflexivity.
  - fold sb. rewrite El. cbn [data_start]. rewrite S5. exact Tc.
  - fold sb. rewrite El. cbn [inode_bitmap_lba]. rewrite R5, R4, S3 by lia.
    change (take 512 (1 :: ?r)) with (1 :: take 511 r). rewrite take_replicate. do 2 f_equal. lia.
Qed.

(** ** Mounting *)

Lemma mount_formatted d name part s :
  partition_fits part -> find_partition (d.(primary) ++ d.(logic)) name None = Some (Some part) ->
  fs_typed s -> formatted part s.(disk) ->
  runs (mount_partition d name) s (fun _ s' =>
    s'.(disk) = s.(disk) /\ s'.(sb) = layout part /\ fs_layout s' /\ s'.(cur_dir) = fill 64 (text "/") /\
    s'.(inode_bmap) = mk_bitmap 512 (1 :: replicate 511 0) /\ s'.(uid) = s.(uid)).
Proof.
  intros Hfit Hfind Hs [Ff Fs Fi Fr Fb]. pose proof Hfit as [Hc Hl He].
  destruct (layout_spec part Hfit) as (b & bbs & it & Hit & Hb1 & Hb2 & El).
  assert (sb_ok (layout part)) as Hok by (apply layout_ok; unwrap; lia).
  unfold mount_partition. apply runs_bind. eapply runs_lift; [exact Hfind|].
  apply runs_bind, runs_malloc. intros _ _. apply runs_bind, runs_malloc. intros _ _.
  apply runs_bind. eapply runs_lift; [reflexivity|]. apply runs_bind, runs_read.
  cbn [disk count_malloc]. rewrite (u32_id (u32 _)), (u32_id (_ + 1)) by (try apply u32_range; lia).
  rewrite Fs, dec_enc_sb by done. apply runs_bind, runs_modify. rewrite El.
  cbn [block_bitmap_lba block_bitmap_sectors inode_bitmap_lba inode_bitmap_sectors].
  apply runs_bind, runs_modify, runs_bind, runs_malloc. intros _ _.
  apply runs_bind. eexists _, _. split; [unfold read_disk; rewrite can_transfer_true by done; reflexivity|]. apply runs_bind, runs_modify.
  apply runs_bind, runs_malloc. intros _ _.
  apply runs_bind. eexists _, _. split; [reflexivity|]. apply runs_bind, runs_modify.
  apply runs_bind. eapply runs_lift; [reflexivity|]. apply runs_modify.
  split; [done|]. split; [done|]. split; [|split; [vm_compute; reflexivity|split; [|done]]].
  2: { cbn [inode_bmap set_cur_dir set_inode_bmap disk count_malloc count_free set_block_bmap set_sb]. f_equal. rewrite El in Fb. cbn [inode_bitmap_lba] in Fb. change (seqZ 0 1) with [0].
       cbn [map concat]. rewrite app_nil_r, Z.add_0_r, u32_id by lia. exact Fb. }
  cbn [disk set_cur_dir set_inode_bmap set_block_bmap count_malloc count_free set_sb].
  set (base := concat (map _ (seqZ 0 bbs))).
  assert (zlen base = 512 * bbs) as Hz by (apply (read_many_length _ _ _ Ff); lia).
  assert (Forall is_u8 base) as Hu8.
  { apply Forall_concat, Forall_map, Forall_forall. intros k _. apply (sector_typed s). done. }
  assert (u32 (bbs * sector_size) = 512 * bbs) as Hlen by (unfold sector_size; rewrite u32_id; lia).
  constructor; cbn [disk block_bmap sb set_cur_dir set_inode_bmap set_block_bmap count_malloc count_free set_sb
    Bitmap.base bytes_len block_bitmap_lba block_bitmap_sectors inode_table_lba data_start]; try lia; [done|].
  constructor; cbn [Bitmap.base bytes_len]; [done|lia|lia].
Qed.

Lemma root_names :
  map name_of (sector_entries root_sector) = [text "."; text ".."; []; []; []; []; []] /\
  map d_inode_no (sector_entries root_sector) = [0; 0; 0; 0; 0; 0; 0].
Proof. vm_compute. done. Qed.

Lemma lookup_name_none es name : name <> [] -> Forall (fun n => n <> name) (map name_of es) -> lookup_name es name = None.
Proof.
  intros Hne. induction es as [|e es IH]; intros H; [done|]. inversion H; subst. cbn [lookup_name].
  rewrite bool_decide_eq_false_2 by done. auto.
Qed.

Lemma root_lookup name :
  name <> [] ->
  lookup_name (sector_entries root_sector) name =
    if decide (name = text "." \/ name = text "..") then Some 0 else None.
Proof.
  intros Hne. case_decide as E.
  - destruct E as [-> | ->]; vm_compute; reflexivity.
  - apply lookup_name_none; [done|]. rewrite (proj1 root_names).
    repeat (apply Forall_cons_2; [intros <-; tauto|]). apply Forall_nil. done.
Qed.

(** What the two calls leave. *)
Record empty_fs (part : partition) (s s' : fs) : Prop := {
  ef_typed : fs_typed s';
  ef_sb : s'.(sb) = layout part;
  ef_layout : fs_layout s';
  ef_dir : s'.(cur_dir) = fill 64 (text "/");
  ef_bits : s'.(inode_bmap) = mk_bitmap 512 (1 :: replicate 511 0);
  ef_uid : s'.(uid) = s.(uid);
  ef_inode : inode_of s' 0 = root_inode (layout part);
  ef_root : entries s' (root_inode (layout part)).(i_sectors) = sector_entries root_sector;
}.

Lemma format_mount_spec d name part s :
  partition_fits part -> find_partition (d.(primary) ++ d.(logic)) name None = Some (Some part) -> fs_typed s ->
  runs (partition_install_fs part ;; mount_partition d name) s (fun _ s' => empty_fs part s s').
Proof.
  intros Hfit Hfind Hs. pose proof Hfit as [Hc Hl He].
  destruct (layout_spec part Hfit) as (b & bbs & it & Hit & Hb1 & Hb2 & El).
  assert (is_u32 (sector_cnt part) /\ is_u32 (p_start_lba part)) as [Hcu Hlu] by (unwrap; lia).
  apply runs_bind. destruct (install_formats part s Hfit (typed_full _ Hs)) as ([] & s1 & E1 & Hfm & _ & Hu1).
  exists tt, s1. split; [done|]. destruct (install_keeps part Hcu Hlu s tt s1 Hs E1) as [Hs1 _].
  destruct (mount_formatted d name part s1 Hfit Hfind Hs1 Hfm) as ([] & s2 & E2 & Hd & Hsb & Hlay & Hcd & Hbm & Hu2).
  destruct (mount_keeps d name s1 tt s2 Hs1 E2) as [Hs2 _].
  exists tt, s2. split; [done|]. destruct Hfm as [_ _ [rest Fi] Fr _].
  assert (is_u32 (layout part).(data_start)) as Hds by (rewrite El; cbn; unwrap; lia).
  constructor; try done; [congruence| |].
  - unfold inode_of. replace (table_sector s2 0) with (layout part).(inode_table_lba).
    2: { unfold table_sector. rewrite Hsb, El. cbn [inode_table_lba]. rewrite (u32_id (_ + 0 / 8)) by lia. rewrite u32_id; lia. }
    rewrite Hd, Fi. change (Z.to_nat (0 mod 8 * 64)) with 0%nat. rewrite drop_0. apply dec_enc_inode.
    constructor; cbn [root_inode inode_no i_size last_modify_time link_cnt i_uid i_gid i_mode i_sectors];
      try (unwrap; unfold sizeof_dir_entry, inode_mode.DEFAULT_PRIVILEGE; lia); [done|].
    apply Forall_cons_2; [done|]. apply Forall_replicate. unwrap. lia.
  - unfold entries. cbn [root_inode i_sectors replicate map concat].
    destruct (Z.eqb_spec 0 (data_start (layout part))) as [E|_]; [rewrite El in E; cbn in E; lia|].
    cbn [Z.eqb app]. rewrite !app_nil_r, u32_id, Hd, Fr by done. done.
Qed.

(** C27. Formatting a partition and mounting it gives an empty file system,
    whatever the disk held. The calls return; the super block read back divides
    the partition into boot sector, super block, block bitmap, inode bitmap, inode
    table and data without gap or overlap, with a place and a bit for every file
    and every data sector; inode 0 is the root directory, two entries long, at the
    first data sector; the directory has exactly the names [.] and [..], which lead
    to itself; of the inodes only number 0 is taken; and the current directory is
    [/]. Sizes: 20 to 1048576 sectors, below sector 2^28. *)
Theorem format_then_mount d name part s :
  partition_fits part -> find_partition (d.(primary) ++ d.(logic)) name None = Some (Some part) -> fs_typed s ->
  runs (partition_install_fs part ;; mount_partition d name) s (fun _ s' =>
    laid_out part s'.(sb) /\ fs_layout s' /\ s'.(cur_dir) = fill 64 (text "/") /\
    s'.(inode_bmap) = mk_bitmap 512 (1 :: replicate 511 0) /\
    let sectors := s'.(sb).(data_start) :: replicate 8 0 in
    read_inode 0 s' = Some (mk_inode 0 144 0 0 0 0 inode_mode.DEFAULT_PRIVILEGE sectors) /\
    forall n, n <> [] ->
      lookup_name (entries s' sectors) n = if decide (n = text "." \/ n = text "..") then Some 0 else None).
Proof.
  intros Hfit Hfind Hs. eapply runs_weaken; [by apply format_mount_spec|].
  intros _ s' [_ Hsb Hlay Hcd Hbm _ Hino Hroot]. rewrite Hsb.
  split; [by apply layout_laid_out|]. split; [done|]. split; [done|]. split; [done|]. split.
  - unfold read_inode. rewrite ino2inode_spec. cbn. by rewrite Hino.
  - intros n Hn. etransitivity; [|by apply root_lookup]. f_equal. exact Hroot.
Qed.

Definition demo_part : partition := mk_partition (fill 16 [115; 100; 97; 48]) 100 10 LOGIC.

Lemma format_then_mount_witness :
  runs (partition_install_fs demo_part ;; mount_partition demo_parts (text "sda0" ++ [0])) demo (fun _ s' =>
    laid_out demo_part s'.(sb) /\
    lookup_name (entries s' (s'.(sb).(data_start) :: replicate 8 0)) (text "..") = Some 0).
Proof.
  eapply runs_weaken; [apply (format_then_mount demo_parts (text "sda0" ++ [0]) demo_part demo)|].
  - constructor; [split; discriminate|discriminate|discriminate].
  - vm_compute. reflexivity.
  - apply demo_typed.
  - cbv beta zeta. intros _ s' (H1 & _ & _ & _ & _ & H2). split; [exact H1|]. rewrite H2 by discriminate.
    rewrite decide_True; [reflexivity|by right].
Defined.
