(* ===== verification/FsDefects.v ===== *)
(** * File system: behaviour at the edges of what works

    Concrete runs on the example partition that show what the code does where it
    departs from its intention: appending behind the first sector, writing more
    than a sector, reading near the end, creating a name that exists, removing. *)
From Stdlib Require Import String.
From S2P Require Import Prelude Bitmap CString FsState Inode Dir File FsTypes.
#[local] Open Scope string_scope.
#[global] Open Scope list_scope.
#[global] Open Scope Z_scope.

Definition outcome {A B} (m : fsm A) (s : fs) (f : A -> fs -> B) : option B :=
  match m s with Some (a, s') => Some (f a s') | None => None end.

(** The first descriptor is an open file with these sectors and this size. *)
Definition opened (size : Z) (sectors : list Z) (off : Z) : fs :=
  set_fdt (Some (mk_file off (set_sectors (demo_inode 2 size 0 0) (take 9 (sectors ++ replicate 9 0))))
           :: replicate 63 None) demo.

Definition inode_in (fd : nat) (s : fs) : option inode :=
  match s.(file_desc_tbl) !! fd with Some (Some f) => Some f.(f_inode) | _ => None end.

(** Appending to a file of two sectors: the last loop compares a count of sectors
    that is relative to the start of the append with indices of the file, and
    takes the second sector, which has just been written, from the file. *)
Theorem append_drops_sector :
  outcome (write_file 0 (text "x" ++ [0]) 1 file_io.APPEND) (opened 600 [24; 25] 0)
    (fun _ s => (fun x => (x.(i_size), take 2 x.(i_sectors))) <$> inode_in 0 s) = Some (Some (601, [24; 0])).
Proof. vm_compute. reflexivity. Qed.

(** Appending across a sector border behind the first sector: no sector is
    allocated, the last one of the file has the number 0, and what the pointer
    leads to 1024 bytes behind the data overwrites sector 0 of the disk, where the
    partition table is. *)
Theorem append_overwrites_sector_zero :
  outcome (write_file 0 (replicate 500 97 ++ [0] ++ replicate 2000 98) 500 file_io.APPEND) (opened 600 [24; 25] 0)
    (fun _ s => (take 3 (sector s.(disk) 0), (fun x => (x.(i_size), take 3 x.(i_sectors))) <$> inode_in 0 s)) =
  Some ([98; 98; 98], Some (1100, [24; 25; 0])).
Proof. vm_compute. reflexivity. Qed.

(** Writing 513 bytes ['a'] followed by others: the pointer is moved behind the
    first 512 bytes and then indexed by the number of the sector again, so that
    the byte in the second sector is not byte 512 of the caller, but byte 1024. *)
Definition many : list Z := replicate 513 97 ++ [0] ++ replicate 600 98.

Theorem write_file_skips_bytes :
  outcome (write_file 0 many 513 file_io.COVER) (opened 0 [24; 25] 0)
    (fun _ s => (take 1 (sector s.(disk) 24), take 1 (sector s.(disk) 25))) = Some ([97], [98]).
Proof. vm_compute. reflexivity. Qed.

(** Reading three bytes at offset two of a file of three bytes: the count is
    limited by the size of the file, not by what is left of it. *)
Theorem read_file_past_end :
  outcome (read_file 0 (replicate 3 0) 3) (opened 3 [24] 2) (fun r _ => r.1) = Some 3.
Proof. vm_compute. reflexivity. Qed.

(** A read that begins behind the first sector and is longer than a sector takes
    the number of bytes of its first piece from the whole offset. *)
Theorem read_file_offset_wraps :
  outcome (read_file 0 (replicate 2000 0) 600) (opened 1500 [24; 25; 26] 600) (fun r _ => r.1) = None.
Proof. vm_compute. reflexivity. Qed.

(** Creating a file whose name exists takes an inode all the same. *)
Theorem mkfile_existing_takes_inode :
  outcome (sys_mkfile (text "/etc/rc" ++ [0])) demo
    (fun _ s => (bit_at demo.(inode_bmap) 3, bit_at s.(inode_bmap) 3, s.(console))) =
  Some (false, true, text "Already exists." ++ [10]).
Proof. vm_compute. reflexivity. Qed.

(** Once the buffer has been given back, looking at one more entry is use after
    [free]: an entry that is removed at any place but the last of its sector. *)
Lemma remove_freed_stops js lba buf path_del is_found cnt s :
  js <> [] -> remove_in_sector js lba buf path_del is_found cnt true s = None.
Proof. by destruct js. Qed.

Theorem remove_uses_freed_buffer js j js' lba buf path_del is_found cnt freed s :
  js' <> [] -> strcmp (entry_at buf j).(d_name) path_del = Some true ->
  remove_in_sector (js ++ j :: js') lba buf path_del is_found cnt freed s = None.
Proof.
  intros Hjs Hj. revert is_found cnt freed s.
  induction js as [|k js IH]; intros is_found cnt [] s; try done; cbn [app remove_in_sector]; unfold mbind, fsm_bind, alive, skip, lift, mret, fsm_ret.
  - rewrite Hj. destruct (zset _ _ _); [|done]. destruct (write_disk _ _ _ _) as [[[] s']|]; [|done].
    cbn [free modify]. by apply remove_freed_stops.
  - destruct (strcmp (entry_at buf k).(d_name) path_del) as [[]|]; [|destruct (zget _ _); [by apply IH|done]|done].
    destruct (zset _ _ _); [|done]. destruct (write_disk _ _ _ _) as [[[] s']|]; [|done].
    cbn [free modify]. apply remove_freed_stops. by destruct js.
Qed.

(** So [/etc/rc] cannot be removed. *)
Theorem rmfile_uses_freed_buffer : sys_rmfile (text "/etc/rc" ++ [0]) demo = None.
Proof. vm_compute. reflexivity. Qed.

(** Printing a file whose first sector is full reads behind the buffer. *)
Theorem cat_full_sector :
  sys_cat (text "/etc/rc" ++ [0])
    (set_disk (<[14 := fill 512 (enc_inode (demo_inode 0 144 0 22) ++ enc_inode (demo_inode 1 144 0 23) ++
                                 enc_inode (demo_inode 2 512 0 24))]>
               (<[24 := replicate 512 97]> demo.(disk))) demo) = None.
Proof. vm_compute. reflexivity. Qed.

(** With a full table of descriptors opening fails, and keeps the two blocks of
    memory it has asked for. *)
Theorem open_full_table_keeps_memory :
  outcome (open_file (text "/etc/rc" ++ [0])) (set_fdt (replicate 64 (Some (mk_file 0 zero_inode))) demo)
    (fun fd s => (fd, (s.(mallocs) - s.(frees))%nat)) = Some (-1, 2%nat).
Proof. vm_compute. reflexivity. Qed.
