(* ===== verification/Keyboard.v ===== *)
(** * The keyboard driver (dr/keyboard.cc)

    The handler of the keyboard interrupt takes one byte of a scan code from the
    controller, follows the modifier keys and puts characters into the ring
    buffer.  Its meaning is given in terms of keys that are pressed and
    released. *)
From S2P Require Import Prelude RingBuffer.

Definition shift_l_make : Z := 0x2a.
Definition shift_r_make : Z := 0x36.
Definition alt_l_make : Z := 0x38.
Definition alt_r_make : Z := 0xe038.
Definition ctrl_l_make : Z := 0x1d.
Definition ctrl_r_make : Z := 0xe01d.
Definition caps_lock_make : Z := 0x3a.

(** The characters of each key, without and with shift. *)
Definition keymap : list (Z * Z) := [
  (0, 0); (27, 27);
  (49, 33); (50, 64); (51, 35); (52, 36); (53, 37); (54, 94); (55, 38); (56, 42); (57, 40); (48, 41);
  (45, 95); (61, 43); (8, 8); (9, 9);
  (113, 81); (119, 87); (101, 69); (114, 82); (116, 84); (121, 89); (117, 85); (105, 73); (111, 79);
  (112, 80); (91, 123); (93, 125); (13, 13); (0, 0);
  (97, 65); (115, 83); (100, 68); (102, 70); (103, 71); (104, 72); (106, 74); (107, 75); (108, 76);
  (59, 58); (39, 34); (96, 126); (0, 0); (92, 124);
  (122, 90); (120, 88); (99, 67); (118, 86); (98, 66); (110, 78); (109, 77); (44, 60); (46, 62); (47, 63);
  (0, 0); (42, 42); (0, 0); (32, 32); (0, 0)].

Record keyboard := mk_keyboard {
  keyboard_buf : ring_buffer;
  ctrl_status : bool;
  shift_status : bool;
  alt_status : bool;
  caps_lock_status : bool;
  ext_scancode : bool;
}.

Definition set_buf (k : keyboard) (rb : ring_buffer) : keyboard :=
  mk_keyboard rb k.(ctrl_status) k.(shift_status) k.(alt_status) k.(caps_lock_status) k.(ext_scancode).
Definition set_ctrl (k : keyboard) (b : bool) : keyboard :=
  mk_keyboard k.(keyboard_buf) b k.(shift_status) k.(alt_status) k.(caps_lock_status) k.(ext_scancode).
Definition set_shift (k : keyboard) (b : bool) : keyboard :=
  mk_keyboard k.(keyboard_buf) k.(ctrl_status) b k.(alt_status) k.(caps_lock_status) k.(ext_scancode).
Definition set_alt (k : keyboard) (b : bool) : keyboard :=
  mk_keyboard k.(keyboard_buf) k.(ctrl_status) k.(shift_status) b k.(caps_lock_status) k.(ext_scancode).
Definition set_caps (k : keyboard) (b : bool) : keyboard :=
  mk_keyboard k.(keyboard_buf) k.(ctrl_status) k.(shift_status) k.(alt_status) b k.(ext_scancode).
Definition set_ext (k : keyboard) (b : bool) : keyboard :=
  mk_keyboard k.(keyboard_buf) k.(ctrl_status) k.(shift_status) k.(alt_status) k.(caps_lock_status) b.

(** The keys on which caps lock has no effect. *)
Definition only_shift (scancode : Z) : bool :=
  (scancode <? 0x0e) || (scancode =? 0x29) || (scancode =? 0x1a) || (scancode =? 0x1b) ||
  (scancode =? 0x2b) || (scancode =? 0x27) || (scancode =? 0x28) || (scancode =? 0x33) ||
  (scancode =? 0x34) || (scancode =? 0x35).

(** [byte] is what [inb(port)] gives. *)
Definition keyboard_handler (byte : Z) (k : keyboard) : option keyboard :=
  if 0xe0 =? byte then Some (set_ext k true)
  else
    let scancode := if k.(ext_scancode) then Z.lor byte 0xe000 else byte in
    let k := set_ext k false in
    if truth (Z.land scancode 0x80) then
      let make_code := Z.land scancode 0xff7f in
      if (make_code =? ctrl_l_make) || (make_code =? ctrl_r_make) then Some (set_ctrl k false)
      else if (make_code =? alt_l_make) || (make_code =? alt_r_make) then Some (set_alt k false)
      else if (make_code =? shift_l_make) || (make_code =? shift_r_make) then Some (set_shift k false)
      else Some k
    else if ((0 <? scancode) && (scancode <? 0x3b)) || (scancode =? alt_r_make) || (scancode =? ctrl_r_make) then
      let shift :=
        if only_shift scancode then k.(shift_status)
        else if k.(shift_status) && k.(caps_lock_status) then false
        else k.(shift_status) || k.(caps_lock_status) in
      let index := Z.land scancode 0xff in
      chars ← keymap.[index];
      let cur_char := if shift then snd chars else fst chars in
      if truth cur_char then
        rb ← ringbuffer_put k.(keyboard_buf) cur_char;
        Some (set_buf k rb)
      else if (index =? ctrl_r_make) || (index =? ctrl_l_make) then Some (set_ctrl k true)
      else if (index =? shift_r_make) || (index =? shift_l_make) then Some (set_shift k true)
      else if (index =? alt_r_make) || (index =? alt_l_make) then Some (set_alt k true)
      else if index =? caps_lock_make then Some (set_caps k (negb k.(caps_lock_status)))
      else Some k
    else Some k.

(** The interrupt handler is registered by [init_keyboard]. *)
Definition init_keyboard (k : keyboard) : keyboard := set_buf k (init_ringbuffer k.(keyboard_buf)).

(** ** Keys *)

(** A key has a code of seven bits; the keys of the extended block send 0xe0
    first. *)
Record key := mk_key { extended : bool; code : Z }.

(** A code 0x60 could not be told from the prefix. *)
Definition key_ok (x : key) : Prop := 0 <= x.(code) < 128 /\ x.(code) <> 0x60.

Inductive event := Press (x : key) | Release (x : key).

Definition key_of (e : event) : key := match e with Press x | Release x => x end.

Definition bytes_of (e : event) : list Z :=
  match e with
  | Press x => (if x.(extended) then [0xe0] else []) ++ [x.(code)]
  | Release x => (if x.(extended) then [0xe0] else []) ++ [x.(code) + 0x80]
  end.

Fixpoint handle_bytes (bs : list Z) (k : keyboard) : option keyboard :=
  match bs with [] => Some k | b :: bs' => k ← keyboard_handler b k; handle_bytes bs' k end.

Inductive role := Char (plain shifted : Z) | Ctrl | Shift | Alt | Caps | NoRole.

(** What a key is. *)
Definition role_of (x : key) : role :=
  if x.(code) =? ctrl_l_make then Ctrl
  else if x.(code) =? alt_l_make then Alt
  else if x.(extended) then NoRole
  else if (x.(code) =? shift_l_make) || (x.(code) =? shift_r_make) then Shift
  else if x.(code) =? caps_lock_make then Caps
  else match keymap.[x.(code)] with
       | Some (p, q) => if truth p then Char p q else NoRole
       | None => NoRole
       end.

Definition is_letter (c : Z) : bool := (97 <=? c) && (c <=? 122).

(** What has been typed, and the modifiers: a letter is large when exactly one of
    shift and caps lock is active, other keys follow shift. *)
Record typing := mk_typing { typed : list Z; m_ctrl : bool; m_shift : bool; m_alt : bool; m_caps : bool }.

Definition letter_case (t : typing) (p q : Z) : Z :=
  if (if is_letter p then xorb t.(m_shift) t.(m_caps) else t.(m_shift)) then q else p.

Definition type_event (t : typing) (e : event) : typing :=
  match e with
  | Press x =>
      match role_of x with
      | Char p q => mk_typing (t.(typed) ++ [letter_case t p q]) t.(m_ctrl) t.(m_shift) t.(m_alt) t.(m_caps)
      | Ctrl => mk_typing t.(typed) true t.(m_shift) t.(m_alt) t.(m_caps)
      | Shift => mk_typing t.(typed) t.(m_ctrl) true t.(m_alt) t.(m_caps)
      | Alt => mk_typing t.(typed) t.(m_ctrl) t.(m_shift) true t.(m_caps)
      | Caps => mk_typing t.(typed) t.(m_ctrl) t.(m_shift) t.(m_alt) (negb t.(m_caps))
      | NoRole => t
      end
  | Release x =>
      match role_of x with
      | Ctrl => mk_typing t.(typed) false t.(m_shift) t.(m_alt) t.(m_caps)
      | Shift => mk_typing t.(typed) t.(m_ctrl) false t.(m_alt) t.(m_caps)
      | Alt => mk_typing t.(typed) t.(m_ctrl) t.(m_shift) false t.(m_caps)
      | _ => t
      end
  end.

(** ** The handler understands keys *)

(** The ring holds what has been typed, as long as there is room. *)
Record shows (k : keyboard) (t : typing) : Prop := {
  sh_buf : rb_holds k.(keyboard_buf) (take 63 t.(typed));
  sh_ctrl : k.(ctrl_status) = t.(m_ctrl);
  sh_shift : k.(shift_status) = t.(m_shift);
  sh_alt : k.(alt_status) = t.(m_alt);
  sh_caps : k.(caps_lock_status) = t.(m_caps);
  sh_ext : k.(ext_scancode) = false;
}.

(** The effect of the last byte of a code, as an action. *)
Inductive action := Put (ch : Z) | SetCtrl (b : bool) | SetShift (b : bool) | SetAlt (b : bool) | ToggleCaps | Nothing.

Definition action_of (e : event) (shift caps : bool) : action :=
  match e with
  | Press x =>
      match role_of x with
      | Char p q => Put (letter_case (mk_typing [] false shift false caps) p q)
      | Ctrl => SetCtrl true
      | Shift => SetShift true
      | Alt => SetAlt true
      | Caps => ToggleCaps
      | NoRole => Nothing
      end
  | Release x =>
      match role_of x with Ctrl => SetCtrl false | Shift => SetShift false | Alt => SetAlt false | _ => Nothing end
  end.

Definition act (a : action) (k : keyboard) : option keyboard :=
  match a with
  | Put ch => rb ← ringbuffer_put k.(keyboard_buf) ch; Some (set_buf k rb)
  | SetCtrl b => Some (set_ctrl k b)
  | SetShift b => Some (set_shift k b)
  | SetAlt b => Some (set_alt k b)
  | ToggleCaps => Some (set_caps k (negb k.(caps_lock_status)))
  | Nothing => Some k
  end.

(** The action the conditions of the handler choose for a whole scan code. *)
Definition chosen (scancode : Z) (shift caps : bool) : option action :=
  if truth (Z.land scancode 0x80) then
    let make_code := Z.land scancode 0xff7f in
    if (make_code =? ctrl_l_make) || (make_code =? ctrl_r_make) then Some (SetCtrl false)
    else if (make_code =? alt_l_make) || (make_code =? alt_r_make) then Some (SetAlt false)
    else if (make_code =? shift_l_make) || (make_code =? shift_r_make) then Some (SetShift false)
    else Some Nothing
  else if ((0 <? scancode) && (scancode <? 0x3b)) || (scancode =? alt_r_make) || (scancode =? ctrl_r_make) then
    let sh := if only_shift scancode then shift else if shift && caps then false else shift || caps in
    let index := Z.land scancode 0xff in
    chars ← keymap.[index];
    let cur_char := if sh then snd chars else fst chars in
    if truth cur_char then Some (Put cur_char)
    else if (index =? ctrl_r_make) || (index =? ctrl_l_make) then Some (SetCtrl true)
    else if (index =? shift_r_make) || (index =? shift_l_make) then Some (SetShift true)
    else if (index =? alt_r_make) || (index =? alt_l_make) then Some (SetAlt true)
    else if index =? caps_lock_make then Some ToggleCaps
    else Some Nothing
  else Some Nothing.

Lemma handler_chosen byte k :
  byte <> 0xe0 ->
  keyboard_handler byte k =
    (a ← chosen (if k.(ext_scancode) then Z.lor byte 0xe000 else byte) k.(shift_status) k.(caps_lock_status);
     act a (set_ext k false)).
Proof.
  intros Hb. unfold keyboard_handler, chosen. rewrite (proj2 (Z.eqb_neq 0xe0 byte)) by congruence.
  cbv zeta. set (sc := if ext_scancode k then _ else _). clearbody sc.
  change (shift_status (set_ext k false)) with (shift_status k).
  change (caps_lock_status (set_ext k false)) with (caps_lock_status k).
  destruct (keymap.[Z.land sc 255]) as [[p q]|]; cbn [mbind option_bind fst snd];
    repeat (match goal with |- context [if ?b then _ else _] =>
      lazymatch b with context [if _ then _ else _] => fail | _ => destruct b end end;
      cbn [mbind option_bind]; try reflexivity).
Qed.

(** The codes of one event, whether pressed or released, with the prefix merged. *)
Definition code_of (e : event) : Z :=
  let x := key_of e in
  let byte := match e with Press _ => x.(code) | Release _ => x.(code) + 0x80 end in
  if x.(extended) then Z.lor byte 0xe000 else byte.

Definition action_eqb (a b : action) : bool :=
  match a, b with
  | Put x, Put y => x =? y
  | SetCtrl x, SetCtrl y | SetShift x, SetShift y | SetAlt x, SetAlt y => eqb x y
  | ToggleCaps, ToggleCaps | Nothing, Nothing => true
  | _, _ => false
  end.

Lemma action_eqb_eq a b : action_eqb a b = true -> a = b.
Proof.
  destruct a, b; cbn; intros H; try discriminate; try (apply eqb_prop in H; by subst); [|done..].
  apply Z.eqb_eq in H. by subst.
Qed.

Definition check_code (c : Z) : bool :=
  forallb (fun '(ext, rel, shift, caps) =>
    let x := mk_key ext c in
    let e := if (rel : bool) then Release x else Press x in
    match chosen (code_of e) shift caps with
    | Some a => action_eqb a (action_of e shift caps)
    | None => false
    end)
    (ext ← [true; false]; rel ← [true; false]; shift ← [true; false]; caps ← [true; false]; [(ext, rel, shift, caps)]).

(** The table of the code against the meaning of the keys: all keys, all
    modifiers. *)
Lemma all_codes : below 128 check_code = true.
Proof. vm_compute. reflexivity. Qed.

Lemma chosen_action e shift caps :
  key_ok (key_of e) -> chosen (code_of e) shift caps = Some (action_of e shift caps).
Proof.
  intros [Hc _]. destruct (key_of e) as [ext c] eqn:Ek. cbn in Hc.
  pose proof (below_spec 128 check_code all_codes c ltac:(lia)) as H. unfold check_code in H.
  rewrite forallb_forall in H.
  specialize (H (ext, match e with Release _ => true | _ => false end, shift, caps)).
  assert ((if match e with Release _ => true | _ => false end then Release (mk_key ext c) else Press (mk_key ext c)) = e) as He
    by (destruct e; cbn in *; congruence).
  cbv beta iota zeta in H. rewrite He in H. destruct (chosen _ _ _) as [a|].
  - f_equal. apply action_eqb_eq, H. destruct ext, e, shift, caps; cbn; tauto.
  - exfalso. discriminate H. destruct ext, e, shift, caps; cbn; tauto.
Qed.

Lemma set_ext_same k : k.(ext_scancode) = false -> set_ext k false = k.
Proof. destruct k. cbn. by intros ->. Qed.

(** The bytes of an event have the effect of the event. *)
Lemma handle_event e k :
  key_ok (key_of e) -> k.(ext_scancode) = false ->
  handle_bytes (bytes_of e) k = act (action_of e k.(shift_status) k.(caps_lock_status)) k.
Proof.
  intros Hk Hext. pose proof (chosen_action e k.(shift_status) k.(caps_lock_status) Hk) as Hc.
  destruct Hk as [Hc1 Hc2]. set (byte := match e with Press x => x.(code) | Release x => x.(code) + 0x80 end).
  assert (byte <> 0xe0) as Hb by (unfold byte; destruct e; cbn in *; lia).
  assert (forall k', (k'.(ext_scancode) = (key_of e).(extended)) -> set_ext k' false = k ->
            k'.(shift_status) = k.(shift_status) -> k'.(caps_lock_status) = k.(caps_lock_status) ->
            handle_bytes [byte] k' = act (action_of e k.(shift_status) k.(caps_lock_status)) k) as Hlast.
  { intros k' E1 E2 E3 E4. cbn [handle_bytes]. rewrite handler_chosen by done. rewrite E1, E2, E3, E4.
    replace (if extended (key_of e) then Z.lor byte 57344 else byte) with (code_of e)
      by (unfold code_of, byte; destruct e; reflexivity).
    rewrite Hc. cbn [mbind option_bind]. destruct (act _ k); reflexivity. }
  assert (bytes_of e = (if (key_of e).(extended) then [0xe0] else []) ++ [byte]) as -> by (destruct e; reflexivity).
  destruct (extended (key_of e)) eqn:Ex; cbn [app].
  - change (handle_bytes [0xe0; byte] k) with (handle_bytes [byte] (set_ext k true)).
    apply Hlast; [done| |done|done]. destruct k. cbn in Hext. by subst.
  - apply Hlast; [done|by apply set_ext_same|done|done].
Qed.

(** The characters of the keys are bytes. *)
Definition char_code (c : Z) : bool :=
  forallb (fun ext => match role_of (mk_key ext c) with
                      | Char p q => (u8 p =? p) && (u8 q =? q)
                      | _ => true
                      end) [true; false].
Lemma char_codes : below 128 char_code = true.
Proof. vm_compute. reflexivity. Qed.

Lemma role_bytes x p q : key_ok x -> role_of x = Char p q -> u8 p = p /\ u8 q = q.
Proof.
  intros [Hc _] H. destruct x as [ext c]. cbn in Hc.
  pose proof (below_spec 128 char_code char_codes c ltac:(lia)) as Hb. unfold char_code in Hb.
  rewrite forallb_forall in Hb. specialize (Hb ext ltac:(destruct ext; cbn; tauto)). rewrite H in Hb. zbool. done.
Qed.

Lemma take_snoc {A} (n : nat) (l : list A) x :
  (if zlen (take n l) <? Z.of_nat n then take n l ++ [x] else take n l) = take n (l ++ [x]).
Proof.
  unfold zlen. rewrite length_take. destruct (Z.ltb_spec (Z.of_nat (n `min` length l)) (Z.of_nat n)).
  - rewrite !take_ge by (rewrite ?length_app; cbn; lia). done.
  - rewrite take_app_le by lia. done.
Qed.

Lemma shows_event k t e :
  shows k t -> key_ok (key_of e) -> exists k', handle_bytes (bytes_of e) k = Some k' /\ shows k' (type_event t e).
Proof.
  intros [Hb S1 S2 S3 S4 S5] Hk. rewrite handle_event by done. rewrite S2, S4.
  assert (forall p q, role_of (key_of e) = Char p q ->
            letter_case (mk_typing [] false t.(m_shift) false t.(m_caps)) p q = letter_case t p q /\
            u8 (letter_case t p q) = letter_case t p q) as Hput.
  { intros p q Hr. split; [done|]. destruct (role_bytes _ _ _ Hk Hr). unfold letter_case. by case_match. }
  destruct e as [x|x]; cbn [action_of type_event key_of] in *; destruct (role_of x) as [p q| | | | |] eqn:Er;
    cbn [act]; try (eexists; split; [reflexivity|]; constructor; cbn; congruence || done).
  destruct (Hput p q eq_refl) as [-> Hu].
  destruct (put_holds _ _ (letter_case t p q) Hb) as (rb' & -> & Hb'). sbind.
  eexists. split; [reflexivity|]. constructor; cbn; try done.
  rewrite Hu, (take_snoc 63) in Hb'. exact Hb'.
Qed.

Lemma handle_bytes_app a b k : handle_bytes (a ++ b) k = (k ← handle_bytes a k; handle_bytes b k).
Proof.
  revert k. induction a as [|x a IH]; intros k; [done|]. cbn [app handle_bytes].
  destruct (keyboard_handler x k); sbind; [apply IH|done].
Qed.

Lemma shows_events es k t :
  shows k t -> Forall (fun e => key_ok (key_of e)) es ->
  exists k', handle_bytes (concat (map bytes_of es)) k = Some k' /\ shows k' (fold_left type_event es t).
Proof.
  revert k t. induction es as [|e es IH]; intros k t Hs He; [by exists k|].
  inversion He; subst. cbn [map concat fold_left]. rewrite handle_bytes_app.
  destruct (shows_event k t e) as (k1 & -> & Hs1); [done|done|]. sbind. by apply IH.
Qed.

Definition boot_keyboard (rb : ring_buffer) : keyboard := mk_keyboard rb false false false false false.
Definition nothing_typed : typing := mk_typing [] false false false false.

Lemma init_shows rb : shows (init_keyboard (boot_keyboard rb)) nothing_typed.
Proof.
  constructor; try done. constructor; cbn [buffer head tail init_keyboard init_ringbuffer set_buf keyboard_buf take]; try done.
  intros k Hk. destruct Hk as [Hlo Hhi]. change (zlen (take 63 (typed nothing_typed))) with 0 in Hhi. lia.
Qed.

(** C36. The keyboard handler types what is pressed: for any sequence of keys
    pressed and released, plain or of the extended block, the bytes the keyboard
    sends leave in the ring buffer the characters of the keys in order (the first
    63, as none is read), a letter large exactly when one of shift and caps lock
    is active, any other key by shift alone; no access leaves the key table or
    the buffer, and the modifiers are followed. *)
Theorem keyboard_decodes es rb :
  Forall (fun e => key_ok (key_of e)) es ->
  exists k', handle_bytes (concat (map bytes_of es)) (init_keyboard (boot_keyboard rb)) = Some k' /\
    shows k' (fold_left type_event es nothing_typed).
Proof. intros H. apply shows_events; [apply init_shows|exact H]. Qed.

(** Shift and [h], then [i], then caps lock, [1], and [1] with shift. *)
Definition hello : list event :=
  let k c := mk_key false c in
  [Press (k 0x2a); Press (k 0x23); Release (k 0x23); Release (k 0x2a); Press (k 0x17); Press (k 0x3a);
   Press (k 0x02); Press (k 0x36); Press (k 0x02); Press (k 0x23)].

Lemma keyboard_decodes_witness :
  exists k', handle_bytes (concat (map bytes_of hello)) (init_keyboard (boot_keyboard (mk_ring_buffer [] 0 0))) = Some k' /\
    shows k' (fold_left type_event hello nothing_typed) /\
    (fold_left type_event hello nothing_typed).(typed) = [72; 105; 49; 33; 104].
Proof.
  destruct (keyboard_decodes hello (mk_ring_buffer [] 0 0)) as (k' & Hk & Hs).
  - repeat (apply Forall_cons_2; [split; [split; [discriminate|reflexivity]|discriminate]|]). by apply Forall_nil.
  - exists k'. split; [exact Hk|]. split; [exact Hs|]. vm_compute. reflexivity.
Defined.
