(* ===== verification/Ports.v ===== *)
(** * Port input and output (include/io.h)

    The drivers reach their devices through ports, are told of an interrupt by a
    message and print on the screen.  These are the class [Ports] over the state
    of the driver process with everything around it; the messages and the memory
    of the process are the class [Ipc]. *)
From Stdlib Require Import String.
From S2P Require Import Prelude CString FsState Process Syscalls.
#[local] Open Scope string_scope.
#[global] Open Scope list_scope.
#[global] Open Scope Z_scope.

Class Ports (St : Type) := {
  inb : Z -> St -> Z * St;
  outb : Z -> Z -> St -> St;
  inw : Z -> St -> Z * St;
  outw : Z -> Z -> St -> St;
  receive_interrupt : St -> option St;  (* the machine runs until the message of an interrupt handler *)
  putstring : list Z -> St -> St;
}.

Section io.
Context {St : Type} `{Ports St} `{Ipc St}.

(** [rep insw] and [rep outsw]; the words are stored little endian. *)
Fixpoint insw (cnt : nat) (port addr : Z) (s : St) : St :=
  match cnt with
  | O => s
  | S cnt' =>
      let '(w, s) := inw port s in
      insw cnt' port (addr + 2) (poke (poke s addr (u8 w)) (addr + 1) (u8 (w / 256)))
  end.

Fixpoint outsw (cnt : nat) (port addr : Z) (s : St) : St :=
  match cnt with
  | O => s
  | S cnt' => outsw cnt' port (addr + 2) (outw port (u8 (peek s addr) + 256 * u8 (peek s (addr + 1))) s)
  end.

Definition printf (fmt : String.string) (args : list arg) (s : St) : option St :=
  out ← vsprintf (text fmt ++ [0]) args;
  if zlen out <? 1024 then Some (putstring out s) else None.

Definition printf_ln (fmt : String.string) : list arg -> St -> option St :=
  printf (String.append fmt (String.String (Ascii.ascii_of_nat 10) String.EmptyString)).

(** The [n] bytes at [a]. *)
Definition mem_bytes (s : St) (a n : Z) : list Z := map (peek s) (seqZ a n).
End io.

(** ** Memory *)

(** Memory holds bytes, and keeps them while ports are used. *)
Class PortLaws (St : Type) `{Ports St} `{Ipc St} := {
  peek_poke s a v b : peek (poke s a v) b = if b =? a then u8 v else peek s b;
  peek_outb p v s b : peek (outb p v s) b = peek s b;
  peek_inb p s b : peek (snd (inb p s)) b = peek s b;
  peek_inw p s b : peek (snd (inw p s)) b = peek s b;
  peek_outw p w s b : peek (outw p w s) b = peek s b;
  peek_interrupt s s' b : receive_interrupt s = Some s' -> peek s' b = peek s b;
  peek_putstring out s b : peek (putstring out s) b = peek s b;
}.
