(* ===== verification/Ata.v ===== *)
(** * The interface of an ATA drive

    What the disk driver relies on: the registers of a channel with a master and
    a slave, and the protocol by which a drive transfers sectors through the data
    port (programmed input and output, 28-bit addresses), as the ATA standard
    gives them.  A drive that has been given a command is busy until it has the
    data or is ready to take them; how long that lasts is up to the drive.  [Ata]
    is the interface; [channel] is a machine that implements it. *)
From S2P Require Import Prelude Mem FsState Process Syscalls Ports.

Module hd.
Definition data_reg : Z := 0x1f0.
Definition sect_cnt_reg : Z := 0x1f2.
Definition lba_l_reg : Z := 0x1f3.
Definition lba_m_reg : Z := 0x1f4.
Definition lba_h_reg : Z := 0x1f5.
Definition dev_reg : Z := 0x1f6.
Definition status_reg : Z := 0x1f7.
Definition cmd_reg : Z := 0x1f7.
Definition identify : Z := 0xec.
Definition read : Z := 0x20.
Definition write : Z := 0x30.
Definition stat_busy : Z := 0x80.
Definition stat_ready : Z := 0x08.
Definition dev_mbs : Z := 0xa0.
Definition dev_lba : Z := 0x40.
Definition dev_dev : Z := 0x10.
End hd.

(** What a drive does: nothing; it fetches the sector [lba], the first of [todo]
    that are still to be transferred; it gives the rest [data] of that sector;
    it gets ready to take the first sector of a write; it takes a sector, of which
    it has [data]; it stores what it took. *)
Inductive activity :=
| Idle
| Fetch (lba : Z) (todo : nat)
| Give (lba : Z) (todo : nat) (data : list Z)
| Prepare (lba : Z) (todo : nat)
| Take (lba : Z) (todo : nat) (data : list Z)
| Store (lba : Z) (todo : nat).

Record ata := mk_ata {
  count : Z; low : Z; mid : Z; high : Z; device : Z;
  master : gmap Z (list Z);
  slave : gmap Z (list Z);
  act : activity;
}.

Definition set_act (a : ata) (x : activity) : ata :=
  mk_ata a.(count) a.(low) a.(mid) a.(high) a.(device) a.(master) a.(slave) x.

Definition is_slave_selected (a : ata) : bool := Z.testbit a.(device) 4.
Definition media (a : ata) (is_slave : bool) : gmap Z (list Z) := if is_slave then a.(slave) else a.(master).
Definition store_sector (a : ata) (lba : Z) (data : list Z) : ata :=
  if is_slave_selected a
  then mk_ata a.(count) a.(low) a.(mid) a.(high) a.(device) a.(master) (<[lba := data]> a.(slave)) a.(act)
  else mk_ata a.(count) a.(low) a.(mid) a.(high) a.(device) (<[lba := data]> a.(master)) a.(slave) a.(act).

(** The 28-bit address, and the number of sectors: 0 stands for 256. *)
Definition address (a : ata) : Z :=
  a.(low) + 256 * a.(mid) + 65536 * a.(high) + 16777216 * Z.land a.(device) 15.
Definition amount (a : ata) : nat := if a.(count) =? 0 then 256 else Z.to_nat a.(count).

Definition command (a : ata) (v : Z) : ata :=
  if v =? hd.read then set_act a (Fetch (address a) (amount a))
  else if v =? hd.write then set_act a (Prepare (address a) (amount a))
  else a.

(** A byte written to a register of an idle drive. *)
Definition ata_out (p v : Z) (a : ata) : ata :=
  let b := u8 v in
  if p =? hd.sect_cnt_reg then mk_ata b a.(low) a.(mid) a.(high) a.(device) a.(master) a.(slave) a.(act)
  else if p =? hd.lba_l_reg then mk_ata a.(count) b a.(mid) a.(high) a.(device) a.(master) a.(slave) a.(act)
  else if p =? hd.lba_m_reg then mk_ata a.(count) a.(low) b a.(high) a.(device) a.(master) a.(slave) a.(act)
  else if p =? hd.lba_h_reg then mk_ata a.(count) a.(low) a.(mid) b a.(device) a.(master) a.(slave) a.(act)
  else if p =? hd.dev_reg then mk_ata a.(count) a.(low) a.(mid) a.(high) b a.(master) a.(slave) a.(act)
  else if p =? hd.cmd_reg then command a b
  else a.

(** The two bits of the status that tell: the drive is busy, or it asks for data to
    be moved. *)
Definition busy (a : ata) : bool := match a.(act) with Fetch _ _ | Prepare _ _ | Store _ _ => true | _ => false end.
Definition drq (a : ata) : bool := match a.(act) with Give _ _ _ | Take _ _ _ => true | _ => false end.

(** A drive that has been given a write has become ready for the data; no
    interrupt tells it. *)
Definition get_ready (a : ata) : ata := match a.(act) with Prepare lba todo => set_act a (Take lba todo []) | _ => a end.

(** A word read from the data port. *)
Definition ata_in (a : ata) : option (Z * ata) :=
  match a.(act) with
  | Give lba todo (b0 :: b1 :: rest) =>
      let next := match rest, todo with
                  | [], S (S todo') => Fetch (lba + 1) (S todo')
                  | [], _ => Idle
                  | _, _ => Give lba todo rest
                  end in
      Some (b0 + 256 * b1, set_act a next)
  | _ => None
  end.

(** A word written to the data port. *)
Definition ata_take (w : Z) (a : ata) : option ata :=
  match a.(act) with
  | Take lba todo data =>
      let data := data ++ [u8 w; u8 (w / 256)] in
      Some (if zlen data =? sector_size
            then set_act (store_sector a lba data) (Store (lba + 1) (pred todo))
            else set_act a (Take lba todo data))
  | _ => None
  end.

(** The next interrupt of the drive. *)
Definition ata_interrupt (a : ata) : option ata :=
  match a.(act) with
  | Fetch lba todo => Some (set_act a (Give lba todo (sector (media a (is_slave_selected a)) lba)))
  | Store lba O => Some (set_act a Idle)
  | Store lba todo => Some (set_act a (Take lba todo []))
  | _ => None
  end.

(** The ports of a channel with two such drives.  A port without a device reads
    as 0xff. *)
Class Ata (St : Type) `{Ports St} `{Ipc St} := {
  view : St -> ata;
  in_time : St -> bool;     (* a drive that was given a write is ready when its status is read *)
  view_outb p v s : (view s).(act) = Idle -> hd.sect_cnt_reg <= p <= hd.cmd_reg ->
    view (outb p v s) = ata_out p v (view s);
  view_status s : let a := if in_time s then get_ready (view s) else view s in
    view (snd (inb hd.status_reg s)) = a /\
    truth (Z.land (fst (inb hd.status_reg s)) hd.stat_ready) = drq a /\
    truth (Z.land (fst (inb hd.status_reg s)) hd.stat_busy) = busy a;
  view_unassigned s : view (snd (inb 0x80 s)) = view s /\ fst (inb 0x80 s) = 0xff;
  view_inw s w a : ata_in (view s) = Some (w, a) ->
    view (snd (inw hd.data_reg s)) = a /\ fst (inw hd.data_reg s) = w;
  view_outw s w a : ata_take w (view s) = Some a -> view (outw hd.data_reg w s) = a;
  view_interrupt s a : ata_interrupt (view s) = Some a ->
    exists s', receive_interrupt s = Some s' /\ view s' = a;
  view_poke s a v : view (poke s a v) = view s;
  view_putstring out s : view (putstring out s) = view s;
}.

(** ** A machine with the drives and a memory *)

(** The last component tells whether the drives are in time. *)
Definition channel : Type := ata * mem * bool.

Definition status_of (a : ata) : Z := if busy a then 0xd0 else if drq a then 0x58 else 0x50.

#[export] Instance channel_ipc : Ipc channel := {|
  send_then_recv _ _ con s := Some (con, s);
  send_msg _ _ _ s := Some s;
  peek s a := load8 s.1.2 a;
  poke s a v := (s.1.1, store8 s.1.2 a v, s.2);
|}.

#[export] Instance channel_ports : Ports channel := {|
  inb p (s : channel) := if p =? hd.status_reg then let a := if s.2 then get_ready s.1.1 else s.1.1 in (status_of a, (a, s.1.2, s.2))
             else (0xff, s);
  outb p v s := (ata_out p v s.1.1, s.1.2, s.2);
  inw p s := match ata_in s.1.1 with Some (w, a) => (w, (a, s.1.2, s.2)) | None => (0, s) end;
  outw p w s := match ata_take w s.1.1 with Some a => (a, s.1.2, s.2) | None => s end;
  receive_interrupt s := match ata_interrupt s.1.1 with Some a => Some (a, s.1.2, s.2) | None => None end;
  putstring _ s := s;
|}.

#[export] Instance channel_memory : PortLaws channel.
Proof.
  constructor; intros *; cbn; try done.
  - apply load8_store8.
  - by destruct (p =? hd.status_reg).
  - by destruct (ata_in s.1.1) as [[]|].
  - by destruct (ata_take w s.1.1).
  - intros E. destruct (ata_interrupt s.1.1); [|done]. injection E as <-. done.
Qed.

#[export] Instance channel_ata : Ata channel.
Proof.
  unshelve eapply (Build_Ata channel _ _ (fun s : channel => s.1.1) (fun s : channel => s.2)).
  - done.
  - intros s. cbn. set (a := if s.2 then get_ready s.1.1 else s.1.1). unfold status_of, busy, drq. by destruct (act a).
  - done.
  - intros s w a E. cbn. by rewrite E.
  - intros s w a E. cbn. by rewrite E.
  - intros s a E. cbn. rewrite E. by exists (a, s.1.2, s.2).
  - done.
  - done.
Defined.
