(* ===== verification/DiskDriver.v ===== *)
(** * The disk driver (dr/disk.cc)

    Sectors are moved word by word through the data port, one interrupt for each
    sector.  The driver works on any state with ports, messages and memory; that
    it transfers the right sectors is proved for the interface of an ATA drive.
    [t] and [u] are the type and the context of a message that is sent without
    having been filled. *)
From Stdlib Require Import String.
From S2P Require Import Prelude Mem CString FsState Process FileSystem Ports Ata.
From S2P Require KernelMain Syscalls.
#[local] Open Scope string_scope.
#[global] Open Scope list_scope.
#[global] Open Scope Z_scope.

(** [struct disk]: what the driver uses of it. *)
Record drive := mk_drive { is_slave : bool; parts : disk_info }.

Definition no_partition : partition := mk_partition (replicate 16 0) 0 0 PRIMARY.
Definition no_partitions : disk_info := mk_disk (replicate 4 no_partition) (replicate 4 no_partition).

(** [struct partition_table_entry_mbr], the fields that are read. *)
Record partition_table_entry_mbr := mk_entry_mbr {
  sys_signature : Z;
  sector_nr_before : Z;
  sector_nr_in : Z;
}.

Definition dec_entry_mbr (b : list Z) : partition_table_entry_mbr :=
  mk_entry_mbr (field b 4 1) (field b 8 4) (field b 12 4).

(** [struct partition_table_mbr] in its 64 bytes. *)
Definition dec_table (b : list Z) : list partition_table_entry_mbr :=
  map (fun i => dec_entry_mbr (drop (16 * i) b)) (seq 0 4).

(** [sprintf(name, "sda%d", n)]: the name is not terminated anew. *)
Definition sda (name : list Z) (n : Z) : option (list Z) :=
  out ← vsprintf (text "sda%d" ++ [0]) [AInt n];
  put name 0 out.

Section driver.
Context {St : Type} `{Ports St} `{Syscalls.Ipc St} (t : Z) (u : context).

Definition disk_handler (s : St) : option St :=
  let '(_, s) := inb hd.status_reg s in
  Syscalls.send_msg KernelMain.DR t u s.

Definition choose_disk (disk : drive) (s : St) : St :=
  let reg_con := if disk.(is_slave) then Z.lor (Z.lor hd.dev_mbs hd.dev_lba) hd.dev_dev
                 else Z.lor hd.dev_mbs hd.dev_lba in
  outb hd.dev_reg reg_con s.

Definition choose_sector (disk : drive) (lba cnt : Z) (s : St) : St :=
  let s := outb hd.sect_cnt_reg (u8 cnt) s in
  let s := outb hd.lba_l_reg (u8 lba) s in
  let s := outb hd.lba_m_reg (u8 (Z.shiftr lba 8)) s in
  let s := outb hd.lba_h_reg (u8 (Z.shiftr lba 16)) s in
  let reg_con := u8 (Z.lor (Z.lor hd.dev_mbs hd.dev_lba) (Z.shiftr lba 24)) in
  let reg_con := if disk.(is_slave) then Z.lor reg_con hd.dev_dev else reg_con in
  outb hd.dev_reg reg_con s.

(** The count goes down from 30 to 1; the port that is read is 0x1f7 & 0x80. *)
Fixpoint wait_loop (turns : nat) (s : St) : option (bool * St) :=
  match turns with
  | O => Some (false, s)
  | S turns' =>
      let '(v, s) := inb (Z.land hd.status_reg hd.stat_busy) s in
      if truth v then
        let '(v, s) := inb hd.status_reg s in
        Some (truth (Z.land v hd.stat_ready), s)
      else
        '(_, s) ← Syscalls.send_then_recv KernelMain.KR t u s;
        wait_loop turns' s
  end.

Definition wait_disk : St -> option (bool * St) := wait_loop 29.

(** [dst] is read, [buf] is written; [idx] is an [unsigned char]. *)
Fixpoint swap_pairs_loop (fuel : nat) (dst buf : list Z) (len idx : Z) : option (list Z) :=
  match fuel with
  | O => None
  | S fuel' =>
      if idx <? len then
        match dst with
        | x :: y :: dst =>
            buf ← buf.[idx + 1 <- x];
            buf ← buf.[idx <- y];
            swap_pairs_loop fuel' dst buf len (u8 (idx + 2))
        | _ => None
        end
      else buf.[idx <- 0]
  end.

Definition swap_pairs_bytes (dst buf : list Z) (len : Z) : option (list Z) :=
  swap_pairs_loop (S (Z.to_nat len)) dst buf len 0.

Definition read_disk (buf : Z) (s : St) : St := insw 256 hd.data_reg buf s.
Definition write_disk (buf : Z) (s : St) : St := outsw 256 hd.data_reg buf s.

Fixpoint read_loop (n : nat) (i buf : Z) (s : St) : option St :=
  match n with
  | O => Some s
  | S n' =>
      s ← receive_interrupt s;
      '(ready, s) ← wait_disk s;
      if negb ready then printf_ln "Read from sector failed." [] s
      else read_loop n' (i + 1) buf (read_disk (buf + i * 512) s)
  end.

Definition _read_sector (disk : drive) (lba buf cnt : Z) (s : St) : option St :=
  let s := choose_disk disk s in
  let s := choose_sector disk lba cnt s in
  let s := outb hd.cmd_reg hd.read s in
  read_loop (Z.to_nat cnt) 0 buf s.

Fixpoint write_loop (n : nat) (i buf : Z) (s : St) : option St :=
  match n with
  | O => Some s
  | S n' =>
      s ← receive_interrupt (write_disk (buf + i * 512) s);
      write_loop n' (i + 1) buf s
  end.

Definition _write_sector (disk : drive) (lba buf cnt : Z) (s : St) : option St :=
  let s := choose_disk disk s in
  let s := choose_sector disk lba cnt s in
  let s := outb hd.cmd_reg hd.write s in
  '(ready, s) ← wait_disk s;
  if negb ready then printf_ln "Write to sector failed." [] s
  else write_loop (Z.to_nat cnt) 0 buf s.

(** [disks] is the global array of the driver. *)
Definition read_sector (disks : list drive) (disk_nr lba buf cnt : Z) (s : St) : option St :=
  disk ← disks.[disk_nr]; _read_sector disk lba buf cnt s.

Definition write_sector (disks : list drive) (disk_nr lba buf cnt : Z) (s : St) : option St :=
  disk ← disks.[disk_nr]; _write_sector disk lba buf cnt s.

(** [info_buf] is the address of the array of that name on the stack. *)
Definition disk_identify (info_buf : Z) (disks : list drive) (disk_nr : Z) (s : St) : option St :=
  disk ← disks.[disk_nr];
  let s := choose_disk disk s in
  let s := outb hd.cmd_reg hd.identify s in
  s ← receive_interrupt s;
  '(ready, s) ← wait_disk s;
  if negb ready then printf_ln "Not ready." [] s
  else
    let s := read_disk info_buf s in
    buf ← swap_pairs_bytes (mem_bytes s (info_buf + 20) 492) (replicate 64 0) 20;
    printf_ln "SN is %s" [AStr buf] s.

(** The 64 bytes of the table. *)
Definition get_partition_table (disks : list drive) (disk_nr lba : Z) (s : St) : option (list Z * St) :=
  '(buf, s) ← Syscalls.malloc u 512 s;
  s ← read_sector disks disk_nr lba buf 1 s;
  let p_tbl := mem_bytes s (buf + 0x1be) 64 in
  s ← Syscalls.free u buf s;
  Some (p_tbl, s).

(** One entry of a table that is shown. *)
Definition print_partition (part : partition) (s : St) : option St :=
  if negb (0 =? part.(sector_cnt))
  then printf_ln "%s, start at %d, size is %dMB."
         [AStr part.(p_name); AInt part.(p_start_lba); AInt (u32 (part.(sector_cnt) * 512) / (1024 * 1024))] s
  else Some s.

Fixpoint print_partitions (l : list partition) (s : St) : option St :=
  match l with [] => Some s | part :: l' => s ← print_partition part s; print_partitions l' s end.

Definition print_disk_partition_info (disks : list drive) (disk_nr : Z) (s : St) : option St :=
  disk ← disks.[disk_nr];
  s ← print_partitions disk.(parts).(primary) s;
  s ← printf_ln "logic:" [] s;
  print_partitions disk.(parts).(logic) s.

(** [logic_idx] is not compared with the length of [logic]. *)
Fixpoint ebr_loop (fuel : nat) (disks : list drive) (disk_nr : Z) (ebr_tbl : list Z) (extend_offset logic_idx : Z)
  (logic : list partition) (s : St) : option (list partition * St) :=
  match fuel with
  | O => None
  | S fuel' =>
      e0 ← (dec_table ebr_tbl).[0];
      if negb (0 =? e0.(sector_nr_in)) then
        part ← logic.[logic_idx];
        name ← sda part.(p_name) (logic_idx + 5);
        logic ← logic.[logic_idx <- mk_partition name e0.(sector_nr_in)
                          (u32 (e0.(sector_nr_before) + extend_offset)) LOGIC];
        let logic_idx := logic_idx + 1 in
        e1 ← (dec_table ebr_tbl).[1];
        let ebr_offset := u32 (e1.(sector_nr_before) + extend_offset) in
        if negb (0 =? e1.(sector_nr_in)) then
          '(ebr_tbl, s) ← get_partition_table disks disk_nr ebr_offset s;
          ebr_loop fuel' disks disk_nr ebr_tbl ebr_offset logic_idx logic s
        else Some (logic, s)
      else Some (logic, s)
  end.

(** Five turns are enough: the fifth has no place for its partition. *)
Definition process_disk_ebr (disks : list drive) (disk_nr : Z) (entry : partition_table_entry_mbr)
  (logic : list partition) (s : St) : option (list partition * St) :=
  '(ebr_tbl, s) ← get_partition_table disks disk_nr entry.(sector_nr_before) s;
  ebr_loop 5 disks disk_nr ebr_tbl entry.(sector_nr_before) 0 logic s.

Fixpoint mbr_loop (disks : list drive) (disk_nr : Z) (entries : list partition_table_entry_mbr) (i : Z)
  (d : disk_info) (s : St) : option (disk_info * St) :=
  match entries with
  | [] => Some (d, s)
  | e :: entries' =>
      '(d, s) ←
        (if negb (0 =? e.(sector_nr_in)) then
           part ← d.(primary).[i];
           name ← sda part.(p_name) i;
           '(logic, s) ← (if 0x5 =? e.(sys_signature) then process_disk_ebr disks disk_nr e d.(logic) s
                          else Some (d.(logic), s));
           let type := if 0x5 =? e.(sys_signature) then EXTEND else PRIMARY in
           primary ← d.(primary).[i <- mk_partition name e.(sector_nr_in) e.(sector_nr_before) type];
           Some (mk_disk primary logic, s)
         else Some (d, s));
      mbr_loop disks disk_nr entries' (i + 1) d s
  end.

Definition traverse_disk_partition (disks : list drive) (disk_nr : Z) (s : St) : option (list drive * St) :=
  '(mbr_tbl, s) ← get_partition_table disks disk_nr 0 s;
  disk ← disks.[disk_nr];
  '(d, s) ← mbr_loop disks disk_nr (dec_table mbr_tbl) 0 disk.(parts) s;
  disks ← disks.[disk_nr <- mk_drive disk.(is_slave) d];
  Some (disks, s).

(** The handlers of the two channels are registered before the slave is read. *)
Definition init_disk (handler : Z) (s : St) : option (list drive * St) :=
  let disks := [mk_drive false no_partitions; mk_drive true no_partitions] in
  s ← Syscalls.sys_register_intr_handler u 0x2e handler s;
  s ← Syscalls.sys_register_intr_handler u 0x2f handler s;
  traverse_disk_partition disks 1 s.
End driver.

(** ** The driver on an ATA drive *)

(** Memory [f] with [data] stored from [a] on. *)
Definition overlay (a : Z) (data : list Z) (f : Z -> Z) (b : Z) : Z := default (f b) (data.[b - a]).

Lemma overlay_nil a f b : overlay a [] f b = f b.
Proof. unfold overlay. assert (([] : list Z).[b - a] = None) as -> by (apply zget_None; change (zlen []) with 0; destruct (Z.lt_ge_cases (b - a) 0); tauto). done. Qed.

Lemma overlay_ext a data f g b : (forall c, f c = g c) -> overlay a data f b = overlay a data g b.
Proof. intros E. unfold overlay. by rewrite E. Qed.

Lemma overlay_app a d1 d2 f b : overlay (a + zlen d1) d2 (overlay a d1 f) b = overlay a (d1 ++ d2) f b.
Proof.
  unfold overlay. destruct (decide (b - a < zlen d1)).
  - rewrite zget_app_l by done. assert (d2.[b - (a + zlen d1)] = None) as -> by (apply zget_None; lia). done.
  - rewrite zget_app_r by lia. replace (b - a - zlen d1) with (b - (a + zlen d1)) by lia.
    assert (d1.[b - a] = None) as -> by (apply zget_None; lia). done.
Qed.

Lemma overlay_byte a x f b : overlay a [x] f b = if b =? a then x else f b.
Proof.
  unfold overlay. destruct (Z.eqb_spec b a) as [->|E].
  - rewrite Z.sub_diag. done.
  - assert ([x].[b - a] = None) as -> by (apply zget_None; unfold zlen; cbn; lia). done.
Qed.

(** What the drive does once a sector has been given. *)
Definition after (lba : Z) (todo : nat) : activity :=
  match todo with S (S todo') => Fetch (lba + 1) (S todo') | _ => Idle end.

Lemma word_halves x y : is_u8 x -> is_u8 y -> u8 (x + 256 * y) = x /\ u8 ((x + 256 * y) / 256) = y.
Proof.
  intros Hx Hy. assert (((x + 256 * y) / 256) = y) as -> by (symmetry; apply Z.div_unique with x; unwrap; lia).
  split; [|by apply u8_id]. symmetry. apply Z.mod_unique with y; unwrap; lia.
Qed.

(** The device register: mode, drive and the upper four bits of the address. *)
Definition dev_code (x : Z) : bool :=
  forallb (fun b : bool =>
    let r := u8 (if b then Z.lor (u8 (Z.lor 0xe0 x)) 0x10 else u8 (Z.lor 0xe0 x)) in
    (Z.land r 15 =? x) && Bool.eqb (Z.testbit r 4) b) [true; false].
Lemma dev_codes : below 16 dev_code = true.
Proof. vm_compute. reflexivity. Qed.

Lemma address_bytes lba : 0 <= lba < 268435456 ->
  u8 lba + 256 * u8 (lba / 256) + 65536 * u8 (lba / 65536) + 16777216 * (lba / 16777216) = lba.
Proof.
  intros Hl. pose proof (bytes_of_u32 lba) as E. rewrite (u32_id lba) in E by lia.
  rewrite (u8_id (lba / 16777216)) in E by (split; [apply Z.div_pos; lia|apply Z.div_lt_upper_bound; lia]).
  exact E.
Qed.

(** The drive has been given the number of a sector and of sectors to transfer. *)
Record asked (a a' : ata) (d : drive) (lba cnt : Z) : Prop := {
  ask_address : address a' = lba;
  ask_amount : amount a' = Z.to_nat cnt;
  ask_slave : is_slave_selected a' = d.(is_slave);
  ask_idle : a'.(act) = Idle;
  ask_master_data : a'.(master) = a.(master);
  ask_slave_data : a'.(slave) = a.(slave);
}.

Section drive.
Context {St : Type} `{Ports St} `{Syscalls.Ipc St} `{!PortLaws St} `{!Ata St}.

Definition same_memory (s s' : St) : Prop := forall b, Syscalls.peek s' b = Syscalls.peek s b.

(** The driver looks once: the port it asks for the busy bit is not a register
    of the drive, so that it never waits. *)
Definition looked (s : St) : ata := if in_time (snd (inb 0x80 s)) then get_ready (view s) else view s.

Lemma wait_once t u s :
  exists s', wait_disk t u s = Some (drq (looked s), s') /\ view s' = looked s /\ same_memory s s'.
Proof.
  unfold wait_disk, looked. cbn [wait_loop]. change (Z.land hd.status_reg hd.stat_busy) with 0x80.
  pose proof (view_unassigned s) as [V1 F1]. pose proof (fun b => peek_inb 0x80 s b) as P1.
  destruct (inb 0x80 s) as [v s1]. cbn [fst snd] in *. subst v. change (truth 255) with true. cbv iota.
  pose proof (view_status s1) as (V2 & F2 & _). pose proof (fun b => peek_inb hd.status_reg s1 b) as P2.
  destruct (inb hd.status_reg s1) as [v s2]. cbn [fst snd] in *.
  exists s2. rewrite F2, <- V1. split; [done|]. split; [done|]. intros b. by rewrite P2, P1.
Qed.

Lemma wait_ready t u s : drq (view s) = true ->
  exists s', wait_disk t u s = Some (true, s') /\ view s' = view s /\ same_memory s s'.
Proof.
  intros Hd. destruct (wait_once t u s) as (s' & E & V & M). exists s'.
  assert (looked s = view s) as El.
  { unfold looked, get_ready. destruct (in_time _); [|done]. unfold drq in Hd. by destruct (act (view s)). }
  by rewrite E, V, El, Hd.
Qed.

Lemma insw_S n p a s :
  insw (S n) p a s =
    let '(w, s) := inw p s in
    insw n p (a + 2) (Syscalls.poke (Syscalls.poke s a (u8 w)) (a + 1) (u8 (w / 256))).
Proof. done. Qed.

Lemma insw_sector n lba todo data a s :
  (view s).(act) = Give lba todo data -> length data = (2 * S n)%nat -> Forall is_u8 data ->
  view (insw (S n) hd.data_reg a s) = set_act (view s) (after lba todo) /\
  forall b, Syscalls.peek (insw (S n) hd.data_reg a s) b = overlay a data (Syscalls.peek s) b.
Proof.
  revert data a s. induction n as [|n IH]; intros data a s Ha Hl Hb;
    (destruct data as [|x [|y data]]; [done|done|]);
    apply Forall_cons in Hb as [Hx Hb]; apply Forall_cons in Hb as [Hy Hb]; cbn [length] in Hl;
    rewrite insw_S.
  all: assert (u8 (x + 256 * y) = x /\ u8 ((x + 256 * y) / 256) = y) as [Ex Ey] by (apply word_halves; done).
  all: pose proof (view_inw s (x + 256 * y)) as Hv; unfold ata_in in Hv; rewrite Ha in Hv.
  all: destruct (Hv _ eq_refl) as [V1 F1]; clear Hv.
  all: pose proof (fun b => peek_inw hd.data_reg s b) as P1.
  all: destruct (inw hd.data_reg s) as [w s1]; cbn [fst snd] in *; subst w; rewrite Ex, Ey.
  all: set (s2 := Syscalls.poke _ _ _).
  all: assert (forall b, Syscalls.peek s2 b = overlay a [x; y] (Syscalls.peek s) b) as P2
    by (intros b; unfold s2; rewrite !peek_poke, !u8_id by done;
        rewrite <- (overlay_app a [x] [y]), overlay_byte, overlay_byte, P1; change (zlen [x]) with 1; done).
  all: assert (view s2 = view s1) as V2 by (unfold s2; rewrite !view_poke; done).
  - destruct data; [|cbn in Hl; lia]. cbn [insw]. split; [|exact P2]. rewrite V2, V1.
    unfold after. by destruct todo as [|[]].
  - destruct data as [|z data]; [cbn in Hl; lia|].
    assert (view s1 = set_act (view s) (Give lba todo (z :: data))) as V1' by (rewrite V1; by destruct todo as [|[]]).
    assert (act (view s2) = Give lba todo (z :: data)) as A2 by (by rewrite V2, V1').
    destruct (IH (z :: data) (a + 2) s2 A2) as [V3 P3]; [lia|done|].
    split; [by rewrite V3, V2, V1'|]. intros b. rewrite P3.
    rewrite (overlay_ext _ _ _ _ b P2). apply (overlay_app a [x; y]).
Qed.

Lemma outb_idle p v s : (view s).(act) = Idle -> hd.sect_cnt_reg <= p <= hd.dev_reg ->
  view (outb p v s) = ata_out p v (view s) /\ (view (outb p v s)).(act) = Idle.
Proof.
  intros Hi Hp. rewrite view_outb; [|done|unfold hd.dev_reg, hd.cmd_reg in *; lia].
  split; [done|]. unfold ata_out. repeat case_match; try done. zbool. unfold hd.cmd_reg, hd.dev_reg in *. lia.
Qed.

Lemma choose_view d lba cnt s :
  (view s).(act) = Idle -> 0 <= lba < 268435456 -> 1 <= cnt <= 256 ->
  asked (view s) (view (choose_sector d lba cnt (choose_disk d s))) d lba cnt /\
  same_memory s (choose_sector d lba cnt (choose_disk d s)).
Proof.
  intros Hi Hl Hc. split; [|intros b; unfold choose_sector, choose_disk; by rewrite !peek_outb].
  unfold choose_sector. set (s0 := choose_disk d s).
  assert (act (view s0) = Idle /\ master (view s0) = master (view s) /\ slave (view s0) = slave (view s)) as (I0 & M0 & L0).
  { unfold s0, choose_disk. edestruct (outb_idle hd.dev_reg) as [E I]; [exact Hi|done|]. rewrite I, E. done. }
  clearbody s0. clear Hi.
  destruct (outb_idle hd.sect_cnt_reg (u8 cnt) s0 I0 ltac:(done)) as [E1 I1]. set (s1 := outb _ _ s0) in *.
  destruct (outb_idle hd.lba_l_reg (u8 lba) s1 I1 ltac:(done)) as [E2 I2]. set (s2 := outb _ _ s1) in *.
  destruct (outb_idle hd.lba_m_reg (u8 (Z.shiftr lba 8)) s2 I2 ltac:(done)) as [E3 I3]. set (s3 := outb _ _ s2) in *.
  destruct (outb_idle hd.lba_h_reg (u8 (Z.shiftr lba 16)) s3 I3 ltac:(done)) as [E4 I4]. set (s4 := outb _ _ s3) in *.
  set (r := if is_slave d then _ else _).
  destruct (outb_idle hd.dev_reg r s4 I4 ltac:(done)) as [E5 I5]. set (s5 := outb _ _ s4) in *.
  rewrite E4, E3, E2, E1 in E5. cbn in E5.
  assert (0 <= lba / 16777216 < 16) as Hx by (split; [apply Z.div_pos; lia|apply Z.div_lt_upper_bound; lia]).
  pose proof (below_spec 16 dev_code dev_codes _ Hx) as Hd. unfold dev_code in Hd.
  rewrite forallb_forall in Hd. specialize (Hd d.(is_slave) ltac:(destruct (is_slave d); cbn; tauto)).
  cbn zeta in Hd. rewrite andb_true_iff, Z.eqb_eq, Bool.eqb_true_iff in Hd.
  assert (r = (if is_slave d then Z.lor (u8 (Z.lor 0xe0 (lba / 16777216))) 16 else u8 (Z.lor 0xe0 (lba / 16777216)))) as Er
    by (unfold r; rewrite Z.shiftr_div_pow2 by lia; done).
  rewrite <- Er in Hd. destruct Hd as [Hd1 Hd2].
  rewrite E5, !(u8_id (u8 _)) by apply u8_range. rewrite !Z.shiftr_div_pow2 by lia.
  constructor; cbn.
  - unfold address. cbn. rewrite Hd1. by apply address_bytes.
  - unfold amount. cbn. destruct (decide (cnt = 256)) as [->|]; [done|].
    rewrite u8_id by lia. destruct (Z.eqb_spec cnt 0); [lia|done].
  - exact Hd2.
  - exact I0.
  - exact M0.
  - exact L0.
Qed.

(** The sectors [lba], ..., [lba + n - 1] of a disk. *)
Definition sectors (disk : gmap Z (list Z)) (lba : Z) (n : nat) : list Z :=
  concat (map (fun k => sector disk (lba + k)) (seqZ 0 (Z.of_nat n))).

Lemma sectors_S disk lba n : sectors disk lba (S n) = sector disk lba ++ sectors disk (lba + 1) n.
Proof.
  unfold sectors. rewrite seqZ_cons by lia. cbn [map concat]. rewrite Z.add_0_r. f_equal. f_equal.
  replace (Z.pred (Z.of_nat (S n))) with (Z.of_nat n) by lia. change (Z.succ 0) with (1 + 0).
  rewrite <- fmap_add_seqZ. unfold fmap. rewrite map_map. apply map_ext. intros k. f_equal. lia.
Qed.

Definition asking (lba : Z) (n : nat) : activity := match n with O => Idle | S _ => Fetch lba n end.

Lemma read_loop_spec t u n disk lba i buf s :
  (view s).(act) = asking lba n -> media (view s) (is_slave_selected (view s)) = disk ->
  (forall x, sector_ok (sector disk x)) ->
  exists s', read_loop t u n i buf s = Some s' /\ view s' = set_act (view s) Idle /\
    forall b, Syscalls.peek s' b = overlay (buf + i * 512) (sectors disk lba n) (Syscalls.peek s) b.
Proof.
  intros Ha Hm Hok. revert lba i s Ha Hm. induction n as [|n IH]; intros lba i s Ha Hm; cbn [read_loop].
  - exists s. split; [done|]. split; [by destruct (view s); cbn in *; subst|]. intros b. by rewrite overlay_nil.
  - destruct (view_interrupt s (set_act (view s) (Give lba (S n) (sector disk lba)))) as (s1 & E1 & V1).
    { unfold ata_interrupt. rewrite Ha, Hm. done. }
    rewrite E1. sbind. pose proof (fun b => peek_interrupt _ _ b E1) as P1.
    destruct (wait_ready t u s1) as (s2 & E2 & V2 & P2); [by rewrite V1|]. rewrite E2. sbind. cbn [negb].
    destruct (Hok lba) as [Hl Hb].
    destruct (insw_sector 255 lba (S n) (sector disk lba) (buf + i * 512) s2) as [V3 P3];
      [by rewrite V2, V1|done|done|].
    change (insw 256 hd.data_reg) with (read_disk (St := St)) in V3, P3.
    set (s3 := read_disk _ s2) in *. rewrite V2, V1 in V3.
    destruct (IH (lba + 1) (i + 1) s3) as (s' & E' & V' & P').
    { rewrite V3. by destruct n. }
    { by rewrite V3. }
    exists s'. split; [exact E'|]. split; [by rewrite V', V3|]. intros b. rewrite P'.
    erewrite overlay_ext; [|intros c; rewrite P3; apply overlay_ext; intros c'; rewrite P2, P1; reflexivity].
    rewrite sectors_S, <- overlay_app. unfold zlen. rewrite Hl. f_equal. lia.
Qed.

Lemma read_sector_spec t u disks disk_nr d disk lba buf cnt s :
  disks.[disk_nr] = Some d -> (view s).(act) = Idle -> media (view s) d.(is_slave) = disk ->
  (forall x, sector_ok (sector disk x)) ->
  0 <= lba < 268435456 -> 1 <= cnt <= 256 ->
  exists s', read_sector t u disks disk_nr lba buf cnt s = Some s' /\
    (view s').(act) = Idle /\ (view s').(master) = (view s).(master) /\ (view s').(slave) = (view s).(slave) /\
    forall b, Syscalls.peek s' b = overlay buf (sectors disk lba (Z.to_nat cnt)) (Syscalls.peek s) b.
Proof.
  intros Hd Hi Hm Hok Hl Hc. unfold read_sector, _read_sector. rewrite Hd. sbind.
  destruct (choose_view d lba cnt s Hi Hl Hc) as [[A1 A2 A3 A4 A5 A6] P0].
  set (s0 := choose_sector _ _ _ _) in *.
  assert (view (outb hd.cmd_reg hd.read s0) = set_act (view s0) (Fetch lba (Z.to_nat cnt))) as V1.
  { rewrite view_outb by done. rewrite <- A1, <- A2. done. }
  pose proof (fun b => peek_outb hd.cmd_reg hd.read s0 b) as P1. set (s1 := outb _ _ s0) in *.
  assert (media (view s1) (is_slave_selected (view s1)) = disk) as M1.
  { rewrite V1. change (is_slave_selected (set_act (view s0) _)) with (is_slave_selected (view s0)).
    rewrite A3, <- Hm. unfold media. cbn. by rewrite A5, A6. }
  destruct (read_loop_spec t u (Z.to_nat cnt) disk lba 0 buf s1) as (s' & E & V & P); [|done|done|].
  { rewrite V1. unfold asking. destruct (Z.to_nat cnt) eqn:Ec; [lia|done]. }
  exists s'. split; [exact E|]. rewrite V, V1. cbn. split_and!; [done..|].
  intros b. rewrite P. replace (buf + 0 * 512) with buf by lia. apply overlay_ext. intros c. by rewrite P1, P0.
Qed.

Lemma outsw_S n p a s :
  outsw (S n) p a s =
    outsw n p (a + 2) (outw p (u8 (Syscalls.peek s a) + 256 * u8 (Syscalls.peek s (a + 1))) s).
Proof. done. Qed.

(** The [n] bytes at [a], as bytes. *)
Definition bytes_from (s : St) (a : Z) (n : nat) : list Z := map (fun b => u8 (Syscalls.peek s b)) (seqZ a (Z.of_nat n)).

Lemma bytes_from_length s a n : length (bytes_from s a n) = n.
Proof. unfold bytes_from. rewrite length_map, length_seqZ. lia. Qed.

Lemma bytes_from_two s a : bytes_from s a 2 = [u8 (Syscalls.peek s a); u8 (Syscalls.peek s (a + 1))].
Proof. unfold bytes_from. rewrite (Z.add_comm a 1). done. Qed.

Lemma bytes_from_app s a n k : bytes_from s a (n + k) = bytes_from s a n ++ bytes_from s (a + Z.of_nat n) k.
Proof. unfold bytes_from. rewrite Nat2Z.inj_add, seqZ_app by lia. apply map_app. Qed.

Lemma bytes_from_same s s' a n : same_memory s s' -> bytes_from s' a n = bytes_from s a n.
Proof. intros E. unfold bytes_from. apply map_ext. intros b. by rewrite E. Qed.

Lemma outsw_sector n lba todo data a s :
  (view s).(act) = Take lba todo data -> (length data + 2 * S n = 512)%nat ->
  view (outsw (S n) hd.data_reg a s) =
    set_act (store_sector (view s) lba (data ++ bytes_from s a (2 * S n))) (Store (lba + 1) (pred todo)) /\
  same_memory s (outsw (S n) hd.data_reg a s).
Proof.
  revert data a s. induction n as [|n IH]; intros data a s Ha Hl; rewrite outsw_S;
    set (x := Syscalls.peek s a); set (y := Syscalls.peek s (a + 1));
    destruct (word_halves (u8 x) (u8 y) (u8_range _) (u8_range _)) as [Ex Ey];
    pose proof (view_outw s (u8 x + 256 * u8 y)) as V1;
    pose proof (fun b => peek_outw hd.data_reg (u8 x + 256 * u8 y) s b) as P1;
    unfold ata_take in V1; rewrite Ha, Ex, Ey in V1; specialize (V1 _ eq_refl);
    set (s1 := outw _ _ s) in *;
    unfold zlen in V1; rewrite length_app in V1; cbn [length] in V1.
  - rewrite (proj2 (Z.eqb_eq _ _)) in V1 by (unfold sector_size; lia). cbn [outsw].
    split; [|exact P1]. rewrite V1, bytes_from_two. done.
  - rewrite (proj2 (Z.eqb_neq _ _)) in V1 by (unfold sector_size; lia).
    destruct (IH (data ++ [u8 x; u8 y]) (a + 2) s1) as [V2 P2]; [by rewrite V1| |].
    { rewrite length_app. cbn [length]. lia. }
    split; [|intros b; by rewrite P2]. rewrite V2, V1, (bytes_from_same s s1) by exact P1.
    replace (2 * S (S n))%nat with (2 + 2 * S n)%nat by lia. rewrite bytes_from_app, bytes_from_two, <- (assoc_L (++)).
    unfold store_sector. change (is_slave_selected (set_act _ _)) with (is_slave_selected (view s)).
    by destruct (is_slave_selected (view s)).
Qed.

Lemma write_disk_sector lba todo a s :
  (view s).(act) = Take lba todo [] ->
  view (write_disk a s) = set_act (store_sector (view s) lba (bytes_from s a 512)) (Store (lba + 1) (pred todo)) /\
  same_memory s (write_disk a s).
Proof. intros Ha. unfold write_disk. apply (outsw_sector 255 lba todo [] a s Ha). reflexivity. Qed.

Lemma selected_set_act a x : is_slave_selected (set_act a x) = is_slave_selected a.
Proof. done. Qed.

Lemma selected_store a lba data : is_slave_selected (store_sector a lba data) = is_slave_selected a.
Proof. unfold store_sector. destruct (is_slave_selected a) eqn:E; exact E. Qed.

Lemma media_store a lba data x :
  media (set_act (store_sector a lba data) x) (is_slave_selected a) = <[lba := data]> (media a (is_slave_selected a)).
Proof. unfold store_sector, media. by destruct (is_slave_selected a). Qed.

Definition offering (lba : Z) (n : nat) : activity := match n with O => Idle | S _ => Take lba n [] end.

(** The drive with the sectors of one of its disks replaced. *)
Definition with_media (a : ata) (is_slave : bool) (disk : gmap Z (list Z)) : ata :=
  if is_slave then mk_ata a.(count) a.(low) a.(mid) a.(high) a.(device) a.(master) disk a.(act)
  else mk_ata a.(count) a.(low) a.(mid) a.(high) a.(device) disk a.(slave) a.(act).

Lemma write_loop_spec n disk lba i buf s :
  (view s).(act) = offering lba n -> media (view s) (is_slave_selected (view s)) = disk ->
  0 <= lba -> lba + Z.of_nat n <= 268435456 ->
  exists s' disk', write_loop n i buf s = Some s' /\
    write_sectors n disk lba (bytes_from s (buf + i * 512) (512 * n)) = Some disk' /\
    view s' = set_act (with_media (view s) (is_slave_selected (view s)) disk') Idle /\ same_memory s s'.
Proof.
  intros Ha Hm L0 L1. revert disk lba i s Ha Hm L0 L1.
  induction n as [|n IH]; intros disk lba i s Ha Hm L0 L1; cbn [write_loop].
  - exists s, disk. split_and!; [done|done| |done]. subst disk. unfold with_media, media, set_act.
    cbn in Ha. destruct (is_slave_selected (view s)), (view s); cbn in *; by subst.
  - destruct (write_disk_sector lba (S n) (buf + i * 512) s Ha) as [V1 P1].
    set (s1 := write_disk _ s) in *. cbn [pred] in V1.
    destruct (view_interrupt s1 (set_act (view s1) (offering (lba + 1) n))) as (s2 & E2 & V2).
    { unfold ata_interrupt. rewrite V1. cbn [set_act act]. by destruct n. }
    rewrite E2. sbind. pose proof (fun b => peek_interrupt _ _ b E2) as P2.
    assert (media (view s2) (is_slave_selected (view s2)) = <[lba := bytes_from s (buf + i * 512) 512]> disk) as M2.
    { rewrite V2, V1. rewrite !selected_set_act, selected_store, <- Hm. apply media_store. }
    destruct (IH _ (lba + 1) (i + 1) s2 ltac:(by rewrite V2) M2) as (s' & disk' & E3 & W3 & V3 & P3); [lia|lia|].
    exists s', disk'. split; [exact E3|].
    replace (512 * S n)%nat with (512 + 512 * n)%nat by lia. rewrite bytes_from_app.
    split; [|split].
    + cbn [write_sectors]. unfold zlen. rewrite length_app, bytes_from_length.
      rewrite (proj2 (Z.ltb_ge _ _)) by (unfold sector_size; lia).
      rewrite take_app_length', drop_app_length' by (by rewrite bytes_from_length). rewrite u32_id by lia.
      rewrite <- W3. f_equal. rewrite (bytes_from_same s s2) by (intros b; rewrite P2; apply P1).
      f_equal. lia.
    + rewrite V3, V2, V1. rewrite !selected_set_act, selected_store. unfold store_sector, with_media. by destruct (is_slave_selected (view s)).
    + intros b. rewrite P3, P2. apply P1.
Qed.

(** The machine when the driver has given a write to a drive and is about to look
    at it, and whether the drive is ready by then. *)
Definition write_given (d : drive) (lba cnt : Z) (s : St) : St :=
  outb hd.cmd_reg hd.write (choose_sector d lba cnt (choose_disk d s)).
Definition drive_in_time (d : drive) (lba cnt : Z) (s : St) : bool := in_time (snd (inb 0x80 (write_given d lba cnt s))).

Lemma write_given_view d lba cnt s :
  (view s).(act) = Idle -> 0 <= lba < 268435456 -> 1 <= cnt <= 256 ->
  let a := view (write_given d lba cnt s) in
  a.(act) = Prepare lba (Z.to_nat cnt) /\ is_slave_selected a = d.(is_slave) /\ a.(master) = (view s).(master) /\
  a.(slave) = (view s).(slave) /\ same_memory s (write_given d lba cnt s).
Proof.
  intros Hi Hl Hc. destruct (choose_view d lba cnt s Hi Hl Hc) as [[A1 A2 A3 A4 A5 A6] P0].
  unfold write_given. set (s0 := choose_sector _ _ _ _) in *.
  assert (view (outb hd.cmd_reg hd.write s0) = set_act (view s0) (Prepare lba (Z.to_nat cnt))) as ->.
  { rewrite view_outb by done. rewrite <- A1, <- A2. done. }
  split; [done|]. split; [exact A3|]. split; [exact A5|]. split; [exact A6|]. intros b. by rewrite peek_outb, P0.
Qed.

Lemma write_sector_spec t u disks disk_nr d disk lba buf cnt s :
  disks.[disk_nr] = Some d -> (view s).(act) = Idle -> media (view s) d.(is_slave) = disk ->
  0 <= lba -> lba + cnt <= 268435456 -> 1 <= cnt <= 256 -> drive_in_time d lba cnt s = true ->
  exists s' disk', write_sector t u disks disk_nr lba buf cnt s = Some s' /\
    write_sectors (Z.to_nat cnt) disk lba (bytes_from s buf (512 * Z.to_nat cnt)) = Some disk' /\
    (view s').(act) = Idle /\
    media (view s') d.(is_slave) = disk' /\
    media (view s') (negb d.(is_slave)) = media (view s) (negb d.(is_slave)) /\
    same_memory s s'.
Proof.
  intros Hd Hi Hm Hl Hl' Hc Ht. unfold write_sector, _write_sector. rewrite Hd. sbind.
  destruct (write_given_view d lba cnt s Hi ltac:(lia) Hc) as (A1 & A3 & A5 & A6 & P1).
  unfold drive_in_time, write_given in *. set (s1 := outb hd.cmd_reg _ _) in *.
  destruct (wait_once t u s1) as (s2 & E2 & V2 & P2). unfold looked, get_ready in E2, V2. rewrite Ht, A1 in E2, V2.
  rewrite E2. sbind. change (drq (set_act _ (Take _ _ _))) with true. cbn [negb].
  assert (same_memory s s2) as Ps by (intros b; by rewrite P2, P1).
  assert (is_slave_selected (view s2) = d.(is_slave)) as S2 by (rewrite V2; exact A3).
  assert (media (view s2) (is_slave_selected (view s2)) = disk) as M2.
  { rewrite S2, V2, <- Hm. unfold media. cbn. by rewrite A5, A6. }
  destruct (write_loop_spec (Z.to_nat cnt) disk lba 0 buf s2) as (s' & disk' & E & W & V & P); [|done|lia|lia|].
  { rewrite V2. unfold offering. destruct (Z.to_nat cnt) eqn:Ec; [lia|done]. }
  exists s', disk'. split; [exact E|]. replace (buf + 0 * 512) with buf in W by lia.
  rewrite (bytes_from_same s s2) in W by exact Ps. rewrite S2 in V. rewrite V.
  split_and!; [exact W|done| | |intros b; by rewrite P, Ps].
  - unfold with_media, media. by destruct d.(is_slave).
  - rewrite V2. unfold with_media, media. cbn. by destruct d.(is_slave); cbn.
Qed.

(** A drive that is still busy when the driver looks: the write is given up, and
    the drive is left with the command. *)
Lemma write_sector_busy t u disks disk_nr d lba buf cnt s :
  disks.[disk_nr] = Some d -> (view s).(act) = Idle -> 0 <= lba < 268435456 -> 1 <= cnt <= 256 ->
  drive_in_time d lba cnt s = false ->
  exists s', write_sector t u disks disk_nr lba buf cnt s = Some s' /\ busy (view s') = true /\
    (view s').(act) = Prepare lba (Z.to_nat cnt) /\
    (view s').(master) = (view s).(master) /\ (view s').(slave) = (view s).(slave) /\ same_memory s s'.
Proof.
  intros Hd Hi Hl Hc Ht. unfold write_sector, _write_sector. rewrite Hd. sbind.
  destruct (write_given_view d lba cnt s Hi Hl Hc) as (A1 & A3 & A5 & A6 & P1).
  unfold drive_in_time, write_given in *. set (s1 := outb hd.cmd_reg _ _) in *.
  destruct (wait_once t u s1) as (s2 & E2 & V2 & P2). unfold looked in E2, V2. rewrite Ht in E2, V2. rewrite E2. sbind.
  assert (drq (view s1) = false) as -> by (unfold drq; by rewrite A1). cbn [negb].
  unfold printf_ln, printf. set (line := vsprintf _ _).
  assert (exists out, line = Some out /\ (zlen out <? 1024) = true) as (out & -> & Hout) by (eexists; vm_compute; done).
  sbind. rewrite Hout. eexists. split; [reflexivity|]. rewrite view_putstring, V2, A1, A5, A6.
  split; [unfold busy; by rewrite A1|]. split; [done|]. split; [done|]. split; [done|].
  intros b. by rewrite peek_putstring, P2, P1.
Qed.

(** C9. The driver implements the disk the file system works on, for drives that
    are in time. Reading sectors of a drive leaves at the buffer the bytes the file
    system's [read_disk] gives, and nothing else in memory or on the drives
    changes. For a write the driver looks at the drive once: when it is ready for
    the data, writing stores what the file system's [write_disk] stores, and the
    other drive and the memory stay; when it is still busy, nothing is written and
    the drive is left waiting for the data. All of these return, for 1 to 256
    sectors with 28-bit addresses and an idle drive. *)
Theorem driver_implements_disk t u disks disk_nr d lba buf cnt s f :
  disks.[disk_nr] = Some d -> (view s).(act) = Idle -> media (view s) d.(is_slave) = f.(FsState.disk) ->
  (forall x, sector_ok (sector f.(FsState.disk) x)) ->
  0 <= lba -> lba + cnt <= 268435456 -> 1 <= cnt <= 256 ->
  (exists s' bs, read_sector t u disks disk_nr lba buf cnt s = Some s' /\
     FsState.read_disk lba cnt f = Some (bs, f) /\
     (forall b, Syscalls.peek s' b = overlay buf bs (Syscalls.peek s) b) /\
     (view s').(act) = Idle /\ (view s').(master) = (view s).(master) /\ (view s').(slave) = (view s).(slave)) /\
  (exists s', write_sector t u disks disk_nr lba buf cnt s = Some s' /\ same_memory s s' /\
     media (view s') (negb d.(is_slave)) = media (view s) (negb d.(is_slave)) /\
     if drive_in_time d lba cnt s then
       exists f', FsState.write_disk lba (bytes_from s buf (512 * Z.to_nat cnt)) cnt f = Some (tt, f') /\
         media (view s') d.(is_slave) = f'.(FsState.disk) /\ (view s').(act) = Idle
     else media (view s') d.(is_slave) = f.(FsState.disk) /\ busy (view s') = true).
Proof.
  intros Hd Hi Hm Hok Hl Hl' Hc. split.
  - destruct (read_sector_spec t u disks disk_nr d _ lba buf cnt s Hd Hi Hm Hok) as (s' & E & I & M & L & P); [lia|lia|].
    exists s', (sectors f.(FsState.disk) lba (Z.to_nat cnt)). split_and!; try done.
    unfold FsState.read_disk. rewrite can_transfer_true by done. unfold gets, sectors. rewrite Z2Nat.id by lia.
    do 3 f_equal. apply map_ext_in. intros k Hk%list_elem_of_In%elem_of_seqZ. rewrite u32_id by lia. done.
  - destruct (drive_in_time d lba cnt s) eqn:Ht.
    + destruct (write_sector_spec t u disks disk_nr d _ lba buf cnt s Hd Hi Hm) as (s' & disk' & E & W & I & M & M' & P);
        [lia|lia|lia|done|].
      exists s'. split_and!; try done. exists (set_disk disk' f). split_and!; try done.
      unfold FsState.write_disk. by rewrite can_transfer_true, W.
    + destruct (write_sector_busy t u disks disk_nr d lba buf cnt s Hd Hi ltac:(lia) Hc Ht) as (s' & E & B & _ & M & L & P).
      exists s'. split_and!; try done; unfold media in *; rewrite M, L; done.
Qed.

(** ** Finding the partitions *)

(** Every request to another process is answered and leaves the drives alone. *)
Context (served : forall dest type con (s : St),
  exists con' s', Syscalls.send_then_recv dest type con s = Some (con', s') /\ view s' = view s).

Definition table_at (disk : gmap Z (list Z)) (lba : Z) : list Z := take 64 (drop 0x1be (sector disk lba)).

Lemma tell_served dest type con s : exists s', Syscalls.tell dest type con s = Some s' /\ view s' = view s.
Proof using served.
  destruct (served dest type con s) as (c & s' & E & V). exists s'. unfold Syscalls.tell. rewrite E. done.
Qed.

Lemma mem_bytes_overlay s buf data f off n :
  (forall b, Syscalls.peek s b = overlay buf data f b) -> (off + n <= length data)%nat ->
  mem_bytes s (buf + Z.of_nat off) (Z.of_nat n) = take n (drop off data).
Proof.
  intros P Hn. apply list_eq. intros i. unfold mem_bytes. destruct (decide (i < n)%nat).
  - change (map ?g ?l) with (g <$> l). rewrite list_lookup_fmap, lookup_seqZ_lt by lia. cbn.
    rewrite lookup_take_lt, lookup_drop by lia. rewrite P. unfold overlay.
    replace (buf + Z.of_nat off + Z.of_nat i - buf) with (Z.of_nat (off + i)) by lia. unfold zget.
    rewrite (proj2 (Z.leb_le 0 _)), Nat2Z.id by lia.
    destruct (lookup_lt_is_Some_2 data (off + i)) as [x ->]; [lia|done].
  - rewrite !lookup_ge_None_2; [done| |]; rewrite ?length_take, ?length_map, ?length_seqZ; lia.
Qed.

Lemma get_partition_table_spec t u disks disk_nr d disk lba s :
  disks.[disk_nr] = Some d -> (view s).(act) = Idle -> media (view s) d.(is_slave) = disk ->
  (forall x, sector_ok (sector disk x)) -> 0 <= lba < 268435456 ->
  exists s', get_partition_table t u disks disk_nr lba s = Some (table_at disk lba, s') /\
    (view s').(act) = Idle /\ (view s').(master) = (view s).(master) /\ (view s').(slave) = (view s).(slave).
Proof using All.
  intros Hd Hi Hm Hok Hl. unfold get_partition_table, Syscalls.malloc, Syscalls.ask.
  destruct (served KernelMain.MM SmallBlocks.MALLOC (Syscalls.con1 u 512) s) as (c & s1 & -> & V1). sbind.
  destruct (read_sector_spec t u disks disk_nr d disk lba (con_1 c) 1 s1 Hd) as (s2 & E2 & I2 & M2 & L2 & P2);
    [by rewrite V1|by rewrite V1|done|done|lia|].
  rewrite E2. sbind. unfold Syscalls.free.
  destruct (tell_served KernelMain.MM SmallBlocks.FREE (Syscalls.con1 u (con_1 c)) s2) as (s3 & -> & V3). sbind.
  exists s3. rewrite V3, M2, L2, V1. split_and!; try done. do 2 f_equal.
  destruct (Hok lba) as [Hl0 _]. change (Z.to_nat 1) with 1%nat in P2. rewrite sectors_S in P2.
  change (sectors disk (lba + 1) 0) with (@nil Z) in P2. rewrite app_nil_r in P2.
  apply (mem_bytes_overlay s2 (con_1 c) (sector disk lba) (Syscalls.peek s1) 446 64 P2). lia.
Qed.

Definition found (i : Z) (e : partition_table_entry_mbr) : partition :=
  if 0 =? e.(sector_nr_in) then no_partition
  else mk_partition (text "sda" ++ [48 + i] ++ replicate 12 0) e.(sector_nr_in) e.(sector_nr_before) PRIMARY.

Lemma mbr_step t u disks disk_nr e entries i primary logic s :
  e.(sys_signature) <> 5 -> 0 <= i < 4 -> primary.[i] = Some no_partition ->
  mbr_loop t u disks disk_nr (e :: entries) i (mk_disk primary logic) s =
  mbr_loop t u disks disk_nr entries (i + 1) (mk_disk (<[Z.to_nat i := found i e]> primary) logic) s.
Proof.
  intros He Hi Hp. cbn [mbr_loop FileSystem.primary FileSystem.logic]. unfold found.
  destruct (0 =? sector_nr_in e); cbn [negb].
  - sbind. rewrite list_insert_id; [done|]. by apply zget_Some.
  - rewrite Hp. sbind. rewrite (proj2 (Z.eqb_neq 5 _)) by congruence.
    assert (sda (p_name no_partition) i = Some (text "sda" ++ [48 + i] ++ replicate 12 0)) as ->.
    { assert (i = 0 \/ i = 1 \/ i = 2 \/ i = 3) as [-> | [-> | [-> | ->]]] by lia; reflexivity. }
    sbind. apply zget_lt in Hp. rewrite zset_in by done. done.
Qed.

(** [init_disk] finds the primary partitions of the slave: its table has, for
    each entry of the boot sector that is in use, the name, the start and the
    size. *)
Lemma init_disk_finds t u handler disk s :
  (view s).(act) = Idle -> (view s).(slave) = disk -> (forall x, sector_ok (sector disk x)) ->
  Forall (fun e => e.(sys_signature) <> 5) (dec_table (table_at disk 0)) ->
  exists s', init_disk t u handler s =
      Some ([mk_drive false no_partitions;
             mk_drive true (mk_disk (imap (fun i => found (Z.of_nat i)) (dec_table (table_at disk 0)))
                                    (replicate 4 no_partition))], s') /\
    (view s').(act) = Idle /\ (view s').(slave) = disk.
Proof using All.
  intros Hi Hm Hok He. unfold init_disk, Syscalls.sys_register_intr_handler.
  destruct (tell_served KernelMain.KR KernelMain.REGR_INTR (Syscalls.con2 u 0x2e handler) s) as (s1 & -> & V1). sbind.
  destruct (tell_served KernelMain.KR KernelMain.REGR_INTR (Syscalls.con2 u 0x2f handler) s1) as (s2 & -> & V2). sbind.
  set (disks := [_; _]). unfold traverse_disk_partition.
  destruct (get_partition_table_spec t u disks 1 (mk_drive true no_partitions) disk 0 s2) as (s3 & -> & I3 & _ & L3);
    [done|by rewrite V2, V1|by rewrite V2, V1|done|lia|].
  sbind. change (disks.[1]) with (Some (mk_drive true no_partitions)). sbind. cbn [parts].
  unfold dec_table in *. cbn [map seq imap] in *.
  set (e0 := dec_entry_mbr _) in *. set (e1 := dec_entry_mbr _) in *.
  set (e2 := dec_entry_mbr _) in *. set (e3 := dec_entry_mbr _) in *. clearbody e0 e1 e2 e3.
  repeat (apply Forall_cons in He as [? He]). unfold no_partitions.
  rewrite !mbr_step by done. cbn [mbr_loop]. sbind.
  exists s3. split; [done|]. split; [done|]. by rewrite L3, V2, V1.
Qed.

(** C23. Starting the driver returns, and its table of the slave then has, for
    each entry of the boot sector that is in use, the name, the start and the
    size of that partition (for a disk without an extended partition); the drives
    are left idle and unchanged. *)
Theorem init_disk_partitions t u handler disk s :
  (view s).(act) = Idle -> (view s).(slave) = disk -> (forall x, sector_ok (sector disk x)) ->
  Forall (fun e => e.(sys_signature) <> 5) (dec_table (table_at disk 0)) ->
  exists s', init_disk t u handler s =
      Some ([mk_drive false no_partitions;
             mk_drive true (mk_disk (imap (fun i => found (Z.of_nat i)) (dec_table (table_at disk 0)))
                                    (replicate 4 no_partition))], s') /\
    (view s').(act) = Idle /\ (view s').(slave) = disk.
Proof using All. apply init_disk_finds. Qed.
End drive.

(** ** Concrete disks *)

Definition no_context : context := mk_context 0 0 0 0.

Definition enc_entry_mbr (type start size : Z) : list Z := replicate 4 0 ++ [type] ++ replicate 3 0 ++ le 4 start ++ le 4 size.

(** A boot sector, or one of an extended partition, with these entries. *)
Definition boot_sector (entries : list (list Z)) : list Z :=
  replicate 446 0 ++ concat entries ++ replicate (66 - 16 * length entries) 0.

Definition idle_channel (disk : gmap Z (list Z)) : channel := (mk_ata 0 0 0 0 0 ∅ disk Idle, ∅, true).
Definition slow_channel (disk : gmap Z (list Z)) : channel := (mk_ata 0 0 0 0 0 ∅ disk Idle, ∅, false).

Definition two_drives : list drive := [mk_drive false no_partitions; mk_drive true no_partitions].

Definition primary_disk : gmap Z (list Z) :=
  {[0 := boot_sector [enc_entry_mbr 0x83 63 20000; enc_entry_mbr 0 0 0; enc_entry_mbr 0x83 20063 4000]]}.

Lemma sectors_ok disk : map_Forall (fun _ b => sector_ok b) disk -> forall x, sector_ok (sector disk x).
Proof.
  intros H x. unfold sector. destruct (disk !! x) as [b|] eqn:E; cbn [from_option id].
  - exact (H x b E).
  - split; [done|]. apply bytes_dec. reflexivity.
Qed.

Lemma primary_disk_ok x : sector_ok (sector primary_disk x).
Proof.
  apply sectors_ok. intros y b E. unfold primary_disk in E. apply lookup_singleton_Some in E as [_ <-].
  split; [reflexivity|]. apply bytes_dec. vm_compute. reflexivity.
Qed.

Lemma channel_served dest type con (s : channel) :
  exists con' s', Syscalls.send_then_recv dest type con s = Some (con', s') /\ view s' = view s.
Proof. by exists con, s. Qed.

(** Two sectors are written to the slave; a slow one does not get them. *)
Lemma driver_implements_disk_witness :
  (exists s' f', write_sector 0 no_context two_drives 1 5 0x1000 2 (idle_channel primary_disk) = Some s' /\
     FsState.write_disk 5 (bytes_from (idle_channel primary_disk) 0x1000 1024) 2 (set_disk primary_disk demo) = Some (tt, f') /\
     (view s').(slave) = f'.(FsState.disk)) /\
  (exists s', write_sector 0 no_context two_drives 1 5 0x1000 2 (slow_channel primary_disk) = Some s' /\
     (view s').(slave) = primary_disk /\ busy (view s') = true).
Proof.
  split.
  - destruct (driver_implements_disk 0 no_context two_drives 1 (mk_drive true no_partitions) 5 0x1000 2
                (idle_channel primary_disk) (set_disk primary_disk demo)) as [_ (s' & E & _ & _ & f' & W & M & _)];
      [reflexivity|reflexivity|reflexivity|exact primary_disk_ok|discriminate|discriminate|split; discriminate|].
    exists s', f'. split; [exact E|]. split; [exact W|exact M].
  - destruct (driver_implements_disk 0 no_context two_drives 1 (mk_drive true no_partitions) 5 0x1000 2
                (slow_channel primary_disk) (set_disk primary_disk demo)) as [_ (s' & E & _ & _ & M & B)];
      [reflexivity|reflexivity|reflexivity|exact primary_disk_ok|discriminate|discriminate|split; discriminate|].
    exists s'. split; [exact E|]. split; [exact M|exact B].
Defined.

Lemma init_disk_partitions_witness : exists s',
  init_disk 0 no_context 0x7000 (idle_channel primary_disk) =
    Some ([mk_drive false no_partitions;
           mk_drive true (mk_disk [mk_partition (text "sda0" ++ replicate 12 0) 20000 63 PRIMARY; no_partition;
                                   mk_partition (text "sda2" ++ replicate 12 0) 4000 20063 PRIMARY; no_partition]
                                  (replicate 4 no_partition))], s').
Proof.
  destruct (init_disk_partitions channel_served
              0 no_context 0x7000 primary_disk (idle_channel primary_disk)) as (s' & E & _).
  - reflexivity.
  - reflexivity.
  - exact primary_disk_ok.
  - vm_compute. repeat (apply Forall_cons_2; [discriminate|]). apply Forall_nil_2.
  - exists s'. rewrite E. vm_compute. reflexivity.
Defined.

(** The links of a chain of logical partitions count from the start of the
    extended partition; the driver counts from the sector before.  Here it finds
    two of three partitions. *)
Definition logical_disk : gmap Z (list Z) :=
  {[0 := boot_sector [enc_entry_mbr 5 100 900];
    100 := boot_sector [enc_entry_mbr 0x83 1 10; enc_entry_mbr 5 20 11];
    120 := boot_sector [enc_entry_mbr 0x83 1 10; enc_entry_mbr 5 40 11];
    140 := boot_sector [enc_entry_mbr 0x83 1 10]]}.

Definition logical_starts (r : option (list drive * channel)) : option (list Z) :=
  match r with
  | Some (disks, _) => d ← disks.[1]; Some (map p_start_lba d.(parts).(FileSystem.logic))
  | None => None
  end.

Lemma third_logical_partition_lost :
  logical_starts (init_disk 0 no_context 0x7000 (idle_channel logical_disk)) = Some [101; 121; 0; 0].
Proof. vm_compute. reflexivity. Qed.
