(* ===== verification/Ne2k.v ===== *)
(** * The network card driver (dr/ne2k.cc)

    Frames are moved byte by byte through the data port of an NE2000 card, by
    its remote DMA.  The loops that wait for the card take the fuel [fuel]; that
    a frame is sent as it was given is proved for the interface of such a card.
    [u] is the context of a message that was not filled. *)
From Stdlib Require Import String.
From S2P Require Import Prelude Mem CString FsState Process RingBuffer FileSystem Ports Ata DiskDriver.
From S2P Require KernelMain Syscalls.
#[local] Open Scope string_scope.
#[global] Open Scope list_scope.
#[global] Open Scope Z_scope.

Module ne2k.
Definition NE2K_IRQ : Z := 0x2a.
Definition IOBASE : Z := 0x300.
Definition CMD : Z := 0x0.
Definition PAGE_START : Z := 0x1.
Definition PAGE_STOP : Z := 0x2.
Definition BOUNDARY : Z := 0x3.
Definition TRANS_PAGE : Z := 0x4.
Definition TRANS_CNT_LOW : Z := 0x5.
Definition TRANS_CNT_HIGH : Z := 0x6.
Definition INTR_STAT : Z := 0x7.
Definition CURRENT : Z := 0x7.
Definition REMOTE_ADDR_LOW : Z := 0x8.
Definition REMOTE_ADDR_HIGH : Z := 0x9.
Definition REMOTE_CNT_LOW : Z := 0xa.
Definition REMOTE_CNT_HIGH : Z := 0xb.
Definition RECV_CONF : Z := 0xc.
Definition TRANS_CONF : Z := 0xd.
Definition DATA_CONF : Z := 0xe.
Definition INTR_MASK : Z := 0xf.
Definition DCR : Z := 0x58.
Definition NE_RESET : Z := 0x1f.
Definition NE_DATA : Z := 0x10.
Definition TRANS_BUF : Z := 0x40.
Definition PAGE_START_DATA : Z := 0x46.
Definition PAGE_STOP_DATA : Z := 0x80.
Definition START : Z := 0x2.
Definition TRANS : Z := 0x4.
Definition READ : Z := 0x8.
Definition WRITE : Z := 0x10.
Definition NODMA : Z := 0x20.
Definition PKT_RECV : Z := 0x01.
Definition PKT_TRANS : Z := 0x40.
Definition DMA_FIN : Z := 0x02.
End ne2k.
Import ne2k.

Record nic := mk_nic {
  net_buf : IndirectRingBuffer.t;
  mac_addr : list Z;                    (* 6 *)
  next : Z;
}.

Definition set_net_buf (n : nic) (b : IndirectRingBuffer.t) : nic := mk_nic b n.(mac_addr) n.(next).
Definition set_mac_addr (n : nic) (a : list Z) : nic := mk_nic n.(net_buf) a n.(next).
Definition set_next (n : nic) (p : Z) : nic := mk_nic n.(net_buf) n.(mac_addr) (u8 p).

Section driver.
Context {St : Type} `{Ports St} `{Syscalls.Ipc St} (u : context).

(** A register of the card. *)
Definition out (reg v : Z) (s : St) : St := outb (IOBASE + reg) (u8 v) s.
Definition in_ (reg : Z) (s : St) : Z * St := inb (IOBASE + reg) s.

Fixpoint out_all (l : list (Z * Z)) (s : St) : St :=
  match l with [] => s | (reg, v) :: l' => out_all l' (out reg v s) end.

(** [inb] of [n] bytes from the data port. *)
Fixpoint in_bytes (n : nat) (s : St) : list Z * St :=
  match n with
  | O => ([], s)
  | S n' => let '(b, s) := in_ NE_DATA s in let '(l, s) := in_bytes n' s in (b :: l, s)
  end.

Fixpoint malloc_buffers (n : nat) (s : St) : option (list Z * St) :=
  match n with
  | O => Some ([], s)
  | S n' =>
      '(p, s) ← Syscalls.malloc u 1600 s;
      '(l, s) ← malloc_buffers n' s;
      Some (p :: l, s)
  end.

(** A loop that reads the interrupt status until it satisfies [f]. *)
Fixpoint wait_status (fuel : nat) (f : Z -> bool) (s : St) : option St :=
  match fuel with
  | O => None
  | S fuel' => let '(v, s) := in_ INTR_STAT s in if f v then Some s else wait_status fuel' f s
  end.

Definition init_ne2k (fuel : nat) (handler : Z) (n : nic) (s : St) : option (nic * St) :=
  '(data_buf, s) ← malloc_buffers 10 s;
  net_buf ← IndirectRingBuffer.initialize n.(net_buf) data_buf;
  let n := set_next (set_net_buf n net_buf) (PAGE_START_DATA + 1) in
  let '(v, s) := in_ NE_RESET s in
  let s := out NE_RESET v s in
  s ← wait_status fuel (fun v => negb (Z.land v 0x80 =? 0)) s;
  let s := out_all [(INTR_STAT, 0xff); (CMD, 0x21); (DATA_CONF, DCR); (REMOTE_CNT_LOW, 0x20); (REMOTE_CNT_HIGH, 0);
                    (REMOTE_ADDR_LOW, 0); (REMOTE_ADDR_HIGH, 0); (CMD, Z.lor READ START); (RECV_CONF, 0xe);
                    (TRANS_CONF, 4)] s in
  let '(prom, s) := in_bytes 32 s in
  let mac_addr := omap (fun i => prom !! (2 * i)%nat) (seq 0 6) in
  let mac i := default 0 (mac_addr !! i) in
  let s := out_all [(TRANS_PAGE, 0x40); (PAGE_START, 0x46); (BOUNDARY, 0x46); (PAGE_STOP, 0x60); (INTR_STAT, 0x1f);
                    (CMD, 0x61); (CMD, 0x61);
                    (CMD + 0x1, mac 0%nat); (CMD + 0x2, mac 1%nat); (CMD + 0x3, mac 2%nat);
                    (CMD + 0x4, mac 3%nat); (CMD + 0x5, mac 4%nat); (CMD + 0x6, mac 5%nat);
                    (CMD + 0x8, 0xff); (CMD + 0xf, 0xff); (CMD + 0xa, 0xff); (CMD + 0xb, 0xff); (CMD + 0xc, 0xff);
                    (CMD + 0xd, 0xff); (CMD + 0xe, 0xff); (CMD + 0xf, 0xff);
                    (DATA_CONF, DCR); (CURRENT, PAGE_START_DATA + 1); (CMD, 0x22); (TRANS_CONF, 0x0);
                    (RECV_CONF, 0xc); (INTR_STAT, 0xff); (INTR_MASK, 0x0b)] s in
  s ← Syscalls.sys_register_intr_handler u NE2K_IRQ handler s;
  Some (set_mac_addr n mac_addr, s).

(** [outb] of the [n] bytes at [a] to the data port. *)
Fixpoint out_bytes (n : nat) (a : Z) (s : St) : St :=
  match n with
  | O => s
  | S n' => out_bytes n' (a + 1) (out NE_DATA (Syscalls.peek s a) s)
  end.

(** [size] and [data] are the fields of the packet. *)
Definition send_packet (fuel : nat) (size data : Z) (s : St) : option St :=
  let s := out_all [(REMOTE_CNT_LOW, Z.land size 0xff); (REMOTE_CNT_HIGH, Z.shiftr size 8); (REMOTE_ADDR_LOW, 0);
                    (REMOTE_ADDR_HIGH, TRANS_BUF); (CMD, Z.lor START WRITE)] s in
  let s := out_bytes (Z.to_nat size) data s in
  s ← wait_status fuel (fun v => v =? 0x40) s;
  Some (out_all [(TRANS_PAGE, TRANS_BUF); (TRANS_CNT_LOW, Z.land size 0xff); (TRANS_CNT_HIGH, Z.shiftr size 8);
                 (CMD, Z.lor (Z.lor NODMA TRANS) START)] s).

Fixpoint poke_bytes (bs : list Z) (a : Z) (s : St) : St :=
  match bs with [] => s | b :: bs' => poke_bytes bs' (a + 1) (Syscalls.poke s a b) end.

(** [buf] is never null once it has been advanced. *)
Definition store_frame (buf len : Z) (s : St) : option St :=
  _ ← deref buf;
  let s := poke_bytes [u8 len; u8 (len / 256)] buf s in
  let buf := buf + 2 in
  if negb (NULL =? buf) then
    let s := poke_bytes (replicate 1598 0) buf s in
    let '(bs, s) := in_bytes (Z.to_nat len) s in
    Some (poke_bytes bs buf s)
  else
    let '(_, s) := in_ NE_DATA s in Some s.

(** The page behind the last frame received, read from page 1 of the registers. *)
Definition current_page (s : St) : Z * St :=
  let s := out CMD (Z.lor (Z.lor NODMA START) 0x40) s in
  let '(cur, s) := in_ CURRENT s in
  (cur, out CMD (Z.lor START NODMA) s).

Definition receive_one (n : nic) (s : St) : option (nic * St) :=
  let s := out_all [(REMOTE_ADDR_HIGH, n.(next)); (REMOTE_ADDR_LOW, 0x00); (REMOTE_CNT_LOW, 0x04);
                    (REMOTE_CNT_HIGH, 0x00); (CMD, Z.lor READ START)] s in
  let '(recv_stat, s) := in_ NE_DATA s in
  let '(next_, s) := in_ NE_DATA s in
  let '(lo, s) := in_ NE_DATA s in
  let '(hi, s) := in_ NE_DATA s in
  let len := u16 (u16 (lo + Z.shiftl hi 8) - 4) in
  let s := out INTR_STAT 0x40 s in
  if (1 =? Z.land recv_stat 31) && (PAGE_START_DATA <=? n.(next)) && (n.(next) <=? PAGE_STOP_DATA) && (len <=? 1532) then
    let s := out_all [(REMOTE_ADDR_HIGH, n.(next)); (REMOTE_ADDR_LOW, 0x04); (REMOTE_CNT_LOW, Z.land len 0xff);
                      (REMOTE_CNT_HIGH, Z.shiftr len 8); (CMD, Z.lor READ START)] s in
    '(buf, net_buf) ← IndirectRingBuffer.get_first_free_buffer n.(net_buf);
    s ← store_frame buf len s;
    let s := out INTR_STAT 0x40 s in
    Some (set_next (set_net_buf n net_buf) (if next_ =? PAGE_START_DATA then PAGE_START_DATA else next_), s)
  else Some (n, s).

Fixpoint receive_loop (fuel : nat) (cur : Z) (n : nic) (s : St) : option (nic * St) :=
  match fuel with
  | O => None
  | S fuel' =>
      if n.(next) =? cur then Some (n, s)
      else
        '(n, s) ← receive_one n s;
        let s := out BOUNDARY (if n.(next) =? PAGE_START_DATA then PAGE_STOP_DATA - 1 else n.(next) - 1) s in
        let '(cur, s) := current_page s in
        receive_loop fuel' cur n s
  end.

Definition receive_packet (fuel : nat) (n : nic) (s : St) : option (nic * St) :=
  let '(cur, s) := current_page s in
  receive_loop fuel cur n s.

(** [PKT_ARRIVED] of the network process. *)
Definition PKT_ARRIVED : Z := 1.

Fixpoint handler_loop (fuel : nat) (n : nic) (s : St) : option (nic * St) :=
  match fuel with
  | O => None
  | S fuel' =>
      let '(val, s) := in_ INTR_STAT s in
      if val =? 0 then Some (n, s)
      else
        let s := out INTR_STAT val s in
        '(n, s) ← (if truth (Z.land val PKT_RECV) then
                     '(n, s) ← receive_packet fuel n s;
                     s ← Syscalls.send_msg KernelMain.NET PKT_ARRIVED u s;
                     Some (n, s)
                   else Some (n, s));
        let s := if truth (Z.land val PKT_TRANS) then out CMD 0 s else s in
        let s := if truth (Z.land val DMA_FIN) then out CMD 0 (out (CMD + 0x07) 0x40 s) else s in
        handler_loop fuel' n (out INTR_STAT (Z.lor NODMA START) s)
  end.

Definition ne2k_handler (fuel : nat) (n : nic) (s : St) : option (nic * St) :=
  handler_loop fuel n (out INTR_STAT (Z.lor NODMA START) s).
End driver.

(** ** The interface of the card *)

(** What the driver relies on: the registers, the buffer memory of the card and
    its remote DMA, the transmission of a frame from that memory, and the pages
    where received frames lie, as the data sheet of the DP8390 gives them. *)
Record card := mk_card {
  page : Z;                 (* the page of registers that is selected *)
  writing : bool;           (* a remote write is under way *)
  reading : bool;           (* a remote read is *)
  rsar : Z;                 (* remote start address *)
  rbcr : Z;                 (* remote byte count *)
  tpsr : Z;                 (* transmit page *)
  tbcr : Z;                 (* transmit byte count *)
  isr : Z;                  (* interrupt status *)
  bnry : Z;                 (* boundary page *)
  curr : Z;                 (* the page where the next frame will be put *)
  ram : gmap Z Z;
  sent : list (list Z);     (* the frames that have been put on the wire *)
}.

Definition set_mode (p : Z) (w r : bool) (c : card) : card :=
  mk_card p w r c.(rsar) c.(rbcr) c.(tpsr) c.(tbcr) c.(isr) c.(bnry) c.(curr) c.(ram) c.(sent).
Definition set_dma (a n : Z) (c : card) : card :=
  mk_card c.(page) c.(writing) c.(reading) a n c.(tpsr) c.(tbcr) c.(isr) c.(bnry) c.(curr) c.(ram) c.(sent).
Definition set_tx (p n : Z) (c : card) : card :=
  mk_card c.(page) c.(writing) c.(reading) c.(rsar) c.(rbcr) p n c.(isr) c.(bnry) c.(curr) c.(ram) c.(sent).
Definition set_isr (v : Z) (c : card) : card :=
  mk_card c.(page) c.(writing) c.(reading) c.(rsar) c.(rbcr) c.(tpsr) c.(tbcr) v c.(bnry) c.(curr) c.(ram) c.(sent).
Definition set_bnry (v : Z) (c : card) : card :=
  mk_card c.(page) c.(writing) c.(reading) c.(rsar) c.(rbcr) c.(tpsr) c.(tbcr) c.(isr) v c.(curr) c.(ram) c.(sent).
Definition set_ram (m : gmap Z Z) (c : card) : card :=
  mk_card c.(page) c.(writing) c.(reading) c.(rsar) c.(rbcr) c.(tpsr) c.(tbcr) c.(isr) c.(bnry) c.(curr) m c.(sent).
Definition set_sent (l : list (list Z)) (c : card) : card :=
  mk_card c.(page) c.(writing) c.(reading) c.(rsar) c.(rbcr) c.(tpsr) c.(tbcr) c.(isr) c.(bnry) c.(curr) c.(ram) l.

Definition low_byte (old v : Z) : Z := 256 * (old / 256) + v.
Definition high_byte (old v : Z) : Z := 256 * v + old mod 256.

Definition card_command (v : Z) (c : card) : card :=
  let c := set_mode (v / 64) (Z.testbit v 4) (Z.testbit v 3) c in
  if Z.testbit v 2 then set_sent (c.(sent) ++ [map (load8 c.(ram)) (seqZ (256 * c.(tpsr)) c.(tbcr))]) c else c.

(** The end of a remote transfer is reported. *)
Definition dma_step (a : Z) (c : card) : card :=
  let c' := set_dma a (c.(rbcr) - 1) c in
  if c.(rbcr) =? 1 then set_isr (Z.lor c.(isr) 0x40) c' else c'.

Definition card_data (v : Z) (c : card) : card :=
  if c.(writing) && (0 <? c.(rbcr)) then set_ram (store8 c.(ram) c.(rsar) v) (dma_step (c.(rsar) + 1) c) else c.

(** The pages of received frames are a ring, from the page [init_ne2k] writes to
    [PAGE_START] up to the page it writes to [PAGE_STOP]. *)
Definition ring_start : Z := 0x46.
Definition ring_stop : Z := 0x60.
Definition ring_next (a : Z) : Z := if a + 1 =? 256 * ring_stop then 256 * ring_start else a + 1.

(** A byte read from a register; [None] where the driver has no claim. *)
Definition card_in (reg : Z) (c : card) : option (Z * card) :=
  if reg =? NE_DATA then
    if c.(reading) && (0 <? c.(rbcr)) then Some (load8 c.(ram) c.(rsar), dma_step (ring_next c.(rsar)) c) else None
  else if (reg =? INTR_STAT) && (c.(page) =? 0) then Some (c.(isr), c)
  else if (reg =? CURRENT) && (c.(page) =? 1) then Some (c.(curr), c)
  else None.

(** A byte written to a register that the driver uses after its start. *)
Definition card_out (reg v : Z) (c : card) : option card :=
  if reg =? CMD then Some (card_command v c)
  else if reg =? NE_DATA then Some (card_data v c)
  else if negb (c.(page) =? 0) then None
  else if reg =? REMOTE_ADDR_LOW then Some (set_dma (low_byte c.(rsar) v) c.(rbcr) c)
  else if reg =? REMOTE_ADDR_HIGH then Some (set_dma (high_byte c.(rsar) v) c.(rbcr) c)
  else if reg =? REMOTE_CNT_LOW then Some (set_dma c.(rsar) (low_byte c.(rbcr) v) c)
  else if reg =? REMOTE_CNT_HIGH then Some (set_dma c.(rsar) (high_byte c.(rbcr) v) c)
  else if reg =? TRANS_PAGE then Some (set_tx v c.(tbcr) c)
  else if reg =? TRANS_CNT_LOW then Some (set_tx c.(tpsr) (low_byte c.(tbcr) v) c)
  else if reg =? TRANS_CNT_HIGH then Some (set_tx c.(tpsr) (high_byte c.(tbcr) v) c)
  else if reg =? INTR_STAT then Some (set_isr (Z.ldiff c.(isr) v) c)
  else if reg =? BOUNDARY then Some (set_bnry v c)
  else None.

Class Ne2000 (St : Type) `{Ports St} `{Syscalls.Ipc St} := {
  card_of : St -> card;
  card_outb reg v s c : card_out reg v (card_of s) = Some c -> is_u8 v ->
    card_of (outb (IOBASE + reg) v s) = c;
  card_inb reg s v c : card_in reg (card_of s) = Some (v, c) ->
    card_of (snd (inb (IOBASE + reg) s)) = c /\ fst (inb (IOBASE + reg) s) = v;
  card_poke s a v : card_of (Syscalls.poke s a v) = card_of s;
}.

Section card.
Context {St : Type} `{Ports St} `{Syscalls.Ipc St} `{!PortLaws St} `{!Ne2000 St}.

Lemma card_status s : (card_of s).(page) = 0 ->
  card_of (snd (inb (IOBASE + INTR_STAT) s)) = card_of s /\ fst (inb (IOBASE + INTR_STAT) s) = (card_of s).(isr).
Proof. intros Hp. apply card_inb. unfold card_in. by rewrite Hp. Qed.

Lemma out_card reg v s c : card_out reg (u8 v) (card_of s) = Some c ->
  card_of (out reg v s) = c /\ same_memory s (out reg v s).
Proof.
  intros E. split; [apply card_outb; [exact E|apply u8_range]|]. intros b. apply peek_outb.
Qed.

Fixpoint card_outs (l : list (Z * Z)) (c : card) : option card :=
  match l with [] => Some c | (reg, v) :: l' => c ← card_out reg (u8 v) c; card_outs l' c end.

Lemma out_all_card l s c : card_outs l (card_of s) = Some c ->
  card_of (out_all l s) = c /\ same_memory s (out_all l s).
Proof.
  revert s. induction l as [|[reg v] l IH]; intros s E; cbn [card_outs out_all] in *.
  - injection E as <-. done.
  - destruct (card_out reg (u8 v) (card_of s)) as [c1|] eqn:E1; [|done].
    destruct (out_card reg v s c1 E1) as [C M]. destruct (IH (out reg v s)) as [C' M'].
    { rewrite C. exact E. }
    split; [done|]. intros b. by rewrite M', M.
Qed.

(** Bytes stored one after the other. *)
Fixpoint fill_ram (m : gmap Z Z) (a : Z) (bs : list Z) : gmap Z Z :=
  match bs with [] => m | b :: bs' => fill_ram (store8 m a b) (a + 1) bs' end.

Lemma load_fill m a bs b : Forall is_u8 bs -> load8 (fill_ram m a bs) b = default (load8 m b) (bs.[b - a]).
Proof.
  intros Hb. revert m a. induction bs as [|x bs IH]; intros m a; cbn [fill_ram].
  - assert (([] : list Z).[b - a] = None) as -> by (apply zget_None; change (zlen []) with 0; lia). done.
  - apply Forall_cons in Hb as [Hx Hb]. rewrite IH, load8_store8, u8_id by done.
    destruct (Z.eqb_spec b a) as [->|].
    + rewrite Z.sub_diag. assert (bs.[a - (a + 1)] = None) as -> by (apply zget_None; lia). done.
    + replace (b - a) with (1 + (b - (a + 1))) by lia. change (x :: bs) with ([x] ++ bs).
      destruct (decide (b < a)).
      * rewrite (proj2 (zget_None bs _)) by lia. rewrite (proj2 (zget_None ([x] ++ bs) _)) by lia. done.
      * rewrite (zget_app_r [x]) by (change (zlen [x]) with 1; lia). change (zlen [x]) with 1. do 2 f_equal. lia.
Qed.

Lemma out_bytes_card n a s :
  (card_of s).(writing) = true -> (card_of s).(rbcr) = Z.of_nat (S n) ->
  let c := card_of s in
  card_of (out_bytes (S n) a s) =
    set_ram (fill_ram c.(ram) c.(rsar) (bytes_from s a (S n)))
      (set_isr (Z.lor c.(isr) 0x40) (set_dma (c.(rsar) + Z.of_nat (S n)) 0 c)).
Proof.
  revert a s. induction n as [|n IH]; intros a s Hw Hr c;
    destruct (out_card NE_DATA (Syscalls.peek s a) s (card_data (u8 (Syscalls.peek s a)) c) eq_refl) as [C M];
    unfold card_data, dma_step in C; fold c in Hw, Hr; rewrite Hw, Hr in C.
  - cbn [out_bytes]. rewrite C. reflexivity.
  - set (s1 := out _ _ s) in *. cbn [andb] in C. rewrite (proj2 (Z.ltb_lt _ _)), (proj2 (Z.eqb_neq _ _)) in C by lia.
    change (out_bytes (S (S n)) a s) with (out_bytes (S n) (a + 1) s1).
    rewrite IH by (rewrite C; cbn; first [done|lia]). rewrite C.
    change (S (S n)) with (1 + S n)%nat. rewrite (bytes_from_app s a 1), (bytes_from_same s s1) by exact M.
    unfold set_ram, set_isr, set_dma. cbn [page writing reading rsar rbcr tpsr tbcr isr bnry curr ram sent].
    f_equal. lia.
Qed.

Lemma both_bytes old size : 0 <= size < 65536 ->
  high_byte (low_byte old (u8 (Z.land size 0xff))) (u8 (Z.shiftr size 8)) = size.
Proof.
  intros Hs. change 0xff with (Z.ones 8). rewrite Z.land_ones, Z.shiftr_div_pow2 by lia. change (2 ^ 8) with 256.
  rewrite !u8_id by (first [apply Z.mod_pos_bound; lia|split; [apply Z.div_pos; lia|apply Z.div_lt_upper_bound; lia]]).
  unfold high_byte, low_byte. rewrite (Z.mul_comm 256 (old / 256)), (Z.add_comm (old / 256 * 256)), Z.mod_add, Z.mod_mod by lia.
  symmetry. apply Z.div_mod. lia.
Qed.

Lemma read_back m a bs : Forall is_u8 bs -> map (load8 (fill_ram m a bs)) (seqZ a (zlen bs)) = bs.
Proof.
  intros Hb. apply list_eq. intros i. change (map ?g ?l) with (g <$> l). rewrite list_lookup_fmap.
  unfold zlen. destruct (decide (i < length bs)%nat).
  - rewrite lookup_seqZ_lt by lia. cbn. rewrite load_fill by done.
    replace (a + Z.of_nat i - a) with (Z.of_nat i) by lia. unfold zget. rewrite (proj2 (Z.leb_le 0 _)), Nat2Z.id by lia.
    destruct (lookup_lt_is_Some_2 bs i) as [x ->]; [lia|done].
  - rewrite lookup_seqZ_ge, lookup_ge_None_2 by lia. done.
Qed.

Lemma bytes_from_bytes (s : St) a n : Forall is_u8 (bytes_from s a n).
Proof. unfold bytes_from. apply Forall_map, Forall_true. intros b. apply u8_range. Qed.

Lemma send_packet_spec fuel size data s :
  (card_of s).(page) = 0 -> (card_of s).(isr) = 0 -> 1 <= size <= 1536 ->
  exists s', send_packet (S fuel) size data s = Some s' /\
    (card_of s').(sent) = (card_of s).(sent) ++ [bytes_from s data (Z.to_nat size)] /\
    (forall a, 0x4600 <= a -> load8 (card_of s').(ram) a = load8 (card_of s).(ram) a).
Proof.
  intros Hp Hi Hs. unfold send_packet.
  set (c := card_of s) in *. destruct c as [pg wr rd ra rb tp tb ir bn cu mm se] eqn:Ec. cbn in Hp, Hi. subst pg ir.
  set (l1 := [(REMOTE_CNT_LOW, Z.land size 0xff); _; _; _; _]).
  destruct (out_all_card l1 s (mk_card 0 true false 0x4000 size tp tb 0 bn cu mm se)) as [C1 M1].
  { fold c. rewrite Ec. cbn -[low_byte high_byte u8]. rewrite both_bytes by lia.
    change (high_byte (low_byte ra (u8 0)) (u8 TRANS_BUF)) with
      (high_byte (low_byte ra (u8 (Z.land 0x4000 0xff))) (u8 (Z.shiftr 0x4000 8))).
    rewrite both_bytes by lia. reflexivity. }
  set (s1 := out_all l1 s) in *.
  assert (exists n, Z.to_nat size = S n) as [n En] by (destruct (Z.to_nat size) eqn:E; [lia|by exists n]).
  pose proof (out_bytes_card n data s1) as C2. rewrite C1 in C2.
  specialize (C2 eq_refl ltac:(cbn; lia)). cbv zeta in C2. rewrite En. set (s2 := out_bytes (S n) data s1) in *.
  assert (bytes_from s1 data (S n) = bytes_from s data (S n)) as B by (apply bytes_from_same, M1). rewrite B in C2.
  destruct (card_status s2) as [V3 F3]; [by rewrite C2|]. rewrite C2 in F3, V3. cbn [isr set_isr set_dma set_ram] in F3.
  cbn [wait_status]. unfold in_ at 1. destruct (inb (IOBASE + INTR_STAT) s2) as [v s3]. cbn [fst snd] in *. subst v.
  change (Z.lor 0 0x40 =? 0x40) with true. cbv iota. sbind.
  set (l2 := [(TRANS_PAGE, TRANS_BUF); _; _; _]).
  set (bs := bytes_from s data (S n)) in *.
  assert (zlen bs = size) as Lb by (unfold bs, zlen; rewrite bytes_from_length; lia).
  destruct (out_all_card l2 s3 (mk_card 0 false false (0x4000 + Z.of_nat (S n)) 0 0x40 size 0x40 bn cu
                                  (fill_ram mm 0x4000 bs) (se ++ [bs]))) as [C4 M4].
  { rewrite V3. cbn -[low_byte high_byte u8 fill_ram seqZ Z.of_nat]. rewrite both_bytes by lia.
    change (card_command (u8 (Z.lor (Z.lor NODMA TRANS) START))) with (card_command 0x26).
    pose proof (read_back mm 0x4000 bs (bytes_from_bytes s data (S n))) as RB. rewrite Lb in RB.
    replace (se ++ [bs]) with (se ++ [map (load8 (fill_ram mm 0x4000 bs)) (seqZ 0x4000 size)]) by (by rewrite RB). reflexivity. }
  exists (out_all l2 s3). split; [reflexivity|]. rewrite C4. cbn [sent ram]. split; [done|].
  intros a Ha. rewrite load_fill by apply bytes_from_bytes.
  rewrite (proj2 (zget_None bs _)) by lia. done.
Qed.

(** C29. A frame of 1 to 1536 bytes is sent as it was given: with the card idle (no
    interrupt is reported), [send_packet] returns after one look at the status, the card has put exactly
    the [size] bytes at [data] on the wire, and the pages of its memory where
    frames are received are as before. *)
Theorem send_packet_transmits fuel size data s :
  (card_of s).(page) = 0 -> (card_of s).(isr) = 0 -> 1 <= size <= 1536 ->
  exists s', send_packet (S fuel) size data s = Some s' /\
    (card_of s').(sent) = (card_of s).(sent) ++ [bytes_from s data (Z.to_nat size)] /\
    (forall a, 0x4600 <= a -> load8 (card_of s').(ram) a = load8 (card_of s).(ram) a).
Proof. apply send_packet_spec. Qed.

(** While another interrupt is reported, the loop that waits for the transfer
    does not end. *)
Lemma wait_forever fuel s :
  (card_of s).(page) = 0 -> (card_of s).(isr) <> 0x40 -> wait_status fuel (fun v => v =? 0x40) s = None.
Proof.
  revert s. induction fuel as [|fuel IH]; intros s Hp Hi; [done|]. cbn [wait_status]. unfold in_.
  destruct (card_status s Hp) as [V F]. destruct (inb (IOBASE + INTR_STAT) s) as [v s1]. cbn [fst snd] in *. subst v.
  rewrite (proj2 (Z.eqb_neq _ _)) by done. apply IH; by rewrite V.
Qed.
End card.

(** ** A machine with such a card *)

(** The card, the memory, and the messages sent: to whom, and of what type. *)
Definition lan : Type := card * mem * list (Z * Z).

#[export] Instance lan_ipc : Syscalls.Ipc lan := {|
  Syscalls.send_then_recv _ _ con s := Some (con, s);
  Syscalls.send_msg dest type _ s := Some (s.1, s.2 ++ [(dest, type)]);
  Syscalls.peek s a := load8 s.1.2 a;
  Syscalls.poke s a v := (s.1.1, store8 s.1.2 a v, s.2);
|}.

#[export] Instance lan_ports : Ports lan := {|
  inb p s := match card_in (p - IOBASE) s.1.1 with Some (v, c) => (v, (c, s.1.2, s.2)) | None => (0xff, s) end;
  outb p v s := match card_out (p - IOBASE) v s.1.1 with Some c => (c, s.1.2, s.2) | None => s end;
  inw _ s := (0, s);
  outw _ _ s := s;
  receive_interrupt _ := None;
  putstring _ s := s;
|}.

#[export] Instance lan_memory : PortLaws lan.
Proof.
  constructor; intros *; cbn; try done.
  - apply load8_store8.
  - by destruct (card_out _ _ _).
  - by destruct (card_in _ _) as [[? ?]|].
Qed.

#[export] Instance lan_card : Ne2000 lan.
Proof.
  unshelve eapply (Build_Ne2000 lan _ _ (fun s => s.1.1)).
  - intros reg v s c E Hv. cbn [outb lan_ports]. replace (IOBASE + reg - IOBASE) with reg by lia. by rewrite E.
  - intros reg s v c E. cbn [inb lan_ports]. replace (IOBASE + reg - IOBASE) with reg by lia. by rewrite E.
  - done.
Defined.

Definition idle_lan : lan :=
  (mk_card 0 false false 7 0 0 0 0 0x46 0x47 ∅ [], {[0x2000 := 1; 0x2001 := 2; 0x2002 := 3]}, []).

Lemma send_packet_transmits_witness :
  exists s', send_packet 1 3 0x2000 idle_lan = Some s' /\ (card_of s').(sent) = [[1; 2; 3]].
Proof.
  destruct (send_packet_transmits 0 3 0x2000 idle_lan) as (s' & E & F & _).
  - reflexivity.
  - reflexivity.
  - split; discriminate.
  - exists s'. split; [exact E|]. rewrite F. vm_compute. reflexivity.
Defined.
