(* ===== verification/DriverMain.v ===== *)
(** * The driver process (dr/main.cc)

    The start of the drivers and the loop that answers requests. *)
From S2P Require Import Prelude Mem Process RingBuffer Keyboard FileSystem Ports Ata DiskDriver Ne2k.
From S2P Require Syscalls.

Record drivers := mk_drivers {
  disks : list drive;
  card_state : nic;
  keyboard_state : keyboard;
}.

Section requests.
Context {St : Type} `{Ports St} `{Syscalls.Ipc St}.

(** Uninitialised message parts; the number of turns for loops that wait; the
    addresses of the handlers, of the arrays and of the buffers, and the size of a
    [struct disk]. *)
Variables (t : Z) (u : context) (fuel : nat).
Variables keyboard_handler_addr disk_handler_addr ne2k_handler_addr : Z.
Variables disks_addr sizeof_disk net_buf_addr mac_addr_addr keyboard_buf_addr info_buf : Z.

(** The three initialisations; the drives and the card are as the static data
    has them. *)
Definition start_drivers (k : keyboard) (n : nic) (s : St) : option (drivers * St) :=
  let k := init_keyboard k in
  s ← Syscalls.sys_register_intr_handler u 0x21 keyboard_handler_addr s;
  '(ds, s) ← init_disk t u disk_handler_addr s;
  '(n, s) ← init_ne2k u fuel ne2k_handler_addr n s;
  Some (mk_drivers ds n k, s).

Definition peek32 (s : St) (a : Z) : Z :=
  Syscalls.peek s a + 256 * Syscalls.peek s (a + 1) + 65536 * Syscalls.peek s (a + 2)
  + 16777216 * Syscalls.peek s (a + 3).

Import Syscalls.dr.

(** One turn of [main]; [WHERE_NET_BUFFER] and the like answer with addresses. *)
Definition dr_turn (d : drivers) (type : Z) (con : context) (s : St) : option (answer * St) :=
  let c1 := con.(con_1) in
  if type =? IDEN then s ← disk_identify t u info_buf d.(disks) (u8 c1) s; Some (no_reply, s)
  else if type =? READ then
    s ← read_sector t u d.(disks) c1 con.(con_2) con.(con_3) con.(con_4) s; Some (reply, s)
  else if type =? WRITE then
    s ← write_sector t u d.(disks) c1 con.(con_2) con.(con_3) con.(con_4) s; Some (reply, s)
  else if type =? ASK_DISK then Some (reply_with (u32 (disks_addr + c1 * sizeof_disk)), s)
  else if type =? PRINT_PART then s ← print_disk_partition_info d.(disks) c1 s; Some (reply, s)
  else if type =? WHERE_NET_BUFFER then Some (reply_with net_buf_addr, s)
  else if type =? SEND_PKT then
    s ← send_packet fuel (peek32 s c1) (peek32 s (c1 + 4)) s; Some (reply, s)
  else if type =? GET_MAC then Some (reply_with mac_addr_addr, s)
  else if type =? WHERE_KEYBOARD_BUFFER then Some (reply_with keyboard_buf_addr, s)
  else Some (no_reply, s).
End requests.
