(* ===== verification/Users.v ===== *)
(** * Accounts (terminal/hahash.cc, terminal/user.cc, terminal/builtin_cmd.cc)

    The accounts are the lines of /etc/passwd: number, name and hashed password,
    separated by colons.  The functions are computations on the file system; an
    argument is the memory from the pointer on.  The last number given is passed
    along. *)
From Stdlib Require Import String.
From S2P Require Import Prelude CString FsState Inode Dir File.
From S2P Require Machine.
#[local] Open Scope string_scope.
#[global] Open Scope list_scope.
#[global] Open Scope Z_scope.

(** ** The hash *)

Definition max_length : Z := 32.
Definition hash_table_len : Z := 62.
Definition hash_table : list Z := text "1234567890abcdefghijklmnopqrstuvwxyzABCDEFGHIJKLMNOPQRSTUVWXYZ".

(** [result[i] = result[i-1] ^ result[start]], [n] times. *)
Fixpoint spread (n : nat) (i start : Z) (result : list Z) : option (list Z) :=
  match n with
  | O => Some result
  | S n' =>
      a ← result.[i - 1];
      b ← result.[start];
      result ← result.[i <- Z.lxor a b];
      spread n' (i + 1) (start + 1) result
  end.

(** The index is the [char] taken as an [unsigned int]. *)
Fixpoint to_table (n : nat) (i : Z) (result : list Z) : option (list Z) :=
  match n with
  | O => Some result
  | S n' =>
      a ← result.[i];
      b ← result.[max_length - 1 - i];
      result ← result.[i <- Z.lxor a b];
      h ← hash_table.[u32 (s8 (Z.lxor a b)) mod hash_table_len];
      result ← result.[i <- h];
      to_table n' (i + 1) result
  end.

Definition hahash (text result : list Z) : option (list Z) :=
  len ← strlen text;
  if max_length <? len then
    result ← memcpy result 0 text 0 31;
    result.[max_length - 1 <- 0]
  else
    result ← strcpy result 0 text;
    result ← spread (Z.to_nat (max_length - len)) len 0 result;
    result ← to_table 32 0 result;
    result.[max_length - 1 <- 0].

(** ** Lines *)

(** A literal as an argument. *)
Definition lit (s : String.string) : list Z := text s ++ [0].
#[global] Arguments lit : simpl never.

Definition zeros (n : nat) : list Z := replicate n 0.

(** [readline] from the position [pos] of the buffer on; a line that does not end
    in the buffer leaves it. *)
Fixpoint readline (fuel : nat) (fd : Z) (buf : list Z) (pos : Z) : fsm (list Z) :=
  match fuel with
  | O => lift None
  | S fuel' =>
      e ← is_eof fd;
      if (e : bool) then mret buf
      else
        '(_, b) ← read_file fd (drop (Z.to_nat pos) buf) 1;
        let buf := take (Z.to_nat pos) buf ++ b in
        c ← lift (buf.[pos]);
        if 10 =? c then lift (buf.[pos + 1 <- 0])
        else readline fuel' fd buf (pos + 1)
  end.

Definition read_a_line (fd : Z) (buf : list Z) : fsm (list Z) := readline (S (length buf)) fd buf 0.

(** The position of the name and of the password. *)
Record fields := mk_fields { real_uname : option Z; real_pwd : option Z; colon_cnt : Z }.
Definition no_fields : fields := mk_fields None None 0.

(** The loop of [user_check]; with [stop] that of [username2uid], which leaves at
    the second colon. *)
Fixpoint split_fields (stop : bool) (n : nat) (i : Z) (buf : list Z) (f : fields) : option (list Z * fields) :=
  match n with
  | O => Some (buf, f)
  | S n' =>
      c ← buf.[i];
      if (58 =? c) && (0 =? f.(colon_cnt)) then
        buf ← buf.[i <- 0];
        split_fields stop n' (i + 1) buf (mk_fields (Some (i + 1)) f.(real_pwd) (f.(colon_cnt) + 1))
      else if (58 =? c) && (1 =? f.(colon_cnt)) then
        buf ← buf.[i <- 0];
        if stop then Some (buf, f)
        else split_fields stop n' (i + 1) buf (mk_fields f.(real_uname) (Some (i + 1)) f.(colon_cnt))
      else split_fields stop n' (i + 1) buf f
  end.

(** The loop of [user_is_exists] and [delete_user_account]: the first colon stays,
    and the length is taken anew for each character. *)
Fixpoint split_name (fuel : nat) (i : Z) (buf : list Z) (f : fields) : option (list Z * fields) :=
  match fuel with
  | O => None
  | S fuel' =>
      l ← strlen buf;
      if i <? l then
        c ← buf.[i];
        if (58 =? c) && (0 =? f.(colon_cnt)) then
          split_name fuel' (i + 1) buf (mk_fields (Some (i + 1)) f.(real_pwd) (f.(colon_cnt) + 1))
        else if (58 =? c) && (1 =? f.(colon_cnt)) then
          buf ← buf.[i <- 0];
          split_name fuel' (i + 1) buf f
        else split_name fuel' (i + 1) buf f
      else Some (buf, f)
  end.

(** The string at a position; [zero_page] is what a null pointer points to. *)
Definition string_at (zero_page buf : list Z) (p : option Z) : list Z :=
  match p with Some i => drop (Z.to_nat i) buf | None => zero_page end.

(** Removes the newline.  An empty line has no place for it. *)
Definition chop (buf : list Z) : option (list Z) := l ← strlen buf; buf.[u32 (l - 1) <- 0].

Section accounts.
Variable zero_page : list Z.

(** The lines are read by a loop; [fuel] bounds their number. *)
Fixpoint user_check_loop (fuel : nat) (fd : Z) (username pwd_result buf : list Z) (f : fields) : fsm Z :=
  match fuel with
  | O => lift None
  | S fuel' =>
      e ← is_eof fd;
      if (e : bool) then close_file fd ;; mret (-1)
      else
        buf ← read_a_line fd buf;
        buf ← lift (chop buf);
        l ← lift (strlen buf);
        '(buf, f) ← lift (split_fields false (Z.to_nat l) 0 buf (mk_fields f.(real_uname) f.(real_pwd) 0));
        uid ← lift (string2int buf);
        same_name ← lift (strcmp username (string_at zero_page buf f.(real_uname)));
        same ← (if (same_name : bool) then lift (strcmp pwd_result (string_at zero_page buf f.(real_pwd)))
                else mret false);
        if (same : bool) then close_file fd ;; mret uid
        else user_check_loop fuel' fd username pwd_result (zeros 64) f
  end.

Definition user_check (fuel : nat) (username password : list Z) : fsm Z :=
  fd ← open_file (lit "/etc/passwd");
  pwd_result ← lift (hahash password (zeros 32));
  user_check_loop fuel (u32 fd) username pwd_result (zeros 64) no_fields.

Fixpoint username2uid_loop (fuel : nat) (fd : Z) (username buf : list Z) (f : fields) : fsm Z :=
  match fuel with
  | O => lift None
  | S fuel' =>
      e ← is_eof fd;
      if (e : bool) then close_file fd ;; mret (-1)
      else
        buf ← read_a_line fd buf;
        buf ← lift (chop buf);
        l ← lift (strlen buf);
        '(buf, f) ← lift (split_fields true (Z.to_nat l) 0 buf (mk_fields f.(real_uname) None 0));
        uid ← lift (string2int buf);
        same ← lift (strcmp username (string_at zero_page buf f.(real_uname)));
        if (same : bool) then close_file fd ;; mret uid
        else username2uid_loop fuel' fd username (zeros 64) f
  end.

Definition username2uid (fuel : nat) (username : list Z) : fsm Z :=
  fd ← open_file (lit "/etc/passwd");
  username2uid_loop fuel (u32 fd) username (zeros 64) no_fields.

Fixpoint user_is_exists_loop (fuel : nat) (fd : Z) (username buf : list Z) (f : fields) : fsm bool :=
  match fuel with
  | O => lift None
  | S fuel' =>
      e ← is_eof fd;
      if (e : bool) then close_file fd ;; mret false
      else
        buf ← read_a_line fd buf;
        '(buf, f) ← lift (split_name (S (length buf)) 0 buf (mk_fields f.(real_uname) None 0));
        same ← lift (strcmp (string_at zero_page buf f.(real_uname)) username);
        if (same : bool) then close_file fd ;; mret true
        else user_is_exists_loop fuel' fd username (zeros 128) f
  end.

Definition user_is_exists (fuel : nat) (username : list Z) : fsm bool :=
  fd ← open_file (lit "/etc/passwd");
  user_is_exists_loop fuel (u32 fd) username (zeros 128) no_fields.

(** [sprintf] into a buffer of [n] zeros. *)
Definition format (n : nat) (fmt : String.string) (args : list arg) : option (list Z) :=
  out ← vsprintf (lit fmt) args;
  put (zeros n) 0 out.

(** The line of an account. *)
Definition account_line (uid : Z) (username pwd_result : list Z) : option (list Z) :=
  format 128 (String.append "%d:%s:%s" (String.String (Ascii.ascii_of_nat 10) String.EmptyString))
    [AInt uid; AStr username; AStr pwd_result].

(** The number of the account, or -1, and the last number given. *)
Definition create_user_account (fuel : nat) (last_uid : Z) (username password : list Z) : fsm (Z * Z) :=
  e ← user_is_exists fuel username;
  if (e : bool) then
    printf_ln "user: %s is already exists." [AStr username] ;; mret (-1, last_uid)
  else
    is_root ← lift (strcmp (lit "root") username);
    let last_uid := if (is_root : bool) then last_uid else u32 (last_uid + 1) in
    let uid := if (is_root : bool) then 0 else last_uid in
    pwd_result ← lift (hahash password (zeros 32));
    fd ← open_file (lit "/etc/passwd");
    buf ← lift (account_line uid username pwd_result);
    l ← lift (strlen buf);
    write_file (u32 fd) buf l file_io.APPEND ;;
    close_file (u32 fd) ;;
    mret (s32 uid, last_uid).

(** The path of a home directory. *)
Definition home_path (username : list Z) : option (list Z) :=
  p ← strcpy (zeros 64) 0 (lit "/home/");
  l ← strlen p;
  strcpy p l username.

(** [chown] of terminal/builtin_cmd.cc. *)
Definition chown (fuel : nat) (path new_owner : list Z) : fsm unit :=
  uid ← username2uid fuel new_owner;
  if -1 =? uid then skip else sys_chown path (u32 uid).

Definition create_user_homedir (fuel : nat) (username : list Z) : fsm unit :=
  home ← lift (home_path username);
  sys_mkdir home ;;
  chown fuel home username.

(** The directory is made whatever became of the account. *)
Definition useradd (fuel : nat) (last_uid : Z) (username password : list Z) : fsm Z :=
  '(_, last_uid) ← create_user_account fuel last_uid username password;
  is_root ← lift (strcmp username (lit "root"));
  (if (is_root : bool) then skip else create_user_homedir fuel username) ;;
  mret last_uid.

Fixpoint copy_accounts (fuel : nat) (fd_src fd_dst : Z) (username : list Z) (f : fields) : fsm unit :=
  match fuel with
  | O => lift None
  | S fuel' =>
      e ← is_eof fd_src;
      if (e : bool) then skip
      else
        buf ← read_a_line fd_src (zeros 128);
        l ← lift (strlen buf);
        buf_will_write ← lift (memcpy (zeros 128) 0 buf 0 (Z.to_nat l));
        '(buf, f) ← lift (split_name (S (length buf)) 0 buf (mk_fields f.(real_uname) None 0));
        same ← lift (strcmp username (string_at zero_page buf f.(real_uname)));
        (if (same : bool) then skip
         else l ← lift (strlen buf_will_write); write_file fd_dst buf_will_write l file_io.APPEND) ;;
        copy_accounts fuel' fd_src fd_dst username f
  end.

Definition delete_user_account (fuel : nat) (username : list Z) : fsm unit :=
  is_root ← lift (strcmp username (lit "root"));
  if (is_root : bool) then printf_ln "User root can't be deleted." []
  else
    e ← user_is_exists fuel username;
    if negb e then printf_ln "User: %s is not exists." [AStr username]
    else
      sys_mkfile (lit "/etc/passwd_") ;;
      fd_src ← open_file (lit "/etc/passwd");
      fd_dst ← open_file (lit "/etc/passwd_");
      copy_accounts fuel (u32 fd_src) (u32 fd_dst) username no_fields ;;
      close_file (u32 fd_src) ;;
      close_file (u32 fd_dst) ;;
      sys_rmfile (lit "/etc/passwd") ;;
      move_file (lit "/etc/passwd_") (lit "/etc/passwd").

Definition delete_user_homedir (username : list Z) : fsm unit :=
  home ← lift (home_path username);
  sys_rmdir home.

Definition userdel (fuel : nat) (username : list Z) : fsm unit :=
  delete_user_account fuel username ;;
  delete_user_homedir username.

(** ** The other commands on files *)

(** [cat], [ls], [mkdir] and the like only send the request; [chmod] reads two
    octal digits. *)
Definition chmod (new_mode path : list Z) : fsm unit :=
  a ← lift (new_mode.[1]);
  b ← lift (new_mode.[0]);
  sys_chmod path (u32 (s8 a - 48 + Z.shiftl (s8 b - 48) 3)).

Fixpoint last_loop (fuel : nat) (fd : Z) (buf : list Z) : fsm unit :=
  match fuel with
  | O => lift None
  | S fuel' =>
      e ← is_eof fd;
      if (e : bool) then skip
      else
        buf ← read_a_line fd buf;
        printf "%s" [AStr buf] ;;
        last_loop fuel' fd (zeros 64)
  end.

Definition last (fuel : nat) : fsm unit :=
  fd ← open_file (lit "/var/login.log");
  last_loop fuel (u32 fd) (zeros 64) ;;
  close_file (u32 fd).

(** [record_to_log] of terminal/terminal.cc. *)
Definition record_to_log (username : list Z) : fsm unit :=
  time_n ← gets clock;
  let t := Machine.num2time time_n in
  record ← lift (format 64 (String.append "User: %s Date: %d-%d-%d %d:%d" (String.String (Ascii.ascii_of_nat 10) String.EmptyString))
                   [AStr username; AInt t.(Machine.year); AInt t.(Machine.month); AInt t.(Machine.day);
                    AInt t.(Machine.hour); AInt t.(Machine.minute)]);
  fd ← open_file (lit "/var/login.log");
  l ← lift (strlen record);
  write_file (u32 fd) record l file_io.APPEND ;;
  close_file (u32 fd).
End accounts.

(** ** What the hash is *)

(** What [spread] appends depends on what is in front only. *)
Lemma spread_appends n p start :
  0 <= start < zlen p ->
  exists q, length q = n /\ forall r, length r = n -> spread n (zlen p) start (p ++ r) = Some (p ++ q).
Proof.
  revert p start. induction n as [|n IH]; intros p start Hs.
  - exists []. split; [done|]. intros r Hr. by destruct r.
  - destruct (zget_in p (zlen p - 1)) as [a Ea]; [lia|]. destruct (zget_in p start) as [b Eb]; [lia|].
    destruct (IH (p ++ [Z.lxor a b]) (start + 1)) as (q & Hq & Hr); [rewrite zlen_app; change (zlen [_]) with 1; lia|].
    exists (Z.lxor a b :: q). split; [by cbn; rewrite Hq|]. intros r Hl. destruct r as [|y r]; [done|].
    cbn [spread]. rewrite !zget_app_l, Ea, Eb by lia. sbind. rewrite zset_mid. sbind.
    specialize (Hr r ltac:(cbn in Hl; lia)). rewrite zlen_app, <- !(assoc_L (++)) in Hr. exact Hr.
Qed.

Lemma table_char k : 0 <= k < 62 -> exists h, hash_table.[k] = Some h /\ In h hash_table.
Proof.
  intros Hk. destruct (zget_in hash_table k) as [h E]; [done|]. exists h. split; [done|].
  apply zget_Some in E as [_ E]. by apply list_elem_of_In, (list_elem_of_lookup_2 _ _ _ E).
Qed.

Lemma to_table_chars n p r :
  length p = Z.to_nat (32 - Z.of_nat n) -> (n <= 32)%nat -> length r = n -> Forall (fun h => In h hash_table) p ->
  exists h, to_table n (zlen p) (p ++ r) = Some h /\ length h = 32%nat /\ Forall (fun h => In h hash_table) h.
Proof.
  revert p r. induction n as [|n IH]; intros p r Hp Hn Hr Hf.
  - exists p. destruct r; [|done]. rewrite app_nil_r. split; [done|]. split; [lia|done].
  - destruct r as [|y r]; [done|]. cbn in Hr.
    assert (zlen (p ++ y :: r) = 32) as Hl by (unfold zlen; rewrite length_app; cbn; lia).
    assert (zlen p = 31 - Z.of_nat n) as Hz by (unfold zlen; lia).
    cbn [to_table]. rewrite zget_mid. sbind.
    destruct (zget_in (p ++ y :: r) (max_length - 1 - zlen p)) as [b Eb]; [unfold max_length; lia|].
    rewrite Eb. sbind. rewrite zset_mid. sbind.
    destruct (table_char (u32 (s8 (Z.lxor y b)) mod hash_table_len)) as (h & Eh & Hh);
      [apply Z.mod_pos_bound; done|]. rewrite Eh. sbind. rewrite zset_mid. sbind.
    destruct (IH (p ++ [h]) r) as (res & E & Hres); [rewrite length_app; cbn; lia|lia|lia| |].
    { apply Forall_app. split; [done|]. by apply Forall_singleton. }
    exists res. rewrite zlen_app, <- (assoc_L (++)) in E. change (zlen [h]) with 1 in E. done.
Qed.

(** A text of 1 to 32 characters becomes 31 characters of the table, whatever was
    in the buffer. *)
Lemma hahash_spec s rest :
  is_str s -> 1 <= zlen s <= 32 ->
  exists h, length h = 31%nat /\ Forall (fun c => In c hash_table) h /\
    forall result, length result = 32%nat -> hahash (cstr s rest) result = Some (h ++ [0]).
Proof.
  intros Hs Hl. set (n := Z.to_nat (32 - zlen s)).
  destruct (spread_appends n s 0) as (q & Hq & Hr); [lia|].
  destruct (to_table_chars 32 [] (s ++ q)) as (h & E & Hh & Hf); [done|done| |done|].
  { rewrite length_app, Hq. unfold n, zlen in *. lia. }
  exists (take 31 h). split; [rewrite length_take; lia|]. split; [by apply Forall_take|].
  intros result Hres. unfold hahash. rewrite strlen_cstr by (done || lia). sbind.
  rewrite (proj2 (Z.ltb_ge max_length _)) by (unfold max_length; lia).
  pose proof (strcpy_prefix s rest result Hs ltac:(unfold zlen in *; lia) []) as Ec.
  cbn [app] in Ec. change (zlen []) with 0 in Ec. rewrite Ec. sbind.
  change (max_length - zlen s) with (32 - zlen s). fold n.
  rewrite Hr by (rewrite length_drop, Hres; unfold n, zlen in *; lia). sbind.
  cbn [app] in E. change (zlen []) with 0 in E. rewrite E. sbind.
  rewrite zset_in by (unfold zlen, max_length; lia). f_equal. rewrite <- (take_drop 31 h) at 1.
  change (Z.to_nat (max_length - 1)) with 31%nat.
  rewrite insert_app_r_alt by (rewrite length_take; lia). rewrite length_take, Hh.
  assert (length (drop 31 h) = 1%nat) as H1 by (rewrite length_drop; lia).
  destruct (drop 31 h) as [|y [|]]; done.
Qed.
