(* ===== verification/Accounts.v ===== *)
(** * Logging in

    The file of accounts, read line by line, and the accounts [user_check]
    recognises: those whose name and hashed password are given. *)
From Stdlib Require Import String.
From S2P Require Import Prelude CString FsState Inode Dir File DirSpec FileSpec Users.
#[local] Open Scope string_scope.
#[global] Open Scope list_scope.
#[global] Open Scope Z_scope.

(** ** Reading an open file *)

(** The bytes of a file. *)
Definition file_bytes (s : fs) (x : inode) : list Z :=
  take (Z.to_nat x.(i_size)) (concat (map (fun lba => sector s.(disk) (u32 lba)) x.(i_sectors))).

(** The file is open under [fd] and [data] is what is left to be read. *)
Record reading (fd : Z) (x : inode) (off : Z) (data : list Z) (s : fs) : Prop := {
  rd_open : s.(file_desc_tbl).[fd] = Some (Some (mk_file off x));
  rd_allowed : allowed s x access_mode.READ = true;
  rd_full : full s.(disk);
  rd_off : 0 <= off;
  rd_data : drop (Z.to_nat off) (file_bytes s x) = data;
  rd_size : 0 <= x.(i_size) <= 4608;
  rd_nine : length x.(i_sectors) = 9%nat;
}.

(** [s] with the entry [f] for the descriptor [fd] and other counters of the heap. *)
Definition at_fd (fd : Z) (f : option file) (m n : nat) (s : fs) : fs :=
  mk_fs s.(disk) s.(sb) s.(block_bmap) s.(inode_bmap) (<[Z.to_nat fd := f]> s.(file_desc_tbl)) s.(cur_dir) s.(uid)
    s.(clock) s.(junk) m n s.(console).

(** Nothing else has changed. *)
Definition kept (fd : Z) (s s' : fs) : Prop := exists f m n, s' = at_fd fd f m n s.

(** The descriptor is free, and nothing else has changed. *)
Definition closed (fd : Z) (s s' : fs) : Prop := exists m n, s' = at_fd fd None m n s.

Lemma kept_refl fd x off data s : reading fd x off data s -> kept fd s s.
Proof.
  intros [Ho _ _ _ _ _ _]. exists (Some (mk_file off x)), s.(mallocs), s.(frees). unfold at_fd.
  apply zget_Some in Ho as [_ Ho]. rewrite list_insert_id by done. by destruct s.
Qed.

Lemma kept_chain fd s1 s2 s3 : kept fd s1 s2 -> kept fd s2 s3 -> kept fd s1 s3.
Proof.
  intros (f & m & n & ->) (f' & m' & n' & ->). exists f', m', n'. unfold at_fd. cbn. by rewrite list_insert_insert_eq.
Qed.

Lemma kept_closed fd s1 s2 s3 : kept fd s1 s2 -> closed fd s2 s3 -> closed fd s1 s3.
Proof.
  intros (f & m & n & ->) (m' & n' & ->). exists m', n'. unfold at_fd. cbn. by rewrite list_insert_insert_eq.
Qed.

Lemma kept_length fd s s' : kept fd s s' -> zlen s'.(file_desc_tbl) = zlen s.(file_desc_tbl).
Proof. intros (f & m & n & ->). unfold zlen. cbn. by rewrite length_insert. Qed.

Lemma lookup_concat {A} (n : nat) (ls : list (list A)) k :
  (0 < n)%nat -> Forall (fun l => length l = n) ls ->
  concat ls !! k = l ← ls !! (k / n)%nat; l !! (k mod n)%nat.
Proof.
  intros Hn H. revert k. induction H as [|l ls Hl H IH]; intros k.
  - by rewrite lookup_nil.
  - cbn [concat]. destruct (decide (k < n)%nat).
    + rewrite lookup_app_l, Nat.div_small, Nat.mod_small by lia. done.
    + rewrite lookup_app_r, IH, Hl by lia.
      assert (k = (k - n) + 1 * n)%nat as E by lia. set (j := (k - n)%nat) in *. clearbody j. subst k.
      rewrite Nat.div_add, Nat.Div0.mod_add by lia. rewrite Nat.add_1_r. done.
Qed.

Lemma length_concat_all {A} (n : nat) (ls : list (list A)) :
  Forall (fun l => length l = n) ls -> length (concat ls) = (length ls * n)%nat.
Proof. induction 1 as [|l ls Hl _ IH]; [done|]. cbn [concat length]. rewrite length_app, IH. lia. Qed.

Lemma file_bytes_length s x : full s.(disk) -> 0 <= x.(i_size) <= 4608 -> length x.(i_sectors) = 9%nat ->
  length (file_bytes s x) = Z.to_nat x.(i_size).
Proof.
  intros Hf Hs Hn. unfold file_bytes. rewrite length_take, (length_concat_all 512).
  - rewrite length_map, Hn. lia.
  - apply Forall_map, Forall_true. intros lba. apply Hf.
Qed.

Lemma runs_read_byte fd x off b data y buf s :
  reading fd x off (b :: data) s ->
  runs (read_file fd (y :: buf) 1) s (fun r s' => r = (1, b :: buf) /\ reading fd x (off + 1) data s' /\ kept fd s s').
Proof.
  intros [Ho Ha Hf H0 Hd Hs Hn]. pose proof (file_bytes_length s x Hf Hs Hn) as Hl.
  assert (file_bytes s x !! Z.to_nat off = Some b) as Hb.
  { rewrite <- (Nat.add_0_r (Z.to_nat off)), <- lookup_drop, Hd. done. }
  pose proof (lookup_lt_Some _ _ _ Hb) as Hlt. rewrite Hl in Hlt.
  unfold file_bytes in Hb. rewrite lookup_take_lt in Hb by lia.
  rewrite (lookup_concat 512) in Hb by (lia || (apply Forall_map, Forall_true; intros; apply Hf)).
  change (map ?g ?l) with (g <$> l) in Hb. rewrite list_lookup_fmap in Hb.
  destruct (x.(i_sectors) !! (Z.to_nat off / 512)%nat) as [lba|] eqn:El; [|done]. cbn in Hb.
  assert (x.(i_sectors).[off / sector_size] = Some lba) as El'.
  { apply zget_Some. split; [apply Z.div_pos; unfold sector_size; lia|].
    rewrite <- El. f_equal. unfold sector_size. rewrite Z2Nat.inj_div by lia. done. }
  unfold read_file. apply runs_bind, runs_gets, runs_bind. eapply runs_lift; [exact Ho|]. cbv beta iota.
  cbn [f_inode offset]. apply runs_bind, runs_check. rewrite Ha. cbn [negb].
  rewrite (proj2 (Z.ltb_ge x.(i_size) 1)) by lia. change (512 <? 1) with false. cbv beta iota zeta.
  apply runs_bind. eexists _, _. split; [reflexivity|].
  apply runs_bind. eapply runs_lift; [exact El'|]. apply runs_bind, runs_read.
  change (disk (count_malloc s)) with (disk s).
  set (sec := sector (disk s) (u32 lba)) in *.
  assert (drop (Z.to_nat (off mod sector_size)) sec = b :: drop (S (Z.to_nat (off mod sector_size))) sec) as Es.
  { apply drop_S. rewrite <- Hb. f_equal. unfold sector_size. rewrite Z2Nat.inj_mod by lia. done. }
  rewrite Es. apply runs_bind. eapply runs_lift.
  { unfold copy_in. rewrite zlen_cons. pose proof (zlen_nonneg (drop (S (Z.to_nat (off mod sector_size))) sec)).
    rewrite (proj2 (Z.leb_le _ _)) by lia. change (take (Z.to_nat 1) (b :: ?l)) with [b].
    rewrite put_ok by (first [done|unfold zlen; cbn [length]; lia]). reflexivity. }
  change (upto (off / sector_size + 1) 0) with (seqZ (off / sector_size + 1) (0 - (off / sector_size + 1))).
  rewrite seqZ_nil by (assert (0 <= off / sector_size) by (apply Z.div_pos; unfold sector_size; lia); lia).
  apply runs_bind, runs_ret, runs_bind, runs_ret, runs_bind, runs_modify, runs_bind.
  eapply runs_set_file; [exact Ho|]. apply runs_ret. split; [done|].
  split; [|by eexists _, _, _].
  constructor; cbn; try done; try lia.
  - rewrite zget_insert, Z.eqb_refl by (eapply zget_lt, Ho). rewrite u32_id by lia. done.
  - unfold file_bytes in *. cbn. replace (Z.to_nat (off + 1)) with (Z.to_nat off + 1)%nat by lia.
    rewrite <- drop_drop. cbn in Hd. rewrite Hd. done.
Qed.

Lemma is_eof_reading fd x off data s : reading fd x off data s -> is_eof fd s = Some (bool_decide (data = []), s).
Proof.
  intros [Ho Ha Hf H0 Hd Hs Hn]. pose proof (file_bytes_length s x Hf Hs Hn) as Hl.
  unfold is_eof, mbind, fsm_bind, gets, lift. rewrite Ho. cbn. do 2 f_equal. subst data.
  destruct (Z.leb_spec x.(i_size) off).
  - rewrite drop_ge by lia. done.
  - rewrite bool_decide_eq_false_2; [done|]. intros E. apply (f_equal length) in E.
    rewrite length_drop, Hl in E. cbn in E. lia.
Qed.

Lemma runs_is_eof fd x off data s (Q : bool -> fs -> Prop) :
  reading fd x off data s -> Q (bool_decide (data = [])) s -> runs (is_eof fd) s Q.
Proof. intros H HQ. eexists _, s. split; [by eapply is_eof_reading|exact HQ]. Qed.

Lemma drop_zlen {A} (p r : list A) : drop (Z.to_nat (zlen p)) (p ++ r) = r.
Proof. unfold zlen. rewrite Nat2Z.id. apply drop_app_length. Qed.
Lemma take_zlen {A} (p r : list A) : take (Z.to_nat (zlen p)) (p ++ r) = p.
Proof. unfold zlen. rewrite Nat2Z.id. apply take_app_length. Qed.

(** A line that fits is read with its newline and a terminator. *)
Lemma runs_readline fd x line data fuel : forall off pre r s,
  reading fd x off (line ++ 10 :: data) s -> Forall (fun c => c <> 10) line ->
  (length line + 2 <= length r)%nat -> (length r < fuel)%nat ->
  runs (readline fuel fd (pre ++ r) (zlen pre)) s (fun b s' =>
    b = pre ++ line ++ [10; 0] ++ drop (length line + 2) r /\ (exists off', reading fd x off' data s') /\ kept fd s s').
Proof.
  induction line as [|c line IH] in fuel |- *; intros off pre r s Hr Hl Hlen Hf;
    (destruct fuel as [|fuel]; [lia|]); (destruct r as [|y r]; [cbn in Hlen; lia|]);
    cbn [readline app] in *; apply runs_bind; (eapply runs_is_eof; [exact Hr|]); cbv beta iota;
    (case_bool_decide; [done|]); rewrite drop_zlen;
    apply runs_bind; (eapply runs_weaken; [eapply runs_read_byte; exact Hr|]); intros [n b] s1 [[= -> ->] [Hr1 Hk1]]; cbv beta iota;
    rewrite take_zlen, zget_mid.
  - destruct r as [|z r]; [cbn in Hlen; lia|]. apply runs_bind. eapply runs_lift; [reflexivity|]. rewrite Z.eqb_refl.
    eapply runs_lift.
    { change (pre ++ 10 :: z :: r) with (pre ++ [10] ++ z :: r). rewrite (assoc_L (++)).
      replace (zlen pre + 1) with (zlen (pre ++ [10])) by (rewrite zlen_app; done). apply zset_mid. }
    split; [|split; [by exists (off + 1)|done]]. rewrite <- (assoc_L (++)). done.
  - apply Forall_cons in Hl as [Hc Hl]. apply runs_bind. eapply runs_lift; [reflexivity|].
    rewrite (proj2 (Z.eqb_neq 10 c)) by congruence.
    replace (zlen pre + 1) with (zlen (pre ++ [c])) by (rewrite zlen_app; done).
    change (pre ++ c :: r) with (pre ++ [c] ++ r). rewrite (assoc_L (++)).
    eapply runs_weaken; [apply (IH fuel (off + 1) (pre ++ [c]) r s1 Hr1 Hl)|]; [cbn in Hlen; lia|cbn in Hf; lia|].
    intros b s' [-> [He Hk]]. split; [|split; [exact He|by eapply kept_chain]]. rewrite <- (assoc_L (++)). done.
Qed.

(** ** Accounts *)

Record account := mk_account { a_uid : Z; a_name : list Z; a_hash : list Z }.

(** A field: characters, none of them a colon or a newline. *)
Definition field_ok (w : list Z) : Prop := Forall (fun c => is_u8 c /\ c <> 0 /\ c <> 58 /\ c <> 10) w.

Lemma field_is_str w : field_ok w -> is_str w.
Proof. intros H. eapply Forall_impl; [exact H|]. cbn. tauto. Qed.

(** The text of an account, without the newline. *)
Definition line_of (a : account) : list Z := itoa a.(a_uid) [] 10 ++ 58 :: a.(a_name) ++ 58 :: a.(a_hash).

Record account_ok (a : account) : Prop := {
  acc_uid : 0 <= a.(a_uid) < 2147483648;
  acc_name : field_ok a.(a_name);
  acc_hash : field_ok a.(a_hash);
  acc_short : (length (line_of a) <= 62)%nat;
}.

(** The first account with this name and hash. *)
Fixpoint find_account (accts : list account) (name hash : list Z) : Z :=
  match accts with
  | [] => -1
  | a :: accts' => if decide (a.(a_name) = name /\ a.(a_hash) = hash) then a.(a_uid) else find_account accts' name hash
  end.

Lemma itoa_field n : 0 <= n < 4294967296 -> field_ok (itoa n [] 10).
Proof.
  intros H. destruct (itoa_digits n [] H) as (ds & -> & Hd & _). cbn [app].
  apply Forall_map. eapply Forall_impl; [exact Hd|]. intros d Hdd. cbn in Hdd |- *. unfold is_u8, digit. lia.
Qed.

Lemma split_skip stop w n p r f :
  field_ok w ->
  split_fields stop (length w + n) (zlen p) (p ++ w ++ r) f = split_fields stop n (zlen p + zlen w) (p ++ w ++ r) f.
Proof.
  intros Hw. revert p. induction Hw as [|c w (_ & _ & Hc & _) Hw IH]; intros p.
  - cbn [length app Nat.add]. f_equal. change (zlen []) with 0. lia.
  - cbn [length app Nat.add split_fields]. rewrite zget_mid. sbind.
    rewrite (proj2 (Z.eqb_neq 58 c)) by congruence. cbn [andb].
    specialize (IH (p ++ [c])). rewrite zlen_app, <- !(assoc_L (++)) in IH. change (zlen [c]) with 1 in IH.
    rewrite zlen_cons. cbn [app] in IH. rewrite IH. f_equal. lia.
Qed.

Lemma split_account a k f :
  account_ok a ->
  let d := itoa a.(a_uid) [] 10 in
  split_fields false (length (line_of a)) 0 (line_of a ++ zeros k) (mk_fields f.(real_uname) f.(real_pwd) 0) =
    Some (d ++ 0 :: a.(a_name) ++ 0 :: a.(a_hash) ++ zeros k,
          mk_fields (Some (zlen d + 1)) (Some (zlen d + 1 + zlen a.(a_name) + 1)) 1).
Proof.
  intros [Hu Hn Hh _] d. pose proof (itoa_field a.(a_uid) ltac:(lia)) as Hd. fold d in Hd.
  unfold line_of. fold d. set (n := a_name a) in *. set (h := a_hash a) in *.
  rewrite <- !(assoc_L (++)). cbn [app]. rewrite <- !(assoc_L (++)). cbn [app].
  assert (length (d ++ 58%Z :: n ++ 58%Z :: h) = length d + S (length n + S (length h + 0)))%nat as ->
    by (rewrite length_app; cbn [length]; rewrite length_app; cbn [length]; lia).
  pose proof (split_skip false d (S (length n + S (length h + 0))) [] (58 :: n ++ 58 :: h ++ zeros k)) as E.
  cbn [app] in E. change (zlen []) with 0 in E. rewrite E by done. clear E. cbn [split_fields].
  rewrite Z.add_0_l, zget_mid. sbind. cbn [real_uname real_pwd colon_cnt]. rewrite zset_mid. sbind.
  change (d ++ 0 :: n ++ 58 :: h ++ zeros k) with (d ++ [0] ++ n ++ 58 :: h ++ zeros k). rewrite (assoc_L (++) d).
  replace (zlen d + 1) with (zlen (d ++ [0])) by (rewrite zlen_app; done).
  rewrite split_skip by done. cbn [split_fields].
  rewrite (assoc_L (++) (d ++ [0]) n), <- zlen_app, zget_mid. sbind. cbn [real_uname real_pwd colon_cnt].
  change ((58 =? 58) && (0 =? 0 + 1)) with false. change ((58 =? 58) && (1 =? 0 + 1)) with true. cbv iota.
  rewrite zset_mid. sbind.
  change (((d ++ [0]) ++ n) ++ 0 :: h ++ zeros k) with (((d ++ [0]) ++ n) ++ [0] ++ h ++ zeros k).
  rewrite (assoc_L (++) ((d ++ [0]) ++ n)).
  replace (zlen ((d ++ [0]) ++ n) + 1) with (zlen (((d ++ [0]) ++ n) ++ [0])) by (rewrite zlen_app; done).
  rewrite split_skip by done. cbn [split_fields]. rewrite <- !(assoc_L (++)). cbn [app]. do 4 f_equal.
Qed.

Lemma strlen_line a k : account_ok a -> strlen (line_of a ++ zeros (S k)) = Some (zlen (line_of a)).
Proof.
  intros [Hu Hn Hh Hs]. change (zeros (S k)) with (0 :: zeros k). apply strlen_cstr; [|unfold zlen; lia].
  pose proof (field_is_str _ (itoa_field a.(a_uid) ltac:(lia))). unfold line_of, is_str.
  apply Forall_app. split; [done|]. apply Forall_cons. split; [done|].
  apply Forall_app. split; [by apply field_is_str|]. apply Forall_cons. split; [done|by apply field_is_str].
Qed.

(** One turn of [user_check]. *)
Lemma check_line zp a name hash r1 r2 k f :
  account_ok a -> is_str name -> is_str hash ->
  let line := line_of a ++ [10; 0] ++ zeros k in
  exists buf f', chop line = Some (line_of a ++ zeros (S (S k))) /\
    strlen (line_of a ++ zeros (S (S k))) = Some (zlen (line_of a)) /\
    split_fields false (length (line_of a)) 0 (line_of a ++ zeros (S (S k))) (mk_fields f.(real_uname) f.(real_pwd) 0) = Some (buf, f') /\
    string2int buf = Some a.(a_uid) /\
    strcmp (cstr name r1) (string_at zp buf f'.(real_uname)) = Some (bool_decide (name = a.(a_name))) /\
    strcmp (cstr hash r2) (string_at zp buf f'.(real_pwd)) = Some (bool_decide (hash = a.(a_hash))).
Proof.
  intros Ha Hn Hh line. pose proof Ha as [Hu Han Hah Hs].
  do 2 eexists. split; [|split; [by apply strlen_line|split; [by apply split_account|]]].
  - unfold chop, line. assert (is_str (line_of a ++ [10])) as Hl.
    { apply Forall_app. split; [|by apply Forall_singleton].
      pose proof (field_is_str _ (itoa_field a.(a_uid) ltac:(lia))). unfold line_of.
      apply Forall_app. split; [done|]. apply Forall_cons. split; [done|].
      apply Forall_app. split; [by apply field_is_str|]. apply Forall_cons. split; [done|by apply field_is_str]. }
    change (line_of a ++ [10; 0] ++ zeros k) with (line_of a ++ [10] ++ 0 :: zeros k). rewrite (assoc_L (++)).
    change ((line_of a ++ [10]) ++ 0 :: zeros k) with (cstr (line_of a ++ [10]) (zeros k)).
    rewrite (strlen_cstr (line_of a ++ [10]) (zeros k) Hl) by (unfold zlen; rewrite length_app; cbn [length]; lia). sbind.
    rewrite zlen_app. change (zlen [10]) with 1. rewrite u32_id by (unfold zlen; lia).
    replace (zlen (line_of a) + 1 - 1) with (zlen (line_of a)) by lia.
    unfold cstr. rewrite <- (assoc_L (++)). apply zset_mid.
  - cbn [real_uname real_pwd string_at]. set (d := itoa a.(a_uid) [] 10). split; [|split].
    + apply string2int_digits. lia.
    + replace (d ++ 0 :: a.(a_name) ++ 0 :: a.(a_hash) ++ zeros (S (S k)))
        with ((d ++ [0]) ++ cstr a.(a_name) (a.(a_hash) ++ zeros (S (S k)))) by (by rewrite <- (assoc_L (++))).
      replace (zlen d + 1) with (zlen (d ++ [0])) by (rewrite zlen_app; done). rewrite drop_zlen.
      apply strcmp_cstr; [done|by apply field_is_str].
    + replace (d ++ 0 :: a.(a_name) ++ 0 :: a.(a_hash) ++ zeros (S (S k)))
        with ((d ++ [0] ++ a.(a_name) ++ [0]) ++ cstr a.(a_hash) (zeros (S k))) by (by rewrite <- !(assoc_L (++))).
      replace (zlen d + 1 + zlen a.(a_name) + 1) with (zlen (d ++ [0] ++ a.(a_name) ++ [0]))
        by (rewrite !zlen_app; change (zlen [0]) with 1; lia).
      rewrite drop_zlen. apply strcmp_cstr; [done|by apply field_is_str].
Qed.

Lemma runs_close fd x off data s (Q : unit -> fs -> Prop) :
  reading fd x off data s -> zlen s.(file_desc_tbl) = 64 -> (forall s', closed fd s s' -> Q tt s') ->
  runs (close_file fd) s Q.
Proof.
  intros H Hz HQ. pose proof (zget_lt _ _ _ (rd_open _ _ _ _ _ H)). unfold close_file. apply runs_bind, runs_gets, runs_bind. eapply runs_lift; [apply H|]. cbv beta iota.
  unfold free. apply runs_bind, runs_modify, runs_bind, runs_modify. unfold free_fdt_slot.
  destruct (63 <? fd) eqn:E; zbool; [lia|]. unfold set_file.
  apply runs_bind, runs_gets, runs_bind. eapply runs_lift; [apply zset_in; eapply zget_lt, H|].
  apply runs_modify, HQ. by eexists _, _.
Qed.

Lemma line_no_newline a : account_ok a -> Forall (fun c => c <> 10) (line_of a).
Proof.
  intros [Hu Hn Hh _]. unfold line_of.
  assert (forall w, field_ok w -> Forall (fun c => c <> 10) w) as F
    by (intros w Hw; eapply Forall_impl; [exact Hw|]; cbn; tauto).
  apply Forall_app. split; [apply F, itoa_field; lia|]. apply Forall_cons. split; [done|].
  apply Forall_app. split; [by apply F|]. apply Forall_cons. split; [done|by apply F].
Qed.

(** The text of a list of accounts. *)
Definition passwd (accts : list account) : list Z := concat (map (fun a => line_of a ++ [10]) accts).

Lemma zeros_drop n k : drop n (zeros k) = zeros (k - n).
Proof. apply drop_replicate. Qed.

Lemma runs_user_check_loop zp fd x name hash r1 r2 accts :
  Forall account_ok accts -> is_str name -> is_str hash ->
  forall fuel off f s, reading fd x off (passwd accts) s -> zlen s.(file_desc_tbl) = 64 -> (length accts < fuel)%nat ->
  runs (user_check_loop zp fuel fd (cstr name r1) (cstr hash r2) (zeros 64) f) s
    (fun r s' => r = find_account accts name hash /\ closed fd s s').
Proof.
  intros Ha Hn Hh. induction Ha as [|a accts Ha Has IH]; intros fuel off f s Hr Hz Hf;
    (destruct fuel as [|fuel]; [cbn in Hf; lia|]); cbn [user_check_loop find_account];
    apply runs_bind; (eapply runs_is_eof; [exact Hr|]); cbv beta.
  - change (bool_decide (passwd [] = [])) with true. cbv iota.
    apply runs_bind. eapply runs_close; [exact Hr|exact Hz|]. intros s' Hc. by apply runs_ret.
  - pose proof (acc_short _ Ha) as Hs. unfold passwd in Hr |- *. cbn [map concat] in Hr |- *.
    rewrite bool_decide_eq_false_2 by (rewrite <- (assoc_L (++)); by destruct (line_of a)). cbv iota.
    rewrite <- (assoc_L (++)) in Hr. cbn [app] in Hr.
    apply runs_bind. unfold read_a_line. eapply runs_weaken.
    { apply (runs_readline fd x (line_of a) (passwd accts) _ off [] (zeros 64) s Hr (line_no_newline a Ha)).
      - unfold zeros. rewrite length_replicate. lia.
      - unfold zeros. rewrite length_replicate. lia. }
    intros b s1 [-> [[off' Hr1] Hk1]]. pose proof (kept_length _ _ _ Hk1) as Hz1. rewrite Hz in Hz1.
    assert (forall r s', r = find_account accts name hash /\ closed fd s1 s' -> r = find_account accts name hash /\ closed fd s s')
      as Hkc by (intros r s' [? ?]; split; [done|by eapply kept_closed]). cbn [app]. rewrite zeros_drop.
    destruct (check_line zp a name hash r1 r2 (64 - (length (line_of a) + 2)) f Ha Hn Hh)
      as (buf & f' & E1 & E2 & E3 & E4 & E5 & E6).
    apply runs_bind. eapply runs_lift; [exact E1|]. apply runs_bind. eapply runs_lift; [exact E2|].
    unfold zlen. rewrite Nat2Z.id. apply runs_bind. eapply runs_lift; [exact E3|]. cbv iota.
    apply runs_bind. eapply runs_lift; [exact E4|]. apply runs_bind. eapply runs_lift; [exact E5|].
    assert (length accts < fuel)%nat as Hf' by (cbn in Hf; lia).
    destruct (decide (name = a.(a_name))) as [Dn|Dn].
    + rewrite (bool_decide_eq_true_2 _ Dn). cbv iota. apply runs_bind. eapply runs_lift; [exact E6|].
      destruct (decide (hash = a.(a_hash))) as [Dh|Dh].
      * rewrite (bool_decide_eq_true_2 _ Dh). apply runs_bind. eapply runs_close; [exact Hr1|exact Hz1|].
        intros s' Hc. apply runs_ret. rewrite decide_True by done. split; [done|by eapply kept_closed].
      * rewrite (bool_decide_eq_false_2 _ Dh), decide_False by (intros [_ E]; congruence).
        eapply runs_weaken; [by eapply IH|exact Hkc].
    + rewrite (bool_decide_eq_false_2 _ Dn). apply runs_bind, runs_ret.
      rewrite decide_False by (intros [E _]; congruence). eapply runs_weaken; [by eapply IH|exact Hkc].
Qed.

(** What [create_user_account] writes for an account. *)
Definition written (a : account) : option (list Z) :=
  buf ← account_line a.(a_uid) (cstr a.(a_name) []) (cstr a.(a_hash) []);
  l ← strlen buf;
  Some (take (Z.to_nat l) buf).

Lemma take_cstr s rest : is_str s -> zlen s < 4294967296 ->
  (l ← strlen (cstr s rest); Some (take (Z.to_nat l) (cstr s rest))) = Some s.
Proof. intros Hs Hl. rewrite strlen_cstr by done. sbind. f_equal. apply take_zlen. Qed.

Lemma account_line_text a : account_ok a -> written a = Some (line_of a ++ [10]).
Proof.
  intros Ha. pose proof Ha as [Hu Hn Hh Hs].
  assert (zlen a.(a_name) < 4294967296 /\ zlen a.(a_hash) < 4294967296) as [Ln Lh].
  { unfold line_of in Hs. rewrite length_app in Hs. cbn [length] in Hs. rewrite length_app in Hs. cbn [length] in Hs.
    unfold zlen. lia. }
  assert (account_line a.(a_uid) (cstr a.(a_name) []) (cstr a.(a_hash) []) =
          put (zeros 128) 0 (line_of a ++ [10])) as E.
  { unfold account_line, format. set (fmt := lit _). vm_compute in fmt. subst fmt.
    unfold vsprintf. cbn [length vsprintf_loop truth negb Z.eqb Pos.eqb].
    rewrite (s32_id a.(a_uid)), (u32_id a.(a_uid)) by lia. rewrite (proj2 (Z.ltb_ge a.(a_uid) 0)) by lia. cbv iota.
    rewrite !strlen_cstr by (done || by apply field_is_str). sbind. unfold cstr. rewrite !take_zlen. f_equal.
    unfold line_of. generalize (itoa a.(a_uid) [] 10). intros d.
    repeat (rewrite <- (assoc_L (++)); cbn [app]). done. }
  unfold written. rewrite E, put_ok.
  - sbind. rewrite take_0. cbn [app]. rewrite zeros_drop.
    assert (128 - (Z.to_nat 0 + length (line_of a ++ [10%Z])) = S (127 - length (line_of a ++ [10%Z])))%nat as ->
      by (rewrite length_app; cbn [length]; lia).
    apply take_cstr; [|unfold zlen; rewrite length_app; cbn [length]; lia].
    apply Forall_app. split; [|by apply Forall_singleton].
    pose proof (field_is_str _ (itoa_field a.(a_uid) ltac:(lia))). unfold line_of.
    apply Forall_app. split; [done|]. apply Forall_cons. split; [done|].
    apply Forall_app. split; [by apply field_is_str|]. apply Forall_cons. split; [done|by apply field_is_str].
  - lia.
  - unfold zeros, zlen. rewrite length_replicate, length_app. cbn [length]. lia.
Qed.

Definition str_char (c : Z) : bool := (0 <? c) && (c <? 256).
Lemma table_is_str h : Forall (fun c => In c hash_table) h -> is_str h.
Proof.
  intros H. eapply Forall_impl; [exact H|]. intros c Hc. cbn in Hc.
  assert (forallb str_char hash_table = true) as E by (vm_compute; reflexivity).
  rewrite forallb_forall in E. specialize (E c Hc). unfold str_char in E. zbool. unfold is_u8. lia.
Qed.

Lemma user_check_spec zp fuel accts lines name pw r1 r2 fd x s s1 :
  Forall account_ok accts -> Forall2 (fun a l => written a = Some l) accts lines ->
  is_str name -> is_str pw -> 1 <= zlen pw <= 32 ->
  open_file (lit "/etc/passwd") s = Some (fd, s1) -> is_u32 fd -> reading fd x 0 (concat lines) s1 ->
  zlen s1.(file_desc_tbl) = 64 -> (length accts < fuel)%nat ->
  exists h, hahash (cstr pw r2) (zeros 32) = Some (cstr h []) /\
    runs (user_check zp fuel (cstr name r1) (cstr pw r2)) s
      (fun uid s' => uid = find_account accts name h /\ closed fd s1 s').
Proof.
  intros Ha Hw Hn Hp Hl Ho Hfd Hr Hz Hf.
  destruct (hahash_spec pw r2 Hp Hl) as (h & _ & Hh & E). specialize (E (zeros 32) ltac:(reflexivity)).
  exists h. split; [exact E|]. unfold user_check. apply runs_bind. exists fd, s1. split; [exact Ho|].
  apply runs_bind. eapply runs_lift; [exact E|]. rewrite u32_id by exact Hfd.
  apply (runs_user_check_loop zp fd x name h r1 [] accts Ha Hn (table_is_str h Hh) fuel 0 no_fields s1); [|done..].
  replace (passwd accts) with (concat lines); [exact Hr|].
  clear -Ha Hw. induction Hw as [|a l accts lines Hw _ IH]; [done|]. apply Forall_cons in Ha as [Ha Has].
  rewrite account_line_text in Hw by done. injection Hw as <-. cbn [concat]. rewrite IH by done. done.
Qed.

(** C32. Logging in is decided by the accounts: when /etc/passwd is open and holds
    the lines [create_user_account] writes for the accounts, [user_check] returns
    the number of the first account that has the name and the hash of the
    password (1 to 32 characters), and -1 if there is none; no access leaves a
    buffer.  Afterwards the descriptor is closed, and nothing else has changed
    since the file was opened but the counters of the heap. *)
Theorem user_check_finds zp fuel accts lines name pw r1 r2 fd x s s1 :
  Forall account_ok accts -> Forall2 (fun a l => written a = Some l) accts lines ->
  is_str name -> is_str pw -> 1 <= zlen pw <= 32 ->
  open_file (lit "/etc/passwd") s = Some (fd, s1) -> is_u32 fd -> reading fd x 0 (concat lines) s1 ->
  zlen s1.(file_desc_tbl) = 64 -> (length accts < fuel)%nat ->
  exists h, hahash (cstr pw r2) (zeros 32) = Some (cstr h []) /\
    runs (user_check zp fuel (cstr name r1) (cstr pw r2)) s
      (fun uid s' => uid = find_account accts name h /\ closed fd s1 s').
Proof. apply user_check_spec. Qed.

(** The hash of a text of 1 to 32 characters is 31 characters and a
    terminator, each character from the table, whatever the buffer held before;
    no access leaves the buffer or the table. *)
Theorem hahash_in_table s rest :
  is_str s -> 1 <= zlen s <= 32 ->
  exists h, length h = 31%nat /\ Forall (fun c => In c hash_table) h /\
    forall result, length result = 32%nat -> hahash (cstr s rest) result = Some (h ++ [0]).
Proof. apply hahash_spec. Qed.

(** ** A file with two accounts *)

(** What the terminal does at its first start. *)
Definition first_start : fsm Z :=
  sys_mkfile (lit "/etc/passwd") ;; sys_mkdir (lit "/home") ;;
  last_uid ← useradd [0] 5 99 (lit "root") (lit "root");
  useradd [0] 5 last_uid (lit "halou") (lit "world").

Definition state_after {A} (m : fsm A) (s : fs) : fs := match m s with Some (_, s') => s' | None => s end.
Definition started : fs := state_after first_start demo.
Definition opened_passwd : fs := state_after (open_file (lit "/etc/passwd")) started.

Definition hash_of (s : String.string) : list Z :=
  match hahash (lit s) (zeros 32) with Some h => take 31 h | None => [] end.
Definition two_accounts : list account :=
  [mk_account 0 (text "root") (hash_of "root"); mk_account 100 (text "halou") (hash_of "world")].
Definition passwd_inode : inode :=
  match opened_passwd.(file_desc_tbl).[0] with Some (Some f) => f.(f_inode) | _ => zero_inode end.

Definition field_char (c : Z) : bool := (0 <? c) && (c <? 256) && negb (c =? 58) && negb (c =? 10).
Lemma field_dec w : forallb field_char w = true -> field_ok w.
Proof.
  intros H. apply Forall_forall. intros c Hc%list_elem_of_In. rewrite forallb_forall in H. specialize (H c Hc).
  unfold field_char in H. zbool. unfold is_u8. lia.
Qed.

Lemma full_dec d : bool_decide (map_Forall (fun _ b => length b = 512%nat) d) = true -> full d.
Proof.
  intros H%bool_decide_eq_true a. unfold sector. destruct (d !! a) as [b|] eqn:E; [exact (H a b E)|done].
Qed.

Lemma two_accounts_ok : Forall account_ok two_accounts.
Proof.
  apply Forall_cons_2; [|apply Forall_cons_2; [|apply Forall_nil_2]].
  all: constructor; [by split|apply field_dec; vm_compute; reflexivity..|].
  all: apply Nat.leb_le; vm_compute; reflexivity.
Qed.

Lemma opened_reading : reading 0 passwd_inode 0 (concat (map (fun a => line_of a ++ [10]) two_accounts)) opened_passwd.
Proof.
  constructor; [vm_compute; reflexivity..| | | | |]; try (vm_compute; reflexivity).
  - apply full_dec. vm_compute. reflexivity.
  - done.
  - split; vm_compute; discriminate.
Qed.

(** The second account is recognised, and a wrong password is not. *)
Lemma user_check_finds_witness :
  runs (user_check [0] 3 (lit "halou") (lit "world")) started (fun uid _ => uid = 100).
Proof.
  destruct (user_check_finds [0] 3 two_accounts (map (fun a => line_of a ++ [10]) two_accounts)
              (text "halou") (text "world") [] [] 0 passwd_inode started opened_passwd) as (h & Eh & R).
  - exact two_accounts_ok.
  - apply Forall2_cons_2; [vm_compute; reflexivity|]. apply Forall2_cons_2; [vm_compute; reflexivity|]. apply Forall2_nil_2.
  - apply table_is_str. vm_compute. repeat (apply Forall_cons_2; [tauto|]). apply Forall_nil_2.
  - apply table_is_str. vm_compute. repeat (apply Forall_cons_2; [tauto|]). apply Forall_nil_2.
  - split; vm_compute; discriminate.
  - vm_compute. reflexivity.
  - by split.
  - exact opened_reading.
  - vm_compute. reflexivity.
  - apply Nat.ltb_lt. reflexivity.
  - assert (h = hash_of "world") as ->.
    { assert (Some (cstr (hash_of "world") []) = Some (cstr h [])) as E by (rewrite <- Eh; vm_compute; reflexivity).
      apply (f_equal (from_option id [])) in E. cbn [from_option id] in E. unfold cstr in E.
      symmetry. exact (app_inv_tail _ _ _ E). }
    eapply runs_weaken; [exact R|]. intros uid s' [-> _]. vm_compute. reflexivity.
Defined.

Lemma hahash_in_table_witness : exists h, length h = 31%nat /\ hahash (lit "root") (zeros 32) = Some (h ++ [0]).
Proof.
  destruct (hahash_in_table (text "root") []) as (h & Hl & _ & E).
  - apply table_is_str. vm_compute. repeat (apply Forall_cons_2; [tauto|]). apply Forall_nil_2.
  - split; vm_compute; discriminate.
  - exists h. split; [exact Hl|]. exact (E (zeros 32) eq_refl).
Defined.
