(* ===== verification/Terminal.v ===== *)
(** * The terminal (terminal/terminal.cc, terminal/builtin_cmd.cc, terminal/main.cc)

    A terminal logs a user in and then runs commands, one character at a time.
    A command on files is a request the file system answers, and so the
    computation of the file system; requests to other processes, whose answers are
    not used, are kept in [outbox].  The cursor and the clearing of the screen are
    not modelled. *)
From Stdlib Require Import String.
From S2P Require Import Prelude CString RingBuffer FsState Inode Dir File Process Users.
From S2P Require KernelMain Syscalls Net.
#[local] Open Scope string_scope.
#[global] Open Scope list_scope.
#[global] Open Scope Z_scope.

(** An entry of [argv]: a null pointer, a position of [line], or anything else. *)
Inductive ptr := Null | At (i : Z) | Wild.

Record user := mk_user { u_uid : Z; u_username : list Z }.

Record terminal := mk_terminal {
  cur_user : user;
  cur_dir : list Z;                     (* 64 *)
  old_dir : list Z;                     (* 64 *)
  line : list Z;                        (* 128 *)
  line_idx : Z;
  keyboard_buf : ring_buffer;
  argv : list ptr;                      (* 9 *)
  argc : Z;
  fsys : fs;
  last_uid : Z;                         (* the last number allocate_uid gave *)
  outbox : list (Z * Z * list Z);       (* process, type and words of a request *)
}.

Definition set_cur_user (x : user) (t : terminal) : terminal :=
  mk_terminal x t.(cur_dir) t.(old_dir) t.(line) t.(line_idx) t.(keyboard_buf) t.(argv) t.(argc) t.(fsys) t.(last_uid) t.(outbox).
Definition set_dirs (cur old : list Z) (t : terminal) : terminal :=
  mk_terminal t.(cur_user) cur old t.(line) t.(line_idx) t.(keyboard_buf) t.(argv) t.(argc) t.(fsys) t.(last_uid) t.(outbox).
Definition set_line (l : list Z) (i : Z) (t : terminal) : terminal :=
  mk_terminal t.(cur_user) t.(cur_dir) t.(old_dir) l i t.(keyboard_buf) t.(argv) t.(argc) t.(fsys) t.(last_uid) t.(outbox).
Definition set_keyboard (rb : ring_buffer) (t : terminal) : terminal :=
  mk_terminal t.(cur_user) t.(cur_dir) t.(old_dir) t.(line) t.(line_idx) rb t.(argv) t.(argc) t.(fsys) t.(last_uid) t.(outbox).
Definition set_args (a : list ptr) (n : Z) (t : terminal) : terminal :=
  mk_terminal t.(cur_user) t.(cur_dir) t.(old_dir) t.(line) t.(line_idx) t.(keyboard_buf) a n t.(fsys) t.(last_uid) t.(outbox).
Definition set_fsys (f : fs) (t : terminal) : terminal :=
  mk_terminal t.(cur_user) t.(cur_dir) t.(old_dir) t.(line) t.(line_idx) t.(keyboard_buf) t.(argv) t.(argc) f t.(last_uid) t.(outbox).
Definition set_last_uid (n : Z) (t : terminal) : terminal :=
  mk_terminal t.(cur_user) t.(cur_dir) t.(old_dir) t.(line) t.(line_idx) t.(keyboard_buf) t.(argv) t.(argc) t.(fsys) n t.(outbox).
Definition post (dest type : Z) (words : list Z) (t : terminal) : terminal :=
  mk_terminal t.(cur_user) t.(cur_dir) t.(old_dir) t.(line) t.(line_idx) t.(keyboard_buf) t.(argv) t.(argc) t.(fsys) t.(last_uid)
    (t.(outbox) ++ [(dest, type, words)]).

(** ** Computations of the terminal *)

Definition tm (A : Type) : Type := terminal -> option (A * terminal).

#[export] Instance tm_ret : MRet tm := fun A a t => Some (a, t).
#[export] Instance tm_bind : MBind tm := fun A B k m t =>
  match m t with Some (a, t') => k a t' | None => None end.

Definition get {A} (f : terminal -> A) : tm A := fun t => Some (f t, t).
Definition update (f : terminal -> terminal) : tm unit := fun t => Some (tt, f t).
Definition need {A} (o : option A) : tm A := fun t =>
  match o with Some a => Some (a, t) | None => None end.

(** A request to the file system. *)
Definition on_fs {A} (m : fsm A) : tm A := fun t =>
  match m t.(fsys) with Some (a, f) => Some (a, set_fsys f t) | None => None end.

(** A request to another process. *)
Definition ask (dest type : Z) (words : list Z) : tm unit := update (post dest type words).

Definition putchar (c : Z) : tm unit := on_fs (modify (fun s => set_console (s.(console) ++ [u8 c]) s)).

(** ** Input lines *)

(** The loop that turns spaces into terminators. *)
Fixpoint cut_spaces (fuel : nat) (i : Z) (l : list Z) : option (list Z) :=
  match fuel with
  | O => None
  | S fuel' =>
      c ← l.[i];
      if 0 =? c then Some l
      else if 32 =? c then l ← l.[i <- 0]; cut_spaces fuel' (i + 1) l
      else cut_spaces fuel' (i + 1) l
  end.

(** [while (0 == line[i++]) is_head = true; i--;] *)
Fixpoint skip_zeros (fuel : nat) (i : Z) (l : list Z) (is_head : bool) : option (Z * bool) :=
  match fuel with
  | O => None
  | S fuel' =>
      c ← l.[i];
      if 0 =? c then skip_zeros fuel' (i + 1) l true else Some (i, is_head)
  end.

Fixpoint find_words (fuel : nat) (i len : Z) (l : list Z) (is_head : bool) (args : list ptr) (n : Z)
  : option (list ptr * Z) :=
  match fuel with
  | O => None
  | S fuel' =>
      if i <? len then
        '(i, is_head) ← skip_zeros (S (length l)) i l is_head;
        if (is_head : bool) then
          args ← args.[n <- At i];
          find_words fuel' (i + 1) len l false args (u8 (n + 1))
        else find_words fuel' (i + 1) len l false args n
      else Some (args, n)
  end.

(** The line, the arguments and their number less one. *)
Definition split_line (l : list Z) (len : Z) (args : list ptr) (n : Z) : option (list Z * list ptr * Z) :=
  l ← cut_spaces (S (length l)) 0 l;
  '(args, n) ← find_words (S (length l)) 0 len l true args n;
  Some (l, args, u8 (n - 1)).

Definition format_input : tm unit :=
  l ← get line;
  len ← get line_idx;
  args ← get argv;
  n ← get argc;
  '(l, args, n) ← need (split_line l len args n);
  update (set_line l len) ;;
  update (set_args args n).

(** [memset((char* )argv, 0, 9)]: two pointers and a byte of the third. *)
Definition clear_args (args : list ptr) : list ptr :=
  match args with
  | _ :: _ :: p :: args' => Null :: Null :: (match p with Null => Null | _ => Wild end) :: args'
  | _ => args
  end.

(** ** Paths *)

(** The test for a null pointer comes after the pointer has been used. *)
Definition path_relative2abs (cur_dir relative_path abs_path : list Z) : option (list Z) :=
  c ← relative_path.[0];
  if 0 =? c then strcpy abs_path 0 cur_dir
  else if 47 =? c then strcpy abs_path 0 relative_path
  else
    abs_path ← strcpy abs_path 0 cur_dir;
    l ← strlen cur_dir;
    is_root ← strcmp cur_dir (lit "/");
    if (is_root : bool) then strcpy abs_path l relative_path
    else
      abs_path ← abs_path.[l <- 47];
      strcpy abs_path (l + 1) relative_path.

(** The first loop: slashes become terminators. *)
Fixpoint cut_slashes (n : nat) (i : Z) (path : list Z) : option (list Z) :=
  match n with
  | O => Some path
  | S n' =>
      c ← path.[i];
      if 47 =? c then path ← path.[i <- 0]; cut_slashes n' (i + 1) path
      else cut_slashes n' (i + 1) path
  end.

(** The second loop, [i] from [n - 1] down: entries that fall away are marked
    with 1. *)
Fixpoint mark_entries (n : nat) (path : list Z) (cnt : Z) : option (list Z) :=
  match n with
  | O => Some path
  | S i =>
      let i' := Z.of_nat i in
      c ← path.[i'];
      if negb (0 =? c) then mark_entries i path cnt
      else
        up ← strcmp (drop (Z.to_nat (i' + 1)) path) (lit "..");
        if (up : bool) then path ← path.[i' + 1 <- 1]; mark_entries i path (cnt + 1)
        else if negb (0 =? cnt) then path ← path.[i' + 1 <- 1]; mark_entries i path (cnt - 1)
        else mark_entries i path cnt
  end.

(** The third loop: the entries that stay are copied to the end of the string in
    [buf]. *)
Fixpoint copy_entries (fuel : nat) (i l : Z) (path buf : list Z) : option (list Z) :=
  match fuel with
  | O => None
  | S fuel' =>
      if i <? l then
        buf ← buf.[i <- 47];
        let i := i + 1 in
        c ← path.[i];
        buf ← (if negb (1 =? c) then len ← strlen buf; strcpy buf len (drop (Z.to_nat i) path) else Some buf);
        k ← strlen (drop (Z.to_nat i) path);
        copy_entries fuel' (i + k) l path buf
      else Some buf
  end.

Definition path_double_dot (path : list Z) : option (list Z) :=
  l ← strlen path;
  path ← cut_slashes (Z.to_nat l) 0 path;
  path ← mark_entries (Z.to_nat l) path 0;
  buf ← copy_entries (S (Z.to_nat l)) 0 l path (zeros 128);
  path ← strcpy path 0 buf;
  len ← strlen buf;
  path.[len <- 0].

(** [i] counts down to 1. *)
Fixpoint skip_slashes (n : nat) (path : list Z) : option (list Z) :=
  match n with
  | O => Some path
  | S n' =>
      c ← path.[Z.of_nat n];
      if 47 =? c then path ← path.[Z.of_nat n <- 0]; skip_slashes n' path else Some path
  end.

Definition skip_last_slash (path : list Z) : option (list Z) :=
  l ← strlen path; skip_slashes (Z.to_nat (l - 1)) path.

Definition format_path (cur_dir path new_path : list Z) : option (list Z) :=
  new_path ← path_relative2abs cur_dir path new_path;
  new_path ← path_double_dot new_path;
  skip_last_slash new_path.

(** ** Commands *)

Section commands.
(** What a null pointer points to; a bound on the lines of a file; the address of
    [test_net_proc]. *)
Variables (zero_page : list Z) (fuel : nat) (test_net_proc_addr : Z).

Definition init_screen : tm unit := mret tt.

Definition print_shell : tm unit :=
  x ← get cur_user;
  d ← get cur_dir;
  on_fs (printf "%s@localhost:%s$" [AStr x.(u_username); AStr d]).

(** The string an argument points to. *)
Definition arg_string (i : Z) : tm (list Z) :=
  args ← get argv;
  l ← get line;
  p ← need (args.[i]);
  match p with
  | Null => mret zero_page
  | At k => mret (drop (Z.to_nat k) l)
  | Wild => need None
  end.

(** [format_path(argv[i], abs_path)]. *)
Definition arg_path (i : Z) : tm (list Z) :=
  p ← arg_string i;
  d ← get cur_dir;
  need (format_path d p (zeros 64)).

Definition tell_fs : tm unit :=
  x ← get cur_user;
  on_fs (modify (set_cur_uid (u32 x.(u_uid)))).

Definition change_home_dir : tm unit :=
  x ← get cur_user;
  is_root ← need (strcmp x.(u_username) (lit "root"));
  d ← get cur_dir;
  d ← need (if (is_root : bool) then d.[0 <- 47]
            else d ← strcpy d 0 (lit "/home/"); strcpy d 6 x.(u_username));
  on_fs (cd d) ;;
  old ← get old_dir;
  old ← need (strcpy old 0 d);
  update (set_dirs d old).

(** [cd] is tested for success before the directories are exchanged. *)
Definition change_dir (abs_path : list Z) : tm unit :=
  ok ← on_fs (cd abs_path);
  if (ok : bool) then
    d ← get cur_dir;
    old ← need (strcpy (zeros 64) 0 d);
    d ← need (strcpy (zeros 64) 0 abs_path);
    update (set_dirs d old)
  else mret tt.

Definition reset_terminal : tm unit :=
  args ← get argv;
  update (set_line (zeros 128) 0) ;;
  update (set_args (clear_args args) 0) ;;
  print_shell.

(** [exit], up to the call of [start]. *)
Definition leave : tm unit :=
  update (set_dirs (zeros 64) (zeros 64)) ;;
  update (set_cur_user (mk_user 0 (zeros 32))) ;;
  tell_fs ;;
  reset_terminal.

Definition ping (dst_ip_str : list Z) : tm unit :=
  '(ip, _) ← need (ipstring2ipuint dst_ip_str);
  ask KernelMain.NET Net.PING [ip].

Definition confignet (ip_addrstr gatewayip_str : list Z) : tm unit :=
  '(ip, _) ← need (ipstring2ipuint ip_addrstr);
  '(gw, _) ← need (ipstring2ipuint gatewayip_str);
  ask KernelMain.NET Net.CONF_NET [ip; gw].

(** The commands, in the order in which they are compared; the result says
    whether the user has left. *)
Definition command (a0 : list Z) : tm bool :=
  let cmd (name : String.string) : tm bool := need (strcmp a0 (lit name)) in
  let fin (m : tm unit) : tm bool := m ;; mret false in
  b ← cmd "ps"; if (b : bool) then fin (ask KernelMain.KR KernelMain.CMD_PS []) else
  b ← cmd "pwd"; if (b : bool) then fin (on_fs pwd) else
  b ← cmd "cd"; if (b : bool) then fin (
    a1 ← arg_string 1;
    back ← need (strcmp (lit "-") a1);
    if (back : bool) then old ← get old_dir; p ← need (strcpy (zeros 64) 0 old); change_dir p
    else p ← arg_path 1; change_dir p) else
  b ← cmd "ls"; if (b : bool) then fin (p ← arg_path 1; on_fs (ls (Some p))) else
  b ← cmd "mkdir"; if (b : bool) then fin (p ← arg_path 1; on_fs (sys_mkdir p)) else
  b ← cmd "rmdir"; if (b : bool) then fin (p ← arg_path 1; on_fs (sys_rmdir p)) else
  b ← cmd "meminfo"; if (b : bool) then fin (ask KernelMain.MM SmallBlocks.CMD_MEMINFO []) else
  b ← cmd "cat"; if (b : bool) then fin (p ← arg_path 1; on_fs (sys_cat p)) else
  b ← cmd "useradd"; if (b : bool) then fin (
    name ← arg_string 1; password ← arg_string 2;
    last ← get last_uid;
    last ← on_fs (useradd zero_page fuel last name password);
    update (set_last_uid last)) else
  b ← cmd "userdel"; if (b : bool) then fin (
    name ← arg_string 1;
    x ← get cur_user;
    self ← need (strcmp name x.(u_username));
    if (self : bool) then on_fs (printf_ln "Couldn't delete the current user." [])
    else on_fs (userdel zero_page fuel name)) else
  b ← cmd "cpfile"; if (b : bool) then fin (p ← arg_path 1; q ← arg_path 2; on_fs (copy_file p q)) else
  b ← cmd "mvfile"; if (b : bool) then fin (p ← arg_path 1; q ← arg_path 2; on_fs (move_file p q)) else
  b ← cmd "last"; if (b : bool) then fin (on_fs (last fuel)) else
  b ← cmd "exit"; if (b : bool) then leave ;; mret true else
  b ← cmd "halt"; if (b : bool) then fin (ask KernelMain.KR KernelMain.CMD_HALT []) else
  b ← cmd "poweroff"; if (b : bool) then fin (ask KernelMain.KR KernelMain.CMD_POWEROFF []) else
  b ← cmd "reboot"; if (b : bool) then fin (ask KernelMain.KR KernelMain.CMD_REBOOT []) else
  b ← cmd "id"; if (b : bool) then fin (
    x ← get cur_user; on_fs (printf_ln "user %s, uid %d" [AStr x.(u_username); AInt x.(u_uid)])) else
  b ← cmd "chmod"; if (b : bool) then fin (p ← arg_path 2; m ← arg_string 1; on_fs (chmod m p)) else
  b ← cmd "chown"; if (b : bool) then fin (
    p ← arg_path 1; o ← arg_string 2; on_fs (chown zero_page fuel p o)) else
  b ← cmd "clear"; if (b : bool) then fin init_screen else
  b ← cmd "ping"; if (b : bool) then fin (a ← arg_string 1; ping a) else
  b ← cmd "showarptbl"; if (b : bool) then fin (ask KernelMain.NET Net.SHOW_ARPTBL []) else
  b ← cmd "ifconfig"; if (b : bool) then fin (ask KernelMain.NET Net.SHOW_IFACES []) else
  b ← cmd "network"; if (b : bool) then fin (a ← arg_string 1; g ← arg_string 2; confignet a g) else
  fin (on_fs (printf_ln "Unrecognized command." [])).

Definition handle_input : tm bool :=
  format_input ;;
  a0 ← arg_string 0;
  command a0.

(** ** Keystrokes *)

(** One character of [run]; whether the user has left. *)
Definition run_char (ch : Z) : tm bool :=
  idx ← get line_idx;
  l ← get line;
  if (0 =? idx) && (8 =? ch) then mret false
  else if 8 =? ch then
    l ← need (l.[u8 (idx - 1) <- 0]);
    update (set_line l (u8 (idx - 1))) ;;
    putchar 8 ;;
    mret false
  else
    putchar ch ;;
    if negb (13 =? ch) then
      l ← need (l.[idx <- ch]);
      update (set_line l (u8 (idx + 1))) ;;
      mret false
    else
      left_ ← handle_input;
      if (left_ : bool) then mret true else reset_terminal ;; mret false.

(** The variables of [login]. *)
Record login_state := mk_login { is_passwd : bool; username : list Z; password : list Z; idx : Z }.

Definition login_str (x : login_state) : list Z := if x.(is_passwd) then x.(password) else x.(username).
Definition set_login_str (x : login_state) (s : list Z) (i : Z) : login_state :=
  if x.(is_passwd) then mk_login true x.(username) s i else mk_login false s x.(password) i.

(** The prologue of [login]. *)
Definition login_start : tm login_state :=
  on_fs (printf_ln "user: " []) ;;
  on_fs (printf_ln "password: " []) ;;
  update (set_cur_user (mk_user (-1) (zeros 32))) ;;
  mret (mk_login false (zeros 32) (zeros 32) 0).

(** One character of [login]: it goes on, or a number is returned. *)
Definition login_char (x : login_state) (ch : Z) : tm (login_state + Z) :=
  if (0 =? x.(idx)) && (8 =? ch) then mret (inl x)
  else if 8 =? ch then
    s ← need ((login_str x).[u8 (x.(idx) - 1) <- 0]);
    putchar 8 ;;
    mret (inl (set_login_str x s (u8 (x.(idx) - 1))))
  else if (13 =? ch) && negb x.(is_passwd) then
    mret (inl (mk_login true x.(username) x.(password) 0))
  else if 13 =? ch then
    uid ← on_fs (user_check zero_page fuel x.(username) x.(password));
    c ← get cur_user;
    update (set_cur_user (mk_user uid c.(u_username))) ;;
    mret (inr uid)
  else
    (if x.(is_passwd) then putchar 42
     else
       putchar ch ;;
       c ← get cur_user;
       name ← need (c.(u_username).[x.(idx) <- ch]);
       update (set_cur_user (mk_user c.(u_uid) name))) ;;
    s ← need ((login_str x).[x.(idx) <- ch]);
    mret (inl (set_login_str x s (u8 (x.(idx) + 1)))).

(** What [start] does once somebody has logged in, up to [run]. *)
Definition begin_session : tm unit :=
  change_home_dir ;;
  x ← get cur_user;
  on_fs (record_to_log x.(u_username)) ;;
  tell_fs ;;
  init_screen ;;
  print_shell.

Inductive mode := LoggingIn (x : login_state) | Running.

(** A character changes the mode: [user_login] starts again after a failure,
    [start] goes on to [run] after a success, and [exit] logs out. *)
Definition terminal_char (m : mode) (ch : Z) : tm mode :=
  match m with
  | LoggingIn x =>
      r ← login_char x ch;
      match r with
      | inl x => mret (LoggingIn x)
      | inr uid =>
          if -1 =? uid then x ← login_start; mret (LoggingIn x)
          else begin_session ;; mret Running
      end
  | Running =>
      left_ ← run_char ch;
      if (left_ : bool) then x ← login_start; mret (LoggingIn x) else mret Running
  end.

(** One turn of the loops of [login] and [run]: nothing to do, or a character. *)
Definition terminal_turn (m : mode) : tm mode :=
  rb ← get keyboard_buf;
  if ringbuffer_is_empty rb then mret m
  else
    '(ch, rb) ← need (ringbuffer_get rb);
    update (set_keyboard rb) ;;
    terminal_char m ch.

Fixpoint terminal_turns (n : nat) (m : mode) : tm mode :=
  match n with O => mret m | S n' => m ← terminal_turn m; terminal_turns n' m end.

(** ** Start *)

(** The object as the constructor leaves it; [argv] is not initialised but for
    its first nine bytes. *)
Definition new_terminal (rb : ring_buffer) (f : fs) (last : Z) (out : list (Z * Z * list Z)) : option terminal :=
  d ← strcpy (zeros 64) 0 f.(FsState.cur_dir);
  old ← strcpy (zeros 64) 0 d;
  Some (mk_terminal (mk_user (-1) (zeros 32)) d old (zeros 128) 0 rb (clear_args (replicate 9 Wild)) 0 f last out).

(** [main], up to the first turn; the static number of accounts starts at 99. *)
Definition main_files : fsm Z :=
  sys_mkdir (lit "/etc") ;;
  sys_mkfile (lit "/etc/passwd") ;;
  sys_mkdir (lit "/var") ;;
  sys_mkfile (lit "/var/login.log") ;;
  sys_mkdir (lit "/home") ;;
  last ← useradd zero_page fuel 99 (lit "root") (lit "root");
  useradd zero_page fuel last (lit "halou") (lit "world").

Definition main (rb : ring_buffer) (f : fs) : option (mode * terminal) :=
  '(last, f) ← main_files f;
  t ← new_terminal rb f last [(KernelMain.KR, KernelMain.CREATE_PROC, [test_net_proc_addr])];
  match login_start t with Some (x, t) => Some (LoggingIn x, t) | None => None end.
End commands.

(** The process that serves a page: [data] and [str] are the addresses of its
    buffers, [len] the length of the answer; it then loops for ever. *)
Definition test_net_proc {St} `{Syscalls.Ipc St} (u : context) (data str len : Z) (s : St) : option St :=
  s ← Syscalls.listen u 80 s;
  '(_, s) ← Syscalls.accept u 80 s;
  '(_, s) ← Syscalls.recv u 80 data 80 s;
  s ← Syscalls.send_socket u 80 str len s;
  Syscalls.close_socket u 80 s.
