(* ===== verification/TermSpec.v ===== *)
(** * What the terminal makes of a line and of a path

    The words of a line become the arguments of the command; a path without
    parent directories becomes the absolute path of the same names. *)
From Stdlib Require Import String.
From S2P Require Import Prelude CString FsState DirSpec Users Accounts Terminal.
#[local] Open Scope string_scope.
#[global] Open Scope list_scope.
#[global] Open Scope Z_scope.

(** ** Words *)

(** A word, with the number of spaces in front of it. *)
Abbreviation gap_word := (nat * list Z)%type.

Definition word_ok (w : list Z) : Prop := w <> [] /\ Forall (fun c => c <> 0 /\ c <> 32) w.

(** The words are separated; the first one may follow at once when [first]. *)
Fixpoint words_ok (first : bool) (ws : list gap_word) : Prop :=
  match ws with
  | [] => True
  | (k, w) :: ws' => (first = true \/ (0 < k)%nat) /\ word_ok w /\ words_ok false ws'
  end.

Definition spaced (c : Z) (ws : list gap_word) : list Z := concat (map (fun '(k, w) => replicate k c ++ w) ws).

Fixpoint starts (i : Z) (ws : list gap_word) : list Z :=
  match ws with
  | [] => []
  | (k, w) :: ws' => (i + Z.of_nat k) :: starts (i + Z.of_nat k + zlen w) ws'
  end.

Lemma starts_length i ws : length (starts i ws) = length ws.
Proof. revert i. induction ws as [|[k w] ws IH]; intros i; cbn; [done|]. by rewrite IH. Qed.

Definition blank (c : Z) : Z := if 32 =? c then 0 else c.

Lemma cut_spaces_spec t m p fuel :
  Forall (fun c => c <> 0) t -> (length t < fuel)%nat ->
  cut_spaces fuel (zlen p) (p ++ t ++ zeros (S m)) = Some (p ++ map blank t ++ zeros (S m)).
Proof.
  revert p fuel. induction t as [|c t IH]; intros p fuel Ht Hf; (destruct fuel as [|fuel]; [cbn in Hf; lia|]); cbn [cut_spaces app map].
  - change (zeros (S m)) with (0 :: zeros m). rewrite zget_mid. done.
  - apply Forall_cons in Ht as [Hc Ht]. rewrite zget_mid. sbind. rewrite (proj2 (Z.eqb_neq 0 c)) by congruence.
    unfold blank at 1. destruct (Z.eqb_spec 32 c) as [<-|Hs].
    + rewrite zset_mid. sbind. specialize (IH (p ++ [0]) fuel Ht ltac:(cbn in Hf; lia)).
      rewrite zlen_app, <- !(assoc_L (++)) in IH. exact IH.
    + specialize (IH (p ++ [c]) fuel Ht ltac:(cbn in Hf; lia)).
      rewrite zlen_app, <- !(assoc_L (++)) in IH. exact IH.
Qed.

Lemma blank_word w : Forall (fun c => c <> 0 /\ c <> 32) w -> map blank w = w.
Proof.
  induction 1 as [|c w [_ Hc] _ IH]; [done|]. cbn [map]. rewrite IH. unfold blank.
  rewrite (proj2 (Z.eqb_neq 32 c)) by congruence. done.
Qed.

Lemma blank_spaces k : map blank (replicate k 32) = replicate k 0.
Proof. induction k as [|k IH]; cbn; [done|]. by rewrite IH. Qed.

Lemma blank_spaced first ws : words_ok first ws -> map blank (spaced 32 ws) = spaced 0 ws.
Proof.
  revert first. induction ws as [|[k w] ws IH]; intros first H; [done|]. destruct H as (_ & [_ Hw] & H).
  unfold spaced in *. cbn [map concat]. rewrite !map_app, blank_spaces, (blank_word w Hw), (IH false H). done.
Qed.

Lemma spaced_nonzero first ws : words_ok first ws -> Forall (fun c => c <> 0) (spaced 32 ws).
Proof.
  revert first. induction ws as [|[k w] ws IH]; intros first H; [constructor|]. destruct H as (_ & [_ Hw] & H).
  unfold spaced in *. cbn [map concat]. rewrite !Forall_app. split_and!.
  - by apply Forall_replicate.
  - eapply Forall_impl; [exact Hw|]. cbn. tauto.
  - by eapply IH.
Qed.

Lemma skip_zeros_spec k p c r b fuel :
  c <> 0 -> (k < fuel)%nat ->
  skip_zeros fuel (zlen p) (p ++ replicate k 0 ++ c :: r) b = Some (zlen p + Z.of_nat k, b || (0 <? Z.of_nat k)).
Proof.
  intros Hc. revert p b fuel. induction k as [|k IH]; intros p b fuel Hf; (destruct fuel as [|fuel]; [lia|]);
    cbn [replicate app skip_zeros]; rewrite zget_mid; sbind.
  - rewrite (proj2 (Z.eqb_neq 0 c)) by congruence. rewrite Z.add_0_r, orb_false_r. done.
  - change (0 =? 0) with true. cbv iota. specialize (IH (p ++ [0]) true fuel ltac:(lia)).
    rewrite zlen_app, <- !(assoc_L (++)) in IH. change (zlen [0]) with 1 in IH. cbn [app] in IH. rewrite IH.
    cbn [orb]. rewrite (proj2 (Z.ltb_lt 0 (Z.of_nat (S k)))) by lia. rewrite orb_true_r.
    replace (zlen p + 1 + Z.of_nat k) with (zlen p + Z.of_nat (S k)) by lia. done.
Qed.

(** The rest of a word is passed over. *)
Lemma find_words_rest w p r len args n fuel :
  Forall (fun c => c <> 0 /\ c <> 32) w -> zlen p + zlen w <= len ->
  find_words (length w + fuel) (zlen p) len (p ++ w ++ r) false args n =
  find_words fuel (zlen p + zlen w) len (p ++ w ++ r) false args n.
Proof.
  intros Hw. revert p. induction Hw as [|c w [Hc _] Hw IH]; intros p Hl.
  - cbn [length app Nat.add]. change (zlen []) with 0. by rewrite Z.add_0_r.
  - rewrite zlen_cons in Hl. pose proof (zlen_nonneg w). cbn [length Nat.add find_words].
    rewrite (proj2 (Z.ltb_lt _ _)) by lia.
    pose proof (skip_zeros_spec 0 p c (w ++ r) false (S (length (p ++ (c :: w) ++ r))) Hc ltac:(lia)) as E.
    cbn [replicate app] in E |- *. rewrite E. sbind. cbn [orb]. change (0 <? Z.of_nat 0) with false. cbv iota.
    rewrite Z.add_0_r. specialize (IH (p ++ [c])). rewrite zlen_app, <- !(assoc_L (++)) in IH.
    change (zlen [c]) with 1 in IH. cbn [app] in IH. rewrite IH by lia. rewrite zlen_cons. f_equal. lia.
Qed.

Definition letters (ws : list gap_word) : nat := sum_list (map (fun '(_, w) => length w) ws).

Lemma find_words_spec ws r : forall first p before args fuel,
  words_ok first ws -> (letters ws < fuel)%nat -> (length before + length ws <= 255)%nat ->
  (length ws <= length args)%nat ->
  find_words fuel (zlen p) (zlen p + zlen (spaced 0 ws)) (p ++ spaced 0 ws ++ r) first (before ++ args) (zlen before) =
    Some (before ++ map At (starts (zlen p) ws) ++ drop (length ws) args, zlen before + zlen ws).
Proof.
  induction ws as [|[k w] ws IH]; intros first p before args fuel Hw Hf Hn Ha.
  - destruct fuel as [|fuel]; [cbn in Hf; lia|]. cbn [find_words].
    change (zlen (spaced 0 [])) with 0. rewrite Z.add_0_r, Z.ltb_irrefl. cbn [starts map app drop].
    change (zlen []) with 0. by rewrite Z.add_0_r.
  - destruct Hw as (Hk & [Hne Hw] & Hws). destruct w as [|c w]; [done|]. clear Hne.
    apply Forall_cons in Hw as [Hc Hw]. unfold letters in Hf. cbn in Hf. fold (letters ws) in Hf.
    destruct args as [|a args]; [cbn in Ha; lia|]. cbn [length] in Ha, Hn.
    destruct fuel as [|fuel]; [lia|].
    assert (spaced 0 ((k, c :: w) :: ws) = replicate k 0 ++ c :: w ++ spaced 0 ws) as Es
      by (unfold spaced; cbn [map concat]; by rewrite <- (assoc_L (++))).
    pose proof (zlen_nonneg (spaced 0 ws)). pose proof (zlen_nonneg w).
    assert (zlen (spaced 0 ((k, c :: w) :: ws)) = Z.of_nat k + (1 + zlen w) + zlen (spaced 0 ws)) as El.
    { rewrite Es, zlen_app, zlen_cons, zlen_app. unfold zlen at 1. rewrite length_replicate. lia. }
    rewrite El, Es, <- (assoc_L (++)). cbn [find_words app].
    rewrite (proj2 (Z.ltb_lt (zlen p) (zlen p + (Z.of_nat k + (1 + zlen w) + zlen (spaced 0 ws))))) by lia.
    rewrite <- (assoc_L (++)).
    rewrite (skip_zeros_spec k p c (w ++ spaced 0 ws ++ r) first) by (first [apply Hc|rewrite !length_app, length_replicate; lia]).
    sbind. assert (first || (0 <? Z.of_nat k) = true) as ->.
    { destruct Hk as [->|Hk]; [done|]. rewrite (proj2 (Z.ltb_lt 0 _)) by lia. apply orb_true_r. }
    rewrite zset_mid. sbind. rewrite u8_id by (unfold zlen; lia).
    set (p' := p ++ replicate k 0 ++ [c]).
    assert (zlen p' = zlen p + Z.of_nat k + 1) as Lp by
      (unfold p'; rewrite !zlen_app; unfold zlen at 2; rewrite length_replicate; change (zlen [c]) with 1; lia).
    replace (p ++ replicate k 0 ++ c :: w ++ spaced 0 ws ++ r) with (p' ++ w ++ spaced 0 ws ++ r)
      by (unfold p'; rewrite <- !(assoc_L (++)); done).
    assert (fuel = length w + (fuel - length w))%nat as -> by lia. rewrite <- Lp, find_words_rest by (done || lia).
    specialize (IH false (p' ++ w) (before ++ [At (zlen p + Z.of_nat k)]) args (fuel - length w)%nat Hws ltac:(lia)).
    rewrite !length_app, zlen_app in IH. cbn [length] in IH. specialize (IH ltac:(lia) ltac:(lia)).
    rewrite zlen_app, <- !(assoc_L (++)) in IH. change (zlen [_]) with 1 in IH. cbn [app] in IH.
    replace (zlen p + (Z.of_nat k + (1 + zlen w) + zlen (spaced 0 ws))) with (zlen p' + zlen w + zlen (spaced 0 ws)) by lia.
    rewrite IH. cbn [starts map drop app length].
    replace (zlen p + Z.of_nat k + zlen (c :: w)) with (zlen p' + zlen w) by (rewrite zlen_cons; lia).
    replace (zlen before + zlen ((k, c :: w) :: ws)) with (zlen before + 1 + zlen ws) by (rewrite zlen_cons; lia).
    done.
Qed.

(** Each start is the start of the word, which ends there. *)
Lemma starts_words ws m : forall first p,
  words_ok first ws ->
  Forall2 (fun i '(_, w) => exists rest, drop (Z.to_nat i) (p ++ spaced 0 ws ++ zeros (S m)) = cstr w rest)
    (starts (zlen p) ws) ws.
Proof.
  induction ws as [|[k w] ws IH]; intros first p H; [constructor|]. destruct H as (_ & _ & Hws).
  assert (spaced 0 ((k, w) :: ws) = replicate k 0 ++ w ++ spaced 0 ws) as ->
    by (unfold spaced; cbn [map concat]; by rewrite <- (assoc_L (++))).
  cbn [starts]. assert (zlen p + Z.of_nat k = zlen (p ++ replicate k 0)) as ->
    by (rewrite zlen_app; unfold zlen at 3; by rewrite length_replicate).
  constructor.
  - rewrite <- !(assoc_L (++)), (assoc_L (++) p), drop_zlen.
    destruct ws as [|[k' w'] ws]; [by exists (zeros m)|]. destruct Hws as ([?|Hk'] & _); [done|].
    destruct k' as [|k']; [lia|]. unfold spaced. cbn [map concat replicate]. rewrite <- !(assoc_L (++)).
    eexists. unfold cstr. cbn [app]. reflexivity.
  - specialize (IH false ((p ++ replicate k 0) ++ w) Hws). rewrite zlen_app in IH.
    eapply Forall2_impl; [exact IH|]. intros i [j v] [rest E]. exists rest. rewrite <- E. f_equal.
    by rewrite <- !(assoc_L (++)).
Qed.

Lemma split_line_spec ws m args :
  words_ok true ws -> (length ws <= length args)%nat -> (length ws <= 255)%nat ->
  let text := spaced 32 ws in
  exists l' ps, split_line (text ++ zeros (S m)) (zlen text) args 0 =
      Some (l', map At ps ++ drop (length ws) args, u8 (zlen ws - 1)) /\
    Forall2 (fun p '(_, w) => exists rest, drop (Z.to_nat p) l' = cstr w rest) ps ws.
Proof.
  intros Hw Ha Hn text. exists (spaced 0 ws ++ zeros (S m)), (starts 0 ws). split.
  - unfold split_line.
    pose proof (cut_spaces_spec text m [] (S (length (text ++ zeros (S m)))) (spaced_nonzero _ _ Hw)) as E.
    cbn [app] in E. change (zlen []) with 0 in E. rewrite E by (rewrite length_app; lia). sbind. unfold text.
    rewrite (blank_spaced _ _ Hw).
    assert (length (spaced 32 ws) = length (spaced 0 ws)) as El by (rewrite <- (blank_spaced _ _ Hw), length_map; done).
    assert (letters ws <= length (spaced 0 ws))%nat as Hl.
    { clear. unfold spaced, letters. induction ws as [|[k w] ws IH]; cbn [map concat sum_list foldr]; [done|].
      rewrite !length_app. cbn in IH |- *. lia. }
    pose proof (find_words_spec ws (zeros (S m)) true [] [] args (S (length (spaced 0 ws ++ zeros (S m)))) Hw) as F.
    cbn [app length] in F. change (zlen []) with 0 in F. rewrite Z.add_0_l in F.
    unfold zlen at 1. rewrite El. fold (zlen (spaced 0 ws)).
    rewrite F by (rewrite ?length_app; lia). sbind. done.
  - apply (starts_words ws m true []). exact Hw.
Qed.

(** C33. The words of a line, separated by spaces, become the arguments: when the
    line ends with a word, has at least one free place and not more words than [argv] has places,
    each argument points to its word, which is terminated there, the number of
    arguments is the number of words less one, and no access leaves the line. *)
Theorem format_input_splits ws m t :
  words_ok true ws -> (length ws <= length t.(argv))%nat -> (length ws <= 255)%nat ->
  t.(line) = spaced 32 ws ++ zeros (S m) -> t.(line_idx) = zlen (spaced 32 ws) -> t.(argc) = 0 ->
  exists l' ps, format_input t = Some (tt, set_args (map At ps ++ drop (length ws) t.(argv)) (u8 (zlen ws - 1))
                                             (set_line l' t.(line_idx) t)) /\
    Forall2 (fun p '(_, w) => exists rest, drop (Z.to_nat p) l' = cstr w rest) ps ws.
Proof.
  intros Hw Ha Hn Hl Hi Hc. destruct (split_line_spec ws m t.(argv) Hw Ha Hn) as (l' & ps & E & F).
  exists l', ps. split; [|exact F]. rewrite <- Hl, <- Hi, <- Hc in E.
  unfold format_input, mbind, tm_bind, get, need, update. by rewrite E.
Qed.

Definition cat_line : list gap_word := [(0%nat, text "cat"); (2%nat, text "/etc/rc")].

Definition cat_terminal : terminal :=
  mk_terminal (mk_user 0 (zeros 32)) (zeros 64) (zeros 64) (text "cat  /etc/rc" ++ zeros 116) 12
    (RingBuffer.mk_ring_buffer [] 0 0) (replicate 9 Null) 0 demo 99 [].

Lemma format_input_splits_witness : exists l' ps,
  format_input cat_terminal = Some (tt, set_args (map At ps ++ replicate 7 Null) 1 (set_line l' 12 cat_terminal)) /\
  Forall2 (fun p '(_, w) => exists rest, drop (Z.to_nat p) l' = cstr w rest) ps cat_line.
Proof.
  apply (format_input_splits cat_line 115 cat_terminal).
  - split; [by left|]. split; [split; [discriminate|]|].
    { vm_compute. repeat (apply Forall_cons_2; [split; discriminate|]). apply Forall_nil_2. }
    split; [right; apply Nat.ltb_lt; reflexivity|]. split; [|done]. split; [discriminate|].
    vm_compute. repeat (apply Forall_cons_2; [split; discriminate|]). apply Forall_nil_2.
  - apply Nat.leb_le. reflexivity.
  - apply Nat.leb_le. reflexivity.
  - reflexivity.
  - reflexivity.
  - reflexivity.
Defined.

(** ** Paths *)

(** An entry of a path: no slash, not [..], and not beginning with the mark of
    [path_double_dot]. *)
Definition plain_entry (n : list Z) : Prop := is_str n /\ ~ In 47 n /\ n <> text ".." /\ head n <> Some 1.
Definition entry_name (n : list Z) : Prop := n <> [] /\ plain_entry n.

(** Entries each behind the byte [c]. *)
Definition behind (c : Z) (ns : list (list Z)) : list Z := concat (map (cons c) ns).

Lemma behind_cons c n ns : behind c (n :: ns) = c :: n ++ behind c ns.
Proof. done. Qed.

Lemma cut_slashes_run w n p r :
  ~ In 47 w -> cut_slashes (length w + n) (zlen p) (p ++ w ++ r) = cut_slashes n (zlen p + zlen w) (p ++ w ++ r).
Proof.
  revert p. induction w as [|c w IH]; intros p Hw.
  - cbn [length Nat.add app]. change (zlen []) with 0. by rewrite Z.add_0_r.
  - cbn [length Nat.add cut_slashes app]. rewrite zget_mid. sbind.
    rewrite (proj2 (Z.eqb_neq 47 c)) by (intros <-; apply Hw; by left).
    specialize (IH (p ++ [c]) ltac:(intros H; apply Hw; by right)). rewrite zlen_app, <- !(assoc_L (++)) in IH.
    cbn [app] in IH. change (zlen [c]) with 1 in IH. rewrite IH, zlen_cons. f_equal. lia.
Qed.

Lemma cut_slashes_spec ns r : Forall (fun n => ~ In 47 n) ns ->
  forall p, cut_slashes (length (behind 47 ns)) (zlen p) (p ++ behind 47 ns ++ r) = Some (p ++ behind 0 ns ++ r).
Proof.
  induction 1 as [|n ns Hn _ IH]; intros p; [done|]. rewrite !behind_cons. cbn [length app].
  rewrite length_app. cbn [cut_slashes]. rewrite zget_mid. sbind. change (47 =? 47) with true. cbv iota.
  rewrite zset_mid. sbind. change (p ++ 0 :: (n ++ behind 47 ns) ++ r) with (p ++ [0] ++ (n ++ behind 47 ns) ++ r).
  rewrite <- (assoc_L (++) n), (assoc_L (++) p).
  replace (zlen p + 1) with (zlen (p ++ [0])) by (rewrite zlen_app; done).
  rewrite cut_slashes_run by done. rewrite <- zlen_app, (assoc_L (++) _ n), IH. f_equal.
  rewrite <- !(assoc_L (++)). done.
Qed.

(** A position that holds 0 is in front of a name. *)
Lemma behind_zero ns r i : Forall is_str ns -> (i < length (behind 0 ns))%nat ->
  exists c, (behind 0 ns ++ r) !! i = Some c /\
    (c = 0 -> exists n rest, In n ns /\ drop (S i) (behind 0 ns ++ 0 :: r) = cstr n rest).
Proof.
  intros Hs. revert i. induction Hs as [|n ns Hn Hs IH]; intros i Hi; [cbn in Hi; lia|].
  rewrite behind_cons in Hi |- *. destruct i as [|i].
  - exists 0. split; [done|]. intros _. exists n. cbn [app drop]. rewrite <- (assoc_L (++)).
    destruct ns as [|n' ns]; [exists r; split; [by left|done]|].
    rewrite behind_cons. eexists. split; [by left|]. cbn [app]. reflexivity.
  - cbn [length] in Hi. rewrite length_app in Hi.
    change (((0 :: n ++ behind 0 ns) ++ r) !! S i) with (((n ++ behind 0 ns) ++ r) !! i).
    change (drop (S (S i)) ((0 :: n ++ behind 0 ns) ++ 0 :: r)) with (drop (S i) ((n ++ behind 0 ns) ++ 0 :: r)).
    rewrite <- !(assoc_L (++)).
    destruct (decide (i < length n)%nat) as [Hlt|Hge].
    + destruct (lookup_lt_is_Some_2 n i Hlt) as [c Hc]. exists c. split; [by rewrite lookup_app_l|].
      intros ->. apply (Forall_lookup_1 _ _ _ _ Hn) in Hc. tauto.
    + destruct (IH (i - length n)%nat) as (c & Hc & H0); [lia|]. exists c. split; [by rewrite lookup_app_r by lia|].
      intros E. destruct (H0 E) as (m & rest & Hin & Hd). exists m, rest. split; [by right|].
      rewrite <- Hd. rewrite drop_app_ge by lia. f_equal. lia.
Qed.

Lemma mark_entries_none ns r n :
  Forall is_str ns -> Forall (fun x => x <> text "..") ns -> (n <= length (behind 0 ns))%nat ->
  mark_entries n (behind 0 ns ++ 0 :: r) 0 = Some (behind 0 ns ++ 0 :: r).
Proof.
  intros Hs Hd. induction n as [|n IH]; intros Hn; [done|]. cbn [mark_entries].
  destruct (behind_zero ns r n Hs ltac:(lia)) as (c & Hc & H0).
  assert ((behind 0 ns ++ 0 :: r).[Z.of_nat n] = Some c) as ->.
  { apply zget_Some. rewrite Nat2Z.id. split; [lia|]. rewrite lookup_app_l in Hc by lia. by rewrite lookup_app_l by lia. }
  sbind. destruct (Z.eqb_spec 0 c) as [E|E]; cbn [negb]; [|apply IH; lia].
  destruct (H0 (eq_sym E)) as (m & rest & Hin & Hd').
  replace (Z.to_nat (Z.of_nat n + 1)) with (S n) by lia. rewrite Hd'.
  rewrite Forall_forall in Hs, Hd. apply list_elem_of_In in Hin.
  change (lit "..") with (cstr (text "..") []). rewrite strcmp_cstr by (first [by apply Hs|apply field_is_str, field_dec; reflexivity]).
  rewrite bool_decide_eq_false_2 by (by apply Hd). sbind. apply IH. lia.
Qed.

Lemma copy_entries_spec ns rest : Forall is_str ns -> Forall (fun n => head n <> Some 1) ns ->
  forall p q fuel m, is_str p -> zlen q = zlen p -> (length ns < fuel)%nat -> (length (behind 0 ns) < m)%nat ->
  zlen p + Z.of_nat m < 4294967296 ->
  copy_entries fuel (zlen p) (zlen p + zlen (behind 0 ns)) (q ++ behind 0 ns ++ 0 :: rest) (p ++ zeros m) =
    Some (p ++ behind 47 ns ++ zeros (m - length (behind 0 ns))).
Proof.
  intros Hs. induction Hs as [|n ns Hn Hs IH]; intros H1 p q fuel m Hp Hq Hf Hm Hb;
    (destruct fuel as [|fuel]; [cbn in Hf; lia|]); cbn [copy_entries].
  - change (zlen (behind 0 [])) with 0. rewrite Z.add_0_r, Z.ltb_irrefl. cbn [behind map concat app length].
    by rewrite Nat.sub_0_r.
  - apply Forall_cons in H1 as [Hn1 H1]. rewrite behind_cons in Hm. cbn [length] in Hm. rewrite length_app in Hm.
    rewrite !behind_cons. rewrite zlen_cons, zlen_app. pose proof (zlen_nonneg n). pose proof (zlen_nonneg (behind 0 ns)).
    rewrite (proj2 (Z.ltb_lt (zlen p) _)) by lia. destruct m as [|m]; [lia|].
    change (zeros (S m)) with (0 :: zeros m). rewrite zset_mid. sbind.
    assert (q ++ (0 :: n ++ behind 0 ns) ++ 0 :: rest = (q ++ [0]) ++ n ++ behind 0 ns ++ 0 :: rest) as Eq
      by (cbn [app]; by rewrite <- !(assoc_L (++))).
    rewrite Eq. replace (zlen p + 1) with (zlen (q ++ [0])) by (rewrite zlen_app, Hq; done). rewrite drop_zlen.
    assert (exists t, n ++ behind 0 ns ++ 0 :: rest = cstr n t) as [t Et].
    { destruct ns; eexists; reflexivity. }
    rewrite Et. assert (exists c, ((q ++ [0]) ++ cstr n t).[zlen (q ++ [0])] = Some c /\ c <> 1) as (c & Ec & Hc1).
    { destruct n as [|c n]; unfold cstr; cbn [app]; rewrite zget_mid; [by exists 0|].
      exists c. split; [done|]. intros ->. by apply Hn1. }
    rewrite Ec. sbind. rewrite (proj2 (Z.eqb_neq 1 c)) by congruence. cbn [negb].
    assert (is_str (p ++ [47])) as Hp' by (apply Forall_app; split; [done|by apply Forall_singleton]).
    change (p ++ 47 :: zeros m) with (p ++ [47] ++ zeros m). rewrite (assoc_L (++) p).
    destruct m as [|m]; [lia|].
    assert (strlen ((p ++ [47]) ++ zeros (S m)) = Some (zlen (p ++ [47]))) as ->
      by (apply (strlen_cstr (p ++ [47]) (zeros m)); [done|rewrite zlen_app; change (zlen [47]) with 1; lia]).
    sbind. rewrite (strcpy_prefix n t (zeros (S m)) Hn) by (unfold zeros; rewrite length_replicate; lia). sbind.
    rewrite strlen_cstr by (done || (unfold zlen in *; lia)). sbind. rewrite zeros_drop, <- Et.
    assert (is_str ((p ++ [47]) ++ n)) as Hp'' by (by apply Forall_app).
    specialize (IH H1 ((p ++ [47]) ++ n) ((q ++ [0]) ++ n) fuel (S m - length n)%nat Hp'').
    rewrite !zlen_app, <- !(assoc_L (++)) in IH. change (zlen [47]) with 1 in IH. change (zlen [0]) with 1 in IH.
    cbn [app] in IH. rewrite <- !(assoc_L (++)), !zlen_app, Hq. change (zlen [0]) with 1. cbn [app].
    replace (zlen p + (1 + (zlen n + zlen (behind 0 ns)))) with (zlen p + (1 + zlen n) + zlen (behind 0 ns)) by lia.
    replace (zlen p + 1 + zlen n) with (zlen p + (1 + zlen n)) in * by lia.
    etransitivity; [apply IH|].
    + lia.
    + cbn in Hf. lia.
    + lia.
    + unfold zlen in *. lia.
    + assert (S (S m) - length (0%Z :: n ++ behind 0 ns) = S m - length n - length (behind 0 ns))%nat as ->
        by (cbn [length]; rewrite length_app; lia).
      rewrite <- !(assoc_L (++)). done.
Qed.

(** The absolute path of a list of names. *)
Definition render (ns : list (list Z)) : list Z := match ns with [] => [47] | _ => behind 47 ns end.

Lemma behind_length c c' ns : length (behind c ns) = length (behind c' ns).
Proof. induction ns as [|n ns IH]; [done|]. rewrite !behind_cons. cbn [length]. by rewrite !length_app, IH. Qed.

Lemma behind_str ns : Forall is_str ns -> is_str (behind 47 ns).
Proof.
  induction 1 as [|n ns Hn _ IH]; [constructor|]. rewrite behind_cons. apply Forall_cons. split; [done|]. by apply Forall_app.
Qed.

Lemma entries_length ns : (length ns <= length (behind 0 ns))%nat.
Proof. induction ns as [|n ns IH]; [done|]. rewrite behind_cons. cbn [length]. rewrite length_app. lia. Qed.

(** Without [..] the path stays as it is. *)
Lemma double_dot_spec ns r :
  Forall plain_entry ns -> (length (behind 47 ns) <= 127)%nat ->
  path_double_dot (cstr (behind 47 ns) r) = Some (cstr (behind 47 ns) r).
Proof.
  intros Hp Hl.
  assert (Forall is_str ns) as Hs by (eapply Forall_impl; [exact Hp|]; unfold plain_entry; cbn; tauto).
  assert (Forall (fun n => ~ In 47 n) ns) as Hn by (eapply Forall_impl; [exact Hp|]; unfold plain_entry; cbn; tauto).
  assert (Forall (fun n => n <> text "..") ns) as Hd by (eapply Forall_impl; [exact Hp|]; unfold plain_entry; cbn; tauto).
  assert (Forall (fun n => head n <> Some 1) ns) as H1 by (eapply Forall_impl; [exact Hp|]; unfold plain_entry; cbn; tauto).
  pose proof (behind_length 0 47 ns) as El. pose proof (entries_length ns).
  unfold path_double_dot. rewrite strlen_cstr by (first [by apply behind_str|unfold zlen; lia]). sbind.
  assert (Z.to_nat (zlen (behind 47 ns)) = length (behind 47 ns)) as -> by (unfold zlen; lia). unfold cstr at 1.
  pose proof (cut_slashes_spec ns (0 :: r) Hn []) as E. cbn [app] in E. change (zlen []) with 0 in E. rewrite E. sbind.
  rewrite mark_entries_none by (done || lia). sbind.
  pose proof (copy_entries_spec ns r Hs H1 [] [] (S (length (behind 47 ns))) 128) as F.
  cbn [app] in F. change (zlen []) with 0 in F. rewrite !Z.add_0_l in F.
  assert (zlen (behind 47 ns) = zlen (behind 0 ns)) as -> by (unfold zlen; lia).
  rewrite F by (first [by apply Forall_nil_2|lia]). sbind.
  assert (128 - length (behind 0 ns) = S (127 - length (behind 0 ns)))%nat as -> by lia.
  change (behind 47 ns ++ zeros (S ?k)) with (cstr (behind 47 ns) (zeros k)).
  pose proof (strcpy_prefix (behind 47 ns) (zeros (127 - length (behind 0 ns))) (behind 0 ns ++ 0 :: r)
                (behind_str ns Hs)) as G.
  rewrite length_app in G. specialize (G ltac:(lia) []). cbn [app] in G. change (zlen []) with 0 in G. rewrite G. sbind.
  rewrite <- El, drop_app_length, strlen_cstr by (first [by apply behind_str|unfold zlen; lia]). sbind. apply zset_mid.
Qed.

Lemma skip_slashes_spec (t : list Z) (k : nat) (r : list Z) :
  t <> [] -> (length t = 1%nat \/ (forall u, t <> u ++ [47])) ->
  exists rest, skip_slashes (length t + k - 1)%nat (cstr (t ++ replicate k 47) r) = Some (cstr t rest).
Proof.
  intros Ht Hl. revert r. induction k as [|k IH]; intros r.
  - exists r. rewrite app_nil_r. rewrite Nat.add_0_r. destruct Hl as [Hl|Hl].
    + rewrite Hl. done.
    + destruct t as [|c t _] using rev_ind; [done|].
      rewrite length_app. cbn [length]. destruct (length t + 1 - 1)%nat as [|n] eqn:En; [done|]. cbn [skip_slashes].
      replace (Z.of_nat (S n)) with (zlen t) by (unfold zlen; lia). unfold cstr. rewrite <- (assoc_L (++)). cbn [app].
      rewrite zget_mid. sbind. rewrite (proj2 (Z.eqb_neq 47 c)) by (intros <-; by apply (Hl t)). done.
  - assert (length t + S k - 1 = S (length t + k - 1))%nat as -> by (destruct t; [done|cbn; lia]). cbn [skip_slashes].
    replace (Z.of_nat (S (length t + k - 1))) with (zlen (t ++ replicate k 47))
      by (unfold zlen; rewrite length_app, length_replicate; destruct t; [done|cbn [length]; lia]).
    assert (cstr (t ++ replicate (S k) 47) r = (t ++ replicate k 47) ++ 47 :: 0 :: r) as ->.
    { unfold cstr. rewrite replicate_S_end, <- !(assoc_L (++)). done. }
    rewrite zget_mid. sbind. change (47 =? 47) with true. cbv iota. rewrite zset_mid. sbind. apply (IH (0 :: r)).
Qed.

Lemma behind_app c ns ms : behind c (ns ++ ms) = behind c ns ++ behind c ms.
Proof. unfold behind. by rewrite map_app, concat_app. Qed.

Lemma behind_empty c k : behind c (replicate k []) = replicate k c.
Proof. induction k as [|k IH]; [done|]. cbn [replicate]. by rewrite behind_cons, IH. Qed.

Lemma render_entries ns k :
  exists es, render ns ++ replicate k 47 = behind 47 es /\ es = (match ns with [] => [[]] | _ => ns end) ++ replicate k [].
Proof.
  eexists. split; [|done]. rewrite behind_app, behind_empty. by destruct ns.
Qed.

Lemma render_last ns : Forall entry_name ns ->
  length (render ns) = 1%nat \/ (forall u, render ns <> u ++ [47]).
Proof.
  intros Hn. destruct ns as [|n ns _] using rev_ind; [by left|]. right.
  assert (render (ns ++ [n]) = behind 47 (ns ++ [n])) as -> by (by destruct ns).
  apply Forall_app in Hn as [_ [[He Hn] _]%Forall_cons].
  rewrite behind_app. unfold behind at 2. cbn [map concat]. rewrite app_nil_r.
  destruct n as [|c n _] using rev_ind; [done|]. intros u E. rewrite app_comm_cons, (assoc_L (++)) in E.
  apply app_inj_tail in E as [_ ->]. destruct Hn as (_ & Hn & _). apply Hn. apply in_or_app. right. by left.
Qed.

(** The last two steps of [format_path]. *)
Lemma tidy_spec ns k r :
  Forall entry_name ns -> (length (render ns) + k <= 127)%nat ->
  exists rest, (p ← path_double_dot (cstr (render ns ++ replicate k 47) r); skip_last_slash p) = Some (cstr (render ns) rest).
Proof.
  intros Hn Hl. destruct (render_entries ns k) as (es & Ees & Hes).
  assert (Forall plain_entry es) as Hp.
  { subst es. apply Forall_app. split.
    - destruct ns; [|eapply Forall_impl; [exact Hn|]; by intros x [_ Hx]]. apply Forall_singleton. repeat split; [constructor|tauto|discriminate|discriminate].
    - apply Forall_replicate. repeat split; [constructor|tauto|discriminate|discriminate]. }
  assert (length (render ns ++ replicate k 47%Z) = length (render ns) + k)%nat as El by (rewrite length_app, length_replicate; done).
  rewrite Ees in El |- *. rewrite double_dot_spec by (done || lia). sbind. rewrite <- Ees in El |- *.
  unfold skip_last_slash. rewrite strlen_cstr.
  - sbind. unfold zlen. rewrite El. destruct (skip_slashes_spec (render ns) k r) as (rest & E); [by destruct ns|by apply render_last|].
    exists rest. rewrite <- E. f_equal. lia.
  - rewrite Ees. apply behind_str. eapply Forall_impl; [exact Hp|]. unfold plain_entry. cbn. tauto.
  - unfold zlen. lia.
Qed.

(** A path as it may be typed: absolute or not, with [k] slashes behind it. *)
Definition typed_path (absolute : bool) (ns : list (list Z)) (k : nat) : list Z :=
  (if absolute then render ns else tail (render ns)) ++ replicate k 47.

Lemma render_str ns : Forall entry_name ns -> is_str (render ns).
Proof.
  intros H. destruct ns as [|n ns]; [by apply Forall_singleton|]. apply behind_str.
  eapply Forall_impl; [exact H|]. unfold entry_name, plain_entry. cbn. tauto.
Qed.

Lemma typed_str absolute ns k : Forall entry_name ns -> is_str (typed_path absolute ns k).
Proof.
  intros H%render_str. apply Forall_app. split; [|by apply Forall_replicate].
  destruct absolute; [done|]. destruct (render ns); [done|]. by apply Forall_cons in H as [_ H].
Qed.

Lemma strcpy_zeros s r m : is_str s -> (length s < m)%nat ->
  strcpy (zeros m) 0 (cstr s r) = Some (cstr s (zeros (m - length s - 1))).
Proof.
  intros Hs Hl. pose proof (strcpy_prefix s r (zeros m) Hs) as E. unfold zeros in E at 1. rewrite length_replicate in E.
  specialize (E ltac:(lia) []). cbn [app] in E. change (zlen []) with 0 in E. rewrite E, zeros_drop. unfold cstr.
  assert (m - length s = S (m - length s - 1))%nat as -> by lia. cbn [Nat.sub]. rewrite Nat.sub_0_r. done.
Qed.

(** Appending to a string in a buffer of zeros. *)
Lemma strcpy_append p s r m : is_str s -> (length s < m)%nat ->
  strcpy (p ++ zeros m) (zlen p) (cstr s r) = Some (cstr (p ++ s) (zeros (m - length s - 1))).
Proof.
  intros Hs Hl. rewrite strcpy_prefix by (first [done|unfold zeros; rewrite length_replicate; lia]).
  rewrite zeros_drop. unfold cstr. rewrite <- (assoc_L (++)).
  assert (m - length s = S (m - length s - 1))%nat as -> by lia. cbn [Nat.sub]. rewrite Nat.sub_0_r. done.
Qed.

Lemma render_snoc cs n ns : render (cs ++ n :: ns) =
  (match cs with [] => [] | _ => render cs end) ++ 47 :: tail (render (n :: ns)).
Proof. destruct cs as [|c cs]; [done|]. unfold render. cbn [app]. by rewrite (app_comm_cons cs), behind_app. Qed.

(** The first step of [format_path]. *)
Lemma relative_spec absolute cs ns k r1 r2 :
  Forall entry_name cs -> Forall entry_name ns -> (absolute = false -> ns = [] -> k = 0%nat) ->
  (length (render cs) + length (typed_path absolute ns k) <= 62)%nat ->
  exists m k', path_relative2abs (cstr (render cs) r1) (cstr (typed_path absolute ns k) r2) (zeros 64) =
    Some (cstr (render ((if absolute then [] else cs) ++ ns) ++ replicate k' 47) (zeros m)) /\
    (length (render ((if absolute then [] else cs) ++ ns)) + k' <= 64)%nat.
Proof.
  intros Hc Hn Hk Hl. pose proof (render_str _ Hc) as Sc. pose proof (typed_str absolute ns k Hn) as St.
  unfold path_relative2abs. destruct absolute.
  - set (p := typed_path true ns k) in *. assert (exists q, p = 47 :: q) as [q Eq] by (unfold p, typed_path; destruct ns; by eexists).
    exists (64 - length p - 1)%nat, k. split.
    + assert ((cstr p r2).[0] = Some 47) as -> by (by rewrite Eq). sbind.
      change (0 =? 47) with false. change (47 =? 47) with true. cbv iota. apply strcpy_zeros; [done|lia].
    + unfold p, typed_path in Hl. rewrite length_app, length_replicate in Hl. cbn [app]. lia.
  - destruct ns as [|n ns].
    + rewrite (Hk eq_refl eq_refl) in *. rewrite app_nil_r.
      change ((cstr (typed_path false [] 0) r2).[0]) with (Some 0). sbind. change (0 =? 0) with true. cbv iota.
      exists (64 - length (render cs) - 1)%nat, 0%nat. rewrite app_nil_r. split; [apply strcpy_zeros; [done|lia]|lia].
    + apply Forall_cons in Hn as [Hn Hns]. destruct Hn as (Hne & Hns1 & Hn47 & _). destruct n as [|c n]; [done|].
      change ((cstr (typed_path false ((c :: n) :: ns) k) r2).[0]) with (Some c). sbind.
      apply Forall_cons in Hns1 as [[_ Hc0] _]. rewrite (proj2 (Z.eqb_neq 0 c)) by congruence.
      rewrite (proj2 (Z.eqb_neq 47 c)) by (intros <-; apply Hn47; by left).
      set (p := typed_path false ((c :: n) :: ns) k) in *.
      rewrite strcpy_zeros by (done || lia). sbind. rewrite strlen_cstr by (done || (unfold zlen; lia)). sbind.
      change (lit "/") with (cstr [47] []). rewrite strcmp_cstr by (done || by apply Forall_singleton). sbind.
      assert (length p = length (tail (render ((c :: n) :: ns))) + k)%nat as Lp
        by (unfold p, typed_path; by rewrite length_app, length_replicate).
      assert (render ((c :: n) :: ns) = 47 :: tail (render ((c :: n) :: ns))) as Er by done.
      rewrite render_snoc. destruct cs as [|c0 cs].
      * rewrite bool_decide_eq_true_2 by done.
        exists (S (64 - length (render []) - 1) - length p - 1)%nat, k. cbn [app]. split.
        -- unfold cstr at 1. change (0 :: zeros ?j) with (zeros (S j)). rewrite strcpy_append; [|done|cbn in *; lia].
           done.
        -- cbn in Hl, Lp |- *. lia.
      * rewrite bool_decide_eq_false_2 by (intros E; cbn [render] in E; rewrite behind_cons in E;
          apply Forall_cons in Hc as [[Hc _] _]; injection E as E; destruct c0; done).
        set (q := render (c0 :: cs)) in *.
        exists (64 - length q - 1 - length p - 1)%nat, k. split.
        -- change (cstr q (zeros ?j)) with (q ++ 0 :: zeros j). rewrite zset_mid. sbind.
           change (q ++ 47 :: zeros ?j) with (q ++ [47] ++ zeros j). rewrite (assoc_L (++)).
           replace (zlen q + 1) with (zlen (q ++ [47])) by (rewrite zlen_app; done). rewrite strcpy_append; [|done|lia].
           f_equal. f_equal. unfold p, typed_path. rewrite <- !(assoc_L (++)). done.
        -- rewrite length_app. cbn [length]. lia.
Qed.

Lemma format_path_names absolute cs ns k r1 r2 :
  Forall entry_name cs -> Forall entry_name ns -> (absolute = false -> ns = [] -> k = 0%nat) ->
  (length (render cs) + length (typed_path absolute ns k) <= 62)%nat ->
  exists rest, format_path (cstr (render cs) r1) (cstr (typed_path absolute ns k) r2) (zeros 64) =
    Some (cstr (render ((if absolute then [] else cs) ++ ns)) rest).
Proof.
  intros Hc Hn Hk Hl. destruct (relative_spec absolute cs ns k r1 r2 Hc Hn Hk Hl) as (m & k' & E & Hk').
  unfold format_path. rewrite E. sbind. apply tidy_spec; [|lia].
  apply Forall_app. split; [by destruct absolute|done].
Qed.

(** C34. A path is made absolute: for a current directory and a path that are
    lists of names ([..] is not among them), [format_path] gives the path of
    those names from the root, behind the current directory unless the path is
    absolute; slashes at the end are dropped, the empty path is the current
    directory, and no access leaves a buffer of 64 bytes. *)
Theorem format_path_plain absolute cs ns k r1 r2 :
  Forall entry_name cs -> Forall entry_name ns -> (absolute = false -> ns = [] -> k = 0%nat) ->
  (length (render cs) + length (typed_path absolute ns k) <= 62)%nat ->
  exists rest, format_path (cstr (render cs) r1) (cstr (typed_path absolute ns k) r2) (zeros 64) =
    Some (cstr (render ((if absolute then [] else cs) ++ ns)) rest).
Proof. apply format_path_names. Qed.

(** In /home/u, [a/b//] is /home/u/a/b. *)
Lemma format_path_plain_witness : exists rest,
  format_path (cstr (text "/home/u") []) (cstr (text "a/b//") []) (zeros 64) = Some (cstr (text "/home/u/a/b") rest).
Proof.
  assert (forall n, (n =? 0) || (n =? 1) || (n =? 46) || (n =? 47) || negb (n <? 256) || (n <? 0) = false -> entry_name [n]) as N.
  { intros n Hn. zbool. split; [done|]. split; [apply Forall_singleton; unfold is_u8; lia|].
    split; [intros [->|[]]; lia|]. split; [intros [= ->]; lia|intros [= ->]; lia]. }
  apply (format_path_plain false [text "home"; text "u"] [text "a"; text "b"] 2 [] []).
  - apply Forall_cons_2; [|apply Forall_cons_2; [by apply N|apply Forall_nil_2]].
    split; [done|]. split; [apply table_is_str; vm_compute; repeat (apply Forall_cons_2; [tauto|]); apply Forall_nil_2|].
    split; [|split; discriminate]. vm_compute. intros H.
    repeat (destruct H as [H|H]; [discriminate|]). exact H.
  - apply Forall_cons_2; [by apply N|]. apply Forall_cons_2; [by apply N|apply Forall_nil_2].
  - discriminate.
  - apply Nat.leb_le. reflexivity.
Defined.

(** ** Defects *)

(** A path is not made of its entries when more than one entry is left behind a
    parent directory: a slash is lost. *)
Lemma parent_loses_slash :
  (p ← format_path (lit "/") (lit "/aaa/../b/c") (zeros 64); Some (str_of p)) = Some (text "/bc") /\
  (p ← format_path (lit "/home/u") (lit "../../x/y") (zeros 64); Some (str_of p)) = Some (text "/xy").
Proof. split; vm_compute; reflexivity. Qed.

(** A space at the end of a line of four characters: the search for the next
    word leaves the line. *)
Lemma trailing_space_leaves_line : split_line (text "cat " ++ zeros 124) 4 (replicate 9 Null) 0 = None.
Proof. vm_compute. reflexivity. Qed.

(** A password of 33 characters is stored as it is, but for its end. *)
Lemma long_password_stored :
  hahash (text "correct horse battery staple 1234" ++ [0]) (zeros 32) = Some (take 31 (text "correct horse battery staple 1234") ++ [0]).
Proof. vm_compute. reflexivity. Qed.

(** An empty password reads in front of the buffer. *)
Lemma empty_password_reads_before : hahash [0] (zeros 32) = None.
Proof. vm_compute. reflexivity. Qed.

(** ** A session *)

Fixpoint keystrokes (m : mode) (chs : list Z) : tm mode :=
  match chs with [] => mret m | ch :: chs' => m ← terminal_char [0] 20 m ch; keystrokes m chs' end.

(** From the start of the system to a directory that root has made. *)
Definition session : option (list Z) :=
  '(m, t) ← main [0] 20 0 (RingBuffer.mk_ring_buffer [] 0 0) demo;
  let typed := text "root" ++ [13] ++ text "root" ++ [13] ++ text "mkdir /tmp" ++ [13] ++ text "cd tmp" ++ [13] in
  match keystrokes m typed t with Some (Running, t) => Some (str_of t.(fsys).(FsState.cur_dir)) | _ => None end.

Example session_works : session = Some (text "/tmp").
Proof. vm_compute. reflexivity. Qed.
