(* ===== verification/FsServer.v ===== *)
(** * The file system behind the system calls (lib/all_syscall.cc, fs/main.cc)

    The functions of the library send a request; here the requests to the file
    system are answered by [fs_turn], on memory that caller and file system share.
    The calls then are the computations of [File.v] and [Dir.v] on the bytes the
    pointers lead to, and a line read with [readline] arrives in memory. *)
From S2P Require Import Prelude Mem CString FsState Inode Dir File FileSystem FileSpec Users Accounts.
From S2P Require Process Syscalls.

(** A request is answered: the exchange and the computation behind it are run. *)
Ltac run_exchange answer only beside := unfold Syscalls.tell, Syscalls.ask, only, beside; cbn; unfold answer; cbn;
  unfold mbind, fsm_bind, mret, fsm_ret, option_bind; cbn;
  repeat (match goal with |- context [match ?r with _ => _ end] =>
    lazymatch r with context [match _ with _ => _ end] => fail | _ => destruct r as [[? ?]|]; cbn end end); try done.

Section server.
(** As in [fs_turn]; [c] is the uninitialised part of a reply. *)
Variables (top cur_dir_addr : Z) (c : Process.context).

(** The file system and the memory. *)
Abbreviation served := (fs * mem)%type.

(** An exchange with the file system; a request that is not answered keeps its
    sender waiting. *)
Definition fs_answer (type : Z) (con : Process.context) (st : served) : option (Process.context * served) :=
  '(m, a, s) ← fs_turn top cur_dir_addr st.2 type con st.1;
  match a with
  | reply => Some (con, (s, m))
  | reply_with v => Some (Process.mk_context v c.(Process.con_2) c.(Process.con_3) c.(Process.con_4), (s, m))
  | no_reply => None
  end.

(** A message without an answer: [tell_fs]. *)
Definition fs_notified (type : Z) (con : Process.context) (st : served) : option served :=
  '(m, _, s) ← fs_turn top cur_dir_addr st.2 type con st.1; Some (s, m).

#[local] Instance fs_ipc : Syscalls.Ipc served := {|
  Syscalls.send_then_recv dest type con st := if dest =? KernelMain.FS then fs_answer type con st else None;
  Syscalls.send_msg dest type con st := if dest =? KernelMain.FS then fs_notified type con st else None;
  Syscalls.peek st a := load8 st.2 a;
  Syscalls.poke st a v := (st.1, store8 st.2 a v);
|}.

(** ** Each call is the computation it asks for *)

(** The result of a computation of the file system, and the memory as it was. *)
Definition beside {A} (m : mem) (r : option (A * fs)) : option (A * served) :=
  '(a, s) ← r; Some (a, (s, m)).
Definition only {A} (r : option (A * served)) : option served := '(_, st) ← r; Some st.

Ltac serve := run_exchange fs_answer @only @beside.

Variable u : Process.context.

Lemma mkdir_served path s m : Syscalls.mkdir u path (s, m) = only (beside m (sys_mkdir (bytes_at top m path) s)).
Proof. unfold Syscalls.mkdir. serve. Qed.

Lemma mkfile_served path s m : Syscalls.mkfile u path (s, m) = only (beside m (sys_mkfile (bytes_at top m path) s)).
Proof. unfold Syscalls.mkfile. serve. Qed.

Lemma rmdir_served path s m : Syscalls.rmdir u path (s, m) = only (beside m (sys_rmdir (bytes_at top m path) s)).
Proof. unfold Syscalls.rmdir. serve. Qed.

Lemma rmfile_served path s m : Syscalls.rmfile u path (s, m) = only (beside m (sys_rmfile (bytes_at top m path) s)).
Proof. unfold Syscalls.rmfile. serve. Qed.

Lemma open_served path s m :
  Syscalls.open u path (s, m) = ('(fd, st) ← beside m (open_file (bytes_at top m path) s); Some (u32 fd, st)).
Proof. unfold Syscalls.open. serve. Qed.

Lemma close_served fd s m : Syscalls.close u fd (s, m) = only (beside m (close_file fd s)).
Proof. unfold Syscalls.close. serve. Qed.

Lemma lseek_served fd off s m : Syscalls.lseek u fd off (s, m) = only (beside m (lseek_file fd off s)).
Proof. unfold Syscalls.lseek. serve. Qed.

Lemma write_served fd str count mode s m :
  Syscalls.write fd str count mode (s, m) = only (beside m (write_file fd (bytes_at top m str) count (u8 mode) s)).
Proof. unfold Syscalls.write. serve. Qed.

Lemma read_served fd buf count s m :
  Syscalls.read u fd buf count (s, m) =
    ('(r, s) ← read_file fd (bytes_at top m buf) count s; Some (r.1, (s, store_bytes m buf r.2))).
Proof.
  unfold Syscalls.read, Syscalls.ask. cbn. unfold fs_answer. cbn. unfold mbind, fsm_bind. cbn.
  by destruct (read_file _ _ _ _) as [[[? ?] ?]|].
Qed.

Lemma eof_served fd s m : Syscalls.eof u fd (s, m) = beside m (is_eof fd s).
Proof. unfold Syscalls.eof. serve. by destruct b. Qed.

(** ** Lines *)

(** The memory holds bytes. *)
Definition byte_mem (m : mem) : Prop := forall a, is_u8 (load8 m a).

Lemma store8_byte m a v : byte_mem m -> byte_mem (store8 m a v).
Proof. intros H b. rewrite load8_store8. destruct (b =? a); [by apply Z.mod_pos_bound|apply H]. Qed.

Lemma load8_store_bytes bs : forall m p a, Forall is_u8 bs ->
  load8 (store_bytes m p bs) a = default (load8 m a) bs.[a - p].
Proof.
  induction bs as [|b bs IH]; intros m p a H; cbn [store_bytes].
  - unfold zget. by destruct (0 <=? a - p).
  - apply Forall_cons in H as [Hb H]. rewrite IH by done. rewrite load8_store8.
    destruct (Z.eqb_spec a p) as [->|Hne].
    + rewrite (proj2 (zget_None bs (p - (p + 1)))) by lia. replace (p - p) with 0 by lia. cbn. by rewrite u8_id.
    + destruct (Z.ltb_spec a p).
      * by rewrite !(proj2 (zget_None _ _)) by lia.
      * change (b :: bs) with ([b] ++ bs). rewrite zget_app_r by (unfold zlen; cbn; lia). do 2 f_equal. unfold zlen. cbn. lia.
Qed.

Lemma bytes_at_cons m p : p < top -> bytes_at top m p = load8 m p :: bytes_at top m (p + 1).
Proof.
  intros H. unfold bytes_at. rewrite seqZ_cons by lia. cbn [map]. do 3 f_equal; lia.
Qed.

Lemma bytes_at_mem_u8 m p : byte_mem m -> Forall is_u8 (bytes_at top m p).
Proof. intros H. apply Forall_map, Forall_true. intros a. apply H. Qed.

Lemma bytes_at_get m p i : 0 <= i < top - p -> (bytes_at top m p).[i] = Some (load8 m (p + i)).
Proof.
  intros H. apply zget_Some. split; [lia|]. unfold bytes_at. change (map ?g ?l) with (g <$> l).
  rewrite list_lookup_fmap, lookup_seqZ_lt by lia. cbn. do 2 f_equal. lia.
Qed.

(** [bs] is written over the memory at [p]. *)
Definition overwritten (m : mem) (p : Z) (bs : list Z) (m' : mem) : Prop :=
  forall a, load8 m' a = default (load8 m a) bs.[a - p].

Lemma byte_mem_store bs m p : Forall is_u8 bs -> byte_mem m -> byte_mem (store_bytes m p bs).
Proof.
  intros Hbs Hm a. rewrite load8_store_bytes by done. destruct (bs.[a - p]) as [b|] eqn:E; cbn; [|apply Hm].
  apply zget_Some in E as [_ E]. by eapply Forall_lookup_1.
Qed.

(** Bytes read back from memory and stored there again change nothing. *)
Lemma store_read m p data n : byte_mem m -> Forall is_u8 data -> (length data <= n)%nat -> p + Z.of_nat n <= top ->
  overwritten m p data (store_bytes m p (data ++ drop (length data) (bytes_at top m p))).
Proof.
  intros Hm Hd Hn Hp a. rewrite load8_store_bytes by (apply Forall_app; split; [done|apply Forall_drop, bytes_at_mem_u8, Hm]).
  destruct (decide (a - p < zlen data)) as [Hl|Hl]; [by rewrite zget_app_l|].
  rewrite zget_app_r by lia. rewrite (proj2 (zget_None data (a - p))) by lia. cbn. pose proof (zlen_nonneg data) as H0.
  unfold zget. rewrite (proj2 (Z.leb_le 0 (a - p - zlen data))) by lia. rewrite lookup_drop.
  replace (length data + Z.to_nat (a - p - zlen data))%nat with (Z.to_nat (a - p)) by (unfold zlen in *; lia).
  destruct (bytes_at top m p !! Z.to_nat (a - p)) as [b|] eqn:E; [|done]. cbn.
  pose proof (lookup_lt_Some _ _ _ E) as Hb. unfold bytes_at in Hb. rewrite length_map, length_seqZ in Hb.
  assert ((bytes_at top m p).[a - p] = Some b) as Eb by (apply zget_Some; split; [lia|done]).
  rewrite bytes_at_get in Eb by lia. injection Eb as <-. do 2 f_equal. lia.
Qed.

Lemma overwritten_cons m m1 m' p b bs : load8 m1 p = b -> (forall a, a <> p -> load8 m1 a = load8 m a) ->
  overwritten m1 (p + 1) bs m' -> overwritten m p (b :: bs) m'.
Proof.
  intros H1 H2 H a. rewrite H. destruct (Z.eqb_spec a p) as [->|Hne].
  - rewrite (proj2 (zget_None bs (p - (p + 1)))) by lia. replace (p - p) with 0 by lia. exact H1.
  - rewrite (H2 a Hne). destruct (Z.ltb_spec a p).
    + by rewrite !(proj2 (zget_None _ _)) by lia.
    + change (b :: bs) with ([b] ++ bs). rewrite zget_app_r by (unfold zlen; cbn; lia). do 2 f_equal. unfold zlen. cbn. lia.
Qed.

Lemma overwritten_one m p b m' : overwritten m p [b] m' -> load8 m' p = b /\ (forall a, a <> p -> load8 m' a = load8 m a).
Proof.
  intros H. split; [rewrite (H p); by replace (p - p) with 0 by lia|]. intros a Ha. rewrite (H a).
  rewrite (proj2 (zget_None [b] (a - p))); [done|]. unfold zlen. cbn. lia.
Qed.

(** One byte of the file. *)
Lemma read_loads fd x off b data buf s m :
  reading fd x off (b :: data) s -> is_u8 b -> buf < top -> byte_mem m ->
  exists s' m', Syscalls.read u fd buf 1 (s, m) = Some (1, (s', m')) /\ reading fd x (off + 1) data s' /\
    overwritten m buf [b] m' /\ byte_mem m'.
Proof.
  intros Hr Hb Htop Hm. rewrite read_served, bytes_at_cons by lia.
  destruct (runs_read_byte _ _ _ _ _ (load8 m buf) (bytes_at top m (buf + 1)) _ Hr) as (r & s1 & -> & -> & Hr1 & _).
  assert (Forall is_u8 [b]) as Hb1 by (by apply Forall_cons_2; [|apply Forall_nil]).
  eexists s1, _. split; [reflexivity|]. split; [done|]. split.
  - pose proof (store_read m buf [b] 1 Hm Hb1) as H1. rewrite bytes_at_cons in H1 by lia. apply H1; [done|lia].
  - apply byte_mem_store; [|done]. apply Forall_cons_2; [done|apply bytes_at_mem_u8, Hm].
Qed.

Lemma readline_loads fd x data fuel line : forall off buf s m,
  reading fd x off (line ++ 10 :: data) s -> Forall (fun b => is_u8 b /\ b <> 10) line ->
  buf + zlen line + 2 <= top -> (length line < fuel)%nat -> byte_mem m ->
  exists s' m' off', Syscalls.readline u fuel fd buf (s, m) = Some (s', m') /\ reading fd x off' data s' /\
    overwritten m buf (line ++ [10; 0]) m'.
Proof.
  induction line as [|b line IH] in fuel |- *; intros off buf s m Hr Hl Htop Hf Hm;
    (destruct fuel as [|fuel]; [lia|]); cbn [Syscalls.readline app] in *; rewrite eof_served; unfold beside;
    rewrite (is_eof_reading _ _ _ _ _ Hr); (rewrite bool_decide_eq_false_2 by done); cbn [mbind option_bind].
  - change (zlen []) with 0 in Htop.
    destruct (read_loads _ _ _ _ _ buf _ m Hr) as (s1 & m1 & -> & Hr1 & H1 & _); [done|lia|done|].
    apply overwritten_one in H1 as [E1 E2]. cbn [mbind option_bind].
    change (Syscalls.peek (s1, m1) buf) with (load8 m1 buf). rewrite E1. cbn [Z.eqb Pos.eqb].
    exists s1, (store8 m1 (buf + 1) 0), (off + 1). split; [done|]. split; [done|].
    apply (overwritten_cons m m1); [done..|]. intros a. rewrite load8_store8. destruct (Z.eqb_spec a (buf + 1)) as [->|Hne].
    + by replace (buf + 1 - (buf + 1)) with 0 by lia.
    + rewrite (proj2 (zget_None [0] (a - (buf + 1)))); [done|]. unfold zlen. cbn. lia.
  - rewrite zlen_cons in Htop. pose proof (zlen_nonneg line). apply Forall_cons in Hl as [[Hb Hb10] Hl].
    destruct (read_loads _ _ _ _ _ buf _ m Hr) as (s1 & m1 & -> & Hr1 & H1 & Hm1); [done|lia|done|].
    apply overwritten_one in H1 as [E1 E2]. cbn [mbind option_bind].
    change (Syscalls.peek (s1, m1) buf) with (load8 m1 buf). rewrite E1, (proj2 (Z.eqb_neq 10 b)) by congruence.
    destruct (IH fuel (off + 1) (buf + 1) s1 m1 Hr1 Hl) as (s' & m' & off' & H2 & H3 & H4); [lia|cbn in Hf; lia|done|].
    exists s', m', off'. split; [done|]. split; [done|]. by apply (overwritten_cons m m1).
Qed.
End server.
