(* ===== verification/LibrarySpec.v ===== *)
(** * A line written and read through the library

    From the pointer in the caller's memory through a message to the file system
    and the disk, and back. *)
From S2P Require Import Prelude Mem CString FsState Inode Dir File FileSystem FsTypes FileSpec Accounts FsServer.
From S2P Require Process Syscalls.

(** What the first sector holds is what the file holds. *)
Lemma file_bytes_first s x lba data :
  full s.(disk) -> x.(i_sectors).[0] = Some lba -> length x.(i_sectors) = 9%nat -> x.(i_size) = zlen data ->
  zlen data < 512 -> holds s lba data -> file_bytes s x = data.
Proof.
  intros Hf Hl0 Hn Hs Hlen Hh. unfold file_bytes. rewrite Hs. unfold zlen in *. rewrite Nat2Z.id.
  destruct (i_sectors x) as [|a l]; [done|]. apply zget_Some in Hl0 as [_ [= ->]]. cbn [map concat].
  rewrite take_app_le; [exact Hh|]. rewrite (Hf (u32 lba)). lia.
Qed.

(** The file after a small write and a seek to its start. *)
Lemma runs_write_seek fd f data rest s :
  fs_layout s -> open_file_ok s fd f ->
  allowed s f.(f_inode) access_mode.WRITE = true -> allowed s f.(f_inode) access_mode.READ = true ->
  is_str data -> zlen data < 512 ->
  runs (write_file fd (cstr data rest) (zlen data) file_io.COVER ;; lseek_file fd 0) s
    (fun _ s' => exists x', reading fd x' 0 data s').
Proof.
  intros Hlay [Hfd Htab Hl Hfree] Hw Hr Hstr Hlen. pose proof (zget_lt _ _ _ Hfd) as Hrange.
  pose proof (zlen_nonneg data) as H0.
  apply runs_bind, (runs_write_small fd f data rest); try done.
  intros s1 x' lba Hlay1 Hu1 Ht1 Hl0 Hsz Hmode Hui Hn Hh. set (f1 := mk_file _ x') in Ht1.
  assert ((file_desc_tbl s1).[fd] = Some (Some f1)) as Hfd1
    by (rewrite Ht1, zget_insert by lia; by rewrite Z.eqb_refl).
  unfold lseek_file. apply runs_bind, runs_gets, runs_bind. eapply runs_lift; [exact Hfd1|].
  apply runs_bind. eapply runs_lift; [reflexivity|]. cbn [f_inode f1]. rewrite (proj2 (Z.ltb_ge (i_size x') 0)) by lia.
  eapply runs_set_file; [exact Hfd1|]. set (s2 := set_fdt _ s1). exists x'.
  constructor; try done; try lia.
  - cbn [s2 file_desc_tbl set_fdt]. rewrite zget_insert by (rewrite ?Ht1, ?zlen_insert; lia). by rewrite Z.eqb_refl.
  - rewrite <- Hr. unfold allowed. cbn [f_inode]. change (uid s2) with (uid s1). by rewrite Hu1, Hui, Hmode.
  - apply (lay_full _ Hlay1).
  - rewrite drop_0. apply (file_bytes_first _ _ lba); try done. apply (lay_full _ Hlay1).
Qed.

Section library.
Context (top cur_dir_addr : Z) (c u : Process.context).

Definition line_char (b : Z) : Prop := is_u8 b /\ b <> 0 /\ b <> 10.

Lemma line_is_str line : Forall line_char line -> is_str (line ++ [10]).
Proof.
  intros H. apply Forall_app. split; [|by apply Forall_cons_2; [|apply Forall_nil]].
  eapply Forall_impl; [exact H|]. intros b (H1 & H2 & _). by split.
Qed.

(** Write a line to the start of the file, go back and read it. *)
Definition write_and_readline (fuel : nat) (fd str len buf : Z) (st : fs * mem) : option (fs * mem) :=
  let H := fs_ipc top cur_dir_addr c in
  st ← Syscalls.write fd str len file_io.COVER st;
  st ← Syscalls.lseek u fd 0 st;
  Syscalls.readline u fuel fd buf st.

Lemma line_through_library fd f line rest str buf s m :
  fs_layout s -> open_file_ok s fd f ->
  allowed s f.(f_inode) access_mode.WRITE = true -> allowed s f.(f_inode) access_mode.READ = true ->
  Forall line_char line -> zlen line < 511 -> byte_mem m ->
  bytes_at top m str = cstr (line ++ [10]) rest -> buf + zlen line + 2 <= top ->
  exists s' m', write_and_readline (S (length line)) fd str (zlen line + 1) buf (s, m) = Some (s', m') /\
    overwritten m buf (line ++ [10; 0]) m'.
Proof.
  intros Hlay Hopen Hw Hr Hline Hlen Hm Hstr Htop. unfold write_and_readline. cbv zeta.
  destruct (runs_write_seek fd f (line ++ [10]) rest s) as ([] & s2 & E & x' & Hread); try done.
  { by apply line_is_str. }
  { rewrite zlen_app. change (zlen [10]) with 1. lia. }
  rewrite zlen_app in E. change (zlen [10]) with 1 in E. rewrite write_served, Hstr.
  change (u8 file_io.COVER) with file_io.COVER. unfold mbind, fsm_bind in E.
  destruct (write_file _ _ _ _ _) as [[[] s1]|]; [|done]. cbn [only beside mbind option_bind].
  rewrite lseek_served. unfold only, beside. rewrite E. cbn [mbind option_bind].
  destruct (readline_loads top cur_dir_addr c u fd x' [] (S (length line)) line 0 buf s2 m) as (s' & m' & off & E' & _ & Hm').
  - exact Hread.
  - eapply Forall_impl; [exact Hline|]. intros b (H1 & _ & H2). by split.
  - done.
  - lia.
  - done.
  - by exists s', m'.
Qed.
End library.

(** C3. A line written through the library is read back through it: with an open
    file that may be written and read, [write] (which covers the file) of a line of
    fewer than 511 characters that ends in a newline, [lseek] to the start and
    [readline] return, each answered by the file system,
    and then the buffer of the reader holds the line, the newline and a
    terminator, and every other byte of memory is as it was. *)
Theorem line_written_is_read top cur_dir_addr c u fd f line rest str buf s m :
  fs_layout s -> open_file_ok s fd f ->
  allowed s f.(f_inode) access_mode.WRITE = true -> allowed s f.(f_inode) access_mode.READ = true ->
  Forall line_char line -> zlen line < 511 -> byte_mem m ->
  bytes_at top m str = cstr (line ++ [10]) rest -> buf + zlen line + 2 <= top ->
  exists s' m',
    write_and_readline top cur_dir_addr c u (S (length line)) fd str (zlen line + 1) buf (s, m) = Some (s', m') /\
    forall a, load8 m' a = default (load8 m a) (line ++ [10; 0]).[a - buf].
Proof. apply line_through_library. Qed.

(** "hi!" and a newline at 0x100; the buffer is at 0x110. *)
Definition demo_memory : mem := store_bytes ∅ 0x100 [104; 105; 33; 10; 0].
Definition no_context : Process.context := Process.mk_context 0 0 0 0.

Lemma line_written_is_read_witness : exists s' m',
  write_and_readline 0x120 0 no_context no_context 4 0 0x100 4 0x110 (demo_open, demo_memory) = Some (s', m') /\
  map (load8 m') (seqZ 0x100 0x18) =
    [104; 105; 33; 10; 0; 0; 0; 0; 0; 0; 0; 0; 0; 0; 0; 0; 104; 105; 33; 10; 0; 0; 0; 0].
Proof.
  destruct (line_written_is_read 0x120 0 no_context no_context 0 demo_file [104; 105; 33] (replicate 27 0)
              0x100 0x110 demo_open demo_memory) as (s' & m' & E & Hm').
  - apply fdt_layout, demo_layout.
  - constructor.
    + reflexivity.
    + split; [split; [discriminate|reflexivity]|reflexivity].
    + split; [reflexivity|]. apply Forall_cons_2; [right; split; [discriminate|reflexivity]|].
      apply Forall_replicate. by left.
    + discriminate.
  - reflexivity.
  - reflexivity.
  - repeat (apply Forall_cons_2; [split; [split; [discriminate|reflexivity]|by split]|]). by apply Forall_nil.
  - reflexivity.
  - unfold demo_memory. apply byte_mem_store; [|intros a; split; [discriminate|reflexivity]].
    repeat (apply Forall_cons_2; [split; [discriminate|reflexivity]|]). by apply Forall_nil.
  - vm_compute. reflexivity.
  - discriminate.
  - exists s', m'. split; [exact E|]. vm_compute seqZ. cbn [map]. rewrite !Hm'. vm_compute. reflexivity.
Defined.
