(* ===== verification/Delivery.v ===== *)
(** * Data over an established connection (net/tcp.cc, lib/indirect_ring_buffer.cc)

    A machine that has called [connect] sends with [send_socket] to a machine that
    has called [listen], whose process takes the data with [recv]; the frames of
    both are handed to [handle_packet] of the other one, in their order.  The code
    takes an acknowledgement for data without bytes: it gets a receive buffer and
    is answered by an acknowledgement ([ack_is_answered]).  So both machines answer
    each other for ever, and the messages come out of [recv] with empty ones
    between them; the messages that are not empty come out in their order. *)
From S2P Require Import Prelude CString RingBuffer Packets NetIf Tcp Net Handshake.

#[local] Ltac Zify.zify_post_hook ::= Z.to_euclidean_division_equations.

(** ** The ring of receive buffers *)

(** A buffer that holds a message: its length and its bytes. *)
Definition message_in (b d : list Z) : Prop :=
  zlen b = 1600 /\ get32 b 0 = Some (zlen d) /\ forall i, 0 <= i < zlen d -> b.[4 + i] = d.[i].

Definition stored (bufs : gmap Z (list Z)) (a : Z) (d : list Z) : Prop := exists b, bufs !! a = Some b /\ message_in b d.

(** The socket's ring holds the messages [q]. *)
Definition ring_holds (bufs : gmap Z (list Z)) (r : IRB.t) (q : list (list Z)) : Prop :=
  NoDup r.(IRB.buf) /\
  (forall a, a ∈ r.(IRB.buf) -> exists b, bufs !! a = Some b /\ zlen b = 1600) /\
  exists addrs, indirect.ind_holds r addrs /\
    Forall2 (stored bufs) addrs q.

Lemma stored_elsewhere bufs a b addrs q :
  a ∉ addrs -> Forall2 (stored bufs) addrs q -> Forall2 (stored (<[a := b]> bufs)) addrs q.
Proof.
  intros Ha. induction 1 as [|a' d addrs q (b0 & H1 & H2) _ IH]; [done|]. apply not_elem_of_cons in Ha as [Hne Ha].
  apply Forall2_cons_2; [|by apply IH]. exists b0. by rewrite lookup_insert_ne.
Qed.

Lemma count_all n data pos acc :
  (forall i, 0 <= i < Z.of_nat n -> exists c, data.[pos + i] = Some c /\ c <> 0) -> 0 <= acc ->
  acc + Z.of_nat n < 4294967296 -> count_nonzero n data pos acc = Some (acc + Z.of_nat n).
Proof.
  revert pos acc. induction n as [|n IH]; intros pos acc H Ha Hn; cbn [count_nonzero]; [f_equal; lia|].
  destruct (H 0) as (c & Hc & Hne); [lia|]. rewrite Z.add_0_r in Hc. rewrite Hc. sbind.
  destruct (0 =? c) eqn:E; zbool; [congruence|]. cbn [negb]. rewrite u32_id by lia. rewrite IH.
  - f_equal. lia.
  - intros i Hi. destruct (H (1 + i)) as (c' & Hc' & Hne'); [lia|]. exists c'. split; [|done]. rewrite <- Hc'. f_equal. lia.
  - lia.
  - lia.
Qed.

(** A byte for which the receiver's count works. *)
Definition text_byte (c : Z) : Prop := is_u8 c /\ c <> 0.

Definition message_ok (d : list Z) : Prop := Forall text_byte d /\ zlen d <= 1460 /\ zlen d mod 2 = 0.

Lemma message_bytes d : Forall text_byte d -> bytes d.
Proof. intros H j v Hj. apply zget_Some in Hj as [_ Hj]. by destruct (Forall_lookup_1 _ _ _ _ H Hj). Qed.

Lemma ring_fill bufs r q :
  ring_holds bufs r q -> zlen q < 9 ->
  exists a r' b, IRB.get_first_free_buffer r = Some (a, r') /\ bufs !! a = Some b /\ zlen b = 1600 /\
    forall b' d, message_in b' d -> ring_holds (<[a := b']> bufs) r' (q ++ [d]).
Proof.
  intros (Hnd & Hall & addrs & Hh & Hq) Hlen. pose proof (Forall2_length _ _ _ Hq) as Hle.
  pose proof (indirect.free_holds r addrs Hh) as Hf.
  destruct (zlen addrs <? 9) eqn:E; zbool; [|unfold zlen in *; lia].
  destruct Hf as (a & r' & Ha & Hget & -> & Hh').
  assert (a ∈ IRB.buf r) as Hin by (apply zget_Some in Ha as [_ Ha]; eapply list_elem_of_lookup_2; eauto).
  destruct (Hall a Hin) as (b & Hb & Hbl).
  assert (a ∉ addrs) as Hfresh by (eapply (holds_fresh IRB.LEN); eauto; unfold IRB.LEN; lia).
  eexists a, _, b. split; [exact Hget|]. split; [done|]. split; [done|]. intros b' d Hm.
  split; [done|]. split.
  - cbn [IRB.buf]. intros a' Ha'. destruct (decide (a' = a)) as [->|Hne].
    + exists b'. rewrite lookup_insert_eq. split; [done|apply Hm].
    + rewrite lookup_insert_ne by done. by apply Hall.
  - exists (addrs ++ [a]). split; [exact Hh'|]. apply Forall2_app.
    + by apply stored_elsewhere.
    + apply Forall2_cons_2; [|apply Forall2_nil_2]. exists b'. by rewrite lookup_insert_eq.
Qed.

Lemma ring_take bufs r d q :
  ring_holds bufs r (d :: q) ->
  exists a r' b, IRB.get_first_used_buffer r = Some (a, r') /\ bufs !! a = Some b /\ message_in b d /\
    ring_holds bufs r' q.
Proof.
  intros (Hnd & Hall & addrs & Hh & Hq). apply Forall2_cons_inv_r in Hq as (a & addrs' & (b & Hb & Hm) & Hq & ->).
  destruct (indirect.used_holds r _ Hh) as (_ & E & Hh'). eexists a, _, b. split; [exact E|]. split; [done|].
  split; [done|]. split; [done|]. split; [done|]. by exists addrs'.
Qed.

(** What the receiver stores in the buffer. *)
Lemma store_message b f pos d :
  zlen b = 1600 -> zlen d <= 1460 -> 0 <= pos -> pos + zlen d <= zlen f ->
  (forall i, 0 <= i < zlen d -> f.[pos + i] = d.[i]) ->
  exists b1 b2, put32 b 0 (zlen d) = Some b1 /\ memcpy b1 4 f pos (Z.to_nat (zlen d)) = Some b2 /\ message_in b2 d.
Proof.
  intros Hb Hd Hp Hf Hc. pose proof (zlen_nonneg d) as H0.
  destruct (put32_wrote b 0 (zlen d)) as (b1 & E1 & W1); [lia|lia|].
  destruct (memcpy_wrote (zlen d) b1 4 f pos) as (b2 & E2 & W2); try lia; [rewrite (proj1 W1); lia|].
  exists b1, b2. split; [done|]. split; [done|].
  assert (forall j, 0 <= j < 4 -> b2.[j] = dword_at 0 (zlen d) j) as H4.
  { intros j Hj. rewrite (proj2 W2), copied_out by lia. rewrite (proj2 W1) by lia.
    by assert (j = 0 \/ j = 1 \/ j = 2 \/ j = 3) as [->|[->|[->| ->]]] by lia. }
  split; [rewrite (proj1 W2), (proj1 W1); done|]. split.
  - unfold get32, get16. rewrite !H4 by lia.
    change (Some (u8 (zlen d) + 256 * u8 (zlen d / 256) + 65536 * (u8 (zlen d / 65536) + 256 * u8 (zlen d / 65536 / 256))) =
      Some (zlen d)). f_equal. apply dword_bytes. unfold is_u32. lia.
  - intros i Hi. rewrite (proj2 W2), copied_in by lia. replace (pos + (4 + i - 4)) with (pos + i) by lia.
    rewrite Hc by lia. destruct (zget_in d i) as [v ->]; [lia|done].
Qed.

Section delivery.
Context (fresh : Z -> list Z).
Context (Hfresh : forall n, 0 <= n -> n <= zlen (fresh n) /\ bytes (fresh n)).

(** ** A segment *)

(** A frame for [port], with the sequence number [seq] and the data [d]. *)
Definition carries (port seq : Z) (f d : list Z) : Prop :=
  exists ip s flags, frame_ok f ip s flags d /\ socket_ok s /\ s.(dst_port) = port /\ s.(seq_num) = seq /\
    (flags = ACK \/ flags = Z.lor PSH ACK) /\ message_ok d.

Lemma empty_ok : message_ok [].
Proof. split; [by apply Forall_nil|done]. Qed.

(** An established socket [r] at [port] whose ring gives the buffer [b] at [a]
    gets the segment it expects. *)
Section receive.
Context (t : tcp) (port : Z) (r : TcpSocket) (f d : list Z) (a : Z) (r1 : IRB.t) (b : list Z).
Context (Hrok : socket_ok r) (Hif : if_ok t.(net_if)).
Context (Hr : t.(sockets).[port] = Some (Some r)) (Hst : r.(state) = ESTABLISHED).
Context (Hget : IRB.get_first_free_buffer r.(recv_buffer) = Some (a, r1)).
Context (Hb : t.(bufs) !! a = Some b) (Hbl : zlen b = 1600).
Context (Hf : carries port r.(ack_num) f d).

(** The receiver afterwards. *)
Record received (t' : tcp) (r' : TcpSocket) : Prop := {
  rc_socket : t'.(sockets).[port] = Some (Some r');
  rc_ok : socket_ok r';
  rc_state : r'.(state) = ESTABLISHED;
  rc_ack : r'.(ack_num) = u32 (r.(ack_num) + zlen d);
  rc_same : r'.(seq_num) = r.(seq_num) /\ r'.(dst_port) = r.(dst_port);
  rc_ring : r'.(recv_buffer) = r1;
  rc_bufs : exists b', t'.(bufs) = <[a := b']> t.(bufs) /\ message_in b' d;
  rc_if : if_ok t'.(net_if);
  rc_answer : exists f', t'.(sent) = t.(sent) ++ [f'] /\ carries r.(dst_port) r.(seq_num) f' [];
}.

Lemma receive_data_spec : exists t' r', receive_data fresh t port r f 34 (24 + zlen d) = Some t' /\ received t' r'.
Proof.
  destruct Hf as (ip & s & flags & [Hl Hpay _ _ _ [_ _ F3 _ F5 _]] & Hs & _ & Hseq & _ & Htext & Hlen & _).
  pose proof (zlen_nonneg d) as H0.
  unfold receive_data. change (34 + 12) with 46 in *. rewrite F5. sbind. change (Z.shiftr 96 4 * 4) with 24.
  change (34 + 24) with 58. replace (24 + zlen d - 24) with (zlen d) by lia.
  rewrite count_all, Z2Nat.id, Z.add_0_l; [sbind| | | |]; try lia.
  2: { intros i Hi. rewrite Z2Nat.id in Hi by lia. rewrite Hpay by lia. destruct (zget_in d i) as [c Hc]; [lia|].
       exists c. split; [done|]. apply zget_Some in Hc as [_ Hc]. by destruct (Forall_lookup_1 _ _ _ _ Htext Hc). }
  change (34 + 4) with 38 in *. rewrite F3. sbind. rewrite swap_double_word_involutive by apply Hs. rewrite Hseq, Z.eqb_refl.
  rewrite Hget. sbind. rewrite Hb. sbind.
  destruct (store_message b f 58 d) as (b1 & b2 & -> & E2 & Hm); [done|lia|lia|lia|done|]. sbind. rewrite E2. sbind.
  set (r' := set_ack (set_recv_buffer r r1) _). assert (socket_ok r') as Hr'.
  { destruct Hrok as (A1 & A2 & A3 & A4 & A5 & A6 & A7 & A8). unfold socket_ok, r'; cbn. split_and!; try done. apply u32_range. }
  destruct (send_spec fresh Hfresh (with_bufs t (<[a := b2]> (bufs t))) r' ACK Hif Hr') as (f' & i' & -> & Hi' & _ & Hf'); [done|]. sbind.
  unfold put_socket. cbn [sockets with_sent with_if with_bufs]. rewrite zset_in by (by apply zget_lt in Hr). sbind.
  eexists _, r'. split; [reflexivity|]. constructor; cbn; try done.
  - apply zget_put. by apply zget_lt in Hr.
  - by exists b2.
  - exists f'. split; [done|]. eexists _, r', ACK. split; [exact Hf'|]. split_and!; try first [done|by left|apply empty_ok].
Qed.

Lemma handle_carried no : exists t' r', handle_packet fresh no t f (zlen f) = Some t' /\ received t' r'.
Proof.
  destruct receive_data_spec as (t' & r' & E & H). exists t', r'. split; [|exact H].
  destruct Hf as (ip & s & flags & Hfo & Hs & Hport & _ & Hflags & _ & Hlen & _).
  rewrite (fo_len _ _ _ _ _ Hfo), (handle_data_frame fresh no t f ip s flags d) by (done || lia).
  destruct (resolve_unfold f ip s Hs _ _ Hfo) as (seq & Es & Hsw & Hfl & Hdp & Hsp).
  unfold resolve_packet. change (34 + 2) with 36. change (34 + 13) with 47. change (34 + 4) with 38.
  rewrite Hdp. sbind. rewrite Hsp. sbind. rewrite !swap_word_involutive by apply Hs.
  unfold get_socket. rewrite Hport, Hr. sbind. rewrite Hfl. sbind. rewrite Es. sbind.
  replace (Z.land flags (Z.lor (Z.lor SYN ACK) FIN)) with ACK by (destruct Hflags as [-> | ->]; reflexivity).
  change (ACK =? SYN) with false. change (ACK =? Z.lor SYN ACK) with false.
  change (ACK =? FIN) with false. change (ACK =? Z.lor FIN ACK) with false. rewrite Z.eqb_refl. cbv iota. cbn [orb].
  rewrite Hst. repeat (rewrite decide_False by done). exact E.
Qed.
End receive.

(** An acknowledgement is taken for a message without bytes: it takes a receive
    buffer, and is answered with an acknowledgement. *)
Lemma ack_is_answered no t port r f q :
  socket_ok r -> if_ok t.(net_if) -> t.(sockets).[port] = Some (Some r) -> r.(state) = ESTABLISHED ->
  ring_holds t.(bufs) r.(recv_buffer) q -> zlen q < 9 -> carries port r.(ack_num) f [] ->
  exists t' r' f', handle_packet fresh no t f (zlen f) = Some t' /\ t'.(sockets).[port] = Some (Some r') /\
    ring_holds t'.(bufs) r'.(recv_buffer) (q ++ [[]]) /\
    t'.(sent) = t.(sent) ++ [f'] /\ carries r.(dst_port) r.(seq_num) f' [].
Proof.
  intros Hrok Hif Hr Hst Hq Hroom Hf. destruct (ring_fill _ _ _ Hq Hroom) as (a & r1 & b & Hget & Hb & Hbl & Hring).
  destruct (handle_carried t port r f [] a r1 b) with (no := no) as (t' & r' & E & [R1 _ _ _ _ R6 (b' & R7 & R8) _ (f' & R9 & R10)]);
    try done. exists t', r', f'. split_and!; try done. rewrite R6, R7. by apply Hring.
Qed.

(** ** The two ends *)

(** Frames with the data [ds], one behind the other in the sequence numbers from
    [seq] to [seq']. *)
Fixpoint flight (port seq : Z) (fs ds : list (list Z)) (seq' : Z) : Prop :=
  match fs, ds with
  | [], [] => seq = seq'
  | f :: fs, d :: ds => carries port seq f d /\ flight port (u32 (seq + zlen d)) fs ds seq'
  | _, _ => False
  end.

Lemma flight_snoc port seq fs ds seq' f d :
  flight port seq fs ds seq' -> carries port seq' f d ->
  flight port seq (fs ++ [f]) (ds ++ [d]) (u32 (seq' + zlen d)).
Proof.
  revert seq ds. induction fs as [|g fs IH]; intros seq [|e ds] H Hf; cbn in *; try done; [by subst|].
  destruct H as [Hg H]. split; [done|]. by apply IH.
Qed.

(** What is next, and what remains. *)
Lemma flight_next port seq fs ds seq' n m d :
  flight port seq (drop n fs) (drop m ds) seq' -> ds !! m = Some d ->
  exists f, fs !! n = Some f /\ carries port seq f d /\ flight port (u32 (seq + zlen d)) (drop (S n) fs) (drop (S m) ds) seq'.
Proof.
  intros H Hd. rewrite (drop_S _ _ _ Hd) in H. destruct (drop n fs) as [|f fs'] eqn:E; [done|].
  assert (fs !! n = Some f) as Hf by (rewrite <- (Nat.add_0_r n), <- lookup_drop, E; done).
  rewrite (drop_S _ _ _ Hf) in E. injection E as <-. by exists f.
Qed.

(** The memory behind every pointer of the ring, the null pointer included, which
    [get_first_free_buffer] gives when the ring is full, and with which [connect]
    leaves all places of the ring. *)
Definition ring_leads (bufs : gmap Z (list Z)) (r : IRB.t) : Prop :=
  (exists addrs, indirect.ind_holds r addrs) /\
  forall a, a = 0 \/ a ∈ r.(IRB.buf) -> exists b, bufs !! a = Some b /\ zlen b = 1600.

Lemma ring_any bufs r :
  ring_leads bufs r ->
  exists a r' b, IRB.get_first_free_buffer r = Some (a, r') /\ bufs !! a = Some b /\ zlen b = 1600 /\
    forall b', zlen b' = 1600 -> ring_leads (<[a := b']> bufs) r'.
Proof.
  intros [[addrs Hh] Hall]. pose proof (indirect.free_holds r addrs Hh) as Hf.
  assert (forall r' a, r'.(IRB.buf) = r.(IRB.buf) -> (exists addrs, indirect.ind_holds r' addrs) ->
    forall b', zlen b' = 1600 -> ring_leads (<[a := b']> bufs) r') as Hkeep.
  { intros r' a Er Hh' b' Hb'. split; [done|]. intros a'. rewrite Er. intros Ha'. destruct (decide (a' = a)) as [->|].
    - exists b'. by rewrite lookup_insert_eq.
    - rewrite lookup_insert_ne by done. by apply Hall. }
  destruct (zlen addrs <? 9).
  - destruct Hf as (a & r' & Ha & Hget & -> & Hh'). apply zget_Some in Ha as [_ Ha].
    destruct (Hall a) as (b & Hb & Hbl); [right; eapply list_elem_of_lookup_2; eauto|].
    eexists a, _, b. split_and!; try done. apply Hkeep; [done|by eexists].
  - destruct (Hall 0) as (b & Hb & Hbl); [by left|]. exists 0, r, b. split_and!; try done. apply Hkeep; [done|by eexists].
Qed.

(** The two machines, and how many frames of the other one each has got. *)
Record ends := mk_ends { client : tcp; server : tcp; client_got : nat; server_got : nat }.

(** The client's process sends, a frame arrives, the server's process receives. *)
Inductive event := Send (d : list Z) | ToServer | ToClient | Take.

Definition step (no : bool) (p port : Z) (e : event) (w : ends) : option (list (list Z) * ends) :=
  let '(mk_ends c s cg sg) := w in
  match e with
  | Send d => c ← send_socket fresh c p d (zlen d); Some ([], mk_ends c s cg sg)
  | ToServer => f ← c.(sent) !! sg; s ← handle_packet fresh no s f (zlen f); Some ([], mk_ends c s cg (S sg))
  | ToClient => f ← s.(sent) !! cg; c ← handle_packet fresh no c f (zlen f); Some ([], mk_ends c s (S cg) sg)
  | Take => '(buf, s) ← recv s port (replicate 1460 0) 1460; Some ([buf], mk_ends c s cg sg)
  end.

Fixpoint run {A} (step : event -> A -> option (list (list Z) * A)) (es : list event) (w : A) : option (list (list Z) * A) :=
  match es with
  | [] => Some ([], w)
  | e :: es' => '(out, w) ← step e w; '(outs, w) ← run step es' w; Some (out ++ outs, w)
  end.

(** ** The queue they are to implement *)

(** What [recv] leaves in a buffer of 1460 zeros. *)
Definition padded (d : list Z) : list Z := d ++ replicate (1460 - length d) 0.

(** The messages the client has put on the wire, how many of them have arrived
    and been taken, and how many answers have been handed to the client. *)
Record line := mk_line { posted : list (list Z); arrived : nat; taken : nat; answered : nat }.

(** An answer of the server makes the client post an empty message. More than nine
    messages that have not been taken, and a [recv] without a message, have no
    meaning. *)
Definition line_step (e : event) (l : line) : option (list (list Z) * line) :=
  let '(mk_line ps a k b) := l in
  match e with
  | Send d => Some ([], mk_line (ps ++ [d]) a k b)
  | ToServer => if decide (a < length ps /\ a - k < 9)%nat then Some ([], mk_line ps (S a) k b) else None
  | ToClient => if decide (b < a)%nat then Some ([], mk_line (ps ++ [[]]) a k (S b)) else None
  | Take => if decide (k < a)%nat then d ← ps !! k; Some ([padded d], mk_line ps a (S k) b) else None
  end.

Definition event_ok (e : event) : Prop := match e with Send d => message_ok d | _ => True end.

(** The messages of the client that have bytes. *)
Definition texts (ds : list (list Z)) : list (list Z) := filter (fun d => d <> []) ds.
Definition sends (es : list event) : list (list Z) := concat (map (fun e => match e with Send d => [d] | _ => [] end) es).

(** ** The machines implement the queue *)

(** An end of the connection: its socket [r] at [port], with the other end at
    [peer]. *)
Record end_ok (t : tcp) (port peer : Z) (r : TcpSocket) : Prop := {
  eo_socket : t.(sockets).[port] = Some (Some r);
  eo_ok : socket_ok r;
  eo_state : r.(state) = ESTABLISHED;
  eo_peer : r.(dst_port) = peer;
  eo_if : if_ok t.(net_if);
}.

(** The two ends, with messages on the way in both directions. *)
Record linked (p port : Z) (w : ends) (l : line) (rc rs : TcpSocket) : Prop := {
  lk_client : end_ok w.(client) p port rc;
  lk_server : end_ok w.(server) port p rs;
  lk_to_server : flight port rs.(ack_num) (drop w.(server_got) w.(client).(sent)) (drop l.(arrived) l.(posted)) rc.(seq_num);
  lk_to_client : flight p rc.(ack_num) (drop w.(client_got) w.(server).(sent)) (replicate (l.(arrived) - l.(answered)) []) rs.(seq_num);
  lk_server_ring : ring_holds w.(server).(bufs) rs.(recv_buffer) (drop l.(taken) (take l.(arrived) l.(posted)));
  lk_client_ring : ring_leads w.(client).(bufs) rc.(recv_buffer);
  lk_messages : Forall message_ok l.(posted);
  lk_counts : (l.(taken) <= l.(arrived) <= length l.(posted))%nat /\ (l.(answered) <= l.(arrived))%nat /\
    (w.(server_got) <= length w.(client).(sent))%nat /\ (w.(client_got) <= length w.(server).(sent))%nat;
}.

Lemma end_ok_put t t' port peer r r' :
  end_ok t port peer r -> t'.(sockets).[port] = Some (Some r') -> socket_ok r' -> r'.(state) = r.(state) ->
  r'.(dst_port) = r.(dst_port) -> if_ok t'.(net_if) -> end_ok t' port peer r'.
Proof. intros []. constructor; congruence. Qed.

(** [send_socket] puts a frame with the data on the wire. *)
Lemma send_carries t port peer r d :
  end_ok t port peer r -> message_ok d ->
  exists t' r' f, send_socket fresh t port d (zlen d) = Some t' /\ end_ok t' port peer r' /\
    t'.(sent) = t.(sent) ++ [f] /\ carries peer r.(seq_num) f d /\ t'.(bufs) = t.(bufs) /\
    r'.(seq_num) = u32 (r.(seq_num) + zlen d) /\ r'.(ack_num) = r.(ack_num) /\ r'.(recv_buffer) = r.(recv_buffer).
Proof.
  intros He Hd. pose proof He as [Hr Hok Hst Hp Hif]. pose proof Hd as (Htext & Hlen & Hev).
  unfold send_socket, get_socket. rewrite Hr. sbind.
  destruct (send_data_spec fresh Hfresh t r (Z.lor PSH ACK) d [] Hif Hok) as (f & i' & E & Hi' & _ & Hf); try done.
  { rewrite app_nil_r. by apply message_bytes. }
  rewrite app_nil_r in E. rewrite E. sbind. unfold put_socket. cbn [sockets with_sent with_if].
  rewrite zset_in by (by apply zget_lt in Hr). sbind. eexists _, (set_seq r (u32 (seq_num r + zlen d))), f.
  split; [reflexivity|]. split.
  { eapply end_ok_put; [exact He|apply zget_put; by apply zget_lt in Hr| |done|done|done].
    destruct Hok as (A1 & A2 & A3 & A4 & A5 & A6 & A7 & A8). unfold socket_ok; cbn. split_and!; try done. apply u32_range. }
  split; [done|]. split; [|done]. eexists _, r, (Z.lor PSH ACK). split_and!; try done. by right.
Qed.

(** A frame arrives at an end. *)
Lemma arrive_carried no t port peer r f d a r1 b :
  end_ok t port peer r -> carries port r.(ack_num) f d ->
  IRB.get_first_free_buffer r.(recv_buffer) = Some (a, r1) -> t.(bufs) !! a = Some b -> zlen b = 1600 ->
  exists t' r' f' b', handle_packet fresh no t f (zlen f) = Some t' /\ end_ok t' port peer r' /\
    t'.(sent) = t.(sent) ++ [f'] /\ carries peer r.(seq_num) f' [] /\ t'.(bufs) = <[a := b']> t.(bufs) /\ message_in b' d /\
    r'.(seq_num) = r.(seq_num) /\ r'.(ack_num) = u32 (r.(ack_num) + zlen d) /\ r'.(recv_buffer) = r1.
Proof.
  intros He Hf Hget Hb Hbl. pose proof He as [Hr Hok Hst Hp Hif].
  destruct (handle_carried t port r f d a r1 b) with (no := no)
    as (t' & r' & E & [R1 R2 R3 R4 [R5 R5'] R6 (b' & R7 & R8) R9 (f' & R10 & R11)]); try done.
  exists t', r', f', b'. split; [done|]. split; [by eapply end_ok_put; eauto; congruence|]. rewrite Hp in R11. done.
Qed.

(** An answer does not use up sequence numbers. *)
Lemma flight_answer port seq fs ds r f :
  flight port seq fs ds r.(seq_num) -> socket_ok r -> carries port r.(seq_num) f [] ->
  flight port seq (fs ++ [f]) (ds ++ [[]]) r.(seq_num).
Proof.
  intros H Hok Hf. pose proof (flight_snoc _ _ _ _ _ _ _ H Hf) as H'. change (zlen []) with 0 in H'.
  rewrite Z.add_0_r, u32_id in H'; [done|]. apply Hok.
Qed.

(** [recv] takes the first message. *)
Lemma take_first t port peer r d q :
  end_ok t port peer r -> ring_holds t.(bufs) r.(recv_buffer) (d :: q) -> zlen d <= 1460 ->
  exists t' r', recv t port (replicate 1460 0) 1460 = Some (padded d, t') /\ end_ok t' port peer r' /\
    ring_holds t'.(bufs) r'.(recv_buffer) q /\ t'.(sent) = t.(sent) /\
    r'.(seq_num) = r.(seq_num) /\ r'.(ack_num) = r.(ack_num).
Proof.
  intros He Hq Hlen. pose proof He as [Hr Hok Hst Hp Hif].
  pose proof (zlen_nonneg d) as H0. unfold recv, get_socket. rewrite Hr. sbind.
  destruct (ring_take _ _ _ _ Hq) as (a & r' & b & -> & Hbuf & (Hbl & Hblen & Hbytes) & Hq'). sbind.
  unfold put_socket. rewrite zset_in by (by apply zget_lt in Hr). sbind. cbn [bufs with_sockets]. rewrite Hbuf. sbind.
  rewrite Hblen. sbind. assert ((if zlen d <? 1460 then zlen d else 1460) = zlen d) as ->
    by (destruct (zlen d <? 1460) eqn:E; zbool; lia).
  destruct (memcpy_wrote (zlen d) (replicate 1460 0) 0 b 4) as (buf & -> & Wz & W); [lia..|done|lia|]. sbind.
  eexists _, (set_recv_buffer r r'). split.
  - do 2 f_equal. apply zget_ext.
    + rewrite Wz. unfold padded. rewrite zlen_app. unfold zlen in *. rewrite !length_replicate. lia.
    + intros i Hi. rewrite W by lia. unfold padded. destruct (decide (i < zlen d)) as [Hlt|Hge].
      * rewrite copied_in, zget_app_l by lia. replace (4 + (i - 0)) with (4 + i) by lia. rewrite Hbytes by lia.
        destruct (zget_in d i) as [v ->]; [lia|done].
      * rewrite copied_out, zget_app_r by lia. rewrite Wz in Hi.
        unfold zget, zlen in *. rewrite length_replicate in Hi.
        rewrite !(proj2 (Z.leb_le 0 _)) by lia. rewrite !lookup_replicate_2 by lia. done.
  - split; [|done]. eapply end_ok_put; [exact He|apply zget_put; by apply zget_lt in Hr|done..].
Qed.

(** Each event keeps the link, with the same outcome. *)
Lemma step_linked no p port e w l rc rs out l' :
  linked p port w l rc rs -> event_ok e -> line_step e l = Some (out, l') ->
  exists w' rc' rs', step no p port e w = Some (out, w') /\ linked p port w' l' rc' rs'.
Proof.
  destruct w as [c s cg sg], l as [ps a k b]. intros [Hc Hs Hts Htc Hsr Hcr Hms (Hn & Hb & Hsg & Hcg)] He.
  cbn [client server client_got server_got posted arrived taken answered] in *.
  destruct e as [d| | |]; cbn [line_step step]; try case_decide as Hd; try done.
  - intros [= <- <-]. destruct (send_carries c p port rc d Hc He) as (c' & rc' & f & -> & Hc' & Es & Hf & Eb & Eseq & Eack & Er).
    sbind. eexists _, rc', rs. split; [reflexivity|].
    constructor; cbn [client server client_got server_got posted arrived taken answered]; rewrite ?Es, ?Eb, ?Eseq, ?Eack, ?Er, ?length_app; try done.
    + rewrite !drop_app_le by lia. by apply flight_snoc.
    + rewrite take_app_le by lia. done.
    + apply Forall_app. split; [done|]. by apply Forall_singleton.
    + lia.
  - intros [= <- <-]. destruct (lookup_lt_is_Some_2 ps a) as [d Hda]; [lia|].
    destruct (flight_next _ _ _ _ _ _ _ _ Hts Hda) as (f & Hf & Hcf & Hts'). rewrite Hf. sbind.
    destruct (ring_fill _ _ _ Hsr) as (x & r1 & b0 & Hget & Hb0 & Hbl & Hring).
    { unfold zlen. rewrite length_drop, length_take. lia. }
    destruct (arrive_carried no s port p rs f d x r1 b0 Hs Hcf Hget Hb0 Hbl)
      as (s' & rs' & f' & b' & -> & Hs' & Es & Hf' & Eb & Hm & Eseq & Eack & Er). sbind.
    eexists _, rc, rs'. split; [reflexivity|].
    constructor; cbn [client server client_got server_got posted arrived taken answered];
      rewrite ?Es, ?Eb, ?Eseq, ?Eack, ?Er, ?length_app; try done.
    + rewrite drop_app_le by lia. replace (S a - b)%nat with (a - b + 1)%nat by lia. rewrite replicate_add.
      apply flight_answer; [done|apply Hs|done].
    + rewrite (take_S_r _ _ _ Hda), drop_app_le by (rewrite length_take; lia). by apply Hring.
    + apply lookup_lt_Some in Hf. lia.
  - intros [= <- <-]. assert (replicate (a - b) (@nil Z) !! 0%nat = Some []) as H0 by (apply lookup_replicate_2; lia).
    destruct (flight_next p (ack_num rc) (sent s) (replicate (a - b) []) (seq_num rs) cg 0 [] Htc H0) as (f & Hf & Hcf & Htc').
    rewrite Hf. sbind. destruct (ring_any _ _ Hcr) as (x & r1 & b0 & Hget & Hb0 & Hbl & Hring).
    destruct (arrive_carried no c p port rc f [] x r1 b0 Hc Hcf Hget Hb0 Hbl)
      as (c' & rc' & f' & b' & -> & Hc' & Es & Hf' & Eb & Hm & Eseq & Eack & Er). sbind.
    eexists _, rc', rs. split; [reflexivity|].
    constructor; cbn [client server client_got server_got posted arrived taken answered];
      rewrite ?Es, ?Eb, ?Eseq, ?Eack, ?Er, ?length_app; try done.
    + rewrite !drop_app_le by lia. apply flight_answer; [done|apply Hc|done].
    + replace (a - b)%nat with (S (a - S b)) in Htc' by lia. exact Htc'.
    + rewrite take_app_le by lia. done.
    + apply Hring, Hm.
    + apply Forall_app. split; [done|]. apply Forall_singleton, empty_ok.
    + apply lookup_lt_Some in Hf. cbn [length]. lia.
  - destruct (lookup_lt_is_Some_2 ps k) as [d Hdk]; [lia|]. rewrite Hdk. cbn [mbind option_bind]. intros [= <- <-].
    assert (take a ps !! k = Some d) as Htk by (by rewrite lookup_take_lt).
    rewrite (drop_S _ _ _ Htk) in Hsr.
    destruct (take_first s port p rs d _ Hs Hsr) as (s' & rs' & -> & Hs' & Hq' & Es & Eseq & Eack);
      [by destruct (Forall_lookup_1 _ _ _ _ Hms Hdk) as (_ & ? & _)|].
    sbind. eexists _, rc, rs'. split; [reflexivity|].
    constructor; cbn [client server client_got server_got posted arrived taken answered]; rewrite ?Es, ?Eseq, ?Eack; try done. lia.
Qed.
Lemma run_linked no p port es : forall w l rc rs outs l',
  linked p port w l rc rs -> Forall event_ok es -> run line_step es l = Some (outs, l') ->
  exists w' rc' rs', run (step no p port) es w = Some (outs, w') /\ linked p port w' l' rc' rs'.
Proof.
  induction es as [|e es IH]; intros w l rc rs outs l' Hl Hes H; cbn [run] in *.
  { injection H as <- <-. by exists w, rc, rs. }
  apply Forall_cons in Hes as [He Hes]. destruct (line_step e l) as [[out l1]|] eqn:E; [|done].
  destruct (step_linked no p port e w l rc rs out l1 Hl He E) as (w1 & rc1 & rs1 & -> & Hl1).
  cbn [mbind option_bind] in H |- *. destruct (run line_step es l1) as [[outs1 l2]|] eqn:E1; [|done].
  cbn [mbind option_bind] in H. injection H as <- <-.
  destruct (IH w1 l1 rc1 rs1 outs1 l2 Hl1 Hes E1) as (w2 & rc2 & rs2 & -> & Hl2). cbn [mbind option_bind].
  by exists w2, rc2, rs2.
Qed.
End delivery.

(** The queue is first in, first out, and only empty messages are added to those
    that were sent. *)
Lemma line_fifo es : forall l outs l',
  run line_step es l = Some (outs, l') ->
  exists extra, l'.(posted) = l.(posted) ++ extra /\ texts extra = texts (sends es) /\ (l.(taken) <= l'.(taken))%nat /\
    outs = map padded (take (l'.(taken) - l.(taken)) (drop l.(taken) l'.(posted))).
Proof.
  induction es as [|e es IH]; intros l outs l' H; cbn [run] in H.
  { injection H as <- <-. exists []. rewrite app_nil_r, Nat.sub_diag. done. }
  destruct (line_step e l) as [[out l1]|] eqn:E; [|done]. cbn [mbind option_bind] in H.
  destruct (run line_step es l1) as [[outs1 l2]|] eqn:E1; [|done]. cbn [mbind option_bind] in H. injection H as <- <-.
  destruct (IH _ _ _ E1) as (extra & Hp & Ht & Hle & ->). destruct l as [ps a k b].
  destruct e as [d| | |]; cbn [line_step] in E; try case_decide; try done.
  - injection E as <- <-. cbn [posted taken] in *. exists (d :: extra). rewrite Hp, <- app_assoc. split; [done|].
    split; [|done]. unfold texts in *. cbn [sends map concat app]. rewrite !filter_cons. case_decide; by rewrite Ht.
  - injection E as <- <-. by exists extra.
  - injection E as <- <-. cbn [posted taken] in *. exists ([] :: extra). rewrite Hp, <- app_assoc. split; [done|].
    split; [|done]. unfold texts in *. rewrite filter_cons, decide_False by (intros []; done). done.
  - destruct (ps !! k) as [d|] eqn:Ed; [|done]. cbn [mbind option_bind] in E. injection E as <- <-.
    cbn [posted taken] in *. exists extra. split; [done|]. split; [done|]. split; [lia|].
    assert (posted l2 !! k = Some d) as Hd by (rewrite Hp; by apply lookup_app_l_Some).
    rewrite (drop_S _ _ _ Hd). replace (taken l2 - k)%nat with (S (taken l2 - S k)) by lia. done.
Qed.

(** A connection on which everything that was sent has arrived. *)
Record connected (p port : Z) (w : ends) (rc rs : TcpSocket) : Prop := {
  cn_client : end_ok w.(client) p port rc;
  cn_server : end_ok w.(server) port p rs;
  cn_numbers : rs.(ack_num) = rc.(seq_num) /\ rc.(ack_num) = rs.(seq_num);
  cn_got : w.(server_got) = length w.(client).(sent) /\ w.(client_got) = length w.(server).(sent);
  cn_server_ring : ring_holds w.(server).(bufs) rs.(recv_buffer) [];
  cn_client_ring : ring_leads w.(client).(bufs) rc.(recv_buffer);
}.


(** The machines of Handshake.v with a connection from port 12 to port 80; the
    client's ring is that of fresh memory, ten null pointers. *)
Definition sender_end : TcpSocket :=
  mk_TcpSocket 12 [172; 17; 0; 2] 80 [172; 17; 0; 3] 1 1 ESTABLISHED (IRB.mk (replicate 10 0) 0 0) 0x96000 true.
Definition receiver_end : TcpSocket :=
  mk_TcpSocket 80 [172; 17; 0; 3] 12 [172; 17; 0; 2] 1 1 ESTABLISHED (IRB.mk indirect.ten 0 0) 0x96000 true.
Definition sending : tcp :=
  mk_tcp (<[12%nat := Some sender_end]> (replicate 128 None)) (demo_if [172; 17; 0; 2]) {[0 := replicate 1600 0]} [] [].
Definition receiving : tcp :=
  mk_tcp (<[80%nat := Some receiver_end]> (replicate 128 None)) (demo_if [172; 17; 0; 3])
    (list_to_map (map (fun a => (a, replicate 1600 0)) indirect.ten)) [] [].
Definition demo_ends : ends := mk_ends sending receiving 0 0.

Lemma demo_connected : connected 12 80 demo_ends sender_end receiver_end.
Proof.
  assert (forall x, x = sender_end \/ x = receiver_end -> socket_ok x) as Hok.
  { intros x [-> | ->]; unfold socket_ok, is_u16, is_u32; cbn; (split; [reflexivity|]); (split; [by apply bytes_forall|]);
      (split; [reflexivity|]); (split; [by apply bytes_forall|]); lia. }
  constructor; try (split; reflexivity).
  - constructor; try reflexivity; [apply Hok; by left|]. apply demo_if_ok; [reflexivity|by apply bytes_forall].
  - constructor; try reflexivity; [apply Hok; by right|]. apply demo_if_ok; [reflexivity|by apply bytes_forall].
  - split; [|split].
    + cbn. unfold indirect.ten. repeat (constructor; [set_solver|]). constructor.
    + cbn [recv_buffer receiver_end IRB.buf]. intros a Ha. exists (replicate 1600 0). split; [|reflexivity].
      unfold indirect.ten in Ha. set_unfold.
      repeat match goal with H : _ \/ _ |- _ => destruct H as [->|H] end; try reflexivity; done.
    + exists []. split; [|apply Forall2_nil_2]. apply (indirect.initialize_holds (IRB.mk (replicate 10 0) 0 0)); reflexivity.
  - split.
    + exists []. apply (indirect.initialize_holds (IRB.mk (replicate 10 0) 0 0)); reflexivity.
    + intros a Ha. assert (a = 0) as ->.
      { destruct Ha as [|Ha]; [done|]. cbn [recv_buffer sender_end IRB.buf] in Ha. by apply (elem_of_replicate 10) in Ha as [-> _]. }
      exists (replicate 1600 0). split; reflexivity.
Qed.

