(* ===== verification/AccessSpec.v ===== *)
(** * What a user may open and enter (fs/file.cc open_file, fs/dir.cc cd)

    Every answer of the two requests: the path leads nowhere, the user has not the
    right, the table of open files is full, or the request is granted.  A request
    that is refused changes no file, no descriptor and no directory. *)
From Stdlib Require Import String.
From S2P Require Import Prelude Bitmap CString FsState Inode Dir File FsTypes DirSpec FileSpec Users Accounts.
#[local] Open Scope string_scope.
#[global] Open Scope list_scope.
#[global] Open Scope Z_scope.

(** The two states differ only in what has been printed and in the memory that
    was asked for. *)
Definition same_files (s s' : fs) : Prop :=
  s' = mk_fs s.(disk) s.(sb) s.(block_bmap) s.(inode_bmap) s.(file_desc_tbl) s.(cur_dir) s.(uid) s.(clock)
         s.(junk) s'.(mallocs) s'.(frees) s'.(console).

#[export] Instance same_files_preorder : PreOrder same_files.
Proof.
  split.
  - by intros [].
  - intros a b c H1 H2. unfold same_files in *. rewrite H2, H1. done.
Qed.

Lemma heap_files s s' : same_but_heap s s' -> same_files s s'.
Proof. unfold same_but_heap, same_files. intros E. rewrite E at 1. rewrite E. done. Qed.

Lemma resolve_some names : forall s ino i, names <> [] -> resolve s ino names = Some i -> i <> NO_INODE.
Proof.
  induction names as [|n names IH]; intros s ino i Hn H; [done|]. cbn [resolve] in H.
  destruct (lookup_name _ _) as [j|]; [|done]. destruct (NO_INODE =? j) eqn:E; [done|]. zbool.
  destruct names as [|n' names]; [by injection H as <-|by apply (IH s j)].
Qed.

Lemma free_slot_range t : forall i, 0 <= i -> free_slot t i = -1 \/ i <= free_slot t i < i + zlen t.
Proof.
  induction t as [|[x|] t IH]; intros i Hi; cbn [free_slot]; [by left| |].
  - rewrite zlen_cons. destruct (IH (i + 1)) as [->|H]; [lia|by left|right; lia].
  - right. rewrite zlen_cons. pose proof (zlen_nonneg t). lia.
Qed.

Lemma runs_printf fmt args out s (Q : unit -> fs -> Prop) :
  vsprintf (text fmt ++ [0])%list args = Some out -> zlen out < 1024 ->
  Q tt (set_console (s.(console) ++ out) s) -> runs (printf fmt args) s Q.
Proof.
  intros E Hl HQ. unfold printf. apply runs_bind. eapply runs_lift; [exact E|].
  rewrite (proj2 (Z.ltb_lt _ _) Hl). by apply runs_modify.
Qed.

Lemma str_of_cstr p r : is_str p -> str_of (cstr p r) = p.
Proof.
  unfold cstr. induction 1 as [|c p [_ Hc] _ IH]; [done|]. cbn [app str_of]. rewrite truth_true by done. by rewrite IH.
Qed.

Section path.
Context (names : list (list Z)) (rest : list Z) (s : fs).
Let path := path_of names rest.
Context (Hne : names <> []) (Hok : Forall valid_name names) (Hbytes : Forall (Forall is_u8) names).
Context (Hlen : zlen (concat (map (cons 47) names)) < 64).
Context (Hend : dirs_end s s.(sb).(root_inode_no) names).

Lemma path_str : is_str (concat (map (cons 47) names)).
Proof.
  clear Hne Hlen Hend. induction names as [|n ns IH]; cbn [map concat]; [apply Forall_nil_2|].
  apply Forall_cons in Hok as [(_ & Hn & _) Hns]. apply Forall_cons in Hbytes as [Hb Hbs].
  apply Forall_app. split; [|by apply IH]. apply Forall_cons_2; [split; [unfold is_u8; lia|done]|].
  apply Forall_forall. intros c Hc. rewrite Forall_forall in Hn, Hb. split; [by apply Hb|by apply Hn].
Qed.

(** The inode of the path. *)
Definition target : option Z := resolve s s.(sb).(root_inode_no) names.

Lemma runs_lookup (Q : Z -> fs -> Prop) :
  (forall s', same_but_heap s s' -> Q (match target with Some i => i | None => NO_INODE end) s') ->
  runs (dir_is_exists path) s Q.
Proof.
  intros HQ. destruct (dir_is_exists_resolve names rest s Hne Hok Hend) as (s' & E & H).
  eexists _, s'. split; [exact E|]. by apply HQ.
Qed.

Lemma runs_ino2inode ino s0 (Q : inode -> fs -> Prop) :
  same_but_heap s s0 -> (forall s', same_but_heap s s' -> Q (inode_of s ino) s') -> runs (ino2inode ino) s0 Q.
Proof.
  intros H HQ. eexists _, _. split; [apply ino2inode_spec|]. rewrite (heap_inode_of s s0) by done. apply HQ.
  etrans; [exact H|]. etrans; [apply heap_malloc|apply heap_free].
Qed.

Lemma runs_get_slot s0 (Q : Z -> fs -> Prop) :
  same_but_heap s s0 -> Q (free_slot s.(file_desc_tbl) 0) s0 -> runs get_fdt_free_slot s0 Q.
Proof. intros -> HQ. unfold get_fdt_free_slot. by apply runs_bind, runs_gets, runs_ret. Qed.

Lemma printed s0 out : same_but_heap s s0 -> same_files s (set_console (s0.(console) ++ out) s0).
Proof. intros H. etrans; [by apply heap_files|done]. Qed.

(** A message with the path. *)
Lemma runs_printf_path (fmt : String.string) pre suf s0 (Q : unit -> fs -> Prop) :
  (forall p, zlen p < 4294967296 -> is_str p ->
     vsprintf (text fmt ++ [0])%list [AStr (cstr p rest)] = Some (pre ++ p ++ suf)) ->
  zlen pre + zlen suf < 900 -> same_but_heap s s0 -> (forall s', same_files s s' -> Q tt s') ->
  runs (printf fmt [AStr path]) s0 Q.
Proof.
  intros Hv Hl H HQ. eapply runs_printf.
  - apply Hv; [lia|exact path_str].
  - rewrite !zlen_app. lia.
  - apply HQ. by apply printed.
Qed.

Lemma allowed_heap s0 x op : same_but_heap s s0 -> allowed s0 x op = allowed s x op.
Proof. intros ->. done. Qed.

Definition open_answer (fd : Z) (s' : fs) : Prop :=
  match target with
  | Some ino =>
      let slot := free_slot s.(file_desc_tbl) 0 in
      if allowed s (inode_of s ino) access_mode.READ && negb (-1 =? slot) then
        fd = slot /\ same_files (set_fdt (<[Z.to_nat slot := Some (mk_file 0 (inode_of s ino))]> s.(file_desc_tbl)) s) s'
      else fd = -1 /\ same_files s s'
  | None => fd = -1 /\ same_files s s'
  end.

Lemma open_file_answers : runs (open_file path) s open_answer.
Proof.
  unfold open_file, open_answer. apply runs_bind, runs_lookup. intros s1 H1.
  destruct target as [ino|] eqn:Et.
  2: { rewrite Z.eqb_refl. apply runs_bind. eapply runs_printf; [vm_compute; reflexivity|reflexivity|].
       apply runs_ret. split; [done|by apply printed]. }
  rewrite (proj2 (Z.eqb_neq NO_INODE ino)) by (intros E; by apply (resolve_some _ _ _ _ Hne Et)).
  apply runs_bind. eexists _, _. split; [reflexivity|]. apply runs_bind, runs_ino2inode.
  { etrans; [exact H1|apply heap_malloc]. }
  intros s2 H2. apply runs_bind, runs_check. rewrite allowed_heap by done.
  destruct (allowed s (inode_of s ino) access_mode.READ); cbn [negb andb].
  - apply runs_bind. eexists _, _. split; [reflexivity|].
    assert (same_but_heap s (count_malloc s2)) as H3 by (etrans; [exact H2|apply heap_malloc]).
    apply runs_bind, runs_get_slot; [exact H3|]. set (slot := free_slot _ _) in *.
    destruct (Z.eqb_spec (-1) slot) as [E|E]; cbn [negb].
    + apply runs_ret. split; [done|by apply heap_files].
    + destruct (free_slot_range (file_desc_tbl s) 0) as [Hs|Hs]; [lia|by fold slot in Hs|]. fold slot in Hs.
      destruct (zget_in (file_desc_tbl s) slot) as [g Hg]; [lia|]. rewrite H3 in *. clear H1 H2 H3.
      apply runs_bind. eapply runs_set_file; [exact Hg|]. apply runs_ret. done.
  - apply runs_bind. eapply (runs_printf_path _ (text "Permission denied path: ") (text ".
")); [|done|exact H2|].
    + intros p Hp Hstr. set (fmt := (text _ ++ [0])%list). vm_compute in fmt. subst fmt.
      unfold vsprintf. cbn [length vsprintf_loop truth negb Z.eqb Pos.eqb].
      rewrite (strlen_cstr p rest) by done. sbind. unfold cstr. rewrite take_zlen. cbn [app]. by rewrite <- ?(assoc_L (++)).
    + intros s3 H3. apply runs_ret. done.
Qed.

Definition cd_answer (ok : bool) (s' : fs) : Prop :=
  match target with
  | Some ino =>
      if allowed s (inode_of s ino) access_mode.EXEC then
        ok = true /\ exists d, str_of d = concat (map (cons 47) names) /\ same_files (set_cur_dir d s) s'
      else ok = false /\ same_files s s'
  | None => ok = false /\ same_files s s'
  end.

Lemma cd_answers : runs (cd path) s cd_answer.
Proof.
  unfold cd, cd_answer. apply runs_bind, runs_lookup. intros s1 H1.
  destruct target as [ino|] eqn:Et; [|rewrite Z.eqb_refl; apply runs_ret; split; [done|by apply heap_files]].
  rewrite (proj2 (Z.eqb_neq NO_INODE ino)) by (intros E; by apply (resolve_some _ _ _ _ Hne Et)).
  apply runs_bind, runs_ino2inode; [exact H1|]. intros s2 H2.
  apply runs_bind, runs_check. rewrite allowed_heap by done.
  destruct (allowed s (inode_of s ino) access_mode.EXEC); cbn [negb].
  - apply runs_bind. eapply runs_lift; [apply (strcpy_prefix _ rest (replicate 64 0)) with (p := []); [exact path_str|]|].
    { rewrite length_replicate. unfold zlen in Hlen. lia. }
    apply runs_bind, runs_modify, runs_ret. split; [done|]. eexists. split; [|by rewrite H2].
    rewrite drop_replicate. unfold zlen in Hlen.
    destruct (64 - length (concat (map (cons 47%Z) names)))%nat as [|k] eqn:E; [lia|].
    apply str_of_cstr. exact path_str.
  - apply runs_bind. eapply (runs_printf_path _ (text "Permission denied. path: ") (text "
")); [|done|exact H2|].
    + intros p Hp Hstr. set (fmt := (text _ ++ [0])%list). vm_compute in fmt. subst fmt.
      unfold vsprintf. cbn [length vsprintf_loop truth negb Z.eqb Pos.eqb].
      rewrite (strlen_cstr p rest) by done. sbind. unfold cstr. rewrite take_zlen. cbn [app]. by rewrite <- ?(assoc_L (++)).
    + intros s3 H3. apply runs_ret. done.
Qed.
End path.

(** C11. Every answer of [open_file] and [cd], for a path of at least one valid
    name (not for [/] alone): when
    the names lead to no inode, or to one the user may not read (enter), or there
    is no free descriptor, the result is -1 (false) and no file, descriptor or
    directory has changed; otherwise the lowest free descriptor now stands for the
    inode at offset 0 (the current directory is the path), and nothing else has
    changed. *)
Theorem open_and_cd_answer names rest s :
  names <> [] -> Forall valid_name names -> Forall (Forall is_u8) names ->
  zlen (concat (map (cons 47) names)) < 64 -> dirs_end s s.(sb).(root_inode_no) names ->
  runs (open_file (path_of names rest)) s (open_answer names s) /\
  runs (cd (path_of names rest)) s (cd_answer names s).
Proof. intros. split; [by apply open_file_answers|by apply cd_answers]. Qed.

(** The owner of /etc/rc takes all rights from the others; then user 7 may not
    read it, but may enter /etc. *)
Definition stranger : fs := set_cur_uid 7 (state_after (sys_chmod (path_of [etc; rc] []) 0x38) demo).

Lemma names_demo ns : forallb (fun n => negb (bool_decide (n = [])) &&
    forallb (fun c => negb (c =? 0) && negb (c =? 47)) n && (length n <? 64)%nat) ns = true -> Forall valid_name ns.
Proof. rewrite forallb_forall. intros H. apply Forall_forall. intros n Hn%list_elem_of_In. by apply valid_name_dec, H. Qed.

Lemma bytes_demo ns : forallb (forallb (fun c => (0 <=? c) && (c <? 256))) ns = true -> Forall (Forall is_u8) ns.
Proof.
  rewrite forallb_forall. intros H. apply Forall_forall. intros n Hn%list_elem_of_In. specialize (H n Hn).
  rewrite forallb_forall in H. apply Forall_forall. intros c Hc%list_elem_of_In. specialize (H c Hc). zbool. unfold is_u8. lia.
Qed.

Lemma stranger_dirs :
  dirs_end stranger stranger.(sb).(root_inode_no) [etc; rc] /\ dirs_end stranger stranger.(sb).(root_inode_no) [etc].
Proof.
  replace (root_inode_no (sb stranger)) with 0 by (vm_compute; reflexivity).
  assert (names_end (entries stranger (i_sectors (inode_of stranger 0)))) as H
    by (apply names_end_dec; vm_compute; reflexivity).
  cbn [dirs_end]. replace (lookup_name _ etc) with (Some 1) by (vm_compute; reflexivity).
  split; (split; [exact H|]); [|exact I]. split; [apply names_end_dec; vm_compute; reflexivity|].
  by replace (lookup_name _ rc) with (Some 2) by (vm_compute; reflexivity).
Qed.

Lemma open_and_cd_answer_witness :
  runs (open_file (path_of [etc; rc] [])) stranger (fun fd s' => fd = -1 /\ same_files stranger s') /\
  runs (cd (path_of [etc] [])) stranger (fun ok s' => ok = true).
Proof.
  split.
  - destruct (open_and_cd_answer [etc; rc] [] stranger ltac:(discriminate) ltac:(apply names_demo; reflexivity)
                ltac:(apply bytes_demo; reflexivity) ltac:(reflexivity) (proj1 stranger_dirs)) as [R _].
    eapply runs_weaken; [exact R|]. intros fd s'. unfold open_answer.
    replace (target [etc; rc] stranger) with (Some 2) by (vm_compute; reflexivity).
    replace (allowed _ _ _) with false by (vm_compute; reflexivity). done.
  - destruct (open_and_cd_answer [etc] [] stranger ltac:(discriminate) ltac:(apply names_demo; reflexivity)
                ltac:(apply bytes_demo; reflexivity) ltac:(reflexivity) (proj2 stranger_dirs)) as [_ R].
    eapply runs_weaken; [exact R|]. intros ok s'. unfold cd_answer.
    replace (target [etc] stranger) with (Some 1) by (vm_compute; reflexivity).
    replace (allowed _ _ _) with true by (vm_compute; reflexivity). by intros [-> _].
Defined.
