(* ===== verification/Sync.v ===== *)
(** * Locks exclude each other's holders (kernel/sync.cc)

    The uninterrupted pieces of [acquire] and [release] (Process.v) as steps of a
    system in which the timer can switch processes between any two of them. *)
From S2P Require Import Prelude Mem Process Scheduler Machine KernelMain.

(** The kernel, a lock, and where each process is in its use of the lock. *)
Record lock_system := mk_system { sys_kernel : kernel; sys_lock : Lock; places : Z -> place }.

Definition all_outside : Z -> place := fun _ => Outside.

(** The current process does the next piece of [acquire], which it may call again
    while it is inside; or the next piece of [release], which it calls while it is
    inside; or the system does anything else: interrupts, switches, other calls. *)
Inductive lock_step (fuel : nat) : lock_system -> lock_system -> Prop :=
| step_acquire k l ps at_ l' k' :
    k.(cur_proc) <> NULL -> acquire_step fuel k l (ps k.(cur_proc)) = Some (at_, l', k') ->
    lock_step fuel (mk_system k l ps) (mk_system k' l' (upd ps k.(cur_proc) at_))
| step_release k l ps at_ l' k' :
    k.(cur_proc) <> NULL -> ps k.(cur_proc) <> Outside ->
    release_step k l (ps k.(cur_proc)) = Some (at_, l', k') ->
    lock_step fuel (mk_system k l ps) (mk_system k' l' (upd ps k.(cur_proc) at_))
| step_other k l ps k' : lock_step fuel (mk_system k l ps) (mk_system k' l ps).

(** The processes the semaphore has let in. *)
Definition occupies (at_ : place) : Prop := at_ = Taken \/ at_ = Inside \/ at_ = Leaving.

(** The semaphore counts who may still enter, and [holder] is the process between
    [acquire] and [release]. *)
Inductive exclusive (k : kernel) (ps : Z -> place) : Lock -> Prop :=
| nobody w :
    (forall q, ~ occupies (ps q)) -> exclusive k ps (mk_Lock NULL (mk_Semaphore 1 w))
| one p w :
    p <> NULL -> occupies (ps p) -> (forall q, q <> p -> ~ occupies (ps q)) ->
    exclusive k ps (mk_Lock (match ps p with Inside => p | _ => NULL end) (mk_Semaphore 0 w)).

Lemma signal_value k v w s' k' : signal k (mk_Semaphore v w) = Some (s', k') -> s'.(value) = s32 (v + 1).
Proof.
  unfold signal. cbn [waiters value]. destruct (negb (w =? NULL)).
  - destruct (get_pcb k w); [|done]. cbn [mbind option_bind]. destruct (unblock_proc k w); [|done].
    cbn [mbind option_bind]. by intros [= <- <-].
  - by intros [= <- <-].
Qed.

Lemma wait_turn_value fuel k v w taken s' k' :
  wait_turn fuel k (mk_Semaphore v w) = Some (taken, s', k') ->
  if (taken : bool) then v <> 0 /\ s'.(value) = s32 (v - 1) else v = 0 /\ s'.(value) = 0.
Proof.
  unfold wait_turn. cbn [waiters value]. destruct (Z.eqb_spec 0 v) as [<-|Hv].
  - destruct (upd_pcb _ _ _) as [k1|]; [|done]. cbn [mbind option_bind].
    destruct (self_block _ _ _); [|done]. cbn [mbind option_bind]. by intros [= <- <- <-].
  - by intros [= <- <- <-].
Qed.

(** A process that moves between places that do not occupy the lock. *)
Lemma exclusive_idle k k' ps l p at_ :
  exclusive k ps l -> ~ occupies (ps p) -> ~ occupies at_ ->
  forall w, exclusive k' (upd ps p at_) (mk_Lock l.(holder) (mk_Semaphore l.(sema).(value) w)).
Proof.
  intros He Hp Ha w. assert (Hu : forall q, ~ occupies (ps q) -> ~ occupies (upd ps p at_ q)).
  { intros q Hq. unfold upd. by case_if. }
  destruct He as [w0 Hn|p0 w0 Hnull Ho Hn]; cbn [holder sema value].
  - constructor. intros q. by apply Hu.
  - assert (p0 <> p) by (intros ->; done).
    replace (ps p0) with (upd ps p at_ p0) by (by rewrite upd_ne). constructor; [done|by rewrite upd_ne|].
    intros q Hq. by apply Hu, Hn.
Qed.

(** A process that occupies the lock moves to another place that does. *)
Lemma exclusive_move k k' ps p at_ w :
  p <> NULL -> (forall q, q <> p -> ~ occupies (ps q)) -> occupies at_ ->
  exclusive k' (upd ps p at_) (mk_Lock (match at_ with Inside => p | _ => NULL end) (mk_Semaphore 0 w)) /\
  exclusive k (upd ps p Outside) (mk_Lock NULL (mk_Semaphore 1 w)).
Proof.
  intros Hp Hn Ho. split.
  - replace at_ with (upd ps p at_ p) at 2 by apply upd_eq. constructor; [done|by rewrite upd_eq|].
    intros q Hq. rewrite upd_ne by done. by apply Hn.
  - constructor. intros q. unfold upd. case_if; [|by apply Hn]. by intros [?|[?|?]].
Qed.

Ltac occupied := unfold occupies; tauto.

Lemma acquire_keeps fuel k l ps at_ l' k' :
  exclusive k ps l -> k.(cur_proc) <> NULL -> acquire_step fuel k l (ps k.(cur_proc)) = Some (at_, l', k') ->
  exclusive k' (upd ps k.(cur_proc) at_) l'.
Proof.
  intros He Hnull H. unfold acquire_step in H.
  assert (Hidle := fun at_ => exclusive_idle k k' ps l k.(cur_proc) at_ He).
  destruct (ps k.(cur_proc)) eqn:Ep; try discriminate H.
  - assert (l.(holder) <> k.(cur_proc)) as Hh%Z.eqb_neq.
    { destruct He as [|p w ? Ho]; cbn [holder]; [congruence|]. destruct (ps p) eqn:E; congruence. }
    rewrite Hh in H. injection H as <- <- <-. destruct l as [h [v w]].
    apply Hidle; by intros [|[|]].
  - destruct l as [h [v w]]. cbn [sema holder] in *.
    destruct (wait_turn _ _ _) as [[[t s] k1]|] eqn:E; [|done]. cbn [mbind option_bind] in H.
    injection H as <- <- <-. apply wait_turn_value in E. destruct s as [v' w']. cbn [value] in E.
    destruct t; destruct E as [Hv ->].
    + inversion He as [w1 Hn|]; subst; [|done].
      change (s32 (1 - 1)) with 0. apply (exclusive_move k k1 ps k.(cur_proc) Taken); [done|auto|occupied].
    + subst v. apply Hidle; by intros [|[|]].
  - injection H as <- <- <-. inversion He as [w Hn|p w ? Ho Hn]; subst; [destruct (Hn k.(cur_proc)); rewrite Ep; occupied|].
    assert (p = k.(cur_proc)) as -> by (destruct (decide (p = k.(cur_proc))) as [|D]; [done|];
      destruct (Hn k.(cur_proc)); [congruence|rewrite Ep; occupied]).
    apply (exclusive_move k k ps k.(cur_proc) Inside); [done|done|occupied].
  - inversion He as [w Hn|p w ? Ho Hn]; subst; [destruct (Hn k.(cur_proc)); rewrite Ep; occupied|].
    assert (p = k.(cur_proc)) as -> by (destruct (decide (p = k.(cur_proc))) as [|D]; [done|];
      destruct (Hn k.(cur_proc)); [congruence|rewrite Ep; occupied]).
    rewrite Ep in *. cbn [holder] in H. rewrite Z.eqb_refl in H. injection H as <- <- <-.
    apply (exclusive_move k k ps k.(cur_proc) Inside); [done|done|occupied].
Qed.

Lemma release_keeps k l ps at_ l' k' :
  exclusive k ps l -> ps k.(cur_proc) <> Outside -> release_step k l (ps k.(cur_proc)) = Some (at_, l', k') ->
  exclusive k' (upd ps k.(cur_proc) at_) l'.
Proof.
  intros He Hout H. unfold release_step in H. set (c := k.(cur_proc)) in *.
  assert (occupies (ps c)) as Hc by (destruct (ps c); try done; occupied).
  inversion He as [w Hn|p w Hnull Ho Hn]; subst; [by destruct (Hn c)|].
  assert (p = c) as -> by (destruct (decide (p = c)) as [|D]; [done|]; by destruct (Hn c); [congruence|]).
  destruct (ps c) eqn:Ep; try done; cbn [holder sema] in H.
  - injection H as <- <- <-. apply (exclusive_move k k ps c Leaving); [done|done|occupied].
  - destruct (signal _ _) as [[s k1]|] eqn:E; [|done]. cbn [mbind option_bind] in H. injection H as <- <- <-.
    apply signal_value in E. destruct s as [v w']. cbn [value] in E. subst v.
    apply (exclusive_move k1 k ps c Leaving w'); [done|done|occupied].
Qed.

Definition exclusive_system (s : lock_system) : Prop := exclusive s.(sys_kernel) s.(places) s.(sys_lock).

Lemma exclusive_step fuel a b : lock_step fuel a b -> exclusive_system a -> exclusive_system b.
Proof.
  unfold exclusive_system. intros Hs Ha. destruct Hs; cbn [sys_kernel sys_lock places] in *.
  - by eapply acquire_keeps.
  - by eapply release_keeps.
  - inversion Ha; by constructor.
Qed.

(** C13. A lock excludes, when processes release only what they hold: [acquire] and
    [release] can be interrupted between the test of [holder], each turn of
    [sema.wait()], the two assignments to [holder] and [sema.signal()], a process
    may acquire again while it is inside, and anything else may happen in between.
    In every state that is reached at most one process is past [sema.wait()] and
    not yet through [sema.signal()]; the semaphore is 0 exactly when there is one
    and 1 otherwise, [holder] is the process that is inside, and it is null when
    none is inside, which includes the moments before [holder] is set and after it
    is cleared. *)
Theorem lock_excludes fuel k0 w0 k l ps :
  star (lock_step fuel) (mk_system k0 (mk_Lock NULL (mk_Semaphore 1 w0)) all_outside) (mk_system k l ps) ->
  (forall p q, occupies (ps p) -> occupies (ps q) -> p = q) /\
  ((l.(sema).(value) = 0 /\ exists p, occupies (ps p)) \/
   (l.(sema).(value) = 1 /\ forall p, ~ occupies (ps p))) /\
  (forall p, p <> NULL -> (l.(holder) = p <-> ps p = Inside)) /\
  ((forall p, ps p <> Inside) -> l.(holder) = NULL).
Proof.
  intros H. assert (exclusive_system (mk_system k l ps)) as E.
  { eapply (star_inv_preserved _ exclusive_system); [|exact H|].
    - intros a b Ha Hs. by eapply exclusive_step.
    - constructor. by intros q [|[|]]. }
  unfold exclusive_system in E. cbn in E. destruct E as [w Hn|p w Hnull Ho Hn]; cbn [holder sema value].
  - split; [by intros p q Hp; destruct (Hn p)|]. split; [by right|]. split; [|done].
    intros p Hp. split; [congruence|]. intros Ep. destruct (Hn p). rewrite Ep. occupied.
  - assert (forall q, occupies (ps q) -> q = p) as Hu.
    { intros q Hq. destruct (decide (q = p)) as [|D]; [done|]. by destruct (Hn q). }
    split; [intros a b Ha Hb; by rewrite (Hu a), (Hu b)|]. split; [left; eauto|]. split.
    + intros q Hq. split.
      * intros <-. by destruct (ps p) eqn:Ep.
      * intros Eq. assert (q = p) as -> by (apply Hu; rewrite Eq; occupied). by rewrite Eq.
    + intros Hi. specialize (Hi p). by destruct (ps p).
Qed.

(** A process acquires the lock it already holds without counting, so when it
    releases it as often as it acquired it, two others are let in. *)
Lemma nested_release_opens fuel k p :
  k.(cur_proc) = p ->
  acquire_step fuel k (mk_Lock p (mk_Semaphore 0 NULL)) Inside = Some (Inside, mk_Lock p (mk_Semaphore 0 NULL), k) /\
  ('(a, l, k) ← release_step k (mk_Lock p (mk_Semaphore 0 NULL)) Inside;
   '(a, l, k) ← release_step k l a;
   '(a, l, k) ← release_step k l a;
   release_step k l a) = Some (Outside, mk_Lock NULL (mk_Semaphore 2 NULL), k).
Proof. intros <-. unfold acquire_step. cbn [holder]. by rewrite Z.eqb_refl. Qed.

(** The system after its start: the first process acquires the lock, is
    interrupted, and the next one blocks on it. *)
Definition free_lock : Lock := mk_Lock NULL (mk_Semaphore 1 NULL).
Definition started_kernel : kernel :=
  match main 0x9000 0x9100 0x9200 (fun _ => raw_pcb) (fun nr => 16 * nr) 0x9300 0x9400 0x9500 ∅
          (replicate 256 (mk_idt_entry 0 0 0 0 0)) (replicate 256 0) boot_kernel2 with
  | Some (_, _, _, k) => k
  | None => boot_kernel2
  end.
Definition taken_lock : Lock := mk_Lock 0x80000 (mk_Semaphore 0 NULL).
Definition interrupted : kernel := default started_kernel (schedule 20 started_kernel).
(** Where the processes are when the first one is inside and the second one has
    found that it is not the holder. *)
Definition second_waits (at_ : place) : Z -> place :=
  upd (upd (upd (upd all_outside 0x80000 Waiting) 0x80000 Taken) 0x80000 Inside) 606208 at_.

Lemma blocked_turn : exists l k, acquire_step 20 interrupted taken_lock Waiting = Some (Waiting, l, k).
Proof.
  assert (match acquire_step 20 interrupted taken_lock Waiting with
          | Some (Waiting, _, _) => true | _ => false end = true) as H by (vm_compute; reflexivity).
  destruct (acquire_step 20 interrupted taken_lock Waiting) as [[[t l] k]|]; [|discriminate H].
  destruct t; try discriminate H. by exists l, k.
Qed.

(** The first process acquires the lock piece by piece. *)
Lemma first_enters : star (lock_step 20) (mk_system started_kernel free_lock all_outside)
  (mk_system started_kernel taken_lock (upd (upd (upd all_outside 0x80000 Waiting) 0x80000 Taken) 0x80000 Inside)).
Proof.
  assert (cur_proc started_kernel = 0x80000) as Ec by (vm_compute; reflexivity).
  eapply star_step; [eapply (step_acquire 20 started_kernel free_lock _ Waiting free_lock started_kernel)|];
    rewrite Ec; [discriminate|unfold acquire_step, all_outside; by rewrite Ec|].
  eapply star_step; [eapply (step_acquire 20 started_kernel free_lock _ Taken (mk_Lock NULL (mk_Semaphore 0 NULL)) started_kernel)|];
    rewrite Ec; [discriminate|reflexivity|].
  eapply star_step; [eapply (step_acquire 20 started_kernel _ _ Inside taken_lock started_kernel)|];
    rewrite Ec; [discriminate|unfold acquire_step; rewrite upd_eq, Ec; reflexivity|apply star_refl].
Qed.

Lemma lock_excludes_witness : exists k l,
  acquire_step 20 interrupted taken_lock Waiting = Some (Waiting, l, k) /\ l.(sema).(value) = 0 /\ l.(holder) = 0x80000.
Proof.
  destruct blocked_turn as (l & k & E). exists k, l. split; [exact E|].
  assert (cur_proc interrupted = 606208) as Ei by (vm_compute; reflexivity).
  destruct (lock_excludes 20 started_kernel NULL k l (upd (second_waits Waiting) 606208 Waiting))
    as (_ & [[Hv _]|[_ Hn]] & Hh & _).
  - eapply star_trans; [exact first_enters|]. eapply star_step; [apply (step_other 20 _ _ _ interrupted)|].
    eapply star_step; [eapply (step_acquire 20 interrupted taken_lock _ Waiting taken_lock interrupted)|];
      rewrite Ei; [discriminate|unfold acquire_step; cbn [holder taken_lock]; rewrite Ei; reflexivity|].
    eapply star_step; [|apply star_refl].
    rewrite <- Ei at 2. eapply (step_acquire 20 interrupted taken_lock _ Waiting l k); rewrite Ei; [discriminate|exact E].
  - split; [exact Hv|]. apply Hh; [discriminate|reflexivity].
  - destruct (Hn 0x80000). right. left. reflexivity.
Defined.
