(* ===== verification/Image.v ===== *)
(** * The disk image and the programs in it (tools/build_img.cc)

    The tool writes a table of offsets and behind it the six programs.  A file is
    its bytes; the image is opened without truncation, so what an older image had
    behind the new one stays.  The loader that reads the image at the start of the
    machine (kernel/init.s) is not modelled. *)
From S2P Require Import Prelude CString Packets.
From S2P Require Tcp.

(** The image and the position of its descriptor. *)
Record image_file := mk_image { content : list Z; pos : nat }.

Definition write (f : image_file) (data : list Z) : image_file :=
  mk_image (take f.(pos) f.(content) ++ data ++ drop (f.(pos) + length data) f.(content)) (f.(pos) + length data).

(** [while (n = read(fd, buf, 256)) write(image, buf, n);] where [src] is what is
    left of the file. *)
Fixpoint copy_program (fuel : nat) (src : list Z) (f : image_file) : option image_file :=
  match fuel with
  | O => None
  | S fuel' =>
      let buf := take 256 src in
      match buf with
      | [] => Some f
      | _ => copy_program fuel' (drop 256 src) (write f buf)
      end
  end.

(** [p_mtable] is the entry [k]. *)
Definition install_module_table (k offset : Z) (m_table : list Z) : option (list Z) :=
  put32 m_table (4 * k) (u32 (64 + offset)).

(** [main]; the sizes [stat] gives are those of the files. *)
Definition build (old kernel mm fs dr net terminal : list Z) : option (list Z) :=
  let m_table := replicate 64 0 in
  m_table ← install_module_table 0 (u32 0) m_table;
  m_table ← install_module_table 1 (u32 (0 + zlen kernel)) m_table;
  m_table ← install_module_table 2 (u32 (0 + zlen kernel + zlen mm)) m_table;
  m_table ← install_module_table 3 (u32 (0 + zlen kernel + zlen mm + zlen fs)) m_table;
  m_table ← install_module_table 4 (u32 (0 + zlen kernel + zlen mm + zlen fs + zlen dr)) m_table;
  m_table ← install_module_table 5 (u32 (0 + zlen kernel + zlen mm + zlen fs + zlen dr + zlen net)) m_table;
  let image := write (mk_image old 0) m_table in
  image ← copy_program (S (length kernel)) kernel image;
  image ← copy_program (S (length mm)) mm image;
  image ← copy_program (S (length fs)) fs image;
  image ← copy_program (S (length dr)) dr image;
  image ← copy_program (S (length net)) net image;
  image ← copy_program (S (length terminal)) terminal image;
  Some image.(content).

(** ** What the image holds *)

Definition inside (f : image_file) : Prop := (f.(pos) <= length f.(content))%nat.

Lemma write_inside f a : inside f -> inside (write f a).
Proof. unfold inside, write. cbn [pos content]. rewrite !length_app, length_take. lia. Qed.

Lemma write_write f a b : inside f -> write (write f a) b = write f (a ++ b).
Proof.
  unfold inside, write. cbn [pos content]. intros H. set (c := content f) in *. set (p := pos f) in *.
  assert (length (take p c) = p) as Hp by (rewrite length_take; lia).
  rewrite length_app. f_equal; [|lia].
  rewrite take_app_ge, Hp by lia. replace (p + length a - p)%nat with (length a) by lia. rewrite take_app_length.
  rewrite drop_app_ge, Hp by lia. replace (p + length a + length b - p)%nat with (length a + length b)%nat by lia.
  rewrite drop_app_ge, drop_drop by lia. rewrite <- !(assoc_L (++)). do 4 f_equal. lia.
Qed.

Lemma copy_program_spec fuel : forall src f, (length src < fuel)%nat -> inside f ->
  copy_program fuel src f = Some (write f src).
Proof.
  induction fuel as [|fuel IH]; intros src f H Hf; [lia|]. cbn [copy_program].
  destruct (take 256 src) as [|b buf] eqn:E.
  - apply (f_equal length) in E. rewrite length_take in E. destruct src; [|cbn in E; lia].
    unfold write. cbn [app length]. rewrite Nat.add_0_r, take_drop. by destruct f.
  - rewrite <- E, IH; [|rewrite length_drop; apply (f_equal length) in E; rewrite length_take in E; cbn [length] in E; lia|by apply write_inside].
    by rewrite write_write, take_drop.
Qed.

(** An entry of the table. *)
Lemma install_entry k v t : 0 <= k < 16 -> zlen t = 64 -> 0 <= 64 + v < 4294967296 ->
  exists t', install_module_table k v t = Some t' /\ zlen t' = 64 /\ get32 t' (4 * k) = Some (64 + v) /\
    forall j, 0 <= j < 16 -> j <> k -> get32 t' (4 * j) = get32 t (4 * j).
Proof.
  intros Hk Ht Hv. unfold install_module_table. rewrite u32_id by lia.
  destruct (put32_wrote t (4 * k) (64 + v)) as (t' & E & W1 & W2); [lia|lia|]. exists t'. split; [done|].
  split; [lia|]. split.
  - rewrite <- (Tcp.dword_bytes (64 + v)) by done. unfold get32, get16. rewrite !W2 by lia.
    unfold dword_at, word_at. zdec. done.
  - intros j Hj Hne. unfold get32, get16. rewrite !W2 by lia. unfold dword_at, word_at. zdec. done.
Qed.

(** Where the programs are. *)
Fixpoint places (o : Z) (files : list (list Z)) : list Z :=
  match files with [] => [] | f :: files' => o :: places (o + zlen f) files' end.

Definition programs (kernel mm fs dr net terminal : list Z) : list (list Z) := [kernel; mm; fs; dr; net; terminal].

Lemma build_spec old kernel mm fs dr net terminal :
  let files := programs kernel mm fs dr net terminal in
  64 + zlen (concat files) < 4294967296 ->
  exists table, build old kernel mm fs dr net terminal =
      Some (table ++ concat files ++ drop (64 + length (concat files)) old) /\
    zlen table = 64 /\ (forall i o, places 64 files !! i = Some o -> get32 table (4 * Z.of_nat i) = Some o) /\
    forall j, 6 <= j < 16 -> get32 table (4 * j) = Some 0.
Proof.
  intros files Hlen. unfold files, programs in Hlen. cbn [concat] in Hlen. rewrite !zlen_app in Hlen. change (zlen []) with 0 in Hlen.
  pose proof (zlen_nonneg kernel). pose proof (zlen_nonneg mm). pose proof (zlen_nonneg fs). pose proof (zlen_nonneg dr).
  pose proof (zlen_nonneg net). pose proof (zlen_nonneg terminal). unfold build. rewrite !u32_id by lia.
  destruct (install_entry 0 0 (replicate 64 0)) as (t0 & -> & Z0 & G0 & O0); [lia|done|lia|]. sbind.
  destruct (install_entry 1 (0 + zlen kernel) t0) as (t1 & -> & Z1 & G1 & O1); [lia|done|lia|]. sbind.
  destruct (install_entry 2 (0 + zlen kernel + zlen mm) t1) as (t2 & -> & Z2 & G2 & O2); [lia|done|lia|]. sbind.
  destruct (install_entry 3 (0 + zlen kernel + zlen mm + zlen fs) t2) as (t3 & -> & Z3 & G3 & O3); [lia|done|lia|]. sbind.
  destruct (install_entry 4 (0 + zlen kernel + zlen mm + zlen fs + zlen dr) t3) as (t4 & -> & Z4 & G4 & O4); [lia|done|lia|]. sbind.
  destruct (install_entry 5 (0 + zlen kernel + zlen mm + zlen fs + zlen dr + zlen net) t4) as (t5 & -> & Z5 & G5 & O5);
    [lia|done|lia|]. sbind.
  assert (forall f, inside f -> forall src, copy_program (S (length src)) src f = Some (write f src)) as Hcopy
    by (intros; apply copy_program_spec; [lia|done]).
  assert (inside (mk_image old 0)) as Hin by (unfold inside; cbn; lia).
  do 6 (rewrite Hcopy by (repeat apply write_inside; done); sbind).
  rewrite !write_write by (repeat apply write_inside; done). exists t5. split; [|split; [done|split]].
  - unfold write. cbn [content pos take app]. f_equal. unfold files, programs. cbn [concat].
    rewrite app_nil_r, <- !(assoc_L (++)). rewrite take_0. cbn [app]. do 8 f_equal. rewrite (length_app t5). unfold zlen in Z5. lia.
  - intros i o Hi. unfold files, programs in Hi. cbn [places] in Hi.
    destruct i as [|[|[|[|[|[|i]]]]]]; [injection Hi as <-..|done].
    + change (4 * Z.of_nat 0) with (4 * 0). rewrite O5, O4, O3, O2, O1, G0 by lia. f_equal; lia.
    + change (4 * Z.of_nat 1) with (4 * 1). rewrite O5, O4, O3, O2, G1 by lia. f_equal; lia.
    + change (4 * Z.of_nat 2) with (4 * 2). rewrite O5, O4, O3, G2 by lia. f_equal; lia.
    + change (4 * Z.of_nat 3) with (4 * 3). rewrite O5, O4, G3 by lia. f_equal; lia.
    + change (4 * Z.of_nat 4) with (4 * 4). rewrite O5, G4 by lia. f_equal; lia.
    + change (4 * Z.of_nat 5) with (4 * 5). rewrite G5 by lia. f_equal; lia.
  - intros j Hj. rewrite O5, O4, O3, O2, O1, O0 by lia.
    assert (j = 6 \/ j = 7 \/ j = 8 \/ j = 9 \/ j = 10 \/ j = 11 \/ j = 12 \/ j = 13 \/ j = 14 \/ j = 15) as Hc by lia.
    by repeat (destruct Hc as [->|Hc]; [done|]); subst.
Qed.

Lemma places_at files : forall o i f, files !! i = Some f ->
  exists p, places o files !! i = Some p /\ p = o + zlen (concat (take i files)).
Proof.
  induction files as [|g files IH]; intros o i f Hf; [done|].
  destruct i as [|i]; cbn [places take concat] in *.
  - exists o. split; [done|]. change (zlen []) with 0. lia.
  - destruct (IH (o + zlen g) i f Hf) as (p & Hp & ->). eexists. split; [exact Hp|]. rewrite zlen_app. lia.
Qed.

Lemma places_found files rest : forall pre i p f,
  places (zlen pre) files !! i = Some p -> files !! i = Some f ->
  take (length f) (drop (Z.to_nat p) (pre ++ concat files ++ rest)) = f.
Proof.
  induction files as [|g files IH]; intros pre i p f Hp Hf; [done|]. cbn [places concat] in *.
  destruct i as [|i]; cbn in Hp, Hf.
  - injection Hp as <-. injection Hf as <-. unfold zlen. rewrite Nat2Z.id, drop_app_length, <- (assoc_L (++)).
    apply take_app_length.
  - rewrite <- zlen_app in Hp. specialize (IH (pre ++ g) i p f Hp Hf). rewrite <- !(assoc_L (++)) in *. exact IH.
Qed.

(** C22. The image holds the programs where its table says: whatever an older image
    held, entry [i] of the table of the image the tool builds is the position of
    the bytes of program [i], which are exactly those of its file; the entries
    behind the six programs are 0, so the table is terminated; the programs lie
    behind each other with nothing in between, and behind the last one stays what
    the older image had there. *)
Theorem image_holds_programs old kernel mm fs dr net terminal :
  let files := programs kernel mm fs dr net terminal in
  64 + zlen (concat files) < 4294967296 ->
  exists image, build old kernel mm fs dr net terminal = Some image /\
    (forall i f, files !! i = Some f -> exists o, get32 (take 64 image) (4 * Z.of_nat i) = Some o /\
       o = 64 + zlen (concat (take i files)) /\ take (length f) (drop (Z.to_nat o) image) = f) /\
    (forall j, 6 <= j < 16 -> get32 (take 64 image) (4 * j) = Some 0) /\
    drop (64 + length (concat files)) image = drop (64 + length (concat files)) old.
Proof.
  intros files Hlen. destruct (build_spec old kernel mm fs dr net terminal Hlen) as (table & E & Hz & Ht & Hend).
  fold files in E, Ht. eexists. split; [exact E|].
  assert (length table = 64%nat) as Hn by (unfold zlen in Hz; lia).
  assert (take 64 (table ++ concat files ++ drop (64 + length (concat files)) old) = table) as ->
    by (rewrite <- Hn; apply take_app_length).
  split; [|split; [exact Hend|]].
  - intros i f Hf. destruct (places_at files 64 i f Hf) as (o & Ho & Eo). exists o.
    split; [by apply Ht|]. split; [done|]. apply (places_found files _ table i); [by rewrite Hz|done].
  - rewrite <- Hn at 1. rewrite <- length_app, (assoc_L (++)). apply drop_app_length.
Qed.

Lemma image_holds_programs_witness : exists image,
  build [] [1; 2; 3] [4] [5; 6] (replicate 300 7) [8] [9; 10] = Some image /\
  take 300 (drop 70 image) = replicate 300 7.
Proof.
  destruct (image_holds_programs [] [1; 2; 3] [4] [5; 6] (replicate 300 7) [8] [9; 10]) as (image & E & H & _).
  - reflexivity.
  - exists image. split; [exact E|]. destruct (H 3%nat (replicate 300 7) eq_refl) as (o & _ & Ho & Hp).
    change (64 + zlen (concat (take 3 (programs [1; 2; 3] [4] [5; 6] (replicate 300 7) [8] [9; 10])))) with 70 in Ho.
    rewrite Ho in Hp. exact Hp.
Defined.
