(* ===== verification/Cpu.v ===== *)
(** * The processor: interrupt flag, tables and power
    (kernel/interrupt.cc, kernel/timer.cc, kernel/machine.cc)

    The instructions that Machine.v leaves out: the interrupt flag, the register
    of the interrupt table, and the order in which the ports are written. *)
From S2P Require Import Prelude Mem Machine.

Record idt_ptr := mk_idt_ptr { limit : Z; base : Z }.

(** [commands] are the bytes written to ports, oldest first. *)
Record cpu := mk_cpu { interrupt_flag : bool; idtr : idt_ptr; commands : list (Z * Z) }.

Definition outb (port data : Z) (c : cpu) : cpu := mk_cpu c.(interrupt_flag) c.(idtr) (c.(commands) ++ [(port, data)]).
Definition outbs (l : list (Z * Z)) (c : cpu) : cpu := foldl (fun c '(p, d) => outb p d c) c l.

Definition enable_intr (c : cpu) : bool * cpu := (c.(interrupt_flag), mk_cpu true c.(idtr) c.(commands)).
Definition disable_intr (c : cpu) : bool * cpu := (c.(interrupt_flag), mk_cpu false c.(idtr) c.(commands)).
Definition set_intr (old_status : bool) (c : cpu) : cpu := if old_status then snd (enable_intr c) else snd (disable_intr c).

Definition load_idt (p : idt_ptr) (c : cpu) : cpu := mk_cpu c.(interrupt_flag) p c.(commands).

(** [sizeof(struct idt_entry)] is 8. *)
Definition idt_pointer (IDT_addr : Z) : idt_ptr := mk_idt_ptr (u16 (8 * 256 - 1)) IDT_addr.

(** [init_intr]: the interrupt controllers, the table, the timer. *)
Definition init_intr (intr_handler : Z -> Z) (syscall_pre_handler IDT_addr timer_handler : Z)
    (IDT : list idt_entry) (real_handlers : list Z) (c : cpu) : option (list idt_entry * list Z * cpu) :=
  let c := outbs init_8259A c in
  IDT ← init_idt intr_handler syscall_pre_handler IDT;
  let c := load_idt (idt_pointer IDT_addr) c in
  '(real_handlers, pit) ← init_pit real_handlers timer_handler;
  Some (IDT, real_handlers, outbs pit c).

(** What becomes of the machine. *)
Inductive fate :=
| Stopped                  (* an endless loop without interrupts *)
| Faulted                  (* an interrupt without a gate, three times *)
| Running.

(** The gate of an interrupt lies within the limit of the table. *)
Definition has_gate (c : cpu) (nr : Z) : bool := 8 * nr + 7 <=? c.(idtr).(limit).

(** Without its own gate, that of the general protection fault and that of the
    double fault, the processor shuts down. *)
Definition software_interrupt (nr : Z) (c : cpu) : fate :=
  if has_gate c nr || has_gate c 13 || has_gate c 8 then Running else Faulted.

(** The message of [sys_halt] is left out. *)
Definition sys_halt (c : cpu) : fate * cpu := (Stopped, outbs disable_all_intr c).

Definition sys_power_off (c : cpu) : fate * cpu :=
  let c := outbs disable_all_intr c in
  let c := load_idt (mk_idt_ptr 0 0x99) c in
  (software_interrupt 0x99 c, c).

Definition sys_reboot (c : cpu) : cpu := outb 0x64 0xfe c.

(** ** Their effect *)

(** The flag is put back as it was found, whatever it was. *)
Lemma critical_section c old c' : disable_intr c = (old, c') ->
  c'.(interrupt_flag) = false /\ (set_intr old c').(interrupt_flag) = c.(interrupt_flag).
Proof. intros [= <- <-]. unfold set_intr. cbn. by destruct (interrupt_flag c). Qed.

(** The mask of an interrupt controller: the last byte written to its data port. *)
Definition mask (port : Z) (c : cpu) : option Z :=
  last (map snd (filter (fun x => x.1 = port) c.(commands))).

Lemma mask_outb port d c : mask port (outb port d c) = Some d.
Proof.
  unfold mask, outb. cbn [commands]. rewrite filter_app, map_app. cbn. rewrite decide_True by done. apply last_snoc.
Qed.

(** Power-off masks every line and leaves no gate, so the machine faults. *)
Lemma power_off_faults c f c' : sys_power_off c = (f, c') ->
  f = Faulted /\ mask 0xa1 c' = Some 0xff /\ forall nr, 0 <= nr -> has_gate c' nr = false.
Proof.
  intros [= <- <-]. split; [reflexivity|]. split.
  - change (mask 0xa1 (outb 0xa1 0xff (outb 0x21 0xff c)) = Some 0xff). apply mask_outb.
  - intros nr H. change ((8 * nr + 7 <=? 0) = false). apply Z.leb_gt. lia.
Qed.

(** After the start every interrupt has its gate in the table. *)
Lemma init_intr_gates f sp ia th IDT hs c IDT' hs' c' :
  init_intr f sp ia th IDT hs c = Some (IDT', hs', c') ->
  c'.(idtr) = mk_idt_ptr 2047 ia /\ (forall nr, 0 <= nr < 256 -> has_gate c' nr = true).
Proof.
  unfold init_intr. destruct (init_idt f sp IDT) as [t|]; [|done]. cbn [mbind option_bind].
  unfold init_pit. destruct (register_intr_handler hs 32 th) as [h|]; [|done]. cbn [mbind option_bind]. intros [= <- <- <-].
  split; [done|]. intros nr Hn. change ((8 * nr + 7 <=? 2047) = true). apply Z.leb_le. lia.
Qed.
