(* ===== verification/WriteBounds.v ===== *)
(** * How much a file takes (fs/file.cc)

    [write_file] puts no limit on the number of bytes.  Here is exactly when a
    write that covers a file stays within its objects: the table of nine sectors,
    and the buffer of the caller. *)
From S2P Require Import Prelude Bitmap CString FsState Inode Dir File FsTypes FileSpec.

(** ** Computations that leave an object *)

Lemma fails_bind {A B} (m : fsm A) (k : A -> fsm B) s :
  (forall a s', m s = Some (a, s') -> k a s' = None) -> (m ≫= k) s = None.
Proof. intros H. unfold mbind, fsm_bind. destruct (m s) as [[a s']|] eqn:E; [by apply H|done]. Qed.

(** Sectors are only allocated within the table. *)
Lemma allocate_within idx : forall l s l' s',
  allocate_sectors idx l s = Some (l', s') -> Forall (fun i => i < zlen l) idx.
Proof.
  induction idx as [|i idx IH]; intros l s l' s' H; [constructor|]. cbn [allocate_sectors] in H.
  unfold lift, mbind, fsm_bind in H. destruct (l.[i]) as [a|] eqn:Ea; [|done].
  apply zget_lt in Ea as Hi. apply Forall_cons_2; [lia|]. destruct (0 =? a); [|by apply IH in H].
  destruct (allocate_block s) as [[b s1]|]; [|done]. unfold gets in H.
  destruct (l.[i <- _]) as [l1|] eqn:El; [|done]. apply IH in H.
  apply zset_zlen in El. by rewrite El in H.
Qed.

(** ** Computations that do not *)

(** What a write leaves as it was. *)
Record kept (s s' : fs) : Prop := {
  k_layout : fs_layout s';
  k_sb : s'.(sb) = s.(sb);
  k_len : zlen s'.(block_bmap).(base) = zlen s.(block_bmap).(base);
  k_fdt : s'.(file_desc_tbl) = s.(file_desc_tbl);
}.

Lemma kept_trans a b c : kept a b -> kept b c -> kept a c.
Proof. intros [] []. constructor; [done|congruence..]. Qed.

Lemma work_kept lba s s' : block_work lba s s' -> kept s s'.
Proof. intros []. by constructor. Qed.

Lemma kept_block s s' a : kept s s' -> is_block s a -> is_block s' a.
Proof. intros [_ E1 E2 _]. unfold is_block. by rewrite E1, E2. Qed.

Lemma kept_sectors s s' l : kept s s' -> sectors_ok s l -> sectors_ok s' l.
Proof.
  intros Hk [H1 H2]. split; [done|]. eapply Forall_impl; [exact H2|]. cbv beta. intros a [->|Ha]; [by left|].
  right. by eapply kept_block.
Qed.

Lemma kept_table s s' x x' : kept s s' -> x'.(inode_no) = x.(inode_no) -> table_before s x -> table_before s' x'.
Proof. intros [_ E _ _] Ex H. unfold table_before. by rewrite E, Ex. Qed.

Lemma runs_write_kept lba buf s (Q : unit -> fs -> Prop) :
  fs_layout s -> 512 <= zlen buf -> (forall s', kept s s' -> Q tt s') -> runs (write_disk lba buf 1) s Q.
Proof.
  intros Hlay Hb HQ. unfold write_disk. change (can_transfer 1) with true. change (Z.to_nat 1) with 1%nat. cbn [write_sectors]. unfold sector_size.
  destruct (Z.ltb_spec (zlen buf) 512); [lia|].
  eexists tt, _. split; [reflexivity|]. apply HQ. constructor; try done. apply layout_set_disk; [done|].
  apply full_insert; [apply (lay_full _ Hlay)|]. rewrite length_take. unfold zlen in Hb. lia.
Qed.

(** The sectors in the middle, when the caller has a sector for each. *)
Lemma runs_write_middle l str idx : forall s (Q : unit -> fs -> Prop),
  fs_layout s -> length l = 9%nat -> Forall (fun i => 0 <= i < 9 /\ i * 512 + 512 <= zlen str) idx ->
  (forall s', kept s s' -> Q tt s') -> runs (write_middle idx l str) s Q.
Proof.
  induction idx as [|i idx IH]; intros s Q Hlay Hl Hidx HQ.
  { apply runs_ret, HQ. by constructor. }
  apply Forall_cons in Hidx as [[Hi Hs] Hidx]. cbn [write_middle].
  destruct (zget_in l i) as [a Ha]; [unfold zlen; lia|]. apply runs_bind. eapply runs_lift; [exact Ha|].
  apply runs_bind, runs_write_kept; [done|unfold zlen in *; rewrite length_drop; lia|].
  intros s1 Hk1. apply IH; [apply Hk1|done..|]. intros s' Hk. apply HQ. by eapply kept_trans.
Qed.

Lemma copy_in_fits buf src cnt :
  0 <= cnt <= zlen src -> cnt <= zlen buf ->
  exists buf', copy_in buf 0 src cnt = Some buf' /\ zlen buf' = zlen buf.
Proof.
  intros H1 H2. unfold copy_in. rewrite (proj2 (Z.leb_le cnt _)) by lia.
  destruct (put buf 0 (take (Z.to_nat cnt) src)) as [b|] eqn:E.
  - exists b. split; [done|]. apply put_length in E. unfold zlen. by rewrite E.
  - rewrite put_ok in E by (unfold zlen in *; rewrite ?length_take; lia). done.
Qed.

(** ** The bound *)

Lemma strlen_bound str len : strlen str = Some len -> 0 <= len < zlen str.
Proof.
  revert len. induction str as [|c str IH]; intros len H; [done|]. cbn [strlen] in H. rewrite zlen_cons.
  pose proof (zlen_nonneg str). destruct (truth c); [|injection H as <-; lia].
  destruct (strlen str) as [l|]; [|done]. injection H as <-. specialize (IH l eq_refl).
  pose proof (Z.mod_le (l + 1) 4294967296). unfold u32. pose proof (Z.mod_pos_bound (l + 1) 4294967296). lia.
Qed.

(** The bytes a call writes: a string that is shorter than the count is written
    with its terminator. *)
Definition written (len count : Z) : Z := if len <? count then len + 1 else count.

(** Nine sectors hold fewer than 4608 bytes and one more; a size between one
    sector and two is read from 512 bytes further on than it should. *)
Definition fits (str : list Z) (size : Z) : Prop := size < 4608 /\ (512 < size < 1024 -> size + 512 <= zlen str).

(** An open file, and a free block for every sector that it lacks. *)
Record write_ready (s : fs) (fd : Z) (f : file) (size : Z) : Prop := {
  wr_layout : fs_layout s;
  wr_fd : s.(file_desc_tbl).[fd] = Some (Some f);
  wr_table : table_before s f.(f_inode);
  wr_sectors : sectors_ok s f.(f_inode).(i_sectors);
  wr_allowed : allowed s f.(f_inode) access_mode.WRITE = true;
  wr_left : blocks_left s (length (filter (fun i => f.(f_inode).(i_sectors).[i] = Some 0) (upto 0 (size / 512 + 1))));
}.

Section cover.
Variables (fd : Z) (f : file) (str : list Z) (len count : Z) (s : fs).
Let size := written len count.
Let n := size / 512.
Hypothesis Hready : write_ready s fd f size.
Hypothesis Hlen : strlen str = Some len.
Hypothesis Hcount : 0 <= count < 4294967296.

Lemma size_range : 0 <= size < 4294967296 /\ size <= zlen str.
Proof.
  pose proof (strlen_bound _ _ Hlen). unfold size, written. destruct (Z.ltb_spec len count); lia.
Qed.

(** What follows the data: surplus sectors, descriptor, inode. *)
Definition finish (sectors : list Z) : fsm unit :=
  '(sectors, has_surplus) ← free_surplus (upto (n + 1) 9) sectors false;
  let x' := set_size (set_sectors f.(f_inode) sectors) size in
  set_file fd (Some (mk_file f.(offset) x')) ;;
  sync_inode x' ;;
  (if has_surplus : bool then sync_block_bitmap else skip) ;;
  free.

(** The first steps: descriptor, length, permission, plan. *)
Lemma cover_start :
  write_file fd str count file_io.COVER s =
  (sectors ← allocate_sectors (upto 0 (n + 1)) f.(f_inode).(i_sectors);
   sync_inode (set_sectors f.(f_inode) sectors) ;;
   sync_block_bitmap ;;
   malloc sector_size ;;
   lba ← lift (sectors.[0]);
   buf ← read_disk lba 1;
   buf ← lift (copy_in buf 0 str (if 512 <? size then 512 else size));
   write_disk lba buf 1 ;;
   let str := drop (Z.to_nat (if 512 <? size then 512 else size)) str in
   write_middle (upto 1 (n - 1)) sectors str ;;
   (if 512 <? size then
      buf ← lift (copy_in (replicate 512 0) 0 (drop (Z.to_nat (Z.max 1 (n - 1) * 512)) str) (size mod 512));
      lba ← lift (sectors.[Z.max 1 (n - 1)]);
      write_disk lba buf 1
    else skip) ;;
   finish sectors) s.
Proof.
  destruct Hready as [_ Hfd _ _ Hok _]. pose proof (strlen_bound _ _ Hlen).
  unfold write_file. unfold mbind at 1, fsm_bind at 1, gets. unfold mbind at 1, fsm_bind at 1, lift at 1. rewrite Hfd.
  unfold mbind at 1, fsm_bind at 1, lift at 1. rewrite Hlen.
  replace (if len <? count then u32 (len + 1) else count) with size
    by (unfold size, written; destruct (Z.ltb_spec len count); [by rewrite u32_id by lia|done]).
  unfold mbind at 1, fsm_bind at 1. rewrite check_allowed, Hok. reflexivity.
Qed.

(** Writes that do not fit leave an object. *)
Lemma cover_fails : ~ fits str size -> write_file fd str count file_io.COVER s = None.
Proof.
  intros Hno. destruct size_range as [Hs0 Hs1]. rewrite cover_start. apply fails_bind. intros l s1 E1.
  destruct (decide (size < 4608)) as [Hsmall|Hbig].
  2: { apply allocate_within in E1. pose proof (wr_sectors _ _ _ _ Hready) as [H9 _].
       rewrite Forall_forall in E1. specialize (E1 9). unfold zlen in E1. rewrite H9 in E1.
       assert (9 < 9); [|lia]. apply E1, elem_of_seqZ.
       assert (9 <= n) by (apply Z.div_le_lower_bound; lia). lia. }
  assert (512 < size < 1024 /\ zlen str < size + 512) as [Hs Hshort].
  { destruct (decide (512 < size < 1024 /\ zlen str < size + 512)); [done|]. destruct Hno. split; [done|]. lia. }
  replace n with 1 by (unfold n; apply Z.div_unique with (size - 512); lia).
  rewrite (proj2 (Z.ltb_lt 512 size)) by lia.
  do 7 (apply fails_bind; intros ? ? _). apply fails_bind. intros ? ? _.
  apply fails_bind. intros ? s2 E. unfold mbind, fsm_bind, lift in E.
  unfold copy_in in E. rewrite (proj2 (Z.leb_gt (size mod 512) _)) in E; [done|].
  change (Z.max 1 (1 - 1) * 512) with 512. change (Z.to_nat 512) with 512%nat.
  replace (size mod 512) with (size - 512) by (apply Z.mod_unique with 1; lia).
  unfold zlen in *. rewrite !length_drop. lia.
Qed.

(** The others do not, and the file has the new size. *)
Lemma cover_runs : fits str size ->
  runs (write_file fd str count file_io.COVER) s
    (fun _ s' => exists x', x'.(i_size) = size /\
       s'.(file_desc_tbl) = <[Z.to_nat fd := Some (mk_file f.(offset) x')]> s.(file_desc_tbl)).
Proof.
  intros [Hsmall Hmid]. destruct size_range as [Hs0 Hs1]. destruct Hready as [Hlay Hfd Htab Hl _ Hleft].
  destruct (table_sector_before _ _ Hlay Htab) as [_ Hds].
  assert (0 <= n < 9) as Hn
    by (split; [apply Z.div_pos; lia|apply Z.div_lt_upper_bound; lia]).
  cut (runs (fun s => write_file fd str count file_io.COVER s) s (fun _ s' => exists x', x'.(i_size) = size /\
       s'.(file_desc_tbl) = <[Z.to_nat fd := Some (mk_file f.(offset) x')]> s.(file_desc_tbl))); [done|].
  unfold runs. rewrite cover_start. fold n in Hleft.
  apply runs_bind, runs_allocate_range; [done|done|done| |apply NoDup_seqZ|exact Hleft|].
  { apply Forall_forall. intros i Hi. apply elem_of_seqZ in Hi. lia. }
  intros l s1 Hw1 Hl1 Hin _. destruct (Hin 0) as (lba & Hl0 & Hblk1); [apply elem_of_seqZ; lia|].
  apply runs_bind, (runs_sync_inode_work lba); [apply (Hw1 lba)| |apply Hl1|done|].
  { exact (table_before_work lba s s1 f.(f_inode) (set_sectors f.(f_inode) l) (Hw1 lba) eq_refl Htab). }
  intros s2 Hw2. apply runs_bind, (runs_sync_bitmap_work lba); [apply Hw2|exact (is_block_work _ _ _ _ Hw2 Hblk1)|].
  intros s3 Hw3. apply runs_bind. eexists _, _. split; [reflexivity|]. set (s4 := count_malloc s3).
  pose proof (work_malloc lba s3 (bw_layout _ _ _ Hw3)) as Hw4. fold s4 in Hw4.
  assert (kept s s4) as Hk4.
  { apply (work_kept lba).
    exact (block_work_trans _ _ _ _ (Hw1 lba) (block_work_trans _ _ _ _ Hw2 (block_work_trans _ _ _ _ Hw3 Hw4))). }
  assert (kept s1 s4) as Hk14.
  { apply (work_kept lba). exact (block_work_trans _ _ _ _ Hw2 (block_work_trans _ _ _ _ Hw3 Hw4)). }
  apply (kept_block s1 s4) in Hblk1; [|done]. apply (kept_sectors s1 s4) in Hl1; [|done].
  clear Hw1 Hw2 Hw3 Hw4 Hin Hk14. clearbody s4. clear s1 s2 s3.
  apply runs_bind. eapply runs_lift; [exact Hl0|]. apply runs_bind, runs_read.
  set (will := if 512 <? size then 512 else size).
  assert (0 <= will <= 512 /\ will <= size /\ (512 < size -> will = 512)) as (Hw512 & Hwsize & Hwbig)
    by (unfold will; destruct (Z.ltb_spec 512 size); lia).
  assert (zlen (sector s4.(disk) (u32 lba)) = 512) as Hf
    by (unfold zlen; by rewrite (lay_full _ (k_layout _ _ Hk4))).
  destruct (copy_in_fits (sector s4.(disk) (u32 lba)) str will) as (buf & Eb & Hb); [lia|lia|].
  apply runs_bind. eapply runs_lift; [exact Eb|]. apply runs_bind, runs_write_kept; [apply Hk4|lia|].
  intros s5 Hk5. assert (zlen (drop (Z.to_nat will) str) = zlen str - will) as Hrest
    by (unfold zlen in *; rewrite length_drop; lia).
  apply runs_bind, runs_write_middle; [apply Hk5|apply Hl1| |].
  { apply Forall_forall. intros i Hi. apply elem_of_seqZ in Hi. assert (512 * n <= size) by (apply Z.mul_div_le; lia). lia. }
  intros s6 Hk6. apply runs_bind.
  assert (forall s7, kept s4 s7 -> runs (finish l) s7 (fun _ s' => exists x', x'.(i_size) = size /\
            s'.(file_desc_tbl) = <[Z.to_nat fd := Some (mk_file f.(offset) x')]> s.(file_desc_tbl))) as Hend.
  { intros s7 Hk7. pose proof (kept_trans _ _ _ Hk4 Hk7) as Hk. apply (kept_block s4 s7) in Hblk1; [|done].
    pose proof (lay_top _ (k_layout _ _ Hk)) as Htop. pose proof (lay_bitmap _ (k_layout _ _ Hk)).
    assert (0 < data_start (sb s7)) by (by rewrite (k_sb _ _ Hk)).
    apply (runs_write_end (n + 1) size fd f f.(f_inode) lba l [] s7); try done; [lia|apply Hk| | | | |].
    - by apply (kept_table s s7 f.(f_inode) _ Hk).
    - by apply (kept_sectors s4 s7).
    - unfold is_block in Hblk1. lia.
    - by rewrite (k_fdt _ _ Hk).
    - intros s' x' _ _ Ht _ Hsz _ _ _ _. exists x'. by rewrite Ht, (k_fdt _ _ Hk). }
  pose proof (kept_trans _ _ _ Hk5 Hk6) as Hk56.
  destruct (Z.ltb_spec 512 size) as [Hbig|Hone]; [|by apply runs_ret, Hend].
  rewrite Hwbig in Hrest |- * by done. pose proof (Z.div_mod size 512) as Hdm. fold n in Hdm.
  pose proof (Z.mod_pos_bound size 512) as Hmod.
  destruct (copy_in_fits (replicate 512 0) (drop (Z.to_nat (Z.max 1 (n - 1) * 512)) (drop (Z.to_nat 512) str)) (size mod 512))
    as (last & El & Hlast); [|change (zlen (replicate 512 0)) with 512; lia|].
  { unfold zlen in *. rewrite length_drop. lia. }
  destruct (zget_in l (Z.max 1 (n - 1))) as [a Ha]; [destruct Hl1 as [H9 _]; unfold zlen; rewrite H9; lia|].
  apply runs_bind. eapply runs_lift; [exact El|]. apply runs_bind. eapply runs_lift; [exact Ha|].
  apply runs_write_kept; [apply Hk56|by rewrite Hlast|]. intros s7 Hk7. apply Hend. by eapply kept_trans.
Qed.
End cover.

(** C12. A write that covers an open file stays within its objects exactly when
    fewer than nine sectors are written and, if the size lies between one sector
    and two, the buffer of the caller goes on for another 512 bytes; it then
    returns and the file has the size. There must be a free block for each sector
    the file lacks. *)
Theorem write_bounds fd f str len count s :
  let size := written len count in
  write_ready s fd f size -> strlen str = Some len -> 0 <= count < 4294967296 ->
  (fits str size /\
     runs (write_file fd str count file_io.COVER) s
       (fun _ s' => exists x', x'.(i_size) = size /\
          s'.(file_desc_tbl) = <[Z.to_nat fd := Some (mk_file f.(offset) x')]> s.(file_desc_tbl))) \/
  (~ fits str size /\ write_file fd str count file_io.COVER s = None).
Proof.
  intros size Hready Hlen Hcount. destruct (decide (size < 4608 /\ (512 < size < 1024 -> size + 512 <= zlen str))) as [H|H].
  - left. split; [exact H|]. by eapply cover_runs.
  - right. split; [exact H|]. by eapply cover_fails.
Qed.

(** [/etc/rc] is written over with 600 bytes, and with 4608. *)
Definition text600 : list Z := replicate 600 97 ++ 0 :: replicate 600 98.
Definition text4608 : list Z := replicate 4608 97 ++ [0].

Lemma demo_ready size :
  (length (filter (fun i => demo_file.(f_inode).(i_sectors).[i] = Some 0%Z) (upto 0 (size / 512 + 1))) <= 8)%nat ->
  write_ready demo_open 0 demo_file size.
Proof.
  intros Hsize. constructor; [apply fdt_layout, demo_layout|reflexivity| | |reflexivity|].
  - split; [split; [discriminate|reflexivity]|reflexivity].
  - split; [reflexivity|]. apply Forall_cons_2; [right; split; [discriminate|reflexivity]|].
    apply Forall_replicate. by left.
  - exists (seqZ 3 8). split; [apply NoDup_seqZ|]. split; [done|]. repeat (apply Forall_cons_2; [by split; [split|]|]).
    by apply Forall_nil.
Qed.

Lemma write_bounds_witness :
  runs (write_file 0 text600 600 file_io.COVER) demo_open
    (fun _ s' => exists x', x'.(i_size) = 600 /\
       s'.(file_desc_tbl) = <[Z.to_nat 0 := Some (mk_file demo_file.(offset) x')]> demo_open.(file_desc_tbl)) /\
  write_file 0 text4608 4608 file_io.COVER demo_open = None.
Proof.
  assert (strlen text600 = Some 600) as E1 by (vm_compute; reflexivity).
  assert (strlen text4608 = Some 4608) as E2 by (vm_compute; reflexivity).
  split.
  - destruct (write_bounds 0 demo_file text600 600 600 demo_open) as [[_ H]|[H _]];
      [apply demo_ready; apply Nat.leb_le; vm_compute; reflexivity|exact E1|split; [discriminate|reflexivity]|exact H|].
    destruct H. split; [reflexivity|]. intros _. apply Z.leb_le. vm_compute. reflexivity.
  - destruct (write_bounds 0 demo_file text4608 4608 4608 demo_open) as [[H _]|[_ H]];
      [apply demo_ready; apply Nat.leb_le; vm_compute; reflexivity|exact E2|split; [discriminate|reflexivity]| |exact H].
    destruct H as [H _]. discriminate H.
Defined.
