(* ===== verification/Builtin.v ===== *)
(** * The commands that are requests (terminal/builtin_cmd.cc)

    Most commands of the terminal send one message.  They are written over the
    class of message exchanges; answered by the file system on shared memory, each
    is the computation with which [Terminal.v] runs it. *)
From S2P Require Import Prelude Mem CString FsState Inode Dir File FileSystem FsServer.
From S2P Require Process KernelMain SmallBlocks Syscalls Net Users.
Import Syscalls (Ipc, peek, ask, tell, send_msg, con1, con2).

Section commands.
Context {St : Type} `{Ipc St} (u : Process.context).

Definition ps : St -> option St := tell KernelMain.KR KernelMain.CMD_PS u.
Definition meminfo : St -> option St := tell KernelMain.MM SmallBlocks.CMD_MEMINFO u.
Definition pwd : St -> option St := tell KernelMain.FS fs_type.CMD_PWD u.
Definition cd (path : Z) (s : St) : option (bool * St) :=
  '(r, s) ← ask KernelMain.FS fs_type.CMD_CD (con1 u path) s; Some (truth r, s).
Definition ls (path : Z) : St -> option St := tell KernelMain.FS fs_type.CMD_LS (con1 u path).
Definition cat (filename : Z) : St -> option St := tell KernelMain.FS fs_type.CMD_CAT (con1 u filename).
Definition cp_file (src dst : Z) : St -> option St := tell KernelMain.FS fs_type.CMD_CPFILE (con2 u src dst).
Definition mv_file (src dst : Z) : St -> option St := tell KernelMain.FS fs_type.CMD_MVFILE (con2 u src dst).

Definition chmod (new_mode path : Z) (s : St) : option St :=
  let mode := u32 (s8 (peek s (new_mode + 1)) - 48) in
  let mode := u32 (mode + Z.shiftl (s8 (peek s new_mode) - 48) 3) in
  tell KernelMain.FS fs_type.CMD_CHMOD (con2 u path mode) s.

(** [chown] once [username2uid] has given [uid]. *)
Definition chown_uid (path uid : Z) (s : St) : option St :=
  if -1 =? uid then Some s else tell KernelMain.FS fs_type.CMD_CHOWN (con2 u path (u32 uid)) s.

(** These do not wait for an answer. *)
Definition halt : St -> option St := send_msg KernelMain.KR KernelMain.CMD_HALT u.
Definition power_off : St -> option St := send_msg KernelMain.KR KernelMain.CMD_POWEROFF u.
Definition reboot : St -> option St := send_msg KernelMain.KR KernelMain.CMD_REBOOT u.

Definition show_arp_table : St -> option St := tell KernelMain.NET Net.SHOW_ARPTBL u.
Definition ifconfig : St -> option St := tell KernelMain.NET Net.SHOW_IFACES u.
End commands.

(** ** Answered by the file system *)

Section served.
Variables (top cur_dir_addr : Z) (c u : Process.context).
#[local] Existing Instance fs_ipc.
#[local] Abbreviation exchange := (fs_ipc top cur_dir_addr c).

Ltac serve := run_exchange fs_answer @only @beside.

Lemma pwd_served s m : @pwd _ exchange u (s, m) = only (beside m (Dir.pwd s)).
Proof. unfold pwd. serve. Qed.

Lemma cd_served path s m : @cd _ exchange u path (s, m) = beside m (Dir.cd (bytes_at top m path) s).
Proof. unfold cd. serve. by destruct b. Qed.

Lemma ls_served path s m :
  @ls _ exchange u path (s, m) = only (beside m (Dir.ls (if path =? NULL then None else Some (bytes_at top m path)) s)).
Proof.
  unfold ls, Syscalls.tell. cbn. unfold fs_answer. cbn. destruct (path =? NULL); serve.
Qed.

Lemma cat_served path s m : @cat _ exchange u path (s, m) = only (beside m (sys_cat (bytes_at top m path) s)).
Proof. unfold cat. serve. Qed.

Lemma cp_file_served src dst s m :
  @cp_file _ exchange u src dst (s, m) = only (beside m (copy_file (bytes_at top m src) (bytes_at top m dst) s)).
Proof. unfold cp_file. serve. Qed.

Lemma mv_file_served src dst s m :
  @mv_file _ exchange u src dst (s, m) = only (beside m (move_file (bytes_at top m src) (bytes_at top m dst) s)).
Proof. unfold mv_file. serve. Qed.

(** The text of the mode is read where the caller has it. *)
Lemma chmod_served new_mode path s m : new_mode + 2 <= top ->
  @chmod _ exchange u new_mode path (s, m) =
    only (beside m (Users.chmod (bytes_at top m new_mode) (bytes_at top m path) s)).
Proof.
  intros Htop. unfold Users.chmod, lift, mbind, fsm_bind.
  rewrite !bytes_at_get by lia. rewrite Z.add_0_r. unfold chmod.
  change (peek (s, m) (new_mode + 1)) with (load8 m (new_mode + 1)).
  change (peek (s, m) new_mode) with (load8 m new_mode).
  replace (u32 (u32 (s8 (load8 m (new_mode + 1)) - 48) + Z.shiftl (s8 (load8 m new_mode) - 48) 3))
    with (u32 (s8 (load8 m (new_mode + 1)) - 48 + Z.shiftl (s8 (load8 m new_mode) - 48) 3))
    by (unfold u32; by rewrite Zplus_mod_idemp_l).
  serve.
Qed.

Lemma chown_served zero_page fuel path new_owner uid s s1 m :
  Users.username2uid zero_page fuel new_owner s = Some (uid, s1) ->
  @chown_uid _ exchange u path uid (s1, m) = only (beside m (Users.chown zero_page fuel (bytes_at top m path) new_owner s)).
Proof.
  intros E. unfold Users.chown, mbind, fsm_bind. rewrite E. unfold chown_uid.
  destruct (-1 =? uid); [done|]. serve.
Qed.
End served.
