(* ===== verification/Waiters.v ===== *)
(** * Who waits for a semaphore (kernel/sync.cc)

    [Semaphore::wait] puts the process in front of the chain [waiters], which is
    linked through [next_ready], and [signal] wakes the process at its head: the
    waiters are a stack. *)
From S2P Require Import Prelude Mem Process Scheduler Ipc Machine KernelMain Sync.
From S2P Require CycleList.

(** The processes [ws] are blocked and linked from [w] on. *)
Inductive chain (k : kernel) : Z -> list Z -> Prop :=
| chain_nil : chain k NULL []
| chain_cons p c ws :
    k.(pcbs) !! p = Some c -> c.(status) = BLOCKED -> p ∉ ws -> chain k c.(next_ready) ws -> chain k p (p :: ws).

(** Nothing has been done to the processes that are blocked. *)
Definition left_blocked (k k' : kernel) (ps : list Z) : Prop :=
  forall p c, p ∈ ps -> k.(pcbs) !! p = Some c -> c.(status) = BLOCKED -> k'.(pcbs) !! p = Some c.

Lemma chain_left k k' w ws : chain k w ws -> left_blocked k k' ws -> chain k' w ws.
Proof.
  induction 1 as [|p c ws Hp Hc Hn _ IH]; intros Hl; [constructor|].
  apply (chain_cons k' p c ws); [|done..|].
  - apply Hl; [set_solver|done..].
  - apply IH. intros q d Hq. apply Hl. set_solver.
Qed.

Lemma chain_blocked k w ws p : chain k w ws -> p ∈ ws -> exists c, k.(pcbs) !! p = Some c /\ c.(status) = BLOCKED.
Proof. induction 1; intros Hin; [set_solver|]. apply elem_of_cons in Hin as [->|Hin]; eauto. Qed.

Lemma chain_top k w ws : chain k w ws -> w <> NULL -> exists ws', ws = w :: ws'.
Proof. destruct 1 as [|p c ws' _ _ _ _]; [done|]. by exists ws'. Qed.

(** ** The length of the ready queues *)

Lemma short_enough k qs fuel : kinv k qs -> (size k.(pcbs) <= fuel)%nat -> short_queues fuel qs.
Proof.
  intros [Hk _] Hf i Hi. etransitivity; [|exact Hf].
  pose proof (CycleList.CycleList.rep_NoDup _ _ _ (q_rep _ _ _ (kb_queues _ _ Hk) i Hi)) as Hn.
  apply NoDup_cons in Hn as [_ Hn]. apply NoDup_app in Hn as (Hn & _ & _).
  rewrite <- (size_dom k.(pcbs)), <- (size_list_to_set (C := gset Z) (qs i)) by done.
  apply subseteq_size. intros p Hp. apply elem_of_list_to_set in Hp. apply elem_of_dom.
  destruct (kb_in _ _ Hk i p Hi Hp) as (c & Hc & _). by exists c.
Qed.

Lemma size_same_dom (m m' : gmap Z pcb) : dom m' = dom m -> size m' = size m.
Proof. intros H. rewrite <- !size_dom. by rewrite H. Qed.

(** ** wait and signal *)

(** A process of the lowest priority other than the current one can run. *)
Definition another_idle (k : kernel) : Prop :=
  exists p c, p <> k.(cur_proc) /\ k.(pcbs) !! p = Some c /\ c.(priority) = 4 /\ runnable c.

Lemma wait_turn_takes fuel k s : s.(value) <> 0 ->
  wait_turn fuel k s = Some (true, mk_Semaphore (s32 (s.(value) - 1)) s.(waiters), k).
Proof. intros H. unfold wait_turn. by rewrite (proj2 (Z.eqb_neq 0 _)). Qed.

Lemma wait_turn_blocks fuel k qs s ws :
  kinv k qs -> short_queues fuel qs -> chain k s.(waiters) ws -> s.(value) = 0 -> another_idle k ->
  exists k' qs', wait_turn fuel k s = Some (false, mk_Semaphore 0 k.(cur_proc), k') /\ kinv k' qs' /\
    dom k'.(pcbs) = dom k.(pcbs) /\ k'.(cur_proc) <> k.(cur_proc) /\ chain k' k.(cur_proc) (k.(cur_proc) :: ws).
Proof.
  intros Hi Hf Hc Hv (o & co & Hne & Ho & Hpo & Hro).
  destruct (kinv_cur _ _ Hi) as (pc & Hpc & Hr & Hel & Hpr & Hin).
  apply list_elem_of_split in Hin as (l1 & l2 & Hq).
  set (pc1 := set_next_ready pc s.(waiters)). set (k1 := with_pcbs k (<[k.(cur_proc) := pc1]> k.(pcbs))).
  assert (kinv k1 qs) as Hi1 by (by apply (kinv_upd k qs _ pc)).
  assert (k1.(pcbs) !! k1.(cur_proc) = Some pc1) as Hpc1 by (cbn; by rewrite lookup_insert_eq).
  destruct (self_block_spec fuel k1 qs pc1 BLOCKED l1 l2 Hi1 Hf Hpc1) as
    (k' & n & p & c & Hb & Hsv & Hp & Hcur & Hpne & Hcp & Hpcbs & _ & Hk'); [by repeat split|exact Hq| |].
  { pose proof (kb_out _ _ (ki_base _ _ Hi) o co Ho Hro) as Hoq. rewrite Hpo in Hoq. unfold upd.
    destruct (Z.eqb_spec 4 (priority pc1)) as [E|]; [|intros E; rewrite E in Hoq; set_solver].
    cbn in E. rewrite E, Hq in Hoq. destruct l1, l2; set_solver. }
  change (cur_proc k1) with k.(cur_proc) in *. exists k', (upd qs pc1.(priority) (l1 ++ l2)).
  assert (k.(cur_proc) ∉ ws) as Hout.
  { intros Hw. destruct (chain_blocked _ _ _ _ Hc Hw) as (d & Hd & Hs). congruence. }
  assert (p ∉ ws) as Hpw.
  { intros Hw. destruct (chain_blocked _ _ _ _ Hc Hw) as (d & Hd & Hs).
    assert (p ∈ qs n) as Hpq by (revert Hp; unfold upd; destruct (Z.eqb_spec n (priority pc1)) as [->|]; [cbn; rewrite Hq; set_solver|done]).
    destruct (kb_in _ _ (ki_base _ _ Hi) n p (proj1 Hsv) Hpq) as (d' & Hd' & _ & [?|?]); congruence. }
  split; [|split; [done|split; [|split]]].
  - unfold wait_turn. rewrite Hv. cbn [Z.eqb]. rewrite (upd_pcb_eq _ _ _ _ Hpc). sbind. fold pc1 k1. by rewrite Hb.
  - rewrite Hpcbs. unfold k1. cbn. rewrite !dom_insert_L. apply elem_of_dom_2 in Hcp, Hpc. set_solver.
  - by rewrite Hcur.
  - apply (chain_cons k' _ (set_status pc1 BLOCKED)); [|done|done|].
    + rewrite Hpcbs, lookup_insert_ne, lookup_insert_eq by done. done.
    + cbn. apply (chain_left k); [done|]. intros q d Hq' Hd Hs.
      rewrite Hpcbs, !lookup_insert_ne by (intros <-; done). unfold k1. cbn. by rewrite lookup_insert_ne by (intros <-; done).
Qed.

(** What [signal] does to a chain of waiters. *)
Definition signalled (k : kernel) (qs : Z -> list Z) (s : Semaphore) (ws : list Z) (s' : Semaphore) (k' : kernel) : Prop :=
  match ws with
  | [] => s' = mk_Semaphore (s32 (s.(value) + 1)) NULL /\ k' = k
  | p :: ws' =>
      s'.(value) = s32 (s.(value) + 1) /\ chain k' s'.(waiters) ws' /\
      exists c, k.(pcbs) !! p = Some c /\ k'.(pcbs) !! p = Some (set_status c READY) /\
        kinv k' (upd qs c.(priority) (qs c.(priority) ++ [p]))
  end.

Lemma signal_spec k qs s ws : kinv k qs -> chain k s.(waiters) ws ->
  exists s' k', signal k s = Some (s', k') /\ signalled k qs s ws s' k' /\ dom k'.(pcbs) = dom k.(pcbs).
Proof.
  intros Hi Hc. destruct s as [v w]. unfold signal. cbn [waiters value] in *.
  destruct Hc as [|p c ws Hp Hb Hn Hc].
  - rewrite Z.eqb_refl. cbn [negb]. by eexists _, _.
  - destruct (kb_pcb _ _ (ki_base _ _ Hi) _ _ Hp) as ([Hpos _] & _).
    rewrite (proj2 (Z.eqb_neq p NULL)) by (unfold NULL; lia). cbn [negb]. unfold get_pcb. rewrite Hp. sbind.
    destruct (unblock_proc_spec k qs p c Hi Hp) as (k' & -> & Hi' & Hpcbs & _); [intros [?|?]; congruence|]. sbind.
    eexists _, k'. split; [reflexivity|]. split.
    + split; [done|]. split.
      * apply (chain_left k); [done|]. intros q d Hq Hd _. rewrite Hpcbs, lookup_insert_ne; [done|]. by intros <-.
      * exists c. by rewrite Hpcbs, lookup_insert_eq.
    + rewrite Hpcbs, dom_insert_L. apply elem_of_dom_2 in Hp. set_solver.
Qed.

(** ** The system *)

(** The current process takes a turn of [wait] or calls [signal], or the kernel
    does anything else that keeps its invariant and leaves blocked processes
    alone. *)
Inductive sem_step (fuel : nat) : kernel * Semaphore -> kernel * Semaphore -> Prop :=
| sem_wait k s taken s' k' :
    another_idle k -> wait_turn fuel k s = Some (taken, s', k') -> sem_step fuel (k, s) (k', s')
| sem_signal k s s' k' :
    s.(value) < 2147483647 -> signal k s = Some (s', k') -> sem_step fuel (k, s) (k', s')
| sem_other k k' s qs :
    kinv k' qs -> dom k'.(pcbs) = dom k.(pcbs) ->
    (forall p c, k.(pcbs) !! p = Some c -> c.(status) = BLOCKED -> k'.(pcbs) !! p = Some c) ->
    sem_step fuel (k, s) (k', s).

(** A switch is such a step. *)
Lemma schedule_leaves_blocked fuel k qs : kinv k qs -> short_queues fuel qs ->
  exists k', schedule fuel k = Some k' /\ forall s, sem_step fuel (k, s) (k', s).
Proof.
  intros Hi Hf. destruct (schedule_run fuel k qs Hi Hf) as (k' & n & p & pc & c & E & [Hn _] & Hp & _ & Hi' & _ & _ & Hpc & Hr & Hc & Hpcbs).
  exists k'. split; [done|]. intros s. apply (sem_other _ _ _ _ qs Hi').
  - rewrite Hpcbs, !dom_insert_L. apply elem_of_dom_2 in Hc, Hpc. rewrite dom_insert_L in Hc. set_solver.
  - intros q d Hd Hs. destruct (kb_in _ _ (ki_base _ _ Hi) n p Hn Hp) as (d' & Hd' & _ & Hrun).
    rewrite Hpcbs, !lookup_insert_ne; [done|intros <-; congruence|].
    intros <-. destruct Hrun; congruence.
Qed.

Record sem_inv (n : nat) (k : kernel) (s : Semaphore) (qs : Z -> list Z) (ws : list Z) : Prop := {
  si_kernel : kinv k qs;
  si_size : size k.(pcbs) = n;
  si_chain : chain k s.(waiters) ws;
  si_value : 0 <= s.(value) <= 2147483647;
}.

Lemma sem_inv_step n fuel a b : (n <= fuel)%nat -> sem_step fuel a b ->
  (exists qs ws, sem_inv n a.1 a.2 qs ws) -> exists qs ws, sem_inv n b.1 b.2 qs ws.
Proof.
  intros Hf Hs (qs & ws & [Hi Hz Hc Hv]).
  destruct Hs as [k s taken s' k' Ho H|k s s' k' Hm H|k k' s qs' Hi' Hd Hl]; cbn [fst snd] in *.
  - assert (short_queues fuel qs) as Hsq by (apply (short_enough k); [done|lia]).
    destruct (decide (s.(value) = 0)) as [E|E].
    + destruct (wait_turn_blocks fuel k qs s ws Hi Hsq Hc E Ho) as (k1 & qs1 & H1 & Hi1 & Hd & _ & Hc1).
      assert (s' = mk_Semaphore 0 k.(cur_proc) /\ k' = k1) as [-> ->] by (split; congruence).
      exists qs1, (k.(cur_proc) :: ws). constructor; [done|by rewrite (size_same_dom _ _ Hd)|done|cbn; lia].
    + rewrite (wait_turn_takes fuel k s E) in H. injection H as _ <- <-. exists qs, ws.
      constructor; cbn; try done. rewrite s32_id; lia.
  - destruct (signal_spec k qs s ws Hi Hc) as (s1 & k1 & H1 & Hsg & Hd).
    assert (s' = s1 /\ k' = k1) as [-> ->] by (split; congruence).
    destruct ws as [|p ws].
    + destruct Hsg as [-> ->]. exists qs, []. constructor; cbn; [done..|constructor|rewrite s32_id; lia].
    + destruct Hsg as (Ev & Hc1 & c & _ & _ & Hi1). eexists _, ws.
      constructor; [exact Hi1|by rewrite (size_same_dom _ _ Hd)|done|rewrite Ev, s32_id; lia].
  - exists qs', ws. constructor; [done|by rewrite (size_same_dom _ _ Hd)| |done].
    apply (chain_left k); [done|]. intros p c _. apply Hl.
Qed.

(** C14. The waiters of a semaphore are a stack of blocked processes, whatever
    order of [wait], [signal] and other work of the kernel leads to the state.  A
    turn of [wait] always returns: it takes the semaphore when its value is not
    zero, and otherwise puts the current process on the stack and switches to
    another.  [signal] always returns, increments the value, and makes the last
    process that has come ready, at the end of its ready queue. *)
Theorem waiters_are_stack fuel k0 qs0 k s :
  kinv k0 qs0 -> (size k0.(pcbs) <= fuel)%nat -> star (sem_step fuel) (k0, Semaphore_init) (k, s) ->
  exists qs ws, kinv k qs /\ chain k s.(waiters) ws /\
    (s.(value) <> 0 -> wait_turn fuel k s = Some (true, mk_Semaphore (s32 (s.(value) - 1)) s.(waiters), k)) /\
    (s.(value) = 0 -> another_idle k ->
       exists k' qs', wait_turn fuel k s = Some (false, mk_Semaphore 0 k.(cur_proc), k') /\ kinv k' qs' /\
         k'.(cur_proc) <> k.(cur_proc) /\ chain k' k.(cur_proc) (k.(cur_proc) :: ws)) /\
    exists s' k', signal k s = Some (s', k') /\ signalled k qs s ws s' k'.
Proof.
  intros Hi0 Hf Hs.
  assert (exists qs ws, sem_inv (size k0.(pcbs)) (k, s).1 (k, s).2 qs ws) as (qs & ws & [Hi Hz Hc Hv]).
  { eapply (star_inv_preserved (sem_step fuel) (fun a => exists qs ws, sem_inv (size k0.(pcbs)) a.1 a.2 qs ws)); [|exact Hs|].
    - intros a b Ha Hab. by eapply sem_inv_step.
    - exists qs0, []. constructor; cbn; [done..|constructor|lia]. }
  cbn [fst snd] in *. exists qs, ws. split; [done|]. split; [done|]. split; [apply wait_turn_takes|]. split.
  - intros Ev Ho. destruct (wait_turn_blocks fuel k qs s ws) as (k' & qs' & ? & ? & _ & ? & ?); try done.
    { apply (short_enough k); [done|lia]. }
    by exists k', qs'.
  - destruct (signal_spec k qs s ws Hi Hc) as (s' & k' & ? & ? & _). by exists s', k'.
Qed.

(** ** A process waits and is woken

    The first process takes the semaphore, is interrupted, and the next one
    waits. *)
Definition taken_sem : Semaphore := mk_Semaphore 0 NULL.

Lemma started_inv : exists qs, kinv started_kernel qs /\ qs 4 = [0x80000; 0x99000].
Proof.
  destruct (main_spec 0x9000 0x9100 0x9200 (fun _ => raw_pcb) (fun nr => 16 * nr) 0x9300 0x9400 0x9500 ∅
      (replicate 256 (mk_idt_entry 0 0 0 0 0)) (replicate 256 0) boot_kernel2)
    as (m' & IDT' & h' & k' & qs & H1 & _ & Hk & _ & Hq & _).
  - intros a. reflexivity.
  - reflexivity.
  - reflexivity.
  - reflexivity.
  - reflexivity.
  - cbn. lia.
  - cbn. lia.
  - exists qs. unfold started_kernel. rewrite H1. split; [exact Hk|].
    exact (f_equal (fun l => nth 4 l []) Hq).
Qed.

Lemma idle_beside k qs p : kinv k qs -> p ∈ qs 4 -> p <> k.(cur_proc) -> another_idle k.
Proof. intros [Hk _] Hp Hne. destruct (kb_in _ _ Hk 4 p) as (c & ? & ? & ?); [lia|done|]. by exists p, c. Qed.

Lemma interrupted_inv : exists qs, kinv interrupted qs /\ qs 4 = [0x80000; 0x99000] /\
  forall s, sem_step 20 (started_kernel, s) (interrupted, s).
Proof.
  destruct started_inv as (qs & Hk & Hq). exists qs.
  assert (short_queues 20 qs) as Hf.
  { apply (short_enough started_kernel); [done|]. apply Nat.leb_le. vm_compute. reflexivity. }
  unfold interrupted. destruct (schedule_leaves_blocked 20 started_kernel qs Hk Hf) as (k' & E & Hs).
  destruct (schedule_spec 20 started_kernel qs Hk Hf) as (k1 & n & p & E1 & _ & _ & _ & Hi & _).
  assert (k1 = k') as -> by congruence. rewrite E.
  change (default started_kernel (Some k')) with k'. split; [exact Hi|]. split; [exact Hq|exact Hs].
Qed.

Lemma waiters_are_stack_witness : exists k s k' s',
  wait_turn 20 interrupted taken_sem = Some (false, s, k) /\ signal k s = Some (s', k') /\ s'.(value) = 1.
Proof.
  destruct started_inv as (qs & Hk & Hq). destruct interrupted_inv as (qs1 & Hk1 & Hq1 & Hstep).
  assert (cur_proc started_kernel = 0x80000) as Ec by (vm_compute; reflexivity).
  assert (cur_proc interrupted = 606208) as Ei by (vm_compute; reflexivity).
  assert (short_queues 20 qs1) as Hf1.
  { apply (short_enough interrupted); [exact Hk1|]. apply Nat.leb_le. vm_compute. reflexivity. }
  assert (another_idle interrupted) as Ho.
  { apply (idle_beside interrupted qs1 0x80000 Hk1); [rewrite Hq1; left|rewrite Ei; discriminate]. }
  destruct (wait_turn_blocks 20 interrupted qs1 taken_sem [] Hk1 Hf1 (chain_nil _) eq_refl Ho) as (k & qs2 & E & _).
  destruct (waiters_are_stack 20 started_kernel qs k (mk_Semaphore 0 (cur_proc interrupted)))
    as (qs3 & ws & _ & Hc & _ & _ & s' & k' & Es & Hsg).
  - exact Hk.
  - apply Nat.leb_le. vm_compute. reflexivity.
  - eapply star_step; [eapply (sem_wait 20 started_kernel Semaphore_init true taken_sem started_kernel)|].
    + apply (idle_beside started_kernel qs 0x99000 Hk); [rewrite Hq; right; left|rewrite Ec; discriminate].
    + reflexivity.
    + eapply star_step; [apply Hstep|]. eapply star_step; [|apply star_refl]. exact (sem_wait 20 _ _ _ _ _ Ho E).
  - exists k, (mk_Semaphore 0 (cur_proc interrupted)), k', s'. split; [exact E|]. split; [exact Es|].
    destruct (chain_top k (cur_proc interrupted) ws Hc) as [ws' ->]; [rewrite Ei; discriminate|].
    destruct Hsg as [Hv _]. exact Hv.
Defined.
