(* ===== verification/Reception.v ===== *)
(** * Frames from the card to the network process (dr/ne2k.cc, net/main.cc)

    The frames that lie in the ring of the card, each behind a header of four
    bytes that names the page of the next, are moved by [receive_packet] to the
    buffers of [IndirectRingBuffer], from which the network process takes them: one
    for each message, while an interrupt sends one message for all its frames. *)
From S2P Require Import Prelude Mem CString FsState Process RingBuffer Packets FileSystem Ports Ata DiskDriver Ne2k.
From S2P Require KernelMain Syscalls Tcp Net.
Import ne2k.

#[local] Ltac Zify.zify_post_hook ::= Z.to_euclidean_division_equations.

(** ** The ring of the card *)

Definition ring_page (p : Z) : Prop := ring_start <= p < ring_stop.

(** The address [i] bytes behind [a], on the ring. *)
Definition dma_addr (a i : Z) : Z := if a + i <? 256 * ring_stop then a + i else a + i - 256 * (ring_stop - ring_start).

Definition in_ring (a : Z) : Prop := 256 * ring_start <= a < 256 * ring_stop.

Lemma ring_next_in a : in_ring a -> in_ring (ring_next a).
Proof. unfold in_ring, ring_next, ring_start, ring_stop. intros H. destruct (Z.eqb_spec (a + 1) (256 * 0x60)); lia. Qed.

Lemma dma_addr_next a i : in_ring a -> 0 <= i < 6655 -> dma_addr (ring_next a) i = dma_addr a (1 + i).
Proof.
  unfold in_ring, ring_next, dma_addr, ring_start, ring_stop. intros H Hi.
  destruct (Z.eqb_spec (a + 1) (256 * 0x60)), (Z.ltb_spec (a + (1 + i)) (256 * 0x60)); try lia.
  - destruct (Z.ltb_spec (256 * 0x46 + i) (256 * 0x60)); lia.
  - destruct (Z.ltb_spec (a + 1 + i) (256 * 0x60)); lia.
  - destruct (Z.ltb_spec (a + 1 + i) (256 * 0x60)); lia.
Qed.

(** The [n] bytes from [a] on. *)
Definition ring_bytes (m : gmap Z Z) (a : Z) (n : nat) : list Z := map (fun i => load8 m (dma_addr a i)) (seqZ 0 (Z.of_nat n)).

Lemma ring_bytes_S m a n : in_ring a -> Z.of_nat n < 6655 ->
  ring_bytes m a (S n) = load8 m a :: ring_bytes m (ring_next a) n.
Proof.
  intros Ha Hn. unfold ring_bytes. replace (Z.of_nat (S n)) with (1 + Z.of_nat n) by lia.
  rewrite seqZ_app by lia. change (seqZ 0 1) with [0]. cbn [map app]. f_equal.
  - f_equal. unfold dma_addr, in_ring in *. destruct (Z.ltb_spec (a + 0) (256 * ring_stop)); lia.
  - change (0 + 1) with 1. rewrite <- (Z.add_0_r 1) at 1. rewrite <- fmap_add_seqZ, map_map. apply map_ext_in. intros i Hi.
    apply list_elem_of_In, elem_of_seqZ in Hi. by rewrite dma_addr_next by (done || lia).
Qed.

(** A frame without errors begins at page [p], and the next one at [p']. *)
Record frame_at (m : gmap Z Z) (p p' : Z) (f : list Z) : Prop := {
  fr_status : Z.land (load8 m (256 * p)) 31 = 1;
  fr_next : load8 m (256 * p + 1) = p';
  fr_count : load8 m (256 * p + 2) = (zlen f + 4) mod 256 /\ load8 m (256 * p + 3) = (zlen f + 4) / 256;
  fr_bytes : f = ring_bytes m (256 * p + 4) (length f) /\ Forall is_u8 f;
}.

(** The frames from page [p] up to the page [cur], where the card goes on. *)
Inductive waiting (m : gmap Z Z) (cur : Z) : Z -> list (list Z) -> Prop :=
| no_frames : ring_page cur -> waiting m cur cur []
| a_frame p p' f fs :
    ring_page p -> p <> cur -> 1 <= zlen f <= 1532 -> frame_at m p p' f -> waiting m cur p' fs ->
    waiting m cur p (f :: fs).

(** The messages that have been sent, with receiver and type. Neither ports nor
    memory send any. *)
Class Messages (St : Type) `{Ports St} `{Syscalls.Ipc St} := {
  told : St -> list (Z * Z);
  told_send dest type con s s' : Syscalls.send_msg dest type con s = Some s' -> told s' = told s ++ [(dest, type)];
  told_outb p v s : told (outb p v s) = told s;
  told_inb p s : told (snd (inb p s)) = told s;
  told_poke s a v : told (Syscalls.poke s a v) = told s;
}.

(** ** Receiving sends no message *)

Section told.
Context {St : Type} `{Messages St}.

Lemma told_in reg s v s' : in_ reg s = (v, s') -> told s' = told s.
Proof. unfold in_. intros E. pose proof (told_inb (IOBASE + reg) s) as T. by rewrite E in T. Qed.

Lemma told_out_all l s : told (out_all l s) = told s.
Proof. revert s. induction l as [|[reg v] l IH]; intros s; cbn [out_all]; [done|]. rewrite IH. apply told_outb. Qed.

Lemma told_in_bytes n s l s' : in_bytes n s = (l, s') -> told s' = told s.
Proof.
  revert s l. induction n as [|n IH]; intros s l; cbn [in_bytes]; [by intros [= _ <-]|].
  destruct (in_ NE_DATA s) as [b s1] eqn:E1. destruct (in_bytes n s1) as [l1 s2] eqn:E2. intros [= _ <-].
  rewrite (IH _ _ E2). by eapply told_in.
Qed.

Lemma told_poke_bytes bs a s : told (poke_bytes bs a s) = told s.
Proof. revert a s. induction bs as [|b bs IH]; intros a s; cbn [poke_bytes]; [done|]. by rewrite IH, told_poke. Qed.

Lemma told_store_frame buf len s s' : store_frame buf len s = Some s' -> told s' = told s.
Proof.
  unfold store_frame. destruct (deref buf); [|done]. sbind. destruct (negb _).
  - destruct (in_bytes _ _) as [bs s2] eqn:E. intros [= <-]. rewrite told_poke_bytes, (told_in_bytes _ _ _ _ E).
    by rewrite !told_poke_bytes.
  - destruct (in_ _ _) as [v s2] eqn:E. intros [= <-]. rewrite (told_in _ _ _ _ E). by rewrite told_poke_bytes.
Qed.

Lemma told_current_page s cur s' : current_page s = (cur, s') -> told s' = told s.
Proof.
  unfold current_page. destruct (in_ _ _) as [c s1] eqn:E. intros [= _ <-]. unfold out at 1. rewrite told_outb, (told_in _ _ _ _ E).
  apply told_outb.
Qed.

Lemma told_receive_one n s n' s' : receive_one n s = Some (n', s') -> told s' = told s.
Proof.
  unfold receive_one. destruct (in_ NE_DATA (out_all _ s)) as [v1 s1] eqn:E1. destruct (in_ NE_DATA s1) as [v2 s2] eqn:E2.
  destruct (in_ NE_DATA s2) as [v3 s3] eqn:E3. destruct (in_ NE_DATA s3) as [v4 s4] eqn:E4.
  apply told_in in E1, E2, E3, E4. rewrite told_out_all in E1. cbv zeta. destruct (_ && _).
  - destruct (IndirectRingBuffer.get_first_free_buffer _) as [[buf r]|]; [|done]. sbind.
    destruct (store_frame _ _ _) as [s5|] eqn:E5; [|done]. sbind. intros [= _ <-].
    unfold out at 1. rewrite told_outb, (told_store_frame _ _ _ _ E5), told_out_all. unfold out. rewrite told_outb. congruence.
  - intros [= _ <-]. unfold out. rewrite told_outb. congruence.
Qed.

Lemma told_receive_loop fuel : forall cur n s n' s', receive_loop fuel cur n s = Some (n', s') -> told s' = told s.
Proof.
  induction fuel as [|fuel IH]; intros cur n s n' s'; cbn [receive_loop]; [done|]. destruct (_ =? cur); [by intros [= _ <-]|].
  destruct (receive_one n s) as [[n1 s1]|] eqn:E1; [|done]. sbind. destruct (current_page _) as [c s2] eqn:E2.
  intros E. rewrite (IH _ _ _ _ _ E), (told_current_page _ _ _ E2). unfold out. rewrite told_outb. by eapply told_receive_one.
Qed.
End told.

Section reception.
Context {St : Type} `{Ports St} `{Syscalls.Ipc St} `{!PortLaws St} `{!Ne2000 St} `{!Messages St}.

(** ** Reading from the card *)

Lemma in_card reg s v c : card_in reg (card_of s) = Some (v, c) ->
  exists s', in_ reg s = (v, s') /\ card_of s' = c /\ same_memory s s'.
Proof.
  intros E. destruct (card_inb reg s v c E) as [C F]. unfold in_. pose proof (peek_inb (IOBASE + reg) s) as M.
  destruct (inb (IOBASE + reg) s) as [v' s']. cbn [fst snd] in *. subst v'. by exists s'.
Qed.

Lemma in_bytes_card n s :
  let c := card_of s in
  c.(reading) = true -> c.(rbcr) = Z.of_nat (S n) -> in_ring c.(rsar) -> Z.of_nat n < 6655 ->
  exists s' a, in_bytes (S n) s = (ring_bytes c.(ram) c.(rsar) (S n), s') /\
    card_of s' = set_isr (Z.lor c.(isr) 0x40) (set_dma a 0 c) /\ same_memory s s'.
Proof.
  revert s. induction n as [|n IH]; intros s c Hr Hn Ha Hl.
  - destruct (in_card NE_DATA s (load8 c.(ram) c.(rsar)) (dma_step (ring_next c.(rsar)) c)) as (s1 & E & C & M).
    { unfold card_in. fold c. by rewrite Hr, Hn. }
    cbn [in_bytes]. rewrite E. rewrite ring_bytes_S by done. exists s1, (ring_next c.(rsar)). split; [done|].
    split; [|done]. rewrite C. unfold dma_step. by rewrite Hn.
  - destruct (in_card NE_DATA s (load8 c.(ram) c.(rsar)) (dma_step (ring_next c.(rsar)) c)) as (s1 & E & C & M).
    { unfold card_in. fold c. rewrite Hr, Hn. cbn [andb]. by rewrite (proj2 (Z.ltb_lt _ _)) by lia. }
    unfold dma_step in C. rewrite Hn, (proj2 (Z.eqb_neq _ _)) in C by lia.
    destruct (IH s1) as (s' & a & E' & C' & M'); rewrite ?C in *; cbn [reading rbcr rsar set_dma]; [done|lia|by apply ring_next_in|lia|].
    change (in_bytes (S (S n)) s) with (let '(b, s) := in_ NE_DATA s in let '(l, s) := in_bytes (S n) s in (b :: l, s)).
    rewrite E, E', (ring_bytes_S _ _ (S n)) by (done || lia). exists s', a. split; [done|]. split; [done|].
    intros b. by rewrite M', M.
Qed.

Lemma current_page_card s :
  exists s', current_page s = ((card_of s).(curr), s') /\ card_of s' = set_mode 0 false false (card_of s) /\ same_memory s s'.
Proof.
  unfold current_page. change (Z.lor (Z.lor NODMA START) 0x40) with 0x62. change (Z.lor START NODMA) with 0x22.
  destruct (out_card CMD 0x62 s (set_mode 1 false false (card_of s)) eq_refl) as [C1 M1].
  destruct (in_card CURRENT (out CMD 0x62 s) (card_of s).(curr) (set_mode 1 false false (card_of s))) as (s2 & E2 & C2 & M2).
  { by rewrite C1. }
  rewrite E2. destruct (out_card CMD 0x22 s2 (set_mode 0 false false (card_of s))) as [C3 M3]; [by rewrite C2|].
  eexists. split; [reflexivity|]. split; [done|]. intros b. by rewrite M3, M2, M1.
Qed.

(** ** The buffers *)

(** The bytes behind a frame in its buffer. *)
Definition padded (f : list Z) : list Z := f ++ replicate (1598 - length f) 0.

(** A buffer holds a frame: two bytes for its length, its bytes, and zeros. *)
Definition buffered (s : St) (a : Z) (f : list Z) : Prop :=
  zlen f <= 1532 /\ Forall is_u8 f /\ bytes_from s a 1600 = u8 (zlen f) :: u8 (zlen f / 256) :: padded f.

Lemma padded_length f : zlen f <= 1532 -> length (padded f) = 1598%nat.
Proof. unfold padded, zlen. rewrite length_app, length_replicate. lia. Qed.

(** No buffer is null and no two share a byte. *)
Definition apart (bufs : list Z) : Prop :=
  (forall a, a ∈ bufs -> 0 < a) /\
  forall i j a b, bufs !! i = Some a -> bufs !! j = Some b -> i <> j -> a + 1600 <= b \/ b + 1600 <= a.

(** The ring of buffers holds the frames [q]. *)
Definition queued (s : St) (r : IndirectRingBuffer.t) (q : list (list Z)) : Prop :=
  apart r.(IndirectRingBuffer.buf) /\ exists addrs, indirect.ind_holds r addrs /\ Forall2 (buffered s) addrs q.

Lemma apart_NoDup bufs : apart bufs -> NoDup bufs.
Proof.
  intros [_ Ha]. apply NoDup_alt. intros i j a Hi Hj. destruct (decide (i = j)) as [|Hne]; [done|].
  destruct (Ha i j a a Hi Hj Hne); lia.
Qed.

Lemma poke_bytes_card bs a s : card_of (poke_bytes bs a s) = card_of s.
Proof. revert a s. induction bs as [|b bs IH]; intros a s; cbn [poke_bytes]; [done|]. by rewrite IH, card_poke. Qed.

Lemma peek_poke_bytes bs a s b : Forall is_u8 bs ->
  Syscalls.peek (poke_bytes bs a s) b = default (Syscalls.peek s b) bs.[b - a].
Proof.
  intros Hb. revert a s. induction bs as [|x bs IH]; intros a s; cbn [poke_bytes].
  - by rewrite (proj2 (zget_None _ _)) by (change (zlen []) with 0; lia).
  - apply Forall_cons in Hb as [Hx Hb]. rewrite IH, peek_poke, u8_id by done. destruct (Z.eqb_spec b a) as [->|Hne].
    + rewrite Z.sub_diag, (proj2 (zget_None bs _)) by lia. done.
    + destruct (Z.ltb_spec b a).
      * by rewrite !(proj2 (zget_None _ _)) by lia.
      * change (x :: bs) with ([x] ++ bs). rewrite zget_app_r by (change (zlen [x]) with 1; lia).
        change (zlen [x]) with 1. do 2 f_equal. lia.
Qed.

Lemma bytes_from_is s a l : (forall i x, l.[i] = Some x -> u8 (Syscalls.peek s (a + i)) = x) -> bytes_from s a (length l) = l.
Proof.
  intros Hl. apply list_eq. intros i. unfold bytes_from. change (map ?g ?x) with (g <$> x). rewrite list_lookup_fmap.
  destruct (decide (i < length l)%nat).
  - rewrite lookup_seqZ_lt by lia. cbn [fmap option_fmap option_map]. destruct (lookup_lt_is_Some_2 l i) as [x Hx]; [lia|].
    rewrite Hx. f_equal. apply Hl. unfold zget. by rewrite (proj2 (Z.leb_le 0 _)), Nat2Z.id by lia.
  - by rewrite lookup_seqZ_ge, lookup_ge_None_2 by lia.
Qed.

(** What is stored elsewhere stays. *)
Definition only_buffer (a : Z) (s s' : St) : Prop :=
  forall b, b < a \/ a + 1600 <= b -> Syscalls.peek s' b = Syscalls.peek s b.

Lemma buffered_elsewhere s s' a b f : only_buffer b s s' -> a + 1600 <= b \/ b + 1600 <= a -> buffered s a f -> buffered s' a f.
Proof.
  intros Ho Hab (Hl & Hu & E). split; [done|]. split; [done|]. rewrite <- E. unfold bytes_from. apply map_ext_in.
  intros i Hi. apply list_elem_of_In, elem_of_seqZ in Hi. rewrite Ho; [done|]. unfold zlen in Hl. lia.
Qed.

Lemma u8_stored hdr f i x : Forall is_u8 hdr -> Forall is_u8 f -> (hdr ++ padded f).[i] = Some x -> is_u8 x.
Proof.
  intros Hh Hf Hx. apply (Forall_zget _ _ _ _ Hx). apply Forall_app. split; [done|]. apply Forall_app. split; [done|].
  apply Forall_replicate. unfold is_u8. lia.
Qed.

Lemma store_frame_spec s buf f :
  let c := card_of s in
  0 < buf -> c.(reading) = true -> c.(rbcr) = zlen f -> in_ring c.(rsar) -> 1 <= zlen f <= 1532 ->
  f = ring_bytes c.(ram) c.(rsar) (length f) -> Forall is_u8 f ->
  exists s' a, store_frame buf (zlen f) s = Some s' /\ buffered s' buf f /\ only_buffer buf s s' /\
    card_of s' = set_isr (Z.lor c.(isr) 0x40) (set_dma a 0 c).
Proof.
  intros c Hbuf Hrd Hcnt Hring Hlen Hf Hu. unfold store_frame, deref.
  rewrite (proj2 (Z.eqb_neq _ _)) by (unfold NULL; lia). sbind. rewrite (proj2 (Z.eqb_neq _ _)) by (unfold NULL; lia). cbn [negb].
  set (hdr := [u8 (zlen f); u8 (zlen f / 256)]). set (s1 := poke_bytes hdr buf s).
  set (s2 := poke_bytes (replicate 1598 0) (buf + 2) s1).
  assert (card_of s2 = c) as C2 by (unfold s2, s1; by rewrite !poke_bytes_card).
  assert (exists n, length f = S n) as [n En] by (destruct f; [change (zlen []) with 0 in Hlen; lia|by eexists]).
  destruct (in_bytes_card n s2) as (s3 & a & E & C & M); rewrite ?C2 in *; [done|unfold zlen in *; lia|done|unfold zlen in *; lia|].
  unfold zlen at 1. rewrite Nat2Z.id, En, E, <- En, <- Hf. exists (poke_bytes f (buf + 2) s3), a. split; [done|].
  assert (Forall is_u8 hdr) as Hhdr by (repeat apply Forall_cons_2; [apply u8_range..|apply Forall_nil, I]).
  assert (Forall is_u8 (replicate 1598 0)) as Hz by (apply Forall_replicate; unfold is_u8; lia).
  assert (forall b, Syscalls.peek (poke_bytes f (buf + 2) s3) b =
    default (default (default (Syscalls.peek s b) hdr.[b - buf]) (replicate 1598 0).[b - (buf + 2)]) f.[b - (buf + 2)]) as P.
  { intros b. rewrite peek_poke_bytes, M by done. unfold s2. rewrite peek_poke_bytes by done. unfold s1. by rewrite peek_poke_bytes. }
  split; [|split].
  - split; [lia|]. split; [done|]. change (u8 (zlen f) :: u8 (zlen f / 256) :: padded f) with (hdr ++ padded f).
    replace 1600%nat with (length (hdr ++ padded f)) by (rewrite length_app, padded_length by lia; done).
    apply bytes_from_is. intros i x Hi. rewrite P. apply u8_stored with (i := i) in Hi as Hx; [|done..].
    replace (buf + i - buf) with i by lia. replace (buf + i - (buf + 2)) with (i - 2) by lia.
    pose proof (zget_lt _ _ _ Hi) as Hr. rewrite zlen_app in Hr. change (zlen hdr) with 2 in Hr.
    destruct (Z.ltb_spec i 2).
    + rewrite zget_app_l in Hi by (change (zlen hdr) with 2; lia).
      rewrite !(proj2 (zget_None _ (i - 2))) by lia. cbn [default from_option id]. rewrite Hi. by apply u8_id.
    + rewrite zget_app_r in Hi by (change (zlen hdr) with 2; lia). change (zlen hdr) with 2 in Hi. unfold padded in Hi.
      destruct (Z.ltb_spec (i - 2) (zlen f)).
      * rewrite zget_app_l in Hi by lia. rewrite Hi. by apply u8_id.
      * rewrite zget_app_r in Hi by lia. rewrite (proj2 (zget_None f _)) by lia. cbn [default from_option id].
        apply zget_Some in Hi as [Hi0 Hi]. apply lookup_replicate in Hi as [-> Hi].
        rewrite (proj2 (zget_Some (replicate 1598 0) (i - 2) 0)); [done|]. split; [lia|]. apply lookup_replicate.
        split; [done|]. unfold zlen in *. lia.
  - intros b Hb. rewrite P. rewrite !(proj2 (zget_None _ (b - (buf + 2)))); [cbn|unfold zlen in *; rewrite ?length_replicate; lia..].
    by rewrite (proj2 (zget_None hdr _)) by (change (zlen hdr) with 2; lia).
  - by rewrite poke_bytes_card.
Qed.

(** ** One frame *)

Lemma apart_ne bufs a b : apart bufs -> a ∈ bufs -> b ∈ bufs -> a <> b -> a + 1600 <= b \/ b + 1600 <= a.
Proof.
  intros [_ Ha] Hi Hj Hne. apply list_elem_of_lookup in Hi as [i Hi], Hj as [j Hj].
  apply (Ha i j); [done..|]. intros ->. by rewrite Hi in Hj; injection Hj.
Qed.

Lemma queue_elsewhere s s' bufs a addrs q :
  apart bufs -> a ∈ bufs -> a ∉ addrs -> (forall x, x ∈ addrs -> x ∈ bufs) -> only_buffer a s s' ->
  Forall2 (buffered s) addrs q -> Forall2 (buffered s') addrs q.
Proof.
  intros Hap Ha Hfresh Hin Ho Hq. induction Hq as [|x f addrs q Hx Hq IH]; [done|].
  apply not_elem_of_cons in Hfresh as [Hne Hfresh]. apply Forall2_cons_2.
  - eapply buffered_elsewhere; [exact Ho| |exact Hx]. apply (apart_ne bufs); [done| |done|congruence]. apply Hin. by left.
  - apply IH; [done|]. intros y Hy. apply Hin. by right.
Qed.

Lemma held_in (r : IndirectRingBuffer.t) addrs x :
  indirect.ind_holds r addrs -> x ∈ addrs -> x ∈ r.(IndirectRingBuffer.buf).
Proof.
  intros Hh Hx. apply list_elem_of_lookup in Hx as [k Hk]. pose proof (lookup_lt_Some _ _ _ Hk).
  pose proof (holds_elem _ _ _ _ _ Hh (Z.of_nat k)) as E. rewrite (proj2 (zget_Some addrs _ x)) in E by (rewrite Nat2Z.id; split; [lia|done]).
  specialize (E ltac:(unfold zlen; lia)). apply zget_Some in E as [_ E]. by eapply list_elem_of_lookup_2.
Qed.

(** A free buffer is taken and filled. *)
Lemma queued_add s (r : IndirectRingBuffer.t) q :
  queued s r q -> (length q < 9)%nat ->
  exists a r', IndirectRingBuffer.get_first_free_buffer r = Some (a, r') /\ 0 < a /\
    forall s' f, only_buffer a s s' -> buffered s' a f -> queued s' r' (q ++ [f]).
Proof.
  intros (Hap & addrs & Hh & Hq) Hn. pose proof (Forall2_length _ _ _ Hq) as Hlen.
  pose proof (indirect.free_holds _ _ Hh) as Hfree. rewrite (proj2 (Z.ltb_lt _ 9)) in Hfree by (unfold zlen; lia).
  destruct Hfree as (a & r' & Ha & E & Er & Hh'). exists a, r'. split; [done|].
  assert (a ∈ r.(IndirectRingBuffer.buf)) as Hin by (apply zget_Some in Ha as [_ Ha]; by eapply list_elem_of_lookup_2).
  split; [by apply Hap|]. intros s' f Ho Hf. split; [by rewrite Er|]. exists (addrs ++ [a]). split; [done|].
  apply Forall2_app; [|by apply Forall2_cons_2; [|apply Forall2_nil]].
  apply (queue_elsewhere s s' r.(IndirectRingBuffer.buf) a); [done..| |intros x; by apply held_in|done|done].
  eapply (holds_fresh IndirectRingBuffer.LEN); [exact Hh|unfold IndirectRingBuffer.LEN, zlen; lia|by apply apart_NoDup|exact Ha].
Qed.

(** What the driver leaves of the card: the ring, and the interrupts, the end of
    a transfer apart. *)
Record drained (c c' : card) : Prop := {
  dr_page : c'.(page) = 0;
  dr_ram : c'.(ram) = c.(ram);
  dr_curr : c'.(curr) = c.(curr);
  dr_sent : c'.(sent) = c.(sent);
  dr_isr : c'.(isr) = c.(isr) \/ c'.(isr) = Z.ldiff c.(isr) 0x40;
}.

Lemma drained_trans a b c : drained a b -> drained b c -> drained a c.
Proof.
  intros [] [? ? ? ? Hi]. constructor; [done|congruence..|].
  assert (Z.ldiff (Z.ldiff (isr a) 64) 64 = Z.ldiff (isr a) 64) as E by (rewrite Z.ldiff_ldiff_l; by rewrite Z.lor_diag).
  destruct dr_isr0 as [E1|E1], Hi as [E2|E2]; rewrite E2, ?E1, ?E; auto.
Qed.

Lemma ldiff_lor_bit v : Z.ldiff (Z.lor v 0x40) 0x40 = Z.ldiff v 0x40.
Proof. apply Z.bits_inj'. intros n Hn. rewrite !Z.ldiff_spec, Z.lor_spec. by destruct (Z.testbit v n), (Z.testbit 0x40 n). Qed.

(** A remote read of [n] bytes from [256 * p + off] is set up. *)
Lemma start_read p off n s :
  (card_of s).(page) = 0 -> is_u8 p -> is_u8 off -> is_u16 n ->
  let s' := out_all [(REMOTE_ADDR_HIGH, p); (REMOTE_ADDR_LOW, off); (REMOTE_CNT_LOW, Z.land n 0xff);
                     (REMOTE_CNT_HIGH, Z.shiftr n 8); (CMD, Z.lor READ START)] s in
  card_of s' = set_mode 0 false true (set_dma (256 * p + off) n (card_of s)) /\ same_memory s s'.
Proof.
  intros Hp Hpg Hoff Hn. apply out_all_card. destruct (card_of s) as [pg wr rd ra rb tp tb ir bn cu mm se]. cbn in Hp. subst pg.
  assert (low_byte (high_byte ra (u8 p)) (u8 off) = 256 * p + off) as E1
    by (rewrite !u8_id by done; unfold low_byte, high_byte; lia).
  cbn -[low_byte high_byte u8 Z.land Z.shiftr]. rewrite E1, both_bytes by exact Hn. reflexivity.
Qed.

(** The header of a frame. *)
Lemma header_bytes m p : ring_page p -> ring_bytes m (256 * p) 4 =
  [load8 m (256 * p); load8 m (256 * p + 1); load8 m (256 * p + 2); load8 m (256 * p + 3)].
Proof.
  intros Hp. unfold ring_bytes. change (seqZ 0 (Z.of_nat 4)) with [0; 1; 2; 3]. cbn [map].
  unfold dma_addr, ring_page, ring_start, ring_stop in *. rewrite !(proj2 (Z.ltb_lt _ _)) by lia. by rewrite Z.add_0_r.
Qed.

Lemma in_bytes_four s b0 b1 b2 b3 s' : in_bytes 4 s = ([b0; b1; b2; b3], s') ->
  exists s1 s2 s3, in_ NE_DATA s = (b0, s1) /\ in_ NE_DATA s1 = (b1, s2) /\ in_ NE_DATA s2 = (b2, s3) /\ in_ NE_DATA s3 = (b3, s').
Proof.
  cbn [in_bytes]. destruct (in_ NE_DATA s) as [x0 s1]. destruct (in_ NE_DATA s1) as [x1 s2] eqn:E1.
  destruct (in_ NE_DATA s2) as [x2 s3] eqn:E2. destruct (in_ NE_DATA s3) as [x3 s4] eqn:E3.
  intros [= <- <- <- <- <-]. by exists s1, s2, s3.
Qed.

(** The header of the frame at [next], and the card behind it. *)
Lemma read_header s p : (card_of s).(page) = 0 -> ring_page p ->
  let m := (card_of s).(ram) in
  let s' := out_all [(REMOTE_ADDR_HIGH, p); (REMOTE_ADDR_LOW, 0x00); (REMOTE_CNT_LOW, 0x04);
                     (REMOTE_CNT_HIGH, 0x00); (CMD, Z.lor READ START)] s in
  exists s1 s2 s3 s4, in_ NE_DATA s' = (load8 m (256 * p), s1) /\ in_ NE_DATA s1 = (load8 m (256 * p + 1), s2) /\
    in_ NE_DATA s2 = (load8 m (256 * p + 2), s3) /\ in_ NE_DATA s3 = (load8 m (256 * p + 3), s4) /\
    drained (card_of s) (card_of (out INTR_STAT 0x40 s4)) /\ same_memory s (out INTR_STAT 0x40 s4).
Proof.
  intros Hp Hpg m s'. destruct (start_read p 0 4 s Hp) as [C M]; [unfold ring_page, ring_start, ring_stop in Hpg; unfold is_u8; lia|done|done|].
  change (out_all [_; _; (REMOTE_CNT_LOW, Z.land 4 255); _; _] s) with s' in C, M.
  assert (in_ring (256 * p + 0)) as Hr by (unfold in_ring, ring_page, ring_start, ring_stop in *; lia).
  destruct (in_bytes_card 3 s') as (s4 & a & E & C4 & M4); rewrite ?C in *; [done..|].
  cbn [ram rsar set_mode set_dma] in E. rewrite Z.add_0_r in E. fold m in E. rewrite header_bytes in E by done.
  apply in_bytes_four in E as (s1 & s2 & s3 & E1 & E2 & E3 & E4). exists s1, s2, s3, s4.
  destruct (out_card INTR_STAT 0x40 s4 (set_isr (Z.ldiff (Z.lor (card_of s).(isr) 0x40) 0x40) (set_dma a 0 (card_of s')))) as [C5 M5].
  { rewrite C4, C. reflexivity. }
  do 4 (split; [done|]). split; [|intros b; by rewrite M5, M4, M].
  rewrite C5, C. constructor; [done..|]. right. apply ldiff_lor_bit.
Qed.

(** Its bytes, into a buffer. *)
Lemma read_frame s p f buf : (card_of s).(page) = 0 -> ring_page p -> 0 < buf -> 1 <= zlen f <= 1532 ->
  f = ring_bytes (card_of s).(ram) (256 * p + 4) (length f) -> Forall is_u8 f ->
  let s' := out_all [(REMOTE_ADDR_HIGH, p); (REMOTE_ADDR_LOW, 0x04); (REMOTE_CNT_LOW, Z.land (zlen f) 0xff);
                     (REMOTE_CNT_HIGH, Z.shiftr (zlen f) 8); (CMD, Z.lor READ START)] s in
  exists s1, store_frame buf (zlen f) s' = Some s1 /\ drained (card_of s) (card_of (out INTR_STAT 0x40 s1)) /\
    only_buffer buf s (out INTR_STAT 0x40 s1) /\ buffered (out INTR_STAT 0x40 s1) buf f.
Proof.
  intros Hp Hpg Hbuf Hlen Hf Hu s'. destruct (start_read p 4 (zlen f) s Hp) as [C M];
    [unfold ring_page, ring_start, ring_stop in Hpg; unfold is_u8; lia|done|unfold is_u16; lia|]. fold s' in C, M.
  destruct (store_frame_spec s' buf f) as (s1 & a & E & Hb & Ho & C1); rewrite ?C in *; try done.
  { unfold in_ring, ring_page, ring_start, ring_stop in *. cbn [rsar set_mode set_dma]. lia. }
  destruct (out_card INTR_STAT 0x40 s1 (set_isr (Z.ldiff (Z.lor (card_of s).(isr) 0x40) 0x40) (set_dma a 0 (card_of s')))) as [C2 M2].
  { rewrite C1, C. reflexivity. }
  exists s1. split; [done|]. split; [|split].
  - rewrite C2, C. constructor; [done..|]. right. apply ldiff_lor_bit.
  - intros b Hbb. by rewrite M2, Ho, M.
  - destruct Hb as (H1 & H2 & H3). split; [done|]. split; [done|]. by rewrite (bytes_from_same s1 _ _ _ M2).
Qed.

Lemma receive_one_spec n s f p' q :
  (card_of s).(page) = 0 -> ring_page n.(next) -> ring_page p' -> 1 <= zlen f <= 1532 ->
  frame_at (card_of s).(ram) n.(next) p' f -> queued s n.(net_buf) q -> (length q < 9)%nat ->
  exists n' s', receive_one n s = Some (n', s') /\ n'.(next) = p' /\ queued s' n'.(net_buf) (q ++ [f]) /\
    drained (card_of s) (card_of s').
Proof.
  intros Hp Hn Hp' Hlen [Hst Hnext [Hlo Hhi] [Hf Hu]] Hq Hroom. unfold receive_one.
  destruct (read_header s n.(next) Hp Hn) as (s1 & s2 & s3 & s4 & -> & -> & -> & -> & D & M).
  set (s5 := out INTR_STAT 0x40 s4) in *. rewrite Hst, Hnext, Hlo, Hhi.
  replace (u16 (u16 ((zlen f + 4) mod 256 + Z.shiftl ((zlen f + 4) / 256) 8) - 4)) with (zlen f).
  2: { rewrite Z.shiftl_mul_pow2 by lia. change (2 ^ 8) with 256. rewrite (u16_id (_ + _)) by (unfold is_u16; lia). rewrite u16_id by (unfold is_u16; lia). lia. }
  unfold ring_page, ring_start, ring_stop in Hn.
  rewrite (proj2 (Z.leb_le PAGE_START_DATA _)), (proj2 (Z.leb_le _ PAGE_STOP_DATA)), (proj2 (Z.leb_le (zlen f) _)) by
    (unfold PAGE_START_DATA, PAGE_STOP_DATA; lia).
  cbn [andb Z.eqb Pos.eqb].
  destruct (queued_add s n.(net_buf) q Hq Hroom) as (buf & r' & -> & Hbuf & Hadd). sbind.
  destruct (read_frame s5 n.(next) f buf) as (s6 & -> & D' & Ho & Hb); [apply D|done|done|done|by rewrite (dr_ram _ _ D)|done|].
  sbind. eexists _, _. split; [reflexivity|]. split; [|split].
  - cbn [next set_next]. destruct (Z.eqb_spec p' PAGE_START_DATA) as [->|]; [done|].
    apply u8_id. unfold ring_page, ring_start, ring_stop in Hp'. unfold is_u8. lia.
  - apply Hadd; [|done]. intros b Hbb. by rewrite Ho, M.
  - by eapply drained_trans.
Qed.

(** ** All frames *)

Lemma waiting_page m cur p fs : waiting m cur p fs -> ring_page p.
Proof. by inversion 1. Qed.

Lemma out_boundary v s : (card_of s).(page) = 0 ->
  drained (card_of s) (card_of (out BOUNDARY v s)) /\ same_memory s (out BOUNDARY v s).
Proof.
  intros Hp. destruct (out_card BOUNDARY v s (set_bnry (u8 v) (card_of s))) as [C M].
  { unfold card_out. rewrite Hp. reflexivity. }
  split; [|done]. rewrite C. by constructor; try done; left.
Qed.

Lemma current_page_drained s :
  exists s', current_page s = ((card_of s).(curr), s') /\ drained (card_of s) (card_of s') /\ same_memory s s'.
Proof.
  destruct (current_page_card s) as (s' & E & C & M). exists s'. split; [done|]. split; [|done]. rewrite C.
  by constructor; try done; left.
Qed.

Lemma queued_same s s' r q : same_memory s s' -> queued s r q -> queued s' r q.
Proof.
  intros M (Hap & addrs & Hh & Hq). split; [done|]. exists addrs. split; [done|]. eapply Forall2_impl; [exact Hq|].
  intros a f (H1 & H2 & H3). split; [done|]. split; [done|]. by rewrite (bytes_from_same s s').
Qed.

Lemma receive_loop_spec fs : forall fuel n s q,
  (card_of s).(page) = 0 -> waiting (card_of s).(ram) (card_of s).(curr) n.(next) fs -> queued s n.(net_buf) q ->
  (length q + length fs <= 9)%nat -> (length fs < fuel)%nat ->
  exists n' s', receive_loop fuel (card_of s).(curr) n s = Some (n', s') /\ n'.(next) = (card_of s).(curr) /\
    queued s' n'.(net_buf) (q ++ fs) /\ drained (card_of s) (card_of s').
Proof.
  induction fs as [|f fs IH]; intros fuel n s q Hp Hw Hq Hroom Hfuel; (destruct fuel as [|fuel]; [lia|]); cbn [receive_loop].
  - inversion Hw as [Hc E|]; subst. rewrite Z.eqb_refl. exists n, s. rewrite app_nil_r.
    split; [done|]. split; [done|]. split; [done|]. by constructor; try done; left.
  - inversion Hw as [|p p' f' fs' Hpg Hne Hlen Hf Hw']; subst. rewrite (proj2 (Z.eqb_neq _ _)) by done. cbn [length] in *.
    destruct (receive_one_spec n s f p' q) as (n1 & s1 & -> & En & Hq1 & D1); [done|done|by eapply waiting_page|done|done|done|lia|].
    sbind. set (v := if n1.(next) =? PAGE_START_DATA then _ else _).
    destruct (out_boundary v s1) as [D2 M2]; [apply D1|]. set (s2 := out BOUNDARY v s1) in *.
    destruct (current_page_drained s2) as (s3 & -> & D3 & M3).
    pose proof (drained_trans _ _ _ D1 (drained_trans _ _ _ D2 D3)) as D.
    rewrite (dr_curr _ _ D2), (dr_curr _ _ D1), <- (dr_curr _ _ D).
    destruct (IH fuel n1 s3 (q ++ [f])) as (n' & s' & E & En' & Hq' & D').
    + apply D.
    + by rewrite (dr_ram _ _ D), (dr_curr _ _ D), En.
    + apply (queued_same s2); [done|]. by apply (queued_same s1).
    + rewrite length_app. cbn. lia.
    + lia.
    + exists n', s'. split; [done|]. split; [done|]. split; [by rewrite <- app_assoc in Hq'|]. by eapply drained_trans.
Qed.

(** ** The interrupt *)

Variable u : context.

(** The network process is always there to be sent to, and the message leaves the
    card and the memory as they are. *)
Definition notifies : Prop := forall s, exists s',
  Syscalls.send_msg KernelMain.NET PKT_ARRIVED u s = Some s' /\ card_of s' = card_of s /\ same_memory s s'.

Lemma out_isr v s : (card_of s).(page) = 0 -> is_u8 v ->
  card_of (out INTR_STAT v s) = set_isr (Z.ldiff (card_of s).(isr) v) (card_of s) /\ same_memory s (out INTR_STAT v s).
Proof. intros Hp Hv. apply out_card. unfold card_out. rewrite Hp, u8_id by done. reflexivity. Qed.

Lemma read_isr s : (card_of s).(page) = 0 ->
  exists s', in_ INTR_STAT s = ((card_of s).(isr), s') /\ card_of s' = card_of s /\ same_memory s s'.
Proof. intros Hp. apply in_card. unfold card_in. by rewrite Hp. Qed.

(** An interrupt that reports a received frame, and nothing else. *)
Lemma handler_spec fuel n s q fs :
  notifies -> (card_of s).(page) = 0 -> (card_of s).(isr) = 1 ->
  waiting (card_of s).(ram) (card_of s).(curr) n.(next) fs -> queued s n.(net_buf) q ->
  (length q + length fs <= 9)%nat -> (length fs < fuel)%nat ->
  exists n' s', ne2k_handler u (S fuel) n s = Some (n', s') /\ n'.(next) = (card_of s).(curr) /\
    queued s' n'.(net_buf) (q ++ fs) /\ (card_of s').(isr) = 0 /\ told s' = told s ++ [(KernelMain.NET, PKT_ARRIVED)].
Proof.
  intros Hmsg Hp Hi Hw Hq Hroom Hfuel. unfold ne2k_handler. change (Z.lor NODMA START) with 0x22.
  destruct (out_isr 0x22 s Hp) as [C1 M1]; [done|]. rewrite Hi in C1. set (s1 := out INTR_STAT 0x22 s) in *.
  cbn [handler_loop]. destruct (read_isr s1) as (s2 & T2 & C2 & M2); [by rewrite C1|]. rewrite T2.
  rewrite C1. cbn [isr set_isr]. change (Z.ldiff 1 0x22) with 1 in *. cbn [Z.eqb].
  destruct (out_isr 1 s2) as [C3 M3]; [by rewrite C2, C1|done|]. rewrite C2, C1 in C3. cbn [isr set_isr] in C3.
  change (Z.ldiff 1 1) with 0 in C3. set (s3 := out INTR_STAT 1 s2) in *.
  change (truth (Z.land 1 PKT_RECV)) with true. change (truth (Z.land 1 PKT_TRANS)) with false.
  change (truth (Z.land 1 DMA_FIN)) with false. cbv iota. unfold receive_packet.
  destruct (current_page_drained s3) as (s4 & T4 & D4 & M4). rewrite T4.
  assert ((card_of s3).(ram) = (card_of s).(ram) /\ (card_of s3).(curr) = (card_of s).(curr) /\ (card_of s3).(isr) = 0) as (Er & Ec & Ei)
    by (by rewrite C3).
  rewrite <- (dr_curr _ _ D4).
  destruct (receive_loop_spec fs (S fuel) n s4 q) as (n5 & s5 & T5 & En & Hq5 & D5); [apply D4| | |done|lia|].
  { by rewrite (dr_ram _ _ D4), (dr_curr _ _ D4), Er, Ec. }
  { eapply queued_same; [|exact Hq]. intros b. by rewrite M4, M3, M2, M1. }
  rewrite T5. sbind. destruct (Hmsg s5) as (s6 & T6 & C6 & M6). rewrite T6. sbind. change (Z.lor NODMA START) with 0x22.
  assert ((card_of s6).(isr) = 0) as Ei6.
  { rewrite C6. destruct (dr_isr _ _ D5) as [->| ->], (dr_isr _ _ D4) as [->| ->]; by rewrite Ei. }
  destruct (out_isr 0x22 s6) as [C7 M7]; [rewrite C6; apply D5|done|]. rewrite Ei6 in C7. set (s7 := out INTR_STAT 0x22 s6) in *.
  destruct fuel as [|fuel]; [lia|]. cbn [handler_loop].
  destruct (read_isr s7) as (s8 & T8 & C8 & M8); [rewrite C7, C6; apply D5|]. rewrite T8, C7. cbn [isr set_isr].
  change (Z.ldiff 0 0x22 =? 0) with true. cbv iota. exists n5, s8. split; [done|].
  split; [by rewrite En, (dr_curr _ _ D4), Ec|]. split; [|split; [by rewrite C8, C7|]].
  - eapply queued_same; [|exact Hq5]. intros b. by rewrite M8, M7, M6.
  - rewrite (told_in _ _ _ _ T8). unfold s7, out. rewrite told_outb, (told_send _ _ _ _ _ T6). f_equal.
    rewrite (told_receive_loop _ _ _ _ _ _ T5), (told_current_page _ _ _ T4). unfold s3, out.
    rewrite told_outb, (told_in _ _ _ _ T2). apply told_outb.
Qed.

(** ** The network process *)

(** The network process sees the ring and the buffers of the driver. *)
Definition shares (s : St) (r : IndirectRingBuffer.t) (n : Net.net) : Prop :=
  n.(Net.net_buf) = r /\ forall a, a ∈ r.(IndirectRingBuffer.buf) -> n.(Net.packets) !! a = Some (bytes_from s a 1600).

Variable fresh : Z -> list Z.

(** A message makes the network process take the first frame, and leave the rest. *)
Lemma net_turn s r n f rest :
  shares s r n -> queued s r (f :: rest) ->
  match Net.handle_packet fresh n.(Net.need_output) n.(Net.stack) (padded f) (zlen f) with
  | None => Net.net_interrupt fresh n = None
  | Some t => exists n', Net.net_interrupt fresh n = Some n' /\ n'.(Net.stack) = t /\
      shares s n'.(Net.net_buf) n' /\ queued s n'.(Net.net_buf) rest
  end.
Proof.
  intros [Hr Hs] (Hap & addrs & Hh & Hq).
  destruct addrs as [|a addrs]; [by inversion Hq|]. apply Forall2_cons in Hq as [(Hlen & Hu & Hb) Hq].
  pose proof (held_in r (a :: addrs) a Hh ltac:(by left)) as Hin.
  destruct (indirect.used_holds r (a :: addrs) Hh) as (_ & E & Hh'). set (r' := IndirectRingBuffer.mk _ _ _) in *.
  unfold Net.net_interrupt. rewrite Hr, E. sbind. rewrite (Hs a Hin), Hb. sbind.
  change (get16 (u8 (zlen f) :: u8 (zlen f / 256) :: padded f) 0) with (Some (u8 (zlen f) + 256 * u8 (zlen f / 256))). sbind.
  replace (u8 (zlen f) + 256 * u8 (zlen f / 256)) with (zlen f)
    by (pose proof (zlen_nonneg f); rewrite (u8_id (_ / _)) by (unfold is_u8; lia); unfold u8; lia).
  change (drop 2 (u8 (zlen f) :: u8 (zlen f / 256) :: padded f)) with (padded f).
  destruct (Net.handle_packet fresh _ _ _ _) as [t|]; [|done]. sbind.
  eexists. split; [reflexivity|]. split; [done|]. split; [by split|]. split; [done|]. by exists addrs.
Qed.

End reception.

#[export] Instance lan_messages : Messages lan.
Proof.
  unshelve eapply (Build_Messages lan _ _ snd); [|..].
  - intros dest type con s s' [= <-]. done.
  - intros p v s. cbn. by destruct (card_out _ _ _).
  - intros p s. cbn. by destruct (card_in _ _) as [[? ?]|].
  - done.
Defined.

(** ** Two frames, the first of which goes over the end of the ring *)

(** A frame at page [p], behind its header. *)
Definition place_frame (p p' : Z) (f : list Z) (m : gmap Z Z) : gmap Z Z :=
  foldl (fun m '(i, b) => store8 m (dma_addr (256 * p) i) b) m
    (zip (seqZ 0 (4 + zlen f)) (1 :: p' :: (zlen f + 4) mod 256 :: (zlen f + 4) / 256 :: f)).

Definition long_frame : list Z := map (fun i => i mod 256) (seqZ 0 300).
Definition short_frame : list Z := replicate 60 7.
Definition busy_lan : lan :=
  (mk_card 0 false false 0 0 0 0 1 0x5e 0x48 (place_frame 0x47 0x48 short_frame (place_frame 0x5f 0x47 long_frame ∅)) [], ∅, []).
Definition ten_buffers : list Z := map (fun i => 0x10000 + 0x1000 * i) (seqZ 0 10).
Definition busy_nic : nic := mk_nic (IndirectRingBuffer.mk ten_buffers 0 0) (replicate 6 0) 0x5f.

Lemma ten_buffers_apart : apart ten_buffers.
Proof.
  assert (forall i a, ten_buffers !! i = Some a -> a = 0x10000 + 0x1000 * Z.of_nat i) as Ha.
  { intros i a Hi. unfold ten_buffers in Hi. change (map ?g ?l) with (g <$> l) in Hi. rewrite list_lookup_fmap in Hi.
    destruct (seqZ 0 10 !! i) as [z|] eqn:E; [|done]. apply lookup_seqZ in E as [-> _]. injection Hi as <-. done. }
  split.
  - intros a Hin. apply list_elem_of_lookup in Hin as [i Hi]. apply Ha in Hi. lia.
  - intros i j a b Hi Hj Hne. apply Ha in Hi, Hj. lia.
Qed.

Lemma busy_queue : queued busy_lan busy_nic.(net_buf) [].
Proof.
  split; [exact ten_buffers_apart|]. exists []. split; [|by apply Forall2_nil].
  constructor; [done|done|done|done|]. intros k Hk. change (zlen []) with 0 in Hk. lia.
Qed.

