(* ===== verification/DnsName.v ===== *)
(** * Names in a query (net/dns.cc)

    [format_url] turns a name with dots into the form of the domain name system:
    each label behind its length, and a zero.  A reader of that form gets the
    labels back. *)
From S2P Require Import Prelude CString Packets.

(** A label: some characters without dots. *)
Definition label (l : list Z) : Prop := l <> [] /\ Forall (fun c => c <> 0 /\ c <> 46) l.

Fixpoint dotted (ls : list (list Z)) : list Z :=
  match ls with
  | [] => []
  | [l] => l
  | l :: ls' => l ++ 46 :: dotted ls'
  end.

Definition encoded (ls : list (list Z)) : list Z := concat (map (fun l => zlen l :: l) ls).
Definition wire_name (ls : list (list Z)) : list Z := encoded ls ++ [0].

(** What a resolver reads: labels until one of length zero; and the rest. *)
Fixpoint read_name (fuel : nat) (w : list Z) : option (list (list Z) * list Z) :=
  match fuel, w with
  | S fuel', n :: w' =>
      if n =? 0 then Some ([], w')
      else if zlen w' <? n then None
      else '(ls, r) ← read_name fuel' (drop (Z.to_nat n) w'); Some (take (Z.to_nat n) w' :: ls, r)
  | _, _ => None
  end.

Lemma encoded_app ls ls' : encoded (ls ++ ls') = encoded ls ++ encoded ls'.
Proof. unfold encoded. by rewrite map_app, concat_app. Qed.

Lemma read_name_cons fuel l w : l <> [] ->
  read_name (S fuel) (zlen l :: l ++ w) = ('(ls, r) ← read_name fuel w; Some (l :: ls, r)).
Proof.
  intros Hne. cbn [read_name]. rewrite (proj2 (Z.eqb_neq _ _)).
  2: { destruct l; [done|]. rewrite zlen_cons. pose proof (zlen_nonneg l). lia. }
  rewrite (proj2 (Z.ltb_ge _ _)) by (rewrite zlen_app; pose proof (zlen_nonneg w); lia).
  unfold zlen. by rewrite Nat2Z.id, drop_app_length, take_app_length.
Qed.

Lemma read_wire_name ls rest : Forall label ls -> read_name (S (length ls)) (wire_name ls ++ rest) = Some (ls, rest).
Proof.
  intros Hls. induction ls as [|l ls IH]; [done|]. apply Forall_cons in Hls as [[Hne _] Hls].
  replace (wire_name (l :: ls) ++ rest) with (zlen l :: l ++ (wire_name ls ++ rest))
    by (unfold wire_name, encoded; cbn; by rewrite <- !app_assoc).
  rewrite read_name_cons by done. cbn [length]. by rewrite IH.
Qed.

(** ** The loop *)

(** Characters of a label are copied one place further. *)
Lemma loop_chars cs : forall pre post i pos cnt off url',
  Forall (fun c => c <> 0 /\ c <> 46) cs -> (length cs <= length post)%nat -> zlen pre = off + (i + 1) ->
  0 <= cnt -> cnt + zlen cs < 256 ->
  format_url_loop (pre ++ post) (cs ++ url') off i pos cnt =
  format_url_loop (pre ++ cs ++ drop (length cs) post) url' off (i + zlen cs) pos (cnt + zlen cs).
Proof.
  induction cs as [|c cs IH]; intros pre post i pos cnt off url' Hcs Hpost Hpre Hcnt Hb.
  { change (zlen []) with 0. by rewrite !Z.add_0_r. }
  apply Forall_cons in Hcs as [[H0 H46] Hcs]. destruct post as [|x post]; [cbn in Hpost; lia|].
  rewrite zlen_cons in *. pose proof (zlen_nonneg cs). cbn [app format_url_loop].
  rewrite truth_true by done. cbn [negb]. rewrite (proj2 (Z.eqb_neq 46 c)) by congruence. cbn [negb].
  rewrite <- Hpre, zset_mid. sbind. rewrite u8_id by (unfold is_u8; lia).
  replace (pre ++ c :: post) with ((pre ++ [c]) ++ post) by (by rewrite <- app_assoc).
  rewrite IH; [|done|cbn in Hpost; lia|rewrite zlen_app; change (zlen [c]) with 1; lia|lia|lia].
  rewrite <- app_assoc. cbn [app length drop]. f_equal; lia.
Qed.

(** A label and the dot behind it; [x] is the place for its length. *)
Lemma loop_label l : forall pre x post i off url',
  Forall (fun c => c <> 0 /\ c <> 46) l -> (length l <= length post)%nat -> zlen pre = off + i -> 0 <= i ->
  i + zlen l + 1 < 256 ->
  format_url_loop (pre ++ x :: post) (l ++ 46 :: url') off i i 0 =
  format_url_loop ((pre ++ zlen l :: l) ++ drop (length l) post) url' off (i + zlen l + 1) (i + zlen l + 1) 0.
Proof.
  intros pre x post i off url' Hl Hpost Hpre Hi Hb. pose proof (zlen_nonneg l).
  replace (pre ++ x :: post) with ((pre ++ [x]) ++ post) by (by rewrite <- app_assoc).
  rewrite loop_chars by (first [done|rewrite zlen_app; change (zlen [x]) with 1; lia|lia]).
  cbn [format_url_loop]. change (truth 46) with true. change (46 =? 46) with true. cbn [negb].
  rewrite <- app_assoc. cbn [app]. unfold put8. rewrite <- Hpre, zset_mid. sbind.
  rewrite !u8_id by (unfold is_u8; lia). rewrite <- app_assoc. cbn [app]. f_equal; lia.
Qed.

(** ** The whole name *)

Lemma dotted_cons l ls : ls <> [] -> dotted (l :: ls) = l ++ 46 :: dotted ls.
Proof. by destruct ls. Qed.

Lemma dotted_length ls : ls <> [] -> zlen (encoded ls) = zlen (dotted ls) + 1.
Proof.
  induction ls as [|l ls IH]; [done|]. intros _. change (encoded (l :: ls)) with ((zlen l :: l) ++ encoded ls).
  rewrite zlen_app, zlen_cons. destruct (decide (ls = [])) as [->|Hne].
  - cbn [encoded map concat dotted]. change (zlen []) with 0. lia.
  - rewrite dotted_cons, zlen_app, zlen_cons, IH by done. lia.
Qed.

(** The loop up to the last label. *)
Lemma loop_name tail ls : forall l pre x post i off rest,
  Forall label ls -> label l -> zlen pre = off + i -> 0 <= i ->
  zlen post = zlen (dotted (ls ++ [l])) + 1 -> i + zlen post < 256 ->
  exists pre' x' z,
    format_url_loop (pre ++ x :: post ++ tail) (cstr (dotted (ls ++ [l])) rest) off i i 0 =
      Some (pre' ++ x' :: l ++ z :: tail, i + zlen (dotted (ls ++ [l])), zlen pre' - off, zlen l) /\
    pre' = pre ++ encoded ls.
Proof.
  induction ls as [|a ls IH]; intros l pre x post i off rest Hls Hl Hpre Hi Hpost Hb.
  - cbn [app dotted encoded map concat] in *. exists pre, x. destruct Hl as [_ Hl].
    destruct (drop (length l) post) as [|z post'] eqn:Ed; apply (f_equal length) in Ed as El; rewrite length_drop in El;
      cbn in El; unfold zlen in Hpost; [lia|]. destruct post'; [|cbn in El; lia]. exists z.
    unfold cstr. replace (pre ++ x :: post ++ tail) with ((pre ++ [x]) ++ post ++ tail) by (by rewrite <- app_assoc).
    pose proof (zlen_nonneg l).
    rewrite loop_chars by (first [done|rewrite zlen_app; change (zlen [x]) with 1; lia|rewrite length_app; unfold zlen in *; lia|unfold zlen in *; lia]).
    rewrite drop_app_le, Ed by (unfold zlen in *; lia).
    cbn [format_url_loop]. change (truth 0) with false. cbn [negb]. rewrite app_nil_r, <- app_assoc. split; [|done].
    repeat first [reflexivity|lia|f_equal].
  - apply Forall_cons in Hls as [[Ha0 Ha] Hls]. cbn [app] in *. rewrite dotted_cons in * by (by destruct ls).
    rewrite zlen_app, zlen_cons in Hpost. pose proof (zlen_nonneg a). pose proof (zlen_nonneg (dotted (ls ++ [l]))).
    unfold cstr. rewrite <- app_assoc. cbn [app].
    rewrite loop_label by (first [done|rewrite length_app; unfold zlen in *; lia|unfold zlen in *; lia]).
    rewrite drop_app_le by (unfold zlen in *; lia).
    destruct (drop (length a) post) as [|x' post1] eqn:Ed; apply (f_equal length) in Ed as El; rewrite length_drop in El;
      cbn in El; [unfold zlen in *; lia|].
    assert (zlen post1 = zlen (dotted (ls ++ [l])) + 1) as Hp1 by (unfold zlen in *; lia).
    destruct (IH l (pre ++ zlen a :: a) x' post1 (i + zlen a + 1) off rest) as (p' & x2 & z & E & ->); [done..| |lia|done|lia|].
    { rewrite zlen_app, zlen_cons. lia. }
    exists (pre ++ encoded (a :: ls)), x2, z. split; [|done]. unfold cstr in E. rewrite <- app_comm_cons, E.
    change (encoded (a :: ls)) with ((zlen a :: a) ++ encoded ls).
    rewrite (assoc_L (++) pre (zlen a :: a)), (zlen_app a), (zlen_cons 46). repeat first [reflexivity|lia|f_equal].
Qed.

(** A name ends as its last label does. *)
Lemma dotted_last ls l c : exists d, dotted (ls ++ [l ++ [c]]) = d ++ [c].
Proof.
  induction ls as [|a ls [d E]]; [by exists l|]. cbn [app]. rewrite dotted_cons, E by (by destruct ls).
  exists (a ++ 46 :: d). by rewrite <- app_assoc.
Qed.

Lemma format_url_wire ls l w pre post rest :
  Forall label ls -> label l -> zlen (dotted (ls ++ [l])) <= 254 -> zlen w = zlen (dotted (ls ++ [l])) + 2 ->
  format_url (pre ++ w ++ post) (cstr (dotted (ls ++ [l])) rest) (zlen pre) = Some (pre ++ wire_name (ls ++ [l]) ++ post).
Proof.
  intros Hls Hl Hshort Hw. pose proof (zlen_nonneg (dotted (ls ++ [l]))). destruct w as [|x w]; [change (zlen []) with 0 in Hw; lia|].
  rewrite zlen_cons in Hw. cbn [app]. unfold format_url.
  destruct (loop_name post ls l pre x w 0 (zlen pre) rest) as (pre' & x' & z & -> & ->); [done|done|lia|lia|lia|lia|].
  sbind. rewrite Z.add_0_l. set (pre' := pre ++ encoded ls). pose proof (dotted_length (ls ++ [l])) as Hd.
  rewrite encoded_app, zlen_app in Hd. specialize (Hd ltac:(by destruct ls)).
  destruct (exists_last (proj1 Hl)) as (l0 & c & E). subst l. destruct (dotted_last ls l0 c) as [d Ed].
  rewrite Ed in *. unfold cstr. rewrite zlen_app in *. change (zlen [c]) with 1 in *.
  rewrite <- (app_assoc d [c]). cbn [app]. pose proof (zlen_nonneg d). rewrite zget_app_r by lia. replace (zlen d + 1 - 1 - zlen d) with 0 by lia.
  change ((c :: 0 :: rest).[0]) with (Some c). sbind.
  cbn [encoded map concat] in Hd. rewrite app_nil_r, zlen_cons, zlen_app in Hd. change (zlen [c]) with 1 in Hd.
  assert (zlen pre + (zlen d + 1) = zlen (pre' ++ x' :: l0)) as Ei by (unfold pre'; rewrite !zlen_app, zlen_cons; lia).
  rewrite Ei. replace (pre' ++ x' :: (l0 ++ [c]) ++ z :: post) with ((pre' ++ x' :: l0) ++ c :: z :: post)
    by (rewrite <- !app_assoc; reflexivity).
  rewrite zset_mid. sbind. rewrite <- app_assoc. cbn [app].
  replace (zlen pre + (zlen pre' - zlen pre)) with (zlen pre') by lia.
  pose proof (zlen_nonneg l0). pose proof (zlen_nonneg (encoded ls)).
  unfold put8. rewrite zset_mid. sbind. rewrite zlen_app. change (zlen [c]) with 1. rewrite (u8_id (_ + 1)) by (unfold is_u8; lia).
  replace (zlen pre + (zlen d + 1 + 1)) with (zlen (pre' ++ zlen l0 + 1 :: l0 ++ [c]))
    by (rewrite zlen_app, zlen_cons, zlen_app; change (zlen [c]) with 1; rewrite zlen_app, zlen_cons in Ei; lia).
  replace (pre' ++ zlen l0 + 1 :: l0 ++ c :: z :: post) with ((pre' ++ zlen l0 + 1 :: l0 ++ [c]) ++ z :: post)
    by (rewrite <- !app_assoc; cbn; rewrite <- !app_assoc; reflexivity).
  rewrite zset_mid. unfold wire_name. rewrite encoded_app. cbn [encoded map concat]. rewrite zlen_app.
  unfold pre'. change (zlen [c]) with 1. change (u8 0) with 0. rewrite <- !app_assoc. cbn. by rewrite <- !app_assoc.
Qed.

(** C35. A name with dots that is at most 254 characters long is put into the
    query as its labels, each behind its length, and a zero, in two bytes more
    than the name; nothing else changes, and a reader of that form gets the
    labels back. *)
Theorem dns_name_roundtrip names w pre post rest :
  names <> [] -> Forall label names -> zlen (dotted names) <= 254 -> zlen w = zlen (dotted names) + 2 ->
  format_url (pre ++ w ++ post) (cstr (dotted names) rest) (zlen pre) = Some (pre ++ wire_name names ++ post) /\
  length (wire_name names) = length w /\
  read_name (S (length names)) (wire_name names ++ post) = Some (names, post).
Proof.
  intros Hne Hls Hshort Hw. split; [|split; [|by apply read_wire_name]].
  - destruct (exists_last Hne) as (ls & l & ->). apply Forall_app in Hls as [Hls Hl]. apply Forall_cons in Hl as [Hl _].
    by apply format_url_wire.
  - pose proof (dotted_length names Hne). unfold wire_name, zlen in *. rewrite length_app. cbn. lia.
Qed.

Definition www : list Z := [119; 119; 119].
Definition org : list Z := [111; 114; 103].

Lemma dns_name_roundtrip_witness :
  format_url ([1; 2] ++ replicate 9 0 ++ [5]) (cstr [119; 119; 119; 46; 111; 114; 103] []) 2 =
    Some [1; 2; 3; 119; 119; 119; 3; 111; 114; 103; 0; 5] /\
  read_name 3 [3; 119; 119; 119; 3; 111; 114; 103; 0; 5] = Some ([www; org], [5]).
Proof.
  destruct (dns_name_roundtrip [www; org] (replicate 9 0) [1; 2] [5] []) as (E1 & _ & E2);
    [discriminate| |discriminate|reflexivity|].
  - repeat (apply Forall_cons_2; [split; [discriminate|repeat (apply Forall_cons_2; [split; discriminate|]); by apply Forall_nil]|]).
    by apply Forall_nil.
  - split; [exact E1|exact E2].
Defined.

(** A longer name does not: its last length goes where the byte that counts the
    position has wrapped around to. *)
Definition long_labels : list (list Z) := replicate 4 (replicate 63 97) ++ [[98]].

Lemma long_name_lost :
  exists buf, format_url (replicate 300 0) (cstr (dotted long_labels) []) 0 = Some buf /\
    buf.[0] = Some 1 /\ buf.[256] = Some 0 /\ read_name 10 buf <> Some (long_labels, drop 258 buf).
Proof.
  destruct (format_url (replicate 300 0) (cstr (dotted long_labels) []) 0) as [buf|] eqn:E; [|vm_compute in E; discriminate].
  exists buf. split; [done|]. vm_compute in E. injection E as <-. split; [done|]. split; [done|]. vm_compute. discriminate.
Qed.
