(* ===== verification/MkFile.v ===== *)
(** * A new file in the tree (fs/file.cc, dir.cc, inode.cc)

    [sys_mkfile] composes what the other files prove of its parts: the path is
    split, the directory is looked up, an inode is allocated and written, and an
    entry is created.  Together they add one name to the tree of directories and
    change nothing else of it. *)
From S2P Require Import Prelude Bitmap CString FsState Inode Dir DirSpec File FileSpec FsTypes.
From S2P Require FileSystem.
#[local] Ltac Zify.zify_post_hook ::= Z.to_euclidean_division_equations.

(** ** The path of the directory *)

Definition components (names : list (list Z)) : list Z := concat (map (cons 47) names).

Lemma components_snoc names n : components (names ++ [n]) = components names ++ 47 :: n.
Proof. unfold components. rewrite map_app, concat_app. cbn. by rewrite app_nil_r. Qed.

Lemma count_name n p l : Forall (fun c => c <> 0 /\ c <> 47) n -> count_slashes (n ++ p) l = count_slashes p l.
Proof.
  intros Hn. revert l. induction Hn as [|c n [H0 H47] _ IH]; intros l; [done|]. cbn [app count_slashes].
  rewrite (proj2 (Z.eqb_neq 0 c)), (proj2 (Z.eqb_neq 47 c)) by done. apply IH.
Qed.

Lemma count_components names rest l : Forall valid_name names ->
  count_slashes (path_of names rest) l = Some (l + zlen names).
Proof.
  intros Hv. revert l. induction Hv as [|n names (_ & Hn & _) _ IH]; intros l.
  - cbn. f_equal. unfold zlen. cbn. lia.
  - rewrite path_of_cons. cbn [count_slashes Z.eqb Pos.eqb]. rewrite count_name, IH, zlen_cons by done. f_equal. lia.
Qed.

Lemma copy_name n : forall i l p pre post,
  Forall (fun c => c <> 0 /\ c <> 47) n -> i < l - 1 -> (length n <= length post)%nat ->
  copy_parent i l (n ++ p) (pre ++ post) (zlen pre) =
  copy_parent i l p (pre ++ n ++ drop (length n) post) (zlen (pre ++ n)).
Proof.
  induction n as [|c n IH]; intros i l p pre post Hn Hi Hl; [by rewrite app_nil_r|].
  apply Forall_cons in Hn as [[H0 H47] Hn]. destruct post as [|x post]; [cbn in Hl; lia|].
  cbn [app copy_parent]. rewrite (proj2 (Z.ltb_lt i (l - 1))) by done. rewrite zset_mid. sbind.
  rewrite (proj2 (Z.eqb_neq 47 c)) by done. replace (zlen pre + 1) with (zlen (pre ++ [c])) by (rewrite zlen_app; done).
  replace (pre ++ c :: post) with ((pre ++ [c]) ++ post) by (by rewrite <- app_assoc).
  rewrite IH by (done || (cbn in Hl; lia)). cbn [length drop]. by rewrite <- !app_assoc.
Qed.

(** The path up to its last slash is copied. *)
Lemma copy_components names : forall i l q pre post,
  Forall valid_name names -> i + zlen names + 1 = l - 1 -> (length (components names) < length post)%nat ->
  copy_parent i l (components names ++ 47 :: q) (pre ++ post) (zlen pre) =
  Some (pre ++ components names ++ 47 :: drop (S (length (components names))) post,
        zlen (pre ++ components names) + 1, q).
Proof.
  induction names as [|n names IH]; intros i l q pre post Hv Hi Hl.
  - destruct post as [|x post]; [cbn in Hl; lia|]. unfold zlen in Hi. cbn [components map concat app length] in *.
    cbn [copy_parent]. rewrite (proj2 (Z.ltb_lt i (l - 1))) by lia. rewrite zset_mid. sbind. cbn [Z.eqb Pos.eqb].
    rewrite app_nil_r. destruct q; cbn [copy_parent]; rewrite (proj2 (Z.ltb_ge (i + 1) (l - 1))) by lia; done.
  - apply Forall_cons in Hv as [(Hne & Hn & _) Hv]. rewrite zlen_cons in Hi. pose proof (zlen_nonneg names).
    change (components (n :: names)) with (47 :: n ++ components names) in *. cbn [length] in Hl. rewrite length_app in Hl.
    destruct post as [|x post]; [cbn in Hl; lia|]. cbn [length] in Hl.
    cbn [app copy_parent]. rewrite (proj2 (Z.ltb_lt i (l - 1))) by lia. rewrite zset_mid. sbind. cbn [Z.eqb Pos.eqb].
    replace (zlen pre + 1) with (zlen (pre ++ [47])) by (rewrite zlen_app; done).
    replace (pre ++ 47 :: post) with ((pre ++ [47]) ++ post) by (by rewrite <- app_assoc).
    rewrite <- app_assoc, copy_name by (done || lia). rewrite (app_assoc (pre ++ [47])).
    rewrite IH by (done || (rewrite ?length_drop; lia)). cbn [length drop]. rewrite drop_drop, length_app.
    rewrite Nat.add_succ_r, <- !app_assoc. done.
Qed.

(** What [split_path_2parts] leaves in the buffer for the directory. *)
Definition parent_buffer (names : list (list Z)) : list Z :=
  match names with
  | [] => 47 :: replicate 63 0
  | _ => path_of names (replicate (63 - length (components names)) 0)
  end.

Lemma components_last names : names <> [] -> Forall valid_name names ->
  exists p c, components names = p ++ [c] /\ c <> 47.
Proof.
  intros Hne Hv. destruct names as [|n names _] using rev_ind; [done|]. rewrite components_snoc.
  apply Forall_app in Hv as [_ Hv]. apply Forall_cons in Hv as [(Hn & Hc & _) _].
  destruct n as [|c n _] using rev_ind; [done|]. apply Forall_app in Hc as [_ Hc]. apply Forall_cons in Hc as [[_ Hc] _].
  exists (components names ++ 47 :: n), c. by rewrite <- app_assoc.
Qed.

Lemma components_nonzero names : Forall valid_name names -> Forall (fun c => c <> 0) (components names).
Proof.
  induction 1 as [|n names (_ & Hn & _) _ IH]; [constructor|]. cbn. constructor; [done|]. apply Forall_app. split; [|done].
  eapply Forall_impl; [exact Hn|]. by intros c [].
Qed.

Lemma strlen_nonzero l : forall rest, Forall (fun c => c <> 0) l -> zlen l < 4294967296 ->
  strlen (l ++ 0 :: rest) = Some (zlen l).
Proof.
  induction l as [|c l IH]; intros rest Hl Hb; [done|]. apply Forall_cons in Hl as [Hc Hl]. rewrite zlen_cons in *.
  cbn [app strlen]. rewrite truth_true, IH by (done || lia). sbind. f_equal. pose proof (zlen_nonneg l). rewrite u32_id; lia.
Qed.

Lemma split_new_path names n rest :
  Forall valid_name names -> valid_name n -> (length (components names) < 64)%nat ->
  split_path_2parts (path_of (names ++ [n]) rest) (replicate 64 0) = Some (Some (n ++ 0 :: rest), parent_buffer names).
Proof.
  intros Hv Hn Hl. unfold split_path_2parts.
  assert ((path_of (names ++ [n]) rest).[0] = Some 47) as -> by (destruct names; rewrite ?path_of_cons; done). sbind.
  change (negb (47 =? 47)) with false. cbv iota.
  rewrite count_components by (apply Forall_app; by split; [|apply Forall_singleton]). sbind.
  rewrite zlen_app. change (zlen [n]) with 1.
  assert (path_of (names ++ [n]) rest = components names ++ 47 :: (n ++ 0 :: rest)) as ->.
  { unfold path_of. fold (components (names ++ [n])). rewrite components_snoc, <- app_assoc. done. }
  pose proof (copy_components names 0 (1 + (zlen names + 1)) (n ++ 0 :: rest) [] (replicate 64 0) Hv ltac:(lia)) as E.
  rewrite length_replicate in E. specialize (E Hl). cbn [app] in E. change (zlen []) with 0 in E. rewrite E. sbind.
  rewrite drop_replicate. destruct names as [|m names].
  - cbn [components map concat app length]. done.
  - set (ns := m :: names) in *. destruct (components_last ns) as (p & c & Ep & Hc); [done|done|].
    assert (exists c1, (components ns ++ 47 :: replicate (64 - S (length (components ns))) 0).[1] = Some c1 /\ c1 <> 0) as (c1 & -> & Hc1).
    { apply Forall_cons in Hv as [(Hm & Hmc & _) _]. destruct m as [|a m]; [done|]. apply Forall_cons in Hmc as [[Ha _] _]. by exists a. }
    sbind. rewrite (proj2 (Z.eqb_neq 0 c1)) by done. cbn [negb].
    replace (zlen (components ns) + 1 - 1) with (zlen (components ns)) by lia. rewrite zset_mid. sbind.
    pose proof (components_nonzero ns Hv) as Hnz.
    unfold skip_last_slash. rewrite strlen_nonzero by (done || (unfold zlen; lia)). sbind.
    rewrite Ep, zlen_app. change (zlen [c]) with 1. pose proof (zlen_nonneg p).
    replace (u32 (zlen p + 1 - 1)) with (zlen p) by (rewrite u32_id; [lia|]; rewrite Ep, length_app in Hl; unfold zlen; cbn in Hl; lia).
    rewrite <- app_assoc. cbn [app]. rewrite zget_app_r, Z.sub_diag by lia.
    change ((c :: ?l).[0]) with (Some c). sbind. rewrite (proj2 (Z.eqb_neq 47 c)) by done.
    unfold parent_buffer, ns, path_of. fold ns. fold (components ns). rewrite Ep, <- app_assoc. done.
Qed.

(** ** A new inode *)

(** An inode number that is allocated, with its place in the table. *)
Definition used (s : fs) (i : Z) : Prop :=
  0 <= i < 8 * s.(inode_bmap).(bytes_len) /\ bit_at s.(inode_bmap) i = true /\
  s.(sb).(inode_table_lba) + i / 8 < s.(sb).(data_start).

(** A free number that has its place in the table. *)
Definition inode_left (s : fs) : Prop :=
  exists i, 0 <= i < 8 * s.(inode_bmap).(bytes_len) /\ bit_at s.(inode_bmap) i = false /\
    s.(sb).(inode_table_lba) + i / 8 < s.(sb).(data_start).

(** The inode bitmap before the table, the table before the blocks. *)
Record inode_places (s : fs) : Prop := {
  ip_typed : fs_typed s;
  ip_wf : bitmap_wf s.(inode_bmap);
  ip_len : zlen s.(inode_bmap).(base) = 512 * s.(sb).(inode_bitmap_sectors);
  ip_request : 1 <= s.(sb).(inode_bitmap_sectors) <= 256;
  ip_bitmap : 0 <= s.(sb).(inode_bitmap_lba) /\
              s.(sb).(inode_bitmap_lba) + s.(sb).(inode_bitmap_sectors) <= s.(sb).(inode_table_lba);
  ip_table : s.(sb).(inode_table_lba) + 536870912 <= 4294967296;
  ip_data : s.(sb).(data_start) < 4294967296;
}.

Lemma same_places s s' :
  fs_typed s' -> s'.(sb) = s.(sb) -> s'.(inode_bmap) = s.(inode_bmap) -> inode_places s -> inode_places s'.
Proof. intros Ht Es Eb []. constructor; rewrite ?Es, ?Eb; done. Qed.

(** The inode of a new file. *)
Definition new_inode (s : fs) (no : Z) : inode :=
  mk_inode no 0 s.(clock) 0 (u16 s.(uid)) 0 inode_mode.DEFAULT_PRIVILEGE (replicate 9 0).

(** The tables in memory, without the bitmap of the inodes. *)
Record same_tables (s s' : fs) : Prop := {
  st_sb : s'.(sb) = s.(sb);
  st_blocks : s'.(block_bmap) = s.(block_bmap);
  st_files : s'.(file_desc_tbl) = s.(file_desc_tbl);
  st_uid : s'.(uid) = s.(uid);
}.

Lemma same_tables_trans a b c : same_tables a b -> same_tables b c -> same_tables a c.
Proof. intros [] []. constructor; congruence. Qed.

Lemma heap_same_tables s s' : same_but_heap s s' -> same_tables s s'.
Proof. intros ->. done. Qed.

(** What the creation of an inode changes. *)
Record inode_added (s s' : fs) (no : Z) : Prop := {
  ia_places : inode_places s';
  ia_tables : same_tables s s';
  ia_fresh : ~ used s no;
  ia_used : used s' no;
  ia_u32 : is_u32 no;
  ia_new : inode_of s' no = new_inode s no;
  ia_old : forall i, used s i -> used s' i /\ inode_of s' i = inode_of s i;
  ia_blocks : forall a, s.(sb).(data_start) <= a -> sector s'.(disk) a = sector s.(disk) a;
}.

Lemma runs_create_inode s (Q : inode -> fs -> Prop) :
  inode_places s -> inode_left s ->
  (forall no b', let s' := set_inode_bmap b' s in
     inode_places s' -> used s' no -> ~ used s no -> is_u32 no -> inode_ok (new_inode s no) ->
     (forall i, used s i -> used s' i) -> Q (new_inode s no) s') ->
  runs create_inode s Q.
Proof.
  intros Hp (i & Hi & Hbi & Hti) HQ. pose proof Hp as [Ht Hwf Hlen Hreq Hbm Htab Hdata].
  destruct (bitmap_take_first _ Hwf (ex_intro _ i (conj Hi Hbi)))
    as (r & b' & Hs & Hr & Hu & Hbr & Hfirst & Hb' & Hwf' & Hz & Hbl & Hbits).
  pose proof (Hfirst i (proj1 Hi) Hbi) as Hri. pose proof (wf_len _ Hwf) as Hwl.
  assert (create_inode s = Some (new_inode s r, set_inode_bmap b' s)) as E.
  { unfold create_inode, allocate_inode_no, mbind, fsm_bind, gets, lift, modify. rewrite Hs, Hb'.
    rewrite (proj2 (Z.eqb_neq (-1) r)) by lia. cbn [negb]. rewrite Hu. done. }
  destruct (create_inode_keeps s _ _ Ht E) as [Ht' Hok].
  exists (new_inode s r), (set_inode_bmap b' s). split; [exact E|]. apply HQ; [constructor; cbn; try done; by rewrite Hz| | | |exact Hok|].
  - split; [by cbn; rewrite Hbl|]. cbn. rewrite Hbits by lia. rewrite Z.eqb_refl. split; [done|].
    assert (r / 8 <= i / 8) by (apply Z.div_le_mono; lia). lia.
  - intros (_ & Hf & _). congruence.
  - rewrite <- Hu. apply u32_range.
  - intros k (Hk & Hbk & Htk). split; [by cbn; rewrite Hbl|]. cbn. rewrite Hbits by lia. split; [|done].
    destruct (k =? r); done.
Qed.

Lemma runs_sync_inode_bitmap s (Q : unit -> fs -> Prop) :
  inode_places s ->
  (forall d, fs_typed (set_disk d s) ->
     (forall a, s.(sb).(inode_table_lba) <= a -> sector d a = sector s.(disk) a) -> Q tt (set_disk d s)) ->
  runs sync_inode_bitmap s Q.
Proof.
  intros [Ht Hwf Hlen Hreq Hbm Htab Hdata] HQ. pose proof (zlen_nonneg (base (inode_bmap s))).
  destruct (write_sectors_frame (Z.to_nat (inode_bitmap_sectors (sb s))) (disk s) (inode_bitmap_lba (sb s))
              (base (inode_bmap s))) as (d & Hd & _ & Hf); [by apply typed_full|lia..|].
  assert (sync_inode_bitmap s = Some (tt, set_disk d s)) as E.
  { unfold sync_inode_bitmap, mbind, fsm_bind, gets, write_disk. by rewrite can_transfer_true, Hd. }
  destruct (sync_inode_bitmap_keeps s _ _ Ht E) as [Ht' _].
  exists tt, (set_disk d s). split; [done|]. apply HQ; [done|]. intros a Ha. apply Hf. lia.
Qed.

Lemma used_sector s i : inode_places s -> used s i ->
  table_sector s i = s.(sb).(inode_table_lba) + i / 8 /\ is_u32 i.
Proof.
  intros [_ Hwf Hlen Hreq Hbm Htab Hdata] ([H0 H8] & _ & Hi). pose proof (wf_int _ Hwf).
  unfold table_sector. assert (0 <= i / 8) by (apply Z.div_pos; lia). destruct Hbm.
  assert (0 <= inode_table_lba (sb s)) by (pose proof (zlen_nonneg (base (inode_bmap s))); lia).
  rewrite !u32_id by (rewrite ?u32_id; lia). split; [done|]. unwrap. lia.
Qed.

(** The three calls that make the inode of a new file. *)
Lemma runs_add_inode {A} s (k : inode -> fsm A) (Q : A -> fs -> Prop) :
  inode_places s -> inode_left s ->
  (forall no s', inode_added s s' no -> runs (k (new_inode s no)) s' Q) ->
  runs (x ← create_inode; sync_inode x ;; sync_inode_bitmap ;; k x) s Q.
Proof.
  intros Hp Hleft HQ. apply runs_bind, runs_create_inode; [done|done|].
  intros no b' s1 Hp1 Hu Hn Hno Hok Hold.
  destruct (sync_inode_table (new_inode s no) s1 (ip_typed _ Hp1) Hok (ip_table _ Hp1))
    as (s2 & E2 & Hown & Hoth & Hsec & Hsb & Hbb & Hbm).
  destruct (sync_inode_keeps _ s1 _ _ (ip_typed _ Hp1) E2) as [Ht2 _].
  change (inode_no (new_inode s no)) with no in *.
  destruct (sync_inode_keeps_tables _ _ _ E2) as [Ef Eu].
  assert (inode_places s2) as Hp2.
  { by apply (same_places s1). }
  apply runs_bind. exists tt, s2. split; [exact E2|].
  apply runs_bind, runs_sync_inode_bitmap; [done|]. intros d Ht3 Hd. apply HQ.
  assert (forall i, used s1 i -> sector d (table_sector s1 i) = sector s2.(disk) (table_sector s1 i)) as Htab.
  { intros i Hi. apply Hd. destruct (used_sector s1 i Hp1 Hi) as [-> _]. rewrite Hsb. destruct Hi as ([? _] & _).
    assert (0 <= i / 8) by (apply Z.div_pos; lia). lia. }
  assert (forall i, used s1 i -> inode_of (set_disk d s2) i = inode_of s2 i) as Hino.
  { intros i Hi. unfold inode_of. change (table_sector (set_disk d s2) i) with (table_sector s2 i).
    unfold table_sector. rewrite Hsb. fold (table_sector s1 i). cbn [disk set_disk]. by rewrite Htab. }
  assert (forall i, used s1 i -> used (set_disk d s2) i) as Hus by (unfold used; cbn; by rewrite Hsb, Hbm).
  constructor; [|by constructor|exact Hn|by apply Hus|exact Hno|by rewrite Hino| |].
  - by apply (same_places s2).
  - intros i Hi. split; [by apply Hus, Hold|]. rewrite Hino by (by apply Hold).
    destruct (used_sector s i Hp Hi) as [_ Hi32]. rewrite Hoth; [done|done|]. intros ->. done.
  - intros a Ha. cbn [disk set_disk]. rewrite Hd, Hsec; [done| |].
    + destruct (used_sector s1 no Hp1 Hu) as [-> _]. destruct Hu as (_ & _ & Hlt). cbn in *. lia.
    + rewrite Hsb. destruct Hu as ([? _] & _ & Hlt). assert (0 <= no / 8) by (apply Z.div_pos; lia). cbn in *. lia.
Qed.

(** ** The tree of directories *)

(** The map from names to inode numbers of the directory [i]. *)
Definition lookup_in (s : fs) (i : Z) (name : list Z) : option Z :=
  lookup_name (entries s (inode_of s i).(i_sectors)) name.

(** [D] are inodes of directories, the root among them: they are allocated, every
    name in them leads to an allocated inode, and their sectors are blocks that no
    other of them has. *)
Record tree_ok (D : Z -> Prop) (s : fs) : Prop := {
  tk_places : inode_places s;
  tk_root : s.(sb).(root_inode_no) = 0;
  tk_in : D 0;
  tk_used : forall i, D i -> used s i;
  tk_names : forall i, D i -> names_end (entries s (inode_of s i).(i_sectors));
  tk_closed : forall i name j, D i -> name <> [] -> lookup_in s i name = Some j -> used s j;
  tk_blocks : forall i, D i ->
    Forall (fun lba => lba = 0 \/ s.(sb).(data_start) <= lba) (inode_of s i).(i_sectors);
  tk_apart : forall i j lba, D i -> D j -> i <> j ->
    lba ∈ (inode_of s i).(i_sectors) -> lba ∈ (inode_of s j).(i_sectors) -> lba = 0;
}.

(** The names lead through directories of [D]. *)
Fixpoint through (D : Z -> Prop) (s : fs) (ino : Z) (names : list (list Z)) : Prop :=
  match names with
  | [] => True
  | n :: names' => D ino /\ match lookup_in s ino n with Some i => through D s i names' | None => True end
  end.

Lemma inode_of_ok s i : fs_typed s -> inode_ok (inode_of s i).
Proof. intros H. apply dec_inode_ok, Forall_drop. by apply sector_typed. Qed.

Lemma entries_agree s s' l :
  (forall lba, lba ∈ l -> lba <> 0 -> sector s'.(disk) (u32 lba) = sector s.(disk) (u32 lba)) ->
  entries s' l = entries s l.
Proof.
  intros H. unfold entries. f_equal. apply map_ext_in. intros lba Hl%list_elem_of_In.
  destruct (Z.eqb_spec 0 lba) as [|Hne]; [done|]. by rewrite H.
Qed.

Lemma used_exists s i : inode_places s -> used s i -> i <> NO_INODE.
Proof. intros Hp ([? ?] & _). pose proof (wf_int _ (ip_wf _ Hp)). change NO_INODE with 4294967295. lia. Qed.

Lemma through_dirs_end D s : tree_ok D s -> forall names ino, through D s ino names -> dirs_end s ino names.
Proof.
  intros Ht. induction names as [|n names IH]; intros ino; cbn [through dirs_end]; [done|]. intros [Hi Hrest].
  split; [by apply (tk_names _ _ Ht)|]. unfold lookup_in in Hrest. destruct (lookup_name _ n); [by apply IH|done].
Qed.

Lemma resolve_snoc s ino names n p : resolve s ino names = Some p ->
  resolve s ino (names ++ [n]) =
    match lookup_in s p n with Some i => if NO_INODE =? i then None else Some i | None => None end.
Proof.
  revert ino. induction names as [|m names IH]; intros ino; [by intros [= <-]|].
  cbn [app resolve]. destruct (lookup_name _ m) as [i|]; [|done]. destruct (NO_INODE =? i); [done|]. apply IH.
Qed.

(** Names that stay in the directories keep the paths. *)
Lemma resolve_grows D s s' :
  (forall i name j, D i -> name <> [] -> lookup_in s i name = Some j -> lookup_in s' i name = Some j) ->
  forall names ino i, Forall valid_name names -> through D s ino names ->
    resolve s ino names = Some i -> resolve s' ino names = Some i.
Proof.
  intros Hk. induction names as [|n names IH]; intros ino i Hv Hth; [done|].
  apply Forall_cons in Hv as [(Hn & _ & _) Hv]. cbn [through] in Hth. destruct Hth as [HD Hth].
  cbn [resolve]. fold (lookup_in s ino n) (lookup_in s' ino n).
  destruct (lookup_in s ino n) as [j|] eqn:E; [|done]. rewrite (Hk _ _ _ HD Hn E).
  destruct (NO_INODE =? j); [done|]. by apply IH.
Qed.

Lemma through_grows D s s' n p :
  (forall i name j, D i -> name <> [] -> lookup_in s i name = Some j -> lookup_in s' i name = Some j) ->
  D p -> forall names ino, Forall valid_name names -> through D s ino names ->
    resolve s ino names = Some p -> through D s' ino (names ++ [n]).
Proof.
  intros Hk Hp. induction names as [|m names IH]; intros ino Hv Hth.
  - intros [= ->]. split; [done|]. by destruct (lookup_in s' p n).
  - apply Forall_cons in Hv as [(Hm & _ & _) Hv]. cbn [through app resolve] in *. destruct Hth as [HD Hth].
    fold (lookup_in s ino m). destruct (lookup_in s ino m) as [j|] eqn:E; [|done].
    destruct (NO_INODE =? j); [done|]. intros Hr. split; [done|]. rewrite (Hk _ _ _ HD Hm E). by apply IH.
Qed.

(** ** Both changes keep the tree *)

Lemma tree_inode_added D s s' no : tree_ok D s -> inode_added s s' no ->
  tree_ok D s' /\ forall i, D i -> entries s' (inode_of s' i).(i_sectors) = entries s (inode_of s i).(i_sectors).
Proof.
  intros [Hp Hr H0 Hu Hn Hc Hb Ha] [Hp' [Hsb _ _ _] Hfr Hus Hno Hnew Hold Hbl].
  assert (forall i, D i -> inode_of s' i = inode_of s i) as Hi by (intros i Hi; apply Hold; auto).
  assert (forall i, D i -> entries s' (inode_of s' i).(i_sectors) = entries s (inode_of s i).(i_sectors)) as He.
  { intros i Hd. rewrite (Hi i Hd). apply entries_agree. intros lba Hl Hne.
    destruct (proj1 (Forall_forall _ _) (Hb i Hd) lba Hl) as [|Hge]; [done|].
    rewrite u32_id; [by apply Hbl|].
    exact (proj1 (Forall_forall _ _) (ok_sectors _ (inode_of_ok s i (ip_typed _ Hp))) lba Hl). }
  split; [|exact He]. constructor; try done.
  - by rewrite Hsb.
  - intros i Hd. by apply Hold, Hu.
  - intros i Hd. rewrite He by done. by apply Hn.
  - intros i name j Hd Hne. unfold lookup_in. rewrite He by done. intros E. by eapply Hold, Hc.
  - intros i Hd. rewrite Hi, Hsb by done. by apply Hb.
  - intros i j lba Hdi Hdj. rewrite !Hi by done. by apply Ha.
Qed.

Lemma tree_entry_added D s p e :
  tree_ok D s -> D p -> entry_ok e -> ended e.(d_name) -> name_of e <> [] -> used s e.(d_inode_no) ->
  lookup_in s p (name_of e) = None ->
  Exists (fun e' => name_of e' = []) (entries s (inode_of s p).(i_sectors)) ->
  exists s', create_dir_entry (inode_of s p) e s = Some (tt, s') /\ tree_ok D s' /\ same_tables s s' /\
    (forall i, used s i -> used s' i /\ inode_of s' i = inode_of s i) /\
    forall i name, D i -> name <> [] ->
      lookup_in s' i name = if decide (i = p /\ name = name_of e) then Some e.(d_inode_no) else lookup_in s i name.
Proof.
  intros HT Hp He Hend Hne Hused Hno Hfree. pose proof HT as [Hpl Hr H0 Hu Hn Hc Hb Ha].
  pose proof (ip_typed _ Hpl) as Ht. set (x := inode_of s p). pose proof (inode_of_ok s p Ht : inode_ok x) as Hx.
  destruct (create_dir_entry_free x e s) as (s' & k & buf & E & Hh & Hk & _ & Hput); [done|done|by apply Hn|done..|].
  destruct (create_dir_entry_insert x e s) as (s2 & E2 & Hn2 & Hl2); [done|done|by apply Hn|done..|].
  assert (s2 = s') as -> by congruence. clear E2.
  assert (fs_typed s') as Ht' by (refine (proj1 (create_dir_entry_keeps x e _ _ s _ _ Ht E)); done || apply He).
  pose proof Hk as (Hk1 & Hk0 & _)%slots_in. apply list_elem_of_In in Hk1.
  assert (is_u32 k.1) as Hk32 by exact (proj1 (Forall_forall _ _) (ok_sectors _ Hx) _ Hk1).
  assert (s.(sb).(data_start) <= k.1) as Hkd by (destruct (proj1 (Forall_forall _ _) (Hb p Hp) _ Hk1); [done|done]).
  assert (forall a, a <> k.1 -> sector s'.(disk) a = sector s.(disk) a) as Hsec.
  { intros a Hak. rewrite Hh. cbn [disk with_entry set_disk]. rewrite sector_insert, u32_id by done. case_if; [done|done]. }
  assert (sb s' = sb s /\ inode_bmap s' = inode_bmap s) as [Hsb Hbm] by (by rewrite Hh).
  assert (forall i, used s i -> used s' i /\ inode_of s' i = inode_of s i) as Hino.
  { intros i Hi. split; [by unfold used; rewrite Hsb, Hbm|]. destruct (used_sector s i Hpl Hi) as [Ets _].
    unfold inode_of. assert (table_sector s' i = table_sector s i) as -> by (unfold table_sector; by rewrite Hsb).
    rewrite Hsec; [done|]. rewrite Ets. destruct Hi as (_ & _ & Hi). lia. }
  assert (forall i, D i -> inode_of s' i = inode_of s i) as Hid by (intros i Hi; apply Hino; auto).
  assert (forall i, D i -> i <> p -> entries s' (inode_of s' i).(i_sectors) = entries s (inode_of s i).(i_sectors)) as Hent.
  { intros i Hi Hip. rewrite Hid by done. apply entries_agree. intros lba Hl Hlba. apply Hsec.
    rewrite u32_id by exact (proj1 (Forall_forall _ _) (ok_sectors _ (inode_of_ok s i Ht)) lba Hl).
    intros ->. apply Hlba. by eapply (Ha i p). }
  assert (forall i name, D i -> name <> [] ->
      lookup_in s' i name = if decide (i = p /\ name = name_of e) then Some e.(d_inode_no) else lookup_in s i name) as Hlook.
  { intros i name Hi Hname. destruct (decide (i = p)) as [->|Hip].
    - unfold lookup_in in Hno |- *. rewrite Hid by done. unfold x in Hl2. rewrite Hl2, Hno by done.
      destruct (decide (name = name_of e)), (decide (p = p /\ name = name_of e)); tauto.
    - rewrite decide_False by tauto. unfold lookup_in. by rewrite Hent. }
  exists s'. split; [exact E|]. split; [|split; [by rewrite Hh|by split]]. constructor; try done.
  - by apply (same_places s).
  - by rewrite Hsb.
  - intros i Hi. by apply Hino, Hu.
  - intros i Hi. destruct (decide (i = p)) as [->|Hip]; [rewrite Hid by done; exact Hn2|]. rewrite Hent by done. by apply Hn.
  - intros i name j Hi Hname. rewrite Hlook by done. case_decide; [intros [= <-]; by apply Hino|].
    intros Ej. by eapply Hino, Hc.
  - intros i Hi. rewrite Hid, Hsb by done. by apply Hb.
  - intros i j lba Hi Hj. rewrite !Hid by done. by apply Ha.
Qed.

(** ** sys_mkfile *)

Lemma runs_parent D s names p (Q : Z -> fs -> Prop) :
  tree_ok D s -> Forall valid_name names -> (length (components names) < 64)%nat -> through D s 0 names ->
  resolve s 0 names = Some p -> (forall s', same_but_heap s s' -> Q p s') ->
  runs (dir_is_exists (parent_buffer names)) s Q.
Proof.
  intros HT Hv Hl Hth Hr HQ. destruct names as [|n names].
  - exists 0, s. split; [done|]. injection Hr as <-. by apply HQ.
  - destruct (dir_is_exists_resolve (n :: names) (replicate (63 - length (components (n :: names))) 0) s)
      as (s' & E & Hh); [done|done|rewrite (tk_root _ _ HT); by eapply through_dirs_end|].
    rewrite (tk_root _ _ HT), Hr in E. exists p, s'. split; [exact E|by apply HQ].
Qed.

Lemma make_entry_name n rest ty no : is_str n -> (length n < 64)%nat ->
  make_entry (Some (n ++ 0 :: rest)) ty no = Some (mk_entry (n ++ replicate (64 - length n) 0) no ty).
Proof.
  intros Hn Hl. unfold make_entry. sbind.
  pose proof (strcpy_prefix n rest (replicate 64 0) Hn) as E. rewrite length_replicate in E.
  specialize (E ltac:(lia) []). cbn [app] in E. change (zlen []) with 0 in E. unfold cstr in E. rewrite E. sbind.
  by rewrite drop_replicate.
Qed.

Lemma heap_same_tree D s s' : tree_ok D s -> same_but_heap s s' -> tree_ok D s' /\ fs_typed s'.
Proof.
  intros [Hpl H0 H1 H2 H3 H4 H5 H6] Hh. assert (fs_typed s') as Ht by (rewrite Hh; destruct (ip_typed _ Hpl); constructor; done).
  split; [|done]. rewrite Hh in Ht |- *. constructor; try done. by apply (same_places s).
Qed.

(** A new file in the directory [p] under the name [n]: what the tree is then. *)
Record file_created (D : Z -> Prop) (s s' : fs) (p no : Z) (n : list Z) : Prop := {
  fc_tree : tree_ok D s';
  fc_tables : same_tables s s';
  fc_fresh : ~ used s no;
  fc_used : used s' no;
  fc_inode : inode_of s' no = new_inode s no;
  fc_inodes : forall i, used s i -> used s' i /\ inode_of s' i = inode_of s i;
  fc_names : forall i name, D i -> name <> [] ->
    lookup_in s' i name = if decide (i = p /\ name = n) then Some no else lookup_in s i name;
}.

Lemma runs_new_file D s names n rest p :
  tree_ok D s -> inode_left s -> Forall valid_name names -> valid_name n -> Forall is_u8 n ->
  (length (components names) < 64)%nat -> through D s 0 names -> resolve s 0 names = Some p -> D p ->
  allowed s (inode_of s p) access_mode.WRITE = true -> lookup_in s p n = None ->
  Exists (fun e => name_of e = []) (entries s (inode_of s p).(i_sectors)) ->
  runs (sys_mkfile (path_of (names ++ [n]) rest)) s (fun _ s' => exists no, file_created D s s' p no n).
Proof.
  intros HT Hleft Hv Hn Hn8 Hl Hth Hr Hp Hok Hno Hfree. pose proof Hn as (Hne & Hnc & Hnl).
  unfold sys_mkfile. apply runs_bind. eapply runs_lift; [by apply split_new_path|]. cbv beta iota.
  apply runs_bind, (runs_parent D s names p); [done..|]. intros s1 Hh1.
  rewrite (proj2 (Z.eqb_neq NO_INODE p)).
  2: { intros E. eapply (used_exists s p); [apply HT|by apply (tk_used _ _ HT)|done]. }
  apply runs_bind. exists (inode_of s1 p), (count_free (count_malloc s1)). split; [apply ino2inode_spec|].
  set (s2 := count_free (count_malloc s1)).
  assert (same_but_heap s s2) as Hh by (etrans; [exact Hh1|]; etrans; [apply heap_malloc|apply heap_free]).
  rewrite (heap_inode_of s s1) by done. apply runs_bind, runs_check.
  assert (allowed s2 (inode_of s p) access_mode.WRITE = true) as -> by (rewrite <- Hok; unfold allowed; by rewrite Hh).
  cbn [negb]. destruct (heap_same_tree D s s2 HT Hh) as [HT2 _].
  apply runs_add_inode; [apply HT2|by rewrite Hh|]. intros no s3 Hadd.
  destruct (tree_inode_added D s2 s3 no HT2 Hadd) as [HT3 Hent].
  assert (forall i, D i -> entries s3 (inode_of s3 i).(i_sectors) = entries s (inode_of s i).(i_sectors)) as Hent3.
  { intros i Hi. rewrite Hent, (heap_inode_of s s2), (heap_entries s s2) by done. done. }
  assert (is_str n) as Hstr.
  { apply Forall_forall. intros c Hc. split; [by apply (proj1 (Forall_forall _ _) Hn8)|].
    by apply (proj1 (Forall_forall _ _) Hnc). }
  apply runs_bind. eapply runs_lift; [by apply make_entry_name|]. change (inode_no (new_inode s2 no)) with no.
  set (e := mk_entry _ no FILE). assert (name_of e = n) as En by (by apply str_of_name).
  assert (inode_of s3 p = inode_of s p) as Hip.
  { rewrite (proj2 (ia_old _ _ _ Hadd p (tk_used _ _ HT2 p Hp))). by apply heap_inode_of. }
  rewrite <- Hip.
  destruct (tree_entry_added D s3 p e) as (s4 & E4 & HT4 & Htab4 & Hino & Hlook); try done.
  - constructor; [split|apply Hadd|by split].
    + cbn. rewrite length_app, length_replicate. lia.
    + cbn. apply Forall_app. split; [done|]. by apply Forall_replicate.
  - cbn. apply in_or_app. right. destruct (64 - length n)%nat eqn:E64; [lia|by left].
  - by rewrite En.
  - apply Hadd.
  - rewrite En. unfold lookup_in. by rewrite Hent3.
  - by rewrite Hent3.
  - exists tt, s4. split; [exact E4|]. exists no. destruct Hadd as [_ Htab3 Hf Hu _ Hnew Hold _].
    assert (forall i, used s2 i <-> used s i) as Hu2 by (intros i; by rewrite Hh).
    constructor; [done| |by rewrite <- Hu2|by apply Hino| | |].
    + eapply same_tables_trans; [by apply heap_same_tables|]. by eapply same_tables_trans.
    + rewrite (proj2 (Hino no Hu)), Hnew. by rewrite Hh.
    + intros i Hi%Hu2. destruct (Hold i Hi) as [H1 H2]. destruct (Hino i H1) as [H3 H4].
      split; [done|]. rewrite H4, H2. by apply heap_inode_of.
    + intros i name Hi Hname. rewrite Hlook, En by done. case_decide; [done|]. unfold lookup_in. by rewrite Hent3.
Qed.

Lemma created_grows D s s' p no n : file_created D s s' p no n -> lookup_in s p n = None ->
  forall i name j, D i -> name <> [] -> lookup_in s i name = Some j -> lookup_in s' i name = Some j.
Proof.
  intros Hc Hno k name j Hk Hname Hj. rewrite (fc_names _ _ _ _ _ _ Hc) by done.
  case_decide as Hd; [|done]. destruct Hd as [-> ->]. congruence.
Qed.

Lemma created_resolves D s s' p no n names : file_created D s s' p no n -> lookup_in s p n = None ->
  Forall valid_name names -> n <> [] -> through D s 0 names -> resolve s 0 names = Some p -> D p ->
  resolve s' 0 (names ++ [n]) = Some no.
Proof.
  intros Hc Hno Hv Hn Hth Hr Hp. pose proof (created_grows _ _ _ _ _ _ Hc Hno) as Hg.
  rewrite (resolve_snoc _ _ _ _ p) by (by apply (resolve_grows D s)).
  rewrite (fc_names _ _ _ _ _ _ Hc) by done. rewrite decide_True by done.
  rewrite (proj2 (Z.eqb_neq NO_INODE no)); [done|].
  intros E. eapply (used_exists s' no); [apply (fc_tree _ _ _ _ _ _ Hc)|apply (fc_used _ _ _ _ _ _ Hc)|done].
Qed.

(** C7. Creating a file adds one path to the tree.  When the names lead to a
    directory that may be written, has a free place and does not hold the name,
    and an inode is free, [sys_mkfile] returns; afterwards the new path leads to a
    fresh inode, empty and owned by the user, every inode that was allocated is as
    before, every directory has the names it had (and the one of them the new
    name), every path leads where it led, and the tree is again one in which this
    holds of the next file. *)
Theorem mkfile_adds_path D s names n rest p :
  tree_ok D s -> inode_left s -> Forall valid_name names -> valid_name n -> Forall is_u8 n ->
  (length (components names) < 64)%nat -> through D s 0 names -> resolve s 0 names = Some p -> D p ->
  allowed s (inode_of s p) access_mode.WRITE = true -> lookup_in s p n = None ->
  Exists (fun e => name_of e = []) (entries s (inode_of s p).(i_sectors)) ->
  runs (sys_mkfile (path_of (names ++ [n]) rest)) s (fun _ s' => exists no,
    file_created D s s' p no n /\ resolve s' 0 (names ++ [n]) = Some no /\
    forall names' i, Forall valid_name names' -> through D s 0 names' ->
      resolve s 0 names' = Some i -> resolve s' 0 names' = Some i).
Proof.
  intros HT Hleft Hv Hn Hn8 Hl Hth Hr Hp Hok Hno Hfree.
  eapply runs_weaken; [by eapply (runs_new_file D s names n rest p)|]. cbv beta. intros _ s' (no & Hc).
  exists no. split; [done|].
  split; [by eapply created_resolves; try apply Hn|]. intros names' i Hv' Hth' Hr'.
  eapply (resolve_grows D s); [|done..]. by eapply created_grows.
Qed.

(** ** The example disk *)

Lemma lookup_name_in es name j : lookup_name es name = Some j ->
  exists e, e ∈ es /\ name_of e = name /\ e.(d_inode_no) = j.
Proof.
  induction es as [|e es IH]; [done|]. cbn. case_bool_decide as Hn.
  - intros [= <-]. exists e. split; [by left|done].
  - intros (e' & ? & ?)%IH. exists e'. split; [by right|done].
Qed.

Definition usedb (s : fs) (i : Z) : bool :=
  (0 <=? i) && (i <? 8 * s.(inode_bmap).(bytes_len)) && bit_at s.(inode_bmap) i &&
  (s.(sb).(inode_table_lba) + i / 8 <? s.(sb).(data_start)).

Lemma used_dec s i : usedb s i = true -> used s i.
Proof. unfold usedb, used. rewrite !andb_true_iff. intros [[[? ?] ?] ?]. zbool. done. Qed.

Lemma closed_dec s i name j :
  forallb (fun e => bool_decide (name_of e = []) || usedb s e.(d_inode_no)) (entries s (inode_of s i).(i_sectors)) = true ->
  name <> [] -> lookup_in s i name = Some j -> used s j.
Proof.
  intros H Hne (e & He%list_elem_of_In & Hn & <-)%lookup_name_in. rewrite forallb_forall in H. specialize (H e He).
  apply orb_true_iff in H as [H|H]; [apply bool_decide_eq_true in H; congruence|by apply used_dec].
Qed.

Definition demo_dirs (i : Z) : Prop := i = 0 \/ i = 1.

Lemma demo_tree : tree_ok demo_dirs demo.
Proof.
  assert (i_sectors (inode_of demo 0) = 22 :: replicate 8 0) as E0 by (vm_compute; reflexivity).
  assert (i_sectors (inode_of demo 1) = 23 :: replicate 8 0) as E1 by (vm_compute; reflexivity).
  constructor.
  - constructor; [apply demo_typed| |reflexivity|split; discriminate|split; discriminate|discriminate|reflexivity].
    constructor; [apply bytes_dec; vm_compute; reflexivity|split; discriminate|reflexivity].
  - reflexivity.
  - by left.
  - intros i [-> | ->]; apply used_dec; vm_compute; reflexivity.
  - intros i [-> | ->]; apply names_end_dec; vm_compute; reflexivity.
  - intros i name j [-> | ->]; apply closed_dec; vm_compute; reflexivity.
  - intros i [-> | ->]; [rewrite E0|rewrite E1]; apply Forall_cons_2; [right; discriminate| |right; discriminate|];
      apply Forall_replicate; by left.
  - intros i j lba [-> | ->] [-> | ->]; rewrite ?E0, ?E1; intros Hne Hi Hj; try done;
      apply elem_of_cons in Hi as [->|Hi]; try (by apply elem_of_replicate in Hi as [-> _]);
      apply elem_of_cons in Hj as [Hj|Hj]; try done; by apply elem_of_replicate in Hj as [-> _].
Qed.

Definition log : list Z := [108; 111; 103].

Lemma mkfile_adds_path_witness :
  exists u s' no, sys_mkfile (path_of [etc; log] []) demo = Some (u, s') /\ resolve s' 0 [etc; log] = Some no /\
    resolve s' 0 [etc; rc] = Some 2 /\ i_size (inode_of s' no) = 0.
Proof.
  destruct (mkfile_adds_path demo_dirs demo [etc] log [] 1) as (u & s' & E & no & Hc & Hr & Hk).
  - exact demo_tree.
  - exists 3. split; [split; [discriminate|reflexivity]|]. split; reflexivity.
  - apply Forall_cons_2; [apply valid_name_dec; reflexivity|by apply Forall_nil].
  - apply valid_name_dec. reflexivity.
  - apply bytes_dec. reflexivity.
  - apply Nat.ltb_lt. reflexivity.
  - split; [by left|]. replace (lookup_in demo 0 etc) with (Some 1) by (vm_compute; reflexivity). exact I.
  - vm_compute. reflexivity.
  - by right.
  - vm_compute. reflexivity.
  - vm_compute. reflexivity.
  - apply Exists_exists. exists (entry_at (sector demo.(disk) 23) 3). split; [|vm_compute; reflexivity].
    assert (i_sectors (inode_of demo 1) = 23 :: replicate 8 0) as -> by (vm_compute; reflexivity).
    vm_compute. do 3 right. left.
  - exists u, s', no. split; [exact E|]. split; [exact Hr|]. split.
    + apply Hk.
      * repeat (apply Forall_cons_2; [apply valid_name_dec; reflexivity|]). by apply Forall_nil.
      * split; [by left|]. replace (lookup_in demo 0 etc) with (Some 1) by (vm_compute; reflexivity).
        split; [by right|]. replace (lookup_in demo 1 rc) with (Some 2) by (vm_compute; reflexivity). exact I.
      * vm_compute. reflexivity.
    + rewrite (fc_inode _ _ _ _ _ _ Hc). reflexivity.
Defined.

(** ** Why a place in the table is asked for

    A formatted partition has a bit for more inodes than its table holds: the first
    number too many has its place in the first block. *)
Lemma inodes_run_into_blocks part :
  let x := FileSystem.layout part in
  let no := 8 * x.(inode_table_sectors) in
  0 <= no < 8 * (x.(inode_bitmap_sectors) * 512) /\ u32 (x.(inode_table_lba) + no / 8) = x.(data_start).
Proof.
  unfold FileSystem.layout. destruct (10000 <? FileSystem.sector_cnt part); (split; [split; [discriminate|reflexivity]|reflexivity]).
Qed.
