(* ===== verification/FileLife.v ===== *)
(** * A file is created, opened, written and read back

    The path of a file from its creation to its contents: [sys_mkfile] makes a path
    that [open_file] follows to an empty file of the user, and what is written
    through the descriptor is read back. *)
From S2P Require Import Prelude Bitmap CString FsState Inode Dir DirSpec File FileSpec AccessSpec MkFile.
#[local] Ltac Zify.zify_post_hook ::= Z.to_euclidean_division_equations.

(** The owner of a new file may read and write it. *)
Lemma new_file_allowed s0 s no op : s0.(uid) = s.(uid) -> 0 <= s.(uid) < 65536 ->
  op = access_mode.READ \/ op = access_mode.WRITE -> allowed s0 (new_inode s no) op = true.
Proof.
  intros Eu Hu Hop. unfold allowed. rewrite Eu. cbn [i_uid i_mode new_inode]. unfold u16. rewrite Z.mod_small by lia.
  rewrite Z.eqb_refl. destruct (s.(uid) =? 0); [done|]. by destruct Hop as [-> | ->].
Qed.

Lemma tables_layout s s' : same_tables s s' -> full s'.(disk) -> fs_layout s -> fs_layout s'.
Proof. intros [Es Eb _ _] Hf []. constructor; rewrite ?Es, ?Eb; done. Qed.

Section life.
Context (D : Z -> Prop) (s : fs) (names : list (list Z)) (n rest data : list Z) (p : Z).
Let path := path_of (names ++ [n]) rest.
Context (HT : tree_ok D s) (Hleft : inode_left s) (Hlay : fs_layout s) (Hp : D p).
Context (Hv : Forall valid_name (names ++ [n])) (H8 : Forall (Forall is_u8) (names ++ [n])).
Context (Hlen : zlen (components (names ++ [n])) < 64).
Context (Hth : through D s 0 names) (Hr : resolve s 0 names = Some p).
Context (Hok : allowed s (inode_of s p) access_mode.WRITE = true) (Hno : lookup_in s p n = None).
Context (Hplace : Exists (fun e => name_of e = []) (entries s (inode_of s p).(i_sectors))).
Context (Hblock : exists i, free_bit s i) (Hslot : free_slot s.(file_desc_tbl) 0 <> -1) (Huid : 0 <= s.(uid) < 65536).

(** The descriptor that [open_file] gives belongs to an empty file. *)
Lemma runs_create_open (Q : Z -> fs -> Prop) :
  (forall fd no s', fs_layout s' -> s'.(uid) = s.(uid) -> open_file_ok s' fd (mk_file 0 (new_inode s no)) -> Q fd s') ->
  runs (sys_mkfile path ;; open_file path) s Q.
Proof.
  intros HQ. pose proof Hv as [Hvs [Hn _]%Forall_cons]%Forall_app.
  pose proof H8 as [_ [Hn8 _]%Forall_cons]%Forall_app.
  assert (length (components names) < 64)%nat as Hl by (rewrite components_snoc, zlen_app in Hlen; unfold zlen in Hlen; lia).
  apply runs_bind. eapply runs_weaken; [by eapply (runs_new_file D s names n rest p)|]. cbv beta. intros _ s1 (no & Hc).
  pose proof (fc_tree _ _ _ _ _ _ Hc) as HT1. pose proof (fc_tables _ _ _ _ _ _ Hc) as Htab. pose proof Htab as [Es Eb Ef Eu].
  assert (target (names ++ [n]) s1 = Some no) as Etarget.
  { unfold target. rewrite (tk_root _ _ HT1). by eapply created_resolves; try apply Hn. }
  eapply runs_weaken.
  - apply (open_file_answers (names ++ [n]) rest s1); [by destruct names|done..|].
    rewrite (tk_root _ _ HT1). apply (through_dirs_end D _ HT1).
    apply (through_grows D s s1 n p); [by eapply created_grows|done..].
  - cbv beta. intros fd s2. unfold open_answer. rewrite Etarget, (fc_inode _ _ _ _ _ _ Hc), Ef.
    rewrite new_file_allowed by (done || by left). rewrite (proj2 (Z.eqb_neq (-1) _)) by congruence. cbn [andb negb].
    intros [-> Hs2]. pose proof (tables_layout s s1 Htab (typed_full _ (ip_typed _ (tk_places _ _ HT1))) Hlay) as Hlay1.
    apply (HQ _ no).
    + rewrite Hs2. by destruct Hlay1.
    + by rewrite Hs2.
    + destruct (free_slot_range s.(file_desc_tbl) 0) as [|Hrange]; [lia|done|].
      constructor; rewrite Hs2; cbn.
      * rewrite zget_insert by (rewrite ?Ef; lia). by rewrite Z.eqb_refl.
      * pose proof (fc_used _ _ _ _ _ _ Hc) as Hused. split; [|by apply Hused].
        by apply (used_sector s1 no (tk_places _ _ HT1) Hused).
      * split; [done|]. by apply (Forall_replicate _ 9); left.
      * intros _. rewrite Eb. exact Hblock.
Qed.

Lemma runs_life drest buf : is_str data -> zlen data < 512 -> (length data <= length buf)%nat ->
  runs (sys_mkfile path ;;
        fd ← open_file path;
        write_file fd (cstr data drest) (zlen data) file_io.COVER ;;
        lseek_file fd 0 ;;
        read_file fd buf (zlen data)) s
    (fun r _ => r = (zlen data, data ++ drop (length data) buf)).
Proof.
  intros Hstr Hd Hbuf.
  assert (runs (sys_mkfile path ;; open_file path) s (fun fd s' => runs
      (write_file fd (cstr data drest) (zlen data) file_io.COVER ;; lseek_file fd 0 ;; read_file fd buf (zlen data)) s'
      (fun r _ => r = (zlen data, data ++ drop (length data) buf)))) as (fd & s2 & E & HQ).
  { apply runs_create_open. intros fd no s' Hl Hu Ho. eapply runs_write_read; try done;
      cbn [f_inode]; apply new_file_allowed; auto. }
  destruct HQ as (r & s3 & E2 & ->). exists (zlen data, data ++ drop (length data) buf), s3. split; [|done].
  unfold mbind, fsm_bind in E |- *. destruct (sys_mkfile path s) as [[u s1]|]; [|done]. rewrite E. exact E2.
Qed.
End life.

(** C6. A file that has been created is there to be used: with the conditions of
    [mkfile_adds_path], a free block and a free descriptor, [sys_mkfile],
    [open_file] of the same path, a write that covers the file with fewer than 512
    bytes, none of them 0, a seek to the start and a read of as many bytes all
    return, and the read gives the bytes that were written and leaves the rest of
    the buffer as it was. (Longer writes lose bytes, [write_file_skips_bytes], and
    so do appends, [append_drops_sector].) *)
Theorem created_file_holds_data D s names n rest p data drest buf :
  tree_ok D s -> inode_left s -> fs_layout s -> D p ->
  Forall valid_name (names ++ [n]) -> Forall (Forall is_u8) (names ++ [n]) ->
  zlen (components (names ++ [n])) < 64 -> through D s 0 names -> resolve s 0 names = Some p ->
  allowed s (inode_of s p) access_mode.WRITE = true -> lookup_in s p n = None ->
  Exists (fun e => name_of e = []) (entries s (inode_of s p).(i_sectors)) ->
  (exists i, free_bit s i) -> free_slot s.(file_desc_tbl) 0 <> -1 -> 0 <= s.(uid) < 65536 ->
  is_str data -> zlen data < 512 -> (length data <= length buf)%nat ->
  runs (sys_mkfile (path_of (names ++ [n]) rest) ;;
        fd ← open_file (path_of (names ++ [n]) rest);
        write_file fd (cstr data drest) (zlen data) file_io.COVER ;;
        lseek_file fd 0 ;;
        read_file fd buf (zlen data)) s
    (fun r _ => r = (zlen data, data ++ drop (length data) buf)).
Proof. intros. by eapply runs_life. Qed.

Lemma created_file_holds_data_witness : exists s',
  (sys_mkfile (path_of [etc; log] []) ;;
   fd ← open_file (path_of [etc; log] []);
   write_file fd (cstr [104; 105] []) 2 file_io.COVER ;;
   lseek_file fd 0 ;;
   read_file fd [1; 1; 1] 2) demo = Some ((2, [104; 105; 1]), s').
Proof.
  destruct (created_file_holds_data demo_dirs demo [etc] log [] 1 [104; 105] [] [1; 1; 1]) as (r & s' & E & ->).
  - exact demo_tree.
  - exists 3. split; [split; [discriminate|reflexivity]|]. split; reflexivity.
  - exact demo_layout.
  - by right.
  - repeat (apply Forall_cons_2; [apply valid_name_dec; reflexivity|]). by apply Forall_nil.
  - repeat (apply Forall_cons_2; [apply bytes_dec; reflexivity|]). by apply Forall_nil.
  - reflexivity.
  - split; [by left|]. replace (lookup_in demo 0 etc) with (Some 1) by (vm_compute; reflexivity). exact I.
  - vm_compute. reflexivity.
  - vm_compute. reflexivity.
  - vm_compute. reflexivity.
  - apply Exists_exists. exists (entry_at (sector demo.(disk) 23) 3). split; [|vm_compute; reflexivity].
    assert (i_sectors (inode_of demo 1) = 23 :: replicate 8 0) as -> by (vm_compute; reflexivity).
    vm_compute. do 3 right. left.
  - exists 3. split; [split; [discriminate|reflexivity]|reflexivity].
  - vm_compute. discriminate.
  - split; [discriminate|reflexivity].
  - repeat (apply Forall_cons_2; [split; [split; [discriminate|reflexivity]|discriminate]|]). by apply Forall_nil.
  - reflexivity.
  - apply Nat.leb_le. reflexivity.
  - exists s'. exact E.
Defined.
