(* ===== verification/Fresh.v ===== *)
(** * The first file of a fresh file system (fs/fs.cc, file.cc)

    Formatting and mounting leave a tree of directories with the root alone, in
    which files can be made: the theorems of MkFile.v apply from the start. *)
From Stdlib Require Import String.
From S2P Require Import Prelude Bitmap CString FsState Inode Dir File FileSystem DirSpec FileSpec FsTypes FormatSpec MkFile.
#[local] Open Scope string_scope.
#[global] Open Scope list_scope.
#[global] Open Scope Z_scope.
#[local] Ltac Zify.zify_post_hook ::= Z.to_euclidean_division_equations.

Definition just_root (i : Z) : Prop := i = 0.

Section fresh.
Context (part : partition) (s s' : fs) (Hfit : partition_fits part) (He : empty_fs part s s').

Lemma fresh_bits i : 0 <= i < 4096 -> bit_at s'.(inode_bmap) i = (i =? 0).
Proof.
  intros Hi. rewrite (ef_bits _ _ _ He). unfold bit_at. cbn [base].
  destruct (Z.eqb_spec i 0) as [->|Hne]; [done|].
  destruct (decide (i < 8)) as [Hl|Hl].
  - replace (i / 8) with 0 by lia. change ((1 :: replicate 511 0).[0]) with (Some 1). cbn [from_option].
    assert (i = 1 \/ i = 2 \/ i = 3 \/ i = 4 \/ i = 5 \/ i = 6 \/ i = 7) as C by lia. by repeat destruct C as [->|C]; subst.
  - assert ((1 :: replicate 511 0).[i / 8] = Some 0) as ->.
    { apply zget_Some. split; [lia|]. destruct (Z.to_nat (i / 8)) as [|k] eqn:E; [lia|].
      change (replicate 511 0 !! k = Some 0). apply lookup_replicate. split; [done|lia]. }
    cbn. apply Z.bits_0.
Qed.

Lemma fresh_places : inode_places s' /\ s'.(sb).(inode_table_lba) + 8 <= s'.(sb).(data_start).
Proof.
  pose proof Hfit as [Hc Hl Hend]. destruct (layout_spec part Hfit) as (b & bbs & it & Hit & Hb1 & Hb2 & El).
  split; [|rewrite (ef_sb _ _ _ He), El; cbn; lia].
  constructor; rewrite ?(ef_sb _ _ _ He), ?El; cbn; try lia; [apply He| |by rewrite (ef_bits _ _ _ He)].
  rewrite (ef_bits _ _ _ He). constructor; cbn; [|done|done].
  apply Forall_cons_2; [unfold is_u8; lia|]. apply (Forall_replicate _ 511). unfold is_u8. lia.
Qed.

Lemma fresh_used i : used s' i <-> i = 0.
Proof.
  destruct fresh_places as [_ Hd]. unfold used. rewrite (ef_bits _ _ _ He) at 1. cbn [bytes_len]. split.
  - intros (Hi & Hb & _). rewrite fresh_bits in Hb by lia. by apply Z.eqb_eq in Hb.
  - intros ->. split; [lia|]. split; [by rewrite fresh_bits by lia|]. change (0 / 8) with 0. lia.
Qed.

Lemma fresh_left : inode_left s'.
Proof.
  destruct fresh_places as [_ Hd]. exists 1. rewrite fresh_bits by lia. rewrite (ef_bits _ _ _ He).
  split; [cbn; lia|]. split; [done|]. change (1 / 8) with 0. lia.
Qed.

Lemma fresh_lookup name : name <> [] ->
  lookup_in s' 0 name = if decide (name = text "." \/ name = text "..") then Some 0 else None.
Proof. intros Hn. unfold lookup_in. rewrite (ef_inode _ _ _ He), (ef_root _ _ _ He). by apply root_lookup. Qed.

Lemma fresh_tree : tree_ok just_root s'.
Proof.
  destruct fresh_places as [Hpl Hd]. constructor; try done.
  - rewrite (ef_sb _ _ _ He). destruct (layout_spec part Hfit) as (b & bbs & it & _ & _ & _ & ->). done.
  - intros i ->. by apply fresh_used.
  - intros i ->. rewrite (ef_inode _ _ _ He), (ef_root _ _ _ He). apply names_end_dec. vm_compute. reflexivity.
  - intros i name j -> Hn. rewrite fresh_lookup by done. case_decide; [intros [= <-]; by apply fresh_used|done].
  - intros i ->. rewrite (ef_inode _ _ _ He), (ef_sb _ _ _ He). apply Forall_cons_2; [right; lia|].
    apply (Forall_replicate _ 8). by left.
  - intros i j lba -> ->. done.
Qed.
End fresh.

(** C26. A fresh file system takes files.  Whatever the disk held, formatting a
    partition of 20 to 1048576 sectors (whose bitmap the driver transfers in one
    request), mounting it and making a file in the root directory return, and
    then the root has the names [.], [..] and the new one, which leads to an empty
    inode other than the root, and the tree is in order. *)
Theorem fresh_system_takes_file d name part s n rest :
  partition_fits part -> find_partition (d.(primary) ++ d.(logic)) name None = Some (Some part) -> fs_typed s ->
  s.(uid) = 0 -> valid_name n -> Forall is_u8 n -> n <> text "." -> n <> text ".." ->
  runs (partition_install_fs part ;; mount_partition d name ;; sys_mkfile (path_of [n] rest)) s (fun _ s' =>
    exists no, no <> 0 /\ i_size (inode_of s' no) = 0 /\ tree_ok just_root s' /\
      forall m, m <> [] -> lookup_in s' 0 m =
        if decide (m = n) then Some no else if decide (m = text "." \/ m = text "..") then Some 0 else None).
Proof.
  intros Hfit Hfind Ht Hu Hn H8 Hd1 Hd2.
  destruct (format_mount_spec d name part s Hfit Hfind Ht) as (u & s1 & E & He).
  pose proof (fresh_tree part s s1 Hfit He) as HT. pose proof (fresh_lookup part s s1 He) as Hlook.
  assert (runs (sys_mkfile (path_of ([] ++ [n]) rest)) s1 (fun _ s' => exists no, file_created just_root s1 s' 0 no n)) as Hrun.
  { apply (runs_new_file just_root s1 [] n rest 0); try done.
    - by apply (fresh_left part s).
    - cbn. lia.
    - unfold allowed. by rewrite (ef_uid _ _ _ He), Hu.
    - rewrite Hlook by apply Hn. by rewrite decide_False by tauto.
    - rewrite (ef_inode _ _ _ He), (ef_root _ _ _ He). apply Exists_exists. exists (entry_at root_sector 2).
      split; [vm_compute; do 2 right; left|vm_compute; reflexivity]. }
  destruct Hrun as ([] & s2 & E2 & no & Hc). exists tt, s2. split.
  - unfold mbind, fsm_bind in *. destruct (partition_install_fs part s) as [[[] s0]|]; [|done]. by rewrite E.
  - exists no. split; [|split; [by rewrite (fc_inode _ _ _ _ _ _ Hc)|split; [apply Hc|]]].
    + intros ->. apply (fc_fresh _ _ _ _ _ _ Hc). by apply (fresh_used part s s1).
    + intros m Hm. rewrite (fc_names _ _ _ _ _ _ Hc) by done. rewrite Hlook by done.
      destruct (decide (m = n)), (decide (0 = 0 /\ m = n)); tauto.
Qed.

Lemma fresh_system_takes_file_witness :
  exists u s', (partition_install_fs demo_part ;; mount_partition demo_parts (text "sda0" ++ [0]) ;;
                sys_mkfile (path_of [log] [])) demo = Some (u, s') /\
    lookup_in s' 0 (text "..") = Some 0 /\ lookup_in s' 0 log <> None.
Proof.
  destruct (fresh_system_takes_file demo_parts (text "sda0" ++ [0]) demo_part demo log []) as (u & s' & E & no & _ & _ & _ & Hl).
  - constructor; [split; discriminate|discriminate|discriminate].
  - vm_compute. reflexivity.
  - exact demo_typed.
  - reflexivity.
  - apply valid_name_dec. reflexivity.
  - apply bytes_dec. reflexivity.
  - discriminate.
  - discriminate.
  - exists u, s'. split; [exact E|]. split.
    + rewrite Hl by discriminate. reflexivity.
    + rewrite Hl by discriminate. discriminate.
Defined.
